(* ===== verification/_CoqProject ===== *)
-Q . S2P
Prelude.v
Numeral.v
CMem.v
BootString.v
Sync.v
Timer.v
Setup.v
PhysMem.v
PhysInv.v
PhysAcquire.v
PhysRelease.v
PhysMap.v
PageAlloc.v
Paging.v
PagingSpec.v
PagingRange.v
PagingClone.v
KernelMap.v
Process.v
ProcessSpec.v
ProcessTree.v
ProcessProtocol.v
Machine.v
Ports.v
Console.v
ConsoleSpec.v
Pic.v
Descr.v
Apic.v
ApicSpec.v
Keyboard.v
Bringup.v
BringupSpec.v
Start.v
Bios.v
BootMem.v
Elf.v
BootConsole.v
BootConsoleSpec.v
Mbi.v
MbiSpec.v
Ctl.v
Loader.v
RamMap.v
E820.v
MemMaps.v
LoaderSpec.v
LoadKernel.v
HandOff.v
Layout.v
KernelHeaders.v
BootHeaders.v
HeaderSpec.v
