(* ===== verification/Prelude.v ===== *)
(** * AVOS: a verification development

    AVOS is a hobby operating system for 32-bit multiprocessor x86 machines: a
    boot loader that builds a Multiboot 2 boot information and loads an ELF
    kernel, and a higher-half kernel. The C code under [src/] is modelled here
    by executable definitions, one per C function (loops and loop bodies that
    have lemmas of their own are separate), and the theorems say what these
    functions do. Names are those of the source.

    ** Conventions

    - A C integer is a [Z]; arithmetic of its type reduces modulo [2^w]
      ([wrap8] ... [wrap64]; [⊕], [⊖], [⊗] are the operations of [uint32_t]).
    - Memory is [Mem], a finite map from addresses to bytes that reads 0 where
      nothing was written; multi-byte objects are little endian (CMem.v).
      Structures that the C code reaches through computed pointers live in it;
      static variables that are only used by name are fields of a record per
      component. The offsets of the members are checked against the
      declarations of the headers (HeaderSpec.v).
    - A pointer is an address, except for pointers into the process table,
      which are indices.
    - [None] is a computation that does not come back: a lock that is never
      released, a call through a null pointer, or fuel that ran out. Where a
      theorem says [= Some ...] it therefore says that the call returns.
      The console uses [outcome] instead, because a panic hangs on purpose; the
      Multiboot loader uses the monad of Ctl.v, which has an early return.
    - A loop whose bound is not a syntactic one takes fuel: an internal amount
      that is shown to be enough (256 in [release_scan] and [acquire_find],
      where the counter is a [uint8_t]; 12 levels in [Page_MapMemoryChunk]; 1025
      directory entries in [Initialize_Memory]), or an argument with a
      hypothesis that bounds the length of the list the code walks (the tags
      of the boot information, the entries of the MADT, a format string). The
      [turns] of [Process_Wait] and [SleepLock_Acquire] bound how often the
      process is woken up; theorems about runs hold for runs of any length,
      with as many turns as the run has steps.

    ** Parts, files and sources

    Both programs:

    - CMem.v: [kernel/clib/src/string.c] over the memory model; BootString.v:
      the boot loader's copy of it, with the loops as they are written, and
      that the two agree. Setup.v: [kernel/core/setup/include/setup.h].
      Numeral.v: digits of numbers, for the two consoles. Ports.v: the class
      [PortIO] of the devices behind the I/O ports.
    - Layout.v: declarations of C structures, unions and arrays as values of a
      type, with their sizes, alignments, offsets, and reading and writing of
      whole values. KernelHeaders.v, BootHeaders.v: the structures and tables of
      constants of the headers under [src/kernel] and [src/bootloader].
      HeaderSpec.v: what they have to do with each other and with the models.

    The kernel:

    - Sync.v: [core/synch/src/spinlock.c], [irqlock.c],
      [arch/processor/src/flags.c] and the veto counter of [core/taskmaster/include/state.h]. The
      operations act on one thread and one lock; Module Interleaving runs the
      atomic instructions of many processors in any order.
    - Timer.v: [core/timer/src/timer.c]; the tick interrupt is a sequence of
      three writes that a reader may fall between.
    - PhysMem.v: [core/memory/src/physmem.c], the buddy allocator of physical
      pages, in full. PhysInv.v relates its doubly linked lists and bitmaps to
      an abstract state (a list of free blocks per order); PhysAcquire.v,
      PhysRelease.v and PhysMap.v prove the operations against it.
    - PageAlloc.v: the interface [PageAllocator] that the paging code needs,
      with the laws of acquiring and releasing one page, and the instance that
      PhysMem.v implements it. Paging.v: [arch/paging/src/paging.c] over that
      interface. What it does is proved from the laws alone: PagingSpec.v for
      one page (mapping, unmapping, copying of bytes), PagingRange.v for ranges
      of pages and new address spaces, PagingClone.v for copies of address
      spaces.
    - Process.v: [core/taskmaster/src/process.c], [scheduler.c], [state.c],
      [core/synch/src/sleeplock.c], [arch/tasking/src/context.c]. A context
      switch is a [Yield] with the rest of the computation as continuation,
      so that other processors and processes can change the kernel's state in
      between. ProcessSpec.v: single operations. ProcessTree.v: the table of
      processes as a forest, and forking. ProcessProtocol.v: what holds at every
      switch of a longer operation, for waiting, sleeping, ending. Machine.v:
      the scheduler and all processes of one processor as a step relation.
    - Console.v: [devices/console/src/console.c]; ConsoleSpec.v: an abstract
      terminal and the refinement. Keyboard.v: [devices/keyboard]. Pic.v:
      [arch/apic/src/pic.c] and [devices/pit/src/pit.c].
    - Descr.v: [arch/processor/src/gdt.c], [idt.c],
      [arch/tasking/src/interrupt.c], [core/syscall/src/syscall.c].
    - Apic.v: [arch/acpi], [arch/apic/src/apic.c], [lapic.c], [ioapic.c] over
      the class [MMIO] of memory-mapped registers; ApicSpec.v: the MADT walk.
    - [arch/initialize/src/initialize.c]: KernelMap.v is [Initialize_Memory],
      Bringup.v the processors and the system (with the timer of the local
      APIC and [PIT_Initialize]), BringupSpec.v their theorems, Start.v
      [GetToWork], up to the scheduler.

    The boot loader ([bootloader/multiboot/src]):

    - Bios.v: [diskio.c], [system.c], [video.c] and the BIOS queries of
      [memory.c]; BootMem.v: the rest of [memory.c]; Elf.v: [elf.c];
      BootConsole.v, BootConsoleSpec.v: [console.c].
    - Mbi.v: the parts of [multiboot.c] that build the boot information;
      MbiSpec.v: the record as a list of tags. Ctl.v, Loader.v: the kernel, its
      modules, the requests of its header. LoaderSpec.v: steps of it.
      LoadKernel.v: [Multiboot_LoadKernel] from its call to its return, over
      the tags of the header as a list.
    - RamMap.v, E820.v, MemMaps.v: the memory map from the firmware's answers to
      the lists in the boot information. HandOff.v: from there to the kernel's
      allocator.

    The kernel parts call each other as in the source: Process.v uses the
    locks, the allocator, paging and the console's memory; paging uses the
    allocator through its interface; the keyboard's handler prints on the
    console and acknowledges at the local APIC. The boot loader and the kernel
    meet in the boot information.

    ** What the theorems show

    - Allocator: the lists and bitmaps stay consistent with each other, an
      acquired block was free and is aligned, a release gives back exactly the
      block, mapping a chunk adds exactly its bytes, and after initialisation
      the free bytes are those of the boot information.
    - Hand-off: the pages that the kernel's allocator has at the start are the
      usable memory that the firmware reported, through the boot loader's map,
      the tags and the kernel's walk over them.
    - Paging: after mapping a page its address translates as asked, every
      other page as before; a range is mapped to frames of its own; unmapping
      gives the frame back; a new space is empty below the kernel half, a clone
      has the pages, flags and bytes of its parent and leaves the parent as it
      was; the boot-time directory maps the whole kernel half.
    - Locks and scheduling: mutual exclusion under every interleaving, the
      bracket of interrupt state, the round-robin choice, a tick count that is
      read whole. Processes: the forest is kept by forking, waiting and ending;
      a wait or a sleep keeps the protocol of the process lock at each of its
      switches; and in every reachable state of the machine of one processor
      the locks are free, one process at most is running, and no operation
      waits for a spin lock.
    - Consoles: refinement of an abstract terminal, rendering of numbers and
      formats, reading of a command line.
    - Bring-up: what the registers, descriptor tables and gates of a processor
      are, the messages that start another one, and that a processor that gets
      to work starts to schedule in a state the machine's theorems are about.
    - Boot loader: the boot information stays a well-formed list of tags to
      which tags are appended and in which they are found; the kernel's header
      is found and checked; [Multiboot_LoadKernel] returns, and says no without
      having touched more than its record, or has put the kernel where its
      header wants it, as the bytes it names, as the segments of the ELF image,
      or as the file, with its BSS and what is left of the file cleared; a block found for a module is free,
      aligned and inside the map.
    - Layouts: no structure has padding, memory read as a structure is of its
      type and a structure written is read back; both programs declare what
      they exchange alike; the offsets in the models are those of the headers;
      fields put into a register are read back.
    - Divergences: where the code does something else than it means to, a
      theorem at a concrete input shows it (for example a lost wake-up, the
      lock an exhausted allocator keeps, a merge that corrupts the lists).

    ** What is outside

    Parameters stand for what is not C code of the repository: the BIOS
    interrupt ([BIOS_Interrupt] of Bios.v; [e820_firmware] of E820.v is the
    hypothesis that it answers memory queries as its documentation says), the
    keyboard, the devices behind ports and registers ([PortIO], [MMIO]), the
    addresses the linker chooses, and what a handler does. Not modelled: the
    assembly files (the first stages of the boot loader, the entry points of
    the kernel and of interrupts, the routines that switch contexts, of which
    Machine.v has the effect); [Timer] and [KProc] as layouts, since compilers
    align an 8-byte atomic member differently. The machine has one processor;
    several are considered for the locks and the tick count only. Caches, the
    TLB and the weak ordering of memory accesses are outside of the model;
    every 32-bit address is readable and writable.

    ** Plan

    Next are the unmapping of ranges and the end of an address space, the
    reading of the kernel file and of modules from disk, and a machine of
    several processors. *)

From stdpp Require Export base numbers list option gmap relations.
From Stdlib Require Export ZArith Lia.

#[export] Set Default Goal Selector "!".
#[global] Open Scope Z_scope.

(** ** Machine-width integers

    A C object of type [uintN_t] is a [Z]; arithmetic of that type is
    followed by the reduction modulo [2^N] that C performs. *)

Definition wrap8 (z : Z) : Z := z mod 256.
Definition wrap16 (z : Z) : Z := z mod 65536.
Definition wrap32 (z : Z) : Z := z mod 4294967296.
Definition wrap64 (z : Z) : Z := z mod 18446744073709551616.

(** Two's complement reading of a 32-bit pattern ([int32_t]) and of an
    8-bit one ([signed char], which is what plain [char] is on x86). *)
Definition signed32 (z : Z) : Z :=
  if wrap32 z <? 2147483648 then wrap32 z else wrap32 z - 4294967296.
Definition signed8 (z : Z) : Z :=
  if wrap8 z <? 128 then wrap8 z else wrap8 z - 256.

Arguments wrap8 : simpl never.
Arguments wrap16 : simpl never.
Arguments wrap32 : simpl never.
Arguments wrap64 : simpl never.

Declare Scope avos_scope.
Delimit Scope avos_scope with avos.
(** [uint32_t] sum, difference and product. *)
Notation "a ⊕ b" := (wrap32 (a + b)) (at level 50, left associativity) : avos_scope.
Notation "a ⊖ b" := (wrap32 (a - b)) (at level 50, left associativity) : avos_scope.
Notation "a ⊗ b" := (wrap32 (a * b)) (at level 40, left associativity) : avos_scope.
#[global] Open Scope avos_scope.

(** ** Tactics *)

(** Linear arithmetic with division and modulo by constants, seeing
    through the wrapping functions. *)
Ltac unwrap := unfold wrap8, wrap16, wrap32, wrap64 in *.
Ltac zdiv := unwrap; Z.to_euclidean_division_equations; lia.

(** Turn the boolean tests of the code into propositions. *)
Ltac bool_to_prop :=
  repeat match goal with
  | H : (_ && _) = true |- _ => apply andb_true_iff in H; destruct H
  | H : (_ || _) = false |- _ => apply orb_false_iff in H; destruct H
  | H : negb _ = true |- _ => apply negb_true_iff in H
  | H : negb _ = false |- _ => apply negb_false_iff in H
  | H : (_ =? _) = true |- _ => apply Z.eqb_eq in H
  | H : (_ =? _) = false |- _ => apply Z.eqb_neq in H
  | H : (_ <? _) = true |- _ => apply Z.ltb_lt in H
  | H : (_ <? _) = false |- _ => apply Z.ltb_ge in H
  | H : (_ <=? _) = true |- _ => apply Z.leb_le in H
  | H : (_ <=? _) = false |- _ => apply Z.leb_gt in H
  end.

(** Split the conjunctions one sees, without unfolding definitions. *)
Ltac conjs := repeat match goal with |- _ /\ _ => split end.

(** Case analysis on a comparison of integers in the goal. *)
Ltac case_cmp :=
  match goal with
  | |- context [?a =? ?b] => destruct (Z.eqb_spec a b)
  | |- context [?a <? ?b] => destruct (Z.ltb_spec a b)
  | |- context [?a <=? ?b] => destruct (Z.leb_spec a b)
  end.

(** ** Wrapping: the facts every component uses *)

Create HintDb avos discriminated.
Create Rewrite HintDb avos.

Lemma wrap8_small z : 0 <= z < 256 -> wrap8 z = z.
Proof. intros. by apply Z.mod_small. Qed.
Lemma wrap16_small z : 0 <= z < 65536 -> wrap16 z = z.
Proof. intros. by apply Z.mod_small. Qed.
Lemma wrap32_small z : 0 <= z < 4294967296 -> wrap32 z = z.
Proof. intros. by apply Z.mod_small. Qed.
Lemma wrap64_small z : 0 <= z < 18446744073709551616 -> wrap64 z = z.
Proof. intros. by apply Z.mod_small. Qed.

Lemma wrap8_range z : 0 <= wrap8 z < 256.
Proof. by apply Z.mod_pos_bound. Qed.
Lemma wrap16_range z : 0 <= wrap16 z < 65536.
Proof. by apply Z.mod_pos_bound. Qed.
Lemma wrap32_range z : 0 <= wrap32 z < 4294967296.
Proof. by apply Z.mod_pos_bound. Qed.
Lemma wrap64_range z : 0 <= wrap64 z < 18446744073709551616.
Proof. by apply Z.mod_pos_bound. Qed.

Lemma wrap32_idem z : wrap32 (wrap32 z) = wrap32 z.
Proof. apply Z.mod_mod. lia. Qed.
Lemma wrap8_idem z : wrap8 (wrap8 z) = wrap8 z.
Proof. apply Z.mod_mod. lia. Qed.

#[export] Hint Rewrite wrap32_idem wrap8_idem : avos.
#[export] Hint Resolve wrap8_range wrap16_range wrap32_range wrap64_range : avos.

(** Rewrite [wrapN e] to [e] wherever linear arithmetic sees that [e] is
    in range. *)
Ltac wrap_small :=
  repeat first
    [ rewrite wrap32_small by lia | rewrite wrap8_small by lia
    | rewrite wrap16_small by lia | rewrite wrap64_small by lia ].

(** ** Bits *)

Lemma testbit_small n z i : 0 <= z < 2 ^ n -> 0 <= n <= i -> Z.testbit z i = false.
Proof.
  intros Hz Hi. rewrite <- (Z.mod_small z (2 ^ n)) by done.
  apply Z.mod_pow2_bits_high. lia.
Qed.

(** The C test [(b & (1 << k)) > 0] reads bit [k]. *)
Lemma land_bit_pos b k :
  0 <= k -> (0 <? Z.land b (Z.shiftl 1 k)) = Z.testbit b k.
Proof.
  intros Hk. destruct (Z.testbit b k) eqn:E.
  - apply Z.ltb_lt.
    assert (0 <= Z.land b (Z.shiftl 1 k))
      by (apply Z.land_nonneg; right; by apply Z.shiftl_nonneg).
    destruct (decide (Z.land b (Z.shiftl 1 k) = 0)) as [H0|]; [|lia].
    assert (Z.testbit (Z.land b (Z.shiftl 1 k)) k = false) as Hk0
      by (rewrite H0; apply Z.testbit_0_l).
    rewrite Z.land_spec, Z.shiftl_spec, Z.sub_diag, E in Hk0 by lia. done.
  - apply Z.ltb_ge. replace (Z.land b (Z.shiftl 1 k)) with 0; [lia|].
    symmetry. apply Z.bits_inj_0. intros i.
    destruct (decide (i < 0)); [by apply Z.testbit_neg_r|].
    rewrite Z.land_spec, Z.shiftl_spec by lia.
    destruct (decide (i = k)) as [->|]; [by rewrite E|].
    destruct (decide (i < k)).
    + rewrite (Z.testbit_neg_r _ (i - k)) by lia. apply andb_false_r.
    + rewrite (testbit_small 1 1 (i - k)) by lia. apply andb_false_r.
Qed.

Lemma testbit_1_shiftl k i : 0 <= k -> 0 <= i -> Z.testbit (Z.shiftl 1 k) i = (i =? k).
Proof.
  intros. rewrite Z.shiftl_spec by lia. case_cmp; [subst; by rewrite Z.sub_diag|].
  destruct (decide (i < k)); [by apply Z.testbit_neg_r; lia|].
  apply (testbit_small 1); lia.
Qed.

Lemma testbit_wrap8 z i : 0 <= i < 8 -> Z.testbit (wrap8 z) i = Z.testbit z i.
Proof. intros. change (wrap8 z) with (z mod 2 ^ 8). apply Z.mod_pow2_bits_low. lia. Qed.

(** ** Alignment to powers of two *)

(** [a & ~(2^n - 1)] rounds down to a multiple of [2^n]. *)
Lemma ldiff_ones_down a n : 0 <= n -> Z.land a (Z.lnot (2 ^ n - 1)) = 2 ^ n * (a / 2 ^ n).
Proof.
  intros. replace (2 ^ n - 1) with (Z.ones n) by (rewrite Z.ones_equiv; lia).
  rewrite <- Z.ldiff_land, Z.ldiff_ones_r by done.
  rewrite Z.shiftl_mul_pow2, Z.shiftr_div_pow2 by done. lia.
Qed.

(** A multiple of [2^n] has no bits below [n]. *)
Lemma land_aligned n p v : 0 <= n -> (2 ^ n | p) -> 0 <= v < 2 ^ n -> Z.land p v = 0.
Proof.
  intros Hn [q ->] Hv. apply Z.bits_inj_0. intros i. rewrite Z.land_spec.
  destruct (decide (i < n)).
  - rewrite <- Z.shiftl_mul_pow2 by lia.
    destruct (decide (i < 0)); [by rewrite !Z.testbit_neg_r by lia|].
    rewrite Z.shiftl_spec_low by lia. done.
  - rewrite (testbit_small n v i) by lia. apply andb_false_r.
Qed.

Lemma lor_aligned n p v : 0 <= n -> (2 ^ n | p) -> 0 <= v < 2 ^ n -> Z.lor p v = p + v.
Proof. intros. symmetry. apply Z.add_nocarry_lor. by apply land_aligned with n. Qed.

Lemma pow2_pos n : 0 <= n -> 0 < 2 ^ n.
Proof. intros. by apply Z.pow_pos_nonneg. Qed.

(** ** Lists *)

Lemma lookup_total_insert_eq_Z (l : list Z) (i : nat) x :
  (i < length l)%nat -> <[i := x]> l !!! i = x.
Proof. intros. by rewrite list_lookup_total_insert_eq. Qed.
