(* ===== verification/Numeral.v ===== *)
(** * Numerals

    The reference the two consoles are compared with: the digits of a number
    in a base, by repeated division, and the digits a loop over descending
    powers of the base prints. *)

From S2P Require Import Prelude.

(** The digits of [v] in [base], most significant first. *)
Fixpoint numeral (fuel : nat) (base v : Z) : list Z :=
  match fuel with
  | O => []
  | S f => if v <? base then [v] else numeral f base (v / base) ++ [v mod base]
  end.

(** [k + 1] digits of [v], zeros in front included. *)
Fixpoint fixed (k : nat) (base v : Z) : list Z :=
  match k with
  | O => []
  | S k' => v / base ^ Z.of_nat k' :: fixed k' base (v mod base ^ Z.of_nat k')
  end.

Lemma fixed_snoc k base v :
  1 < base -> 0 <= v < base ^ Z.of_nat (S k) ->
  fixed (S k) base v = fixed k base (v / base) ++ [v mod base].
Proof.
  intros Hb. revert v. induction k as [|k IH]; intros v Hv.
  { cbn [fixed app]. change (Z.of_nat 0) with 0. change (Z.of_nat 1) with 1 in Hv.
    rewrite Z.pow_1_r in Hv. by rewrite Z.pow_0_r, Z.div_1_r, Z.mod_small by lia. }
  assert (0 < base ^ Z.of_nat k) as Hk by (apply Z.pow_pos_nonneg; lia).
  assert (base ^ Z.of_nat (S k) = base * base ^ Z.of_nat k) as Hp
    by (rewrite Nat2Z.inj_succ, Z.pow_succ_r by lia; lia).
  assert (v mod base ^ Z.of_nat (S k)
          = v mod base + base * ((v / base) mod base ^ Z.of_nat k)) as Hmod
    by (rewrite Hp; apply Z.rem_mul_r; lia).
  change (fixed (S (S k)) base v)
    with (v / base ^ Z.of_nat (S k) :: fixed (S k) base (v mod base ^ Z.of_nat (S k))).
  rewrite IH by (rewrite Hp; apply Z.mod_pos_bound; nia).
  cbn [fixed app]. f_equal; [by rewrite Hp, Z.div_div by lia|].
  pose proof (Z.mod_pos_bound v base ltac:(lia)).
  f_equal; [f_equal|f_equal]; rewrite Hmod, Z.mul_comm.
  - rewrite Z.div_add, Z.div_small by lia. lia.
  - by rewrite Z.mod_add, Z.mod_mod by lia.
Qed.

Lemma numeral_fixed k fuel base v :
  1 < base -> (k < fuel)%nat -> 0 <= v < base ^ Z.of_nat (S k) ->
  base ^ Z.of_nat k <= v \/ k = 0%nat ->
  numeral fuel base v = fixed (S k) base v.
Proof.
  intros Hb. revert fuel v. induction k as [|k IH]; intros [|fuel] v Hf Hv Hlow;
    [lia| |lia|]; cbn [numeral].
  - change (Z.of_nat 1) with 1 in Hv. rewrite Z.pow_1_r in Hv.
    case_cmp; [|lia]. cbn [fixed]. by rewrite Z.div_1_r.
  - assert (0 < base ^ Z.of_nat k) as Hk by (apply Z.pow_pos_nonneg; lia).
    rewrite (Nat2Z.inj_succ (S k)), Z.pow_succ_r, (Nat2Z.inj_succ k), Z.pow_succ_r in Hv by lia.
    rewrite Nat2Z.inj_succ, Z.pow_succ_r in Hlow by lia.
    case_cmp; [nia|].
    rewrite IH, <- fixed_snoc; try done.
    + rewrite !Nat2Z.inj_succ, !Z.pow_succ_r by lia. lia.
    + lia.
    + rewrite Nat2Z.inj_succ, Z.pow_succ_r by lia. split; [apply Z.div_pos; lia|].
      apply Z.div_lt_upper_bound; lia.
    + left. apply Z.div_le_lower_bound; [lia|]. lia.
Qed.

Lemma numeral_small n base v : 0 <= v < base -> numeral (S n) base v = [v].
Proof. intros. cbn [numeral]. case_cmp; [done|lia]. Qed.
