(* ===== verification/CMem.v ===== *)
(** * Byte-addressed memory and the freestanding string routines

    The address space is 32 bits wide and every address is readable and
    writable, as for a kernel that maps all of the memory it touches. Multi-byte objects are little endian. The routines of
    [kernel/clib/src/string.c] (the boot loader carries a textually identical
    copy) are translated loop by loop and specified by what the memory reads
    afterwards. *)

From S2P Require Import Prelude.

(** ** Memory *)

Abbreviation Mem := (gmap Z Z).

Definition load8 (m : Mem) (a : Z) : Z := wrap8 (default 0 (m !! wrap32 a)).
Definition store8 (m : Mem) (a v : Z) : Mem := <[wrap32 a := wrap8 v]> m.

(** [n] bytes at [a], least significant first. *)
Fixpoint load (n : nat) (m : Mem) (a : Z) : Z :=
  match n with
  | O => 0
  | S n' => load8 m a + 256 * load n' m (a + 1)
  end.

Fixpoint store (n : nat) (m : Mem) (a v : Z) : Mem :=
  match n with
  | O => m
  | S n' => store n' (store8 m a v) (a + 1) (v / 256)
  end.

Abbreviation load16 := (load 2).
Abbreviation load32 := (load 4).
Abbreviation load64 := (load 8).
Abbreviation store16 := (store 2).
Abbreviation store32 := (store 4).
Abbreviation store64 := (store 8).

(** The bytes of a C string literal or of any buffer given as a list. *)
Fixpoint store_bytes (m : Mem) (a : Z) (bs : list Z) : Mem :=
  match bs with
  | [] => m
  | b :: bs' => store_bytes (store8 m a b) (a + 1) bs'
  end.

(** Two memories that read the same everywhere: a byte that was never
    written reads 0, so this is coarser than equality. *)
Definition mem_eq (m1 m2 : Mem) : Prop := forall a, load8 m1 a = load8 m2 a.
Infix "≃" := mem_eq (at level 70, no associativity) : avos_scope.

(** ** string.c *)

(** [memcpy]: the [while (i < num)] loop, [n] iterations left, at index [i].
    The routines return their first argument; the model returns the memory. *)
Fixpoint memcpy_loop (n : nat) (des src i : Z) (m : Mem) : Mem :=
  match n with
  | O => m
  | S n' => memcpy_loop n' des src (i + 1) (store8 m (des + i) (load8 m (src + i)))
  end.
Definition memcpy (m : Mem) (des src num : Z) : Mem :=
  memcpy_loop (Z.to_nat num) des src 0 m.

(** The descending loop of [memmove]: [for (i = size; i != 0; i--)]. *)
Fixpoint memmove_down (i : nat) (des src : Z) (m : Mem) : Mem :=
  match i with
  | O => m
  | S i' =>
      memmove_down i' des src
        (store8 m (des + Z.of_nat i') (load8 m (src + Z.of_nat i')))
  end.
Definition memmove (m : Mem) (des src size : Z) : Mem :=
  if des <? src then memcpy_loop (Z.to_nat size) des src 0 m
  else memmove_down (Z.to_nat size) des src m.

Fixpoint memset_loop (n : nat) (des c8 i : Z) (m : Mem) : Mem :=
  match n with
  | O => m
  | S n' => memset_loop n' des c8 (i + 1) (store8 m (des + i) c8)
  end.
Definition memset (m : Mem) (des c num : Z) : Mem :=
  memset_loop (Z.to_nat num) des (wrap8 c) 0 m.

Fixpoint memcmp_loop (n : nat) (m : Mem) (s1 s2 i : Z) : Z :=
  match n with
  | O => 0
  | S n' =>
      if load8 m (s1 + i) <? load8 m (s2 + i) then -1
      else if load8 m (s2 + i) <? load8 m (s1 + i) then 1
      else memcmp_loop n' m s1 s2 (i + 1)
  end.
Definition memcmp (m : Mem) (s1 s2 num : Z) : Z := memcmp_loop (Z.to_nat num) m s1 s2 0.

(** [pointer] is a [char*], so [pointer[i]] is a signed value, compared with
    an [unsigned char]; a null result is 0. *)
Fixpoint memchr_loop (n : nat) (m : Mem) (pointer value i : Z) : Z :=
  match n with
  | O => 0
  | S n' =>
      if signed8 (load8 m (pointer + i)) =? wrap8 value then wrap32 (pointer + i)
      else memchr_loop n' m pointer value (i + 1)
  end.
Definition memchr (m : Mem) (ptr value nbytes : Z) : Z :=
  memchr_loop (Z.to_nat nbytes) m ptr value 0.

(** [strlen] runs until it meets a zero byte; [None] is "not within [fuel]
    bytes". *)
Fixpoint strlen (fuel : nat) (m : Mem) (string len : Z) : option Z :=
  match fuel with
  | O => None
  | S f => if load8 m (string + len) =? 0 then Some len else strlen f m string (len + 1)
  end.

(** ** Reading back *)

Lemma load8_range m a : 0 <= load8 m a < 256.
Proof. apply wrap8_range. Qed.

Lemma load_range n m a : 0 <= load n m a < 2 ^ (8 * Z.of_nat n).
Proof.
  revert a. induction n as [|n IH]; intros a; cbn [load]; [lia|].
  specialize (IH (a + 1)). pose proof (load8_range m a).
  replace (8 * Z.of_nat (S n)) with (8 + 8 * Z.of_nat n) by lia.
  rewrite Z.pow_add_r by lia. change (2 ^ 8) with 256. lia.
Qed.

Lemma load32_range m a : 0 <= load32 m a < 4294967296.
Proof. apply (load_range 4). Qed.
Lemma load16_range m a : 0 <= load16 m a < 65536.
Proof. apply (load_range 2). Qed.
#[export] Hint Resolve load8_range load32_range load16_range : avos.

Lemma load8_wrap m a : load8 m (wrap32 a) = load8 m a.
Proof. unfold load8. by rewrite wrap32_idem. Qed.

Lemma load8_store8 m a v b :
  load8 (store8 m a v) b = if wrap32 a =? wrap32 b then wrap8 v else load8 m b.
Proof.
  unfold load8, store8. case_cmp.
  - rewrite e, lookup_insert_eq. cbn. apply wrap8_idem.
  - by rewrite lookup_insert_ne.
Qed.

(** For addresses inside the address space the wrap-around disappears. *)
Lemma load8_store8_in m a v b :
  0 <= a < 4294967296 -> 0 <= b < 4294967296 ->
  load8 (store8 m a v) b = if a =? b then wrap8 v else load8 m b.
Proof. intros. rewrite load8_store8. by wrap_small. Qed.

Lemma load8_store n m a v b :
  0 <= a -> a + Z.of_nat n <= 4294967296 -> 0 <= b < 4294967296 ->
  load8 (store n m a v) b =
    if (a <=? b) && (b <? a + Z.of_nat n) then wrap8 (v / 2 ^ (8 * (b - a)))
    else load8 m b.
Proof.
  revert m a v. induction n as [|n IH]; intros m a v Ha Hn Hb; cbn [store].
  - destruct (Z.leb_spec a b), (Z.ltb_spec b (a + Z.of_nat 0)); done || lia.
  - rewrite IH, load8_store8_in by lia.
    destruct (Z.leb_spec (a + 1) b), (Z.leb_spec a b), (Z.eqb_spec a b),
      (Z.ltb_spec b (a + 1 + Z.of_nat n)), (Z.ltb_spec b (a + Z.of_nat (S n)));
      cbn [andb]; try lia; try done.
    + rewrite Z.div_div, <- (Z.pow_add_r 2 8) by (try apply pow2_pos; lia).
      do 3 f_equal. lia.
    + subst. by rewrite Z.sub_diag, Z.div_1_r.
Qed.

Lemma load8_store_ne n m a v b :
  0 <= a -> a + Z.of_nat n <= 4294967296 -> 0 <= b < 4294967296 ->
  b < a \/ a + Z.of_nat n <= b -> load8 (store n m a v) b = load8 m b.
Proof.
  intros. rewrite load8_store by lia.
  destruct (Z.leb_spec a b), (Z.ltb_spec b (a + Z.of_nat n)); done || lia.
Qed.

Lemma load_ext n m1 m2 a :
  (forall i, 0 <= i < Z.of_nat n -> load8 m1 (a + i) = load8 m2 (a + i)) ->
  load n m1 a = load n m2 a.
Proof.
  revert a. induction n as [|n IH]; intros a Heq; [done|]. cbn [load].
  f_equal; [by rewrite <- (Z.add_0_r a); apply Heq; lia|]. f_equal.
  apply IH. intros i Hi. rewrite <- !Z.add_assoc. apply Heq. lia.
Qed.

Lemma load_store_eq n m a v :
  0 <= a -> a + Z.of_nat n <= 4294967296 ->
  load n (store n m a v) a = v mod 2 ^ (8 * Z.of_nat n).
Proof.
  revert m a v. induction n as [|n IH]; intros m a v Ha Hn; cbn [load store].
  - by rewrite Z.mod_1_r.
  - rewrite IH by lia. rewrite load8_store_ne, load8_store8_in, Z.eqb_refl by lia.
    replace (8 * Z.of_nat (S n)) with (8 + 8 * Z.of_nat n) by lia.
    rewrite Z.pow_add_r by lia. change (2 ^ 8) with 256.
    rewrite Z.rem_mul_r by (pose proof (pow2_pos (8 * Z.of_nat n)); lia).
    reflexivity.
Qed.

Lemma load_store_ne n k m a v b :
  0 <= a -> a + Z.of_nat n <= 4294967296 ->
  0 <= b -> b + Z.of_nat k <= 4294967296 ->
  a + Z.of_nat n <= b \/ b + Z.of_nat k <= a ->
  load k (store n m a v) b = load k m b.
Proof. intros. apply load_ext. intros i Hi. apply load8_store_ne; lia. Qed.

Lemma load32_store32_eq m a v :
  0 <= a <= 4294967292 -> load32 (store32 m a v) a = wrap32 v.
Proof. intros. apply load_store_eq; lia. Qed.

Lemma load32_store32_ne m a v b :
  0 <= a <= 4294967292 -> 0 <= b <= 4294967292 -> a + 4 <= b \/ b + 4 <= a ->
  load32 (store32 m a v) b = load32 m b.
Proof. intros. apply load_store_ne; lia. Qed.

(** Reads through a chain of 32-bit writes. *)
Ltac mem_simpl :=
  repeat first
    [ rewrite load32_store32_eq by lia
    | rewrite load32_store32_ne by lia
    | rewrite load8_store_ne by lia ].

Lemma load8_store_bytes m a bs b :
  0 <= a -> a + Z.of_nat (length bs) <= 4294967296 -> 0 <= b < 4294967296 ->
  load8 (store_bytes m a bs) b =
    if (a <=? b) && (b <? a + Z.of_nat (length bs))
    then wrap8 (bs !!! Z.to_nat (b - a)) else load8 m b.
Proof.
  revert m a. induction bs as [|x bs IH]; intros m a Ha Hn Hb; cbn [store_bytes length] in *.
  - destruct (Z.leb_spec a b), (Z.ltb_spec b (a + Z.of_nat 0)); done || lia.
  - rewrite IH, load8_store8_in by lia.
    destruct (Z.leb_spec (a + 1) b), (Z.leb_spec a b), (Z.eqb_spec a b),
      (Z.ltb_spec b (a + 1 + Z.of_nat (length bs))),
      (Z.ltb_spec b (a + Z.of_nat (S (length bs)))); cbn [andb]; try lia; try done.
    + by replace (Z.to_nat (b - a)) with (S (Z.to_nat (b - (a + 1)))) by lia.
    + subst. by rewrite Z.sub_diag.
Qed.

(** *** Observational equality is an equivalence the operations respect *)

#[export] Instance mem_eq_equiv : Equivalence mem_eq.
Proof.
  split; [by intros m a|by intros m1 m2 H a|].
  intros m1 m2 m3 H1 H2 a. by rewrite (H1 a).
Qed.

#[export] Instance load8_proper : Proper (mem_eq ==> eq ==> eq) load8.
Proof. intros m1 m2 H a ? <-. apply H. Qed.

#[export] Instance store8_proper : Proper (mem_eq ==> eq ==> eq ==> mem_eq) store8.
Proof. intros m1 m2 H a ? <- v ? <- b. rewrite !load8_store8. case_cmp; [done|apply H]. Qed.

#[export] Instance load_proper n : Proper (mem_eq ==> eq ==> eq) (load n).
Proof. intros m1 m2 H a ? <-. apply load_ext. intros i _. apply H. Qed.

#[export] Instance store_proper n : Proper (mem_eq ==> eq ==> eq ==> mem_eq) (store n).
Proof.
  induction n as [|n IH]; intros m1 m2 H a ? <- v ? <-; cbn [store]; [done|].
  apply IH; [by rewrite H|done|done].
Qed.

#[export] Instance memcpy_loop_proper n :
  Proper (eq ==> eq ==> eq ==> mem_eq ==> mem_eq) (memcpy_loop n).
Proof.
  induction n as [|n IH]; intros d ? <- s ? <- i ? <- m1 m2 H; cbn [memcpy_loop]; [done|].
  apply IH; [done..|]. by rewrite H.
Qed.

(** ** The copying loops *)

(** The ascending loop never reads a byte it has already written as long as
    the destination does not start inside the source, above its start. *)
Lemma load8_memcpy_loop n des src i m a :
  0 <= des -> 0 <= src -> 0 <= i ->
  des + i + Z.of_nat n <= 4294967296 -> src + i + Z.of_nat n <= 4294967296 ->
  des <= src \/ src + i + Z.of_nat n <= des + i -> 0 <= a < 4294967296 ->
  load8 (memcpy_loop n des src i m) a =
    if (des + i <=? a) && (a <? des + i + Z.of_nat n) then load8 m (src + (a - des))
    else load8 m a.
Proof.
  intros Hd Hs. revert i m. induction n as [|n IH]; intros i m Hi Hdn Hsn Hov Ha;
    cbn [memcpy_loop].
  - destruct (Z.leb_spec (des + i) a), (Z.ltb_spec a (des + i + Z.of_nat 0)); done || lia.
  - rewrite IH by lia. rewrite (load8_store8_in m _ _ a) by lia.
    destruct (Z.leb_spec (des + (i + 1)) a), (Z.leb_spec (des + i) a),
      (Z.ltb_spec a (des + (i + 1) + Z.of_nat n)), (Z.ltb_spec a (des + i + Z.of_nat (S n))),
      (Z.eqb_spec (des + i) a); cbn [andb]; try lia; try done.
    + rewrite load8_store8_in by lia. case_cmp; [lia|done].
    + subst. rewrite wrap8_small by apply load8_range. f_equal. lia.
Qed.

Lemma load8_memmove_down n des src m a :
  0 <= des -> 0 <= src ->
  des + Z.of_nat n <= 4294967296 -> src + Z.of_nat n <= 4294967296 ->
  src <= des -> 0 <= a < 4294967296 ->
  load8 (memmove_down n des src m) a =
    if (des <=? a) && (a <? des + Z.of_nat n) then load8 m (src + (a - des))
    else load8 m a.
Proof.
  intros Hd Hs. revert m. induction n as [|n IH]; intros m Hdn Hsn Hov Ha;
    cbn [memmove_down].
  - destruct (Z.leb_spec des a), (Z.ltb_spec a (des + Z.of_nat 0)); done || lia.
  - rewrite IH by lia. rewrite (load8_store8_in m _ _ a) by lia.
    destruct (Z.leb_spec des a), (Z.ltb_spec a (des + Z.of_nat n)),
      (Z.ltb_spec a (des + Z.of_nat (S n))), (Z.eqb_spec (des + Z.of_nat n) a);
      cbn [andb]; try lia; try done.
    + rewrite load8_store8_in by lia. case_cmp; [lia|done].
    + subst. rewrite wrap8_small by apply load8_range. f_equal. lia.
Qed.

Lemma load8_memmove m des src size a :
  0 <= des -> 0 <= src -> 0 <= size ->
  des + size <= 4294967296 -> src + size <= 4294967296 -> 0 <= a < 4294967296 ->
  load8 (memmove m des src size) a =
    if (des <=? a) && (a <? des + size) then load8 m (src + (a - des)) else load8 m a.
Proof.
  intros. unfold memmove. destruct (Z.ltb_spec des src).
  - rewrite load8_memcpy_loop, Z.add_0_r, Z2Nat.id by lia. done.
  - rewrite load8_memmove_down, Z2Nat.id by lia. done.
Qed.

Lemma load8_memset_loop n des c8 i m a :
  0 <= des -> 0 <= i -> des + i + Z.of_nat n <= 4294967296 -> 0 <= a < 4294967296 ->
  load8 (memset_loop n des c8 i m) a =
    if (des + i <=? a) && (a <? des + i + Z.of_nat n) then wrap8 c8 else load8 m a.
Proof.
  intros Hd. revert i m. induction n as [|n IH]; intros i m Hi Hdn Ha; cbn [memset_loop].
  - destruct (Z.leb_spec (des + i) a), (Z.ltb_spec a (des + i + Z.of_nat 0)); done || lia.
  - rewrite IH, load8_store8_in by lia.
    destruct (Z.leb_spec (des + (i + 1)) a), (Z.leb_spec (des + i) a),
      (Z.ltb_spec a (des + (i + 1) + Z.of_nat n)), (Z.ltb_spec a (des + i + Z.of_nat (S n))),
      (Z.eqb_spec (des + i) a); cbn [andb]; try lia; done.
Qed.

Lemma load8_memset m des c num a :
  0 <= des -> 0 <= num -> des + num <= 4294967296 -> 0 <= a < 4294967296 ->
  load8 (memset m des c num) a =
    if (des <=? a) && (a <? des + num) then wrap8 c else load8 m a.
Proof.
  intros. unfold memset. rewrite load8_memset_loop, Z.add_0_r, Z2Nat.id by lia.
  by rewrite wrap8_idem.
Qed.

(** A cleared region reads as zero words. *)
Lemma load_memset_0 n m des num a :
  0 <= des -> 0 <= num -> des + num <= 4294967296 ->
  des <= a -> a + Z.of_nat n <= des + num -> load n (memset m des 0 num) a = 0.
Proof.
  revert a. induction n as [|n IH]; intros a Hd Hn Hdn Ha Han; cbn [load]; [done|].
  rewrite IH by lia. rewrite load8_memset by lia.
  destruct (Z.leb_spec des a), (Z.ltb_spec a (des + num)); cbn [andb]; lia || done.
Qed.

Lemma load_memset_ne n m des c num a :
  0 <= des -> 0 <= num -> des + num <= 4294967296 ->
  0 <= a -> a + Z.of_nat n <= 4294967296 -> a + Z.of_nat n <= des \/ des + num <= a ->
  load n (memset m des c num) a = load n m a.
Proof.
  intros. apply load_ext. intros i Hi. rewrite load8_memset by lia.
  destruct (Z.leb_spec des (a + i)), (Z.ltb_spec (a + i) (des + num)); cbn [andb]; lia || done.
Qed.

(** A region as the list of its bytes. *)
Definition load_bytes (m : Mem) (a n : Z) : list Z :=
  map (fun i => load8 m (a + Z.of_nat i)) (seq 0 (Z.to_nat n)).

Lemma load_bytes_ext m1 m2 a b n :
  (forall i, 0 <= i < n -> load8 m1 (a + i) = load8 m2 (b + i)) ->
  load_bytes m1 a n = load_bytes m2 b n.
Proof.
  intros H. apply map_ext_in. intros i Hi%in_seq. apply H. lia.
Qed.

Lemma load_bytes_inv m1 m2 a b n i :
  load_bytes m1 a n = load_bytes m2 b n -> 0 <= i < n ->
  load8 m1 (a + i) = load8 m2 (b + i).
Proof.
  intros H Hi.
  assert (load_bytes m1 a n !! Z.to_nat i = load_bytes m2 b n !! Z.to_nat i) as E by by rewrite H.
  unfold load_bytes in E. change (@map nat Z) with (@fmap list _ nat Z) in E.
  rewrite !list_lookup_fmap, !lookup_seq_lt in E by lia. cbn in E.
  injection E as E. by rewrite Z2Nat.id in E by lia.
Qed.

(** *** The comparing and searching loops *)

Lemma memcmp_loop_cases n m s1 s2 i :
  let r := memcmp_loop n m s1 s2 i in
  (r = 0 /\ forall j, i <= j < i + Z.of_nat n -> load8 m (s1 + j) = load8 m (s2 + j)) \/
  exists k, i <= k < i + Z.of_nat n /\
    (forall j, i <= j < k -> load8 m (s1 + j) = load8 m (s2 + j)) /\
    ((r = -1 /\ load8 m (s1 + k) < load8 m (s2 + k)) \/
     (r = 1 /\ load8 m (s2 + k) < load8 m (s1 + k))).
Proof.
  cbn zeta. revert i. induction n as [|n IH]; intros i; cbn [memcmp_loop].
  - left. split; [done|]. lia.
  - destruct (Z.ltb_spec (load8 m (s1 + i)) (load8 m (s2 + i))).
    { right. exists i. repeat split; [lia..|]. by left. }
    destruct (Z.ltb_spec (load8 m (s2 + i)) (load8 m (s1 + i))).
    { right. exists i. repeat split; [lia..|]. by right. }
    assert (load8 m (s1 + i) = load8 m (s2 + i)) as Hi by lia.
    destruct (IH (i + 1)) as [[Hr Heq]|(k & Hk & Heq & Hr)].
    + left. split; [done|]. intros j Hj.
      destruct (decide (j = i)) as [->|]; [done|]. apply Heq. lia.
    + right. exists k. split; [lia|]. split; [|done]. intros j Hj.
      destruct (decide (j = i)) as [->|]; [done|]. apply Heq. lia.
Qed.

Lemma memchr_loop_none n m p v i :
  128 <= wrap8 v -> memchr_loop n m p v i = 0.
Proof.
  intros Hv. revert i. induction n as [|n IH]; intros i; cbn [memchr_loop]; [done|].
  rewrite IH. case_cmp; [|done].
  unfold signed8 in *. rewrite (wrap8_small (load8 _ _)) in * by apply load8_range.
  pose proof (load8_range m (p + i)). destruct (Z.ltb_spec (load8 m (p + i)) 128); lia.
Qed.

Lemma strlen_first fuel m s len k :
  strlen fuel m s len = Some k <->
  len <= k < len + Z.of_nat fuel /\ load8 m (s + k) = 0 /\
  forall j, len <= j < k -> load8 m (s + j) <> 0.
Proof.
  revert len. induction fuel as [|fuel IH]; intros len; cbn [strlen].
  - split; [done|lia].
  - case_cmp.
    + split; [intros [= <-]; repeat split; lia|]. intros (Hk & Hz & Hnz).
      destruct (decide (len = k)) as [->|]; [done|].
      exfalso. apply (Hnz len); [lia|done].
    + rewrite IH. split.
      * intros (Hk & Hz & Hnz). repeat split; [lia..|done|].
        intros j Hj. destruct (decide (j = len)) as [->|]; [done|]. apply Hnz. lia.
      * intros (Hk & Hz & Hnz). assert (k <> len) by congruence.
        repeat split; [lia..|done|]. intros j Hj. apply Hnz. lia.
Qed.

(** ** Properties of string.c *)

(** [memmove] is correct for every overlap of the two regions: afterwards
    the destination holds the bytes the source held before the call, and no
    byte outside the destination changed. *)
Theorem memmove_spec m des src size
  (Hd : 0 <= des) (Hs : 0 <= src) (Hn : 0 <= size)
  (Hdn : des + size <= 4294967296) (Hsn : src + size <= 4294967296) :
  load_bytes (memmove m des src size) des size = load_bytes m src size /\
  forall a, 0 <= a < 4294967296 -> a < des \/ des + size <= a ->
    load8 (memmove m des src size) a = load8 m a.
Proof.
  split.
  - apply load_bytes_ext. intros i Hi. rewrite load8_memmove by lia.
    destruct (Z.leb_spec des (des + i)), (Z.ltb_spec (des + i) (des + size)); try lia.
    cbn [andb]. f_equal. lia.
  - intros a Ha Hout. rewrite load8_memmove by lia.
    destruct (Z.leb_spec des a), (Z.ltb_spec a (des + size)); done || lia.
Qed.

Lemma memmove_spec_witness :
  let m := store_bytes ∅ 100 [1; 2; 3; 4; 5] in
  load_bytes (memmove m 102 100 4) 102 4 = [1; 2; 3; 4].
Proof.
  cbn zeta. transitivity (load_bytes (store_bytes ∅ 100 [1; 2; 3; 4; 5]) 100 4).
  - apply memmove_spec; lia.
  - vm_compute. reflexivity.
Defined.

(** When the regions do not overlap, [memcpy] and [memmove] leave the same
    memory; and [memcpy] also agrees with [memmove] on a downward overlap. *)
Theorem memcpy_memmove m des src num
  (Hd : 0 <= des) (Hs : 0 <= src) (Hn : 0 <= num)
  (Hdn : des + num <= 4294967296) (Hsn : src + num <= 4294967296)
  (Hov : des <= src \/ src + num <= des) :
  memcpy m des src num ≃ memmove m des src num.
Proof.
  intros a. rewrite <- (load8_wrap (memcpy _ _ _ _)), <- (load8_wrap (memmove _ _ _ _)).
  unfold memcpy. pose proof (wrap32_range a).
  rewrite load8_memcpy_loop, load8_memmove, Z.add_0_r, Z2Nat.id by lia. done.
Qed.

Lemma memcpy_memmove_witness :
  let m := store_bytes ∅ 100 [1; 2; 3; 4; 5] in
  memcpy m 90 100 5 ≃ memmove m 90 100 5.
Proof. apply memcpy_memmove; lia. Defined.

(** [memcmp] compares lexicographically as unsigned bytes: the result is 0
    exactly when the regions are equal; otherwise it is -1 or 1 according to
    the first byte that differs. *)
Theorem memcmp_spec m s1 s2 num (Hn : 0 <= num) :
  (memcmp m s1 s2 num = 0 <-> load_bytes m s1 num = load_bytes m s2 num) /\
  (memcmp m s1 s2 num <> 0 ->
   exists k, 0 <= k < num /\ load_bytes m s1 k = load_bytes m s2 k /\
     load8 m (s1 + k) <> load8 m (s2 + k) /\
     memcmp m s1 s2 num = Z.sgn (load8 m (s1 + k) - load8 m (s2 + k))).
Proof.
  unfold memcmp. destruct (memcmp_loop_cases (Z.to_nat num) m s1 s2 0)
    as [[-> Heq]|(k & Hk & Heq & Hr)].
  - split; [|done]. split; [|done]. intros _. apply load_bytes_ext. intros i Hi. apply Heq. lia.
  - split.
    + split; [destruct Hr as [[-> _]|[-> _]]; done|].
      intros Hb. pose proof (load_bytes_inv m m s1 s2 num k Hb ltac:(lia)). lia.
    + intros _. exists k. split; [lia|]. split; [|lia].
      apply load_bytes_ext. intros i Hi. apply Heq. lia.
Qed.

Lemma memcmp_spec_witness :
  let m := store_bytes ∅ 100 [1; 2; 255; 1; 2; 3] in
  memcmp m 100 103 3 = 1 /\ memcmp m 100 103 2 = 0.
Proof.
  cbn zeta. split; [vm_compute; reflexivity|].
  apply (memcmp_spec (store_bytes ∅ 100 [1; 2; 255; 1; 2; 3]) 100 103 2 ltac:(lia)).
  vm_compute. reflexivity.
Defined.

(** [memchr] never finds a byte of value 128 or more: [pointer[i]] is a
    signed [char], compared with an [unsigned char] after promotion. *)
Theorem memchr_high_byte m ptr value nbytes (Hv : 128 <= wrap8 value) :
  memchr m ptr value nbytes = 0.
Proof. by apply memchr_loop_none. Qed.

Lemma memchr_high_byte_witness :
  load8 (store8 ∅ 100 200) 100 = 200 /\ memchr (store8 ∅ 100 200) 100 200 1 = 0.
Proof. split; [vm_compute; reflexivity|]. apply memchr_high_byte. vm_compute. done. Defined.

(** [strlen] returns the index of the first zero byte, and finds it
    whenever there is one within the fuel. *)
Theorem strlen_spec fuel m string k :
  strlen fuel m string 0 = Some k <->
  0 <= k < Z.of_nat fuel /\ load8 m (string + k) = 0 /\
  forall j, 0 <= j < k -> load8 m (string + j) <> 0.
Proof. apply strlen_first. Qed.
