(* ===== verification/BootString.v ===== *)
(** * The string routines of the boot loader

    [bootloader/multiboot/src/string.c] is a second copy of the routines of the
    kernel's string.c, less [memchr]. Here the loops are as they are written,
    with their tests and [break]s; they end, and compute what the definitions
    of CMem.v compute, which the models of the boot loader use. *)

From S2P Require Import Prelude CMem.

(** ** The loops: tests, bodies and exits *)

Section Loops.
Context {A : Type}.

(** [while (test i) { body; i++; }]: [fuel] turns at most; the body says whether
    to go on, [false] is [break]. *)
Fixpoint while (fuel : nat) (test : Z -> A -> bool) (next : Z -> Z) (body : Z -> A -> bool * A) (i : Z) (s : A) : option (Z * A) :=
  match fuel with
  | O => None
  | S f =>
      if test i s then
        let '(go_on, s) := body i s in
        if go_on then while f test next body (next i) s else Some (i, s)
      else Some (i, s)
  end.
End Loops.

Definition up (i : Z) : Z := i ⊕ 1.
Definition down (i : Z) : Z := i ⊖ 1.

Lemma up_small i : 0 <= i < 4294967295 -> up i = i + 1.
Proof. intros. apply wrap32_small. lia. Qed.
Lemma down_small i : 0 < i < 4294967296 -> down i = i - 1.
Proof. intros. apply wrap32_small. lia. Qed.

Definition memcpy (fuel : nat) (m : Mem) (des src num : Z) : option Mem :=
  snd <$> while fuel (fun i _ => i <? num) up (fun i m => (true, store8 m (des + i) (load8 m (src + i)))) 0 m.

Definition memmove (fuel : nat) (m : Mem) (des src size : Z) : option Mem :=
  if des <? src
  then snd <$> while fuel (fun i _ => i <? size) up (fun i m => (true, store8 m (des + i) (load8 m (src + i)))) 0 m
  else snd <$> while fuel (fun i _ => negb (i =? 0)) down
                 (fun i m => (true, store8 m (des + (i - 1)) (load8 m (src + (i - 1))))) size m.

Definition memset (fuel : nat) (m : Mem) (des c num : Z) : option Mem :=
  let c8 := wrap8 c in
  snd <$> while fuel (fun i _ => i <? num) up (fun i m => (true, store8 m (des + i) c8)) 0 m.

Definition memcmp (fuel : nat) (m : Mem) (str1 str2 num : Z) : option Z :=
  snd <$> while fuel (fun i _ => i <? num) up
            (fun i retval =>
               if load8 m (str1 + i) <? load8 m (str2 + i) then (false, -1)
               else if load8 m (str2 + i) <? load8 m (str1 + i) then (false, 1)
               else (true, retval)) 0 0.

Definition strlen (fuel : nat) (m : Mem) (string : Z) : option Z :=
  fst <$> while fuel (fun len _ => negb (load8 m (string + len) =? 0)) up (fun _ u => (true, u)) 0 tt.

(** ** They end, and agree with CMem.v *)

Lemma while_copy des src n : forall i m,
  0 <= i -> i + Z.of_nat n < 4294967296 ->
  snd <$> while (S n) (fun j _ => j <? i + Z.of_nat n) up (fun i m => (true, store8 m (des + i) (load8 m (src + i)))) i m =
  Some (memcpy_loop n des src i m).
Proof.
  induction n as [|n IH]; intros i m Hi Hn; cbn [while memcpy_loop].
  - by rewrite (proj2 (Z.ltb_ge _ _)) by lia.
  - rewrite (proj2 (Z.ltb_lt _ _)) by lia. rewrite up_small by lia.
    rewrite <- (IH (i + 1)) by lia. by replace (i + Z.of_nat (S n)) with (i + 1 + Z.of_nat n) by lia.
Qed.

Lemma while_down des src n : forall m,
  Z.of_nat n < 4294967296 ->
  snd <$> while (S n) (fun i _ => negb (i =? 0)) down (fun i m => (true, store8 m (des + (i - 1)) (load8 m (src + (i - 1))))) (Z.of_nat n) m =
  Some (memmove_down n des src m).
Proof.
  induction n as [|n IH]; intros m Hn; [done|]. remember (S n) as f. cbn [while memmove_down]. subst f. cbn [memmove_down].
  rewrite (proj2 (Z.eqb_neq _ _)) by lia. cbn [negb]. rewrite down_small by lia.
  replace (Z.of_nat (S n) - 1) with (Z.of_nat n) by lia. rewrite <- IH by lia. done.
Qed.

Lemma while_set des c8 n : forall i m,
  0 <= i -> i + Z.of_nat n < 4294967296 ->
  snd <$> while (S n) (fun j _ => j <? i + Z.of_nat n) up (fun i m => (true, store8 m (des + i) c8)) i m =
  Some (memset_loop n des c8 i m).
Proof.
  induction n as [|n IH]; intros i m Hi Hn; cbn [while memset_loop].
  - by rewrite (proj2 (Z.ltb_ge _ _)) by lia.
  - rewrite (proj2 (Z.ltb_lt _ _)) by lia. rewrite up_small by lia.
    rewrite <- (IH (i + 1)) by lia. by replace (i + Z.of_nat (S n)) with (i + 1 + Z.of_nat n) by lia.
Qed.

Lemma while_compare m s1 s2 n : forall i,
  0 <= i -> i + Z.of_nat n < 4294967296 ->
  snd <$> while (S n) (fun j _ => j <? i + Z.of_nat n) up
    (fun i retval => if load8 m (s1 + i) <? load8 m (s2 + i) then (false, -1)
                     else if load8 m (s2 + i) <? load8 m (s1 + i) then (false, 1) else (true, retval)) i 0 =
  Some (memcmp_loop n m s1 s2 i).
Proof.
  induction n as [|n IH]; intros i Hi Hn; cbn [while memcmp_loop].
  - by rewrite (proj2 (Z.ltb_ge _ _)) by lia.
  - rewrite (proj2 (Z.ltb_lt _ _)) by lia.
    destruct (load8 m (s1 + i) <? load8 m (s2 + i)); [done|]. destruct (load8 m (s2 + i) <? load8 m (s1 + i)); [done|].
    rewrite up_small by lia.
    rewrite <- (IH (i + 1)) by lia. by replace (i + Z.of_nat (S n)) with (i + 1 + Z.of_nat n) by lia.
Qed.

Lemma while_length m s n : forall i,
  0 <= i -> i + Z.of_nat n < 4294967296 ->
  fst <$> while n (fun len _ => negb (load8 m (s + len) =? 0)) up (fun _ u => (true, u)) i tt = CMem.strlen n m s i.
Proof.
  induction n as [|n IH]; intros i Hi Hn; cbn [while CMem.strlen]; [done|].
  destruct (load8 m (s + i) =? 0); cbn [negb]; [done|]. rewrite up_small by lia. apply IH; lia.
Qed.

(** The routines of the boot loader end and do what those of the kernel do: for
    every size a [size_t] can hold, one turn more than there are bytes is
    enough for the copying, filling and comparing loops, upwards and downwards;
    and the length is found when it is within the turns allowed. *)
Theorem string_routines_agree m des src num c :
  0 <= num < 4294967296 ->
  let fuel := S (Z.to_nat num) in
  memcpy fuel m des src num = Some (CMem.memcpy m des src num) /\
  memmove fuel m des src num = Some (CMem.memmove m des src num) /\
  memset fuel m des c num = Some (CMem.memset m des c num) /\
  memcmp fuel m des src num = Some (CMem.memcmp m des src num) /\
  forall n, (Z.of_nat n < 4294967296) -> strlen n m des = CMem.strlen n m des 0.
Proof.
  intros Hn fuel. assert (Z.of_nat (Z.to_nat num) = num) as En by lia.
  pose proof (while_copy des src (Z.to_nat num) 0 m ltac:(lia) ltac:(lia)) as H1.
  pose proof (while_down des src (Z.to_nat num) m ltac:(lia)) as H2.
  pose proof (while_set des (wrap8 c) (Z.to_nat num) 0 m ltac:(lia) ltac:(lia)) as H3.
  pose proof (while_compare m des src (Z.to_nat num) 0 ltac:(lia) ltac:(lia)) as H4.
  rewrite En, ?Z.add_0_l in *. split_and!; [exact H1| |exact H3|exact H4|].
  - unfold memmove, CMem.memmove. destruct (des <? src); [exact H1|exact H2].
  - intros n Hl. apply while_length; lia.
Qed.

(** "AVOS" within a longer string, moved up by two bytes over itself. *)
Lemma string_routines_agree_witness :
  memmove 5 (store_bytes ∅ 100 [65; 86; 79; 83]) 102 100 4 = Some (CMem.memmove (store_bytes ∅ 100 [65; 86; 79; 83]) 102 100 4) /\
  strlen 9 (store_bytes ∅ 100 [65; 86; 79; 83; 0]) 100 = Some 4.
Proof.
  split.
  - apply (string_routines_agree (store_bytes ∅ 100 [65; 86; 79; 83]) 102 100 4 0). lia.
  - etransitivity; [apply (string_routines_agree (store_bytes ∅ 100 [65; 86; 79; 83; 0]) 100 0 4 0); lia|]. by vm_compute.
Defined.
