(* ===== verification/Sync.v ===== *)
(** * Spin locks and interrupt-safe locks

    [kernel/core/synch/src/spinlock.c], [irqlock.c] and the preemption
    counters of [kernel/core/taskmaster/include/state.h]. The lock operations
    are functions on the calling thread and the lock; a lock that is taken
    makes [SpinLock_Acquire] spin, which is [None] in this sequential view.
    [Module Interleaving] runs any number of processors over one lock, an
    atomic instruction at a time, and proves mutual exclusion there. *)

From S2P Require Import Prelude.

(** ** State *)

(** The part of [struct State] (the structure at the top of the current
    kernel stack) that the locks use, with the interrupt flag of the
    processor that runs the thread. *)
Record Thread := mkThread {
  intr_flag : bool;                (* EFLAGS.IF *)
  preemption_vetos : Z;            (* atomic_size_t *)
  interrupt_priority : Z           (* uint8_t *)
}.

Record SpinLock := mkSpinLock { flag : bool }.
Record IRQLock := mkIRQLock { lock : SpinLock; previous_interrupt_priority : Z }.

#[export] Instance Thread_eq_dec : EqDecision Thread.
Proof. solve_decision. Defined.
#[export] Instance SpinLock_eq_dec : EqDecision SpinLock.
Proof. solve_decision. Defined.
#[export] Instance IRQLock_eq_dec : EqDecision IRQLock.
Proof. solve_decision. Defined.

(** ** Atomic instructions *)

Definition atomic_flag_test_and_set (l : SpinLock) : bool * SpinLock :=
  (flag l, mkSpinLock true).
Definition atomic_flag_clear (l : SpinLock) : SpinLock := mkSpinLock false.
(** [atomic_compare_exchange_strong(&flag, &expected, desired)]: the new
    value of [expected] and the lock. *)
Definition atomic_compare_exchange_strong (l : SpinLock) (expected desired : bool)
  : bool * SpinLock :=
  if Bool.eqb (flag l) expected then (expected, mkSpinLock desired) else (flag l, l).

Definition STATE_INCREMENT_PREEMPTION_VETO (t : Thread) : Thread :=
  mkThread (intr_flag t) (preemption_vetos t ⊕ 1) (interrupt_priority t).
Definition STATE_DECREMENT_PREEMPTION_VETO (t : Thread) : Thread :=
  mkThread (intr_flag t) (preemption_vetos t ⊖ 1) (interrupt_priority t).
Definition STATE_PREEMPTIBLE (t : Thread) : bool := preemption_vetos t =? 0.

Definition InterruptsEnabled (t : Thread) : bool := intr_flag t.
Definition DisableInterrupts (t : Thread) : Thread :=
  mkThread false (preemption_vetos t) (interrupt_priority t).
Definition EnableInterrupts (t : Thread) : Thread :=
  mkThread true (preemption_vetos t) (interrupt_priority t).
Definition set_interrupt_priority (p : Z) (t : Thread) : Thread :=
  mkThread (intr_flag t) (preemption_vetos t) p.

(** ** spinlock.c *)

Definition SpinLock_Initialize (l : SpinLock) : SpinLock := atomic_flag_clear l.

(** The [while (test_and_set) pause;] loop ends at once when the flag is
    clear; otherwise it waits for another processor, and with nobody to clear
    the flag it never returns. *)
Definition SpinLock_Acquire (t : Thread) (l : SpinLock) : option (Thread * SpinLock) :=
  let t := STATE_INCREMENT_PREEMPTION_VETO t in
  let '(was_set, l) := atomic_flag_test_and_set l in
  if was_set then None else Some (t, l).

Definition SpinLock_Release (t : Thread) (l : SpinLock) : Thread * SpinLock :=
  let l := atomic_flag_clear l in
  (STATE_DECREMENT_PREEMPTION_VETO t, l).

Definition SpinLock_Locked (l : SpinLock) : bool * SpinLock :=
  atomic_compare_exchange_strong l true true.

(** ** irqlock.c *)

Definition IRQLock_Initialize (l : IRQLock) : IRQLock :=
  mkIRQLock (SpinLock_Initialize (lock l)) 0.

Definition IRQLock_Acquire (t : Thread) (l : IRQLock) : option (Thread * IRQLock) :=
  let intr_prio := if InterruptsEnabled t then 0 else 0xFF in
  let t := DisableInterrupts t in
  '(t, sl) ← SpinLock_Acquire t (lock l);
  Some (set_interrupt_priority 0xFF t, mkIRQLock sl intr_prio).

Definition IRQLock_Release (t : Thread) (l : IRQLock) : Thread * IRQLock :=
  let t := set_interrupt_priority (previous_interrupt_priority l) t in
  let '(t, sl) := SpinLock_Release t (lock l) in
  let t := if negb (interrupt_priority t =? 0xFF) then EnableInterrupts t else t in
  (t, mkIRQLock sl (previous_interrupt_priority l)).

Definition IRQLock_Locked (l : IRQLock) : bool * IRQLock :=
  let '(b, sl) := atomic_compare_exchange_strong (lock l) true true in
  (b, mkIRQLock sl (previous_interrupt_priority l)).

(** ** Properties of the sequential operations *)

Definition vetos_ok (t : Thread) : Prop := 0 <= preemption_vetos t < 4294967295.
(** The count is a [uint32_t], whatever it is. *)
Definition vetos_u32 (t : Thread) : Prop := 0 <= preemption_vetos t < 4294967296.

Lemma veto_inc_dec t :
  vetos_u32 t -> wrap32 (wrap32 (preemption_vetos t + 1) - 1) = preemption_vetos t.
Proof. unfold vetos_u32. intros. zdiv. Qed.

(** The interrupt priority that [IRQLock_Release] leaves behind. *)
Definition restored_priority (t : Thread) : Z := if intr_flag t then 0 else 0xFF.

Lemma IRQLock_Acquire_free t p :
  IRQLock_Acquire t (mkIRQLock (mkSpinLock false) p) =
  Some (mkThread false (preemption_vetos t ⊕ 1) 0xFF,
        mkIRQLock (mkSpinLock true) (restored_priority t)).
Proof. reflexivity. Qed.

Lemma IRQLock_Acquire_held t p :
  IRQLock_Acquire t (mkIRQLock (mkSpinLock true) p) = None.
Proof. reflexivity. Qed.

Lemma IRQLock_Release_after t vetos :
  IRQLock_Release (mkThread false vetos 0xFF) (mkIRQLock (mkSpinLock true) (restored_priority t)) =
  (mkThread (intr_flag t) (vetos ⊖ 1) (restored_priority t),
   mkIRQLock (mkSpinLock false) (restored_priority t)).
Proof. by destruct t as [[] v p]. Qed.

(** Acquiring a free interrupt lock and releasing it gives back the
    interrupt flag and the preemption counter the thread had, frees the lock,
    and in between interrupts are off and preemption is vetoed. *)
Theorem IRQLock_bracket t p (Hv : vetos_ok t) :
  exists t1 l1,
    IRQLock_Acquire t (mkIRQLock (mkSpinLock false) p) = Some (t1, l1) /\
    intr_flag t1 = false /\ STATE_PREEMPTIBLE t1 = false /\
    fst (IRQLock_Locked l1) = true /\
    let '(t2, l2) := IRQLock_Release t1 l1 in
    intr_flag t2 = intr_flag t /\ preemption_vetos t2 = preemption_vetos t /\
    interrupt_priority t2 = restored_priority t /\ fst (IRQLock_Locked l2) = false.
Proof.
  unfold vetos_ok in Hv. rewrite IRQLock_Acquire_free. do 2 eexists. split; [done|].
  rewrite IRQLock_Release_after. cbn. rewrite veto_inc_dec by (unfold vetos_u32; lia).
  repeat split; try done. unfold STATE_PREEMPTIBLE. cbn. apply Z.eqb_neq. zdiv.
Qed.

Lemma IRQLock_bracket_witness :
  vetos_ok (mkThread true 0 0) /\
  exists t1 l1,
    IRQLock_Acquire (mkThread true 0 0) (mkIRQLock (mkSpinLock false) 7) = Some (t1, l1) /\
    intr_flag t1 = false.
Proof.
  assert (vetos_ok (mkThread true 0 0)) as H by (unfold vetos_ok; cbn; lia).
  split; [exact H|].
  destruct (IRQLock_bracket (mkThread true 0 0) 7 H) as (t1 & l1 & E & F & _).
  by exists t1, l1.
Defined.

(** Interrupt locks nest: with two locks taken and released in LIFO order,
    releasing the inner one leaves interrupts off, and releasing the outer one
    restores the flag the thread started with. *)
Theorem IRQLock_nesting t pa pb (Hv : 0 <= preemption_vetos t < 4294967294) :
  exists t1 la t2 lb,
    IRQLock_Acquire t (mkIRQLock (mkSpinLock false) pa) = Some (t1, la) /\
    IRQLock_Acquire t1 (mkIRQLock (mkSpinLock false) pb) = Some (t2, lb) /\
    let t3 := fst (IRQLock_Release t2 lb) in
    let t4 := fst (IRQLock_Release t3 la) in
    intr_flag t3 = false /\ STATE_PREEMPTIBLE t3 = false /\
    intr_flag t4 = intr_flag t /\ preemption_vetos t4 = preemption_vetos t.
Proof.
  rewrite IRQLock_Acquire_free. do 2 eexists. rewrite IRQLock_Acquire_free. do 2 eexists.
  split; [done|]. split; [done|]. rewrite IRQLock_Release_after. cbn [fst].
  assert (forall v, mkThread false v (restored_priority (mkThread false (wrap32 (preemption_vetos t + 1)) 255))
            = mkThread false v 255) as -> by done.
  rewrite IRQLock_Release_after. cbn. repeat split; [apply Z.eqb_neq; cbn; zdiv|zdiv].
Qed.

Lemma IRQLock_nesting_witness :
  exists t1 la t2 lb,
    IRQLock_Acquire (mkThread true 3 0) (mkIRQLock (mkSpinLock false) 0) = Some (t1, la) /\
    IRQLock_Acquire t1 (mkIRQLock (mkSpinLock false) 0) = Some (t2, lb) /\
    preemption_vetos (fst (IRQLock_Release (fst (IRQLock_Release t2 lb)) la)) = 3.
Proof.
  destruct (IRQLock_nesting (mkThread true 3 0) 0 0 ltac:(cbn; lia))
    as (t1 & la & t2 & lb & E1 & E2 & _ & _ & _ & E3).
  by exists t1, la, t2, lb.
Defined.

(** ** Several processors, one lock *)

Module Interleaving.

(** Where a thread is in [Acquire; critical section; Release]: each
    constructor is the point before one atomic instruction. *)
Inductive pc := Outside | Trying | Critical | Leaving.

#[export] Instance pc_eq_dec : EqDecision pc.
Proof. solve_decision. Defined.

Record Machine := mkMachine { spin : SpinLock; threads : list (pc * Thread) }.

(** One atomic instruction of thread [i]. *)
Definition step_thread (l : SpinLock) (p : pc) (t : Thread) : SpinLock * pc * Thread :=
  match p with
  | Outside => (l, Trying, STATE_INCREMENT_PREEMPTION_VETO t)
  | Trying =>
      let '(was_set, l) := atomic_flag_test_and_set l in
      (l, (if was_set then Trying else Critical), t)
  | Critical => (atomic_flag_clear l, Leaving, t)
  | Leaving => (l, Outside, STATE_DECREMENT_PREEMPTION_VETO t)
  end.

Inductive step : Machine -> Machine -> Prop :=
| step_at l ts i p t l' p' t' :
    ts !! i = Some (p, t) -> step_thread l p t = (l', p', t') ->
    step (mkMachine l ts) (mkMachine l' (<[i := (p', t')]> ts)).

(** Any number of threads, all outside, the lock initialised. *)
Definition initial (s : Machine) : Prop :=
  spin s = SpinLock_Initialize (spin s) /\
  Forall (fun pt => pt.1 = Outside /\ preemption_vetos pt.2 = 0) (threads s).

(** The flag is set exactly when one thread is in its critical section, at
    most one is, and a thread that is not outside vetoes its preemption. *)
Record invariant (s : Machine) : Prop := {
  inv_flag : flag (spin s) = true <-> exists i t, threads s !! i = Some (Critical, t);
  inv_unique : forall i j t u,
    threads s !! i = Some (Critical, t) -> threads s !! j = Some (Critical, u) -> i = j;
  inv_vetos : forall i p t, threads s !! i = Some (p, t) ->
    preemption_vetos t = if decide (p = Outside) then 0 else 1
}.

Lemma initial_invariant s : initial s -> invariant s.
Proof.
  intros [Hl Ht]. rewrite Forall_lookup in Ht. split.
  - rewrite Hl. cbn. split; [done|]. intros (i & t & Hi). by destruct (Ht _ _ Hi).
  - intros i j t u Hi. by destruct (Ht _ _ Hi).
  - intros i p t Hi. destruct (Ht _ _ Hi) as [Hp Hv]. cbn in *. by subst.
Qed.

(** A step of thread [i] is an update of its entry. *)
Lemma lookup_updated (ts : list (pc * Thread)) i j x y z :
  ts !! i = Some z -> <[i := x]> ts !! j = Some y ->
  (j = i /\ y = x) \/ (j <> i /\ ts !! j = Some y).
Proof.
  intros Hi [(-> & -> & _)|[Hne Hj]]%list_lookup_insert_Some; [by left|right].
  split; [congruence|done].
Qed.

Definition is_critical (ts : list (pc * Thread)) (j : nat) : Prop :=
  exists u, ts !! j = Some (Critical, u).

(** Which threads are critical, after thread [i] moved from [p] to [p']. *)
Lemma is_critical_updated ts i j p t p' t' :
  ts !! i = Some (p, t) ->
  is_critical (<[i := (p', t')]> ts) j <->
  (j = i /\ p' = Critical) \/ (j <> i /\ is_critical ts j).
Proof.
  intros Hi. split.
  - intros [u Hj]. destruct (lookup_updated _ _ _ _ _ _ Hi Hj) as [[-> [= -> ->]]|[? ?]];
      [by left|right]. split; [done|]. by exists u.
  - intros [[-> ->]|[Hne [u Hj]]].
    + exists t'. apply list_lookup_insert_eq. by eapply lookup_lt_Some.
    + exists u. by rewrite list_lookup_insert_ne.
Qed.

Lemma invariant_iff s :
  invariant s <->
  (flag (spin s) = true <-> exists i, is_critical (threads s) i) /\
  (forall i j, is_critical (threads s) i -> is_critical (threads s) j -> i = j) /\
  (forall i p t, threads s !! i = Some (p, t) ->
     preemption_vetos t = if decide (p = Outside) then 0 else 1).
Proof.
  unfold is_critical. split; [intros [H1 H2 H3]|intros (H1 & H2 & H3)].
  - split; [done|]. split; [|done]. intros i j [t Hi] [u Hj]. by eapply H2.
  - split; [done|intros i j t u Hi Hj; apply H2; eauto|done].
Qed.

Lemma step_invariant s s' : invariant s -> step s s' -> invariant s'.
Proof.
  rewrite !invariant_iff. intros (Hf & Hu & Hv) Hs.
  destruct Hs as [l ts i p t l' p' t' Hi Hst]. cbn [spin threads] in *.
  pose proof (fun j => is_critical_updated ts i j p t p' t' Hi) as Hc.
  assert (forall j q u, <[i:=(p', t')]> ts !! j = Some (q, u) ->
    preemption_vetos t' = (if decide (p' = Outside) then 0 else 1) ->
    preemption_vetos u = if decide (q = Outside) then 0 else 1) as Hveto.
  { intros j q u Hj Hnew.
    destruct (lookup_updated _ _ _ _ _ _ Hi Hj) as [[-> [= -> ->]]|[_ ?]]; eauto. }
  pose proof (Hv _ _ _ Hi) as Hvi.
  assert (p = Critical <-> is_critical ts i) as Hpi
    by (unfold is_critical; rewrite Hi; naive_solver).
  destruct p; [| |cbn in Hst|]; [..|destruct (Hpi) as [Hcr _]|];
    [| destruct (flag l) eqn:Hfl; cbn in Hst; rewrite Hfl in Hst | |];
    cbn in Hst; injection Hst as <- <- <-; cbn [decide] in *;
    (split; [|split; [|intros j q u Hj; apply (Hveto _ _ _ Hj); cbn; rewrite ?Hvi; done]]);
    setoid_rewrite Hc; cbn in *; naive_solver.
Qed.

Lemma reachable_invariant s s' : initial s -> rtc step s s' -> invariant s'.
Proof.
  intros Hi Hr. apply initial_invariant in Hi. revert Hi.
  induction Hr as [|x y z Hxy _ IH]; [done|]. intros Hi. apply IH. by eapply step_invariant.
Qed.

End Interleaving.

(** C11. Mutual exclusion: however the atomic instructions of any number of
    processors interleave, two threads are never inside the critical section
    of the same spin lock, and every thread inside is not preemptible. *)
Theorem SpinLock_mutual_exclusion s s' i j t u
  (Hinit : Interleaving.initial s)
  (Hreach : rtc Interleaving.step s s')
  (Hi : Interleaving.threads s' !! i = Some (Interleaving.Critical, t))
  (Hj : Interleaving.threads s' !! j = Some (Interleaving.Critical, u)) :
  i = j /\ STATE_PREEMPTIBLE t = false /\
  SpinLock_Acquire u (Interleaving.spin s') = None.
Proof.
  destruct (Interleaving.reachable_invariant _ _ Hinit Hreach) as [Hf Hu Hv].
  split; [by eapply Hu|]. split.
  - unfold STATE_PREEMPTIBLE. by rewrite (Hv _ _ _ Hi).
  - unfold SpinLock_Acquire. cbn. by rewrite (proj2 Hf) by eauto.
Qed.

Lemma SpinLock_mutual_exclusion_witness :
  let t := mkThread true 0 0 in
  let m0 := Interleaving.mkMachine (mkSpinLock false)
              [(Interleaving.Outside, t); (Interleaving.Outside, t)] in
  exists m1 t1,
    rtc Interleaving.step m0 m1 /\
    Interleaving.threads m1 !! 1%nat = Some (Interleaving.Critical, t1) /\
    Interleaving.threads m1 !! 0%nat = Some (Interleaving.Trying, t1) /\
    STATE_PREEMPTIBLE t1 = false.
Proof.
  cbn zeta.
  set (t := mkThread true 0 0). set (t1 := mkThread true 1 0).
  set (m0 := Interleaving.mkMachine _ _).
  set (m1 := Interleaving.mkMachine (mkSpinLock true)
               [(Interleaving.Trying, t1); (Interleaving.Critical, t1)]).
  assert (rtc Interleaving.step m0 m1) as Hr.
  { eapply rtc_l; [by eapply (Interleaving.step_at _ _ 0)|].
    eapply rtc_l; [by eapply (Interleaving.step_at _ _ 1)|].
    eapply rtc_l; [by eapply (Interleaving.step_at _ _ 1)|].
    eapply rtc_l; [by eapply (Interleaving.step_at _ _ 0)|]. apply rtc_refl. }
  exists m1, t1. split; [exact Hr|]. split; [done|]. split; [done|].
  apply (SpinLock_mutual_exclusion m0 m1 1 1 t1 t1); [|exact Hr|done|done].
  split; [done|]. repeat constructor.
Defined.
