(* ===== verification/Timer.v ===== *)
(** * The tick counter

    [kernel/core/timer/src/timer.c]: a sequence counter brackets every update
    of the tick count, and a reader retries until it saw the same even
    sequence number before and after. The writer is the timer interrupt; its
    three atomic additions are the steps an interleaved reader can fall
    between. A reader is run against a [view]: what the timer is at the
    moment of its [k]-th atomic load. *)

From S2P Require Import Prelude.

Record Timer := mkTimer {
  seq_counter : Z;   (* atomic_size_t *)
  ticks : Z          (* atomic uint64_t *)
}.

#[export] Instance Timer_eq_dec : EqDecision Timer.
Proof. solve_decision. Defined.

Definition add_seq (tmr : Timer) : Timer := mkTimer (seq_counter tmr ⊕ 1) (ticks tmr).
Definition add_tick (tmr : Timer) : Timer := mkTimer (seq_counter tmr) (wrap64 (ticks tmr + 1)).

Definition Timer_Increment (tmr : Timer) : Timer :=
  let tmr := add_seq tmr in
  let tmr := add_tick tmr in
  let tmr := add_seq tmr in
  tmr.

(** The [do ... while] loop, at its [k]-th load; at most [fuel] iterations. *)
Fixpoint Timer_GetTicks (fuel : nat) (view : nat -> Timer) (k : nat) : option Z :=
  match fuel with
  | O => None
  | S f =>
      let tickseq0 := seq_counter (view k) in
      let t := ticks (view (k + 1)%nat) in
      let tickseq1 := seq_counter (view (k + 2)%nat) in
      if negb (tickseq0 =? tickseq1) || negb (Z.land tickseq0 1 =? 0)
      then Timer_GetTicks f view (k + 3)
      else Some t
  end.

(** A read with no writer running. *)
Definition Timer_Read (tmr : Timer) : option Z := Timer_GetTicks 1 (fun _ => tmr) 0.

(** ** The writer, one atomic addition at a time *)

Fixpoint writer (n : nat) (tmr : Timer) : Timer :=
  match n with
  | O => tmr
  | 1%nat => add_seq tmr
  | 2%nat => add_tick (add_seq tmr)
  | S (S (S n')) => writer n' (Timer_Increment tmr)
  end.

(** An idle timer that has counted [c] ticks. *)
Definition idle (c : Z) : Timer := mkTimer (wrap32 (2 * c)) (wrap64 c).

(** The timer [n] writer steps after it was idle at 0. *)
Lemma writer_closed n c :
  writer n (idle c) =
  match (n mod 3)%nat with
  | O => idle (c + Z.of_nat (n / 3))
  | 1%nat => add_seq (idle (c + Z.of_nat (n / 3)))
  | _ => add_tick (add_seq (idle (c + Z.of_nat (n / 3))))
  end.
Proof.
  revert c. induction n as [n IH] using lt_wf_ind. intros c.
  destruct n as [|[|[|n]]]; cbn [writer]; [by rewrite Z.add_0_r..|].
  replace (Timer_Increment (idle c)) with (idle (c + 1)).
  - rewrite IH by lia.
    replace (S (S (S n))) with (n + 1 * 3)%nat by lia.
    rewrite Nat.Div0.mod_add, Nat.div_add by lia.
    replace (c + 1 + Z.of_nat (n / 3)) with (c + Z.of_nat (n / 3 + 1)) by lia. done.
  - unfold Timer_Increment, add_seq, add_tick, idle. cbn. f_equal; zdiv.
Qed.

Lemma land_1_even z : (Z.land z 1 =? 0) = Z.even z.
Proof.
  change 1 with (Z.ones 1). rewrite Z.land_ones by lia. change (2 ^ 1) with 2.
  rewrite Zmod_even. by destruct (Z.even z).
Qed.

Lemma wrap32_even z : Z.even (wrap32 z) = Z.even z.
Proof.
  pose proof (Zmod_even (wrap32 z)) as H1. pose proof (Zmod_even z) as H2.
  assert (wrap32 z mod 2 = z mod 2) by zdiv.
  destruct (Z.even (wrap32 z)), (Z.even z); congruence || lia.
Qed.

Lemma seq_counter_writer n c :
  seq_counter (writer n (idle c)) =
    wrap32 (2 * (c + Z.of_nat (n / 3)) + (if (n mod 3 =? 0)%nat then 0 else 1)).
Proof.
  rewrite writer_closed. destruct (n mod 3)%nat as [|[|k]]; cbn.
  - by rewrite Z.add_0_r.
  - zdiv.
  - zdiv.
Qed.

Lemma seq_even_idle n c :
  Z.even (seq_counter (writer n (idle c))) = (n mod 3 =? 0)%nat.
Proof.
  rewrite seq_counter_writer, wrap32_even, Z.add_comm, Z.even_add_mul_2.
  by destruct (n mod 3)%nat.
Qed.

(** Two loads of the same even sequence number, less than half the range of
    the counter apart, are loads of the same idle timer. *)
Lemma seq_same_idle n0 n2 c :
  (n0 <= n2)%nat -> (Z.of_nat n2 < Z.of_nat n0 + 3 * 2147483648) ->
  seq_counter (writer n0 (idle c)) = seq_counter (writer n2 (idle c)) ->
  Z.even (seq_counter (writer n0 (idle c))) = true -> n0 = n2 /\ (n0 mod 3 = 0)%nat.
Proof.
  intros Hle Hgap Heq Hev. pose proof Hev as Hev2. rewrite Heq in Hev2.
  rewrite seq_even_idle in Hev, Hev2. apply Nat.eqb_eq in Hev, Hev2.
  rewrite !seq_counter_writer, Hev, Hev2 in Heq. split; [|done].
  pose proof (Nat.div_mod_eq n0 3) as E0. pose proof (Nat.div_mod_eq n2 3) as E2.
  rewrite Hev in E0. rewrite Hev2 in E2.
  revert Heq E0 E2. generalize (n0 / 3)%nat as q0, (n2 / 3)%nat as q2.
  rewrite Nat.eqb_refl. intros q0 q2 Heq E0 E2. enough (Z.of_nat q0 = Z.of_nat q2) by lia.
  revert Heq. zdiv.
Qed.

(** A history of the timer: load [k] happens after [sched k] writer steps,
    and the writer makes less than [3 * 2^31] steps during one iteration. *)
Record history (c : Z) (sched : nat -> nat) (view : nat -> Timer) : Prop := {
  hist_view : forall k, view k = writer (sched k) (idle c);
  hist_mono : forall k, (sched k <= sched (S k))%nat;
  hist_gap : forall k, Z.of_nat (sched (k + 2)%nat) < Z.of_nat (sched k) + 3 * 2147483648
}.

(** C31. [Timer_GetTicks] is consistent under interruption: the value it returns
    is the exact number of completed increments at one moment during the call
    (the second load of its last iteration), at which no increment is under
    way. *)
Theorem Timer_GetTicks_consistent fuel c sched view k t
  (Hh : history c sched view) (Hr : Timer_GetTicks fuel view k = Some t) :
  exists k', (k <= k')%nat /\ (sched k' mod 3 = 0)%nat /\
    view k' = idle (c + Z.of_nat (sched k' / 3)) /\
    t = wrap64 (c + Z.of_nat (sched k' / 3)).
Proof.
  revert k Hr. induction fuel as [|fuel IH]; intros k; cbn [Timer_GetTicks]; [done|].
  destruct (negb _ || negb _) eqn:E.
  { intros Hr. destruct (IH _ Hr) as (k' & Hk & H). exists k'. split; [lia|done]. }
  bool_to_prop. intros [= <-]. pose proof Hh as [Hv Hm Hg].
  apply Z.eqb_eq in H0. rewrite land_1_even, Hv in H0. rewrite !Hv in H.
  pose proof (Hm k). pose proof (Hm (k + 1)%nat).
  replace (S k) with (k + 1)%nat in * by lia.
  replace (S (k + 1)) with (k + 2)%nat in * by lia.
  destruct (seq_same_idle (sched k) (sched (k + 2)%nat) c) as [Heq Hz];
    [lia|by apply Hg|done..|].
  exists (k + 1)%nat. assert (sched (k + 1)%nat = sched k) as Hk1 by lia.
  rewrite Hv, Hk1, writer_closed, Hz. split; [lia|done].
Qed.

(** [Timer_GetTicks] terminates: it returns by the first iteration during
    which the writer is idle and makes no step. *)
Theorem Timer_GetTicks_terminates fuel c sched view k n
  (Hh : history c sched view) (Hn : (n < fuel)%nat)
  (Hquiet : sched (k + 3 * n + 2)%nat = sched (k + 3 * n)%nat)
  (Hidle : (sched (k + 3 * n) mod 3 = 0)%nat) :
  exists t, Timer_GetTicks fuel view k = Some t.
Proof.
  revert k n Hn Hquiet Hidle. induction fuel as [|fuel IH]; intros k n Hn Hq Hi; [lia|].
  cbn [Timer_GetTicks]. destruct (negb _ || negb _) eqn:E; [|by eexists].
  destruct n as [|n].
  - exfalso. rewrite Nat.add_0_r in *. destruct Hh as [Hv _ _].
    rewrite !Hv, Hq, Z.eqb_refl, land_1_even, seq_even_idle, Hi in E. done.
  - apply (IH (k + 3)%nat n); [lia|..].
    + replace (k + 3 + 3 * n)%nat with (k + 3 * S n)%nat by lia. done.
    + replace (k + 3 + 3 * n)%nat with (k + 3 * S n)%nat by lia. done.
Qed.

(** A reader interrupted once, in the middle of its first iteration. *)
Definition demo_sched (k : nat) : nat := if (k <? 1)%nat then 0 else if (k <? 2)%nat then 2 else 3.
Lemma demo_history : history 0 demo_sched (fun k => writer (demo_sched k) (idle 0)).
Proof.
  split; [done|intros [|[|k]]; unfold demo_sched; cbn; lia|].
  intros k. unfold demo_sched. repeat case_match; lia.
Qed.

Lemma Timer_GetTicks_consistent_witness :
  Timer_GetTicks 2 (fun k => writer (demo_sched k) (idle 0)) 0 = Some 1 /\
  exists k', (demo_sched k' mod 3 = 0)%nat /\ 1 = wrap64 (0 + Z.of_nat (demo_sched k' / 3)).
Proof.
  assert (Timer_GetTicks 2 (fun k => writer (demo_sched k) (idle 0)) 0 = Some 1) as Hr
    by (vm_compute; reflexivity).
  split; [exact Hr|].
  destruct (Timer_GetTicks_consistent 2 0 demo_sched _ 0 1 demo_history Hr)
    as (k' & _ & H1 & _ & H2).
  by exists k'.
Defined.

Lemma Timer_GetTicks_terminates_witness :
  exists t, Timer_GetTicks 2 (fun k => writer (demo_sched k) (idle 0)) 0 = Some t.
Proof.
  apply (Timer_GetTicks_terminates 2 0 demo_sched _ 0 1 demo_history); [lia|done|done].
Defined.

(** A read with no interrupt in between returns the tick count, unless the
    caller itself interrupted an increment: then it spins. *)
Lemma Timer_Read_idle c : Timer_Read (idle c) = Some (wrap64 c).
Proof.
  unfold Timer_Read. cbn. rewrite Z.eqb_refl, land_1_even, wrap32_even.
  by rewrite Z.even_mul.
Qed.

Lemma Timer_Increment_idle c : Timer_Increment (idle c) = idle (c + 1).
Proof. unfold Timer_Increment, add_seq, add_tick, idle. cbn. f_equal; zdiv. Qed.
