(* ===== verification/Setup.v ===== *)
(** * Constants of the kernel

    [kernel/core/setup/include/setup.h]. *)

From S2P Require Import Prelude.

Definition KERNEL_HIGHER_HALF_OFFSET : Z := 0x80000000.
Definition KERNEL_MMAP_VIRTUAL_START : Z := 0x80000000.
Definition KERNEL_MMAP_VIRTUAL_END : Z := 0xF0000000.
Definition KERNEL_MMAP_LOWMEM_START : Z := 0x80000000.
Definition KERNEL_MMAP_LOWMEM_END : Z := 0x80100000.
Definition KERNEL_MMAP_HIMEMIO_START : Z := 0xF0000000.
Definition KERNEL_MMAP_START_ADDR : Z := 0x80100000.

Definition KERNEL_PAGE_SIZE_IN_BITS : Z := 12.
Definition KERNEL_PAGE_SIZE_IN_BYTES : Z := Z.shiftl 1 12.
Definition KERNEL_BYTE_IN_BITS : Z := 3.

Definition KERNEL_STACK_ALIGNMENT : Z := Z.shiftl 1 4.
Definition KERNEL_STACK_SIZE : Z := 0x2000.
Definition KERNEL_AP_BOOT_START_ADDR : Z := 0x8000.
Definition KERNEL_AP_BOOT_START_SIZE : Z := 0x1000.

Definition KERNEL_MAX_PROCS : nat := 64.

Definition KERNEL_NUM_SYSCALLS : Z := 0x100.
Definition KERNEL_NUM_SIGNALS : Z := 0x20.

Definition MACHINE_MAX_CPUS : Z := 0xFF.
Definition MACHINE_MAX_IOAPICS : Z := 0xFF.

Definition PHYSADDR (x : Z) : Z := x ⊖ KERNEL_HIGHER_HALF_OFFSET.
Definition KERNADDR (x : Z) : Z := x ⊕ KERNEL_HIGHER_HALF_OFFSET.

Lemma PHYSADDR_KERNADDR x : 0 <= x < 0x80000000 -> PHYSADDR (KERNADDR x) = x.
Proof. unfold PHYSADDR, KERNADDR, KERNEL_HIGHER_HALF_OFFSET. zdiv. Qed.

Lemma KERNADDR_PHYSADDR x : 0 <= x < 0x100000000 -> KERNADDR (PHYSADDR x) = x.
Proof. unfold PHYSADDR, KERNADDR, KERNEL_HIGHER_HALF_OFFSET. zdiv. Qed.

Lemma KERNADDR_small x : 0 <= x < 0x80000000 -> KERNADDR x = x + 0x80000000.
Proof. unfold KERNADDR, KERNEL_HIGHER_HALF_OFFSET. intros. apply wrap32_small. lia. Qed.
