(* ===== verification/PhysMem.v ===== *)
(** * The physical page allocator

    [kernel/core/memory/include/physmem.h] and
    [kernel/core/memory/src/physmem.c]: a buddy allocator. Free blocks of
    order [o] ([2^(12+o)] bytes) are on a doubly linked list threaded through
    the free blocks themselves, and one bit per pair of buddies records
    whether exactly one of the two is on the list of that order. *)

From S2P Require Import Prelude CMem Sync Setup.

(** ** State *)

Definition PAGE_LIST_NULL : Z := 0xFFFFFFFF.
Definition PAGE_MAX_ORDER : Z := 10.

Record PhysState := mkPhys {
  mem : Mem;
  Page_maps : gmap (Z * Z) Z;          (* Page_maps[order][index], 0 when absent *)
  Page_lists : list Z;                 (* the heads, orders 0 to 10 *)
  Page_operation_lock : IRQLock;
  current : Thread                     (* the calling thread *)
}.

Definition set_mem (f : Mem -> Mem) (s : PhysState) : PhysState :=
  mkPhys (f (mem s)) (Page_maps s) (Page_lists s) (Page_operation_lock s) (current s).
Definition set_maps (f : gmap (Z * Z) Z -> gmap (Z * Z) Z) (s : PhysState) : PhysState :=
  mkPhys (mem s) (f (Page_maps s)) (Page_lists s) (Page_operation_lock s) (current s).
Definition set_lists (f : list Z -> list Z) (s : PhysState) : PhysState :=
  mkPhys (mem s) (Page_maps s) (f (Page_lists s)) (Page_operation_lock s) (current s).
Definition set_lock (tl : Thread * IRQLock) (s : PhysState) : PhysState :=
  mkPhys (mem s) (Page_maps s) (Page_lists s) tl.2 tl.1.

(** [Page_lists[i]], and assignment to it. *)
Definition page_list (s : PhysState) (i : Z) : Z := Page_lists s !!! Z.to_nat i.
Definition set_page_list (i v : Z) : PhysState -> PhysState := set_lists (<[Z.to_nat i := v]>).

(** [struct Page_List], at the start of every free block. *)
Definition pl_next (s : PhysState) (p : Z) : Z := load32 (mem s) p.
Definition pl_prev (s : PhysState) (p : Z) : Z := load32 (mem s) (p + 4).
Definition set_next (p v : Z) : PhysState -> PhysState := set_mem (fun m => store32 m p v).
Definition set_prev (p v : Z) : PhysState -> PhysState := set_mem (fun m => store32 m (p + 4) v).

(** ** The macros of physmem.h *)

Definition PAGE_MAP_IDX (addr order : Z) : Z :=
  Z.shiftr addr (KERNEL_PAGE_SIZE_IN_BITS + 1 + KERNEL_BYTE_IN_BITS + order).
Definition PAGE_MAP_BIT (addr order : Z) : Z :=
  Z.land (Z.shiftr addr (KERNEL_PAGE_SIZE_IN_BITS + 1 + order))
         (Z.shiftl 1 KERNEL_BYTE_IN_BITS - 1).

Definition page_map (s : PhysState) (order idx : Z) : Z :=
  default 0 (Page_maps s !! (order, idx)).
Definition PAGE_MAP_ISBITSET (addr order : Z) (s : PhysState) : bool :=
  0 <? Z.land (page_map s order (PAGE_MAP_IDX addr order))
              (Z.shiftl 1 (PAGE_MAP_BIT addr order)).
Definition PAGE_MAP_SETBIT (addr order : Z) (s : PhysState) : PhysState :=
  set_maps (<[(order, PAGE_MAP_IDX addr order) :=
    wrap8 (Z.lor (page_map s order (PAGE_MAP_IDX addr order))
                 (Z.shiftl 1 (PAGE_MAP_BIT addr order)))]>) s.
Definition PAGE_MAP_CLEARBIT (addr order : Z) (s : PhysState) : PhysState :=
  set_maps (<[(order, PAGE_MAP_IDX addr order) :=
    wrap8 (Z.land (page_map s order (PAGE_MAP_IDX addr order))
                  (Z.lnot (Z.shiftl 1 (PAGE_MAP_BIT addr order))))]>) s.
Definition PAGE_MAP_TOGGLEBIT (addr order : Z) (s : PhysState) : PhysState :=
  set_maps (<[(order, PAGE_MAP_IDX addr order) :=
    wrap8 (Z.lxor (page_map s order (PAGE_MAP_IDX addr order))
                  (Z.shiftl 1 (PAGE_MAP_BIT addr order)))]>) s.

Definition PAGE_BUDDY (addr order : Z) : Z :=
  if addr mod Z.shiftl 1 (KERNEL_PAGE_SIZE_IN_BITS + 1 + order) =? 0
  then addr ⊕ Z.shiftl 1 (KERNEL_PAGE_SIZE_IN_BITS + order)
  else addr ⊖ Z.shiftl 1 (KERNEL_PAGE_SIZE_IN_BITS + order).

Definition PAGE_SIZE_AT_ORDER (order : Z) : Z := Z.shiftl 1 (KERNEL_PAGE_SIZE_IN_BITS + order).

Definition Page_maps_size (order : Z) : Z :=
  (KERNEL_MMAP_VIRTUAL_END - KERNEL_MMAP_VIRTUAL_START) / (Z.shiftl 0x10000 order).

(** ** The lock around the operations *)

Definition page_lock (s : PhysState) : option PhysState :=
  tl ← IRQLock_Acquire (current s) (Page_operation_lock s);
  Some (set_lock tl s).
Definition page_unlock (s : PhysState) : PhysState :=
  set_lock (IRQLock_Release (current s) (Page_operation_lock s)) s.

(** ** Page_Release *)

(** [while (true) { toggle; if (...) break; i++; }]: [i] is a [uint8_t], so
    256 iterations always reach [PAGE_MAX_ORDER]. *)
Fixpoint release_scan (fuel : nat) (addr i : Z) (s : PhysState) : option (Z * PhysState) :=
  match fuel with
  | O => None
  | S f =>
      let s := PAGE_MAP_TOGGLEBIT addr i s in
      if (i =? PAGE_MAX_ORDER) || PAGE_MAP_ISBITSET addr i s then Some (i, s)
      else release_scan f addr (wrap8 (i + 1)) s
  end.

(** One iteration of [while (j < i)]: take the buddy off the list of order [j]. *)
Definition release_unlink_buddy (addr j : Z) (s : PhysState) : PhysState :=
  let buddy := PAGE_BUDDY addr j ⊕ KERNEL_HIGHER_HALF_OFFSET in
  let s := if negb (pl_prev s buddy =? PAGE_LIST_NULL)
           then set_next (pl_prev s buddy) (pl_next s buddy) s else s in
  let s := if negb (pl_next s buddy =? PAGE_LIST_NULL)
           then set_prev (pl_next s buddy) (pl_prev s buddy) s else s in
  let s := if pl_prev s buddy =? PAGE_LIST_NULL
           then set_page_list j (pl_next s buddy) s else s in
  let s := set_prev buddy 0 s in
  let s := set_next buddy 0 s in
  s.

Fixpoint release_unlink (n : nat) (addr j : Z) (s : PhysState) : PhysState :=
  match n with
  | O => s
  | S n' => release_unlink n' addr (j + 1) (release_unlink_buddy addr j s)
  end.

(** Push a block on the list of its order. *)
Definition push_block (ptr order : Z) (s : PhysState) : PhysState :=
  let s := set_prev ptr PAGE_LIST_NULL s in
  let s := set_next ptr (page_list s order) s in
  let s := if negb (page_list s order =? PAGE_LIST_NULL)
           then set_prev (page_list s order) ptr s else s in
  let s := set_page_list order ptr s in
  s.

Definition Page_Release (pointer order : Z) (s : PhysState) : option PhysState :=
  if pointer =? PAGE_LIST_NULL then Some s
  else
    s ← page_lock s;
    let addr := pointer ⊖ KERNEL_HIGHER_HALF_OFFSET in
    '(i, s) ← release_scan 256 addr order s;
    let s := release_unlink (Z.to_nat (i - order)) addr order s in
    let pagelist_ptr :=
      Z.land addr (Z.lnot (Z.shiftl 1 (12 + i) - 1)) ⊕ KERNEL_HIGHER_HALF_OFFSET in
    let s := push_block pagelist_ptr i s in
    Some (page_unlock s).

(** ** Page_Acquire *)

(** The first loop: [None] is the [return PAGE_LIST_NULL] inside it. *)
Fixpoint acquire_find (fuel : nat) (i : Z) (s : PhysState) : option Z :=
  match fuel with
  | O => Some i
  | S f =>
      if i <=? PAGE_MAX_ORDER then
        if negb (page_list s i =? PAGE_LIST_NULL) then Some i
        else if i =? PAGE_MAX_ORDER then None
        else acquire_find f (i + 1) s
      else Some i
  end.

(** The body of [for (int8_t j = i; j >= order; j--)]. *)
Definition acquire_step (i j addr : Z) (s : PhysState) : PhysState :=
  let s := PAGE_MAP_TOGGLEBIT addr j s in
  if j =? i then
    let s := set_page_list j (pl_next s (page_list s j)) s in
    if negb (page_list s j =? PAGE_LIST_NULL)
    then set_prev (page_list s j) PAGE_LIST_NULL s else s
  else
    let breakup_addr := addr ⊕ Z.shiftl 1 (12 + j) in
    let s := set_page_list j (breakup_addr ⊕ KERNEL_HIGHER_HALF_OFFSET) s in
    let s := set_next (page_list s j) PAGE_LIST_NULL s in
    let s := set_prev (page_list s j) PAGE_LIST_NULL s in
    s.

Fixpoint acquire_loop (n : nat) (i j addr : Z) (s : PhysState) : PhysState :=
  match n with
  | O => s
  | S n' => acquire_loop n' i (j - 1) addr (acquire_step i j addr s)
  end.

Definition Page_Acquire (order : Z) (s : PhysState) : option (Z * PhysState) :=
  s ← page_lock s;
  match acquire_find 256 order s with
  | None => Some (PAGE_LIST_NULL, s)
  | Some i =>
      let page := page_list s i in
      let addr := page ⊖ KERNEL_HIGHER_HALF_OFFSET in
      let s := acquire_loop (Z.to_nat (i - order + 1)) i i addr s in
      Some (page, page_unlock s)
  end.

(** ** Page_MapMemoryChunk *)

Definition chunk_max_order (size : Z) : Z :=
  fold_left (fun max_order i => if PAGE_SIZE_AT_ORDER (Z.of_nat i) <=? size
                                then Z.of_nat i else max_order) (seq 0 11) 0.

(** The [for] loop over the central part: [n] iterations left, at index [i]
    of [count]. *)
Fixpoint map_central (n : nat) (base_central count i max_order : Z) (s : PhysState) : PhysState :=
  match n with
  | O => s
  | S n' =>
      let page_ptr := wrap32 (base_central + (count - 1 - i) * PAGE_SIZE_AT_ORDER max_order) in
      let plist := page_ptr ⊕ KERNEL_HIGHER_HALF_OFFSET in
      let s := push_block plist max_order s in
      let s := PAGE_MAP_SETBIT page_ptr max_order s in
      map_central n' base_central count (i + 1) max_order s
  end.

Fixpoint map_chunk (fuel : nat) (chunk_base chunk_size : Z) (s : PhysState) : option PhysState :=
  match fuel with
  | O => None
  | S f =>
      if chunk_size =? 0 then Some s
      else if chunk_base <? KERNEL_MMAP_LOWMEM_END - KERNEL_HIGHER_HALF_OFFSET then Some s
      else if KERNEL_MMAP_VIRTUAL_END - KERNEL_HIGHER_HALF_OFFSET <=? chunk_base then Some s
      else
        let base := wrap32 chunk_base in
        let size := wrap32 (if 0x100000000 <? wrap64 (chunk_base + chunk_size)
                            then wrap64 (0x100000000 - chunk_base) else chunk_size) in
        let max_order := chunk_max_order size in
        let ps := PAGE_SIZE_AT_ORDER max_order in
        let base_lowskim := base in
        let size_lowskim := if base mod ps =? 0 then 0 else ps ⊖ (base mod ps) in
        let base_topskim := Z.land (base ⊕ size) (Z.lnot (ps - 1)) in
        let size_topskim := base ⊕ size ⊖ base_topskim in
        let base_central := base_lowskim ⊕ size_lowskim in
        let size_central := base_topskim ⊖ base_central in
        let count := size_central / ps in
        s ← map_chunk f base_topskim size_topskim s;
        let s := map_central (Z.to_nat count) base_central count 0 max_order s in
        map_chunk f base_lowskim size_lowskim s
  end.

(** A page-aligned chunk loses at least one order at each level of the
    recursion, so twelve levels are enough. *)
Definition Page_MapMemoryChunk (chunk_base chunk_size : Z) (s : PhysState) : option PhysState :=
  map_chunk 12 chunk_base chunk_size s.

(** ** Page_BuddyMaps_Initialize *)

Fixpoint clear_map (n : nat) (order : Z) (maps : gmap (Z * Z) Z) : gmap (Z * Z) Z :=
  match n with
  | O => maps
  | S n' => clear_map n' order (<[(order, Z.of_nat n') := 0]> maps)
  end.
Definition clear_maps (maps : gmap (Z * Z) Z) : gmap (Z * Z) Z :=
  fold_left (fun ms i => clear_map (Z.to_nat (Page_maps_size (Z.of_nat i))) (Z.of_nat i) ms)
            (seq 0 11) maps.

Definition MULTIBOOT_TAG_TYPE_RAM_INFO_PAGE_ALIGNED : Z := 99.

(** The walk over the tags of the boot information: the address of the
    entries and their number, as of the last tag of the wanted type. *)
Fixpoint find_ram_info (fuel : nat) (m : Mem) (mbi_tag mmap nentries : Z) : option (Z * Z) :=
  match fuel with
  | O => None
  | S f =>
      let type := load32 m mbi_tag in
      let size := load32 m (mbi_tag + 4) in
      if type =? 0 then Some (mmap, nentries)
      else
        let next := mbi_tag ⊕ Z.land (size ⊕ 7) (Z.lnot 7) in
        if type =? MULTIBOOT_TAG_TYPE_RAM_INFO_PAGE_ALIGNED then
          let entry_size := load32 m (mbi_tag + 8) in
          find_ram_info f m next (mbi_tag ⊕ 16)
            (if entry_size =? 0 then 0 else (size ⊖ 16) / entry_size)
        else find_ram_info f m next mmap nentries
  end.

Fixpoint map_entries (n : nat) (mmap : Z) (s : PhysState) : option PhysState :=
  match n with
  | O => Some s
  | S k =>
      let e := mmap + 16 * Z.of_nat k in
      s ← Page_MapMemoryChunk (load64 (mem s) e) (load64 (mem s) (e + 8)) s;
      map_entries k mmap s
  end.

Definition Page_BuddyMaps_Initialize (tag_fuel : nat) (BootInfo : Z) (s : PhysState)
  : option PhysState :=
  let s := set_maps clear_maps s in
  '(mmap, mmap_nentries) ← find_ram_info tag_fuel (mem s) (BootInfo ⊕ 8) 0 0;
  if (mmap =? 0) || (mmap_nentries =? 0) then Some s
  else
    s ← map_entries (Z.to_nat mmap_nentries) mmap s;
    Some (set_lock (current s, IRQLock_Initialize (Page_operation_lock s)) s).
