(* ===== verification/PhysInv.v ===== *)
(** * The invariant of the page allocator

    The free lists are related to an abstract state, a function from orders
    to lists of physical addresses; the buddy bitmaps are related to the same
    abstract state. The lemmas here say how each elementary step of
    [PhysMem.v] acts on that relation. *)

From S2P Require Import Prelude CMem Sync Setup PhysMem.

(** ** Block sizes *)

Definition bsz (o : Z) : Z := 2 ^ (12 + o).

Lemma bsz_succ o : 0 <= o -> bsz (o + 1) = 2 * bsz o.
Proof. intros. unfold bsz. rewrite Z.add_assoc, Z.pow_add_r by lia. lia. Qed.

Lemma bsz_0 : bsz 0 = 4096.
Proof. reflexivity. Qed.

Lemma bsz_divide o k : 0 <= o <= k -> (bsz o | bsz k).
Proof.
  intros. exists (2 ^ (k - o)). unfold bsz. rewrite <- Z.pow_add_r by lia. f_equal. lia.
Qed.

Lemma bsz_le o k : 0 <= o <= k -> bsz o <= bsz k.
Proof. intros. apply Z.pow_le_mono_r; lia. Qed.

Lemma bsz_ge o : 0 <= o -> 4096 <= bsz o.
Proof. intros. rewrite <- bsz_0. by apply bsz_le. Qed.

Lemma bsz_max o : 0 <= o <= 10 -> bsz o <= 4194304.
Proof. intros. change 4194304 with (bsz 10). by apply bsz_le. Qed.

Lemma bsz_lt o k : 0 <= o < k -> 2 * bsz o <= bsz k.
Proof. intros. rewrite <- bsz_succ by lia. apply bsz_le. lia. Qed.

Lemma shiftl_bsz o : 0 <= o -> Z.shiftl 1 (12 + o) = bsz o.
Proof. intros. rewrite Z.shiftl_mul_pow2 by lia. unfold bsz. lia. Qed.

Lemma page_divide o a : 0 <= o -> (bsz o | a) -> (4096 | a).
Proof. intros Ho. apply Z.divide_trans. rewrite <- bsz_0. apply bsz_divide. lia. Qed.

(** Two multiples of the same number are equal or at least that far apart. *)
Lemma multiples_apart n a b :
  0 < n -> (n | a) -> (n | b) -> a <> b -> a + n <= b \/ b + n <= a.
Proof. intros Hn [x ->] [y ->] Hne. assert (x <> y) by congruence. nia. Qed.

(** Aligned blocks are nested or apart: the smaller one lies inside the larger
    one, or they do not meet. *)
Lemma aligned_nested o k a b :
  0 <= o <= k -> (bsz o | a) -> (bsz k | b) ->
  (b <= a /\ a + bsz o <= b + bsz k) \/ a + bsz o <= b \/ b + bsz k <= a.
Proof.
  intros Hok Ha Hb. assert ((bsz o | b)) as Hb'
    by (eapply Z.divide_trans; [apply bsz_divide|]; done).
  assert ((bsz o | b + bsz k)) as Hbk by (apply Z.divide_add_r; [done|by apply bsz_divide]).
  pose proof (bsz_ge o ltac:(lia)).
  destruct (decide (a = b)) as [->|]; [left; pose proof (bsz_le o k Hok); lia|].
  destruct (decide (a = b + bsz k)) as [->|]; [lia|].
  pose proof (multiples_apart (bsz o) a b ltac:(lia) Ha Hb' ltac:(done)).
  pose proof (multiples_apart (bsz o) a (b + bsz k) ltac:(lia) Ha Hbk ltac:(done)). lia.
Qed.

(** ** Abstract state *)

Abbreviation FreeLists := (Z -> list Z).

Record block_ok (o a : Z) : Prop := {
  ok_order : 0 <= o <= 10;
  ok_align : (bsz o | a);
  ok_low : 0x100000 <= a;
  ok_high : a + bsz o <= 0x70000000
}.

Definition apart (o a o' a' : Z) : Prop := a + bsz o <= a' \/ a' + bsz o' <= a.

Record blocks_inv (F : FreeLists) : Prop := {
  bi_ok : forall o a, 0 <= o <= 10 -> a ∈ F o -> block_ok o a;
  bi_nodup : forall o, 0 <= o <= 10 -> NoDup (F o);
  bi_apart : forall o a o' a', 0 <= o <= 10 -> 0 <= o' <= 10 ->
    a ∈ F o -> a' ∈ F o' -> (o, a) <> (o', a') -> apart o a o' a'
}.

(** A byte of some free block. *)
Definition free_byte (F : FreeLists) (x : Z) : Prop :=
  exists o a, 0 <= o <= 10 /\ a ∈ F o /\ a <= x < a + bsz o.

(** A block that belongs to nobody on the lists. *)
Definition standing (F : FreeLists) (o a : Z) : Prop :=
  block_ok o a /\ forall o' a', 0 <= o' <= 10 -> a' ∈ F o' -> apart o a o' a'.

Definition upd (F : FreeLists) (o : Z) (l : list Z) : FreeLists :=
  fun o' => if o' =? o then l else F o'.

Lemma upd_eq F o l : upd F o l o = l.
Proof. unfold upd. by rewrite Z.eqb_refl. Qed.
Lemma upd_ne F o l o' : o' <> o -> upd F o l o' = F o'.
Proof. unfold upd. intros. by case_cmp. Qed.

(** ** Linked lists in memory *)

Definition K (a : Z) : Z := a + 0x80000000.

Definition ptr_or (l : list Z) (nxt : Z) : Z :=
  match l with [] => nxt | a :: _ => K a end.
Definition last_or (l : list Z) (prv : Z) : Z :=
  match last l with None => prv | Some a => K a end.

(** [l] is a segment of a doubly linked list: [prv] comes before it and [nxt]
    after it. *)
Fixpoint dseg (m : Mem) (prv : Z) (l : list Z) (nxt : Z) : Prop :=
  match l with
  | [] => True
  | a :: l' =>
      load32 m (K a) = ptr_or l' nxt /\ load32 m (K a + 4) = prv /\ dseg m (K a) l' nxt
  end.

Definition page_ok (a : Z) : Prop := (4096 | a) /\ 0 <= a < 0x70000000.

Lemma block_page_ok o a : block_ok o a -> page_ok a.
Proof.
  intros [Ho Ha Hl Hh]. split; [by apply (page_divide o); [lia|]|].
  pose proof (bsz_ge o). lia.
Qed.

Lemma pages_apart a b : page_ok a -> page_ok b -> a <> b -> a + 4096 <= b \/ b + 4096 <= a.
Proof. intros [Ha _] [Hb _] Hne. apply multiples_apart; [lia|done..]. Qed.

(** Writing the header of one page leaves the others alone. *)
Lemma load_header_ne m a b x y v :
  page_ok a -> page_ok b -> a <> b -> 0 <= x <= 4 -> 0 <= y <= 4 ->
  load32 (store32 m (K b + x) v) (K a + y) = load32 m (K a + y).
Proof.
  intros Ha Hb Hne Hx Hy. pose proof (pages_apart a b Ha Hb Hne).
  destruct Ha as [_ Ha], Hb as [_ Hb]. apply load32_store32_ne; unfold K; lia.
Qed.

Lemma dseg_ext m m' prv l nxt :
  (forall a, a ∈ l -> load32 m' (K a) = load32 m (K a) /\ load32 m' (K a + 4) = load32 m (K a + 4)) ->
  dseg m prv l nxt -> dseg m' prv l nxt.
Proof.
  revert prv. induction l as [|a l IH]; intros prv Hm; cbn [dseg]; [done|].
  intros (H1 & H2 & H3). destruct (Hm a ltac:(set_solver)) as [-> ->].
  split; [done|]. split; [done|]. apply IH; [|done]. intros b Hb. apply Hm. set_solver.
Qed.

Lemma dseg_store_out m prv l nxt b x v :
  page_ok b -> Forall page_ok l -> b ∉ l -> x = 0 \/ x = 4 ->
  dseg m prv l nxt -> dseg (store32 m (K b + x) v) prv l nxt.
Proof.
  intros Hb Hl Hnin Hx. apply dseg_ext. intros a Ha. rewrite Forall_forall in Hl.
  assert (a <> b) by congruence. specialize (Hl a Ha).
  split; [rewrite <- (Z.add_0_r (K a))|]; apply load_header_ne; lia || done.
Qed.

Lemma dseg_store_out0 m prv l nxt b v :
  page_ok b -> Forall page_ok l -> b ∉ l ->
  dseg m prv l nxt -> dseg (store32 m (K b) v) prv l nxt.
Proof. intros. rewrite <- (Z.add_0_r (K b)). apply dseg_store_out; tauto. Qed.

Lemma last_or_cons a l prv : last_or (a :: l) prv = last_or l (K a).
Proof. unfold last_or. rewrite last_cons. by destruct (last l). Qed.

Lemma dseg_app m prv l1 l2 nxt :
  dseg m prv (l1 ++ l2) nxt <->
  dseg m prv l1 (ptr_or l2 nxt) /\ dseg m (last_or l1 prv) l2 nxt.
Proof.
  revert prv. induction l1 as [|a l1 IH]; intros prv; cbn [dseg app].
  - unfold last_or. cbn. tauto.
  - rewrite IH, last_or_cons. assert (ptr_or (l1 ++ l2) nxt = ptr_or l1 (ptr_or l2 nxt)) as ->
      by by destruct l1. tauto.
Qed.

(** Redirecting the [next] field of the last node of a segment. *)
Lemma dseg_set_last m prv l a nxt nxt' :
  page_ok a -> Forall page_ok l -> a ∉ l ->
  dseg m prv (l ++ [a]) nxt -> dseg (store32 m (K a) nxt') prv (l ++ [a]) (wrap32 nxt').
Proof.
  intros Ha Hl Hnin. rewrite !dseg_app. intros [H1 (H2 & H3 & _)]. split.
  - by apply dseg_store_out0.
  - cbn [dseg ptr_or] in *. destruct Ha as [_ Ha]. split; [|split; [|done]].
    + apply load32_store32_eq. unfold K. lia.
    + rewrite load32_store32_ne by (unfold K; lia). done.
Qed.

(** Redirecting the [prev] field of the first node. *)
Lemma dseg_set_first m prv prv' a l nxt :
  page_ok a -> Forall page_ok l -> a ∉ l ->
  dseg m prv (a :: l) nxt -> dseg (store32 m (K a + 4) prv') (wrap32 prv') (a :: l) nxt.
Proof.
  intros Ha Hl Hnin. cbn [dseg]. intros (H1 & _ & H3). pose proof Ha as [_ Ha']. split; [|split].
  - rewrite load32_store32_ne by (unfold K; lia). done.
  - apply load32_store32_eq. unfold K. lia.
  - apply dseg_store_out; [done..|by right|done].
Qed.

(** ** Bitmaps *)

Definition mapbit (s : PhysState) (o n : Z) : bool :=
  Z.testbit (page_map s o (n / 8)) (n mod 8).

Lemma map_index addr o :
  0 <= addr -> 0 <= o ->
  PAGE_MAP_IDX addr o = addr / bsz (o + 1) / 8 /\ PAGE_MAP_BIT addr o = (addr / bsz (o + 1)) mod 8.
Proof.
  intros Ha Ho. unfold PAGE_MAP_IDX, PAGE_MAP_BIT, KERNEL_PAGE_SIZE_IN_BITS, KERNEL_BYTE_IN_BITS.
  rewrite !Z.shiftr_div_pow2 by lia. unfold bsz. split.
  - rewrite Z.div_div by lia. f_equal. change 8 with (2 ^ 3).
    rewrite <- Z.pow_add_r by lia. f_equal. lia.
  - change (Z.shiftl 1 3 - 1) with (Z.ones 3). rewrite Z.land_ones by lia.
    do 3 f_equal. lia.
Qed.

Lemma ISBITSET_mapbit addr o s :
  0 <= addr -> 0 <= o -> PAGE_MAP_ISBITSET addr o s = mapbit s o (addr / bsz (o + 1)).
Proof.
  intros Ha Ho. unfold PAGE_MAP_ISBITSET, mapbit. destruct (map_index addr o Ha Ho) as [-> ->].
  apply land_bit_pos. apply Z.mod_pos_bound. lia.
Qed.

Lemma index_split n n' : n / 8 = n' / 8 -> n mod 8 = n' mod 8 -> n = n'.
Proof. intros H1 H2. rewrite (Z.div_mod n 8), (Z.div_mod n' 8) by lia. congruence. Qed.

(** A byte update through [f] changes one bit when [f] does. *)
Lemma mapbit_update s o n o' n' v b :
  0 <= n -> 0 <= n' ->
  (forall i, 0 <= i < 8 -> Z.testbit v i =
     if i =? n mod 8 then b else Z.testbit (page_map s o (n / 8)) i) ->
  mapbit (set_maps (<[(o, n / 8) := wrap8 v]>) s) o' n' =
    if (o' =? o) && (n' =? n) then b else mapbit s o' n'.
Proof.
  intros Hn Hn' Hv. unfold mapbit, page_map. cbn [Page_maps set_maps].
  pose proof (Z.mod_pos_bound n' 8 ltac:(lia)).
  destruct (decide ((o, n / 8) = (o', n' / 8))) as [[= <- Hidx]|Hne].
  - rewrite <- Hidx, lookup_insert_eq. cbn. rewrite Z.eqb_refl, testbit_wrap8, Hv by done.
    unfold page_map. case_cmp; case_cmp; cbn; try done.
    + subst. exfalso. apply n0. apply index_split; [done|lia].
    + subst. done.
  - rewrite lookup_insert_ne by done.
    destruct (Z.eqb_spec o' o), (Z.eqb_spec n' n); cbn; try done. subst. done.
Qed.

Lemma mapbit_toggle addr o s o' n' :
  0 <= addr -> 0 <= o -> 0 <= n' ->
  mapbit (PAGE_MAP_TOGGLEBIT addr o s) o' n' =
    if (o' =? o) && (n' =? addr / bsz (o + 1)) then negb (mapbit s o' n') else mapbit s o' n'.
Proof.
  intros Ha Ho Hn. unfold PAGE_MAP_TOGGLEBIT. destruct (map_index addr o Ha Ho) as [-> ->].
  pose proof (bsz_ge (o + 1) ltac:(lia)).
  set (n := addr / bsz (o + 1)). assert (0 <= n) by (apply Z.div_pos; lia).
  rewrite (mapbit_update _ _ _ _ _ _ (negb (mapbit s o n))); [|done..|].
  - destruct (Z.eqb_spec o' o), (Z.eqb_spec n' n); cbn; subst; done.
  - intros i Hi. pose proof (Z.mod_pos_bound n 8 ltac:(lia)).
    rewrite Z.lxor_spec, testbit_1_shiftl by lia. unfold mapbit.
    case_cmp; [subst; apply xorb_true_r|apply xorb_false_r].
Qed.

Lemma mapbit_set addr o s o' n' :
  0 <= addr -> 0 <= o -> 0 <= n' ->
  mapbit (PAGE_MAP_SETBIT addr o s) o' n' =
    if (o' =? o) && (n' =? addr / bsz (o + 1)) then true else mapbit s o' n'.
Proof.
  intros Ha Ho Hn. unfold PAGE_MAP_SETBIT. destruct (map_index addr o Ha Ho) as [-> ->].
  pose proof (bsz_ge (o + 1) ltac:(lia)).
  set (n := addr / bsz (o + 1)). assert (0 <= n) by (apply Z.div_pos; lia).
  apply mapbit_update; [done..|].
  intros i Hi. pose proof (Z.mod_pos_bound n 8 ltac:(lia)).
  rewrite Z.lor_spec, testbit_1_shiftl by lia. case_cmp; [apply orb_true_r|apply orb_false_r].
Qed.

(** The bit of a pair of buddies tells whether exactly one of them is free at
    that order. *)
Definition pair_free (F : FreeLists) (o n : Z) : bool :=
  xorb (bool_decide (2 * n * bsz o ∈ F o)) (bool_decide ((2 * n + 1) * bsz o ∈ F o)).

Definition bits_inv (s : PhysState) (F : FreeLists) : Prop :=
  forall o n, 0 <= o <= 9 -> 0 <= n -> mapbit s o n = pair_free F o n.

Record lists_inv (s : PhysState) (F : FreeLists) : Prop := {
  li_len : length (Page_lists s) = 11%nat;
  li_head : forall o, 0 <= o <= 10 -> page_list s o = ptr_or (F o) PAGE_LIST_NULL;
  li_dseg : forall o, 0 <= o <= 10 -> dseg (mem s) PAGE_LIST_NULL (F o) PAGE_LIST_NULL
}.

Record phys_inv (s : PhysState) (F : FreeLists) : Prop := {
  pi_blocks : blocks_inv F;
  pi_lists : lists_inv s F;
  pi_bits : bits_inv s F
}.

(** ** Moving the invariants along *)

Lemma lists_inv_ext s s' F :
  mem s' = mem s -> Page_lists s' = Page_lists s -> lists_inv s F -> lists_inv s' F.
Proof.
  intros Hm Hl [H1 H2 H3]. unfold page_list in *. split; unfold page_list; rewrite ?Hm, ?Hl; done.
Qed.

Lemma bits_inv_ext s s' F : Page_maps s' = Page_maps s -> bits_inv s F -> bits_inv s' F.
Proof. intros Hm H o n Ho Hn. rewrite <- (H o n Ho Hn). unfold mapbit, page_map. by rewrite Hm. Qed.

Lemma page_list_set s i v o :
  length (Page_lists s) = 11%nat -> 0 <= i <= 10 -> 0 <= o <= 10 ->
  page_list (set_page_list i v s) o = if o =? i then v else page_list s o.
Proof.
  intros Hlen Hi Ho. unfold page_list. cbn. case_cmp.
  - subst. apply list_lookup_total_insert_eq. lia.
  - apply list_lookup_total_insert_ne. lia.
Qed.

Lemma free_pages_ok F o : blocks_inv F -> 0 <= o <= 10 -> Forall page_ok (F o).
Proof. intros [Hok _ _] Ho. apply Forall_forall. intros a Ha. eapply block_page_ok. by apply Hok. Qed.

(** Different free blocks start at different pages. *)
Lemma free_pages_ne F o a o' a' :
  blocks_inv F -> 0 <= o <= 10 -> 0 <= o' <= 10 -> o <> o' -> a ∈ F o -> a' ∈ F o' -> a <> a'.
Proof.
  intros [Hok _ Hap] Ho Ho' Hne Ha Ha' ->.
  destruct (Hap o a' o' a' Ho Ho' Ha Ha' ltac:(congruence));
    pose proof (bsz_ge o); pose proof (bsz_ge o'); lia.
Qed.

Lemma standing_not_free F o a o' :
  standing F o a -> 0 <= o' <= 10 -> a ∉ F o'.
Proof.
  intros [Hb Hap] Ho' Ha. destruct Hb as [Ho _ _ _]. pose proof (Hap o' a Ho' Ha).
  pose proof (bsz_ge o). pose proof (bsz_ge o'). unfold apart in *. lia.
Qed.

(** Replacing one list. *)
Lemma blocks_inv_remove F o l1 a l2 :
  blocks_inv F -> 0 <= o <= 10 -> F o = l1 ++ a :: l2 ->
  blocks_inv (upd F o (l1 ++ l2)) /\ standing (upd F o (l1 ++ l2)) o a.
Proof.
  intros [Hok Hnd Hap] Ho HF.
  pose proof (Hnd o Ho) as Hndo. rewrite HF in Hndo.
  apply NoDup_app in Hndo as (Hn1 & Hn12 & [Hna Hn2]%NoDup_cons).
  assert (forall o' x, 0 <= o' <= 10 -> x ∈ upd F o (l1 ++ l2) o' -> x ∈ F o' /\ (o', x) <> (o, a)) as Hsub.
  { intros o' x Ho' Hx. unfold upd in Hx. destruct (Z.eqb_spec o' o) as [->|].
    - split; [rewrite HF; set_solver|]. intros [= ->]. set_solver.
    - split; [done|congruence]. }
  split; [split|split].
  - intros o' x Ho' Hx. apply Hok; [done|]. by apply Hsub in Hx as [? _].
  - intros o' Ho'. unfold upd. case_cmp; [|by apply Hnd]. apply NoDup_app.
    split; [done|]. split; [set_solver|done].
  - intros o1 x1 o2 x2 Ho1 Ho2 H1%Hsub H2%Hsub Hne; [|done..]. apply Hap; tauto.
  - apply Hok; [done|]. rewrite HF. set_solver.
  - intros o' x Ho' Hx. apply Hsub in Hx as [Hx Hne]; [|done].
    apply Hap; [done..|rewrite HF; set_solver|done|congruence].
Qed.

Lemma blocks_inv_add F o a :
  blocks_inv F -> standing F o a -> blocks_inv (upd F o (a :: F o)).
Proof.
  intros Hbi Hst. pose proof (standing_not_free _ _ _ o Hst) as Hnin.
  destruct Hbi as [Hok Hnd Hap], Hst as [Hb Hs]. pose proof Hb as [Ho _ _ _].
  assert (forall o' x, x ∈ upd F o (a :: F o) o' -> x ∈ F o' \/ (o' = o /\ x = a)) as Hsub.
  { intros o' x. unfold upd. case_cmp; [subst|]; set_solver. }
  split.
  - intros o' x Ho' [Hx|[-> ->]]%Hsub; [by apply Hok|done].
  - intros o' Ho'. unfold upd. case_cmp; [subst|by apply Hnd].
    apply NoDup_cons. split; [by apply Hnin|by apply Hnd].
  - intros o1 x1 o2 x2 Ho1 Ho2 [H1|[-> ->]]%Hsub [H2|[-> ->]]%Hsub Hne.
    + by apply Hap.
    + specialize (Hs o1 x1 Ho1 H1). unfold apart in *. lia.
    + by apply Hs.
    + done.
Qed.

(** ** Bits *)

Lemma pair_index q b n :
  0 < b -> xorb (bool_decide (2 * n * b = q * b)) (bool_decide ((2 * n + 1) * b = q * b))
           = (n =? q * b / (2 * b)).
Proof.
  intros Hb. rewrite Z.div_mul_cancel_r by lia.
  assert (forall x, bool_decide (x * b = q * b) = (x =? q)) as E.
  { intros x. case_cmp; [subst; apply bool_decide_eq_true_2; lia|].
    apply bool_decide_eq_false_2. nia. }
  rewrite !E. repeat case_cmp; cbn; try done; exfalso; zdiv.
Qed.

(** Adding or removing one block flips the bit of its pair and no other. *)
Lemma pair_free_flip F o l a n :
  0 <= o -> (bsz o | a) ->
  (forall x, bool_decide (x ∈ l) = xorb (bool_decide (x ∈ F o)) (bool_decide (x = a))) ->
  pair_free (upd F o l) o n = xorb (pair_free F o n) (n =? a / bsz (o + 1)).
Proof.
  intros Ho [q ->] Hl. unfold pair_free. rewrite upd_eq, !Hl, bsz_succ by done.
  rewrite <- (pair_index q (bsz o) n) by (pose proof (bsz_ge o Ho); lia).
  repeat case_bool_decide; done.
Qed.

Lemma pair_free_upd_ne F o l o' n : o' <> o -> pair_free (upd F o l) o' n = pair_free F o' n.
Proof. intros H. unfold pair_free. by rewrite upd_ne. Qed.

Lemma flip_cons (l : list Z) a x :
  a ∉ l -> bool_decide (x ∈ a :: l) = xorb (bool_decide (x ∈ l)) (bool_decide (x = a)).
Proof. intros. repeat case_bool_decide; cbn; set_solver. Qed.

Lemma flip_remove (l1 l2 : list Z) a x :
  a ∉ l1 ++ l2 ->
  bool_decide (x ∈ l1 ++ l2) = xorb (bool_decide (x ∈ l1 ++ a :: l2)) (bool_decide (x = a)).
Proof. intros. repeat case_bool_decide; cbn; set_solver. Qed.

(** Toggling the bit of the pair of [addr] follows a flip of any block of
    that pair. *)
Lemma bits_inv_toggle s F o l a addr :
  0 <= addr -> 0 <= o <= 10 -> (bsz o | a) -> addr / bsz (o + 1) = a / bsz (o + 1) ->
  (forall x, bool_decide (x ∈ l) = xorb (bool_decide (x ∈ F o)) (bool_decide (x = a))) ->
  bits_inv s F -> bits_inv (PAGE_MAP_TOGGLEBIT addr o s) (upd F o l).
Proof.
  intros Haddr Ho Ha Hpair Hl Hbits o' n Ho' Hn.
  rewrite mapbit_toggle, Hpair by lia. destruct (Z.eqb_spec o' o) as [->|Hne]; cbn [andb].
  - rewrite (pair_free_flip F o l a n) by done || lia. rewrite (Hbits o n) by lia.
    case_cmp; [by rewrite xorb_true_r|by rewrite xorb_false_r].
  - rewrite pair_free_upd_ne by done. by apply Hbits.
Qed.

(** ** Ownership of memory *)

(** [m'] differs from [m] at most at the physical bytes in [P]. *)
Definition mem_frame (P : Z -> Prop) (m m' : Mem) : Prop :=
  forall b, 0 <= b < 4294967296 -> (forall x, b = K x -> ~ P x) -> load8 m' b = load8 m b.

Lemma mem_frame_refl P m : mem_frame P m m.
Proof. by intros b _ _. Qed.

Lemma mem_frame_trans P m1 m2 m3 : mem_frame P m1 m2 -> mem_frame P m2 m3 -> mem_frame P m1 m3.
Proof. intros H1 H2 b Hb Hx. by rewrite (H2 b Hb Hx), (H1 b Hb Hx). Qed.

Lemma mem_frame_weaken (P Q : Z -> Prop) m m' :
  (forall x, P x -> Q x) -> mem_frame P m m' -> mem_frame Q m m'.
Proof. intros HPQ H b Hb Hx. apply H; [done|]. intros x E HP. by apply (Hx x E), HPQ. Qed.

Lemma mem_frame_header (P : Z -> Prop) m a x v :
  page_ok a -> x = 0 \/ x = 4 -> (forall y, a <= y < a + 8 -> P y) ->
  mem_frame P m (store32 m (K a + x) v).
Proof.
  intros [_ Ha] Hx HP b Hb Hn. apply load8_store_ne; [unfold K; lia..|].
  destruct (decide (b < K a + x \/ K a + x + 4 <= b)); [by unfold K in *; lia|].
  exfalso. apply (Hn (b - 0x80000000)); [unfold K; lia|]. apply HP. unfold K in *. lia.
Qed.

Lemma mem_frame_header0 (P : Z -> Prop) m a v :
  page_ok a -> (forall y, a <= y < a + 8 -> P y) -> mem_frame P m (store32 m (K a) v).
Proof. intros Ha HP. rewrite <- (Z.add_0_r (K a)). apply mem_frame_header; tauto. Qed.

Lemma free_byte_block F o a y : 0 <= o <= 10 -> a ∈ F o -> a <= y < a + 8 -> free_byte F y.
Proof. intros Ho Ha Hy. exists o, a. pose proof (bsz_ge o ltac:(lia)). repeat split; done || lia. Qed.

(** ** The lock *)

Definition unlocked (s : PhysState) : Prop :=
  flag (lock (Page_operation_lock s)) = false /\ vetos_ok (current s).

(** What [page_unlock] leaves when the operation ran with the lock. *)
Definition released (s s' : PhysState) : Prop :=
  flag (lock (Page_operation_lock s')) = false /\
  intr_flag (current s') = intr_flag (current s) /\
  preemption_vetos (current s') = preemption_vetos (current s).

Definition same_lock (s s' : PhysState) : Prop :=
  Page_operation_lock s' = Page_operation_lock s /\ current s' = current s.

Lemma page_lock_unlocked s :
  unlocked s ->
  page_lock s = Some (set_lock
    (mkThread false (preemption_vetos (current s) ⊕ 1) 0xFF,
     mkIRQLock (mkSpinLock true) (restored_priority (current s))) s).
Proof.
  intros [Hf _]. unfold page_lock. destruct (Page_operation_lock s) as [[f] p]. cbn in Hf. by subst.
Qed.

Lemma page_lock_held s : flag (lock (Page_operation_lock s)) = true -> page_lock s = None.
Proof.
  intros Hf. unfold page_lock. destruct (Page_operation_lock s) as [[f] p]. cbn in Hf. by subst.
Qed.

Lemma page_unlock_released s s1 s2 :
  unlocked s -> page_lock s = Some s1 -> same_lock s1 s2 -> released s (page_unlock s2).
Proof.
  intros Hu Hl [Hl2 Hc2]. rewrite page_lock_unlocked in Hl by done. injection Hl as <-.
  unfold page_unlock. rewrite Hl2, Hc2. cbn [set_lock Page_operation_lock current fst snd].
  rewrite IRQLock_Release_after. destruct Hu as [_ Hv]. unfold vetos_ok in Hv.
  split; [done|]. split; [done|]. cbn. apply veto_inc_dec. unfold vetos_u32. lia.
Qed.

Lemma released_unlocked s s' : unlocked s -> released s s' -> unlocked s'.
Proof. intros [_ Hv] (H1 & _ & H2). split; [done|]. unfold vetos_ok. by rewrite H2. Qed.
