(* ===== verification/PhysAcquire.v ===== *)
(** * Page_Acquire is correct

    Putting a block on a list, taking the head of a list, the search for the first non-empty order, the removal of the head of its
    list and the splitting loop, each related to the abstract free lists. *)

From S2P Require Import Prelude CMem Sync Setup PhysMem PhysInv.



Lemma K_wrap a : page_ok a -> a ⊕ KERNEL_HIGHER_HALF_OFFSET = K a.
Proof. intros [_ Ha]. unfold KERNEL_HIGHER_HALF_OFFSET, K. apply wrap32_small. lia. Qed.

Lemma K_unwrap a : page_ok a -> K a ⊖ KERNEL_HIGHER_HALF_OFFSET = a.
Proof. intros [_ Ha]. unfold KERNEL_HIGHER_HALF_OFFSET, K. rewrite wrap32_small; lia. Qed.

Lemma K_not_null a : page_ok a -> (K a =? PAGE_LIST_NULL) = false.
Proof. intros [_ Ha]. apply Z.eqb_neq. unfold K, PAGE_LIST_NULL. lia. Qed.

Lemma ptr_or_null l : Forall page_ok l -> (ptr_or l PAGE_LIST_NULL =? PAGE_LIST_NULL) = bool_decide (l = []).
Proof.
  destruct l as [|a l]; [done|]. intros [Ha _]%Forall_cons. cbn. by rewrite K_not_null.
Qed.

Lemma K_wrapped a : page_ok a -> wrap32 (K a) = K a.
Proof. intros [_ Ha]. unfold K. apply wrap32_small. lia. Qed.

(** ** Putting a block on its list *)

Lemma push_block_lists s F o a :
  blocks_inv F -> standing F o a -> lists_inv s F ->
  let s' := push_block (K a) o s in
  lists_inv s' (upd F o (a :: F o)) /\ Page_maps s' = Page_maps s /\ same_lock s s' /\
  mem_frame (fun x => a <= x < a + 8 \/ free_byte F x) (mem s) (mem s').
Proof.
  intros Hb Hst [Hlen Hhead Hseg]. cbn zeta.
  pose proof (ok_order _ _ (proj1 Hst)) as Ho.
  pose proof (block_page_ok _ _ (proj1 Hst)) as Hpa. pose proof Hpa as [_ Hra].
  pose proof (free_pages_ok F o Hb Ho) as Hall.
  pose proof (standing_not_free F o a) as Hnin.
  pose (m2 := store32 (store32 (mem s) (K a + 4) PAGE_LIST_NULL) (K a) (page_list s o)).
  assert (forall o', 0 <= o' <= 10 -> dseg m2 PAGE_LIST_NULL (F o') PAGE_LIST_NULL) as Hseg2.
  { intros o' Ho'. unfold m2. 
    apply dseg_store_out0; [done|by apply free_pages_ok|by apply Hnin|].
    apply dseg_store_out; [done|by apply free_pages_ok|by apply Hnin|by right|]. by apply Hseg. }
  assert (load32 m2 (K a + 4) = PAGE_LIST_NULL) as Hp.
  { unfold m2. rewrite load32_store32_ne by (unfold K; lia). by rewrite load32_store32_eq by (unfold K; lia). }
  assert (load32 m2 (K a) = ptr_or (F o) PAGE_LIST_NULL) as Hn.
  { unfold m2. rewrite load32_store32_eq, Hhead by (done || unfold K; lia).
    destruct (F o) as [|b l]; [done|]. apply Forall_cons in Hall as [Hpb _]. by apply K_wrapped. }
  assert (mem_frame (fun x => a <= x < a + 8 \/ free_byte F x) (mem s) m2) as Hfr.
  { eapply mem_frame_trans; [apply mem_frame_header|apply mem_frame_header0]; tauto. }
  unfold push_block. change (page_list (set_next _ _ _) o) with (page_list s o).
  change (page_list (set_prev _ _ _) o) with (page_list s o).
  assert (forall s2, Page_lists s2 = Page_lists s -> forall o', 0 <= o' <= 10 ->
    page_list (set_page_list o (K a) s2) o' = ptr_or (upd F o (a :: F o) o') PAGE_LIST_NULL) as Hh2.
  { intros s2 E o' Ho'. rewrite page_list_set by (done || by rewrite E).
    unfold upd, page_list. rewrite E. case_cmp; [done|]. by apply Hhead. }
  assert ((page_list s o =? PAGE_LIST_NULL) = bool_decide (F o = [])) as ->
    by by rewrite Hhead, ptr_or_null.
  destruct (F o) as [|b l] eqn:HF; [rewrite bool_decide_true by done|rewrite bool_decide_false by done]; cbn [negb].
  - split; [|split; [done|split; [done|exact Hfr]]]. split; [by cbn; rewrite length_insert|by apply Hh2|].
    intros o' Ho'. change (mem _) with m2. unfold upd. case_cmp; [|by apply Hseg2]. done.
  - assert (page_list s o = K b) as EH by (by rewrite Hhead, HF). apply Forall_cons in Hall as [Hpb Hall].
    pose proof Hpb as [_ Hrb]. pose proof (bi_nodup F Hb o Ho) as Hnd. rewrite HF in Hnd.
    apply NoDup_cons in Hnd as [Hbl Hnd].
    assert (a <> b) as Hab by (specialize (Hnin o Hst Ho); rewrite HF in Hnin; set_solver).
    pose proof (pages_apart a b Hpa Hpb Hab).
    split; [split; [by cbn; rewrite length_insert|by apply Hh2|]|].
    + intros o' Ho'. change (mem _) with (store32 m2 (page_list s o + 4) (K a)); rewrite EH.
      unfold upd. destruct (Z.eqb_spec o' o) as [->|Hne].
      * specialize (Hseg2 o Ho). rewrite HF in Hseg2.
        change (dseg ?m ?p (a :: b :: l) ?n) with
          (load32 m (K a) = K b /\ load32 m (K a + 4) = p /\ dseg m (K a) (b :: l) n).
        split; [|split].
        -- by rewrite load32_store32_ne by (unfold K; lia).
        -- by rewrite load32_store32_ne by (unfold K; lia).
        -- rewrite <- (K_wrapped a Hpa) at 2. by eapply (dseg_set_first m2 PAGE_LIST_NULL (K a) b l).
      * apply dseg_store_out; [done|by apply free_pages_ok| |by right|by apply Hseg2].
        intros Hin. eapply (free_pages_ne F o' b o b); [done..| |done]. rewrite HF. set_solver.
    + split; [done|]. split; [done|]. change (mem (set_page_list _ _ _)) with (store32 m2 (page_list s o + 4) (K a)); rewrite EH.
      eapply mem_frame_trans; [exact Hfr|]. apply mem_frame_header; [done|by right|].
      intros y Hy. right. eapply free_byte_block; [exact Ho| |exact Hy]. rewrite HF. set_solver.
Qed.

(** A block that is not free, put on its list with its bit flipped, as both
    [Page_Release] and [Page_MapMemoryChunk] do. *)
Lemma push_inv s F o a :
  blocks_inv F -> standing F o a -> lists_inv s F ->
  bits_inv s (upd F o (a :: F o)) ->
  let s' := push_block (K a) o s in
  phys_inv s' (upd F o (a :: F o)) /\ same_lock s s' /\
  mem_frame (fun x => a <= x < a + 8 \/ free_byte F x) (mem s) (mem s').
Proof.
  intros Hb Hst Hl Hbits. destruct (push_block_lists s F o a Hb Hst Hl) as (H1 & H2 & H3 & H4).
  split; [|done]. split; [by apply blocks_inv_add|done|by eapply bits_inv_ext].
Qed.

Lemma bits_inv_add s F o a addr :
  0 <= addr -> addr / bsz (o + 1) = a / bsz (o + 1) -> standing F o a ->
  bits_inv s F -> bits_inv (PAGE_MAP_TOGGLEBIT addr o s) (upd F o (a :: F o)).
Proof.
  intros Haddr Hpair Hst Hbits. pose proof (ok_order _ _ (proj1 Hst)) as Ho.
  apply (bits_inv_toggle s F o (a :: F o) a addr); [done|done|apply (proj1 Hst)|done| |done].
  intros x. apply flip_cons. by apply standing_not_free with o.
Qed.

(** ** The empty allocator, and one with a single block *)

Definition phys_empty : PhysState :=
  mkPhys ∅ ∅ (replicate 11 PAGE_LIST_NULL) (IRQLock_Initialize (mkIRQLock (mkSpinLock false) 0))
         (mkThread true 0 0).
Definition no_blocks : FreeLists := fun _ => [].

Lemma phys_inv_empty : phys_inv phys_empty no_blocks.
Proof.
  split; [split| |].
  - by intros o a _ Ha%not_elem_of_nil.
  - intros o _. apply NoDup_nil_2.
  - by intros o a o' a' _ _ Ha%not_elem_of_nil.
  - split; [done| |done]. intros o Ho. unfold page_list. apply lookup_total_replicate_2. lia.
  - intros o n _ Hn. unfold mapbit, page_map, pair_free. cbn [phys_empty Page_maps].
    rewrite lookup_empty. apply Z.testbit_0_l.
Qed.

Definition phys_one (o a : Z) : PhysState := push_block (K a) o (PAGE_MAP_TOGGLEBIT a o phys_empty).

Lemma phys_one_ok o a :
  block_ok o a -> phys_inv (phys_one o a) (upd no_blocks o [a]) /\ unlocked (phys_one o a).
Proof.
  intros Hok. assert (standing no_blocks o a) as Hst by (split; [done|]; by intros ? ? _ ?%not_elem_of_nil).
  pose proof phys_inv_empty as [Hb Hl Hbits]. pose proof (ok_low _ _ Hok).
  destruct (push_inv (PAGE_MAP_TOGGLEBIT a o phys_empty) no_blocks o a) as (Hinv & [Hlock Hcur] & _).
  - done.
  - done.
  - by apply (lists_inv_ext phys_empty).
  - apply bits_inv_add; [lia|done..].
  - split; [exact Hinv|]. unfold unlocked, phys_one. by rewrite Hlock, Hcur.
Qed.

(** ** Taking the head of a list *)

(** A write into the header of a page that is on no list of the other orders. *)
Lemma lists_inv_store s F b x v o :
  blocks_inv F -> page_ok b -> x = 0 \/ x = 4 -> 0 <= o <= 10 -> b ∉ F o ->
  dseg (mem s) PAGE_LIST_NULL (F o) PAGE_LIST_NULL ->
  dseg (store32 (mem s) (K b + x) v) PAGE_LIST_NULL (F o) PAGE_LIST_NULL.
Proof. intros. apply dseg_store_out; [done|by apply free_pages_ok|done..]. Qed.

(** The iteration [j == i] of the loop of [Page_Acquire]. *)
Lemma acquire_pop s F i a l :
  phys_inv s F -> 0 <= i <= 10 -> F i = a :: l ->
  let s' := acquire_step i i a s in
  phys_inv s' (upd F i l) /\ standing (upd F i l) i a /\
  mem_frame (free_byte F) (mem s) (mem s') /\ same_lock s s'.
Proof.
  intros [Hb Hl Hbits] Hi HF. cbn zeta.
  destruct (blocks_inv_remove F i [] a l Hb Hi HF) as [Hb' Hst]. cbn [app] in Hb', Hst.
  pose proof (bi_ok F Hb i a Hi ltac:(rewrite HF; set_solver)) as Hok.
  pose proof (block_page_ok _ _ Hok) as Hpa. pose proof Hpa as [_ Hra].
  pose proof (free_pages_ok F i Hb Hi) as Hall. rewrite HF in Hall.
  apply Forall_cons in Hall as [_ Hall].
  pose proof (bi_nodup F Hb i Hi) as Hnd. rewrite HF in Hnd. apply NoDup_cons in Hnd as [Hna Hnd].
  destruct Hl as [Hlen Hhead Hseg].
  pose proof (Hseg i Hi) as Hs. rewrite HF in Hs. destruct Hs as (Hn & Hp & Hs).
  assert (bits_inv (PAGE_MAP_TOGGLEBIT a i s) (upd F i l)) as Hbits'.
  { apply (bits_inv_toggle s F i l a a); [lia|done|apply Hok|done| |done].
    rewrite HF. intros x. apply (flip_remove [] l a x). done. }
  unfold acquire_step. rewrite Z.eqb_refl.
  set (s1 := PAGE_MAP_TOGGLEBIT a i s) in *.
  assert (page_list s1 i = K a) as E1 by (change (page_list s i = K a); by rewrite Hhead, HF).
  rewrite E1. change (pl_next s1 (K a)) with (load32 (mem s) (K a)). rewrite Hn.
  set (s2 := set_page_list i (ptr_or l PAGE_LIST_NULL) s1).
  assert (forall o, 0 <= o <= 10 -> page_list s2 o = ptr_or (upd F i l o) PAGE_LIST_NULL) as Hh2.
  { intros o Ho. unfold s2. rewrite page_list_set by done. unfold upd.
    case_cmp; [done|]. by apply Hhead. }
  rewrite (Hh2 i Hi), upd_eq, ptr_or_null by done.
  destruct l as [|a2 l]; cbn [negb bool_decide].
  - split; [|split; [done|split; [apply mem_frame_refl|done]]].
    split; [done| |done]. split; [by cbn; rewrite length_insert|done|].
    intros o Ho. unfold upd. case_cmp; [done|]. by apply Hseg.
  - apply Forall_cons in Hall as [Hpa2 Hall]. apply NoDup_cons in Hnd as [Hna2 Hnd].
    cbn [ptr_or].
    split; [|split; [done|split]].
    + split; [done| |done]. split; [by cbn; rewrite length_insert|done|].
      intros o Ho. cbn [mem set_prev set_mem]. unfold upd. destruct (Z.eqb_spec o i) as [->|Hne].
      * change PAGE_LIST_NULL with (wrap32 PAGE_LIST_NULL) at 2.
        by apply (dseg_set_first (mem s) (K a) PAGE_LIST_NULL a2 l).
      * change (mem s2) with (mem s). apply lists_inv_store; [done|done|by right|done| |by apply Hseg].
        intros Hin. eapply (free_pages_ne F o a2 i a2); [done..| |done]. rewrite HF. set_solver.
    + cbn [mem set_prev set_mem]. apply mem_frame_header; [done|by right|].
      intros y Hy. eapply free_byte_block; [exact Hi| |exact Hy]. rewrite HF. set_solver.
    + done.
Qed.

(** ** Splitting *)

(** The two halves of a standing block. *)
Lemma standing_halves F j a :
  standing F (j + 1) a -> 0 <= j ->
  standing F j a /\ standing F j (a + bsz j) /\ apart j a j (a + bsz j).
Proof.
  intros [[Ho Hal Hlo Hhi] Hap] Hj. rewrite bsz_succ in Hhi by done.
  assert ((bsz j | a)) as Ha by (eapply Z.divide_trans; [apply (bsz_divide j (j + 1)); lia|done]).
  assert ((bsz j | a + bsz j)) as Ha' by (apply Z.divide_add_r; [done|apply Z.divide_refl]).
  pose proof (bsz_ge j Hj). split; [|split].
  - split; [split; done || lia|]. intros o' a' Ho' Hin. specialize (Hap o' a' Ho' Hin).
    unfold apart in *. rewrite bsz_succ in Hap by done. lia.
  - split; [split; done || lia|]. intros o' a' Ho' Hin. specialize (Hap o' a' Ho' Hin).
    unfold apart in *. rewrite bsz_succ in Hap by done. lia.
  - unfold apart. lia.
Qed.

(** The other iterations: the upper half goes on the empty list of order [j]. *)
Lemma acquire_split s F i j a :
  phys_inv s F -> 0 <= j < i -> i <= 10 -> F j = [] -> standing F (j + 1) a ->
  let s' := acquire_step i j a s in
  phys_inv s' (upd F j [a + bsz j]) /\ standing (upd F j [a + bsz j]) j a /\
  mem_frame (fun x => a + bsz j <= x < a + bsz j + 8) (mem s) (mem s') /\ same_lock s s'.
Proof.
  intros [Hb Hl Hbits] Hj Hi HF Hst. cbn zeta.
  destruct (standing_halves F j a Hst ltac:(lia)) as (Hlo & Hhi & Hap).
  set (b := a + bsz j) in *.
  pose proof (block_page_ok _ _ (proj1 Hhi)) as Hpb. pose proof Hpb as [_ Hrb].
  pose proof (block_page_ok _ _ (proj1 Hlo)) as [_ Hra].
  assert (upd F j (b :: F j) = upd F j [b]) as EU by by rewrite HF.
  pose proof (blocks_inv_add F j b Hb Hhi) as Hb'. rewrite EU in Hb'.
  assert (bits_inv (PAGE_MAP_TOGGLEBIT a j s) (upd F j [b])) as Hbits'.
  { apply (bits_inv_toggle s F j [b] b a); [lia|lia|apply Hhi| | |done].
    - destruct (proj1 Hst) as [_ [q Hq] _ _]. pose proof (bsz_ge j ltac:(lia)).
      unfold b. rewrite Hq, bsz_succ by lia.
      rewrite Z.div_mul by lia. apply Z.div_unique with (bsz j); lia.
    - intros x. rewrite HF. apply (flip_cons [] b x). set_solver. }
  unfold acquire_step. case_cmp; [lia|]. rewrite shiftl_bsz by lia.
  replace (a ⊕ bsz j) with b by (symmetry; apply wrap32_small; unfold b in *; lia).
  rewrite (K_wrap b Hpb).
  destruct Hl as [Hlen Hhead Hseg].
  set (s1 := PAGE_MAP_TOGGLEBIT a j s) in *. set (s2 := set_page_list j (K b) s1).
  assert (forall o, 0 <= o <= 10 -> page_list s2 o = ptr_or (upd F j [b] o) PAGE_LIST_NULL) as Hh2.
  { intros o Ho. unfold s2. rewrite page_list_set by (done || lia). unfold upd.
    case_cmp; [done|]. by apply Hhead. }
  change (page_list (set_next (page_list s2 j) PAGE_LIST_NULL s2) j) with (page_list s2 j).
  rewrite (Hh2 j ltac:(lia)), upd_eq. cbn [ptr_or]. split; [|split; [|split]].
  - split; [done| |done]. split; [by cbn; rewrite length_insert|done|].
    intros o Ho. cbn [mem set_prev set_next set_mem]. change (mem s2) with (mem s).
    unfold upd. destruct (Z.eqb_spec o j) as [->|Hne].
    + cbn [dseg ptr_or]. split; [|split; [|done]].
      * rewrite load32_store32_ne by (unfold K; lia). by rewrite load32_store32_eq by (unfold K; lia).
      * by rewrite load32_store32_eq by (unfold K; lia).
    + pose proof (standing_not_free _ _ _ o Hhi Ho) as Hnin.
      apply dseg_store_out; [done|by apply free_pages_ok|done|by right|].
      apply dseg_store_out0; [done|by apply free_pages_ok|done|]. by apply Hseg.
  - destruct Hlo as [Hok Hfree]. split; [done|]. intros o' a' Ho' Ha'. unfold upd in Ha'.
    destruct (Z.eqb_spec o' j) as [->|]; [|by apply Hfree].
    by apply list_elem_of_singleton in Ha' as ->.
  - cbn [mem set_prev set_next set_mem]. change (mem s2) with (mem s).
    eapply mem_frame_trans; [apply mem_frame_header0|apply mem_frame_header]; tauto || lia.
  - done.
Qed.

Lemma standing_byte F o a x : standing F o a -> a <= x < a + bsz o -> ~ free_byte F x.
Proof.
  intros [_ Hap] Hx (o' & a' & Ho' & Ha' & Hx'). specialize (Hap o' a' Ho' Ha').
  unfold apart in Hap. lia.
Qed.

Lemma free_byte_upd F o l x :
  0 <= o <= 10 ->
  free_byte (upd F o l) x <->
  (exists a, a ∈ l /\ a <= x < a + bsz o) \/
  (exists o' a, 0 <= o' <= 10 /\ o' <> o /\ a ∈ F o' /\ a <= x < a + bsz o').
Proof.
  intros Ho. unfold free_byte, upd. split.
  - intros (o' & a & Ho' & Ha & Hx). destruct (Z.eqb_spec o' o) as [->|]; eauto 10.
  - intros [(a & Ha & Hx)|(o' & a & Ho' & Hne & Ha & Hx)].
    + exists o, a. by rewrite Z.eqb_refl.
    + exists o', a. by rewrite (proj2 (Z.eqb_neq o' o) Hne).
Qed.

(** Removing a block from its list takes exactly its bytes away. *)
Lemma free_byte_remove F o l1 a l2 x :
  0 <= o <= 10 -> F o = l1 ++ a :: l2 ->
  free_byte F x <-> free_byte (upd F o (l1 ++ l2)) x \/ a <= x < a + bsz o.
Proof.
  intros Ho HF. rewrite free_byte_upd by done. unfold free_byte. split.
  - intros (o' & b & Ho' & Hb & Hx). destruct (decide (o' = o)) as [->|]; [|eauto 10].
    rewrite HF in Hb. destruct (decide (b = a)) as [->|]; [by right|left; left].
    exists b. set_solver.
  - intros [[(b & Hb & Hx)|(o' & b & Ho' & _ & Hb & Hx)]|Hx].
    + exists o, b. rewrite HF. set_solver.
    + by exists o', b.
    + exists o, a. rewrite HF. set_solver.
Qed.

Lemma free_byte_add F o a x :
  0 <= o <= 10 -> free_byte (upd F o (a :: F o)) x <-> free_byte F x \/ a <= x < a + bsz o.
Proof.
  intros Ho. rewrite free_byte_upd by done. unfold free_byte. split.
  - intros [(b & [->|Hb]%elem_of_cons & Hx)|(o' & b & Ho' & _ & Hb & Hx)]; [by right|eauto 10..].
  - intros [(o' & b & Ho' & Hb & Hx)|Hx]; [|left; exists a; set_solver].
    destruct (decide (o' = o)) as [->|]; [left; exists b; set_solver|right; eauto 10].
Qed.

(** What one call has done to the abstract state once it stands at order [j]:
    [F0] are the lists at the call, the block at [a] is out of them. *)
Record acquired (s0 : PhysState) (F0 : FreeLists) (a j : Z) (s : PhysState) (F : FreeLists) : Prop := {
  aq_inv : phys_inv s F;
  aq_standing : standing F j a;
  aq_bytes : forall x, free_byte F0 x <-> free_byte F x \/ a <= x < a + bsz j;
  aq_frame : mem_frame (free_byte F0) (mem s0) (mem s);
  aq_lock : same_lock s0 s
}.

Lemma acquire_loop_spec n s0 F0 i j order a s F :
  acquired s0 F0 a (j + 1) s F -> 0 <= order -> j < i -> i <= 10 -> Z.of_nat n = j - order + 1 ->
  (forall o, order <= o <= j -> F o = []) ->
  exists F', acquired s0 F0 a order (acquire_loop n i j a s) F'.
Proof.
  revert j s F. induction n as [|n IH]; intros j s F Haq Ho Hj Hi Hn He; cbn [acquire_loop].
  - exists F. by replace order with (j + 1) by lia.
  - destruct Haq as [Hinv Hst Hbytes Hframe Hlock].
    destruct (acquire_split s F i j a Hinv ltac:(lia) Hi (He j ltac:(lia)) Hst)
      as (Hinv' & Hst' & Hframe' & Hlock').
    assert (upd F j [a + bsz j] = upd F j (a + bsz j :: F j)) as EU by (by rewrite He by lia).
    pose proof (bsz_ge j ltac:(lia)).
    apply (IH (j - 1) _ (upd F j [a + bsz j])); [|lia..|].
    + replace (j - 1 + 1) with j by lia. split; [done..| | |].
      * intros x. rewrite Hbytes, EU, free_byte_add, bsz_succ by lia.
        assert ((a <= x < a + 2 * bsz j) <-> (a + bsz j <= x < a + bsz j + bsz j) \/ a <= x < a + bsz j)
          by lia. tauto.
      * eapply mem_frame_trans; [exact Hframe|]. eapply mem_frame_weaken; [|exact Hframe'].
        intros x Hx. cbn in Hx. apply Hbytes. right. rewrite bsz_succ; lia.
      * destruct Hlock, Hlock'. split; congruence.
    + intros o Hoj. rewrite upd_ne by lia. apply He. lia.
Qed.

(** ** The search *)

Lemma acquire_find_spec fuel s F i :
  lists_inv s F -> blocks_inv F -> 0 <= i <= 10 -> 11 - i <= Z.of_nat fuel ->
  match acquire_find fuel i s with
  | Some o => i <= o <= 10 /\ F o <> [] /\ forall o', i <= o' < o -> F o' = []
  | None => forall o', i <= o' <= 10 -> F o' = []
  end.
Proof.
  intros Hl Hb. revert i. induction fuel as [|fuel IH]; intros i Hi Hf; [lia|].
  cbn [acquire_find]. unfold PAGE_MAX_ORDER in *. destruct (Z.leb_spec i 10) as [_|]; [|lia].
  rewrite (li_head s F Hl i Hi), ptr_or_null by by apply free_pages_ok.
  case_bool_decide as E; cbn [negb].
  - case_cmp.
    + subst. intros o' Ho'. by replace o' with 10 by lia.
    + specialize (IH (i + 1) ltac:(lia) ltac:(lia)).
      destruct (acquire_find fuel (i + 1) s) as [o|].
      * destruct IH as (H1 & H2 & H3). split; [lia|]. split; [done|].
        intros o' Ho'. destruct (decide (o' = i)) as [->|]; [done|]. apply H3. lia.
      * intros o' Ho'. destruct (decide (o' = i)) as [->|]; [done|]. apply IH. lia.
  - split; [lia|]. split; [done|]. lia.
Qed.

Lemma acquire_found s F order i :
  phys_inv s F -> 0 <= order <= i -> i <= 10 -> F i <> [] ->
  (forall o, order <= o < i -> F o = []) ->
  exists a F', page_list s i = K a /\ page_ok a /\
    acquired s F a order (acquire_loop (Z.to_nat (i - order + 1)) i i a s) F'.
Proof.
  intros Hinv Ho Hi Hne He. destruct (F i) as [|a l] eqn:HF; [done|]. exists a.
  pose proof Hinv as [Hb Hl _].
  pose proof (block_page_ok _ _ (bi_ok F Hb i a ltac:(lia) ltac:(rewrite HF; set_solver))) as Hpa.
  replace (Z.to_nat (i - order + 1)) with (S (Z.to_nat (i - order))) by lia. cbn [acquire_loop].
  destruct (acquire_pop s F i a l Hinv ltac:(lia) HF) as (Hinv' & Hst & Hframe & Hlock).
  destruct (acquire_loop_spec (Z.to_nat (i - order)) s F i (i - 1) order a
              (acquire_step i i a s) (upd F i l)) as [F' HF']; [|lia|lia|lia|lia| |].
  - replace (i - 1 + 1) with i by lia. split; [done..| |done|done].
    intros x. apply (free_byte_remove F i [] a l x); [lia|done].
  - intros o Hoi. rewrite upd_ne by lia. apply He. lia.
  - exists F'. split; [by rewrite (li_head s F Hl i ltac:(lia)), HF|]. by split.
Qed.

(** ** The contract *)

Lemma phys_inv_set_lock tl s F : phys_inv (set_lock tl s) F <-> phys_inv s F.
Proof.
  split; intros [H1 H2 H3]; (split; [done| |]); revert H2 H3;
    first [by intros H _; revert H; apply lists_inv_ext | by intros _; apply bits_inv_ext].
Qed.

(** A successful acquisition. *)
Lemma Page_Acquire_found s F order :
  phys_inv s F -> unlocked s -> 0 <= order <= 10 ->
  (exists o, order <= o <= 10 /\ F o <> []) ->
  exists a s' F',
    Page_Acquire order s = Some (K a, s') /\ phys_inv s' F' /\ standing F' order a /\
    (forall x, free_byte F x <-> free_byte F' x \/ a <= x < a + bsz order) /\
    mem_frame (free_byte F) (mem s) (mem s') /\ released s s'.
Proof.
  intros Hinv Hu Ho (o & Hoo & Hne). unfold Page_Acquire.
  rewrite page_lock_unlocked by done. cbn [mbind option_bind].
  set (s1 := set_lock _ s). assert (phys_inv s1 F) as Hinv1 by by apply phys_inv_set_lock.
  pose proof (acquire_find_spec 256 s1 F order (pi_lists _ _ Hinv1) (pi_blocks _ _ Hinv1) Ho ltac:(lia)) as Hfind.
  destruct (acquire_find 256 order s1) as [i|]; [|by destruct Hne; apply Hfind].
  destruct Hfind as (Hi & Hnei & He).
  destruct (acquire_found s1 F order i Hinv1 ltac:(lia) ltac:(lia) Hnei He)
    as (a & F' & -> & Hpa & [Hinv' Hst Hbytes Hframe Hlock]).
  rewrite K_unwrap by done. eexists a, _, F'. split; [done|].
  split; [by apply phys_inv_set_lock|]. split; [done|]. split; [done|]. split; [done|].
  eapply page_unlock_released; [done|by apply page_lock_unlocked|done].
Qed.

Lemma Page_Acquire_none s F order :
  phys_inv s F -> unlocked s -> 0 <= order <= 10 ->
  (forall o, order <= o <= 10 -> F o = []) ->
  exists s', Page_Acquire order s = Some (PAGE_LIST_NULL, s') /\ phys_inv s' F /\
    mem s' = mem s /\ flag (lock (Page_operation_lock s')) = true.
Proof.
  intros Hinv Hu Ho He. unfold Page_Acquire.
  rewrite page_lock_unlocked by done. cbn [mbind option_bind].
  set (s1 := set_lock _ s). assert (phys_inv s1 F) as Hinv1 by by apply phys_inv_set_lock.
  pose proof (acquire_find_spec 256 s1 F order (pi_lists _ _ Hinv1) (pi_blocks _ _ Hinv1) Ho ltac:(lia)) as Hfind.
  destruct (acquire_find 256 order s1) as [i|].
  - destruct Hfind as (Hi & Hnei & _). destruct Hnei. apply He. lia.
  - by exists s1.
Qed.

(** C1. Acquiring a block when one of its order or above is free: the pointer
    is the kernel address of an aligned block whose bytes were all free and
    are not free any more; every other byte stays as free as it was, memory
    outside the free blocks is not written, the free lists and the bitmaps
    are again consistent and the lock is released. *)
Theorem Page_Acquire_correct s F order :
  phys_inv s F -> unlocked s -> 0 <= order <= 10 ->
  (exists o, order <= o <= 10 /\ F o <> []) ->
  exists a s' F',
    Page_Acquire order s = Some (K a, s') /\ phys_inv s' F' /\ block_ok order a /\
    (forall x, a <= x < a + bsz order -> free_byte F x /\ ~ free_byte F' x) /\
    (forall x, ~ (a <= x < a + bsz order) -> (free_byte F' x <-> free_byte F x)) /\
    mem_frame (free_byte F) (mem s) (mem s') /\ released s s'.
Proof.
  intros Hinv Hu Ho Hex.
  destruct (Page_Acquire_found s F order Hinv Hu Ho Hex) as (a & s' & F' & -> & Hinv' & Hst & Hby & Hfr & Hr).
  exists a, s', F'. split; [done|]. split; [done|]. split; [apply Hst|].
  split; [|split; [|done]].
  - intros x Hx. split; [by apply Hby; right|]. by apply standing_byte with order a.
  - intros x Hx. rewrite Hby. tauto.
Qed.

Lemma Page_Acquire_correct_witness :
  phys_inv (phys_one 1 0x400000) (upd no_blocks 1 [0x400000]) /\
  exists a s' F', Page_Acquire 0 (phys_one 1 0x400000) = Some (K a, s') /\ phys_inv s' F' /\
    (forall x, a <= x < a + 4096 -> ~ free_byte F' x).
Proof.
  assert (block_ok 1 0x400000) as Hok by (split; [lia|by exists 512|lia|vm_compute; discriminate]).
  destruct (phys_one_ok 1 0x400000 Hok) as [Hinv Hu]. split; [exact Hinv|].
  destruct (Page_Acquire_correct (phys_one 1 0x400000) (upd no_blocks 1 [0x400000]) 0 Hinv Hu ltac:(lia))
    as (a & s' & F' & E & Hinv' & _ & Hby & _).
  - exists 1. split; [lia|]. discriminate.
  - exists a, s', F'. split; [exact E|]. split; [exact Hinv'|]. intros x Hx. by apply Hby.
Defined.

(** C39. Acquiring when nothing of the order or above is free: the call
    returns [PAGE_LIST_NULL] and changes no list, but it returns from inside
    the search, without releasing [Page_operation_lock]: every later
    acquisition, and every later release of a block, waits for ever. *)
Theorem Page_Acquire_exhausted s F order :
  phys_inv s F -> unlocked s -> 0 <= order <= 10 ->
  (forall o, order <= o <= 10 -> F o = []) ->
  exists s', Page_Acquire order s = Some (PAGE_LIST_NULL, s') /\ phys_inv s' F /\
    mem s' = mem s /\
    (forall o, Page_Acquire o s' = None) /\
    (forall p o, p <> PAGE_LIST_NULL -> Page_Release p o s' = None).
Proof.
  intros Hinv Hu Ho He.
  destruct (Page_Acquire_none s F order Hinv Hu Ho He) as (s' & E & Hinv' & Hm & Hlock).
  exists s'. split; [done|]. split; [done|]. split; [done|].
  pose proof (page_lock_held s' Hlock) as Hheld. split.
  - intros o. unfold Page_Acquire. by rewrite Hheld.
  - intros p o Hp. unfold Page_Release. case_cmp; [done|]. by rewrite Hheld.
Qed.

Lemma Page_Acquire_exhausted_witness :
  exists s', Page_Acquire 3 phys_empty = Some (PAGE_LIST_NULL, s') /\ Page_Acquire 0 s' = None.
Proof.
  destruct (Page_Acquire_exhausted phys_empty no_blocks 3 phys_inv_empty) as (s' & E & _ & _ & H & _).
  - by split.
  - lia.
  - done.
  - exists s'. split; [exact E|apply H].
Defined.
