(* ===== verification/PhysRelease.v ===== *)
(** * Page_Release

    The abstract merge of a block with its free buddies, the loop that decides
    how far to merge, the loop that takes the buddies off their lists, and
    what the whole operation does. *)

From S2P Require Import Prelude CMem Sync Setup PhysMem PhysInv PhysAcquire.

(** ** Buddies *)

(** The block of order [i] that the address [a] lies in. *)
Definition round (a i : Z) : Z := bsz i * (a / bsz i).

(** The other half of the pair that the block [b] of order [i] belongs to. *)
Definition buddy (b i : Z) : Z :=
  if b mod bsz (i + 1) =? 0 then b + bsz i else b - bsz i.

Lemma round_aligned a i : (bsz i | round a i).
Proof. exists (a / bsz i). unfold round. lia. Qed.

Lemma round_id a i : 0 <= i -> (bsz i | a) -> round a i = a.
Proof. intros Hi [q ->]. pose proof (bsz_ge i Hi). unfold round. rewrite Z.div_mul; lia. Qed.

(** A block and its buddy make up the block of the next order. *)
Lemma round_buddy a i :
  0 <= i -> let b := round a i in
  (round a (i + 1) = b /\ buddy b i = b + bsz i) \/
  (round a (i + 1) = b - bsz i /\ buddy b i = b - bsz i).
Proof.
  intros Hi. cbn zeta. pose proof (bsz_ge i Hi). unfold round, buddy. rewrite bsz_succ by done.
  rewrite (Z.mul_comm 2 (bsz i)), <- Z.div_div, Z.mul_mod_distr_l by lia.
  set (q := a / bsz i). pose proof (Z.div_mod q 2 ltac:(lia)). pose proof (Z.mod_pos_bound q 2 ltac:(lia)).
  generalize dependent (q mod 2). generalize (q / 2). intros k r Hq Hr. rewrite Hq.
  assert (r = 0 \/ r = 1) as [-> | ->] by lia; case_cmp; [left|lia|lia|right]; split; lia.
Qed.

Lemma round_pair a i : 0 <= i -> round a i / bsz (i + 1) = a / bsz (i + 1).
Proof.
  intros Hi. pose proof (bsz_ge i Hi). unfold round. rewrite bsz_succ by done.
  rewrite (Z.mul_comm 2 (bsz i)). rewrite Z.div_mul_cancel_l by lia. apply Z.div_div; lia.
Qed.

Lemma PAGE_BUDDY_buddy a i :
  0 <= i <= 10 -> (bsz i | a) -> 0 <= a < 0x70000000 -> PAGE_BUDDY a i = buddy a i.
Proof.
  intros Hi Ha Hr. unfold PAGE_BUDDY, buddy, KERNEL_PAGE_SIZE_IN_BITS.
  replace (12 + 1 + i) with (12 + (i + 1)) by lia. rewrite !shiftl_bsz by lia.
  pose proof (bsz_max i Hi). pose proof (bsz_ge i ltac:(lia)).
  case_cmp; apply wrap32_small; [lia|].
  destruct (decide (a = 0)) as [->|]; [by rewrite Z.mod_0_l in * by (pose proof (bsz_ge (i+1)); lia)|].
  pose proof (Z.divide_pos_le (bsz i) a ltac:(lia) Ha). lia.
Qed.

(** ** The abstract merge *)

Definition remove_block (b : Z) (l : list Z) : list Z := filter (.≠ b) l.

Fixpoint coalesce (n : nat) (F : FreeLists) (a i : Z) : Z * FreeLists :=
  match n with
  | O => (i, F)
  | S n' =>
      let b := buddy (round a i) i in
      if bool_decide (b ∈ F i) then coalesce n' (upd F i (remove_block b (F i))) a (i + 1)
      else (i, F)
  end.

(** The order at which the block of order [order] at [a] comes to rest, and
    the lists once its buddies are out of them. *)
Definition merge (F : FreeLists) (a order : Z) : Z * FreeLists :=
  coalesce (Z.to_nat (PAGE_MAX_ORDER - order)) F a order.

Lemma remove_block_split l1 b l2 :
  NoDup (l1 ++ b :: l2) -> remove_block b (l1 ++ b :: l2) = l1 ++ l2.
Proof.
  intros (_ & H12 & [Hb _]%NoDup_cons)%NoDup_app. unfold remove_block.
  assert (forall l : list Z, b ∉ l -> filter (.≠ b) l = l) as Hid.
  { induction l as [|x l IH]; [done|]. intros Hn. rewrite filter_cons_True by set_solver.
    f_equal. apply IH. set_solver. }
  rewrite filter_app, filter_cons_False by naive_solver. rewrite !Hid; set_solver.
Qed.

(** The merged block stands, and together with the remaining lists it covers
    the same bytes. *)
Record merging (F0 : FreeLists) (a order : Z) (F : FreeLists) (i : Z) : Prop := {
  mg_blocks : blocks_inv F;
  mg_standing : standing F i (round a i);
  mg_bytes : forall x, (free_byte F x \/ round a i <= x < round a i + bsz i) <->
                       (free_byte F0 x \/ a <= x < a + bsz order)
}.

Lemma merging_start F a order :
  blocks_inv F -> standing F order a -> merging F a order F order.
Proof.
  intros Hb Hst. pose proof (proj1 Hst) as [Ho Ha _ _].
  split; [done|by rewrite round_id by (done || lia)..].
Qed.

Lemma merging_split F0 a order F i :
  merging F0 a order F i -> 0 <= i < 10 -> buddy (round a i) i ∈ F i ->
  exists l1 l2, F i = l1 ++ buddy (round a i) i :: l2 /\
    remove_block (buddy (round a i) i) (F i) = l1 ++ l2.
Proof.
  intros [Hb _ _] Hi Hin. apply list_elem_of_split in Hin as (l1 & l2 & HF).
  exists l1, l2. split; [done|]. rewrite HF. apply remove_block_split.
  rewrite <- HF. apply Hb. lia.
Qed.

Lemma merging_step F0 a order F i l1 l2 :
  merging F0 a order F i -> 0 <= i < 10 -> F i = l1 ++ buddy (round a i) i :: l2 ->
  merging F0 a order (upd F i (l1 ++ l2)) (i + 1).
Proof.
  intros [Hb [Hok Hap] Hby] Hi HF. set (b := buddy (round a i) i) in *.
  destruct (blocks_inv_remove F i l1 b l2 Hb ltac:(lia) HF) as [Hb' [Hokb Hapb]].
  pose proof (free_byte_remove F i l1 b l2) as Hfb.
  pose proof (round_buddy a i ltac:(lia)) as Hrb. cbn zeta in Hrb. fold b in Hrb.
  destruct Hok as [_ _ Hlo Hhi], Hokb as [_ _ Hlo' Hhi'].
  split; [done| |].
  - split.
    + split; [lia|apply round_aligned|lia|rewrite bsz_succ; lia].
    + intros o' a' Ho' Ha'. specialize (Hapb o' a' Ho' Ha'). unfold apart in *.
      assert (a' ∈ F o') as Hin.
      { revert Ha'. unfold upd. case_cmp; [|done]. subst. rewrite HF. set_solver. }
      specialize (Hap o' a' Ho' Hin). unfold apart in *.
      pose proof (bsz_ge o' ltac:(lia)). pose proof (bsz_ge i ltac:(lia)). 
      rewrite bsz_succ by lia.
      assert (a' <> round a i) by lia.
      lia.
  - intros x. rewrite <- Hby, (Hfb x) by (done || lia). rewrite bsz_succ by lia.
    assert ((round a (i + 1) <= x < round a (i + 1) + 2 * bsz i) <->
            (b <= x < b + bsz i \/ round a i <= x < round a i + bsz i)) by lia.
    tauto.
Qed.

Lemma coalesce_bounds n F a i : i <= (coalesce n F a i).1 <= i + Z.of_nat n.
Proof.
  revert F i. induction n as [|n IH]; intros F i; cbn [coalesce]; [cbn; lia|].
  case_bool_decide; [|cbn; lia]. specialize (IH (upd F i (remove_block (buddy (round a i) i) (F i))) (i + 1)). lia.
Qed.

Lemma coalesce_merging n F0 a order F i :
  merging F0 a order F i -> 0 <= i -> i + Z.of_nat n = 10 ->
  merging F0 a order (coalesce n F a i).2 (coalesce n F a i).1.
Proof.
  revert F i. induction n as [|n IH]; intros F i Hm Hi Hn; cbn [coalesce]; [done|].
  case_bool_decide as Hin; [|done].
  destruct (merging_split F0 a order F i Hm ltac:(lia) Hin) as (l1 & l2 & HF & ->).
  apply IH; [|lia..]. apply merging_step; [done|lia|done].
Qed.

(** ** How far the code merges *)

(** The pair of a block that is not free is unbalanced exactly when its
    buddy is free. *)
Lemma pair_free_buddy F i a :
  standing F i (round a i) -> 0 <= i <= 10 ->
  pair_free F i (a / bsz (i + 1)) = bool_decide (buddy (round a i) i ∈ F i).
Proof.
  intros Hst Hi. pose proof (standing_not_free F i (round a i) i Hst ltac:(lia)) as Hnin.
  unfold pair_free.
  replace (2 * (a / bsz (i + 1)) * bsz i) with (round a (i + 1))
    by (unfold round; rewrite bsz_succ by lia; lia).
  replace ((2 * (a / bsz (i + 1)) + 1) * bsz i) with (round a (i + 1) + bsz i)
    by (unfold round; rewrite bsz_succ by lia; lia).
  destruct (round_buddy a i ltac:(lia)) as [[-> ->]|[-> ->]]; [|rewrite Z.sub_add];
    repeat case_bool_decide; done.
Qed.

(** After the toggle, the bit of the pair is set exactly when the buddy is
    not free. *)
Lemma release_bit s F i a :
  standing F i (round a i) -> bits_inv s F -> 0 <= a -> 0 <= i <= 9 ->
  PAGE_MAP_ISBITSET a i (PAGE_MAP_TOGGLEBIT a i s) = bool_decide (buddy (round a i) i ∉ F i).
Proof.
  intros Hst Hbits Ha Hi. pose proof (bsz_ge (i + 1) ltac:(lia)).
  assert (0 <= a / bsz (i + 1)) as Hn by (apply Z.div_pos; lia).
  rewrite ISBITSET_mapbit, mapbit_toggle, !Z.eqb_refl by (done || lia). cbn [andb].
  rewrite Hbits, pair_free_buddy by (done || lia). repeat case_bool_decide; tauto.
Qed.

Lemma release_scan_spec n fuel s F0 a order F i :
  merging F0 a order F i -> bits_inv s F -> 0 <= a -> 0 <= i -> i + Z.of_nat n = 10 ->
  (n < fuel)%nat ->
  exists s1, release_scan fuel a i s = Some ((coalesce n F a i).1, s1) /\
    (let (i', F') := coalesce n F a i in bits_inv s1 (upd F' i' (round a i' :: F' i'))) /\
    mem s1 = mem s /\ Page_lists s1 = Page_lists s /\ same_lock s s1.
Proof.
  revert fuel s F i. induction n as [|n IH]; intros fuel s F i Hm Hbits Ha Hi Hn Hf;
    (destruct fuel as [|fuel]; [lia|]); cbn [release_scan coalesce]; unfold PAGE_MAX_ORDER.
  - rewrite (proj2 (Z.eqb_eq i 10)) by lia. cbn [orb fst]. eexists. split; [done|].
    split; [|done]. apply bits_inv_add; [done|by rewrite round_pair|apply Hm|done].
  - rewrite (proj2 (Z.eqb_neq i 10)) by lia. cbn [orb].
    rewrite (release_bit s F) by (apply Hm || done || lia).
    destruct (decide (buddy (round a i) i ∈ F i)) as [Hin|Hin].
    + rewrite bool_decide_false, bool_decide_true by tauto.
      rewrite wrap8_small by lia.
      destruct (merging_split F0 a order F i Hm ltac:(lia) Hin) as (l1 & l2 & HF & ->).
      set (F1 := upd F i (l1 ++ l2)).
      destruct (IH fuel (PAGE_MAP_TOGGLEBIT a i s) F1 (i + 1)) as (s1 & E & Hs1);
        [apply merging_step; done || lia| |lia..|].
      * pose proof (bi_nodup F (mg_blocks _ _ _ _ _ Hm) i ltac:(lia)) as Hnd. rewrite HF in Hnd.
        apply (bits_inv_toggle s F i (l1 ++ l2) (buddy (round a i) i) a); [lia|lia| | | |done].
        -- apply (bi_ok F (mg_blocks _ _ _ _ _ Hm) i); [lia|done].
        -- pose proof (bsz_ge i Hi).
           assert (bsz (i + 1) <> 0) by (rewrite bsz_succ; lia).
           apply (Z.div_unique _ _ _ (buddy (round a i) i - round a (i + 1)));
             [|unfold round; lia].
           rewrite bsz_succ by lia. pose proof (round_buddy a i Hi). cbn zeta in *. lia.
        -- intros x. rewrite HF. apply flip_remove. 
           apply NoDup_app in Hnd as (_ & H12 & [Hb _]%NoDup_cons). set_solver.
      * exists s1. split; [exact E|]. destruct Hs1 as (H1 & H2 & H3 & H4). split; [exact H1|]. done.
    + rewrite bool_decide_true, bool_decide_false by done. cbn [fst]. eexists. split; [done|].
      split; [|done]. apply bits_inv_add; [done|by rewrite round_pair|apply Hm|done].
Qed.

(** ** Taking a block off its list *)

(** The two redirecting writes, on memory. *)
Definition unlink_mem (m : Mem) (prev next : Z) : Mem :=
  let m1 := if negb (prev =? PAGE_LIST_NULL) then store32 m prev next else m in
  if negb (next =? PAGE_LIST_NULL) then store32 m1 (next + 4) prev else m1.

Lemma last_or_snoc l p nxt : last_or (l ++ [p]) nxt = K p.
Proof. unfold last_or. by rewrite last_snoc. Qed.

Lemma last_or_wrap l : Forall page_ok l -> wrap32 (last_or l PAGE_LIST_NULL) = last_or l PAGE_LIST_NULL.
Proof.
  destruct l as [|p l] using rev_ind; [done|]. rewrite last_or_snoc.
  intros [_ [Hp _]%Forall_cons]%Forall_app. by apply K_wrapped.
Qed.

Lemma ptr_or_wrap l : Forall page_ok l -> wrap32 (ptr_or l PAGE_LIST_NULL) = ptr_or l PAGE_LIST_NULL.
Proof. destruct l as [|p l]; [done|]. intros [Hp _]%Forall_cons. by apply K_wrapped. Qed.

Lemma last_or_null l :
  Forall page_ok l -> (last_or l PAGE_LIST_NULL =? PAGE_LIST_NULL) = bool_decide (l = []).
Proof.
  destruct l as [|p l] using rev_ind; [done|]. rewrite last_or_snoc.
  intros [_ [Hp _]%Forall_cons]%Forall_app. rewrite K_not_null by done.
  rewrite bool_decide_false; [done|by destruct l].
Qed.

(** What they do not touch. *)
Lemma unlink_mem_other m l1 l2 prv l nxt :
  Forall page_ok l1 -> Forall page_ok l2 -> Forall page_ok l ->
  (forall x, x ∈ l -> (x ∉ l1) /\ (x ∉ l2)) -> dseg m prv l nxt ->
  dseg (unlink_mem m (last_or l1 PAGE_LIST_NULL) (ptr_or l2 PAGE_LIST_NULL)) prv l nxt.
Proof.
  intros H1 H2 Hl Hd Hseg. unfold unlink_mem. rewrite last_or_null, ptr_or_null by done.
  assert (dseg (if negb (bool_decide (l1 = []))
                then store32 m (last_or l1 PAGE_LIST_NULL) (ptr_or l2 PAGE_LIST_NULL) else m) prv l nxt).
  { destruct l1 as [|p l1 _] using rev_ind; [done|]. rewrite bool_decide_false by (by destruct l1).
    cbn [negb]. rewrite last_or_snoc. apply Forall_app in H1 as [_ [Hp _]%Forall_cons].
    apply dseg_store_out0; [done|done| |done]. intros Hin. apply Hd in Hin. set_solver. }
  destruct l2 as [|q l2]; [done|]. rewrite (bool_decide_false (q :: l2 = [])) by done.
  cbn [negb ptr_or]. apply Forall_cons in H2 as [Hq _].
  apply dseg_store_out; [done|done| |by right|done]. intros Hin. apply Hd in Hin. set_solver.
Qed.

Lemma unlink_mem_frame (P : Z -> Prop) m l1 l2 :
  Forall page_ok l1 -> Forall page_ok l2 ->
  (forall a y, (a ∈ l1) \/ (a ∈ l2) -> a <= y < a + 8 -> P y) ->
  mem_frame P m (unlink_mem m (last_or l1 PAGE_LIST_NULL) (ptr_or l2 PAGE_LIST_NULL)).
Proof.
  intros H1 H2 HP. unfold unlink_mem. rewrite last_or_null, ptr_or_null by done.
  assert (mem_frame P m (if negb (bool_decide (l1 = []))
     then store32 m (last_or l1 PAGE_LIST_NULL) (ptr_or l2 PAGE_LIST_NULL) else m)).
  { destruct l1 as [|p l1 _] using rev_ind; [done|]. rewrite bool_decide_false by (by destruct l1).
    cbn [negb]. rewrite last_or_snoc. apply Forall_app in H1 as [_ [Hp _]%Forall_cons].
    apply mem_frame_header0; [done|]. intros y. apply HP. set_solver. }
  destruct l2 as [|q l2]; [done|]. rewrite (bool_decide_false (q :: l2 = [])) by done.
  cbn [negb ptr_or]. apply Forall_cons in H2 as [Hq _]. eapply mem_frame_trans; [done|].
  apply mem_frame_header; [done|by right|]. intros y. apply HP. set_solver.
Qed.

(** The list without the block, and the header of the block as it was. *)
Lemma unlink_mem_spec m l1 b l2 :
  Forall page_ok (l1 ++ b :: l2) -> NoDup (l1 ++ b :: l2) ->
  dseg m PAGE_LIST_NULL (l1 ++ b :: l2) PAGE_LIST_NULL ->
  let m' := unlink_mem m (last_or l1 PAGE_LIST_NULL) (ptr_or l2 PAGE_LIST_NULL) in
  dseg m' PAGE_LIST_NULL (l1 ++ l2) PAGE_LIST_NULL.
Proof.
  intros [H1 [Hb H2]%Forall_cons]%Forall_app (N1 & N12 & [Nb N2]%NoDup_cons)%NoDup_app
    [Hs1 (_ & _ & Hs2)]%dseg_app.
  cbn [ptr_or] in Hs1. unfold unlink_mem. rewrite last_or_null, ptr_or_null by done. cbn zeta.
  set (m1 := if negb (bool_decide (l1 = [])) then _ else m).
  assert (dseg m1 PAGE_LIST_NULL l1 (ptr_or l2 PAGE_LIST_NULL) /\ dseg m1 (K b) l2 PAGE_LIST_NULL) as [D1 D2].
  { unfold m1. destruct l1 as [|p l1 _] using rev_ind; [done|].
    rewrite bool_decide_false by (by destruct l1). cbn [negb]. rewrite last_or_snoc.
    apply Forall_app in H1 as [H1 [Hp _]%Forall_cons]. apply NoDup_app in N1 as (_ & N1p & _).
    split.
    - pose proof (dseg_set_last m PAGE_LIST_NULL l1 p (K b) (ptr_or l2 PAGE_LIST_NULL)) as D.
      rewrite ptr_or_wrap in D by done. apply D; [done|done|set_solver|done].
    - apply dseg_store_out0; [done|done| |done]. set_solver. }
  destruct l2 as [|q l2]; cbn [bool_decide negb]; [by rewrite app_nil_r|].
  apply Forall_cons in H2 as [Hq H2]. cbn [ptr_or] in *. apply dseg_app. split.
  - apply dseg_store_out; [done|done|set_solver|by right|done].
  - pose proof (dseg_set_first m1 (K b) (last_or l1 PAGE_LIST_NULL) q l2 PAGE_LIST_NULL) as D.
    rewrite last_or_wrap in D by done. apply D; [done|done|apply NoDup_cons in N2; tauto|done].
Qed.

(** The header of [b] survives a conditional write into another page. *)
Lemma header_kept (c : bool) m x b p v :
  page_ok p -> page_ok b -> p <> b -> 0 <= x <= 4 ->
  load32 (if c then store32 m (K p + x) v else m) (K b) = load32 m (K b) /\
  load32 (if c then store32 m (K p + x) v else m) (K b + 4) = load32 m (K b + 4).
Proof.
  intros Hp Hb Hne Hx. pose proof (pages_apart p b Hp Hb Hne).
  destruct Hp as [_ Hp], Hb as [_ Hb].
  destruct c; [|done]. split; apply load32_store32_ne; unfold K; lia.
Qed.

(** The statements of one iteration of [while (j < i)], as writes. *)
Lemma release_unlink_buddy_run s j a l1 b l2 :
  Forall page_ok (l1 ++ b :: l2) -> NoDup (l1 ++ b :: l2) ->
  dseg (mem s) PAGE_LIST_NULL (l1 ++ b :: l2) PAGE_LIST_NULL -> PAGE_BUDDY a j = b ->
  let prev := last_or l1 PAGE_LIST_NULL in let next := ptr_or l2 PAGE_LIST_NULL in
  let s' := release_unlink_buddy a j s in
  mem s' = store32 (store32 (unlink_mem (mem s) prev next) (K b + 4) 0) (K b) 0 /\
  Page_lists s' = (if bool_decide (l1 = []) then <[Z.to_nat j := next]> (Page_lists s) else Page_lists s) /\
  Page_maps s' = Page_maps s /\ same_lock s s'.
Proof.
  intros [Hp1 [Hpb Hp2]%Forall_cons]%Forall_app (N1 & N12 & [Nb N2]%NoDup_cons)%NoDup_app
    [_ (Ln & Lp & _)]%dseg_app HB. cbn zeta. unfold release_unlink_buddy. rewrite HB, (K_wrap b Hpb).
  rewrite <- (last_or_null l1) by done.
  set (prev := last_or l1 PAGE_LIST_NULL) in *. set (next := ptr_or l2 PAGE_LIST_NULL) in *.
  assert (forall m, load32 (if negb (prev =? PAGE_LIST_NULL) then store32 m prev next else m) (K b)
      = load32 m (K b) /\
    load32 (if negb (prev =? PAGE_LIST_NULL) then store32 m prev next else m) (K b + 4)
      = load32 m (K b + 4)) as L1.
  { intros m. unfold prev. destruct l1 as [|p l1 _] using rev_ind; [done|]. rewrite last_or_snoc.
    apply Forall_app in Hp1 as [_ [Hp _]%Forall_cons]. rewrite <- (Z.add_0_r (K p)).
    apply header_kept; [done|done|set_solver|lia]. }
  assert (forall m, load32 (if negb (next =? PAGE_LIST_NULL) then store32 m (next + 4) prev else m) (K b)
      = load32 m (K b) /\
    load32 (if negb (next =? PAGE_LIST_NULL) then store32 m (next + 4) prev else m) (K b + 4)
      = load32 m (K b + 4)) as L2.
  { intros m. unfold next. destruct l2 as [|q l2]; [done|]. apply Forall_cons in Hp2 as [Hq _].
    apply header_kept; [done|done|set_solver|lia]. }
  unfold pl_prev, pl_next. rewrite Ln, Lp.
  set (s1 := if negb (prev =? PAGE_LIST_NULL) then set_next prev next s else s).
  assert (mem s1 = if negb (prev =? PAGE_LIST_NULL) then store32 (mem s) prev next else mem s) as M1
    by (unfold s1; by destruct (negb _)).
  destruct (L1 (mem s)) as [E1 E2]. rewrite <- M1 in E1, E2. rewrite E1, E2, Ln, Lp.
  set (s2 := if negb (next =? PAGE_LIST_NULL) then set_prev next prev s1 else s1).
  assert (mem s2 = if negb (next =? PAGE_LIST_NULL) then store32 (mem s1) (next + 4) prev else mem s1)
    as M2 by (unfold s2; by destruct (negb (next =? _))).
  destruct (L2 (mem s1)) as [E3 E4]. rewrite <- M2 in E3, E4. rewrite E3, E4, E1, E2, Ln, Lp.
  assert (Page_lists s2 = Page_lists s /\ Page_maps s2 = Page_maps s /\ same_lock s s2) as (PL & PM & SL)
    by (unfold s2, s1; by repeat destruct (negb _)).
  unfold unlink_mem. rewrite <- M1, <- M2, <- PL, <- PM.
  split; [|split; [|split]]; by destruct (prev =? _).
Qed.

(** ... and on the free lists. *)
Lemma release_unlink_buddy_spec s F j a l1 b l2 :
  blocks_inv F -> lists_inv s F -> 0 <= j <= 10 -> F j = l1 ++ b :: l2 -> PAGE_BUDDY a j = b ->
  let s' := release_unlink_buddy a j s in
  lists_inv s' (upd F j (l1 ++ l2)) /\ Page_maps s' = Page_maps s /\ same_lock s s' /\
  mem_frame (free_byte F) (mem s) (mem s').
Proof.
  intros Hb [Hlen Hhead Hseg] Hj HF HB. cbn zeta.
  pose proof (free_pages_ok F j Hb Hj) as Hall. rewrite HF in Hall.
  pose proof (bi_nodup F Hb j Hj) as Hnd. rewrite HF in Hnd.
  pose proof (Hseg j Hj) as Hs. rewrite HF in Hs.
  destruct (release_unlink_buddy_run s j a l1 b l2 Hall Hnd Hs HB) as (EM & EL & EMaps & ELock).
  set (s' := release_unlink_buddy a j s) in *. clearbody s'.
  pose proof Hall as [Hp1 [Hpb Hp2]%Forall_cons]%Forall_app.
  split; [split|split; [done|split; [done|]]].
  - rewrite EL. case_bool_decide; [by rewrite length_insert|done].
  - intros o Ho. unfold page_list. rewrite EL. unfold upd. case_cmp; [subst o; case_bool_decide as E|].
    + rewrite E. apply list_lookup_total_insert_eq. lia.
    + specialize (Hhead j Hj). rewrite HF in Hhead. fold (page_list s j). rewrite Hhead. by destruct l1.
    + rewrite <- (Hhead o Ho). case_bool_decide; [|done]. apply list_lookup_total_insert_ne. lia.
  - intros o Ho. rewrite EM.
    assert (forall m l, b ∉ l -> Forall page_ok l -> dseg m PAGE_LIST_NULL l PAGE_LIST_NULL ->
      dseg (store32 (store32 m (K b + 4) 0) (K b) 0) PAGE_LIST_NULL l PAGE_LIST_NULL) as Hout.
    { intros m l Hn Hf Hd. apply dseg_store_out0; [done..|]. apply dseg_store_out; tauto. }
    unfold upd. destruct (Z.eqb_spec o j) as [->|Hne].
    + apply Hout; [|by apply Forall_app|by apply unlink_mem_spec with b].
      apply NoDup_app in Hnd as (_ & N12 & [Nb _]%NoDup_cons). set_solver.
    + pose proof (free_pages_ok F o Hb Ho) as Hfo.
      assert (forall x, x ∈ F o -> x ∉ l1 ++ b :: l2) as Hdis.
      { intros x Hx Hin. rewrite <- HF in Hin. by apply (free_pages_ne F o x j x Hb Ho Hj Hne). }
      apply Hout; [intros Hin; apply (Hdis b Hin); set_solver|done|].
      apply unlink_mem_other; [done..| |by apply Hseg]. intros x Hx. specialize (Hdis x Hx). set_solver.
  - rewrite EM. assert (forall x y, x ∈ l1 ++ b :: l2 -> x <= y < x + 8 -> free_byte F y) as Hfb.
    { intros x y Hx Hy. apply (free_byte_block F j x); [done|by rewrite HF|done]. }
    eapply mem_frame_trans; [|eapply mem_frame_trans].
    + apply (unlink_mem_frame _ _ l1 l2); [done..|]. intros x y Hx. apply Hfb. set_solver.
    + apply mem_frame_header; [done|by right|]. intros y. apply Hfb. set_solver.
    + apply mem_frame_header0; [done|]. intros y. apply Hfb. set_solver.
Qed.

(** The whole loop takes off the lists the buddies that the merge consumes,
    provided the address is aligned at every order it passes. *)
Lemma release_unlink_spec n s F0 a order F i :
  merging F0 a order F i -> lists_inv s F -> 0 <= i -> i + Z.of_nat n = 10 ->
  0 <= a < 0x70000000 ->
  (forall j, i <= j < (coalesce n F a i).1 -> (bsz j | a)) ->
  let (i', F') := coalesce n F a i in
  let s' := release_unlink (Z.to_nat (i' - i)) a i s in
  lists_inv s' F' /\ Page_maps s' = Page_maps s /\ same_lock s s' /\
  mem_frame (free_byte F) (mem s) (mem s').
Proof.
  revert s F i. induction n as [|n IH]; intros s F i Hm Hl Hi Hn Ha Hal; cbn [coalesce] in *.
  - rewrite Z.sub_diag. cbn. split; [done|]. split; [done|]. split; [done|apply mem_frame_refl].
  - case_bool_decide as Hin; cycle 1.
    { rewrite Z.sub_diag. cbn. split; [done|]. split; [done|]. split; [done|apply mem_frame_refl]. }
    destruct (merging_split F0 a order F i Hm ltac:(lia) Hin) as (l1 & l2 & HF & E).
    rewrite E in *. set (F1 := upd F i (l1 ++ l2)) in *.
    pose proof (coalesce_bounds n F1 a (i + 1)) as Hb.
    assert (PAGE_BUDDY a i = buddy (round a i) i) as HB.
    { assert ((bsz i | a)) by (apply Hal; lia). rewrite round_id by done. apply PAGE_BUDDY_buddy; done || lia. }
    destruct (release_unlink_buddy_spec s F i a l1 _ l2 (mg_blocks _ _ _ _ _ Hm) Hl ltac:(lia) HF HB)
      as (Hl1 & Hmaps1 & [Hlk1 Hc1] & Hfr1).
    specialize (IH (release_unlink_buddy a i s) F1 (i + 1)).
    destruct (coalesce n F1 a (i + 1)) as [i' F'] eqn:EC. cbn [fst] in *.
    replace (Z.to_nat (i' - i)) with (S (Z.to_nat (i' - (i + 1)))) by lia. cbn [release_unlink].
    destruct IH as (H1 & H2 & [H3 H4] & H5);
      [apply merging_step; done || lia|done|lia|lia|done|intros j Hj; apply Hal; lia|].
    split; [done|]. split; [congruence|]. split; [split; congruence|].
    eapply mem_frame_trans; [exact Hfr1|]. eapply mem_frame_weaken; [|exact H5].
    intros x Hx. apply (free_byte_remove F i l1 (buddy (round a i) i) l2 x); [lia|done|by left].
Qed.

(** ** The operation *)

(** The statement the interface and the properties use. *)
Lemma Page_Release_ok s F a order :
  phys_inv s F -> unlocked s -> standing F order a ->
  (forall j, order <= j < (merge F a order).1 -> (bsz j | a)) ->
  exists s' F',
    Page_Release (K a) order s = Some s' /\ phys_inv s' F' /\
    (forall x, free_byte F' x <-> free_byte F x \/ a <= x < a + bsz order) /\
    mem_frame (fun x => free_byte F x \/ a <= x < a + bsz order) (mem s) (mem s') /\
    released s s'.
Proof.
  intros Hinv Hu Hst Hal. pose proof Hinv as [Hb Hl Hbits].
  pose proof (proj1 Hst) as Hok. pose proof (block_page_ok _ _ Hok) as Hpa. pose proof Hpa as [_ Hra].
  pose proof (ok_order _ _ Hok) as Ho. pose proof (bsz_ge order ltac:(lia)).
  unfold Page_Release. rewrite K_not_null, K_unwrap by done.
  rewrite page_lock_unlocked by done. cbn [mbind option_bind].
  set (s0 := set_lock _ s).
  assert (phys_inv s0 F) as [_ Hl0 Hbits0] by by apply phys_inv_set_lock.
  unfold merge, PAGE_MAX_ORDER in *. pose proof (merging_start F a order Hb Hst) as Hms.
  destruct (release_scan_spec (Z.to_nat (10 - order)) 256 s0 F a order F order Hms Hbits0
              ltac:(lia) ltac:(lia) ltac:(lia) ltac:(lia)) as (s1 & -> & Hbits1 & Hm1 & Hl1 & Hlk1).
  assert (lists_inv s1 F) as Hli1 by by apply (lists_inv_ext s0).
  pose proof (release_unlink_spec (Z.to_nat (10 - order)) s1 F a order F order Hms Hli1
                ltac:(lia) ltac:(lia) Hra Hal) as Hun.
  pose proof (coalesce_merging (Z.to_nat (10 - order)) F a order F order Hms ltac:(lia) ltac:(lia)) as Hmg.
  pose proof (coalesce_bounds (Z.to_nat (10 - order)) F a order) as Hbd.
  destruct (coalesce _ F a order) as [i F1]. cbn [fst snd mbind option_bind] in *.
  set (s2 := release_unlink _ a order s1) in *. destruct Hun as (Hl2 & Hmaps2 & Hlk2 & Hfr2).
  destruct Hmg as [Hb1 Hst1 Hby1]. pose proof (block_page_ok _ _ (proj1 Hst1)) as Hp1.
  rewrite shiftl_bsz by lia. unfold bsz at 1. rewrite ldiff_ones_down by lia. fold (bsz i).
  fold (round a i). rewrite K_wrap by done.
  destruct (push_inv s2 F1 i (round a i) Hb1 Hst1 Hl2) as (Hinv3 & Hlk3 & Hfr3).
  { by apply (bits_inv_ext s1). }
  exists (page_unlock (push_block (K (round a i)) i s2)), (upd F1 i (round a i :: F1 i)).
  split; [done|]. split; [by apply phys_inv_set_lock|].
  assert (forall x, free_byte (upd F1 i (round a i :: F1 i)) x <->
                    free_byte F x \/ a <= x < a + bsz order) as Hby.
  { intros x. rewrite free_byte_add by lia. apply Hby1. }
  split; [exact Hby|]. split.
  - change (mem (page_unlock ?t)) with (mem t). change (mem s) with (mem s0). rewrite <- Hm1.
    eapply mem_frame_trans; (eapply mem_frame_weaken; [|eassumption]).
    + intros x Hx. by left.
    + intros x Hx. apply Hby1. pose proof (bsz_ge i ltac:(lia)). cbn in Hx.
      destruct Hx as [Hx|Hx]; [right; lia|by left].
  - apply (page_unlock_released s s0); [done|by apply page_lock_unlocked|].
    destruct Hlk1, Hlk2, Hlk3. split; congruence.
Qed.



(** Without the alignment the merge corrupts the lists. Four pages of one
    free block are acquired one by one, the second one is cleared by its
    owner, and they are released in order. The last release merges twice, and
    at the second step takes [0x401000] for the buddy of [0x402000]: the block
    at [0x400000] stays on the list of order 1 although it is inside the new
    block of order 2, and two acquisitions hand out the same address. *)
Theorem Page_Release_unaligned_overlap :
  ('(p0, s) ← Page_Acquire 0 (phys_one 2 0x400000);
   '(p1, s) ← Page_Acquire 0 s;
   '(p2, s) ← Page_Acquire 0 s;
   '(p3, s) ← Page_Acquire 0 s;
   let s := set_mem (fun m => memset m p1 0 4096) s in
   s ← Page_Release p0 0 s;
   s ← Page_Release p1 0 s;
   s ← Page_Release p2 0 s;
   s ← Page_Release p3 0 s;
   '(q1, s) ← Page_Acquire 1 s;
   '(q2, s) ← Page_Acquire 2 s;
   Some ([p0; p1; p2; p3], q1, q2))
  = Some ([0x80400000; 0x80401000; 0x80402000; 0x80403000], 0x80400000, 0x80400000).
Proof. by vm_compute. Qed.
