(* ===== verification/PhysMap.v ===== *)
(** * Page_MapMemoryChunk

    Putting a chunk of memory on the free lists: the recursion terminates, and
    the lists then cover exactly the chunk in addition. *)

From S2P Require Import Prelude CMem Sync Setup PhysMem PhysInv PhysAcquire PhysRelease.

(** ** What mapping a range does *)

(** From [(s, F)] to [(s', F')] the bytes [lo, hi) became free. *)
Record mapped (lo hi : Z) (s : PhysState) (F : FreeLists) (s' : PhysState) (F' : FreeLists) : Prop := {
  mp_inv : phys_inv s' F';
  mp_new : forall o a, 0 <= o <= 10 -> a ∈ F' o -> a ∈ F o \/ (lo <= a /\ a + bsz o <= hi);
  mp_bytes : forall x, free_byte F' x <-> free_byte F x \/ lo <= x < hi;
  mp_frame : mem_frame (fun x => free_byte F x \/ lo <= x < hi) (mem s) (mem s');
  mp_lock : same_lock s s'
}.

Lemma mapped_nil lo s F : phys_inv s F -> mapped lo lo s F s F.
Proof.
  intros H. split; [done|tauto| |apply mem_frame_refl|done].
  intros x. assert (~ lo <= x < lo) by lia. tauto.
Qed.

(** The upper part first, as the code does. *)
Lemma mapped_join lo m hi s F s1 F1 s2 F2 :
  lo <= m <= hi -> mapped m hi s F s1 F1 -> mapped lo m s1 F1 s2 F2 -> mapped lo hi s F s2 F2.
Proof.
  intros Hm [_ N1 B1 R1 [L1 C1]] [I2 N2 B2 R2 [L2 C2]]. split; [done| | | |split; congruence].
  - intros o a Ho [Ha|Ha]%N2; [|lia|done]. apply N1 in Ha as [Ha|Ha]; [by left|lia|done].
  - intros x. rewrite B2, B1. assert (lo <= x < hi <-> m <= x < hi \/ lo <= x < m) by lia. tauto.
  - eapply mem_frame_trans; (eapply mem_frame_weaken; [|eassumption]); cbn; intros x.
    + intros [?|?]; [by left|lia].
    + intros [[?|?]%B1|?]; [by left|lia..].
Qed.

(** The range is apart from the free blocks, and no block in it has a buddy
    that is already free. *)
Definition outside (F : FreeLists) (lo hi : Z) : Prop :=
  forall o a, 0 <= o <= 10 -> a ∈ F o -> a + bsz o <= lo \/ hi <= a.
Definition no_buddies (F : FreeLists) (lo hi : Z) : Prop :=
  forall o b, 0 <= o <= 9 -> (bsz o | b) -> lo <= b -> b + bsz o <= hi -> buddy b o ∉ F o.

(** A sufficient condition: a gap between the range and every free block. *)
Definition detached (F : FreeLists) (lo hi : Z) : Prop :=
  forall o a, 0 <= o <= 10 -> a ∈ F o -> a + bsz o < lo \/ hi < a.

Lemma buddy_cases b o :
  0 <= o -> (bsz o | b) ->
  (buddy b o = b + bsz o /\ (bsz (o + 1) | b)) \/
  (buddy b o = b - bsz o /\ ~ (bsz (o + 1) | b)).
Proof.
  intros Ho Hb. unfold buddy. pose proof (bsz_ge (o + 1) ltac:(lia)). case_cmp; [left|right].
  - split; [done|]. apply Z.mod_divide; [lia|done].
  - split; [done|]. intros Hd. apply Z.mod_divide in Hd; [done|lia].
Qed.

Lemma detached_ok F lo hi : detached F lo hi -> outside F lo hi /\ no_buddies F lo hi.
Proof.
  intros H. split.
  - intros o a Ho Ha. specialize (H o a Ho Ha). lia.
  - intros o b Ho Hb Hlo Hhi Hin. specialize (H o _ ltac:(lia) Hin).
    pose proof (bsz_ge o ltac:(lia)). destruct (buddy_cases b o ltac:(lia) Hb) as [[E _]|[E _]]; lia.
Qed.

(** ** One block *)

Lemma map_block s F o a :
  phys_inv s F -> standing F o a -> (o <= 9 -> buddy a o ∉ F o) ->
  mapped a (a + bsz o) s F (PAGE_MAP_SETBIT a o (push_block (K a) o s)) (upd F o (a :: F o)).
Proof.
  intros [Hb Hl Hbits] Hst Hbd. pose proof (proj1 Hst) as [Ho Hal Hlo _].
  destruct (push_block_lists s F o a Hb Hst Hl) as (Hl' & Hmaps & Hlk & Hfr).
  set (s1 := push_block (K a) o s) in *.
  pose proof (bsz_ge o ltac:(lia)). split; [split| | | |].
  - by apply blocks_inv_add.
  - by apply (lists_inv_ext s1).
  - intros o' n Ho' Hn. rewrite mapbit_set by lia. destruct (Z.eqb_spec o' o) as [->|Hne]; cbn [andb].
    + rewrite (pair_free_flip F o (a :: F o) a n); [|lia|done|].
      2: { intros x. apply flip_cons. by apply standing_not_free with o. }
      assert (mapbit s1 o n = pair_free F o n) as -> by (rewrite <- (Hbits o n) by done; unfold mapbit, page_map; by rewrite Hmaps).
      case_cmp; [|by rewrite xorb_false_r]. subst n.
      rewrite pair_free_buddy by (rewrite ?round_id by (done || lia); done || lia).
      rewrite round_id by (done || lia). rewrite bool_decide_false by (apply Hbd; lia). done.
    + rewrite pair_free_upd_ne, <- (Hbits o' n) by done. unfold mapbit, page_map. by rewrite Hmaps.
  - intros o' x Ho'. unfold upd. case_cmp; [|tauto]. subst. intros [->|?]%elem_of_cons; [right; lia|tauto].
  - intros x. by apply free_byte_add.
  - change (mem (PAGE_MAP_SETBIT _ _ _)) with (mem s1). eapply mem_frame_weaken; [|exact Hfr].
    intros x. cbn. intros [?|?]; [right; lia|tauto].
  - exact Hlk.
Qed.

Lemma block_standing F o a :
  0 <= o <= 10 -> (bsz o | a) -> 0x100000 <= a -> a + bsz o <= 0x70000000 ->
  outside F a (a + bsz o) -> standing F o a.
Proof.
  intros Ho Ha Hlo Hhi Hout. split; [done|]. intros o' a' Ho' Ha'.
  specialize (Hout o' a' Ho' Ha'). unfold apart. lia.
Qed.

(** ** The central part *)

Lemma PAGE_SIZE_bsz o : 0 <= o -> PAGE_SIZE_AT_ORDER o = bsz o.
Proof. intros. unfold PAGE_SIZE_AT_ORDER, KERNEL_PAGE_SIZE_IN_BITS. by apply shiftl_bsz. Qed.

Lemma map_central_spec n s F c count i mo :
  phys_inv s F -> 0 <= mo <= 10 -> (bsz mo | c) -> 0x100000 <= c ->
  c + Z.of_nat n * bsz mo <= 0x70000000 -> Z.of_nat n = count - i ->
  outside F c (c + Z.of_nat n * bsz mo) ->
  (mo <= 9 -> (n <= 1)%nat /\ no_buddies F c (c + Z.of_nat n * bsz mo)) ->
  exists F', mapped c (c + Z.of_nat n * bsz mo) s F (map_central n c count i mo s) F'.
Proof.
  revert s F i. induction n as [|n IH]; intros s F i Hinv Hmo Hc Hlo Hhi Hn Hout Hnb; cbn [map_central].
  - rewrite Z.mul_0_l, Z.add_0_r. exists F. by apply mapped_nil.
  - pose proof (bsz_ge mo ltac:(lia)). rewrite PAGE_SIZE_bsz by lia.
    replace (count - 1 - i) with (Z.of_nat n) by lia.
    set (b := c + Z.of_nat n * bsz mo).
    assert (c + Z.of_nat (S n) * bsz mo = b + bsz mo) as E by (unfold b; lia). rewrite E in *.
    assert (0 <= Z.of_nat n * bsz mo) by (apply Z.mul_nonneg_nonneg; lia).
    assert ((bsz mo | b)) as Hb by (apply Z.divide_add_r; [done|apply Z.divide_factor_r]).
    rewrite (wrap32_small b) by (unfold b in *; lia).
    assert (standing F mo b) as Hst.
    { apply block_standing; [done|done|unfold b; lia|done|]. intros o a Ho Ha.
      specialize (Hout o a Ho Ha). unfold b in *. lia. }
    rewrite (K_wrap b) by apply (block_page_ok _ _ (proj1 Hst)).
    pose proof (map_block s F mo b Hinv Hst) as Hmb.
    destruct (IH (PAGE_MAP_SETBIT b mo (push_block (K b) mo s)) (upd F mo (b :: F mo)) (i + 1)) as [F' HF'].
    + apply Hmb. intros Hmo9. destruct (Hnb Hmo9) as [_ H1]. apply H1; unfold b; [lia|done|lia|lia].
    + done.
    + done.
    + done.
    + unfold b in *. lia.
    + lia.
    + intros o a Ho. unfold upd. case_cmp.
      * intros [->|Ha]%elem_of_cons; [right; done|]. subst. specialize (Hout mo a Ho Ha). lia.
      * intros Ha. specialize (Hout o a Ho Ha). lia.
    + intros Hmo9. destruct (Hnb Hmo9) as [H1 _]. split; [lia|].
      intros o x Hox _ Hx1 Hx2. pose proof (bsz_ge o ltac:(lia)). assert (n = 0%nat) by lia. subst n. unfold b in *. lia.
    + exists F'. eapply mapped_join; [|apply Hmb|exact HF'].
      * unfold b. lia.
      * intros Hmo9. destruct (Hnb Hmo9) as [_ H1]. apply H1; unfold b; [lia|done|lia|lia].
Qed.

(** ** The recursion *)

Lemma chunk_max_order_spec size :
  4096 <= size ->
  let mo := chunk_max_order size in
  0 <= mo <= 10 /\ bsz mo <= size /\ (mo <= 9 -> size < bsz (mo + 1)).
Proof.
  intros Hs. cbn zeta. unfold chunk_max_order.
  set (mo := fold_left _ _ _). assert (E : mo = fold_left (fun max_order i =>
    if Z.shiftl 1 (12 + i) <=? size then i else max_order) [0;1;2;3;4;5;6;7;8;9;10] 0) by done.
  clearbody mo. cbn [fold_left] in E.
  repeat match type of E with
  | mo = if ?c then ?v else _ =>
      let H := fresh in destruct c eqn:H; [apply Z.leb_le in H|apply Z.leb_gt in H]
  end; subst mo; unfold bsz;
  repeat match goal with
  | H : context [Z.shiftl 1 ?x] |- _ =>
      let v := eval vm_compute in (Z.shiftl 1 x) in change (Z.shiftl 1 x) with v in H
  | |- context [2 ^ ?x] => let v := eval vm_compute in (2 ^ x) in change (2 ^ x) with v
  end; lia.
Qed.

(** The three parts of an interval of at least [p] bytes, cut at multiples of
    [p] as the code computes them. *)
Lemma skim_spec base size mo :
  0 <= mo <= 10 -> 0x100000 <= base -> base + size <= 0x70000000 -> bsz mo <= size ->
  (4096 | base) -> (4096 | size) ->
  let p := bsz mo in
  let low := if base mod p =? 0 then 0 else p ⊖ (base mod p) in
  let top := Z.land (base ⊕ size) (Z.lnot (p - 1)) in
  (p | base + low) /\ (p | top) /\ (4096 | low) /\ (4096 | base + size - top) /\
  0 <= low < p /\ base + low <= top /\ 0 <= base + size - top < p /\
  base ⊕ size ⊖ top = base + size - top /\ base ⊕ low = base + low /\
  top ⊖ (base ⊕ low) = top - (base + low).
Proof.
  intros Hmo Hlo Hhi Hs Hb Hsz. cbn zeta. pose proof (bsz_ge mo ltac:(lia)) as Hp.
  pose proof (bsz_max mo Hmo) as Hpm.
  assert ((4096 | bsz mo)) as Hd by (rewrite <- bsz_0; apply bsz_divide; lia).
  rewrite (wrap32_small (base + size)) by lia.
  assert (Z.land (base + size) (Z.lnot (bsz mo - 1)) = bsz mo * ((base + size) / bsz mo)) as ->
    by (apply ldiff_ones_down; lia).
  set (p := bsz mo) in *. set (top := p * ((base + size) / p)).
  pose proof (Z.div_mod (base + size) p ltac:(lia)) as D1. fold top in D1.
  pose proof (Z.mod_pos_bound (base + size) p ltac:(lia)) as D2.
  pose proof (Z.div_mod base p ltac:(lia)) as D3.
  pose proof (Z.mod_pos_bound base p ltac:(lia)) as D4.
  assert ((p | top)) as Htop by (unfold top; apply Z.divide_factor_l).
  assert ((4096 | top)) as Htop4 by (by apply (Z.divide_trans _ p)).
  assert ((4096 | base mod p)) as Hm4.
  { replace (base mod p) with (base - p * (base / p)) by lia. apply Z.divide_sub_r; [done|].
    by apply Z.divide_mul_l. }
  set (low := if base mod p =? 0 then 0 else p ⊖ (base mod p)).
  assert (0 <= low < p /\ (p | base + low) /\ (4096 | low)) as (Hl & Hld & Hl4).
  { unfold low. case_cmp.
    - split; [lia|]. split; [|apply Z.divide_0_r]. rewrite Z.add_0_r. exists (base / p). lia.
    - rewrite wrap32_small by lia. split; [lia|]. split; [|by apply Z.divide_sub_r].
      exists (base / p + 1). lia. }
  assert (base + low <= top) as Hct.
  { destruct Hld as [x Hx]. rewrite Hx, Z.mul_comm. apply Z.mul_le_mono_nonneg_l; [lia|].
    apply Z.div_le_lower_bound; lia. }
  rewrite !(wrap32_small (base + low)), (wrap32_small (base + size - top)),
    (wrap32_small (top - (base + low))) by lia.
  repeat split; try done; try lia. apply Z.divide_sub_r; [|done]. by apply Z.divide_add_r.
Qed.

(** The third part: the blocks mapped so far lie above [c], a multiple of a
    block larger than any in the range below it. *)
Lemma no_buddies_below F F' lo c hi mo :
  (forall o a, 0 <= o <= 10 -> a ∈ F' o -> a ∈ F o \/ (c <= a /\ a + bsz o <= hi)) ->
  0 <= mo <= 10 -> (bsz mo | c) -> c - lo < bsz mo -> no_buddies F lo c -> no_buddies F' lo c.
Proof.
  intros Hnew Hmo Hc Hsz Hnb o b Ho Hb Hlo Hhi Hin.
  destruct (Hnew o _ ltac:(lia) Hin) as [Hin'|[H1 _]]; [by apply (Hnb o b)|].
  pose proof (bsz_ge o ltac:(lia)).
  destruct (buddy_cases b o ltac:(lia) Hb) as [[E Hd]|[E _]]; rewrite E in *; [|lia].
  assert (b + bsz o = c) as Ec by lia.
  assert (o < mo). { destruct (decide (mo <= o)); [|lia]. pose proof (bsz_le mo o). lia. }
  assert ((bsz (o + 1) | c)) by (eapply Z.divide_trans; [apply (bsz_divide _ mo); lia|done]).
  assert ((bsz (o + 1) | bsz o)) as Hbad.
  { replace (bsz o) with (c - b) by lia. by apply Z.divide_sub_r. }
  apply Z.divide_pos_le in Hbad; [|lia]. rewrite bsz_succ in Hbad by lia. lia.
Qed.

Lemma mapped_outside s F s' F' lo m hi :
  mapped m hi s F s' F' -> outside F lo m -> outside F' lo m.
Proof.
  intros Hm Hout o a Ho Ha. destruct (mp_new _ _ _ _ _ _ Hm o a Ho Ha) as [Ha'|Ha']; [by apply Hout|lia].
Qed.

Lemma outside_sub F lo hi lo' hi' : outside F lo hi -> lo <= lo' -> hi' <= hi -> outside F lo' hi'.
Proof. intros H ? ? o a Ho Ha. specialize (H o a Ho Ha). lia. Qed.

Lemma no_buddies_sub F lo hi lo' hi' :
  no_buddies F lo hi -> lo <= lo' -> hi' <= hi -> no_buddies F lo' hi'.
Proof. intros H ? ? o b Ho Hb ? ?. apply H; [done|done|lia|lia]. Qed.

(** Blocks of the order of the central part are not buddies of the smaller
    ones above it. *)
Lemma no_buddies_central s F s1 F1 c top hi mo :
  mapped top hi s F s1 F1 -> 0 <= mo <= 9 -> hi - top < bsz mo -> top - c <= bsz mo ->
  no_buddies F c top -> (bsz mo | c) -> (bsz mo | top) -> no_buddies F1 c top.
Proof.
  intros Hm Hmo Hsz Hcnt Hnb Hc Ht o b Ho Hb Hlo Hhi Hin.
  destruct (mp_new _ _ _ _ _ _ Hm o _ ltac:(lia) Hin) as [Hin'|[H1 H2]]; [by apply (Hnb o b)|].
  pose proof (bsz_ge o ltac:(lia)).
  destruct (buddy_cases b o ltac:(lia) Hb) as [[E Hd]|[E _]]; rewrite E in *; [|lia].
  assert (b + bsz o = top) as Ec by lia.
  assert (o < mo). { destruct (decide (mo <= o)); [|lia]. pose proof (bsz_le mo o). lia. }
  assert ((bsz (o + 1) | top)) by (eapply Z.divide_trans; [apply (bsz_divide _ mo); lia|done]).
  assert ((bsz (o + 1) | bsz o)) as Hbad.
  { replace (bsz o) with (top - b) by lia. by apply Z.divide_sub_r. }
  apply Z.divide_pos_le in Hbad; [|lia]. rewrite bsz_succ in Hbad by lia. lia.
Qed.

Lemma map_chunk_spec f k base size s F :
  phys_inv s F -> 0x100000 <= base -> 0 <= size -> base + size <= 0x70000000 ->
  (4096 | base) -> (4096 | size) ->
  0 <= k <= 11 -> (k <= 10 -> size < bsz k) -> k < Z.of_nat f ->
  outside F base (base + size) -> no_buddies F base (base + size) ->
  exists s' F', map_chunk f base size s = Some s' /\ mapped base (base + size) s F s' F'.
Proof.
  revert k base size s F. induction f as [|f IH];
    intros k base size s F Hinv Hlo Hsz Hhi Hb Hs Hk Hsk Hf Hout Hnb; [lia|].
  cbn [map_chunk]. destruct (Z.eqb_spec size 0) as [->|Hne].
  { exists s, F. split; [done|]. rewrite Z.add_0_r. by apply mapped_nil. }
  pose proof (Z.divide_pos_le 4096 size ltac:(lia) Hs).
  rewrite (proj2 (Z.ltb_ge base _)) by (unfold KERNEL_MMAP_LOWMEM_END, KERNEL_HIGHER_HALF_OFFSET; lia).
  rewrite (proj2 (Z.leb_gt _ base)) by (unfold KERNEL_MMAP_VIRTUAL_END, KERNEL_HIGHER_HALF_OFFSET; lia).
  rewrite (wrap64_small (base + size)), (proj2 (Z.ltb_ge _ (base + size))) by lia.
  rewrite (wrap32_small base), (wrap32_small size) by lia.
  destruct (chunk_max_order_spec size ltac:(lia)) as (Hmo & Hmo1 & Hmo2).
  set (mo := chunk_max_order size) in *. rewrite PAGE_SIZE_bsz by lia.
  destruct (skim_spec base size mo Hmo Hlo Hhi Hmo1 Hb Hs)
    as (Hc & Ht & Hl4 & Ht4 & Hl & Hct & Hts & -> & -> & ->).
  set (low := if base mod bsz mo =? 0 then 0 else _) in *.
  set (top := Z.land _ _) in *. set (c := base + low) in *.
  pose proof (bsz_ge mo ltac:(lia)).
  assert (mo < k) as Hmk.
  { destruct (decide (k <= mo)); [|lia]. pose proof (bsz_le k mo). pose proof (Hsk ltac:(lia)). lia. }
  (* the upper part *)
  destruct (IH mo top (base + size - top) s F) as (s1 & F1 & -> & M1); try done; try lia.
  { apply (Z.divide_trans _ (bsz mo)); [|done]. rewrite <- bsz_0. apply bsz_divide. lia. }
  { apply (outside_sub _ _ _ _ _ Hout); lia. }
  { apply (no_buddies_sub _ _ _ _ _ Hnb); lia. }
  replace (top + (base + size - top)) with (base + size) in M1 by lia. cbn [mbind option_bind].
  (* the central part *)
  set (count := (top - c) / bsz mo).
  assert (c + count * bsz mo = top) as Ecount.
  { destruct Hc as [x Hx], Ht as [y Hy]. unfold count. rewrite Hx, Hy, <- Z.mul_sub_distr_r, Z.div_mul; lia. }
  assert (0 <= count) by (apply Z.div_pos; lia).
  destruct (map_central_spec (Z.to_nat count) s1 F1 c count 0 mo) as [F2 M2];
    [apply M1|lia|done|lia|rewrite Z2Nat.id; lia|rewrite Z2Nat.id; lia| | |];
    rewrite ?Z2Nat.id, ?Ecount in * by lia.
  { apply (mapped_outside _ _ _ _ _ _ _ M1). apply (outside_sub _ _ _ _ _ Hout); lia. }
  { intros Hmo9. specialize (Hmo2 Hmo9). rewrite bsz_succ in Hmo2 by lia.
    assert (count < 2) by (apply (Z.mul_lt_mono_pos_r (bsz mo)); lia). split; [lia|].
    pose proof (Z.mul_le_mono_nonneg_r count 1 (bsz mo) ltac:(lia) ltac:(lia)).
    apply (no_buddies_central s F s1 F1 c top (base + size) mo); [exact M1|lia|lia|lia| |done|done].
    apply (no_buddies_sub _ _ _ _ _ Hnb); lia. }
  set (s2 := map_central _ _ _ _ _ s1) in *.
  (* the lower part *)
  pose proof (mapped_join c top (base + size) s F s1 F1 s2 F2 ltac:(lia) M1 M2) as M12.
  destruct (IH mo base low s2 F2) as (s3 & F3 & E3 & M3); try done; try lia.
  { apply M2. }
  { apply (mapped_outside _ _ _ _ _ _ _ M12). apply (outside_sub _ _ _ _ _ Hout); lia. }
  { eapply (no_buddies_below F F2 base c (base + size) mo); [apply M12|done|done|unfold c; lia|].
    apply (no_buddies_sub _ _ _ _ _ Hnb); lia. }
  exists s3, F3. split; [exact E3|]. eapply mapped_join; [|exact M12|exact M3]. lia.
Qed.

(** ** Initialisation from the memory map *)

Lemma page_lists_null o : 0 <= o <= 10 -> (replicate 11 PAGE_LIST_NULL : list Z) !!! Z.to_nat o = PAGE_LIST_NULL.
Proof. intros. apply lookup_total_replicate_2. lia. Qed.

(** The arrays behind [Page_maps] have exactly the declared sizes. *)
Definition maps_sized (s : PhysState) : Prop :=
  forall o idx, is_Some (Page_maps s !! (o, idx)) -> 0 <= o <= 10 /\ 0 <= idx < Page_maps_size o.

Lemma clear_map_spec n o ms o' idx :
  default 0 (clear_map n o ms !! (o', idx)) =
    if (o' =? o) && (0 <=? idx) && (idx <? Z.of_nat n) then 0 else default 0 (ms !! (o', idx)).
Proof.
  revert ms. induction n as [|n IH]; intros ms; cbn [clear_map].
  - destruct (Z.leb_spec 0 idx), (Z.ltb_spec idx (Z.of_nat 0)); rewrite ?andb_false_r; done || lia.
  - rewrite IH. destruct (decide ((o, Z.of_nat n) = (o', idx))) as [[= <- <-]|Hne].
    + rewrite lookup_insert_eq, Z.eqb_refl. cbn [default andb].
      repeat case_cmp; cbn; done || lia.
    + rewrite lookup_insert_ne by done.
      destruct (Z.eqb_spec o' o) as [->|]; cbn [andb]; [|done].
      assert (idx <> Z.of_nat n) by congruence. repeat case_cmp; cbn; done || lia.
Qed.

Lemma clear_maps_spec ms o idx :
  default 0 (clear_maps ms !! (o, idx)) =
    if (0 <=? o) && (o <=? 10) && (0 <=? idx) && (idx <? Page_maps_size o)
    then 0 else default 0 (ms !! (o, idx)).
Proof.
  unfold clear_maps.
  assert (forall l ms, (forall i, i ∈ l -> (i <= 10)%nat) ->
    default 0 (fold_left (fun ms i => clear_map (Z.to_nat (Page_maps_size (Z.of_nat i))) (Z.of_nat i) ms) l ms
      !! (o, idx)) =
    if bool_decide (Z.to_nat o ∈ l) && (0 <=? o) && (0 <=? idx) && (idx <? Page_maps_size o)
    then 0 else default 0 (ms !! (o, idx))) as Hgen.
  { induction l as [|i l IH]; intros ms' Hl; cbn [fold_left]; [done|].
    rewrite IH by (intros; apply Hl; set_solver). rewrite clear_map_spec.
    assert (0 <= Page_maps_size (Z.of_nat i)).
    { apply Z.div_pos; [done|]. rewrite Z.shiftl_mul_pow2 by lia. pose proof (pow2_pos (Z.of_nat i)). lia. }
    rewrite Z2Nat.id by done.
    destruct (Z.leb_spec 0 o); cycle 1.
    { rewrite !andb_false_r. cbn [andb]. case_cmp; [lia|done]. }
    destruct (Z.eqb_spec o (Z.of_nat i)) as [->|Hne].
    - rewrite Nat2Z.id. rewrite (bool_decide_true (i ∈ i :: l)) by set_solver. cbn [andb].
      by destruct (bool_decide (i ∈ l)), (0 <=? idx), (idx <? _).
    - cbn [andb]. rewrite (bool_decide_ext (Z.to_nat o ∈ i :: l) (Z.to_nat o ∈ l)); [done|].
      rewrite elem_of_cons. intuition lia. }
  rewrite Hgen.
  - destruct (Z.leb_spec 0 o); [|by rewrite andb_false_r]. cbn [andb]. rewrite andb_true_r.
    rewrite (bool_decide_ext _ (o <= 10)); [|rewrite elem_of_seq; lia].
    by destruct (Z.leb_spec o 10); [rewrite bool_decide_true|rewrite bool_decide_false by lia].
  - intros i Hi. apply elem_of_seq in Hi. lia.
Qed.

Lemma clear_maps_zero s o idx :
  maps_sized s -> page_map (set_maps clear_maps s) o idx = 0.
Proof.
  intros Hs. unfold page_map. cbn [set_maps Page_maps]. rewrite clear_maps_spec.
  destruct (_ && _) eqn:E; [done|]. destruct (Page_maps s !! (o, idx)) eqn:El; [|done].
  destruct (Hs o idx ltac:(eauto)) as [H1 H2].
  rewrite !(proj2 (Z.leb_le _ _)), (proj2 (Z.ltb_lt _ _)) in E by lia. done.
Qed.

(** Entry [i] of the map: its base and size. *)
Definition entry (m : Mem) (mmap i : Z) : Z * Z :=
  (load64 m (mmap + 16 * i), load64 m (mmap + 16 * i + 8)).

(** The entries that [Page_MapMemoryChunk] passes over. *)
Definition ignored (e : Z * Z) : Prop := e.2 = 0 \/ e.1 < 0x100000 \/ 0x70000000 <= e.1.

Definition entry_byte (e : Z * Z) (x : Z) : Prop := ~ ignored e /\ e.1 <= x < e.1 + e.2.

(** A map the allocator can be built from: page-aligned entries below the
    end of the mapped region, in increasing order with gaps, none of them over
    the table itself. *)
Record good_map (m : Mem) (mmap n : Z) : Prop := {
  gm_table : 0 <= mmap /\ mmap + 16 * n <= 4294967296;
  gm_entry : forall i, 0 <= i < n -> ignored (entry m mmap i) \/
    ((4096 | (entry m mmap i).1) /\ (4096 | (entry m mmap i).2) /\
     (entry m mmap i).1 + (entry m mmap i).2 <= 0x70000000);
  gm_order : forall i j, 0 <= i < j -> j < n ->
    ignored (entry m mmap i) \/ ignored (entry m mmap j) \/
    (entry m mmap i).1 + (entry m mmap i).2 < (entry m mmap j).1;
  gm_away : forall i x, 0 <= i < n -> entry_byte (entry m mmap i) x ->
    ~ (mmap <= K x < mmap + 16 * n)
}.

#[global] Instance ignored_dec e : Decision (ignored e).
Proof. unfold ignored. apply _. Defined.

Lemma map_chunk_ignored f e s : ignored e -> map_chunk (S f) e.1 e.2 s = Some s.
Proof.
  intros Hi. cbn [map_chunk].
  unfold KERNEL_MMAP_LOWMEM_END, KERNEL_MMAP_VIRTUAL_END, KERNEL_HIGHER_HALF_OFFSET.
  destruct Hi as [->|[H|H]]; [by rewrite Z.eqb_refl|..]; destruct (_ =? 0); try done.
  - by rewrite (proj2 (Z.ltb_lt e.1 _)) by lia.
  - rewrite (proj2 (Z.leb_le _ e.1)) by lia. by destruct (_ <? _).
Qed.

Lemma Page_MapMemoryChunk_ignored e s : ignored e -> Page_MapMemoryChunk e.1 e.2 s = Some s.
Proof. apply map_chunk_ignored. Qed.

Lemma Page_MapMemoryChunk_ok base size s F :
  phys_inv s F -> (4096 | base) -> (4096 | size) ->
  0x100000 <= base -> 0 <= size -> base + size <= 0x70000000 -> detached F base (base + size) ->
  exists s' F', Page_MapMemoryChunk base size s = Some s' /\ mapped base (base + size) s F s' F'.
Proof.
  intros Hinv Hb Hs Hlo Hsz Hhi Hd. destruct (detached_ok F base (base + size) Hd) as [Hout Hnb].
  by apply (map_chunk_spec 12 11).
Qed.

(** The state after the entries from [k] on. *)
Record built (s0 : PhysState) (mmap n k : Z) (s : PhysState) (F : FreeLists) : Prop := {
  bt_inv : phys_inv s F;
  bt_blocks : forall o a, 0 <= o <= 10 -> a ∈ F o -> exists i, k <= i < n /\
    ~ ignored (entry (mem s0) mmap i) /\ (entry (mem s0) mmap i).1 <= a /\
    a + bsz o <= (entry (mem s0) mmap i).1 + (entry (mem s0) mmap i).2;
  bt_bytes : forall x, free_byte F x <-> exists i, k <= i < n /\ entry_byte (entry (mem s0) mmap i) x;
  bt_table : forall a, mmap <= a < mmap + 16 * n -> load8 (mem s) a = load8 (mem s0) a;
  bt_lock : same_lock s0 s
}.

Lemma entry_built s0 mmap n k s F i :
  built s0 mmap n k s F -> 0 <= i < n -> entry (mem s) mmap i = entry (mem s0) mmap i.
Proof.
  intros Hb Hi. unfold entry. f_equal; apply load_ext; intros j Hj; apply Hb; lia.
Qed.

Lemma map_entries_spec s0 mmap n k s F :
  good_map (mem s0) mmap n -> Z.of_nat k <= n -> built s0 mmap n (Z.of_nat k) s F ->
  exists s' F', map_entries k mmap s = Some s' /\ built s0 mmap n 0 s' F'.
Proof.
  intros Hg. revert s F. induction k as [|k IH]; intros s F Hk Hb; cbn [map_entries].
  { by exists s, F. }
  pose proof (entry_built _ _ _ _ _ _ (Z.of_nat k) Hb ltac:(lia)) as He.
  change (load64 (mem s) (mmap + 16 * Z.of_nat k)) with (entry (mem s) mmap (Z.of_nat k)).1.
  change (load64 (mem s) (mmap + 16 * Z.of_nat k + 8)) with (entry (mem s) mmap (Z.of_nat k)).2.
  rewrite He. clear He.
  destruct Hb as [Hinv Hbl Hby Htab Hlk].
  destruct (decide (ignored (entry (mem s0) mmap (Z.of_nat k)))) as [Hig|Hig].
  - rewrite Page_MapMemoryChunk_ignored by done. cbn [mbind option_bind].
    apply (IH s F); [lia|]. split; [done| | |done|done].
    + intros o a Ho Ha. destruct (Hbl o a Ho Ha) as (i & Hi & Hrest). exists i. split; [lia|done].
    + intros x. rewrite Hby. split; intros (i & Hi & Hx); exists i; (split; [|done]); [lia|].
      destruct (decide (i = Z.of_nat k)) as [->|]; [|lia]. by destruct Hx.
  - destruct (gm_entry _ _ _ Hg (Z.of_nat k) ltac:(lia)) as [?|(Ha1 & Ha2 & Hhi)]; [done|].
    pose proof (load_range 8 (mem s0) (mmap + 16 * Z.of_nat k)) as Hr1.
    pose proof (load_range 8 (mem s0) (mmap + 16 * Z.of_nat k + 8)) as Hr2.
    set (e := entry (mem s0) mmap (Z.of_nat k)) in *.
    assert (0 <= e.1 /\ 0 <= e.2) as [Hr1' Hr2'] by (split; [apply Hr1|apply Hr2]).
    assert (0x100000 <= e.1 /\ e.1 < 0x70000000 /\ e.2 <> 0) as (Hlo & _ & Hnz)
      by (unfold ignored in Hig; lia).
    destruct (Page_MapMemoryChunk_ok e.1 e.2 s F Hinv Ha1 Ha2 Hlo ltac:(lia) Hhi) as (s1 & F1 & -> & M).
    { intros o a Ho Ha. destruct (Hbl o a Ho Ha) as (i & Hi & Hni & H1 & H2). right.
      destruct (gm_order _ _ _ Hg (Z.of_nat k) i ltac:(lia) ltac:(lia)) as [?|[?|?]]; [done|done|].
      unfold e. lia. }
    cbn [mbind option_bind]. apply (IH s1 F1); [lia|]. split.
    + apply M.
    + intros o a Ho Ha. destruct (mp_new _ _ _ _ _ _ M o a Ho Ha) as [Ha'|[H1 H2]].
      * destruct (Hbl o a Ho Ha') as (i & Hi & Hrest). exists i. split; [lia|done].
      * exists (Z.of_nat k). split; [lia|]. done.
    + intros x. rewrite (mp_bytes _ _ _ _ _ _ M x), Hby. split.
      * intros [(i & Hi & Hx)|Hx]; [exists i; split; [lia|done]|].
        exists (Z.of_nat k). split; [lia|]. done.
      * intros (i & Hi & Hx). destruct (decide (i = Z.of_nat k)) as [->|]; [right; apply Hx|].
        left. exists i. split; [lia|done].
    + intros a Ha. rewrite <- (Htab a Ha). destruct (gm_table _ _ _ Hg) as [Hm1 Hm2].
      apply (mp_frame _ _ _ _ _ _ M); [lia|].
      intros x -> [Hx|Hx]; cbn in Hx.
      * apply Hby in Hx as (i & Hi & Hx). by apply (gm_away _ _ _ Hg i x); [lia|..].
      * by apply (gm_away _ _ _ Hg (Z.of_nat k) x); [lia|..].
    + destruct Hlk as [L1 L2], (mp_lock _ _ _ _ _ _ M). split; congruence.
Qed.

(** ** The contracts *)

(** C4. Mapping a page-aligned chunk between the low memory and the end of
    the mapped region, with a gap to every free block: the recursion ends, the
    free bytes are the old ones and those of the chunk, every new block lies
    inside the chunk, and lists and bitmaps are consistent. *)
Theorem Page_MapMemoryChunk_correct base size s F :
  phys_inv s F -> (4096 | base) -> (4096 | size) ->
  0x100000 <= base -> 0 <= size -> base + size <= 0x70000000 -> detached F base (base + size) ->
  exists s' F', Page_MapMemoryChunk base size s = Some s' /\ phys_inv s' F' /\
    (forall x, free_byte F' x <-> free_byte F x \/ base <= x < base + size) /\
    (forall o a, 0 <= o <= 10 -> a ∈ F' o -> a ∈ F o \/ (base <= a /\ a + bsz o <= base + size)) /\
    mem_frame (fun x => free_byte F x \/ base <= x < base + size) (mem s) (mem s').
Proof.
  intros Hinv Hb Hs Hlo Hsz Hhi Hd.
  destruct (Page_MapMemoryChunk_ok base size s F Hinv Hb Hs Hlo Hsz Hhi Hd) as (s' & F' & E & []).
  by exists s', F'.
Qed.

Lemma Page_MapMemoryChunk_correct_witness :
  exists s' F', Page_MapMemoryChunk 0x101000 0x5000 phys_empty = Some s' /\ phys_inv s' F' /\
    (forall x, free_byte F' x <-> free_byte no_blocks x \/ 0x101000 <= x < 0x106000).
Proof.
  destruct (Page_MapMemoryChunk_correct 0x101000 0x5000 phys_empty no_blocks phys_inv_empty)
    as (s' & F' & E & H1 & H2 & _).
  - by exists 257.
  - by exists 5.
  - lia.
  - lia.
  - lia.
  - by intros o a _ ?%not_elem_of_nil.
  - exists s', F'. split; [exact E|]. split; [exact H1|exact H2].
Defined.

(** The end of a chunk is not clipped to the end of the mapped region,
    only its start is tested: a chunk that crosses it puts blocks beyond
    [KERNEL_MMAP_VIRTUAL_END] on the lists and writes the bitmap of their
    order one byte past its end. *)
Theorem Page_MapMemoryChunk_not_clipped :
  exists s', Page_MapMemoryChunk 0x6fc00000 0x800000 phys_empty = Some s' /\
    page_list s' 10 = KERNADDR 0x6fc00000 /\
    pl_next s' (page_list s' 10) = KERNEL_MMAP_VIRTUAL_END /\
    Page_maps s' !! (10, Page_maps_size 10) = Some 1.
Proof. eexists. split; [vm_compute; reflexivity|]. by vm_compute. Qed.

Lemma BuddyMaps_built tag_fuel BootInfo s mmap n :
  maps_sized s -> Page_lists s = replicate 11 PAGE_LIST_NULL ->
  find_ram_info tag_fuel (mem s) (BootInfo ⊕ 8) 0 0 = Some (mmap, n) ->
  mmap <> 0 -> 0 < n -> good_map (mem s) mmap n ->
  exists s' F', Page_BuddyMaps_Initialize tag_fuel BootInfo s = Some s' /\ phys_inv s' F' /\
    (forall x, free_byte F' x <-> exists i, 0 <= i < n /\ entry_byte (entry (mem s) mmap i) x) /\
    flag (lock (Page_operation_lock s')) = false.
Proof.
  intros Hms Hpl Hfind Hne Hn Hg. unfold Page_BuddyMaps_Initialize.
  change (mem (set_maps clear_maps s)) with (mem s). rewrite Hfind. cbn [mbind option_bind].
  rewrite (proj2 (Z.eqb_neq mmap 0)), (proj2 (Z.eqb_neq n 0)) by lia. cbn [orb].
  destruct (map_entries_spec s mmap n (Z.to_nat n) (set_maps clear_maps s) no_blocks Hg ltac:(lia))
    as (s1 & F1 & -> & Hb).
  { rewrite Z2Nat.id by lia. split.
    - split; [apply phys_inv_empty| |].
      + split; [cbn; by rewrite Hpl| |done]. intros o Ho. unfold page_list. cbn. rewrite Hpl.
        by apply page_lists_null.
      + intros o k Ho Hk. unfold mapbit. rewrite clear_maps_zero by done. apply Z.testbit_0_l.
    - by intros o a _ ?%not_elem_of_nil.
    - intros x. split; [by intros (o & a & _ & ?%not_elem_of_nil & _)|]. intros (i & Hi & _). lia.
    - done.
    - done. }
  cbn [mbind option_bind]. eexists _, F1. split; [done|].
  split; [by apply phys_inv_set_lock, Hb|]. split; [apply Hb|done].
Qed.

(** C5. Building the allocator from the boot information: from static data
    as the linker leaves the lists and any contents of the bitmaps, for a map
    of page-aligned entries with gaps, the free bytes are exactly those of the
    entries that are not passed over, lists and bitmaps are consistent, and the
    lock is free. *)
Theorem Page_BuddyMaps_Initialize_correct tag_fuel BootInfo s mmap n :
  maps_sized s -> Page_lists s = replicate 11 PAGE_LIST_NULL ->
  find_ram_info tag_fuel (mem s) (BootInfo ⊕ 8) 0 0 = Some (mmap, n) ->
  mmap <> 0 -> 0 < n -> good_map (mem s) mmap n ->
  exists s' F', Page_BuddyMaps_Initialize tag_fuel BootInfo s = Some s' /\ phys_inv s' F' /\
    (forall x, free_byte F' x <-> exists i, 0 <= i < n /\ entry_byte (entry (mem s) mmap i) x) /\
    flag (lock (Page_operation_lock s')) = false.
Proof. apply BuddyMaps_built. Qed.

(** A boot information block with one tag of RAM entries and the end tag. *)
Definition demo_boot_mem : Mem :=
  store_bytes ∅ 0x80001000 (
    [0x40; 0; 0; 0; 0; 0; 0; 0] ++
    [99; 0; 0; 0; 48; 0; 0; 0; 16; 0; 0; 0; 0; 0; 0; 0] ++
    [0; 0; 0x10; 0; 0; 0; 0; 0] ++ [0; 0x20; 0; 0; 0; 0; 0; 0] ++
    [0; 0; 0x20; 0; 0; 0; 0; 0] ++ [0; 0x10; 0; 0; 0; 0; 0; 0]).
Definition demo_boot : PhysState := set_mem (fun _ => demo_boot_mem) phys_empty.

Lemma Page_BuddyMaps_Initialize_correct_witness :
  exists s' F', Page_BuddyMaps_Initialize 10 0x80001000 demo_boot = Some s' /\ phys_inv s' F' /\
    (forall x, free_byte F' x <->
       exists i, 0 <= i < 2 /\ entry_byte (entry demo_boot_mem 0x80001018 i) x).
Proof.
  assert (entry demo_boot_mem 0x80001018 0 = (0x100000, 0x2000)) as E0 by by vm_compute.
  assert (entry demo_boot_mem 0x80001018 1 = (0x200000, 0x1000)) as E1 by by vm_compute.
  destruct (Page_BuddyMaps_Initialize_correct 10 0x80001000 demo_boot 0x80001018 2)
    as (s' & F' & E & H1 & H2 & _).
  - intros o idx Hx. change (Page_maps demo_boot) with (∅ : gmap (Z * Z) Z) in Hx.
    rewrite lookup_empty in Hx. by destruct Hx.
  - done.
  - by vm_compute.
  - done.
  - done.
  - change (mem demo_boot) with demo_boot_mem. split.
    + lia.
    + intros i Hi. assert (i = 0 \/ i = 1) as [-> | ->] by lia; rewrite ?E0, ?E1; right; cbn.
      * split; [by exists 256|]. split; [by exists 2|lia].
      * split; [by exists 512|]. split; [by exists 1|lia].
    + intros i j Hi Hj. assert (i = 0 /\ j = 1) as [-> ->] by lia. rewrite E0, E1. cbn. lia.
    + intros i x Hi. assert (i = 0 \/ i = 1) as [-> | ->] by lia; rewrite ?E0, ?E1;
        intros [_ Hx]; cbn in Hx; unfold K; lia.
  - exists s', F'. split; [exact E|]. split; [exact H1|exact H2].
Defined.
