(* ===== verification/PageAlloc.v ===== *)
(** * What the page allocator promises to its clients

    The paging code uses the allocator through [Page_Acquire(0)] and
    [Page_Release(p, 0)] and owns the pages it was given. The class states
    that contract; the buddy allocator of [PhysMem.v] is an instance. *)

From S2P Require Import Prelude CMem Sync Setup PhysMem PhysInv PhysAcquire PhysRelease.

(** A state with memory and the two operations. *)
Class PageAllocator (S : Type) := {
  pa_mem : S -> Mem;
  pa_set_mem : (Mem -> Mem) -> S -> S;
  pa_acquire : Z -> S -> option (Z * S);
  pa_release : Z -> Z -> S -> option S
}.

(** [pa_ok s P]: the allocator is consistent, it can be called, and it owns
    exactly the physical bytes in [P]. *)
Class PageAllocatorLaws (S : Type) `{PA : PageAllocator S} := {
  pa_ok : S -> (Z -> Prop) -> Prop;
  pa_releasable : S -> Z -> Prop;
  pa_mem_set : forall f s, pa_mem (pa_set_mem f s) = f (pa_mem s);
  (* the owner of the other bytes may write them *)
  pa_set_ok : forall f s P, pa_ok s P ->
    mem_frame (fun x => ~ P x) (pa_mem s) (f (pa_mem s)) -> pa_ok (pa_set_mem f s) P;
  pa_acquire_law : forall s P, pa_ok s P ->
    (exists s', pa_acquire 0 s = Some (PAGE_LIST_NULL, s') /\ pa_mem s' = pa_mem s /\ forall x, ~ P x) \/
    (exists a s' P', pa_acquire 0 s = Some (K a, s') /\ pa_ok s' P' /\ page_ok a /\
       (forall x, a <= x < a + 4096 -> P x /\ ~ P' x) /\
       (forall x, ~ (a <= x < a + 4096) -> (P' x <-> P x)) /\
       mem_frame P (pa_mem s) (pa_mem s'));
  pa_release_law : forall s P a, pa_ok s P -> page_ok a -> 0x100000 <= a -> pa_releasable s a ->
    (forall x, a <= x < a + 4096 -> ~ P x) ->
    exists s' P', pa_release (K a) 0 s = Some s' /\ pa_ok s' P' /\
      (forall x, P' x <-> P x \/ a <= x < a + 4096) /\
      mem_frame (fun x => P x \/ a <= x < a + 4096) (pa_mem s) (pa_mem s')
}.

(** ** The buddy allocator *)

#[export] Instance phys_allocator : PageAllocator PhysState := {
  pa_mem := mem;
  pa_set_mem := set_mem;
  pa_acquire := Page_Acquire;
  pa_release := Page_Release
}.

Definition phys_ok (s : PhysState) (P : Z -> Prop) : Prop :=
  exists F, phys_inv s F /\ unlocked s /\ forall x, P x <-> free_byte F x.

(** The merge of the page passes only orders at which its address is aligned
    (see [Page_Release_unaligned_overlap] for what happens otherwise). *)
Definition phys_releasable (s : PhysState) (a : Z) : Prop :=
  forall F, phys_inv s F -> forall j, 0 <= j < (merge F a 0).1 -> (bsz j | a).

Lemma load32_frame (P : Z -> Prop) m m' b x :
  page_ok b -> 0 <= x <= 4 -> (forall y, b <= y < b + 8 -> P y) ->
  mem_frame (fun x => ~ P x) m m' -> load32 m' (K b + x) = load32 m (K b + x).
Proof.
  intros [_ Hb] Hx HP Hfr. apply load_ext. intros i Hi. apply Hfr; [unfold K; lia|].
  intros y Hy Hn. apply Hn, HP. unfold K in Hy. lia.
Qed.

Lemma phys_set_ok f s P :
  phys_ok s P -> mem_frame (fun x => ~ P x) (mem s) (f (mem s)) -> phys_ok (set_mem f s) P.
Proof.
  intros (F & Hinv & Hu & HP) Hfr. exists F. split; [|done].
  destruct Hinv as [Hb [Hlen Hhead Hseg] Hbits].
  split; [done| |by apply (bits_inv_ext s)]. split; [done|done|].
  intros o Ho. cbn. apply (dseg_ext (mem s)); [|by apply Hseg]. intros a Ha.
  assert (page_ok a) as Hpa by (eapply block_page_ok; by apply (bi_ok F Hb o)).
  assert (forall y, a <= y < a + 8 -> P y) as Hy by (intros y Hy; apply HP; by apply (free_byte_block F o a)).
  split; [rewrite <- (Z.add_0_r (K a))|]; apply (load32_frame P); done || lia.
Qed.

Lemma phys_acquire_law s P :
  phys_ok s P ->
  (exists s', Page_Acquire 0 s = Some (PAGE_LIST_NULL, s') /\ mem s' = mem s /\ forall x, ~ P x) \/
  (exists a s' P', Page_Acquire 0 s = Some (K a, s') /\ phys_ok s' P' /\ page_ok a /\
     (forall x, a <= x < a + 4096 -> P x /\ ~ P' x) /\
     (forall x, ~ (a <= x < a + 4096) -> (P' x <-> P x)) /\ mem_frame P (mem s) (mem s')).
Proof.
  intros (F & Hinv & Hu & HP).
  destruct (decide (Forall (fun o => F o = []) (seqZ 0 11))) as [He|He].
  - left. destruct (Page_Acquire_none s F 0 Hinv Hu ltac:(lia)) as (s' & E & _ & Hm & _).
    { intros o Ho. rewrite Forall_forall in He. apply He. apply elem_of_seqZ. lia. }
    exists s'. split; [done|]. split; [done|]. intros x Hx. apply HP in Hx as (o & b & Ho & Hb & _).
    rewrite Forall_forall in He. rewrite He in Hb by (apply elem_of_seqZ; lia). by apply elem_of_nil in Hb.
  - right. apply not_Forall_Exists in He; [|apply _]. apply Exists_exists in He as (o & Ho & Hne).
    apply elem_of_seqZ in Ho.
    destruct (Page_Acquire_found s F 0 Hinv Hu ltac:(lia)) as (a & s' & F' & E & Hinv' & Hst & Hby & Hfr & Hr).
    { exists o. split; [lia|done]. }
    rewrite bsz_0 in Hby. exists a, s', (free_byte F'). split; [done|].
    split; [exists F'; split; [done|]; split; [by apply (released_unlocked s)|done]|].
    split; [apply (block_page_ok _ _ (proj1 Hst))|].
    split; [|split].
    + intros x Hx. split; [apply HP, Hby; by right|]. by apply (standing_byte F' 0 a).
    + intros x Hx. rewrite HP, Hby. tauto.
    + eapply mem_frame_weaken; [|exact Hfr]. intros x. apply HP.
Qed.

Lemma phys_release_law s P a :
  phys_ok s P -> page_ok a -> 0x100000 <= a -> phys_releasable s a ->
  (forall x, a <= x < a + 4096 -> ~ P x) ->
  exists s' P', Page_Release (K a) 0 s = Some s' /\ phys_ok s' P' /\
    (forall x, P' x <-> P x \/ a <= x < a + 4096) /\
    mem_frame (fun x => P x \/ a <= x < a + 4096) (mem s) (mem s').
Proof.
  intros (F & Hinv & Hu & HP) [Hal Hr] Hlo Hrel Hown.
  assert (standing F 0 a) as Hst.
  { rewrite <- bsz_0 in Hal. split.
    - split; [lia|done|lia|]. rewrite bsz_0. destruct Hal as [q ->]. rewrite bsz_0 in *. lia.
    - intros o' a' Ho' Ha'. unfold apart. rewrite bsz_0. pose proof (bsz_ge o' ltac:(lia)).
      pose proof (bi_ok F (pi_blocks _ _ Hinv) o' a' Ho' Ha') as Hok.
      destruct (aligned_nested 0 o' a a' ltac:(lia) Hal (ok_align _ _ Hok)) as [[H1 H2]|Hap];
        rewrite ?bsz_0 in *; [|lia].
      exfalso. apply (Hown a); [lia|]. apply HP. exists o', a'. repeat split; try done; lia. }
  destruct (Page_Release_ok s F a 0 Hinv Hu Hst (Hrel F Hinv)) as (s' & F' & E & Hinv' & Hby & Hfr & Hrl).
  rewrite bsz_0 in *. exists s', (free_byte F'). split; [done|].
  split; [exists F'; split; [done|]; split; [by apply (released_unlocked s)|done]|].
  split; [intros x; rewrite HP; apply Hby|].
  eapply mem_frame_weaken; [|exact Hfr]. intros x. cbn. rewrite HP. tauto.
Qed.

#[export] Instance phys_allocator_laws : PageAllocatorLaws PhysState := {
  pa_ok := phys_ok;
  pa_releasable := phys_releasable;
  pa_mem_set := fun f s => eq_refl;
  pa_set_ok := phys_set_ok;
  pa_acquire_law := phys_acquire_law;
  pa_release_law := phys_release_law
}.

(** The clients' states compose memory writes. *)
Lemma mem_frame_store32 (P : Z -> Prop) m a x v :
  page_ok a -> 0 <= x <= 4092 -> (forall y, a <= y < a + 4096 -> P y) ->
  mem_frame P m (store32 m (K a + x) v).
Proof.
  intros [_ Ha] Hx HP b Hb Hn. assert (a + 4096 <= 0x80000000) by lia.
  apply load8_store_ne; [unfold K; lia..|].
  destruct (decide (b < K a + x \/ K a + x + 4 <= b)); [unfold K in *; lia|].
  exfalso. apply (Hn (b - 0x80000000)); [unfold K; lia|]. apply HP. unfold K in *. lia.
Qed.

Lemma mem_frame_memset (P : Z -> Prop) m a c :
  page_ok a -> (forall y, a <= y < a + 4096 -> P y) -> mem_frame P m (memset m (K a) c 4096).
Proof.
  intros [_ Ha] HP b Hb Hn. rewrite load8_memset by (unfold K; lia).
  match goal with |- context [if ?c then _ else _] => destruct c eqn:E; [|done] end.
  exfalso. bool_to_prop. apply (Hn (b - 0x80000000)); [unfold K; lia|]. apply HP. unfold K in *. lia.
Qed.
