(* ===== verification/Paging.v ===== *)
(** * Address spaces

    [kernel/arch/paging/include/paging.h] and
    [kernel/arch/paging/src/paging.c], over any page allocator. The page
    directory of a process is given by its pointer [cr3]
    ([proc->task_context->cr3]); the operations return [None] when the
    allocator's lock never becomes free. *)

From S2P Require Import Prelude CMem Setup PhysMem PhysInv PageAlloc.

(** ** paging.h *)

Definition PAGING_PAGESIZE : Z := 0x1000.
Definition PAGING_EXTPAGESIZE : Z := 0x400000.
Definition PAGING_PGDIR_NENTRIES : Z := 0x400.
Definition PAGING_PGTAB_NENTRIES : Z := 0x400.
Definition PAGING_PDE_PRESENT : Z := 1.
Definition PAGING_PDE_READWRITE : Z := 2.
Definition PAGING_PDE_USER : Z := 4.
Definition PAGING_PDE_WRITETHROUGH : Z := 8.
Definition PAGING_PDE_CACHEDISABLE : Z := 0x10.
Definition PAGING_PDE_ACCESSED : Z := 0x20.
Definition PAGING_PDE_PSE : Z := 0x80.
Definition PAGING_PTE_PRESENT : Z := 1.
Definition PAGING_PTE_READWRITE : Z := 2.
Definition PAGING_PTE_USER : Z := 4.
Definition PAGING_PTE_WRITETHROUGH : Z := 8.
Definition PAGING_PTE_CACHEDISABLE : Z := 0x10.
Definition PAGING_PTE_ACCESSED : Z := 0x20.
Definition PAGING_PTE_DIRTY : Z := 0x40.
Definition PAGING_PTE_GLOBAL : Z := 0x100.

Definition PAGING_PGDIR_IDX (x : Z) : Z := Z.land (Z.shiftr x 22) 0x3FF.
Definition PAGING_PGTAB_IDX (x : Z) : Z := Z.land (Z.shiftr x 12) 0x3FF.

(** ** paging.c *)

Definition PAGESIZE : Z := PAGING_PAGESIZE.
Definition PAGEADDRESS (x : Z) : Z := Z.land x (Z.lnot (PAGESIZE - 1)).
Definition PAGEOFFSET (x : Z) : Z := Z.land x (PAGESIZE - 1).
Abbreviation PAGETABIDX := PAGING_PGTAB_IDX.
Abbreviation PAGEDIRIDX := PAGING_PGDIR_IDX.

(** Entry [i] of an array of [uintptr_t] at [p]. *)
Definition entry_get (m : Mem) (p i : Z) : Z := load32 m (p + 4 * i).
Definition entry_set (p i v : Z) (m : Mem) : Mem := store32 m (p + 4 * i) v.

Section Paging.
Context {S : Type} {PA : PageAllocator S}.

(** The kernel's own page directory, set up by the boot code. *)
Variable Kernel_pagedirectory : Z.

Definition Paging_IsPageMapped (cr3 virt_addr : Z) (s : S) : bool :=
  let page_dir_entry := entry_get (pa_mem s) cr3 (PAGEDIRIDX virt_addr) in
  if Z.land page_dir_entry PAGING_PDE_PRESENT =? 0 then false
  else
    let page_table := KERNADDR (PAGEADDRESS page_dir_entry) in
    if entry_get (pa_mem s) page_table (PAGETABIDX virt_addr) =? 0 then false else true.

Definition map_entry (page_table virt_addr phys_addr : Z) : S -> S :=
  pa_set_mem (entry_set page_table (PAGETABIDX virt_addr)
    (Z.lor (Z.lor (Z.lor phys_addr PAGING_PTE_PRESENT) PAGING_PTE_READWRITE) PAGING_PTE_USER)).

Definition Paging_MapPage (cr3 virt_addr phys_addr : Z) (create : bool) (s : S)
  : option (bool * S) :=
  let page_dir_entry := entry_get (pa_mem s) cr3 (PAGEDIRIDX virt_addr) in
  if Z.land page_dir_entry PAGING_PDE_PRESENT =? 0 then
    if negb create then Some (false, s)
    else
      '(page_table, s) ← pa_acquire 0 s;
      if page_table =? PAGE_LIST_NULL then Some (false, s)
      else
        let s := pa_set_mem (fun m => memset m page_table 0 PAGESIZE) s in
        let s := pa_set_mem (entry_set cr3 (PAGEDIRIDX virt_addr)
          (Z.lor (Z.lor (Z.lor (PHYSADDR page_table) PAGING_PDE_PRESENT)
                        PAGING_PDE_READWRITE) PAGING_PDE_USER)) s in
        Some (true, map_entry page_table virt_addr phys_addr s)
  else
    let page_table := KERNADDR (PAGEADDRESS page_dir_entry) in
    if negb (entry_get (pa_mem s) page_table (PAGETABIDX virt_addr) =? 0) then Some (false, s)
    else Some (true, map_entry page_table virt_addr phys_addr s).

Definition Paging_UnmapPage (cr3 virt_addr : Z) (s : S) : option (bool * S) :=
  let page_dir_entry := entry_get (pa_mem s) cr3 (PAGEDIRIDX virt_addr) in
  if Z.land page_dir_entry PAGING_PDE_PRESENT =? 0 then Some (false, s)
  else
    let page_table := KERNADDR (PAGEADDRESS page_dir_entry) in
    let page_table_entry := entry_get (pa_mem s) page_table (PAGETABIDX virt_addr) in
    if Z.land page_table_entry PAGING_PTE_PRESENT =? 0 then Some (false, s)
    else
      let page := KERNADDR (PAGEADDRESS page_table_entry) in
      s ← pa_release page 0 s;
      Some (true, pa_set_mem (entry_set page_table (PAGETABIDX virt_addr) 0) s).

(** The [while (true)] of [Paging_MapPages]. *)
Fixpoint map_pages_loop (fuel : nat) (cr3 va va_end sz : Z) (s : S) : option (Z * S) :=
  match fuel with
  | O => None
  | Datatypes.S f =>
      '(page_ptr, s) ← pa_acquire 0 s;
      if page_ptr =? PAGE_LIST_NULL then Some (sz, s)
      else
        let pa := PHYSADDR page_ptr in
        '(ok, s) ← Paging_MapPage cr3 va pa true s;
        if negb ok then (s ← pa_release page_ptr 0 s; Some (sz, s))
        else
          let sz := sz ⊕ PAGESIZE in
          if va =? va_end then Some (sz, s)
          else map_pages_loop f cr3 (va ⊕ PAGESIZE) va_end sz s
  end.

Definition Paging_MapPages (cr3 virt_addr size : Z) (s : S) : option (Z * S) :=
  if size =? 0 then Some (0, s)
  else
    let va := PAGEADDRESS virt_addr in
    let va_end := PAGEADDRESS (virt_addr ⊕ size ⊖ 1) in
    map_pages_loop (Z.to_nat (wrap32 (va_end - va) / PAGESIZE + 1)) cr3 va va_end 0 s.

(** The [while (true)] of [Paging_UnmapPages]. *)
Fixpoint unmap_pages_loop (fuel : nat) (cr3 va va_end : Z) (failed : bool) (s : S)
  : option (bool * S) :=
  match fuel with
  | O => None
  | Datatypes.S f =>
      if KERNEL_MMAP_VIRTUAL_START <=? va then Some (true, s)
      else if va_end <? va then Some (failed, s)
      else
        '(ok, s) ← Paging_UnmapPage cr3 va s;
        unmap_pages_loop f cr3 (va ⊕ PAGESIZE) va_end (if negb ok then true else failed) s
  end.

Definition Paging_UnmapPages (cr3 virt_addr size : Z) (s : S) : option (bool * S) :=
  let va := PAGEADDRESS (virt_addr ⊕ (PAGESIZE - 1)) in
  let va_end := PAGEADDRESS (virt_addr ⊕ size ⊖ 1) in
  unmap_pages_loop (Z.to_nat (KERNEL_MMAP_VIRTUAL_START / PAGESIZE + 1)) cr3 va va_end false s.

Fixpoint copy_kernel_entries (fuel : nat) (pgd i : Z) (s : S) : S :=
  match fuel with
  | O => s
  | Datatypes.S f =>
      if 0 <? i then
        let s := pa_set_mem (fun m =>
          entry_set pgd (PAGEDIRIDX i) (entry_get m Kernel_pagedirectory (PAGEDIRIDX i)) m) s in
        copy_kernel_entries f pgd (i ⊕ PAGING_EXTPAGESIZE) s
      else s
  end.

(** The new [cr3] is the second component. *)
Definition Paging_Initialize (cr3 : Z) (s : S) : option (bool * Z * S) :=
  '(pgd, s) ← pa_acquire 0 s;
  if pgd =? PAGE_LIST_NULL then Some (false, cr3, s)
  else
    let s := pa_set_mem (fun m => memset m pgd 0 PAGESIZE) s in
    let s := copy_kernel_entries 1024 pgd KERNEL_MMAP_VIRTUAL_START s in
    Some (true, pgd, s).

Fixpoint release_tables (fuel : nat) (cr3 i : Z) (s : S) : option S :=
  match fuel with
  | O => None
  | Datatypes.S f =>
      if i <? KERNEL_MMAP_VIRTUAL_START then
        let page_table := KERNADDR (PAGEADDRESS (entry_get (pa_mem s) cr3 (PAGEDIRIDX i))) in
        s ← pa_release page_table 0 s;
        release_tables f cr3 (i ⊕ PAGING_EXTPAGESIZE)
          (pa_set_mem (entry_set cr3 (PAGEDIRIDX i) 0) s)
      else Some s
  end.

Definition Paging_Terminate (cr3 : Z) (s : S) : option S :=
  '(_, s) ← Paging_UnmapPages cr3 0 KERNEL_MMAP_VIRTUAL_START s;
  s ← release_tables 513 cr3 0 s;
  pa_release cr3 0 s.

Definition Paging_SetFlags (cr3 virt_addr flags : Z) (s : S) : bool * S :=
  if negb (Paging_IsPageMapped cr3 virt_addr s) then (false, s)
  else
    let page_table := KERNADDR (PAGEADDRESS (entry_get (pa_mem s) cr3 (PAGEDIRIDX virt_addr))) in
    (true, pa_set_mem (fun m => entry_set page_table (PAGETABIDX virt_addr)
             (Z.lor (entry_get m page_table (PAGETABIDX virt_addr)) flags) m) s).

Definition Paging_UnsetFlags (cr3 virt_addr flags : Z) (s : S) : bool * S :=
  if negb (Paging_IsPageMapped cr3 virt_addr s) then (false, s)
  else
    let page_table := KERNADDR (PAGEADDRESS (entry_get (pa_mem s) cr3 (PAGEDIRIDX virt_addr))) in
    (true, pa_set_mem (fun m => entry_set page_table (PAGETABIDX virt_addr)
             (Z.land (entry_get m page_table (PAGETABIDX virt_addr)) (Z.lnot flags)) m) s).

(** The inner loop of [Paging_Clone]: [n] entries left, at entry [j]; the
    first component is [cloning_failed]. *)
Fixpoint clone_table (n : nat) (page_table ptab j : Z) (s : S) : option (bool * S) :=
  match n with
  | O => Some (false, s)
  | Datatypes.S n' =>
      if entry_get (pa_mem s) ptab j =? 0 then clone_table n' page_table ptab (j + 1) s
      else
        '(page, s) ← pa_acquire 0 s;
        if page =? PAGE_LIST_NULL then Some (true, s)
        else
          let s := pa_set_mem (fun m => entry_set page_table j
                     (PHYSADDR page ⊕ PAGEOFFSET (entry_get m ptab j)) m) s in
          let s := pa_set_mem (fun m =>
                     memmove m page (KERNADDR (PAGEADDRESS (entry_get m ptab j))) PAGESIZE) s in
          clone_table n' page_table ptab (j + 1) s
  end.

Fixpoint clone_dir (n : nat) (page_dir clone i : Z) (s : S) : option (bool * S) :=
  match n with
  | O => Some (false, s)
  | Datatypes.S n' =>
      if entry_get (pa_mem s) page_dir i =? 0 then clone_dir n' page_dir clone (i + 1) s
      else
        '(page_table, s) ← pa_acquire 0 s;
        if page_table =? PAGE_LIST_NULL then Some (true, s)
        else
          let s := pa_set_mem (fun m => entry_set clone i
                     (PHYSADDR page_table ⊕ PAGEOFFSET (entry_get m page_dir i)) m) s in
          let ptab := KERNADDR (PAGEADDRESS (entry_get (pa_mem s) page_dir i)) in
          '(cloning_failed, s) ← clone_table (Z.to_nat PAGING_PGTAB_NENTRIES) page_table ptab 0 s;
          if (cloning_failed : bool) then Some (true, s)
          else clone_dir n' page_dir clone (i + 1) s
  end.

Definition Paging_Clone (page_dir clone : Z) (s : S) : option (bool * S) :=
  '(cloning_failed, s) ←
    clone_dir (Z.to_nat (PAGEDIRIDX KERNEL_MMAP_VIRTUAL_START)) page_dir clone 0 s;
  if (cloning_failed : bool) then (s ← Paging_Terminate clone s; Some (false, s))
  else Some (true, s).

Definition Paging_GetHigherHalfAddress (cr3 user_addr : Z) (s : S) : Z :=
  if KERNEL_MMAP_VIRTUAL_START <? user_addr then 0
  else if negb (Paging_IsPageMapped cr3 user_addr s) then 0
  else
    let page_table := KERNADDR (PAGEADDRESS (entry_get (pa_mem s) cr3 (PAGEDIRIDX user_addr))) in
    if Z.land (entry_get (pa_mem s) page_table (PAGETABIDX user_addr)) PAGING_PTE_USER =? 0 then 0
    else KERNADDR (PAGEADDRESS (entry_get (pa_mem s) page_table (PAGETABIDX user_addr)))
           ⊕ PAGEOFFSET user_addr.

(** [while (nbytes > 0)]: every iteration copies at least one byte. *)
Fixpoint copy_loop (fuel : nat) (cr3 dest_addr src_addr nbytes : Z) (s : S) : option (bool * S) :=
  match fuel with
  | O => None
  | Datatypes.S f =>
      if 0 <? nbytes then
        let dest_hhalf_addr := Paging_GetHigherHalfAddress cr3 dest_addr s in
        if dest_hhalf_addr =? 0 then Some (false, s)
        else
          let bytes_in_this_page := PAGESIZE ⊖ PAGEOFFSET dest_addr in
          let bytes_in_this_page :=
            if nbytes <? bytes_in_this_page then nbytes else bytes_in_this_page in
          let s := pa_set_mem (fun m =>
                     memmove m dest_hhalf_addr src_addr bytes_in_this_page) s in
          copy_loop f cr3 (dest_addr ⊕ bytes_in_this_page) src_addr (nbytes ⊖ bytes_in_this_page) s
      else Some (true, s)
  end.

Definition Paging_Copy (cr3 dest_addr src_addr nbytes : Z) (s : S) : option (bool * S) :=
  copy_loop (Z.to_nat nbytes + 1) cr3 dest_addr src_addr nbytes s.

End Paging.
