(* ===== verification/PagingSpec.v ===== *)
(** * Address spaces: what the operations do

    The theorems are proved from the laws of the page allocator alone. *)

From S2P Require Import Prelude CMem Setup PhysMem PhysInv PhysAcquire PhysRelease PageAlloc Paging.

(** ** Addresses *)

Lemma PAGEADDRESS_eq x : PAGEADDRESS x = 4096 * (x / 4096).
Proof. apply (ldiff_ones_down x 12). lia. Qed.

Lemma PAGEOFFSET_eq x : PAGEOFFSET x = x mod 4096.
Proof. unfold PAGEOFFSET, PAGESIZE, PAGING_PAGESIZE. change (0x1000 - 1) with (Z.ones 12). by rewrite Z.land_ones. Qed.

Lemma PAGEDIRIDX_eq x : PAGEDIRIDX x = x / 4194304 mod 1024.
Proof.
  unfold PAGING_PGDIR_IDX. change 0x3FF with (Z.ones 10).
  by rewrite Z.land_ones, Z.shiftr_div_pow2 by lia.
Qed.

Lemma PAGETABIDX_eq x : PAGETABIDX x = x / 4096 mod 1024.
Proof.
  unfold PAGING_PGTAB_IDX. change 0x3FF with (Z.ones 10).
  by rewrite Z.land_ones, Z.shiftr_div_pow2 by lia.
Qed.

Lemma PAGEDIRIDX_user v : 0 <= v < 0x80000000 -> 0 <= PAGEDIRIDX v < 512.
Proof. rewrite PAGEDIRIDX_eq. zdiv. Qed.
Lemma PAGETABIDX_range v : 0 <= PAGETABIDX v < 1024.
Proof. rewrite PAGETABIDX_eq. by apply Z.mod_pos_bound. Qed.

(** The two indices determine the page. *)
Lemma indices_page v v' :
  0 <= v < 0x80000000 -> 0 <= v' < 0x80000000 ->
  PAGEDIRIDX v = PAGEDIRIDX v' -> PAGETABIDX v = PAGETABIDX v' -> v / 4096 = v' / 4096.
Proof. rewrite !PAGEDIRIDX_eq, !PAGETABIDX_eq. zdiv. Qed.

(** An aligned address with the three low flags. *)
Lemma lor_flags p : (4096 | p) -> Z.lor (Z.lor (Z.lor p 1) 2) 4 = p + 7.
Proof. intros Hp. rewrite <- !Z.lor_assoc. by apply (lor_aligned 12). Qed.

Lemma aligned_flags p v :
  (4096 | p) -> 0 <= v < 4096 -> PAGEADDRESS (p + v) = p /\ PAGEOFFSET (p + v) = v.
Proof. intros [q ->] Hv. rewrite PAGEADDRESS_eq, PAGEOFFSET_eq. zdiv. Qed.

Lemma flags7 p : (4096 | p) -> Z.land (p + 7) 1 = 1 /\ Z.land (p + 7) 4 = 4.
Proof.
  intros Hp. rewrite <- (lor_aligned 12 p 7), !Z.land_lor_distr_l by (done || lia).
  rewrite !(land_aligned 12 p) by (done || lia). done.
Qed.

Lemma K_KERNADDR a : page_ok a -> KERNADDR a = K a.
Proof. intros [_ Ha]. apply KERNADDR_small. lia. Qed.

Lemma PHYSADDR_K a : page_ok a -> PHYSADDR (K a) = a.
Proof. apply K_unwrap. Qed.

(** ** Page directories and tables in memory *)

Definition page_away (P : Z -> Prop) (a : Z) : Prop := forall x, a <= x < a + 4096 -> ~ P x.

Lemma entry_get_frame P m m' b i :
  page_ok b -> 0 <= i < 1024 -> page_away P b -> mem_frame P m m' ->
  entry_get m' (K b) i = entry_get m (K b) i.
Proof.
  intros [_ Hb] Hi Haway Hfr. apply load_ext. intros j Hj. apply Hfr; [unfold K; lia|].
  intros x Hx. apply Haway. unfold K in Hx. lia.
Qed.

Lemma entry_set_eq m b i v :
  page_ok b -> 0 <= i < 1024 -> 0 <= v < 4294967296 -> entry_get (entry_set (K b) i v m) (K b) i = v.
Proof.
  intros [_ Hb] Hi Hv. unfold entry_get, entry_set. rewrite load32_store32_eq by (unfold K; lia).
  by apply wrap32_small.
Qed.

Lemma entry_set_ne m b b' i i' v :
  page_ok b -> page_ok b' -> 0 <= i < 1024 -> 0 <= i' < 1024 -> (b, i) <> (b', i') ->
  entry_get (entry_set (K b) i v m) (K b') i' = entry_get m (K b') i'.
Proof.
  intros Hb Hb' Hi Hi' Hne. unfold entry_get, entry_set.
  destruct (decide (b = b')) as [->|Hbb].
  - assert (i <> i') by congruence. destruct Hb as [_ Hb].
    apply load32_store32_ne; unfold K; lia.
  - pose proof (pages_apart b b' Hb Hb' Hbb). destruct Hb as [_ Hb], Hb' as [_ Hb'].
    apply load32_store32_ne; unfold K; lia.
Qed.

Lemma entry_get_memset m b b' i :
  page_ok b -> page_ok b' -> 0 <= i < 1024 ->
  entry_get (memset m (K b) 0 4096) (K b') i = if decide (b = b') then 0 else entry_get m (K b') i.
Proof.
  intros Hb Hb' Hi. unfold entry_get. case_decide as E.
  - subst b'. destruct Hb as [_ Hb]. apply load_memset_0; unfold K; lia.
  - pose proof (pages_apart b b' Hb Hb' E). destruct Hb as [_ Hb], Hb' as [_ Hb'].
    apply load_memset_ne; unfold K; lia.
Qed.

(** The frame of a table. *)
Definition pde (m : Mem) (d i : Z) : Z := entry_get m (K d) i.
Definition present (m : Mem) (d i : Z) : Prop := Z.land (pde m d i) PAGING_PDE_PRESENT <> 0.
Definition table (m : Mem) (d i : Z) : Z := PAGEADDRESS (pde m d i).

(** The entry the processor finds for [v], 0 when there is no table. *)
Definition walk (m : Mem) (d v : Z) : Z :=
  if Z.land (pde m d (PAGEDIRIDX v)) PAGING_PDE_PRESENT =? 0 then 0
  else entry_get m (KERNADDR (table m d (PAGEDIRIDX v))) (PAGETABIDX v).

(** The user half of an address space: the directory and its tables are
    pages of their own, none of which the allocator owns. *)
Record space_ok (m : Mem) (P : Z -> Prop) (d : Z) : Prop := {
  so_dir : page_ok d /\ page_away P d;
  so_tab : forall i, 0 <= i < 512 -> present m d i ->
    page_ok (table m d i) /\ page_away P (table m d i) /\ table m d i <> d;
  so_distinct : forall i j, 0 <= i < 512 -> 0 <= j < 512 -> i <> j ->
    present m d i -> present m d j -> table m d i <> table m d j
}.

Lemma walk_present m P d v :
  space_ok m P d -> 0 <= v < 0x80000000 -> present m d (PAGEDIRIDX v) ->
  walk m d v = entry_get m (K (table m d (PAGEDIRIDX v))) (PAGETABIDX v).
Proof.
  intros Hs Hv Hp. unfold walk. rewrite (proj2 (Z.eqb_neq _ 0)) by done.
  rewrite K_KERNADDR; [done|]. apply (so_tab _ _ _ Hs); [by apply PAGEDIRIDX_user|done].
Qed.

Lemma walk_absent m d v : ~ present m d (PAGEDIRIDX v) -> walk m d v = 0.
Proof.
  intros Hp. unfold walk. unfold present in Hp.
  destruct (Z.eqb_spec (Z.land (pde m d (PAGEDIRIDX v)) PAGING_PDE_PRESENT) 0); tauto.
Qed.

#[global] Instance present_dec m d i : Decision (present m d i).
Proof. unfold present. apply _. Defined.

(** ** One entry of a table *)

(** Writing an entry of a table of the space changes the walk of its page
    and of no other. *)
Lemma write_entry m P d v e :
  space_ok m P d -> 0 <= v < 0x80000000 -> present m d (PAGEDIRIDX v) -> 0 <= e < 4294967296 ->
  let t := table m d (PAGEDIRIDX v) in
  let m' := entry_set (K t) (PAGETABIDX v) e m in
  space_ok m' P d /\ walk m' d v = e /\
  (forall v', 0 <= v' < 0x80000000 -> v' / 4096 <> v / 4096 -> walk m' d v' = walk m d v') /\
  (forall P', (forall y, t <= y < t + 4096 -> P' y) -> mem_frame P' m m') /\
  (forall i, 0 <= i < 1024 -> pde m' d i = pde m d i).
Proof.
  intros Hs Hv Hp He. cbn zeta. pose proof (PAGEDIRIDX_user v Hv) as Hi.
  pose proof (PAGETABIDX_range v) as Hj. pose proof Hs as [[Hd Hda] Htab Hdist].
  destruct (Htab _ Hi Hp) as (Ht & Hta & Htd). set (t := table m d (PAGEDIRIDX v)) in *.
  set (m' := entry_set (K t) (PAGETABIDX v) e m).
  assert (forall i, 0 <= i < 1024 -> pde m' d i = pde m d i) as Hpde.
  { intros i Hi'. apply entry_set_ne; done || congruence. }
  assert (space_ok m' P d) as Hs'.
  { split; [done| |]; unfold present, table in *.
    - intros i Hi'. rewrite Hpde by lia. by apply Htab.
    - intros i j Hi' Hj'. rewrite !Hpde by lia. by apply Hdist. }
  split; [done|]. split; [|split; [|split; [|exact Hpde]]].
  - rewrite (walk_present m' P) by (done || unfold present; rewrite Hpde; done || lia).
    unfold table. rewrite Hpde by lia. by apply entry_set_eq.
  - intros v' Hv' Hne. pose proof (PAGEDIRIDX_user v' Hv') as Hi'.
    destruct (decide (present m d (PAGEDIRIDX v'))) as [Hp'|Hp'].
    + rewrite (walk_present m' P), (walk_present m P) by (done || unfold present; rewrite Hpde; done || lia).
      unfold table. rewrite Hpde by lia.
      destruct (Htab _ Hi' Hp') as (Ht' & _). unfold table in Ht'.
      apply entry_set_ne; [done|done|done|apply PAGETABIDX_range|].
      intros [= E1 E2]. apply Hne. destruct (decide (PAGEDIRIDX v = PAGEDIRIDX v')) as [E|E].
      * symmetry. by apply indices_page.
      * exfalso. apply (Hdist _ _ Hi Hi' E Hp Hp'). exact E1.
    + rewrite !walk_absent; [done|done|]. unfold present. rewrite Hpde; [done|lia].
  - intros P' HP'. apply mem_frame_store32; [done|lia|done].
Qed.

(** A cleared page, hung into an absent directory entry, is an empty table. *)
Lemma new_table m P d i t :
  space_ok m P d -> 0 <= i < 512 -> ~ present m d i ->
  page_ok t -> t <> d -> (forall j, 0 <= j < 512 -> present m d j -> table m d j <> t) ->
  page_away P t ->
  let m' := entry_set (K d) i (t + 7) (memset m (K t) 0 4096) in
  space_ok m' P d /\ present m' d i /\ table m' d i = t /\
  (forall v, 0 <= v < 0x80000000 -> walk m' d v = walk m d v) /\
  (forall j, 0 <= j < 512 -> j <> i -> pde m' d j = pde m d j).
Proof.
  intros Hs Hi Hnp Ht Htd Htn Hta. cbn zeta. pose proof Hs as [[Hd Hda] Htab Hdist].
  pose proof Ht as [Ht4 Htr]. set (m' := entry_set _ _ _ _).
  assert (forall b j, page_ok b -> 0 <= j < 1024 -> (b, j) <> (d, i) ->
    entry_get m' (K b) j = if decide (t = b) then 0 else entry_get m (K b) j) as Hget.
  { intros b j Hb Hj Hne. unfold m'. rewrite entry_set_ne by (congruence || lia || assumption).
    by apply entry_get_memset. }
  assert (entry_get m' (K d) i = t + 7) as Hgeti by (apply entry_set_eq; assumption || lia).
  clearbody m'.
  assert (forall j, 0 <= j < 512 -> pde m' d j = if decide (j = i) then t + 7 else pde m d j) as Hpde.
  { intros j Hj. unfold pde. case_decide as E; [by subst j|].
    rewrite Hget by (done || lia || congruence). by rewrite decide_False. }
  destruct (flags7 t Ht4) as [F1 _]. destruct (aligned_flags t 7 Ht4 ltac:(lia)) as [A1 _].
  assert (forall j, 0 <= j < 512 -> (present m' d j <-> j = i \/ present m d j)) as Hpres.
  { intros j Hj. unfold present. rewrite Hpde by done. case_decide; [subst; unfold PAGING_PDE_PRESENT; rewrite F1; lia|].
    split; [by right|]. intros [?|?]; done. }
  assert (forall j, 0 <= j < 512 -> table m' d j = if decide (j = i) then t else table m d j) as Htbl.
  { intros j Hj. unfold table. rewrite Hpde by done. by case_decide. }
  assert (space_ok m' P d) as Hs'.
  { split; [done| |].
    - intros j Hj Hp. rewrite Htbl by done. case_decide; [done|].
      apply Htab; [done|]. apply Hpres in Hp as [?|?]; done.
    - intros j k Hj Hk Hjk Hp1 Hp2. rewrite !Htbl by done.
      rewrite (Hpres j Hj) in Hp1. rewrite (Hpres k Hk) in Hp2.
      destruct Hp1 as [?|Hp1], Hp2 as [?|Hp2]; repeat case_decide; subst; try done; try (by apply Hdist); try (by apply Htn).
      symmetry. by apply Htn. }
  split; [done|]. split; [apply Hpres; auto|]. split; [rewrite Htbl by done; by rewrite decide_True|].
  split; [|intros j Hj Hne; rewrite Hpde by done; by apply decide_False].
  intros v Hv. pose proof (PAGEDIRIDX_user v Hv) as Hvi. pose proof (PAGETABIDX_range v) as Hvj.
  destruct (decide (PAGEDIRIDX v = i)) as [E|E].
  - rewrite (walk_present m' P) by (done || apply Hpres; auto).
    rewrite (walk_absent m) by by rewrite E. rewrite Htbl, decide_True by done.
    rewrite Hget by (done || congruence). by rewrite decide_True.
  - destruct (decide (present m d (PAGEDIRIDX v))) as [Hp|Hp].
    + rewrite (walk_present m' P), (walk_present m P) by (done || apply Hpres; auto).
      rewrite Htbl, decide_False by done. destruct (Htab _ Hvi Hp) as (H1 & H2 & H3).
      rewrite Hget by (done || congruence). rewrite decide_False; [done|].
      symmetry. by apply Htn.
    + rewrite !walk_absent; [done|done|]. by intros [?|?]%Hpres.
Qed.

Lemma space_ok_frame m m' P P' d :
  space_ok m P d -> (forall x, P' x -> P x) -> mem_frame P m m' ->
  space_ok m' P' d /\ (forall i, 0 <= i < 512 -> pde m' d i = pde m d i) /\
  (forall v, 0 <= v < 0x80000000 -> walk m' d v = walk m d v).
Proof.
  intros Hs HP Hfr. pose proof Hs as [[Hd Hda] Htab Hdist].
  assert (forall i, 0 <= i < 512 -> pde m' d i = pde m d i) as Hpde.
  { intros i Hi. apply (entry_get_frame P); done || lia. }
  assert (forall a, page_away P a -> page_away P' a) as Haway by (intros a Ha x Hx Hp; by apply (Ha x Hx), HP).
  assert (space_ok m' P' d) as Hs'.
  { split; unfold present, table in *; [auto| |].
    - intros i Hi. rewrite Hpde by done. intros Hp. destruct (Htab i Hi Hp) as (H1 & H2 & H3). auto.
    - intros i j Hi Hj. rewrite !Hpde by done. by apply Hdist. }
  split; [done|]. split; [done|]. intros v Hv. pose proof (PAGEDIRIDX_user v Hv) as Hi.
  destruct (decide (present m d (PAGEDIRIDX v))) as [Hp|Hp].
  - rewrite (walk_present m' P'), (walk_present m P) by (done || unfold present; rewrite Hpde; done).
    unfold table. rewrite Hpde by done. destruct (Htab _ Hi Hp) as (H1 & H2 & _).
    by apply (entry_get_frame P); [|apply PAGETABIDX_range|..].
  - rewrite !walk_absent; [done|done|]. unfold present. by rewrite Hpde.
Qed.

Section Laws.
Context {S : Type} `{PAL : PageAllocatorLaws S}.

(** The allocator and an address space next to it. *)
Definition paging_ok (s : S) (P : Z -> Prop) (d : Z) : Prop :=
  pa_ok s P /\ space_ok (pa_mem s) P d.

Lemma map_entry_ok s P d v pa :
  paging_ok s P d -> 0 <= v < 0x80000000 -> present (pa_mem s) d (PAGEDIRIDX v) ->
  (4096 | pa) -> 0 <= pa < 4294967296 ->
  let s' := map_entry (KERNADDR (table (pa_mem s) d (PAGEDIRIDX v))) v pa s in
  paging_ok s' P d /\ walk (pa_mem s') d v = pa + 7 /\
  (forall v', 0 <= v' < 0x80000000 -> v' / 4096 <> v / 4096 ->
     walk (pa_mem s') d v' = walk (pa_mem s) d v') /\
  (forall i, 0 <= i < 1024 -> pde (pa_mem s') d i = pde (pa_mem s) d i).
Proof.
  intros [Hok Hs] Hv Hp Hpa Hpr. cbn zeta. unfold map_entry, PAGING_PTE_PRESENT, PAGING_PTE_READWRITE, PAGING_PTE_USER.
  rewrite lor_flags by done. destruct (so_tab _ _ _ Hs _ (PAGEDIRIDX_user v Hv) Hp) as (Ht & Hta & _).
  rewrite K_KERNADDR by done.
  assert (0 <= pa + 7 < 4294967296) as He by (destruct Hpa as [q ->]; lia).
  destruct (write_entry (pa_mem s) P d v (pa + 7) Hs Hv Hp He) as (H1 & H2 & H3 & H4 & H5).
  unfold paging_ok. rewrite pa_mem_set. split; [split|]; [|done|done].
  apply pa_set_ok; [done|]. apply H4. intros y Hy. by apply Hta.
Qed.

(** The tables of the directory [d] afterwards: those it had, and pages that
    the allocator owned. *)
Definition page_in (P : Z -> Prop) (a : Z) : Prop := forall x, a <= x < a + 4096 -> P x.
Definition tables_from (m : Mem) (P : Z -> Prop) (d : Z) (m' : Mem) : Prop :=
  forall i, 0 <= i < 512 -> present m' d i ->
    (present m d i /\ table m' d i = table m d i) \/ page_in P (table m' d i).

Lemma tables_same m P d m' : (forall i, 0 <= i < 512 -> pde m' d i = pde m d i) -> tables_from m P d m'.
Proof. intros H i Hi Hp. left. unfold present, table in *. by rewrite <- (H i Hi). Qed.

(** The whole of [Paging_MapPage] with [create]. *)
Lemma MapPage_cases s P d v pa :
  paging_ok s P d -> 0 <= v < 0x80000000 -> (4096 | pa) -> 0 <= pa < 4294967296 ->
  walk (pa_mem s) d v = 0 ->
  (exists s', Paging_MapPage (K d) v pa true s = Some (false, s') /\ pa_mem s' = pa_mem s /\ forall x, ~ P x) \/
  (exists s' P', Paging_MapPage (K d) v pa true s = Some (true, s') /\ paging_ok s' P' d /\
     ((forall x, P' x <-> P x) \/ exists t, page_ok t /\ page_in P t /\ forall x, P' x <-> P x /\ ~ (t <= x < t + 4096)) /\
     walk (pa_mem s') d v = pa + 7 /\
     (forall v', 0 <= v' < 0x80000000 -> v' / 4096 <> v / 4096 ->
       walk (pa_mem s') d v' = walk (pa_mem s) d v') /\
     tables_from (pa_mem s) P d (pa_mem s')).
Proof.
  intros Hps Hv Hpa Hpr Hw. pose proof Hps as [Hok Hs]. unfold Paging_MapPage.
  pose proof (PAGEDIRIDX_user v Hv) as Hi. pose proof (PAGETABIDX_range v) as Hj.
  change (entry_get (pa_mem s) (K d) (PAGEDIRIDX v)) with (pde (pa_mem s) d (PAGEDIRIDX v)).
  destruct (decide (present (pa_mem s) d (PAGEDIRIDX v))) as [Hp|Hp].
  - rewrite (proj2 (Z.eqb_neq _ 0)) by done.
    change (PAGEADDRESS (pde (pa_mem s) d (PAGEDIRIDX v))) with (table (pa_mem s) d (PAGEDIRIDX v)).
    destruct (so_tab _ _ _ Hs _ Hi Hp) as (Ht & _). rewrite (walk_present _ P) in Hw by done.
    rewrite K_KERNADDR, Hw by done. cbn [Z.eqb negb]. right.
    destruct (map_entry_ok s P d v pa Hps Hv Hp Hpa Hpr) as (H1 & H2 & H3 & H4).
    rewrite K_KERNADDR in * by done. eexists _, P. split; [done|]. split; [exact H1|].
    split; [by left|]. split; [done|]. split; [done|]. apply tables_same. intros i Hi'. apply H4. lia.
  - rewrite (proj2 (Z.eqb_eq _ 0)) by (unfold present in Hp; by apply dec_stable). cbn [negb].
    destruct (pa_acquire_law s P Hok) as [(s1 & -> & Hm1 & Hno)|(t & s1 & P1 & -> & Hok1 & Ht & Hby & Hrest & Hfr)];
      cbn [mbind option_bind]; [left; exists s1; by rewrite Z.eqb_refl|right].
    rewrite K_not_null by done.
    assert (forall x, P1 x -> P x) as HP1.
    { intros x Hx. destruct (decide (t <= x < t + 4096)) as [Hin|Hin]; [by destruct (Hby x Hin)|by apply Hrest]. }
    assert (page_away P1 t) as Hta by (intros x Hx; apply Hby; lia).
    destruct (space_ok_frame (pa_mem s) (pa_mem s1) P P1 d Hs HP1 Hfr) as (Hs1 & Hpde1 & Hw1).
    pose proof Hs as [[Hd Hda] Htab Hdist].
    assert (forall a, page_away P a -> a <> t) as Hne.
    { intros a Ha ->. apply (Ha t); [lia|]. apply Hby. lia. }
    unfold PAGING_PDE_PRESENT, PAGING_PDE_READWRITE, PAGING_PDE_USER, PAGESIZE, PAGING_PAGESIZE.
    rewrite PHYSADDR_K, lor_flags by (done || apply Ht).
    set (s2 := pa_set_mem (fun m => memset m (K t) 0 0x1000) s1).
    set (s3 := pa_set_mem (entry_set (K d) (PAGEDIRIDX v) (t + 7)) s2).
    assert (~ present (pa_mem s1) d (PAGEDIRIDX v)) as Hp1 by (unfold present; by rewrite Hpde1).
    destruct (new_table (pa_mem s1) P1 d (PAGEDIRIDX v) t Hs1 Hi Hp1 Ht) as (Hs3 & Hp3 & Ht3 & Hw3 & Hpde3).
    { symmetry. by apply Hne. }
    { intros j Hj' Hpj. unfold present, table in *. rewrite Hpde1 in * by done.
      by apply Hne, Htab. }
    { done. }
    assert (pa_mem s3 = entry_set (K d) (PAGEDIRIDX v) (t + 7) (memset (pa_mem s1) (K t) 0 4096)) as Em3
      by (unfold s3, s2; by rewrite !pa_mem_set).
    rewrite <- Em3 in Hs3, Hp3, Ht3, Hw3, Hpde3.
    assert (paging_ok s3 P1 d) as Hps3.
    { split; [|done]. apply pa_set_ok; [apply pa_set_ok; [done|]|].
      - apply mem_frame_memset; [done|]. intros y Hy. by apply Hta.
      - apply mem_frame_store32; [done|lia|]. intros y Hy Hp1'. by apply (Hda y Hy), HP1. }
    destruct (map_entry_ok s3 P1 d v pa Hps3 Hv Hp3 Hpa Hpr) as (H1 & H2 & H3 & H4).
    rewrite Ht3, K_KERNADDR in * by done. eexists _, P1. split; [reflexivity|].
    split; [exact H1|]. split; [|split; [exact H2|split]].
    + right. exists t. split; [done|]. split; [intros x Hx; by apply Hby|]. intros x.
      destruct (decide (t <= x < t + 4096)) as [Hin|Hin]; [pose proof (Hby x Hin); tauto|]. rewrite Hrest by done. tauto.
    + intros v' Hv' Hne'. by rewrite H3, Hw3, Hw1.
    + intros j Hj' Hpj. destruct (decide (j = PAGEDIRIDX v)) as [->|Hne'].
      * right. pose proof (f_equal PAGEADDRESS (H4 (PAGEDIRIDX v) ltac:(lia))) as Et.
        fold (table (pa_mem s3) d (PAGEDIRIDX v)) in Et. rewrite Ht3 in Et.
        intros x Hx. apply Hby. by rewrite <- Et.
      * left. pose proof (H4 j ltac:(lia)) as Ej. rewrite (Hpde3 j Hj' Hne'), (Hpde1 j Hj') in Ej.
        unfold present, table in *. rewrite Ej in *. split; [exact Hpj|reflexivity].
Qed.

(** ** Translation *)

Lemma GetHigherHalf_walk s P d v :
  paging_ok s P d -> 0 <= v < 0x80000000 ->
  Paging_GetHigherHalfAddress (K d) v s =
    if walk (pa_mem s) d v =? 0 then 0
    else if Z.land (walk (pa_mem s) d v) PAGING_PTE_USER =? 0 then 0
    else KERNADDR (PAGEADDRESS (walk (pa_mem s) d v)) ⊕ PAGEOFFSET v.
Proof.
  intros [_ Hs] Hv. unfold Paging_GetHigherHalfAddress, Paging_IsPageMapped, KERNEL_MMAP_VIRTUAL_START.
  rewrite (proj2 (Z.ltb_ge _ v)) by lia.
  change (entry_get (pa_mem s) (K d) (PAGEDIRIDX v)) with (pde (pa_mem s) d (PAGEDIRIDX v)).
  destruct (decide (present (pa_mem s) d (PAGEDIRIDX v))) as [Hp|Hp].
  - rewrite (proj2 (Z.eqb_neq (Z.land (pde _ _ _) _) 0)) by done.
    rewrite (walk_present _ P) by done.
    change (PAGEADDRESS (pde (pa_mem s) d (PAGEDIRIDX v))) with (table (pa_mem s) d (PAGEDIRIDX v)).
    rewrite K_KERNADDR by (apply (so_tab _ _ _ Hs); [by apply PAGEDIRIDX_user|done]).
    by destruct (_ =? 0).
  - rewrite (proj2 (Z.eqb_eq (Z.land (pde _ _ _) _) 0)) by (unfold present in Hp; by apply dec_stable).
    by rewrite walk_absent.
Qed.

Lemma GetHigherHalf_mapped s P d v pa :
  paging_ok s P d -> 0 <= v < 0x80000000 -> (4096 | pa) -> 0 <= pa ->
  walk (pa_mem s) d v = pa + 7 ->
  Paging_GetHigherHalfAddress (K d) v s = KERNADDR pa ⊕ v mod 4096.
Proof.
  intros Hps Hv Hpa Hpr Hw. rewrite (GetHigherHalf_walk s P), Hw by done.
  rewrite (proj2 (Z.eqb_neq (pa + 7) 0)) by lia. unfold PAGING_PTE_USER.
  destruct (flags7 pa Hpa) as [_ ->]. destruct (aligned_flags pa 7 Hpa ltac:(lia)) as [-> _].
  by rewrite PAGEOFFSET_eq.
Qed.

Lemma UnmapPage_ok s P d v a e :
  paging_ok s P d -> 0 <= v < 0x80000000 ->
  walk (pa_mem s) d v = e -> Z.land e PAGING_PTE_PRESENT <> 0 -> PAGEADDRESS e = a ->
  page_ok a -> 0x100000 <= a -> page_away P a -> pa_releasable s a ->
  a <> d -> (forall i, 0 <= i < 512 -> present (pa_mem s) d i -> table (pa_mem s) d i <> a) ->
  exists s' P', Paging_UnmapPage (K d) v s = Some (true, s') /\ paging_ok s' P' d /\
    (forall x, P' x <-> P x \/ a <= x < a + 4096) /\
    walk (pa_mem s') d v = 0 /\
    forall v', 0 <= v' < 0x80000000 -> v' / 4096 <> v / 4096 ->
      walk (pa_mem s') d v' = walk (pa_mem s) d v'.
Proof.
  intros [Hok Hs] Hv Hw He Ha Hpa Hlo Haway Hrel Had Hat.
  pose proof (PAGEDIRIDX_user v Hv) as Hi. pose proof (PAGETABIDX_range v) as Hj.
  destruct (decide (present (pa_mem s) d (PAGEDIRIDX v))) as [Hp|Hp].
  2: { rewrite walk_absent in Hw by done. by subst e. }
  pose proof Hs as [[Hd Hda] Htab Hdist]. destruct (Htab _ Hi Hp) as (Ht & Hta & Htd).
  pose proof Hw as Hw'. rewrite (walk_present _ P) in Hw' by done. unfold Paging_UnmapPage.
  change (entry_get (pa_mem s) (K d) (PAGEDIRIDX v)) with (pde (pa_mem s) d (PAGEDIRIDX v)).
  rewrite (proj2 (Z.eqb_neq (Z.land (pde _ _ _) _) 0)) by done.
  change (PAGEADDRESS (pde (pa_mem s) d (PAGEDIRIDX v))) with (table (pa_mem s) d (PAGEDIRIDX v)).
  rewrite K_KERNADDR, Hw', (proj2 (Z.eqb_neq (Z.land e _) 0)), Ha, K_KERNADDR by done.
  destruct (pa_release_law s P a Hok Hpa Hlo Hrel Haway) as (s1 & P1 & -> & Hok1 & HP1 & Hfr).
  cbn [mbind option_bind].
  (* the directory and the tables are outside what the release writes *)
  assert (forall b, page_ok b -> page_away P b -> b <> a -> page_away P1 b) as Haw.
  { intros b Hb Hba Hne x Hx Hx1. apply HP1 in Hx1 as [?|?]; [by apply (Hba x)|].
    pose proof (pages_apart a b Hpa Hb ltac:(congruence)). lia. }
  assert (space_ok (pa_mem s) P1 d) as Hs0.
  { split; [split; [done|by apply Haw]| |done]. intros i Hi' Hpi.
    destruct (Htab i Hi' Hpi) as (H1 & H2 & H3). split; [done|]. split; [|done].
    apply Haw; [done|done|by apply Hat]. }
  assert (mem_frame P1 (pa_mem s) (pa_mem s1)) as Hfr1
    by (eapply mem_frame_weaken; [|exact Hfr]; intros x; apply HP1).
  destruct (space_ok_frame (pa_mem s) (pa_mem s1) P1 P1 d Hs0 ltac:(done) Hfr1) as (Hs1 & Hpde1 & Hw1).
  assert (present (pa_mem s1) d (PAGEDIRIDX v)) as Hp1 by (unfold present; by rewrite Hpde1).
  destruct (write_entry (pa_mem s1) P1 d v 0 Hs1 Hv Hp1 ltac:(lia)) as (H1 & H2 & H3 & H4 & _).
  assert (table (pa_mem s1) d (PAGEDIRIDX v) = table (pa_mem s) d (PAGEDIRIDX v)) as Et
    by (unfold table; by rewrite Hpde1).
  rewrite Et in *. eexists _, P1. split; [done|]. unfold paging_ok. rewrite pa_mem_set.
  split; [split; [|done]|].
  - apply pa_set_ok; [done|]. apply H4. intros y Hy Hy1. eapply (Haw (table (pa_mem s) d (PAGEDIRIDX v)));
      [done|done|by apply Hat|exact Hy|exact Hy1].
  - split; [done|]. split; [done|]. intros v' Hv' Hne. by rewrite H3, Hw1.
Qed.



End Laws.

(** ** Copying into an address space *)

Section Copy.
Context {S : Type} `{PAL : PageAllocatorLaws S}.

(** Copying at most to the end of one mapped page writes exactly the
    source bytes at the translated address. *)
Theorem Paging_Copy_within_page s P d v pa src n :
  paging_ok s P d -> 0 <= v < 0x80000000 -> (4096 | pa) -> 0 < pa -> pa + 4096 <= 0x80000000 ->
  walk (pa_mem s) d v = pa + 7 -> 0 < n <= 4096 - v mod 4096 ->
  Paging_Copy (K d) v src n s =
    Some (true, pa_set_mem (fun m => memmove m (K pa + v mod 4096) src n) s).
Proof.
  intros Hps Hv Hpa Hpr Hpr2 Hw Hn. pose proof (Z.mod_pos_bound v 4096 ltac:(lia)) as Hm.
  unfold Paging_Copy. replace (Z.to_nat n + 1)%nat with (Datatypes.S (Datatypes.S (Z.to_nat (n - 1)))) by lia.
  cbn [copy_loop]. rewrite (proj2 (Z.ltb_lt 0 n)) by lia.
  rewrite (GetHigherHalf_mapped s P d v pa) by (done || lia). rewrite KERNADDR_small by lia.
  rewrite wrap32_small by lia. rewrite (proj2 (Z.eqb_neq _ 0)) by lia.
  rewrite PAGEOFFSET_eq. unfold PAGESIZE, PAGING_PAGESIZE. rewrite (wrap32_small (0x1000 - _)) by lia.
  assert ((if n <? 0x1000 - v mod 4096 then n else 0x1000 - v mod 4096) = n) as -> by (case_cmp; lia).
  rewrite Z.sub_diag. done.
Qed.

End Copy.

(** ** Concrete address spaces *)

(** An empty directory at [0x200000], next to free pages at [0x400000]; and
    the same with the page [0x300000] mapped at [0x1000]. *)
Definition demo_space : PhysState := phys_one 2 0x400000.
Definition demo_free : Z -> Prop := free_byte (upd no_blocks 2 [0x400000]).
Definition demo_mapped : PhysState :=
  set_mem (entry_set (K 0x201000) 1 0x300007) (set_mem (entry_set (K 0x200000) 0 0x201007) demo_space).

Lemma demo_away b : page_ok b -> b < 0x400000 -> page_away demo_free b.
Proof.
  intros [Hb Hr] Hlt x Hx (o & a & Ho & Ha & Hax). revert Ha. unfold upd, no_blocks.
  case_cmp; [|by intros ?%not_elem_of_nil]. intros ->%list_elem_of_singleton.
  destruct Hb as [q ->]. lia.
Qed.

Lemma demo_zero b i :
  page_ok b -> b <> 0x400000 -> 0 <= i < 1024 -> entry_get (mem demo_space) (K b) i = 0.
Proof.
  intros Hb Hne Hi. assert (page_ok 0x400000) as H4 by (split; [by exists 1024|lia]).
  pose proof (pages_apart b _ Hb H4 Hne). destruct Hb as [_ Hb]. unfold entry_get.
  change (mem demo_space) with
    (store32 (store32 ∅ (K 0x400000 + 4) PAGE_LIST_NULL) (K 0x400000) PAGE_LIST_NULL).
  rewrite !load32_store32_ne by (unfold K; lia). done.
Qed.

Lemma demo_space_ok : paging_ok demo_space demo_free 0x200000.
Proof.
  assert (block_ok 2 0x400000) as Hok by (split; [lia|by exists 256|lia|vm_compute; discriminate]).
  destruct (phys_one_ok 2 0x400000 Hok) as [Hinv Hu].
  assert (page_ok 0x200000) as Hd by (split; [by exists 512|lia]).
  assert (forall i, 0 <= i < 512 -> ~ present (mem demo_space) 0x200000 i) as Hnp.
  { intros i Hi. unfold present, pde. rewrite demo_zero by (done || lia). intros H. by apply H. }
  split; [by exists (upd no_blocks 2 [0x400000])|]. split.
  - split; [done|]. apply demo_away; [done|lia].
  - intros i Hi Hp. by destruct (Hnp i Hi).
  - intros i j Hi _ _ Hp. by destruct (Hnp i Hi).
Qed.

Lemma demo_mapped_ok :
  paging_ok demo_mapped demo_free 0x200000 /\ walk (mem demo_mapped) 0x200000 0x1000 = 0x300007 /\
  (forall i, 0 <= i < 512 -> present (mem demo_mapped) 0x200000 i -> table (mem demo_mapped) 0x200000 i = 0x201000).
Proof.
  destruct demo_space_ok as [Hpa Hs].
  assert (page_ok 0x200000) as Hd by (split; [by exists 512|lia]).
  assert (page_ok 0x201000) as Ht by (split; [by exists 513|lia]).
  assert (pde (mem demo_mapped) 0x200000 0 = 0x201007) as E0 by by vm_compute.
  assert (forall i, 0 <= i < 512 -> i <> 0 -> pde (mem demo_mapped) 0x200000 i = 0) as Hz.
  { intros i Hi Hne. unfold pde, demo_mapped. cbn [mem set_mem].
    rewrite !entry_set_ne by (done || lia || congruence). by apply demo_zero; lia || done. }
  assert (forall i, 0 <= i < 512 -> present (mem demo_mapped) 0x200000 i -> i = 0) as Hp.
  { intros i Hi Hp. destruct (decide (i = 0)); [done|]. unfold present in Hp. by rewrite Hz in Hp. }
  split; [|split; [by vm_compute|]].
  - split.
    + apply phys_set_ok; [apply phys_set_ok; [done|]|]; (apply mem_frame_store32; [done|lia|]);
        by apply demo_away; [|lia].
    + split; [split; [done|]; apply demo_away; done || lia| |].
      * intros i Hi Hpi. rewrite (Hp i Hi Hpi). unfold table. change (pa_mem demo_mapped) with (mem demo_mapped).
        rewrite E0. change (PAGEADDRESS 0x201007) with 0x201000.
        split; [done|]. split; [by apply demo_away; [|lia]|done].
      * intros i j Hi Hj Hij Hpi Hpj. rewrite (Hp i Hi Hpi), (Hp j Hj Hpj) in Hij. done.
  - intros i Hi Hpi. rewrite (Hp i Hi Hpi). unfold table. by rewrite E0.
Qed.

Lemma demo_releasable : phys_releasable demo_mapped 0x300000.
Proof.
  intros F [Hb [_ Hhead _] _] j Hj. specialize (Hhead 0 ltac:(lia)).
  assert (F 0 = []) as HF.
  { change (page_list demo_mapped 0) with PAGE_LIST_NULL in Hhead.
    pose proof (free_pages_ok F 0 Hb ltac:(lia)) as Hall. destruct (F 0) as [|a l]; [done|].
    apply Forall_cons in Hall as [Ha _]. cbn in Hhead. pose proof (K_not_null a Ha) as Hn.
    rewrite <- Hhead in Hn. done. }
  revert Hj. unfold merge. change (Z.to_nat (PAGE_MAX_ORDER - 0)) with 10%nat. cbn [coalesce].
  rewrite HF, bool_decide_false by by intros ?%not_elem_of_nil. cbn. lia.
Qed.



Lemma Paging_Copy_within_page_witness :
  Paging_Copy (K 0x200000) 0x1ffe 0x80000100 2 demo_mapped =
    Some (true, set_mem (fun m => memmove m 0x80300ffe 0x80000100 2) demo_mapped).
Proof.
  destruct demo_mapped_ok as (Hps & Hw & _).
  apply (Paging_Copy_within_page demo_mapped demo_free 0x200000 0x1ffe 0x300000 0x80000100 2 Hps ltac:(lia)
    ltac:(by exists 768)); [lia|lia|by vm_compute|zdiv].
Defined.

(** A copy that crosses into a second page: the loop advances the
    destination but not the source, so the second page gets the bytes from the
    beginning of the source again. Two bytes [1; 2] copied to [0x1fff] arrive
    as [1; 1], and the call reports success. *)
Theorem Paging_Copy_crossing_page :
  ('(_, cr3, s) ← Paging_Initialize 0x80002000 0 (phys_one 4 0x400000);
   '(mapped, s) ← Paging_MapPages cr3 0x1000 0x2000 s;
   let s := set_mem (fun m => store_bytes m 0x80000100 [1; 2]) s in
   '(ok, s) ← Paging_Copy cr3 0x1fff 0x80000100 2 s;
   Some (mapped, ok, load8 (mem s) (Paging_GetHigherHalfAddress cr3 0x1fff s),
                     load8 (mem s) (Paging_GetHigherHalfAddress cr3 0x2000 s)))
  = Some (0x2000, true, 1, 1).
Proof. by vm_compute. Qed.

(** The page that becomes a cloned page table is not cleared: entries
    that are empty in the parent keep whatever the page held before. Here the
    page was used and freed, and the clone has a user mapping at [0x5000] that
    the parent does not have. *)
Theorem Paging_Clone_stale_table :
  ('(_, cr3, s) ← Paging_Initialize 0x80002000 0 (phys_one 4 0x400000);
   '(_, s) ← Paging_MapPages cr3 0x1000 0x1000 s;
   '(_, clone, s) ← Paging_Initialize 0x80002000 0 s;
   '(page, s) ← Page_Acquire 0 s;
   let s := set_mem (fun m => memset m page 0x57 4096) s in
   s ← Page_Release page 0 s;
   '(ok, s) ← Paging_Clone cr3 clone s;
   Some (ok, Paging_IsPageMapped cr3 0x5000 s, Paging_GetHigherHalfAddress clone 0x5000 s))
  = Some (true, false, 0xd7575000).
Proof. by vm_compute. Qed.
