(* ===== verification/PagingRange.v ===== *)
(** * New address spaces, and ranges of pages

    [Paging_MapPages] acquires a page for every page of a range and maps it;
    with pages enough it maps all of them, to pages that nobody else has.
    [Paging_Initialize] makes an address space whose user half is empty. *)

From S2P Require Import Prelude CMem Setup PhysMem PhysInv PhysAcquire PhysRelease PageAlloc Paging PagingSpec.

(** ** Free pages *)

(** The allocator owns [n] whole pages at least. *)
Definition free_pages (n : nat) (P : Z -> Prop) : Prop :=
  exists l : list Z, NoDup l /\ (n <= length l)%nat /\ forall a, a ∈ l -> page_ok a /\ page_in P a.

Lemma free_pages_some n P : free_pages (S n) P -> exists x, P x.
Proof.
  intros ([|a l] & _ & Hl & H); [cbn in Hl; lia|]. exists a. destruct (H a ltac:(constructor)) as [_ Ha]. apply Ha. lia.
Qed.

Lemma free_pages_le m n P : (m <= n)%nat -> free_pages n P -> free_pages m P.
Proof. intros Hmn (l & Hd & Hl & H). exists l. split; [done|]. split; [lia|done]. Qed.

(** Without the page [t] they are one fewer at most. *)
Lemma free_pages_drop n P P' t :
  page_ok t -> (forall x, P x -> ~ (t <= x < t + 4096) -> P' x) -> free_pages (S n) P -> free_pages n P'.
Proof.
  intros Ht HP (l & Hd & Hl & H).
  assert (exists l', NoDup l' /\ (n <= length l')%nat /\ (t ∉ l') /\ forall a, a ∈ l' -> a ∈ l) as (l' & Hd' & Hl' & Hn & Hin).
  { destruct (decide (t ∈ l)) as [Hin|Hin].
    - apply elem_of_Permutation in Hin as [l' E]. exists l'. rewrite E in Hd, Hl. apply NoDup_cons in Hd as [Hn Hd'].
      cbn in Hl. split; [done|]. split; [lia|]. split; [done|]. intros a Ha. rewrite E. by constructor.
    - exists l. split; [done|]. split; [lia|done]. }
  exists l'. split; [done|]. split; [done|]. intros a Ha. destruct (H a (Hin a Ha)) as [Hok Hp]. split; [done|].
  intros x Hx. apply HP; [by apply Hp|]. assert (a <> t) by by intros ->.
  pose proof (pages_apart a t Hok Ht ltac:(done)). lia.
Qed.

(** ** One turn of the loop *)

Section Range.
Context {S : Type} `{PAL : PageAllocatorLaws S}.

(** One page, when there is one. *)
Lemma acquire_page n s P :
  pa_ok s P -> free_pages (Datatypes.S n) P ->
  exists a s1 P1, pa_acquire 0 s = Some (K a, s1) /\ pa_ok s1 P1 /\ page_ok a /\ page_in P a /\ page_away P1 a /\
    (forall x, P1 x -> P x) /\ free_pages n P1 /\ mem_frame P (pa_mem s) (pa_mem s1).
Proof.
  intros Hok Hf. destruct (pa_acquire_law s P Hok) as [(s1 & _ & _ & Hno)|(a & s1 & P1 & E & Hok1 & Ha & Hby & Hrest & Hfr)].
  { destruct (free_pages_some n P Hf) as [x Hx]. by destruct (Hno x). }
  exists a, s1, P1. split; [exact E|]. split; [exact Hok1|]. split; [exact Ha|]. split; [intros x Hx; by apply Hby|].
  split; [intros x Hx; by apply Hby|]. split; [|split; [|exact Hfr]].
  - intros x Hx. destruct (decide (a <= x < a + 4096)) as [Hin|Hin]; [by destruct (Hby x Hin)|by apply Hrest].
  - apply (free_pages_drop n P P1 a); [exact Ha| |exact Hf]. intros x Hx Hn. by apply Hrest.
Qed.

Lemma acquire_turn n s P d :
  paging_ok s P d -> free_pages (Datatypes.S n) P ->
  exists a s1 P1, pa_acquire 0 s = Some (K a, s1) /\ paging_ok s1 P1 d /\ page_ok a /\
    (forall x, a <= x < a + 4096 -> P x /\ ~ P1 x) /\ (forall x, P1 x -> P x) /\ free_pages n P1 /\
    (forall i, 0 <= i < 512 -> pde (pa_mem s1) d i = pde (pa_mem s) d i) /\
    (forall v, 0 <= v < 0x80000000 -> walk (pa_mem s1) d v = walk (pa_mem s) d v).
Proof.
  intros [Hok Hs] Hf. destruct (acquire_page n s P Hok Hf) as (a & s1 & P1 & E & Hok1 & Ha & Hin & Haw & Hsub & Hf1 & Hfr).
  destruct (space_ok_frame (pa_mem s) (pa_mem s1) P P1 d Hs Hsub Hfr) as (Hs1 & Hpde & Hw).
  exists a, s1, P1. split; [exact E|]. split; [by split|]. split; [exact Ha|]. split; [intros x Hx; split; [by apply Hin|by apply Haw]|].
  split; [exact Hsub|]. split; [exact Hf1|]. split; [exact Hpde|exact Hw].
Qed.

Lemma map_turn n s P d v pa :
  paging_ok s P d -> 0 <= v < 0x80000000 -> (4096 | pa) -> 0 <= pa < 4294967296 -> walk (pa_mem s) d v = 0 ->
  free_pages (Datatypes.S n) P ->
  exists s' P', Paging_MapPage (K d) v pa true s = Some (true, s') /\ paging_ok s' P' d /\ free_pages n P' /\
    (forall x, P' x -> P x) /\ walk (pa_mem s') d v = pa + 7 /\
    (forall v', 0 <= v' < 0x80000000 -> v' / 4096 <> v / 4096 -> walk (pa_mem s') d v' = walk (pa_mem s) d v') /\
    tables_from (pa_mem s) P d (pa_mem s').
Proof.
  intros Hps Hv Hpa Hpr Hw Hf.
  destruct (MapPage_cases s P d v pa Hps Hv Hpa Hpr Hw) as [(s' & _ & _ & Hno)|(s' & P' & E & Hps' & HP & Hwv & Hwo & Ht)].
  { destruct (free_pages_some n P Hf) as [x Hx]. by destruct (Hno x). }
  exists s', P'. split; [exact E|]. split; [exact Hps'|]. split; [|split; [|by split]].
  - destruct HP as [HP|(t & Hok & _ & HP)].
    + apply (free_pages_le n (Datatypes.S n)); [lia|]. destruct Hf as (l & H1 & H2 & H3). exists l. split; [done|]. split; [done|].
      intros a Ha. destruct (H3 a Ha) as [H4 H5]. split; [done|]. intros x Hx. by apply HP, H5.
    + apply (free_pages_drop n P P' t); [done| |done]. intros x Hx Hn. by apply HP.
  - intros x Hx. destruct HP as [HP|(t & _ & _ & HP)]; [by apply HP|by apply (HP x)].
Qed.

Lemma tables_from_trans m1 P1 d m2 P2 m3 :
  (forall x, P2 x -> P1 x) -> tables_from m1 P1 d m2 -> tables_from m2 P2 d m3 -> tables_from m1 P1 d m3.
Proof.
  intros HP H1 H2 i Hi Hp. destruct (H2 i Hi Hp) as [[Hp2 E]|Hin]; [|right; intros x Hx; by apply HP, Hin].
  rewrite E. by apply H1.
Qed.

Lemma walk_page m d v v' : v / 4096 = v' / 4096 -> 0 <= v -> 0 <= v' -> walk m d v = walk m d v'.
Proof.
  intros E Hv Hv'. unfold walk. assert (PAGEDIRIDX v = PAGEDIRIDX v' /\ PAGETABIDX v = PAGETABIDX v') as [-> ->]; [|done].
  rewrite !PAGEDIRIDX_eq, !PAGETABIDX_eq. zdiv.
Qed.

(** A page the allocator owned is none of the tables. *)
Lemma not_table s P d m' P' a :
  paging_ok s P d -> page_in P a -> (forall x, P' x -> P x) -> page_away P' a -> tables_from (pa_mem s) P' d m' ->
  forall i, 0 <= i < 512 -> present m' d i -> table m' d i <> a.
Proof.
  intros [_ Hs] Ha HP Haw Ht i Hi Hp E. destruct (Ht i Hi Hp) as [[Hps Et]|Hin].
  - destruct (so_tab _ _ _ Hs i Hi Hps) as (_ & Hta & _). rewrite <- Et, E in Hta. apply (Hta a); [lia|]. apply Ha. lia.
  - rewrite E in Hin. apply (Haw a); [lia|]. apply Hin. lia.
Qed.

(** ** The range *)

(** From [s] to [s'], [n] pages from [va] have been mapped to the frames [f]. *)
Record range_mapped (s s' : S) (P P' : Z -> Prop) (d va n : Z) (f : Z -> Z) : Prop := {
  rm_ok : paging_ok s' P' d;
  rm_sub : forall x, P' x -> P x;
  rm_frame : forall k, 0 <= k < n -> page_ok (f k) /\ page_in P (f k) /\ page_away P' (f k);
  rm_walk : forall k, 0 <= k < n -> walk (pa_mem s') d (va + 4096 * k) = f k + 7;
  rm_apart : forall k i, 0 <= k < n -> 0 <= i < 512 -> present (pa_mem s') d i -> table (pa_mem s') d i <> f k;
  rm_inj : forall j k, 0 <= j < n -> 0 <= k < n -> f j = f k -> j = k;
  rm_other : forall v, 0 <= v < 0x80000000 -> ~ (va <= v < va + 4096 * n) -> walk (pa_mem s') d v = walk (pa_mem s) d v;
  rm_tables : tables_from (pa_mem s) P d (pa_mem s')
}.

Lemma range_step s s1 s2 s' P P1 P2 P' d va n f a :
  paging_ok s P d -> (4096 | va) -> 0 <= va -> va + 4096 * (n + 1) <= 0x80000000 -> 0 <= n ->
  (* the frame is acquired *)
  page_ok a -> (forall x, a <= x < a + 4096 -> P x /\ ~ P1 x) -> (forall x, P1 x -> P x) ->
  (forall i, 0 <= i < 512 -> pde (pa_mem s1) d i = pde (pa_mem s) d i) ->
  (forall v, 0 <= v < 0x80000000 -> walk (pa_mem s1) d v = walk (pa_mem s) d v) ->
  (* and mapped *)
  (forall x, P2 x -> P1 x) -> walk (pa_mem s2) d va = a + 7 ->
  (forall v, 0 <= v < 0x80000000 -> v / 4096 <> va / 4096 -> walk (pa_mem s2) d v = walk (pa_mem s1) d v) ->
  tables_from (pa_mem s1) P1 d (pa_mem s2) ->
  range_mapped s2 s' P2 P' d (va + 4096) n f ->
  range_mapped s s' P P' d va (n + 1) (fun k => if k =? 0 then a else f (k - 1)).
Proof.
  intros Hps [q Hq] Hva Hend Hn Ha Hby Hsub1 Hpde1 Hw1 Hsub2 Hwv Hwo Ht2 [R1 R2 R3 R4 R5 R6 R7 R8].
  assert (page_in P a) as Hin by (intros x Hx; by apply Hby).
  assert (page_away P1 a) as Haw by (intros x Hx; by apply Hby).
  assert (tables_from (pa_mem s) P1 d (pa_mem s')) as Hts.
  { apply (tables_from_trans _ P1 d (pa_mem s2) P2); [done| |done].
    intros i Hi Hp. destruct (Ht2 i Hi Hp) as [[Hp1 E]|H]; [left|by right]. unfold present, table in *. rewrite Hpde1 in * by done.
    by split. }
  assert (forall k, 0 <= k < n + 1 -> k <> 0 -> f (k - 1) <> a) as Hfa.
  { intros k Hk Hk0 E. destruct (R3 (k - 1) ltac:(lia)) as (_ & H & _). rewrite E in H. apply (Haw a); [lia|]. apply Hsub2, H. lia. }
  split; [done|intros x Hx; by apply Hsub1, Hsub2, R2| | | | | |].
  - intros k Hk. destruct (Z.eqb_spec k 0) as [->|Hk0].
    + split; [done|]. split; [done|]. intros x Hx Hx'. apply (Haw x Hx). by apply Hsub2, R2.
    + destruct (R3 (k - 1) ltac:(lia)) as (H1 & H2 & H3). split; [done|]. split; [|done].
      intros x Hx. apply Hsub1, Hsub2. by apply H2.
  - intros k Hk. destruct (Z.eqb_spec k 0) as [->|Hk0].
    + rewrite Z.mul_0_r, Z.add_0_r. rewrite R7 by lia. exact Hwv.
    + rewrite <- (R4 (k - 1)) by lia. f_equal. lia.
  - intros k i Hk Hi Hp. destruct (Z.eqb_spec k 0) as [->|Hk0]; [|apply R5; done || lia].
    by apply (not_table s P d (pa_mem s') P1 a).
  - intros j k Hj Hk. destruct (Z.eqb_spec j 0) as [->|Hj0], (Z.eqb_spec k 0) as [->|Hk0]; [done| | |].
    + intros E. by destruct (Hfa k Hk Hk0).
    + intros E. by destruct (Hfa j Hj Hj0).
    + intros E. apply R6 in E; lia.
  - intros v Hv Hout. rewrite R7 by lia. rewrite Hwo, Hw1; [done|done|done|]. zdiv.
  - apply (tables_from_trans _ P d (pa_mem s) P1); [done|by apply tables_same|done].
Qed.

Lemma range_one s s1 s2 P P1 P2 d va a :
  paging_ok s P d -> paging_ok s2 P2 d -> (4096 | va) -> 0 <= va -> va + 4096 <= 0x80000000 ->
  page_ok a -> (forall x, a <= x < a + 4096 -> P x /\ ~ P1 x) -> (forall x, P1 x -> P x) ->
  (forall i, 0 <= i < 512 -> pde (pa_mem s1) d i = pde (pa_mem s) d i) ->
  (forall v, 0 <= v < 0x80000000 -> walk (pa_mem s1) d v = walk (pa_mem s) d v) ->
  (forall x, P2 x -> P1 x) -> walk (pa_mem s2) d va = a + 7 ->
  (forall v, 0 <= v < 0x80000000 -> v / 4096 <> va / 4096 -> walk (pa_mem s2) d v = walk (pa_mem s1) d v) ->
  tables_from (pa_mem s1) P1 d (pa_mem s2) ->
  range_mapped s s2 P P2 d va 1 (fun k => if k =? 0 then a else 0).
Proof.
  intros. apply (range_step s s1 s2 s2 P P1 P2 P2 d va 0 (fun _ => 0) a); try done; try lia.
  split; try done; try lia. by apply tables_same.
Qed.

Lemma map_loop n : forall s P d va sz fuel,
  paging_ok s P d -> (4096 | va) -> 0 <= va -> va + 4096 * (Z.of_nat n + 1) <= 0x80000000 ->
  (forall k, 0 <= k < Z.of_nat n + 1 -> walk (pa_mem s) d (va + 4096 * k) = 0) ->
  free_pages (2 * (n + 1)) P -> (n < fuel)%nat -> 0 <= sz -> sz + 4096 * (Z.of_nat n + 1) < 4294967296 ->
  exists s' P' f, map_pages_loop fuel (K d) va (va + 4096 * Z.of_nat n) sz s = Some (sz + 4096 * (Z.of_nat n + 1), s') /\
    range_mapped s s' P P' d va (Z.of_nat n + 1) f.
Proof.
  induction n as [|n IH]; intros s P d va sz fuel Hps Hva Hlo Hend Hw Hf Hfuel Hsz Hsz'; (destruct fuel as [|fuel]; [lia|]);
    cbn [map_pages_loop].
  2: replace (2 * (Datatypes.S n + 1))%nat with (Datatypes.S (Datatypes.S (2 * (n + 1)))) in Hf by lia.
  1: change (2 * (0 + 1))%nat with 2%nat in Hf.
  all: destruct (acquire_turn _ s P d Hps Hf) as (a & s1 & P1 & -> & Hps1 & Ha & Hby & Hsub1 & Hf1 & Hpde1 & Hw1);
    cbn [mbind option_bind]; rewrite K_not_null, PHYSADDR_K by done; cbv zeta.
  all: pose proof (Hw 0 ltac:(lia)) as Hw0; rewrite Z.mul_0_r, Z.add_0_r, <- Hw1 in Hw0 by lia.
  all: destruct Ha as [Ha4 Har]; pose proof (conj Ha4 Har : page_ok a) as Ha.
  all: destruct (map_turn _ s1 P1 d va a Hps1 ltac:(lia) Ha4 ltac:(lia) Hw0 Hf1) as (s2 & P2 & E2 & Hps2 & Hf2 & Hsub2 & Hwv & Hwo & Ht2); rewrite E2;
    cbn [mbind option_bind negb]; unfold PAGESIZE, PAGING_PAGESIZE.
  - rewrite Z.mul_0_r, Z.add_0_r, Z.eqb_refl, wrap32_small by lia.
    eexists s2, P2, _. split; [do 2 f_equal; lia|]. by apply (range_one s s1 s2 P P1 P2 d va a).
  - rewrite (proj2 (Z.eqb_neq _ _)), !wrap32_small by lia.
    replace (va + 4096 * Z.of_nat (Datatypes.S n)) with (va + 4096 + 4096 * Z.of_nat n) by lia.
    destruct (IH s2 P2 d (va + 4096) (sz + 4096) fuel) as (s' & P' & f & E & R); try done; try lia.
    + destruct Hva as [q ->]. exists (q + 1). lia.
    + intros k Hk. rewrite Hwo, Hw1 by (lia || (destruct Hva as [q ->]; zdiv)).
      replace (va + 4096 + 4096 * k) with (va + 4096 * (k + 1)) by lia. apply Hw. lia.
    + change 0x1000 with 4096. rewrite E. eexists s', P', _. split; [do 2 f_equal; lia|].
      replace (Z.of_nat (Datatypes.S n) + 1) with (Z.of_nat n + 1 + 1) by lia.
      by apply (range_step s s1 s2 s' P P1 P2 P' d va (Z.of_nat n + 1) f a); try lia.
Qed.

(** C7. Mapping a range of user pages that are not mapped. When the allocator has
    two pages for each (one for the page, one for a table), every page of the
    range, from that of the first byte to that of the last, is mapped; the
    number of bytes mapped is returned. Each page translates to a frame of its
    own, that was free before and is not any more and that is none of the
    tables; all other user pages translate as before, and the address space is
    as well formed as it was. *)
Theorem Paging_MapPages_correct (s : S) (P : Z -> Prop) (d virt size : Z) :
  paging_ok s P d -> 0 <= virt -> 0 < size -> virt + size <= 0x80000000 ->
  let first := virt / 4096 in
  let n := (virt + size - 1) / 4096 - first + 1 in
  (forall p, first <= p < first + n -> walk (pa_mem s) d (4096 * p) = 0) ->
  free_pages (2 * Z.to_nat n) P ->
  exists s' P' f, Paging_MapPages (K d) virt size s = Some (4096 * n, s') /\ paging_ok s' P' d /\
    (forall p, first <= p < first + n -> page_ok (f p) /\ page_in P (f p) /\ page_away P' (f p) /\
       forall i, 0 <= i < 512 -> present (pa_mem s') d i -> table (pa_mem s') d i <> f p) /\
    (forall p q, first <= p < first + n -> first <= q < first + n -> f p = f q -> p = q) /\
    (forall v, 0 <= v < 0x80000000 -> Paging_GetHigherHalfAddress (K d) v s' =
       if (first <=? v / 4096) && (v / 4096 <? first + n) then KERNADDR (f (v / 4096)) ⊕ v mod 4096
       else Paging_GetHigherHalfAddress (K d) v s).
Proof.
  intros Hps Hv Hsz Hend first n Hw Hf. assert (1 <= n) as Hn by (unfold n, first; zdiv).
  assert (4096 * (first + n) <= 0x80000000) as Htop by (unfold n, first; zdiv).
  assert (0 <= first) as Hfirst by (unfold first; zdiv).
  unfold Paging_MapPages. rewrite (proj2 (Z.eqb_neq size 0)) by lia. cbv zeta.
  rewrite (wrap32_small (virt + size)), (wrap32_small (virt + size - 1)) by lia. rewrite !PAGEADDRESS_eq. fold first.
  replace ((virt + size - 1) / 4096) with (first + (n - 1)) by (unfold n; lia).
  destruct (map_loop (Z.to_nat (n - 1)) s P d (4096 * first) 0
    (Z.to_nat (wrap32 (4096 * (first + (n - 1)) - 4096 * first) / PAGESIZE + 1))) as (s' & P' & f & E & R); try done; try lia.
  - by exists first; lia.
  - intros k Hk. replace (4096 * first + 4096 * k) with (4096 * (first + k)) by lia. apply Hw. lia.
  - by replace (2 * (Z.to_nat (n - 1) + 1))%nat with (2 * Z.to_nat n)%nat by lia.
  - unfold PAGESIZE, PAGING_PAGESIZE. rewrite wrap32_small by lia.
    replace (4096 * (first + (n - 1)) - 4096 * first) with ((n - 1) * 0x1000) by lia. rewrite Z.div_mul by lia. lia.
  - replace (Z.of_nat (Z.to_nat (n - 1)) + 1) with n in * by lia.
    replace (4096 * first + 4096 * Z.of_nat (Z.to_nat (n - 1))) with (4096 * (first + (n - 1))) in E by lia.
    rewrite E. destruct R as [R1 R2 R3 R4 R5 R6 R7 R8]. exists s', P', (fun p => f (p - first)).
    split; [do 2 f_equal; lia|]. split; [done|]. split; [|split].
    + intros p Hp. destruct (R3 (p - first) ltac:(lia)) as (H1 & H2 & H3). split; [done|]. split; [done|]. split; [done|].
      intros i Hi Hpi. apply R5; [lia|done|done].
    + intros p q Hp Hq Hpq. apply R6 in Hpq; lia.
    + intros v Hv'. destruct (Z.leb_spec first (v / 4096)) as [H1|H1], (Z.ltb_spec (v / 4096) (first + n)) as [H2|H2]; cbn [andb].
      2-4: rewrite (GetHigherHalf_walk s' P'), (GetHigherHalf_walk s P) by done; rewrite R7; [done|done|zdiv].
      destruct (R3 (v / 4096 - first) ltac:(lia)) as ([H3 H4] & _).
      apply (GetHigherHalf_mapped s' P'); [done|done|done|lia|].
      rewrite <- (R4 (v / 4096 - first)) by lia. apply walk_page; [|lia|lia]. zdiv.
Qed.
End Range.

(** ** A new address space *)

Section New.
Context {S : Type} `{PAL : PageAllocatorLaws S}.
Context (kd : Z) (Hkd : page_ok kd).

(** [n] turns of the loop before the end copy the last [n] entries. *)
Lemma copy_entries d n : forall fuel s P,
  page_ok d -> d <> kd -> pa_ok s P -> page_away P d -> (n <= 512)%nat -> (n < fuel)%nat ->
  let i := (4294967296 - 4194304 * Z.of_nat n) mod 4294967296 in
  let s' := copy_kernel_entries (K kd) fuel (K d) i s in
  pa_ok s' P /\
  (forall b j, page_ok b -> 0 <= j < 1024 -> entry_get (pa_mem s') (K b) j =
     if decide (b = d /\ 1024 - Z.of_nat n <= j) then entry_get (pa_mem s) (K kd) j else entry_get (pa_mem s) (K b) j).
Proof.
  induction n as [|n IH]; intros fuel s P Hd Hne Hok Hda Hn Hf; cbv zeta; (destruct fuel as [|fuel]; [lia|]); cbn [copy_kernel_entries].
  - rewrite Z.mul_0_r, Z.sub_0_r, Z.mod_same by lia. cbn [Z.ltb Z.compare]. split; [done|]. intros b j Hb Hj.
    by rewrite decide_False by lia.
  - rewrite Z.mod_small by lia. rewrite (proj2 (Z.ltb_lt _ _)) by lia. set (i := 4294967296 - 4194304 * Z.of_nat (Datatypes.S n)).
    assert (PAGEDIRIDX i = 1024 - Z.of_nat (Datatypes.S n)) as Ei by (rewrite PAGEDIRIDX_eq; unfold i; zdiv).
    rewrite Ei. set (e := 1024 - Z.of_nat (Datatypes.S n)). assert (0 <= e < 1024) as He by (unfold e; lia).
    set (s1 := pa_set_mem _ s).
    assert (pa_ok s1 P) as Hok1.
    { apply pa_set_ok; [done|]. apply mem_frame_store32; [done|lia|]. exact Hda. }
    assert (i ⊕ PAGING_EXTPAGESIZE = (4294967296 - 4194304 * Z.of_nat n) mod 4294967296) as ->
      by (unfold wrap32, PAGING_EXTPAGESIZE, i; f_equal; lia).
    destruct (IH fuel s1 P Hd Hne Hok1 Hda ltac:(lia) ltac:(lia)) as [H1 H2]. split; [exact H1|].
    assert (forall b j, page_ok b -> 0 <= j < 1024 -> entry_get (pa_mem s1) (K b) j =
      if decide (b = d /\ j = e) then entry_get (pa_mem s) (K kd) e else entry_get (pa_mem s) (K b) j) as Hget.
    { intros b j Hb Hj. unfold s1. rewrite pa_mem_set. case_decide as E.
      - destruct E as [-> ->]. apply entry_set_eq; [done|done|]. apply (load_range 4).
      - apply entry_set_ne; [done|done|done|done|]. intros [= <- <-]. by apply E. }
    intros b j Hb Hj. rewrite H2, !Hget by done. repeat case_decide; try done; try (unfold e in *; lia).
    all: destruct_and?; subst; congruence || (exfalso; unfold e in *; lia).
Qed.

(** C9. A new address space: the allocator gives a page for its directory, the
    user half of which is empty, and the kernel half of which is that of the
    boot-time directory; the space is well formed, and the allocator has
    one page less. *)
Theorem Paging_Initialize_correct s P cr3 n :
  pa_ok s P -> page_away P kd -> free_pages (Datatypes.S n) P ->
  exists s' P' d, Paging_Initialize (K kd) cr3 s = Some (true, K d, s') /\ paging_ok s' P' d /\
    page_in P d /\ (forall x, P' x -> P x) /\ free_pages n P' /\
    (forall v, 0 <= v < 0x80000000 -> walk (pa_mem s') d v = 0 /\ Paging_GetHigherHalfAddress (K d) v s' = 0) /\
    (forall i, 512 <= i < 1024 -> pde (pa_mem s') d i = pde (pa_mem s) kd i).
Proof.
  intros Hok Hkaway Hf.
  destruct (acquire_page n s P Hok Hf) as (d & s1 & P1 & E & Hok1 & Hd & Hin & Hda & Hsub & Hf1 & Hfr).
  assert (d <> kd) as Hne by (intros ->; apply (Hkaway kd); [lia|]; apply Hin; lia).
  unfold Paging_Initialize. rewrite E. cbn [mbind option_bind]. rewrite K_not_null by done. cbv zeta.
  set (s2 := pa_set_mem _ s1).
  assert (pa_ok s2 P1) as Hok2 by (apply pa_set_ok; [done|]; apply mem_frame_memset; [done|exact Hda]).
  destruct (copy_entries d 512 1024 s2 P1 Hd Hne Hok2 Hda ltac:(lia) ltac:(lia)) as [Hok3 Hget].
  change ((4294967296 - 4194304 * Z.of_nat 512) mod 4294967296) with KERNEL_MMAP_VIRTUAL_START in *.
  set (s3 := copy_kernel_entries _ _ _ _ _) in *.
  assert (forall i, 0 <= i < 1024 -> pde (pa_mem s3) d i = if decide (512 <= i) then pde (pa_mem s) kd i else 0) as Hpde.
  { intros i Hi. unfold pde. rewrite Hget by done. unfold s2. rewrite !pa_mem_set. change (1024 - Z.of_nat 512) with 512.
    repeat case_decide; try (exfalso; lia); unfold PAGESIZE, PAGING_PAGESIZE; rewrite entry_get_memset by done.
    - rewrite decide_False by done. by apply (entry_get_frame P).
    - by rewrite decide_True. }
  assert (forall i, 0 <= i < 512 -> ~ present (pa_mem s3) d i) as Hnp.
  { intros i Hi Hp. unfold present in Hp. rewrite Hpde, decide_False in Hp by lia. by apply Hp. }
  assert (paging_ok s3 P1 d) as Hps.
  { split; [exact Hok3|]. split; [by split|intros i Hi Hp; by destruct (Hnp i Hi)|intros i j Hi _ _ Hp; by destruct (Hnp i Hi)]. }
  assert (forall v, 0 <= v < 0x80000000 -> walk (pa_mem s3) d v = 0) as Hw
    by (intros v Hv; apply walk_absent, Hnp; by apply PAGEDIRIDX_user).
  exists s3, P1, d. split; [done|]. split; [exact Hps|]. split; [exact Hin|]. split; [exact Hsub|].
  split; [exact Hf1|split].
  - intros v Hv. split; [by apply Hw|]. rewrite (GetHigherHalf_walk s3 P1) by done. by rewrite Hw.
  - intros i Hi. rewrite Hpde, decide_True by lia. done.
Qed.
End New.

(** ** An instance *)

Lemma demo_free_pages : free_pages 4 demo_free.
Proof.
  exists [0x400000; 0x401000; 0x402000; 0x403000]. split; [|split; [done|]].
  - apply (bool_decide_unpack _). by vm_compute.
  - intros a Ha. assert (exists q, 0 <= q < 4 /\ a = 0x400000 + 4096 * q) as (q & Hq & ->).
    { repeat (apply elem_of_cons in Ha as [->|Ha]); [by exists 0|by exists 1|by exists 2|by exists 3|by apply elem_of_nil in Ha]. }
    split; [split; [exists (1024 + q); lia|lia]|]. intros x Hx. exists 2, 0x400000. split; [lia|]. split; [by left|].
    unfold bsz, KERNEL_PAGE_SIZE_IN_BITS. cbn. lia.
Qed.

(** A range that begins and ends within a page takes two. *)
Lemma Paging_MapPages_correct_witness :
  exists s' f, Paging_MapPages (K 0x200000) 0x1800 0x1000 demo_space = Some (0x2000, s') /\ f 1 <> f 2 /\
    Paging_GetHigherHalfAddress (K 0x200000) 0x2004 s' = KERNADDR (f 2) ⊕ 4 /\
    Paging_GetHigherHalfAddress (K 0x200000) 0x3000 s' = 0.
Proof.
  destruct (Paging_MapPages_correct demo_space demo_free 0x200000 0x1800 0x1000 demo_space_ok)
    as (s' & P' & f & E & _ & _ & Hinj & Hget); [lia|lia|lia| |exact demo_free_pages|].
  - intros p Hp. apply walk_absent. unfold present, pde. intros H. apply H. change (pa_mem demo_space) with (mem demo_space).
    rewrite demo_zero; [done|split; [by exists 512|lia]|lia|]. assert (1 <= p < 3) by exact Hp. pose proof (PAGEDIRIDX_user (4096 * p) ltac:(lia)). lia.
  - exists s', f. split; [exact E|]. split.
    + assert (forall p q, 1 <= p < 3 -> 1 <= q < 3 -> f p = f q -> p = q) as Hinj' by exact Hinj.
      clear - Hinj'. intros H. specialize (Hinj' 1 2 ltac:(lia) ltac:(lia) H). discriminate.
    + split; rewrite Hget by lia.
      * change (0x2004 / 4096) with 2. change (0x2004 mod 4096) with 4.
        match goal with |- (if ?b then _ else _) = _ => change b with true end. reflexivity.
      * match goal with |- (if ?b then _ else _) = _ => change b with false end. vm_compute. reflexivity.
Defined.

(** Four pages are left, and the boot-time directory is at 0x200000. *)
Lemma Paging_Initialize_correct_witness :
  exists s' P' d, Paging_Initialize (K 0x200000) 0 demo_space = Some (true, K d, s') /\ paging_ok s' P' d /\
    free_pages 3 P' /\ Paging_GetHigherHalfAddress (K d) 0x1234 s' = 0 /\
    pde (mem s') d 512 = pde (mem demo_space) 0x200000 512.
Proof.
  assert (page_ok 0x200000) as Hd by (split; [by exists 512|lia]). destruct demo_space_ok as [Hok _].
  destruct (Paging_Initialize_correct 0x200000 Hd demo_space demo_free 0 3 Hok (demo_away _ Hd ltac:(lia)) demo_free_pages)
    as (s' & P' & d & H1 & H2 & _ & _ & H3 & H4 & H5).
  exists s', P', d. split; [exact H1|]. split; [exact H2|]. split; [exact H3|]. split; [apply H4; lia|apply H5; lia].
Defined.
