(* ===== verification/PagingClone.v ===== *)
(** * Copies of address spaces

    [Paging_Clone] gives the clone a table for every table of the parent and
    a page for every page, with the flags and the bytes of the parent's. The
    two loops are taken apart into turns; a relation says what some turns
    have done, and two of them in a row are joined. *)

From S2P Require Import Prelude CMem Setup PhysMem PhysInv PhysAcquire PhysRelease PageAlloc Paging PagingSpec PagingRange.

(** ** Pages *)

Definition with_page (P : Z -> Prop) (a : Z) : Z -> Prop := fun x => P x \/ a <= x < a + 4096.

Lemma away_with P a b : page_ok a -> page_ok b -> b <> a -> page_away P b -> page_away (with_page P a) b.
Proof.
  intros Ha Hb Hne Haw x Hx [HP|Hin]; [by apply (Haw x)|]. pose proof (pages_apart b a Hb Ha Hne). lia.
Qed.

Lemma away_sub (P P' : Z -> Prop) a : (forall x, P' x -> P x) -> page_away P a -> page_away P' a.
Proof. intros HP Ha x Hx Hx'. by apply (Ha x Hx), HP. Qed.

Lemma in_away P a b : page_in P a -> page_away P b -> b <> a.
Proof. intros Ha Hb ->. apply (Hb a); [lia|]. apply Ha. lia. Qed.

(** [a] is a page that the allocator has given away between [P] and [P']. *)
Definition fresh (P P' : Z -> Prop) (a : Z) : Prop := page_ok a /\ page_in P a /\ page_away P' a.

Lemma fresh_sub (P P1 P2 P' : Z -> Prop) a :
  (forall x, P1 x -> P x) -> (forall x, P' x -> P2 x) -> fresh P1 P2 a -> fresh P P' a.
Proof. intros H1 H2 (Ha & Hin & Haw). split; [done|]. split; [intros x Hx; by apply H1, Hin|by apply (away_sub P2)]. Qed.

(** The page [a] of [m'] holds what [b] holds in [m]. *)
Definition page_copy (m' : Mem) (a : Z) (m : Mem) (b : Z) : Prop :=
  forall k, 0 <= k < 4096 -> load8 m' (K a + k) = load8 m (K b + k).

Lemma page_copy_frame P m m' b : page_ok b -> page_away P b -> mem_frame P m m' -> page_copy m' b m b.
Proof.
  intros [_ Hb] Haw Hfr k Hk. apply Hfr; [unfold K; lia|]. intros x Hx. apply Haw. unfold K in Hx. lia.
Qed.

Lemma page_copy_trans m1 a m2 b m3 c : page_copy m1 a m2 b -> page_copy m2 b m3 c -> page_copy m1 a m3 c.
Proof. intros H1 H2 k Hk. by rewrite H1, H2. Qed.

Lemma page_copy_memmove m a b : page_ok a -> page_ok b -> page_copy (memmove m (K a) (K b) 4096) a m b.
Proof.
  intros [_ Ha] [_ Hb] k Hk. rewrite load8_memmove by (unfold K; lia).
  destruct (Z.leb_spec (K a) (K a + k)), (Z.ltb_spec (K a + k) (K a + 4096)); cbn [andb]; try lia. f_equal. lia.
Qed.

Lemma mem_frame_memmove (P : Z -> Prop) m a b :
  page_ok a -> page_ok b -> page_in P a -> mem_frame P m (memmove m (K a) (K b) 4096).
Proof.
  intros [_ Ha] [_ Hb] HP x Hx Hn. rewrite load8_memmove by (unfold K; lia).
  destruct (Z.leb_spec (K a) x), (Z.ltb_spec x (K a + 4096)); cbn [andb]; try done.
  exfalso. apply (Hn (x - 0x80000000)); [unfold K; lia|]. apply HP. unfold K in *. lia.
Qed.

Lemma pde_frame P m m' b i : page_ok b -> 0 <= i < 1024 -> page_away P b -> mem_frame P m m' -> pde m' b i = pde m b i.
Proof. by apply entry_get_frame. Qed.

(** The flags of an entry are kept when its page is replaced. *)
Lemma flags_keep t e f : (4096 | t) -> 0 <= f < 4096 -> Z.land (t + PAGEOFFSET e) f = Z.land e f.
Proof.
  intros Ht Hf. rewrite PAGEOFFSET_eq. pose proof (Z.mod_pos_bound e 4096 ltac:(lia)).
  rewrite <- (lor_aligned 12) by (done || lia). rewrite Z.land_lor_distr_l, (land_aligned 12) by (done || lia).
  rewrite Z.lor_0_l. change 4096 with (2 ^ 12). rewrite <- Z.land_ones, <- Z.land_assoc, (Z.land_comm (Z.ones 12)) by lia.
  by rewrite Z.land_ones, Z.mod_small by lia.
Qed.

Lemma new_entry a e : page_ok a -> PHYSADDR (K a) ⊕ PAGEOFFSET e = a + PAGEOFFSET e /\ 0 <= a + PAGEOFFSET e < 4294967296.
Proof.
  intros Ha. rewrite PHYSADDR_K, PAGEOFFSET_eq by done. destruct Ha as [_ Ha].
  pose proof (Z.mod_pos_bound e 4096 ltac:(lia)). by rewrite wrap32_small; lia.
Qed.

Lemma PAGEADDRESS_entry a e : page_ok a -> PAGEADDRESS (a + PAGEOFFSET e) = a.
Proof. intros [Ha _]. apply aligned_flags; [done|]. rewrite PAGEOFFSET_eq. by apply Z.mod_pos_bound. Qed.

(** ** How many pages a clone takes *)

Fixpoint table_need (m : Mem) (u j : Z) (n : nat) : nat :=
  match n with
  | O => O
  | Datatypes.S n' => ((if Z.eqb (pde m u j) 0 then 0 else 1) + table_need m u (j + 1) n')%nat
  end.

Fixpoint dir_need (m : Mem) (d i : Z) (n : nat) : nat :=
  match n with
  | O => O
  | Datatypes.S n' =>
      ((if Z.eqb (pde m d i) 0 then 0 else Datatypes.S (table_need m (table m d i) 0 1024)) + dir_need m d (i + 1) n')%nat
  end.

Lemma table_need_ext m m' u n : forall j,
  (forall k, j <= k < j + Z.of_nat n -> pde m' u k = pde m u k) -> table_need m' u j n = table_need m u j n.
Proof.
  induction n as [|n IH]; intros j H; [done|]. cbn [table_need]. rewrite H, IH by (intros; lia || (apply H; lia)). done.
Qed.

Lemma dir_need_ext m m' d n : forall i,
  (forall k, i <= k < i + Z.of_nat n -> pde m' d k = pde m d k) ->
  (forall k l, i <= k < i + Z.of_nat n -> 0 <= l < 1024 -> pde m d k <> 0 -> pde m' (table m d k) l = pde m (table m d k) l) ->
  dir_need m' d i n = dir_need m d i n.
Proof.
  induction n as [|n IH]; intros i H1 H2; [done|]. cbn [dir_need].
  rewrite IH by (intros; (apply H1 || apply H2); done || lia). unfold table. rewrite H1 by lia. fold (table m d i).
  destruct (Z.eqb_spec (pde m d i) 0); [done|]. rewrite (table_need_ext m m'); [done|].
  intros l Hl. apply H2; done || lia.
Qed.

(** ** What is copied from *)

(** The pages that the entries of [u] point to hold still while the
    allocator uses [P] and the page [t] is written. *)
Record source_ok (m : Mem) (P : Z -> Prop) (u t : Z) : Prop := {
  sc_page : page_ok u /\ page_away P u /\ u <> t;
  sc_entry : forall k, 0 <= k < 1024 -> pde m u k <> 0 ->
    page_ok (table m u k) /\ page_away P (table m u k) /\ table m u k <> t
}.

Lemma source_ok_frame m m' (P P' : Z -> Prop) u t :
  page_ok t -> source_ok m P u t -> (forall x, P' x -> P x) -> mem_frame (with_page P t) m m' ->
  source_ok m' P' u t /\ (forall k, 0 <= k < 1024 -> pde m' u k = pde m u k).
Proof.
  intros Ht [(Hu & Hua & Hne) He] HP Hfr.
  assert (forall k, 0 <= k < 1024 -> pde m' u k = pde m u k) as Hpde.
  { intros k Hk. apply (pde_frame (with_page P t)); [done|done|by apply away_with|done]. }
  split; [|exact Hpde]. split; [split; [done|split; [by apply (away_sub P)|done]]|].
  intros k Hk. unfold table. rewrite Hpde by done. intros H. destruct (He k Hk H) as (H1 & H2 & H3).
  split; [done|]. split; [by apply (away_sub P)|done].
Qed.

Lemma source_ok_target m P P' u c t :
  source_ok m P u c -> page_in P t -> (forall x, P' x -> P x) -> source_ok m P' u t.
Proof.
  intros [(Hu & Hua & _) He] Hin HP. split; [split; [done|split; [by apply (away_sub P)|by apply (in_away P)]]|].
  intros k Hk H. destruct (He k Hk H) as (H1 & H2 & _). split; [done|]. split; [by apply (away_sub P)|by apply (in_away P)].
Qed.

Section Clone.
Context {S : Type} `{PAL : PageAllocatorLaws S}.

(** ** The entries of a table *)

(** From [s] to [s'], the entries [j] to [j + n - 1] of the table [u] have
    been cloned into the table [t]; entry [k] has got the page [g k]. *)
Record table_cloned (s s' : S) (P P' : Z -> Prop) (u t j n : Z) (g : Z -> Z) : Prop := {
  tc_ok : pa_ok s' P';
  tc_sub : forall x, P' x -> P x;
  tc_frame : mem_frame (with_page P t) (pa_mem s) (pa_mem s');
  tc_page : forall k, j <= k < j + n -> pde (pa_mem s) u k <> 0 ->
    fresh P P' (g k) /\ pde (pa_mem s') t k = g k + PAGEOFFSET (pde (pa_mem s) u k) /\
    page_copy (pa_mem s') (g k) (pa_mem s) (table (pa_mem s) u k);
  tc_other : forall k, 0 <= k < 1024 -> ~ (j <= k < j + n /\ pde (pa_mem s) u k <> 0) ->
    pde (pa_mem s') t k = pde (pa_mem s) t k;
  tc_inj : forall k l, j <= k < j + n -> j <= l < j + n -> pde (pa_mem s) u k <> 0 -> pde (pa_mem s) u l <> 0 ->
    g k = g l -> k = l
}.

Lemma table_skip s P u t j g : pa_ok s P -> pde (pa_mem s) u j = 0 -> table_cloned s s P P u t j 1 g.
Proof.
  intros Hok H0. assert (forall k, j <= k < j + 1 -> k = j) as Hk by lia.
  split; [done|done|apply mem_frame_refl| |done|]; intros k; [|intros l Hk1]; intros Hk2; rewrite (Hk k) by done; done.
Qed.

Lemma table_join s s1 s2 P P1 P2 u t j n1 n2 g1 g2 :
  page_ok t -> page_away P t -> source_ok (pa_mem s) P u t -> 0 <= j -> 0 <= n1 -> 0 <= n2 -> j + n1 + n2 <= 1024 ->
  table_cloned s s1 P P1 u t j n1 g1 -> table_cloned s1 s2 P1 P2 u t (j + n1) n2 g2 ->
  table_cloned s s2 P P2 u t j (n1 + n2) (fun k => if k <? j + n1 then g1 k else g2 k).
Proof.
  intros Ht Hta Hsrc Hj Hn1 Hn2 Hend [A1 A2 A3 A4 A5 A6] [B1 B2 B3 B4 B5 B6].
  destruct (source_ok_frame (pa_mem s) (pa_mem s1) P P1 u t Ht Hsrc A2 A3) as [Hsrc1 Hpde].
  assert (mem_frame (with_page P t) (pa_mem s1) (pa_mem s2)) as B3'
    by (eapply mem_frame_weaken; [|exact B3]; intros x [Hx|Hx]; [left; by apply A2|by right]).
  assert (forall k, j <= k < j + n1 -> pde (pa_mem s) u k <> 0 -> g1 k <> t) as Hgt.
  { intros k Hk H. destruct (A4 k Hk H) as ((_ & Hin & _) & _). intros E. by apply (in_away P (g1 k) t). }
  split; [done|intros x Hx; by apply A2, B2|by eapply mem_frame_trans| | |].
  - intros k Hk Hne. destruct (Z.ltb_spec k (j + n1)) as [Hlt|Hge].
    + destruct (A4 k ltac:(lia) Hne) as (Hf & E & Hc). split; [apply (fresh_sub P P P1 P2); [done|exact B2|exact Hf]|].
      rewrite B5 by lia. split; [done|]. destruct Hf as (Hg & _ & Hga).
      eapply page_copy_trans; [|exact Hc]. apply (page_copy_frame (with_page P1 t)); [done| |done].
      apply away_with; [done|done| |done]. apply Hgt; [lia|done].
    + destruct (B4 k ltac:(lia)) as (Hf & E & Hc); [by rewrite Hpde by lia|]. rewrite Hpde in E by lia.
      split; [apply (fresh_sub P P1 P2 P2); [exact A2|done|exact Hf]|]. split; [done|]. unfold table in *. rewrite Hpde in Hc by lia.
      eapply page_copy_trans; [exact Hc|]. destruct (sc_entry _ _ _ _ Hsrc k ltac:(lia) Hne) as (H1 & H2 & H3).
      apply (page_copy_frame (with_page P t)); [done| |done]. by apply away_with.
  - intros k Hk Hn. rewrite B5 by (done || (rewrite Hpde by lia; intros [? ?]; apply Hn; split; [lia|done])).
    apply A5; [done|]. intros [? ?]; apply Hn; split; [lia|done].
  - assert (forall k l, j <= k < j + n1 -> j + n1 <= l < j + n1 + n2 -> pde (pa_mem s) u k <> 0 -> pde (pa_mem s) u l <> 0 ->
      g1 k <> g2 l) as Hcross.
    { intros k l Hk Hl Hk0 Hl0. destruct (A4 k Hk Hk0) as ((_ & _ & Haw) & _).
      destruct (B4 l Hl) as ((_ & Hin & _) & _); [by rewrite Hpde by lia|]. by apply (in_away P1). }
    intros k l Hk Hl Hk0 Hl0. destruct (Z.ltb_spec k (j + n1)), (Z.ltb_spec l (j + n1)).
    + by apply A6; lia || done.
    + intros E. by destruct (Hcross k l ltac:(lia) ltac:(lia) Hk0 Hl0).
    + intros E. by destruct (Hcross l k ltac:(lia) ltac:(lia) Hl0 Hk0).
    + apply B6; [lia|lia|by rewrite Hpde by lia..].
Qed.

(** A turn for an entry that is not empty. *)
Lemma table_turn s P u t j n :
  pa_ok s P -> page_ok t -> page_away P t -> source_ok (pa_mem s) P u t -> 0 <= j < 1024 -> pde (pa_mem s) u j <> 0 ->
  free_pages (Datatypes.S n) P ->
  exists a s1 P1, pa_acquire 0 s = Some (K a, s1) /\ page_ok a /\ free_pages n P1 /\
    let s2 := pa_set_mem (fun m => entry_set (K t) j (PHYSADDR (K a) ⊕ PAGEOFFSET (entry_get m (K u) j)) m) s1 in
    let s3 := pa_set_mem (fun m => memmove m (K a) (KERNADDR (PAGEADDRESS (entry_get m (K u) j))) PAGESIZE) s2 in
    table_cloned s s3 P P1 u t j 1 (fun _ => a).
Proof.
  intros Hok Ht Hta Hsrc Hj Hne Hf. pose proof Hsrc as [(Hu & Hua & Hut) He].
  destruct (acquire_page n s P Hok Hf) as (a & s1 & P1 & E & Hok1 & Ha & Hin & Haw & Hsub & Hf1 & Hfr).
  exists a, s1, P1. split; [exact E|]. split; [exact Ha|]. split; [exact Hf1|]. cbv zeta.
  destruct (He j Hj Hne) as (Hb & Hba & Hbt).
  assert (u <> a) as Hua' by by apply (in_away P). assert (t <> a) as Hta' by by apply (in_away P).
  assert (pde (pa_mem s1) u j = pde (pa_mem s) u j) as E1 by by apply (pde_frame P).
  set (s2 := pa_set_mem _ s1).
  destruct (new_entry a (pde (pa_mem s) u j) Ha) as [En Hn].
  assert (pa_mem s2 = entry_set (K t) j (a + PAGEOFFSET (pde (pa_mem s) u j)) (pa_mem s1)) as Em2.
  { unfold s2. rewrite pa_mem_set. fold (pde (pa_mem s1) u j). by rewrite E1, En. }
  assert (pde (pa_mem s2) u j = pde (pa_mem s) u j) as E2.
  { rewrite Em2. unfold pde. rewrite entry_set_ne by (done || congruence). exact E1. }
  set (s3 := pa_set_mem _ s2).
  assert (pa_mem s3 = memmove (pa_mem s2) (K a) (K (table (pa_mem s) u j)) 4096) as Em3.
  { unfold s3. rewrite pa_mem_set. fold (pde (pa_mem s2) u j). rewrite E2.
    fold (table (pa_mem s) u j). by rewrite K_KERNADDR. }
  assert (forall Q, page_in Q t -> mem_frame Q (pa_mem s1) (pa_mem s2)) as F2.
  { intros Q HQ. rewrite Em2. apply mem_frame_store32; [done|lia|done]. }
  assert (forall Q, page_in Q a -> mem_frame Q (pa_mem s2) (pa_mem s3)) as F3.
  { intros Q HQ. rewrite Em3. by apply mem_frame_memmove. }
  assert (pa_ok s3 P1) as Hok3.
  { pose proof (F2 (fun x => ~ P1 x) (away_sub P P1 t Hsub Hta)) as G2. pose proof (F3 (fun x => ~ P1 x) Haw) as G3.
    unfold s3 in *. rewrite pa_mem_set in G3. apply pa_set_ok; [|exact G3].
    unfold s2 in *. rewrite pa_mem_set in G2. by apply pa_set_ok. }
  assert (mem_frame (with_page P t) (pa_mem s) (pa_mem s3)) as Hframe.
  { eapply mem_frame_trans; [eapply mem_frame_weaken; [|exact Hfr]; by left|].
    eapply mem_frame_trans; [apply F2; by right|apply F3; intros x Hx; left; by apply Hin]. }
  assert (forall k, 0 <= k < 1024 -> pde (pa_mem s3) t k = pde (pa_mem s2) t k) as Hpt.
  { intros k Hk. apply (pde_frame (fun x => a <= x < a + 4096)); [done|done| |apply F3; by intros x Hx].
    intros x Hx. pose proof (pages_apart t a Ht Ha Hta'). lia. }
  split; [exact Hok3|exact Hsub|exact Hframe| | |].
  - intros k Hk _. assert (k = j) as -> by lia. split; [by split|]. split.
    + rewrite Hpt, Em2 by done. by apply entry_set_eq.
    + rewrite Em3. eapply page_copy_trans; [by apply page_copy_memmove|].
      apply (page_copy_frame (with_page P t)); [done|by apply away_with|].
      eapply mem_frame_trans; [eapply mem_frame_weaken; [|exact Hfr]; by left|apply F2; by right].
  - intros k Hk Hn'. rewrite Hpt, Em2 by done. unfold pde. rewrite entry_set_ne; [by apply (entry_get_frame P)|done..|].
    intros [= Ek]. apply Hn'. subst k. split; [lia|done].
  - intros; lia.
Qed.

Lemma clone_table_ok n : forall s P u t j r,
  pa_ok s P -> page_ok t -> page_away P t -> source_ok (pa_mem s) P u t -> 0 <= j -> j + Z.of_nat n = 1024 ->
  free_pages (table_need (pa_mem s) u j n + r) P ->
  exists s' P' g, clone_table n (K t) (K u) j s = Some (false, s') /\ free_pages r P' /\
    table_cloned s s' P P' u t j (Z.of_nat n) g.
Proof.
  induction n as [|n IH]; intros s P u t j r Hok Ht Hta Hsrc Hj Hend Hf.
  - exists s, P, (fun _ => 0). split; [done|]. split; [done|]. split; [done|done|apply mem_frame_refl| |done|]; intros; lia.
  - cbn [table_need] in Hf.
    assert (exists s1 P1 g1, table_cloned s s1 P P1 u t j 1 g1 /\
      free_pages (table_need (pa_mem s) u (j + 1) n + r) P1 /\
      clone_table (Datatypes.S n) (K t) (K u) j s = clone_table n (K t) (K u) (j + 1) s1) as (s1 & P1 & g1 & H1 & Hf1 & ->).
    { cbn [clone_table]. change (entry_get (pa_mem s) (K u) j) with (pde (pa_mem s) u j).
      destruct (Z.eqb_spec (pde (pa_mem s) u j) 0) as [E0|E0].
      - exists s, P, (fun _ => 0). split; [by apply table_skip|]. by split.
      - destruct (table_turn s P u t j _ Hok Ht Hta Hsrc ltac:(lia) E0 Hf) as (a & s1 & P1 & -> & Ha & Hf1 & H1).
        eexists _, P1, _. split; [exact H1|]. split; [exact Hf1|]. cbn [mbind option_bind]. by rewrite K_not_null. }
    pose proof H1 as [A1 A2 A3 _ _ _].
    destruct (source_ok_frame (pa_mem s) (pa_mem s1) P P1 u t Ht Hsrc A2 A3) as [Hsrc1 Hpde].
    destruct (IH s1 P1 u t (j + 1) r A1 Ht (away_sub P P1 t A2 Hta) Hsrc1 ltac:(lia) ltac:(lia)) as (s' & P' & g2 & -> & Hfr & H2).
    { rewrite (table_need_ext (pa_mem s)); [done|]. intros k Hk. apply Hpde. lia. }
    eexists s', P', _. split; [done|]. split; [exact Hfr|]. replace (Z.of_nat (Datatypes.S n)) with (1 + Z.of_nat n) by lia.
    by apply (table_join s s1 s' P P1 P' u t j 1 (Z.of_nat n) g1 g2); try done; lia.
Qed.

(** ** The entries of a directory *)

Record parent_ok (m : Mem) (P : Z -> Prop) (d c : Z) : Prop := {
  pr_dir : page_ok d /\ page_away P d /\ d <> c;
  pr_tab : forall i, 0 <= i < 512 -> pde m d i <> 0 -> source_ok m P (table m d i) c
}.

Lemma parent_ok_frame m m' (P P' : Z -> Prop) d c :
  page_ok c -> parent_ok m P d c -> (forall x, P' x -> P x) -> mem_frame (with_page P c) m m' ->
  parent_ok m' P' d c /\ (forall i, 0 <= i < 1024 -> pde m' d i = pde m d i) /\
  (forall i k, 0 <= i < 512 -> 0 <= k < 1024 -> pde m d i <> 0 -> pde m' (table m d i) k = pde m (table m d i) k).
Proof.
  intros Hc [(Hd & Hda & Hne) Ht] HP Hfr.
  assert (forall i, 0 <= i < 1024 -> pde m' d i = pde m d i) as Hpde
    by (intros i Hi; apply (pde_frame (with_page P c)); [done|done|by apply away_with|done]).
  assert (forall i, 0 <= i < 512 -> pde m d i <> 0 ->
    source_ok m' P' (table m d i) c /\ (forall k, 0 <= k < 1024 -> pde m' (table m d i) k = pde m (table m d i) k)) as Hsrc
    by (intros i Hi H; apply (source_ok_frame m m' P P'); [done|by apply Ht|done|done]).
  split; [|split; [exact Hpde|intros i k Hi Hk H; by apply Hsrc]].
  split; [split; [done|split; [by apply (away_sub P)|done]]|].
  intros i Hi H. rewrite Hpde in H by lia. unfold table at 1. rewrite Hpde by lia. by apply Hsrc.
Qed.

(** The clone has a page for entry [k] of the directory ([l = -1]) and for
    entry [l] of its table. *)
Definition cloned_at (m : Mem) (d k l : Z) : Prop :=
  pde m d k <> 0 /\ (l = -1 \/ (0 <= l < 1024 /\ pde m (table m d k) l <> 0)).

Lemma cloned_at_same m m' d k l :
  pde m' d k = pde m d k -> (forall l, 0 <= l < 1024 -> pde m d k <> 0 -> pde m' (table m d k) l = pde m (table m d k) l) ->
  cloned_at m d k l -> cloned_at m' d k l.
Proof.
  intros E1 E2 [H1 H2]. unfold cloned_at, table in *. rewrite E1. split; [done|].
  destruct H2 as [->|[Hl H2]]; [by left|right]. split; [done|]. by rewrite E2.
Qed.

(** From [s] to [s'], the entries [i] to [i + n - 1] of the directory [d]
    have been cloned into [c], to the pages [G]. *)
Record dir_cloned (s s' : S) (P P' : Z -> Prop) (d c i n : Z) (G : Z -> Z -> Z) : Prop := {
  dc_ok : pa_ok s' P';
  dc_sub : forall x, P' x -> P x;
  dc_frame : mem_frame (with_page P c) (pa_mem s) (pa_mem s');
  dc_fresh : forall k l, i <= k < i + n -> cloned_at (pa_mem s) d k l -> fresh P P' (G k l);
  dc_table : forall k, i <= k < i + n -> pde (pa_mem s) d k <> 0 ->
    pde (pa_mem s') c k = G k (-1) + PAGEOFFSET (pde (pa_mem s) d k);
  dc_page : forall k l, i <= k < i + n -> 0 <= l < 1024 -> cloned_at (pa_mem s) d k l ->
    pde (pa_mem s') (G k (-1)) l = G k l + PAGEOFFSET (pde (pa_mem s) (table (pa_mem s) d k) l) /\
    page_copy (pa_mem s') (G k l) (pa_mem s) (table (pa_mem s) (table (pa_mem s) d k) l);
  dc_other : forall k, 0 <= k < 1024 -> ~ (i <= k < i + n /\ pde (pa_mem s) d k <> 0) ->
    pde (pa_mem s') c k = pde (pa_mem s) c k;
  dc_inj : forall k l k' l', i <= k < i + n -> i <= k' < i + n ->
    cloned_at (pa_mem s) d k l -> cloned_at (pa_mem s) d k' l' -> G k l = G k' l' -> k = k' /\ l = l'
}.

Lemma dir_skip s P d c i G : pa_ok s P -> pde (pa_mem s) d i = 0 -> dir_cloned s s P P d c i 1 G.
Proof.
  intros Hok H0. assert (forall k, i <= k < i + 1 -> k = i) as Hk by lia.
  assert (forall k l, i <= k < i + 1 -> ~ cloned_at (pa_mem s) d k l) as Hn by (intros k l Hk1 [H _]; by rewrite (Hk k) in H).
  split; [done|done|apply mem_frame_refl|..].
  - intros k l H1 H2. by destruct (Hn k l).
  - intros k H1 H2. by rewrite (Hk k) in H2.
  - intros k l H1 _ H2. by destruct (Hn k l).
  - done.
  - intros k l k' l' H1 _ H2. by destruct (Hn k l).
Qed.

(** A page the clone has got holds still while the others are made. *)
Lemma clone_page_still m m' P P1 c a :
  page_ok c -> page_away P c -> fresh P P1 a -> mem_frame (with_page P1 c) m m' ->
  page_copy m' a m a /\ (forall l, 0 <= l < 1024 -> pde m' a l = pde m a l).
Proof.
  intros Hc Hca (Ha & Hin & Haw) Hfr. assert (page_away (with_page P1 c) a) as Haw'.
  { apply away_with; [done|done| |done]. intros ->. by apply (in_away P c c). }
  split; [by apply (page_copy_frame (with_page P1 c))|]. intros l Hl. by apply (pde_frame (with_page P1 c)).
Qed.

Lemma dir_join s s1 s2 P P1 P2 d c i n1 n2 G1 G2 :
  page_ok c -> page_away P c -> parent_ok (pa_mem s) P d c -> 0 <= i -> 0 <= n1 -> 0 <= n2 -> i + n1 + n2 <= 512 ->
  dir_cloned s s1 P P1 d c i n1 G1 -> dir_cloned s1 s2 P1 P2 d c (i + n1) n2 G2 ->
  dir_cloned s s2 P P2 d c i (n1 + n2) (fun k l => if k <? i + n1 then G1 k l else G2 k l).
Proof.
  intros Hc Hca Hpar Hi Hn1 Hn2 Hend [A1 A2 A3 A4 A5 A6 A7 A8] [B1 B2 B3 B4 B5 B6 B7 B8].
  destruct (parent_ok_frame (pa_mem s) (pa_mem s1) P P1 d c Hc Hpar A2 A3) as (Hpar1 & Hpde & Htab).
  assert (forall k l, i <= k < i + (n1 + n2) -> cloned_at (pa_mem s) d k l -> cloned_at (pa_mem s1) d k l) as Hat.
  { intros k l Hk. apply cloned_at_same; [apply Hpde; lia|]. intros l' Hl' H. apply Htab; done || lia. }
  assert (forall k, i <= k < i + (n1 + n2) -> table (pa_mem s1) d k = table (pa_mem s) d k) as Etab
    by (intros k Hk; unfold table; by rewrite Hpde by lia).
  assert (mem_frame (with_page P c) (pa_mem s1) (pa_mem s2)) as B3'
    by (eapply mem_frame_weaken; [|exact B3]; intros x [Hx|Hx]; [left; by apply A2|by right]).
  split; [done|intros x Hx; by apply A2, B2|by eapply mem_frame_trans|..].
  - intros k l Hk H. destruct (Z.ltb_spec k (i + n1)).
    + apply (fresh_sub P P P1 P2); [done|done|]. apply A4; [lia|done].
    + apply (fresh_sub P P1 P2 P2); [done|done|]. apply B4; [lia|by apply Hat].
  - intros k Hk H. destruct (Z.ltb_spec k (i + n1)).
    + rewrite B7 by lia. apply A5; [lia|done].
    + rewrite B5, Hpde by (lia || (rewrite Hpde by lia; done)). done.
  - intros k l Hk Hl H. destruct (Z.ltb_spec k (i + n1)) as [Hlt|Hge].
    + destruct (A6 k l ltac:(lia) Hl H) as [E Hcp].
      destruct (clone_page_still (pa_mem s1) (pa_mem s2) P P1 c (G1 k (-1)) Hc Hca) as [_ Hst]; [|done|].
      { apply A4; [lia|]. split; [apply H|by left]. }
      destruct (clone_page_still (pa_mem s1) (pa_mem s2) P P1 c (G1 k l) Hc Hca) as [Hst' _]; [|done|].
      { by apply A4; [lia|]. }
      rewrite Hst by done. split; [done|]. eapply page_copy_trans; [exact Hst'|exact Hcp].
    + destruct (B6 k l ltac:(lia) Hl ltac:(by apply Hat)) as [E Hcp]. destruct H as [H0 [->|[_ H]]]; [lia|].
      pose proof (Htab k l ltac:(lia) Hl H0) as El.
      rewrite Etab, El in E by lia. split; [done|].
      rewrite Etab in Hcp by lia. unfold table at 1 in Hcp. rewrite El in Hcp. fold (table (pa_mem s) (table (pa_mem s) d k) l) in Hcp.
      eapply page_copy_trans; [exact Hcp|].
      destruct (sc_entry _ _ _ _ (pr_tab _ _ _ _ Hpar k ltac:(lia) H0) l Hl H) as (H1 & H2 & H3).
      apply (page_copy_frame (with_page P c)); [done|by apply away_with|done].
  - intros k Hk H. rewrite B7 by (done || (rewrite Hpde by lia; intros [? ?]; apply H; split; [lia|done])).
    apply A7; [done|]. intros [? ?]; apply H; split; [lia|done].
  - assert (forall k l k' l', i <= k < i + n1 -> i + n1 <= k' < i + n1 + n2 -> cloned_at (pa_mem s) d k l ->
      cloned_at (pa_mem s) d k' l' -> G1 k l <> G2 k' l') as Hcross.
    { intros k l k' l' Hk Hk' H H'. destruct (A4 k l Hk H) as (_ & _ & Haw).
      destruct (B4 k' l' Hk') as (_ & Hin & _); [apply Hat; [lia|done]|]. by apply (in_away P1). }
    intros k l k' l' Hk Hk' H H'. destruct (Z.ltb_spec k (i + n1)), (Z.ltb_spec k' (i + n1)).
    + apply A8; lia || done.
    + intros E. by destruct (Hcross k l k' l' ltac:(lia) ltac:(lia) H H').
    + intros E. by destruct (Hcross k' l' k l ltac:(lia) ltac:(lia) H' H).
    + apply B8; [lia|lia|apply Hat; [lia|done]..].
Qed.

(** The turn for entry [i], after its table has been filled. *)
Lemma dir_turn_cloned s s1 s2 s3 P P1 P' d c i t g :
  page_ok c -> page_away P c -> parent_ok (pa_mem s) P d c -> 0 <= i < 512 -> pde (pa_mem s) d i <> 0 ->
  page_ok t -> page_in P t -> page_away P1 t -> (forall x, P1 x -> P x) -> mem_frame P (pa_mem s) (pa_mem s1) ->
  pa_mem s2 = entry_set (K c) i (t + PAGEOFFSET (pde (pa_mem s) d i)) (pa_mem s1) ->
  table_cloned s2 s3 P1 P' (table (pa_mem s) d i) t 0 1024 g ->
  dir_cloned s s3 P P' d c i 1 (fun _ l => if l =? -1 then t else g l).
Proof.
  intros Hc Hca Hpar Hi Hne Ht Hin Haw Hsub Hfr Em [A1 A2 A3 A4 A5 A6].
  assert (c <> t) as Hct by by apply (in_away P).
  assert (mem_frame (with_page P c) (pa_mem s) (pa_mem s2)) as Hfr2.
  { eapply mem_frame_trans; [eapply mem_frame_weaken; [|exact Hfr]; by left|]. rewrite Em.
    apply mem_frame_store32; [done|lia|by right]. }
  assert (mem_frame P (pa_mem s2) (pa_mem s3)) as Hfr3.
  { eapply mem_frame_weaken; [|exact A3]. intros x [Hx|Hx]; [by apply Hsub|by apply Hin]. }
  destruct (parent_ok_frame (pa_mem s) (pa_mem s2) P P d c Hc Hpar ltac:(done) Hfr2) as (_ & _ & Htab).
  set (u := table (pa_mem s) d i) in *.
  assert (forall l, 0 <= l < 1024 -> pde (pa_mem s2) u l = pde (pa_mem s) u l) as Hu by (intros l Hl; by apply Htab).
  assert (forall k l, i <= k < i + 1 -> cloned_at (pa_mem s) d k l ->
    k = i /\ (l = -1 \/ (l <> -1 /\ 0 <= l < 0 + 1024 /\ pde (pa_mem s2) u l <> 0))) as Hat.
  { intros k l Hk [_ H]. assert (k = i) as -> by lia. split; [done|]. destruct H as [->|[Hl H]]; [by left|right].
    split; [lia|]. split; [lia|]. by rewrite Hu. }
  split; [done|intros x Hx; by apply Hsub, A2| | | | | |].
  - eapply mem_frame_trans; [exact Hfr2|]. eapply mem_frame_weaken; [|exact Hfr3]. by left.
  - intros k l Hk H. destruct (Hat k l Hk H) as (-> & [->|(Hl1 & Hl & H')]).
    + split; [done|]. split; [done|]. by apply (away_sub P1).
    + rewrite (proj2 (Z.eqb_neq l _)) by done. apply (fresh_sub P P1 P' P'); [done|done|]. by apply A4.
  - intros k Hk H. assert (k = i) as -> by lia. rewrite Z.eqb_refl.
    assert (pde (pa_mem s3) c i = pde (pa_mem s2) c i) as -> by (apply (pde_frame P); done || lia).
    rewrite Em. apply entry_set_eq; [done|lia|]. by apply (new_entry t).
  - intros k l Hk Hl H. assert ((l =? -1) = false) as -> by lia. rewrite Z.eqb_refl.
    destruct (Hat k l Hk H) as (-> & [->|(_ & _ & H')]); [lia|]. destruct H as [_ [->|[_ H]]]; [lia|].
    fold u in H |- *. destruct (A4 l Hl H') as (_ & E & Hcp). rewrite Hu in E by done. split; [done|].
    unfold table in Hcp. rewrite Hu in Hcp by done. fold (table (pa_mem s) u l) in Hcp.
    eapply page_copy_trans; [exact Hcp|].
    destruct (sc_entry _ _ _ _ (pr_tab _ _ _ _ Hpar i Hi Hne) l Hl H) as (H1 & H2 & H3).
    apply (page_copy_frame (with_page P c)); [done|by apply away_with|done].
  - intros k Hk H. assert (k <> i) by (intros ->; apply H; split; [lia|done]).
    assert (pde (pa_mem s3) c k = pde (pa_mem s2) c k) as -> by by apply (pde_frame P).
    rewrite Em. unfold pde. rewrite entry_set_ne by (done || lia || congruence). by apply (entry_get_frame P).
  - assert (forall l, 0 <= l < 0 + 1024 -> pde (pa_mem s2) u l <> 0 -> g l <> t) as Hgt.
    { intros l Hl H E. destruct (A4 l Hl H) as ((_ & Hg & _) & _). by apply (in_away P1 (g l) t). }
    intros k l k' l' Hk Hk' H H'. destruct (Hat k l Hk H) as (-> & Hl), (Hat k' l' Hk' H') as (-> & Hl'). clear H H'.
    intros E. split; [done|]. destruct Hl as [->|(N & Hl & H)], Hl' as [->|(N' & Hl' & H')]; [done|..]; revert E;
      rewrite ?(proj2 (Z.eqb_neq l _)), ?(proj2 (Z.eqb_neq l' _)), ?Z.eqb_refl by done; intros E.
    + by destruct (Hgt l' Hl' H').
    + by destruct (Hgt l Hl H).
    + by apply A6.
Qed.

Lemma dir_turn s P d c i r :
  pa_ok s P -> page_ok c -> page_away P c -> parent_ok (pa_mem s) P d c -> 0 <= i < 512 -> pde (pa_mem s) d i <> 0 ->
  free_pages (Datatypes.S (table_need (pa_mem s) (table (pa_mem s) d i) 0 1024) + r) P ->
  exists t s1, pa_acquire 0 s = Some (K t, s1) /\ page_ok t /\
    let s2 := pa_set_mem (fun m => entry_set (K c) i (PHYSADDR (K t) ⊕ PAGEOFFSET (entry_get m (K d) i)) m) s1 in
    exists s3 P' G, clone_table (Z.to_nat PAGING_PGTAB_NENTRIES) (K t)
        (KERNADDR (PAGEADDRESS (entry_get (pa_mem s2) (K d) i))) 0 s2 = Some (false, s3) /\
      free_pages r P' /\ dir_cloned s s3 P P' d c i 1 G.
Proof.
  intros Hok Hc Hca Hpar Hi Hne Hf. pose proof Hpar as [(Hd & Hda & Hdc) Hsrc].
  destruct (acquire_page _ s P Hok Hf) as (t & s1 & P1 & E & Hok1 & Ht & Hin & Haw & Hsub & Hf1 & Hfr).
  exists t, s1. split; [exact E|]. split; [exact Ht|]. cbv zeta. set (s2 := pa_set_mem _ s1).
  assert (pde (pa_mem s1) d i = pde (pa_mem s) d i) as E1 by (apply (pde_frame P); done || lia).
  destruct (new_entry t (pde (pa_mem s) d i) Ht) as [En Hn].
  assert (pa_mem s2 = entry_set (K c) i (t + PAGEOFFSET (pde (pa_mem s) d i)) (pa_mem s1)) as Em.
  { unfold s2. rewrite pa_mem_set. fold (pde (pa_mem s1) d i). by rewrite E1, En. }
  assert (pa_ok s2 P1) as Hok2.
  { assert (mem_frame (fun x => ~ P1 x) (pa_mem s1) (pa_mem s2)) as G.
    { rewrite Em. apply mem_frame_store32; [done|lia|]. by apply (away_sub P). }
    unfold s2 in *. rewrite pa_mem_set in G. by apply pa_set_ok. }
  assert (pde (pa_mem s2) d i = pde (pa_mem s) d i) as E2.
  { rewrite Em. unfold pde. rewrite entry_set_ne by (done || lia || congruence). exact E1. }
  fold (pde (pa_mem s2) d i). rewrite E2. fold (table (pa_mem s) d i). set (u := table (pa_mem s) d i).
  destruct (Hsrc i Hi Hne) as [(Hu & Hua & Huc) _]. rewrite K_KERNADDR by done.
  assert (mem_frame (with_page P c) (pa_mem s) (pa_mem s2)) as Hfr2.
  { eapply mem_frame_trans; [eapply mem_frame_weaken; [|exact Hfr]; by left|]. rewrite Em.
    apply mem_frame_store32; [done|lia|by right]. }
  destruct (source_ok_frame (pa_mem s) (pa_mem s2) P P u c Hc (Hsrc i Hi Hne) ltac:(done) Hfr2) as [Hsrc2 Hpu].
  destruct (clone_table_ok 1024 s2 P1 u t 0 r Hok2 Ht Haw) as (s3 & P' & g & E3 & Hr & H3); [|lia|lia| |].
  { by apply (source_ok_target _ P P1 u c t). }
  { rewrite (table_need_ext (pa_mem s)); [exact Hf1|]. intros k Hk. apply Hpu. lia. }
  eexists s3, P', _. split; [exact E3|]. split; [exact Hr|].
  by apply (dir_turn_cloned s s1 s2 s3 P P1 P' d c i t g).
Qed.

Lemma clone_dir_ok n : forall s P d c i r,
  pa_ok s P -> page_ok c -> page_away P c -> parent_ok (pa_mem s) P d c -> 0 <= i -> i + Z.of_nat n = 512 ->
  free_pages (dir_need (pa_mem s) d i n + r) P ->
  exists s' P' G, clone_dir n (K d) (K c) i s = Some (false, s') /\ free_pages r P' /\
    dir_cloned s s' P P' d c i (Z.of_nat n) G.
Proof.
  induction n as [|n IH]; intros s P d c i r Hok Hc Hca Hpar Hi Hend Hf.
  - exists s, P, (fun _ _ => 0). split; [done|]. split; [done|].
    split; [done|done|apply mem_frame_refl| | | |done|]; intros; lia.
  - cbn [dir_need] in Hf.
    assert (exists s1 P1 G1, dir_cloned s s1 P P1 d c i 1 G1 /\
      free_pages (dir_need (pa_mem s) d (i + 1) n + r) P1 /\
      clone_dir (Datatypes.S n) (K d) (K c) i s = clone_dir n (K d) (K c) (i + 1) s1) as (s1 & P1 & G1 & H1 & Hf1 & ->).
    { cbn [clone_dir]. change (entry_get (pa_mem s) (K d) i) with (pde (pa_mem s) d i).
      destruct (Z.eqb_spec (pde (pa_mem s) d i) 0) as [E0|E0].
      - exists s, P, (fun _ _ => 0). split; [by apply dir_skip|]. by split.
      - rewrite <- Nat.add_assoc in Hf.
        destruct (dir_turn s P d c i _ Hok Hc Hca Hpar ltac:(lia) E0 Hf) as (t & s1 & -> & Ht & s3 & P' & G & E & Hr & H).
        exists s3, P', G. split; [exact H|]. split; [exact Hr|]. cbn [mbind option_bind]. rewrite K_not_null by done.
        cbv zeta. rewrite E. done. }
    pose proof H1 as [A1 A2 A3 _ _ _ _ _].
    destruct (parent_ok_frame (pa_mem s) (pa_mem s1) P P1 d c Hc Hpar A2 A3) as (Hpar1 & Hpde & Htab).
    assert (dir_need (pa_mem s1) d (i + 1) n = dir_need (pa_mem s) d (i + 1) n) as En.
    { apply dir_need_ext; [intros k Hk; apply Hpde; lia|]. intros k l Hk Hl H. apply Htab; done || lia. }
    destruct (IH s1 P1 d c (i + 1) r A1 Hc (away_sub P P1 c A2 Hca) Hpar1 ltac:(lia) ltac:(lia)) as (s' & P' & G2 & -> & Hr & H2);
      [by rewrite En|].
    eexists s', P', _. split; [done|]. split; [exact Hr|]. replace (Z.of_nat (Datatypes.S n)) with (1 + Z.of_nat n) by lia.
    by apply (dir_join s s1 s' P P1 P' d c i 1 (Z.of_nat n) G1 G2); try done; lia.
Qed.

(** ** The clone *)

Lemma entry_walk m P d i l :
  space_ok m P d -> 0 <= i < 512 -> 0 <= l < 1024 -> present m d i ->
  let v := 4194304 * i + 4096 * l in 0 <= v < 0x80000000 /\ walk m d v = pde m (table m d i) l.
Proof.
  intros Hs Hi Hl Hp v. assert (PAGEDIRIDX v = i) as E1 by (rewrite PAGEDIRIDX_eq; unfold v; zdiv).
  assert (PAGETABIDX v = l) as E2 by (rewrite PAGETABIDX_eq; unfold v; zdiv).
  assert (0 <= v < 0x80000000) as Hv by (unfold v; lia). split; [exact Hv|].
  rewrite (walk_present m P), E1, E2 by (done || by rewrite E1). done.
Qed.

Lemma clone_parent m P d c :
  space_ok m P d -> c <> d -> (forall i, 0 <= i < 512 -> pde m d i <> 0 -> present m d i /\ table m d i <> c) ->
  (forall v, 0 <= v < 0x80000000 -> walk m d v <> 0 ->
     page_ok (PAGEADDRESS (walk m d v)) /\ page_away P (PAGEADDRESS (walk m d v)) /\ PAGEADDRESS (walk m d v) <> c) ->
  parent_ok m P d c.
Proof.
  intros Hs Hc Hpres Hfr. pose proof Hs as [[Hd Hda] Htab _]. split; [by split|]. intros i Hi Hne.
  destruct (Hpres i Hi Hne) as [Hp Htc]. destruct (Htab i Hi Hp) as (Ht & Hta & _). split; [done|]. intros l Hl H.
  destruct (entry_walk m P d i l Hs Hi Hl Hp) as [Hv Hw]. unfold table at 1 3 5. rewrite <- Hw in H |- *. by apply Hfr.
Qed.

Lemma walk_cloned m P d v :
  space_ok m P d -> 0 <= v < 0x80000000 -> walk m d v <> 0 ->
  present m d (PAGEDIRIDX v) /\ cloned_at m d (PAGEDIRIDX v) (PAGETABIDX v) /\
  walk m d v = pde m (table m d (PAGEDIRIDX v)) (PAGETABIDX v).
Proof.
  intros Hs Hv Hw. destruct (decide (present m d (PAGEDIRIDX v))) as [Hp|Hp]; [|by rewrite walk_absent in Hw].
  rewrite (walk_present m P) in * by done. split; [done|]. split; [|done]. split.
  - intros E. unfold present in Hp. by rewrite E in Hp.
  - right. split; [apply PAGETABIDX_range|done].
Qed.

(** The parent is as well formed as it was. *)
Lemma parent_space m m' P P' d c :
  space_ok m P d -> page_ok c -> parent_ok m P d c -> (forall x, P' x -> P x) -> mem_frame (with_page P c) m m' -> space_ok m' P' d.
Proof.
  intros [[Hd Hda] Htab Hdist] Hc Hpar HP Hfr. destruct (parent_ok_frame m m' P P' d c Hc Hpar HP Hfr) as (_ & Hpde & _).
  split; [split; [done|by apply (away_sub P)]| |]; unfold present, table in *.
  - intros i Hi. rewrite Hpde by lia. intros Hp. destruct (Htab i Hi Hp) as (H1 & H2 & H3).
    split; [done|]. split; [by apply (away_sub P)|done].
  - intros i j Hi Hj. rewrite !Hpde by lia. by apply Hdist.
Qed.

(** The directory of the clone afterwards. *)
Lemma clone_space s s' P P' d c G :
  space_ok (pa_mem s) P d -> page_ok c -> page_away P c -> (forall i, 0 <= i < 512 -> pde (pa_mem s) c i = 0) ->
  dir_cloned s s' P P' d c 0 512 G ->
  space_ok (pa_mem s') P' c /\
  forall i, 0 <= i < 512 -> present (pa_mem s') c i -> cloned_at (pa_mem s) d i (-1) /\ table (pa_mem s') c i = G i (-1).
Proof.
  intros Hs Hc Hca Hz [A1 A2 A3 A4 A5 A6 A7 A8].
  assert (forall i, 0 <= i < 512 -> present (pa_mem s') c i -> cloned_at (pa_mem s) d i (-1) /\ table (pa_mem s') c i = G i (-1)) as Hp.
  { intros i Hi Hp. destruct (decide (pde (pa_mem s) d i = 0)) as [E|E].
    - unfold present in Hp. rewrite A7, Hz in Hp by (lia || tauto). by destruct Hp.
    - assert (cloned_at (pa_mem s) d i (-1)) as Hat by (split; [done|by left]). split; [done|]. unfold table. rewrite A5 by (done || lia).
      apply PAGEADDRESS_entry. by apply (A4 i (-1) ltac:(lia) Hat). }
  split; [|exact Hp]. split; [split; [done|by apply (away_sub P)]| |].
  - intros i Hi H. destruct (Hp i Hi H) as [Hat ->]. destruct (A4 i (-1) ltac:(lia) Hat) as (Hg & Hin & Haw).
    split; [done|]. split; [done|]. intros E. apply (in_away P (G i (-1)) c); done.
  - intros i j Hi Hj Hij Hpi Hpj. destruct (Hp i Hi Hpi) as [Hati ->], (Hp j Hj Hpj) as [Hatj ->]. intros E.
    by destruct (A8 i (-1) j (-1) ltac:(lia) ltac:(lia) Hati Hatj E).
Qed.

(** What the processor finds for a page of the clone. *)
Lemma clone_walk s s' P P' d c G v :
  space_ok (pa_mem s) P d -> space_ok (pa_mem s') P' c -> dir_cloned s s' P P' d c 0 512 G ->
  present (pa_mem s) d (PAGEDIRIDX v) -> 0 <= v < 0x80000000 -> walk (pa_mem s) d v <> 0 ->
  let g := G (PAGEDIRIDX v) (PAGETABIDX v) in
  fresh P P' g /\ walk (pa_mem s') c v = g + PAGEOFFSET (walk (pa_mem s) d v) /\
  page_copy (pa_mem s') g (pa_mem s) (PAGEADDRESS (walk (pa_mem s) d v)).
Proof.
  intros Hs Hsc [A1 A2 A3 A4 A5 A6 A7 A8] Hp Hv Hw g. pose proof (PAGEDIRIDX_user v Hv) as Hi. pose proof (PAGETABIDX_range v) as Hj.
  destruct (walk_cloned (pa_mem s) P d v Hs Hv Hw) as (_ & Hat & E). split; [apply A4; [done|exact Hat]|].
  destruct (A6 (PAGEDIRIDX v) (PAGETABIDX v) Hi Hj Hat) as [E1 Hcp]. pose proof Hat as [Hne _].
  assert (cloned_at (pa_mem s) d (PAGEDIRIDX v) (-1)) as Hat' by (split; [done|by left]).
  destruct (A4 (PAGEDIRIDX v) (-1) Hi Hat') as (Ht & _).
  assert (present (pa_mem s') c (PAGEDIRIDX v)) as Hpc.
  { unfold present. rewrite A5 by (done || lia). unfold PAGING_PDE_PRESENT. rewrite flags_keep; [exact Hp|apply Ht|lia]. }
  rewrite (walk_present _ P') by done. unfold table at 1. rewrite A5 by (done || lia).
  rewrite PAGEADDRESS_entry by done.
  unfold pde in E1. rewrite E1, E. split; [done|]. exact Hcp.
Qed.

(** The two indices of a page. *)
Definition page_of (G : Z -> Z -> Z) (p : Z) : Z := G (p / 1024) (p mod 1024).

Lemma page_of_indices G v : 0 <= v < 0x80000000 -> page_of G (v / 4096) = G (PAGEDIRIDX v) (PAGETABIDX v).
Proof. intros Hv. unfold page_of. rewrite PAGEDIRIDX_eq, PAGETABIDX_eq. f_equal. zdiv. Qed.

(** What a byte of the user half translates to. *)
Lemma translate_entry s P d v f e :
  paging_ok s P d -> 0 <= v < 0x80000000 -> page_ok f -> walk (pa_mem s) d v = f + PAGEOFFSET e ->
  Paging_GetHigherHalfAddress (K d) v s = if Z.land e PAGING_PTE_USER =? 0 then 0 else K f + v mod 4096.
Proof.
  intros Hps Hv Hf Hw. rewrite (GetHigherHalf_walk s P), Hw by done. unfold PAGING_PTE_USER.
  rewrite PAGEADDRESS_entry, K_KERNADDR, flags_keep by (apply Hf || done || lia).
  destruct (Z.eqb_spec (f + PAGEOFFSET e) 0) as [E|E].
  - rewrite <- (flags_keep f e 4), E by (apply Hf || lia). done.
  - destruct (Z.eqb_spec (Z.land e 4) 0); [done|]. destruct Hf as [_ Hf]. pose proof (Z.mod_pos_bound v 4096 ltac:(lia)).
    by rewrite PAGEOFFSET_eq, wrap32_small by (unfold K; lia).
Qed.

(** C10. The copy of an address space. The parent is well formed, every entry of
    its user half that is not 0 leads to a table, and the frames of its pages
    are not the allocator's; the clone has an empty user half; and there are as
    many free pages as the parent has tables and pages, and [r] more. Then
    [Paging_Clone] succeeds and leaves [r] pages. It has changed the clone's
    directory and pages that were free, nothing else; both spaces are well
    formed, and the parent translates as before. Every page of the parent is
    in the clone as well, with the same flags, in a frame of its own, which
    was free before, is not any more, is no table of the clone, and holds the
    bytes of the parent's frame: every user byte of the parent reads the same
    in the clone. *)
Theorem Paging_Clone_correct s P d c r :
  paging_ok s P d -> page_ok c -> page_away P c -> c <> d ->
  (forall i, 0 <= i < 512 -> pde (pa_mem s) c i = 0) ->
  (forall i, 0 <= i < 512 -> pde (pa_mem s) d i <> 0 -> present (pa_mem s) d i /\ table (pa_mem s) d i <> c) ->
  (forall v, 0 <= v < 0x80000000 -> walk (pa_mem s) d v <> 0 -> let f := PAGEADDRESS (walk (pa_mem s) d v) in
     page_ok f /\ page_away P f /\ f <> c) ->
  free_pages (dir_need (pa_mem s) d 0 512 + r) P ->
  exists s' P' frame, Paging_Clone (K d) (K c) s = Some (true, s') /\ free_pages r P' /\
    paging_ok s' P' d /\ paging_ok s' P' c /\ mem_frame (with_page P c) (pa_mem s) (pa_mem s') /\
    (forall v, 0 <= v < 0x80000000 -> walk (pa_mem s') d v = walk (pa_mem s) d v) /\
    (forall v, 0 <= v < 0x80000000 -> walk (pa_mem s) d v <> 0 -> let e := walk (pa_mem s) d v in let f := frame (v / 4096) in
       fresh P P' f /\ walk (pa_mem s') c v = f + PAGEOFFSET e /\ page_copy (pa_mem s') f (pa_mem s) (PAGEADDRESS e) /\
       forall i, 0 <= i < 512 -> present (pa_mem s') c i -> table (pa_mem s') c i <> f) /\
    (forall v w, 0 <= v < 0x80000000 -> 0 <= w < 0x80000000 -> walk (pa_mem s) d v <> 0 -> walk (pa_mem s) d w <> 0 ->
       frame (v / 4096) = frame (w / 4096) -> v / 4096 = w / 4096) /\
    (forall v, 0 <= v < 0x80000000 -> Paging_GetHigherHalfAddress (K d) v s <> 0 ->
       load8 (pa_mem s') (Paging_GetHigherHalfAddress (K c) v s') = load8 (pa_mem s) (Paging_GetHigherHalfAddress (K d) v s)).
Proof.
  intros [Hok Hs] Hc Hca Hcd Hz Hpres Hfr Hf. pose proof Hs as [[Hd Hda] _ _].
  pose proof (clone_parent (pa_mem s) P d c Hs Hcd Hpres Hfr) as Hpar.
  destruct (clone_dir_ok 512 s P d c 0 r Hok Hc Hca Hpar ltac:(lia) ltac:(lia) Hf) as (s' & P' & G & E & Hr & Hcl).
  change (Z.of_nat 512) with 512 in Hcl.
  destruct (clone_space s s' P P' d c G Hs Hc Hca Hz Hcl) as [Hsc Htab]. pose proof Hcl as [A1 A2 A3 _ _ _ _ A8].
  assert (paging_ok s' P' c) as Hpc by by split.
  assert (forall v, 0 <= v < 0x80000000 -> walk (pa_mem s) d v <> 0 ->
    cloned_at (pa_mem s) d (PAGEDIRIDX v) (PAGETABIDX v)) as Hat by (intros v Hv Hw; by apply (walk_cloned _ P)).
  assert (forall v, 0 <= v < 0x80000000 -> walk (pa_mem s) d v <> 0 -> let f := page_of G (v / 4096) in
    fresh P P' f /\ walk (pa_mem s') c v = f + PAGEOFFSET (walk (pa_mem s) d v) /\
    page_copy (pa_mem s') f (pa_mem s) (PAGEADDRESS (walk (pa_mem s) d v))) as Hpage.
  { intros v Hv Hw. rewrite page_of_indices by done. apply (clone_walk s s' P P' d c G v); try done. by apply (walk_cloned _ P). }
  destruct (parent_ok_frame (pa_mem s) (pa_mem s') P P' d c Hc Hpar A2 A3) as (_ & Hpde & Hent).
  assert (forall v, 0 <= v < 0x80000000 -> walk (pa_mem s') d v = walk (pa_mem s) d v) as Hwd.
  { intros v Hv. pose proof (PAGEDIRIDX_user v Hv). unfold walk, table. rewrite Hpde by lia.
    destruct (Z.eqb_spec (Z.land (pde (pa_mem s) d (PAGEDIRIDX v)) PAGING_PDE_PRESENT) 0) as [|Hp]; [done|].
    fold (table (pa_mem s) d (PAGEDIRIDX v)). rewrite K_KERNADDR by by apply (so_tab _ _ _ Hs).
    apply Hent; [done|apply PAGETABIDX_range|]. intros E0. by rewrite E0 in Hp. }
  exists s', P', (page_of G). unfold Paging_Clone. change (Z.to_nat (PAGEDIRIDX KERNEL_MMAP_VIRTUAL_START)) with 512%nat.
  rewrite E. split; [done|]. split; [exact Hr|]. split.
  { split; [done|]. by apply (parent_space (pa_mem s) (pa_mem s') P P' d c). }
  split; [exact Hpc|]. split; [exact A3|]. split; [exact Hwd|]. split; [|split].
  - intros v Hv Hw. destruct (Hpage v Hv Hw) as (H1 & H2 & H3). split; [done|]. split; [done|]. split; [done|].
    intros i Hi Hp. destruct (Htab i Hi Hp) as [Hati ->]. rewrite page_of_indices by done. intros Eq.
    apply A8 in Eq as [_ Eq]; [|lia|by apply PAGEDIRIDX_user|done|by apply Hat]. pose proof (PAGETABIDX_range v). lia.
  - intros v w Hv Hw Hv0 Hw0. rewrite !page_of_indices by done. intros Eq.
    apply A8 in Eq as [E1 E2]; [|by apply PAGEDIRIDX_user|by apply PAGEDIRIDX_user|by apply Hat|by apply Hat].
    by apply indices_page.
  - intros v Hv Hne. assert (walk (pa_mem s) d v <> 0) as Hw.
    { intros E0. apply Hne. rewrite (GetHigherHalf_walk s P d v (conj Hok Hs) Hv). by rewrite E0. }
    destruct (Hpage v Hv Hw) as ((H1 & _) & H2 & H3). destruct (Hfr v Hv Hw) as (H4 & _).
    set (e := walk (pa_mem s) d v) in *. revert Hne.
    rewrite (translate_entry s P d v (PAGEADDRESS e) e (conj Hok Hs) Hv H4)
      by (unfold e; rewrite PAGEADDRESS_eq, PAGEOFFSET_eq; apply Z.div_mod; lia).
    rewrite (translate_entry s' P' c v (page_of G (v / 4096)) e Hpc Hv H1 H2).
    destruct (Z.land e PAGING_PTE_USER =? 0); [done|]. intros _. apply H3. by apply Z.mod_pos_bound.
Qed.
End Clone.

(** ** An instance *)

Lemma demo_entry b j :
  page_ok b -> b <> 0x400000 -> 0 <= j < 1024 ->
  entry_get (mem demo_mapped) (K b) j =
    if decide (b = 0x200000 /\ j = 0) then 0x201007 else if decide (b = 0x201000 /\ j = 1) then 0x300007 else 0.
Proof.
  intros Hb Hne Hj. assert (page_ok 0x200000) as Hd by (split; [by exists 512|lia]).
  assert (page_ok 0x201000) as Ht by (split; [by exists 513|lia]). unfold demo_mapped. cbn [mem set_mem].
  destruct (decide (b = 0x200000 /\ j = 0)) as [[-> ->]|H1].
  - rewrite entry_set_ne by (done || lia || congruence). by apply entry_set_eq.
  - destruct (decide (b = 0x201000 /\ j = 1)) as [[-> ->]|H2]; [by apply entry_set_eq|].
    rewrite !entry_set_ne; try done; try lia; [by apply demo_zero|..]; intros [= <- <-]; [by apply H1|by apply H2].
Qed.

Lemma demo_mapped_walk v :
  0 <= v < 0x80000000 -> walk (mem demo_mapped) 0x200000 v <> 0 -> walk (mem demo_mapped) 0x200000 v = 0x300007.
Proof.
  intros Hv Hw. destruct demo_mapped_ok as ((_ & Hs) & _ & Ht). assert (page_ok 0x201000) as Hok by (split; [by exists 513|lia]).
  destruct (walk_cloned _ _ _ v Hs Hv Hw) as (Hp & _ & E). change (pa_mem demo_mapped) with (mem demo_mapped) in E.
  rewrite (Ht _ (PAGEDIRIDX_user v Hv) Hp) in E. unfold pde in E.
  rewrite (demo_entry 0x201000 _ Hok ltac:(lia) (PAGETABIDX_range v)), decide_False in E by lia. rewrite E in Hw |- *.
  destruct (decide _); [reflexivity|]. by destruct Hw.
Qed.

(** The space of one page at 0x1000 is cloned into the directory at
    0x202000; two of the four free pages are left. *)
Lemma Paging_Clone_correct_witness :
  exists s' P', Paging_Clone (K 0x200000) (K 0x202000) demo_mapped = Some (true, s') /\ free_pages 2 P' /\
    paging_ok s' P' 0x202000 /\ walk (mem s') 0x200000 0x1000 = 0x300007 /\
    load8 (mem s') (Paging_GetHigherHalfAddress (K 0x202000) 0x1004 s') = load8 (mem demo_mapped) (K 0x300004).
Proof.
  destruct demo_mapped_ok as (Hps & Hw & Ht). assert (page_ok 0x202000) as Hc by (split; [by exists 514|lia]).
  assert (page_ok 0x200000) as Hd by (split; [by exists 512|lia]).
  destruct (Paging_Clone_correct demo_mapped demo_free 0x200000 0x202000 2 Hps Hc (demo_away _ Hc ltac:(lia)) ltac:(lia))
    as (s' & P' & f & H1 & H2 & _ & H3 & _ & H4 & _ & _ & H5).
  - intros i Hi. unfold pde. change (pa_mem demo_mapped) with (mem demo_mapped). rewrite (demo_entry 0x202000 i Hc ltac:(lia) ltac:(lia)).
    rewrite !decide_False by lia. done.
  - intros i Hi Hne. assert (i = 0) as ->.
    { apply dec_stable. intros Hi0. apply Hne. unfold pde. change (pa_mem demo_mapped) with (mem demo_mapped).
      rewrite (demo_entry 0x200000 i Hd ltac:(lia) ltac:(lia)). rewrite !decide_False by lia. done. }
    split; [|by vm_compute]. by vm_compute.
  - intros v Hv Hne. cbv zeta. change (pa_mem demo_mapped) with (mem demo_mapped) in *. rewrite demo_mapped_walk by done.
    change (PAGEADDRESS 0x300007) with 0x300000. assert (page_ok 0x300000) as Ha by (split; [by exists 768|lia]).
    split; [exact Ha|]. split; [by apply demo_away|lia].
  - assert (dir_need (pa_mem demo_mapped) 0x200000 0 512 = 2%nat) as -> by by vm_compute. exact demo_free_pages.
  - exists s', P'. split; [exact H1|]. split; [exact H2|]. split; [exact H3|]. split; [rewrite H4 by lia; exact Hw|].
    assert (Paging_GetHigherHalfAddress (K 0x200000) 0x1004 demo_mapped = K 0x300004) as E by by vm_compute.
    rewrite H5, E by (lia || (rewrite E; done)). done.
Defined.
