(* ===== verification/KernelMap.v ===== *)
(** * The kernel's own address space

    [Initialize_Memory] of [kernel/arch/initialize/src/initialize.c]: the
    boot-time page directory of 4 MB pages, with the processor's translation
    through it. The directory is written before paging is on, through its
    physical address. *)

From S2P Require Import Prelude CMem Setup PhysMem PhysInv PageAlloc Paging.

(** The loop [for (i = ...; cond(i); i += PAGING_EXTPAGESIZE)] that fills the
    directory: [i] is a [size_t], whose addition wraps. *)
Fixpoint fill_directory (fuel : nat) (cond : Z -> bool) (entry : Z -> Z) (pd i : Z) (m : Mem)
  : option Mem :=
  match fuel with
  | O => None
  | S f =>
      if cond i then
        fill_directory f cond entry pd (i ⊕ PAGING_EXTPAGESIZE)
          (entry_set pd (PAGING_PGDIR_IDX i) (entry i) m)
      else Some m
  end.

Definition pde_flags : Z := Z.lor (Z.lor PAGING_PDE_PRESENT PAGING_PDE_READWRITE) PAGING_PDE_PSE.

(** The statically initialised directory: the first 4 MB, twice. *)
Definition Kernel_pagedirectory_init (pd : Z) (m : Mem) : Prop :=
  forall i, 0 <= i < PAGING_PGDIR_NENTRIES ->
    entry_get m pd i = if (i =? 0) || (i =? PAGING_PGDIR_IDX KERNEL_MMAP_VIRTUAL_START)
                       then pde_flags else 0.

Definition Initialize_PageDirectory (Kernel_pagedirectory : Z) (m : Mem) : option Mem :=
  let pd := PHYSADDR Kernel_pagedirectory in
  m ← fill_directory 1025 (fun i => i <? KERNEL_MMAP_VIRTUAL_START) (fun _ => 0)
        pd PAGING_EXTPAGESIZE m;
  m ← fill_directory 1025 (fun i => i <? KERNEL_MMAP_VIRTUAL_END)
        (fun i => Z.lor (i ⊖ KERNEL_HIGHER_HALF_OFFSET) pde_flags)
        pd KERNEL_MMAP_VIRTUAL_START m;
  fill_directory 1025 (fun i => 0 <? i) (fun i => Z.lor i pde_flags)
    pd KERNEL_MMAP_HIMEMIO_START m.

(** The whole of [Initialize_Memory]. *)
Definition Initialize_Memory (tag_fuel : nat) (Kernel_pagedirectory BootInfo : Z) (s : PhysState)
  : option PhysState :=
  m ← Initialize_PageDirectory Kernel_pagedirectory (mem s);
  Page_BuddyMaps_Initialize tag_fuel BootInfo (set_mem (fun _ => m) s).

(** The processor's translation of a virtual address through a directory of
    large pages. *)
Definition translate (m : Mem) (pd v : Z) : option Z :=
  let pde := entry_get m pd (PAGING_PGDIR_IDX v) in
  if negb (Z.land pde PAGING_PDE_PRESENT =? 0) && negb (Z.land pde PAGING_PDE_PSE =? 0) then
    Some (Z.land pde 0xFFC00000 + Z.land v 0x3FFFFF)
  else None.

(** ** Directory entries *)

Lemma index_div v : 0 <= v < 4294967296 -> PAGING_PGDIR_IDX v = v / 4194304.
Proof.
  intros Hv. unfold PAGING_PGDIR_IDX. change 0x3FF with (Z.ones 10).
  rewrite Z.land_ones, Z.shiftr_div_pow2 by lia. change (2 ^ 22) with 4194304.
  apply Z.mod_small. zdiv.
Qed.

Lemma large_page q :
  0 <= q < 1024 ->
  let pde := Z.lor (4194304 * q) pde_flags in
  0 <= pde < 4294967296 /\ Z.land pde PAGING_PDE_PRESENT <> 0 /\ Z.land pde PAGING_PDE_PSE <> 0
  /\ Z.land pde 0xFFC00000 = 4194304 * q.
Proof.
  intros Hq.
  assert (forallb (fun n => let q := Z.of_nat n in let pde := Z.lor (4194304 * q) pde_flags in
    (0 <=? pde) && (pde <? 4294967296) && negb (Z.land pde PAGING_PDE_PRESENT =? 0)
    && negb (Z.land pde PAGING_PDE_PSE =? 0) && (Z.land pde 0xFFC00000 =? 4194304 * q))
    (seq 0 1024) = true) as Hall by (vm_compute; reflexivity).
  rewrite forallb_forall in Hall. specialize (Hall (Z.to_nat q)).
  rewrite Z2Nat.id in Hall by lia. cbv zeta in *.
  assert (In (Z.to_nat q) (seq 0 1024)) as Hin by (apply in_seq; lia).
  specialize (Hall Hin). bool_to_prop. conjs; lia.
Qed.

Lemma translate_large q r :
  0 <= q < 1024 -> 0 <= r ->
  (let pde := wrap32 (Z.lor (4194304 * q) pde_flags) in
   if negb (Z.land pde PAGING_PDE_PRESENT =? 0) && negb (Z.land pde PAGING_PDE_PSE =? 0)
   then Some (Z.land pde 0xFFC00000 + r) else None) = Some (4194304 * q + r).
Proof.
  intros Hq Hr. destruct (large_page q Hq) as (Hw & Hp & Hl & Ha). cbv zeta.
  rewrite wrap32_small by done. rewrite Ha.
  apply Z.eqb_neq in Hp as ->. apply Z.eqb_neq in Hl as ->. done.
Qed.

Lemma fill_directory_spec n fuel cond entry pd q m :
  0 <= pd -> pd + 4096 <= 4294967296 -> 0 <= q -> q + Z.of_nat n <= 1024 ->
  (forall k, q <= k < q + Z.of_nat n -> cond (4194304 * k) = true) ->
  cond (wrap32 (4194304 * (q + Z.of_nat n))) = false -> (n < fuel)%nat ->
  exists m', fill_directory fuel cond entry pd (wrap32 (4194304 * q)) m = Some m' /\
    forall j, 0 <= j < 1024 -> entry_get m' pd j =
      if (q <=? j) && (j <? q + Z.of_nat n) then wrap32 (entry (4194304 * j)) else entry_get m pd j.
Proof.
  intros Hpd Hpd2. revert fuel q m. induction n as [|n IH]; intros [|fuel] q m Hq Hn Hc Hend Hf;
    try lia; cbn [fill_directory].
  - change (Z.of_nat 0) with 0 in *. rewrite Z.add_0_r in *. rewrite Hend. exists m. split; [done|].
    intros j Hj. destruct (Z.leb_spec q j), (Z.ltb_spec j q); done || lia.
  - assert (wrap32 (4194304 * q) = 4194304 * q) as E by (apply wrap32_small; lia).
    rewrite E, Hc by lia.
    replace (4194304 * q ⊕ PAGING_EXTPAGESIZE) with (wrap32 (4194304 * (q + 1)))
      by (unfold PAGING_EXTPAGESIZE; f_equal; lia).
    rewrite index_div by lia. rewrite (Z.mul_comm _ q), Z.div_mul by lia. rewrite (Z.mul_comm q).
    destruct (IH fuel (q + 1) (entry_set pd q (entry (4194304 * q)) m)) as (m' & -> & Hm');
      [lia|lia|intros k Hk; apply Hc; lia| |lia|].
    { rewrite <- Hend. do 3 f_equal. lia. }
    exists m'. split; [done|]. intros j Hj. rewrite Hm' by lia.
    unfold entry_get, entry_set.
    destruct (Z.leb_spec (q + 1) j), (Z.leb_spec q j), (Z.ltb_spec j (q + 1 + Z.of_nat n)),
      (Z.ltb_spec j (q + Z.of_nat (S n))); cbn [andb]; try lia; try done; try by mem_simpl.
    all: assert (j = q) as -> by lia; by mem_simpl.
Qed.

(** C30. The boot-time directory maps the first 4 MB to themselves, nothing
    else below the kernel's half, the kernel's window from 0x80000000 to
    0xF0000000 onto physical memory from 0 on, and the memory-mapped devices
    above to themselves. The three loops end, the last one by wrapping around
    the address space. *)
Theorem Initialize_PageDirectory_correct dir m
    (Hd : KERNEL_HIGHER_HALF_OFFSET <= dir <= 0xFFFFF000)
    (Hi : Kernel_pagedirectory_init (PHYSADDR dir) m) :
  exists m', Initialize_PageDirectory dir m = Some m' /\
    forall v, 0 <= v < 4294967296 ->
      translate m' (PHYSADDR dir) v =
        if v <? PAGING_EXTPAGESIZE then Some v
        else if v <? KERNEL_MMAP_VIRTUAL_START then None
        else if v <? KERNEL_MMAP_HIMEMIO_START then Some (v - KERNEL_HIGHER_HALF_OFFSET)
        else Some v.
Proof.
  unfold Initialize_PageDirectory. set (pd := PHYSADDR dir) in *.
  assert (0 <= pd /\ pd + 4096 <= 4294967296) as [Hp1 Hp2].
  { subst pd. unfold PHYSADDR, KERNEL_HIGHER_HALF_OFFSET in *. rewrite wrap32_small by lia. lia. }
  clearbody pd. unfold PAGING_EXTPAGESIZE, KERNEL_MMAP_VIRTUAL_START, KERNEL_MMAP_VIRTUAL_END,
    KERNEL_MMAP_HIMEMIO_START, KERNEL_HIGHER_HALF_OFFSET in *.
  destruct (fill_directory_spec 511 1025 (fun i => i <? 0x80000000) (fun _ => 0) pd 1 m)
    as (m1 & E1 & H1); [lia..|intros k Hk; apply Z.ltb_lt; lia|reflexivity|lia|].
  change (wrap32 (4194304 * 1)) with 0x400000 in E1. rewrite E1. cbn [mbind option_bind].
  destruct (fill_directory_spec 448 1025 (fun i => i <? 0xF0000000)
    (fun i => Z.lor (i ⊖ 0x80000000) pde_flags) pd 512 m1)
    as (m2 & E2 & H2); [lia..|intros k Hk; apply Z.ltb_lt; lia|reflexivity|lia|].
  change (wrap32 (4194304 * 512)) with 0x80000000 in E2. rewrite E2. cbn [mbind option_bind].
  destruct (fill_directory_spec 64 1025 (fun i => 0 <? i) (fun i => Z.lor i pde_flags) pd 960 m2)
    as (m3 & E3 & H3); [lia..|intros k Hk; apply Z.ltb_lt; lia|reflexivity|lia|].
  change (wrap32 (4194304 * 960)) with 0xF0000000 in E3. rewrite E3.
  exists m3. split; [done|]. intros v Hv. unfold translate. rewrite index_div by lia.
  assert (0 <= v / 4194304 < 1024) as Hq by zdiv.
  change 0x3FFFFF with (Z.ones 22). rewrite Z.land_ones by lia. change (2 ^ 22) with 4194304.
  pose proof (Z.div_mod v 4194304 ltac:(lia)) as Hdm.
  pose proof (Z.mod_pos_bound v 4194304 ltac:(lia)) as Hmod.
  set (q := v / 4194304) in *. set (r := v mod 4194304) in *. clearbody q r.
  rewrite !H3, !H2, !H1 by lia. rewrite !Hi by (unfold PAGING_PGDIR_NENTRIES; lia).
  change (PAGING_PGDIR_IDX 0x80000000) with 512. change (PAGEDIRIDX KERNEL_MMAP_VIRTUAL_START) with 512.
  destruct (Z.leb_spec 960 q), (Z.leb_spec 512 q), (Z.leb_spec 1 q), (Z.eqb_spec q 0),
    (Z.ltb_spec q (960 + Z.of_nat 64)), (Z.ltb_spec q (512 + Z.of_nat 448)),
    (Z.ltb_spec q (1 + Z.of_nat 511)); cbn [andb orb]; try lia;
    destruct (Z.ltb_spec v 0x400000), (Z.ltb_spec v 0x80000000), (Z.ltb_spec v 0xF0000000); try lia.
  - etransitivity; [apply (translate_large q r); lia|]. f_equal. lia.
  - replace (4194304 * q ⊖ 0x80000000) with (4194304 * (q - 512)) by zdiv.
    etransitivity; [apply (translate_large (q - 512) r); lia|]. f_equal. lia.
  - done.
  - replace pde_flags with (wrap32 (Z.lor (4194304 * 0) pde_flags)) by reflexivity.
    etransitivity; [apply (translate_large 0 r); lia|]. f_equal. lia.
Qed.

(** A fresh directory at 0x80201000. *)
Definition demo_directory : Mem :=
  store32 (store32 ∅ 0x201000 pde_flags) (0x201000 + 4 * 512) pde_flags.

Lemma Initialize_PageDirectory_correct_witness :
  exists m', Initialize_PageDirectory 0x80201000 demo_directory = Some m' /\
    forall v, 0 <= v < 4294967296 ->
      translate m' (PHYSADDR 0x80201000) v =
        if v <? PAGING_EXTPAGESIZE then Some v
        else if v <? KERNEL_MMAP_VIRTUAL_START then None
        else if v <? KERNEL_MMAP_HIMEMIO_START then Some (v - KERNEL_HIGHER_HALF_OFFSET)
        else Some v.
Proof.
  apply (Initialize_PageDirectory_correct 0x80201000 demo_directory).
  - unfold KERNEL_HIGHER_HALF_OFFSET. lia.
  - intros i Hi. unfold PAGING_PGDIR_NENTRIES in Hi.
    change (PHYSADDR 0x80201000) with 0x201000.
    change (PAGING_PGDIR_IDX KERNEL_MMAP_VIRTUAL_START) with 512.
    unfold entry_get, demo_directory.
    destruct (Z.eqb_spec i 0) as [->|]; [vm_compute; reflexivity|].
    destruct (Z.eqb_spec i 512) as [->|]; [vm_compute; reflexivity|].
    cbn [orb]. mem_simpl. reflexivity.
Defined.
