(* ===== verification/Process.v ===== *)
(** * Processes and the scheduler

    [kernel/core/taskmaster] ([process.h], [process.c], [scheduler.h],
    [scheduler.c], [state.h], [state.c], [stack.h]), the sleeping locks of
    [kernel/core/synch/src/sleeplock.c] and the contexts of
    [kernel/arch/tasking/src/context.c].

    A pointer to a process is its index in [Scheduler_processes], [None] for
    [PROCESS_NULL]. An operation that switches to the scheduler is a
    resumption: [Yield s k] stops in state [s] with the process off the
    processor, and goes on with [k s'] when the scheduler comes back to it in
    state [s']. [Spin] is a lock that is never released. *)

From S2P Require Import Prelude CMem Sync Timer Setup PhysMem PhysInv PageAlloc Paging.

(** ** Data *)

Inductive Process_Status :=
  PROCESS_IDLE | PROCESS_BOOKED | PROCESS_RUNNABLE | PROCESS_RUNNING | PROCESS_ASLEEP | PROCESS_DEAD.
#[export] Instance Process_Status_eq_dec : EqDecision Process_Status.
Proof. solve_decision. Defined.

Record Stack := mkStack { base : Z; ptr : Z; size : Z; flags : Z }.

Record Process := mkProcess {
  id : Z;
  user : Z;
  parent : option nat;
  child : option nat;
  sibling : option nat;
  num_children : Z;
  status : Process_Status;
  exit_code : Z;
  endpoint : Z;
  kernel_stack : Stack;
  task_context : Z;              (* struct KContext*, in memory *)
  intr_context : Z;              (* struct IContext*, in memory *)
  wakeup_on : Z;
  start_time : Z;
  run_time : Z
}.

Definition PROCESS_ALARM_OFF : Z := 0.
Definition PROCESS_ALARM_WAIT : Z := 1.

Definition process_zero : Process :=
  mkProcess 0 0 None None None 0 PROCESS_IDLE 0 0 (mkStack 0 0 0 0) 0 0 0 0 0.

(** Assignments to single members. *)
Definition set_id v p := mkProcess v (user p) (parent p) (child p) (sibling p) (num_children p) (status p)
  (exit_code p) (endpoint p) (kernel_stack p) (task_context p) (intr_context p) (wakeup_on p) (start_time p) (run_time p).
Definition set_parent v p := mkProcess (id p) (user p) v (child p) (sibling p) (num_children p) (status p)
  (exit_code p) (endpoint p) (kernel_stack p) (task_context p) (intr_context p) (wakeup_on p) (start_time p) (run_time p).
Definition set_child v p := mkProcess (id p) (user p) (parent p) v (sibling p) (num_children p) (status p)
  (exit_code p) (endpoint p) (kernel_stack p) (task_context p) (intr_context p) (wakeup_on p) (start_time p) (run_time p).
Definition set_sibling v p := mkProcess (id p) (user p) (parent p) (child p) v (num_children p) (status p)
  (exit_code p) (endpoint p) (kernel_stack p) (task_context p) (intr_context p) (wakeup_on p) (start_time p) (run_time p).
Definition set_num_children v p := mkProcess (id p) (user p) (parent p) (child p) (sibling p) v (status p)
  (exit_code p) (endpoint p) (kernel_stack p) (task_context p) (intr_context p) (wakeup_on p) (start_time p) (run_time p).
Definition set_status v p := mkProcess (id p) (user p) (parent p) (child p) (sibling p) (num_children p) v
  (exit_code p) (endpoint p) (kernel_stack p) (task_context p) (intr_context p) (wakeup_on p) (start_time p) (run_time p).
Definition set_exit_code v p := mkProcess (id p) (user p) (parent p) (child p) (sibling p) (num_children p) (status p)
  v (endpoint p) (kernel_stack p) (task_context p) (intr_context p) (wakeup_on p) (start_time p) (run_time p).
Definition set_endpoint v p := mkProcess (id p) (user p) (parent p) (child p) (sibling p) (num_children p) (status p)
  (exit_code p) v (kernel_stack p) (task_context p) (intr_context p) (wakeup_on p) (start_time p) (run_time p).
Definition set_kernel_stack v p := mkProcess (id p) (user p) (parent p) (child p) (sibling p) (num_children p) (status p)
  (exit_code p) (endpoint p) v (task_context p) (intr_context p) (wakeup_on p) (start_time p) (run_time p).
Definition set_task_context v p := mkProcess (id p) (user p) (parent p) (child p) (sibling p) (num_children p) (status p)
  (exit_code p) (endpoint p) (kernel_stack p) v (intr_context p) (wakeup_on p) (start_time p) (run_time p).
Definition set_intr_context v p := mkProcess (id p) (user p) (parent p) (child p) (sibling p) (num_children p) (status p)
  (exit_code p) (endpoint p) (kernel_stack p) (task_context p) v (wakeup_on p) (start_time p) (run_time p).
Definition set_wakeup_on v p := mkProcess (id p) (user p) (parent p) (child p) (sibling p) (num_children p) (status p)
  (exit_code p) (endpoint p) (kernel_stack p) (task_context p) (intr_context p) v (start_time p) (run_time p).
Definition set_start_time v p := mkProcess (id p) (user p) (parent p) (child p) (sibling p) (num_children p) (status p)
  (exit_code p) (endpoint p) (kernel_stack p) (task_context p) (intr_context p) (wakeup_on p) v (run_time p).
Definition set_run_time v p := mkProcess (id p) (user p) (parent p) (child p) (sibling p) (num_children p) (status p)
  (exit_code p) (endpoint p) (kernel_stack p) (task_context p) (intr_context p) (wakeup_on p) (start_time p) v.

(** [struct SleepLock]; its address is what sleepers wait on. *)
Record SleepLock := mkSleepLock { access_lock : SpinLock; locked : bool }.

(** [struct KProc] of the running processor, as far as the code uses it. *)
Record KProc := mkKProc { kproc_addr : Z; esp0 : Z; timer : Timer }.

Section Kernel.
Context {S : Type} {PA : PageAllocator S}.
Variable Kernel_pagedirectory : Z.
(** Addresses of code. *)
Variable Interrupt_Return Process_FirstEntry_addr : Z.

Record Kernel := mkKernel {
  Scheduler_processes : list Process;
  Process_lock : SpinLock;
  Process_primordial : option nat;
  Process_next_pid : Z;
  sleeplocks : gmap Z SleepLock;    (* by address *)
  thread : Thread;                  (* STATE_CURRENT, counters *)
  cur : option nat;                 (* STATE_CURRENT->process *)
  kernel_task : KProc;              (* STATE_CURRENT->kernel_task *)
  pages : S                         (* the allocator and memory *)
}.

Definition set_procs (f : list Process -> list Process) (s : Kernel) : Kernel :=
  mkKernel (f (Scheduler_processes s)) (Process_lock s) (Process_primordial s) (Process_next_pid s)
           (sleeplocks s) (thread s) (cur s) (kernel_task s) (pages s).
Definition set_process_lock (tl : Thread * SpinLock) (s : Kernel) : Kernel :=
  mkKernel (Scheduler_processes s) tl.2 (Process_primordial s) (Process_next_pid s)
           (sleeplocks s) tl.1 (cur s) (kernel_task s) (pages s).
Definition set_next_pid (v : Z) (s : Kernel) : Kernel :=
  mkKernel (Scheduler_processes s) (Process_lock s) (Process_primordial s) v
           (sleeplocks s) (thread s) (cur s) (kernel_task s) (pages s).
Definition set_sleeplock (a : Z) (l : SleepLock) (t : Thread) (s : Kernel) : Kernel :=
  mkKernel (Scheduler_processes s) (Process_lock s) (Process_primordial s) (Process_next_pid s)
           (<[a := l]> (sleeplocks s)) t (cur s) (kernel_task s) (pages s).
Definition set_kernel_task (k : KProc) (s : Kernel) : Kernel :=
  mkKernel (Scheduler_processes s) (Process_lock s) (Process_primordial s) (Process_next_pid s)
           (sleeplocks s) (thread s) (cur s) k (pages s).
Definition set_pages (p : S) (s : Kernel) : Kernel :=
  mkKernel (Scheduler_processes s) (Process_lock s) (Process_primordial s) (Process_next_pid s)
           (sleeplocks s) (thread s) (cur s) (kernel_task s) p.

Definition proc (s : Kernel) (i : nat) : Process := default process_zero (Scheduler_processes s !! i).
Definition upd_proc (i : nat) (f : Process -> Process) : Kernel -> Kernel := set_procs (alter f i).
Definition sleeplock (s : Kernel) (a : Z) : SleepLock :=
  default (mkSleepLock (mkSpinLock false) false) (sleeplocks s !! a).

(** *** Resumptions *)

Inductive Res (A : Type) :=
  | Ret (a : A) (s : Kernel)
  | Yield (s : Kernel) (k : Kernel -> Res A)
  | Spin.
Arguments Ret {A}. Arguments Yield {A}. Arguments Spin {A}.

Fixpoint res_bind {A B : Type} (r : Res A) (f : A -> Kernel -> Res B) : Res B :=
  match r with
  | Ret a s => f a s
  | Yield s k => Yield s (fun s' => res_bind (k s') f)
  | Spin => Spin
  end.

(** An operation that cannot switch. *)
Definition lift {A B : Type} (o : option A) (f : A -> Res B) : Res B :=
  match o with Some a => f a | None => Spin end.

(** *** Locks *)

Definition Process_Lock (s : Kernel) : option Kernel :=
  tl ← SpinLock_Acquire (thread s) (Process_lock s);
  Some (set_process_lock tl s).
Definition Process_Unlock (s : Kernel) : Kernel :=
  set_process_lock (SpinLock_Release (thread s) (Process_lock s)) s.

(** *** state.h, state.c *)

Definition SIZEOF_STATE : Z := 13.
Definition SIZEOF_ICONTEXT : Z := 76.
Definition SIZEOF_KCONTEXT : Z := 24.

Definition STATE_FROM_PROC (p : Process) : Z :=
  base (kernel_stack p) ⊕ size (kernel_stack p) ⊖ SIZEOF_STATE.

(** [struct Process*] as the word stored in memory: the address of entry [i]
    of the table. *)
Variable process_addr : nat -> Z.

Definition State_Initialize (i : nat) (s : Kernel) : Kernel :=
  let state := STATE_FROM_PROC (proc s i) in
  let st f := set_pages (pa_set_mem f (pages s)) s in
  st (fun m =>
    let m := store32 m (state + 5) (process_addr i) in
    let m := store32 m state 0 in
    let m := store8 m (state + 4) 0 in
    m).

(** *** context.c *)

Definition Context_Initialize (i : nat) (s : Kernel) : Kernel :=
  let stack_ptr := STATE_FROM_PROC (proc s i) in
  let stack_ptr := stack_ptr ⊖ SIZEOF_ICONTEXT in
  let s := upd_proc i (set_intr_context stack_ptr) s in
  let stack_ptr := stack_ptr ⊖ 4 in
  let s := set_pages (pa_set_mem (fun m => store32 m stack_ptr Interrupt_Return) (pages s)) s in
  let stack_ptr := stack_ptr ⊖ SIZEOF_KCONTEXT in
  let s := upd_proc i (set_task_context stack_ptr) s in
  let s := set_pages (pa_set_mem (fun m => memset m stack_ptr 0 SIZEOF_KCONTEXT) (pages s)) s in
  set_pages (pa_set_mem (fun m => store32 m (stack_ptr + 20) Process_FirstEntry_addr) (pages s)) s.

(** [proc->task_context->cr3]. *)
Definition cr3_of (s : Kernel) (i : nat) : Z :=
  load32 (pa_mem (pages s)) (task_context (proc s i)).
Definition set_cr3 (i : nat) (v : Z) (s : Kernel) : Kernel :=
  set_pages (pa_set_mem (fun m => store32 m (task_context (proc s i)) v) (pages s)) s.

Definition Context_SetupProcess (i : nat) (s : Kernel) : option Kernel :=
  let state := STATE_FROM_PROC (proc s i) in
  let k := kernel_task s in
  let s := set_pages (pa_set_mem (fun m => store32 m (state + 9) (kproc_addr k)) (pages s)) s in
  let s := set_kernel_task (mkKProc (kproc_addr k) state (timer k)) s in
  t ← Timer_Read (timer (kernel_task s));
  Some (upd_proc i (set_start_time t) s).

Definition IContext_Copy (dst src : Z) (m : Mem) : Mem := memmove m dst src SIZEOF_ICONTEXT.
Definition IContext_Fork (child parent : Z) (m : Mem) : Mem :=
  let m := IContext_Copy child parent m in
  store32 m (child + 28) 0.

(** *** scheduler.c *)

Definition Scheduler_Initialize (s : Kernel) : Kernel :=
  let s := set_process_lock (thread s, SpinLock_Initialize (Process_lock s)) s in
  set_procs (fun ps => fold_left (fun ps i => alter (set_status PROCESS_IDLE) i ps)
                         (seq 0 KERNEL_MAX_PROCS) ps) s.

(** One turn of the loop of [Schedule] up to the switch: the process chosen,
    if entry [iproc] is runnable. *)
Definition schedule_turn (iproc : nat) (s : Kernel) : option (bool * Kernel) :=
  s ← Process_Lock s;
  if decide (status (proc s iproc) = PROCESS_RUNNABLE) then
    let s := upd_proc iproc (set_status PROCESS_RUNNING) s in
    s ← Context_SetupProcess iproc s;
    Some (true, s)
  else Some (false, Process_Unlock s).
Definition next_iproc (iproc : nat) : nat :=
  if Nat.eqb iproc (KERNEL_MAX_PROCS - 1) then 0%nat else (iproc + 1)%nat.

(** The [for] loop of [Scheduler_Book], from entry [i], [n] entries left. *)
Fixpoint book_scan (n i : nat) (s : Kernel) : option nat :=
  match n with
  | O => None
  | Datatypes.S n' =>
      if decide (status (proc s i) = PROCESS_IDLE) then Some i else book_scan n' (i + 1) s
  end.

(** When no entry is idle the code scans again and again: with no other
    processor running that is [None]. *)
Definition Scheduler_Book (s : Kernel) : option (nat * Kernel) :=
  s ← Process_Lock s;
  match book_scan KERNEL_MAX_PROCS 0 s with
  | Some i =>
      let s := upd_proc i (set_status PROCESS_BOOKED) s in
      let s := upd_proc i (set_id (Process_next_pid s)) s in
      let s := set_next_pid (Process_next_pid s ⊕ 1) s in
      Some (i, Process_Unlock s)
  | None => None
  end.

Definition Scheduler_Preempt (i : nat) (s : Kernel) : option bool :=
  if decide (status (proc s i) = PROCESS_RUNNING) then
    t ← Timer_Read (timer (kernel_task s));
    Some (wrap64 (start_time (proc s i) + run_time (proc s i)) <? t)
  else Some false.

Definition wake (alarm : Z) (p : Process) : Process :=
  if decide (status p = PROCESS_ASLEEP) then
    if wakeup_on p =? alarm then set_wakeup_on 0 (set_status PROCESS_RUNNABLE p) else p
  else p.
Definition Scheduler_RaiseAlarm (alarm : Z) (s : Kernel) : Kernel :=
  set_procs (fun ps => fold_left (fun ps i => alter (wake alarm) i ps) (seq 0 KERNEL_MAX_PROCS) ps) s.

Fixpoint get_scan (n i : nat) (proc_id : Z) (s : Kernel) : option nat :=
  match n with
  | O => None
  | Datatypes.S n' => if id (proc s i) =? proc_id then Some i else get_scan n' (i + 1) proc_id s
  end.
Definition Scheduler_GetProcess (proc_id : Z) (s : Kernel) : option nat :=
  get_scan KERNEL_MAX_PROCS 0 proc_id s.

(** *** process.c *)

Definition Process_FirstEntryToUserSpace (s : Kernel) : Kernel := Process_Unlock s.

Definition STACK_ORDER : Z := Z.shiftr KERNEL_STACK_SIZE KERNEL_PAGE_SIZE_IN_BITS.

Definition Process_Initialize (i : nat) (s : Kernel) : option (bool * Kernel) :=
  '(stack, ps) ← pa_acquire STACK_ORDER (pages s);
  let s := set_pages ps s in
  if stack =? PAGE_LIST_NULL then Some (false, s)
  else
    let s := upd_proc i (fun p => set_kernel_stack
               (mkStack stack (ptr (kernel_stack p)) KERNEL_STACK_SIZE (flags (kernel_stack p))) p) s in
    let s := State_Initialize i s in
    let s := Context_Initialize i s in
    '(ok, cr3, ps) ← Paging_Initialize Kernel_pagedirectory (cr3_of s i) (pages s);
    let s := set_pages ps s in
    if negb ok then Some (false, s) else Some (true, set_cr3 i cr3 s).

(** Must be run under the process lock. *)
Definition Process_SleepOn (lock : Z) (s : Kernel) : Res () :=
  match cur s with
  | None => Spin
  | Some i =>
      let s := upd_proc i (set_wakeup_on lock) s in
      let s := upd_proc i (set_status PROCESS_ASLEEP) s in
      Yield s (fun s => Ret () (upd_proc i (set_wakeup_on PROCESS_ALARM_OFF) s))
  end.

Definition Process_Preempt (s : Kernel) : Res () :=
  if negb (STATE_PREEMPTIBLE (thread s)) then Ret () s
  else
    match cur s with
    | None => Ret () s
    | Some i =>
        lift (Process_Lock s) (fun s =>
        lift (Scheduler_Preempt i s) (fun yes =>
        if yes then
          Yield (upd_proc i (set_status PROCESS_RUNNABLE) s) (fun s => Ret () (Process_Unlock s))
        else Ret () (Process_Unlock s)))
    end.

Definition Process_Fork (s : Kernel) : option (Z * Kernel) :=
  match cur s with
  | None => None
  | Some pp =>
      '(fp, s) ← Scheduler_Book s;
      '(ok, s) ← (
        '(ok, s) ← Process_Initialize fp s;
        if (ok : bool) then
          '(ok, ps) ← Paging_Clone (cr3_of s pp) (cr3_of s fp) (pages s);
          Some (ok, set_pages ps s)
        else Some (false, s));
      if negb (ok : bool) then
        ps ← pa_release (base (kernel_stack (proc s fp))) STACK_ORDER (pages s);
        let s := set_pages ps s in
        s ← Process_Lock s;
        let s := upd_proc fp (set_status PROCESS_IDLE) s in
        Some (wrap32 (-1), Process_Unlock s)
      else
        let s := upd_proc fp (set_parent (Some pp)) s in
        let s := upd_proc fp (set_child None) s in
        let s := upd_proc fp (set_sibling (child (proc s pp))) s in
        let s := upd_proc fp (set_num_children 0) s in
        let s := upd_proc fp (set_exit_code (-1)) s in
        let s := upd_proc fp (set_run_time (run_time (proc s pp))) s in
        let s := upd_proc fp (set_endpoint (endpoint (proc s pp))) s in
        let s := set_pages (pa_set_mem
                   (IContext_Fork (intr_context (proc s fp)) (intr_context (proc s pp))) (pages s)) s in
        let s := upd_proc pp (fun p => set_num_children (num_children p ⊕ 1) p) s in
        let s := upd_proc pp (set_child (Some fp)) s in
        s ← Process_Lock s;
        let s := upd_proc fp (set_status PROCESS_RUNNABLE) s in
        let s := Process_Unlock s in
        Some (id (proc s pp), s)
  end.

Definition Process_ShiftEndPoint (shift : Z) (s : Kernel) : option Kernel :=
  match cur s with
  | None => None
  | Some i =>
      let old_end := endpoint (proc s i) in
      let new_end := wrap32 (signed32 (endpoint (proc s i)) + shift) in
      if shift =? 0 then Some s
      else if shift <? 0 then
        '(_, ps) ← Paging_UnmapPages (cr3_of s i) new_end (wrap32 (- shift)) (pages s);
        let s := set_pages ps s in
        Some (upd_proc i (set_endpoint new_end) s)
      else
        '(size_alloc, ps) ← Paging_MapPages (cr3_of s i) old_end shift (pages s);
        let s := set_pages ps s in
        let old_page := Z.land old_end (Z.lnot (KERNEL_PAGE_SIZE_IN_BYTES - 1)) in
        let new_end := if old_page ⊕ size_alloc <? new_end then old_page ⊕ size_alloc else new_end in
        Some (upd_proc i (set_endpoint new_end) s)
  end.

(** [while (kid->sibling != PROCESS_NULL)]: reap the first dead process
    after [kid]; the list of children has no more members than the table. *)
Fixpoint reap_siblings (fuel : nat) (i kid : nat) (s : Kernel) : option (option Z * Kernel) :=
  match fuel with
  | O => None
  | Datatypes.S f =>
      match sibling (proc s kid) with
      | None => Some (None, s)
      | Some sib =>
          if decide (status (proc s sib) = PROCESS_DEAD) then
            let retval := id (proc s sib) in
            let s := upd_proc sib (set_status PROCESS_IDLE) s in
            let s := upd_proc i (fun p => set_num_children (num_children p ⊖ 1) p) s in
            let s := upd_proc kid (set_sibling (sibling (proc s sib))) s in
            Some (Some retval, s)
          else reap_siblings f i sib s
      end
  end.

(** The [while (true)] of [Process_Wait]; [turns] bounds how often it may be
    resumed. *)
Fixpoint wait_loop (turns : nat) (i : nat) (retval : Z) (s : Kernel) : Res Z :=
  match turns with
  | O => Spin
  | Datatypes.S t =>
      if num_children (proc s i) =? 0 then Ret (wrap32 (-1)) s
      else
        match child (proc s i) with
        | None => Spin
        | Some kid =>
            if decide (status (proc s kid) = PROCESS_DEAD) then
              let retval := id (proc s kid) in
              let s := upd_proc kid (set_status PROCESS_IDLE) s in
              let s := upd_proc i (fun p => set_num_children (num_children p ⊖ 1) p) s in
              let s := upd_proc i (set_child (sibling (proc s kid))) s in
              Ret retval s
            else
              lift (reap_siblings KERNEL_MAX_PROCS i kid s) (fun '(r, s) =>
              let s := upd_proc i (set_status PROCESS_ASLEEP) s in
              Yield s (wait_loop t i (default retval r)))
        end
  end.

Definition Process_Wait (turns : nat) (s : Kernel) : Res Z :=
  lift (Process_Lock s) (fun s =>
  match cur s with
  | None => Spin
  | Some i => res_bind (wait_loop turns i (wrap32 (-1)) s) (fun retval s => Ret retval (Process_Unlock s))
  end).

Fixpoint orphan (fuel : nat) (kid : option nat) (s : Kernel) : option Kernel :=
  match kid with
  | None => Some s
  | Some k =>
      match fuel with
      | O => None
      | Datatypes.S f =>
          let s := upd_proc k (set_parent (Process_primordial s)) s in
          orphan f (sibling (proc s k)) s
      end
  end.

Definition Process_Terminate (i : nat) (st : Z) (s : Kernel) : option Kernel :=
  s ← orphan KERNEL_MAX_PROCS (child (proc s i)) s;
  ps ← Paging_Terminate (cr3_of s i) (pages s);
  ps ← pa_release (base (kernel_stack (proc s i))) STACK_ORDER ps;
  let s := set_pages ps s in
  let s := upd_proc i (set_exit_code st) s in
  Some (upd_proc i (set_status PROCESS_DEAD) s).

(** *** sleeplock.c *)

Definition SleepLock_Initialize (l : SleepLock) : SleepLock :=
  mkSleepLock (SpinLock_Initialize (access_lock l)) false.

Definition access_acquire (a : Z) (s : Kernel) : option Kernel :=
  '(t, l) ← SpinLock_Acquire (thread s) (access_lock (sleeplock s a));
  Some (set_sleeplock a (mkSleepLock l (locked (sleeplock s a))) t s).
Definition access_release (a : Z) (s : Kernel) : Kernel :=
  let '(t, l) := SpinLock_Release (thread s) (access_lock (sleeplock s a)) in
  set_sleeplock a (mkSleepLock l (locked (sleeplock s a))) t s.
Definition set_locked (a : Z) (b : bool) (s : Kernel) : Kernel :=
  set_sleeplock a (mkSleepLock (access_lock (sleeplock s a)) b) (thread s) s.

(** [while (lock->locked)], with at most [turns] wake-ups. *)
Fixpoint sleep_loop (turns : nat) (a : Z) (s : Kernel) : Res () :=
  if locked (sleeplock s a) then
    match turns with
    | O => Spin
    | Datatypes.S t =>
        let s := access_release a s in
        lift (Process_Lock s) (fun s =>
        res_bind (Process_SleepOn a s) (fun _ s =>
        let s := Process_Unlock s in
        lift (access_acquire a s) (sleep_loop t a)))
    end
  else Ret () s.

Definition SleepLock_Acquire (turns : nat) (a : Z) (s : Kernel) : Res () :=
  match cur s with
  | None => Ret () s
  | Some _ =>
      lift (access_acquire a s) (fun s =>
      res_bind (sleep_loop turns a s) (fun _ s =>
      let s := set_locked a true s in
      Ret () (access_release a s)))
  end.

Definition SleepLock_Release (a : Z) (s : Kernel) : option Kernel :=
  s ← access_acquire a s;
  let s := set_locked a false s in
  s ← Process_Lock s;
  let s := Scheduler_RaiseAlarm a s in
  let s := Process_Unlock s in
  Some (access_release a s).

End Kernel.

Arguments Ret {S A}. Arguments Yield {S A}. Arguments Spin {S A}.
Arguments Kernel : clear implicits.
