(* ===== verification/ProcessSpec.v ===== *)
(** * Processes, scheduling and sleeping: what the operations do *)

From S2P Require Import Prelude CMem Sync Timer Setup PhysMem PhysInv PhysAcquire PageAlloc Paging Process.

(** ** The process table *)

Lemma fold_alter_lookup {A} (f : A -> A) n k (l : list A) i :
  fold_left (fun l i => alter f i l) (seq k n) l !! i =
    if decide (k <= i < k + n)%nat then f <$> l !! i else l !! i.
Proof.
  revert k l. induction n as [|n IH]; intros k l; cbn [seq fold_left].
  - case_decide; [lia|done].
  - rewrite IH. destruct (decide (i = k)) as [->|].
    + rewrite list_lookup_alter_eq. repeat case_decide; done || lia.
    + rewrite list_lookup_alter_ne by done. repeat case_decide; done || lia.
Qed.

Lemma fold_alter_length {A} (f : A -> A) xs (l : list A) :
  length (fold_left (fun l i => alter f i l) xs l) = length l.
Proof. revert l. induction xs as [|x xs IH]; intros l; cbn [fold_left]; [done|]. by rewrite IH, length_alter. Qed.

Section Spec.
Context {S : Type} {PA : PageAllocator S}.
Implicit Types s : Kernel S.

Definition table_ok (s : Kernel S) : Prop := length (Scheduler_processes s) = KERNEL_MAX_PROCS.
Definition lock_free (s : Kernel S) : Prop := flag (Process_lock s) = false /\ vetos_u32 (thread s).
(** The lock is free again and the preemption counter is what it was. *)
Definition lock_back (s s' : Kernel S) : Prop :=
  flag (Process_lock s') = false /\ preemption_vetos (thread s') = preemption_vetos (thread s).

Lemma proc_upd s i f j :
  table_ok s -> (i < KERNEL_MAX_PROCS)%nat ->
  proc (upd_proc i f s) j = if decide (j = i) then f (proc s j) else proc s j.
Proof.
  intros Hl Hi. unfold proc, upd_proc. cbn [set_procs Scheduler_processes]. case_decide as E.
  - subst j. rewrite list_lookup_alter_eq.
    destruct (Scheduler_processes s !! i) eqn:El; [done|].
    apply lookup_ge_None in El. unfold table_ok in Hl. lia.
  - by rewrite list_lookup_alter_ne.
Qed.

Lemma table_upd s i f : table_ok s -> table_ok (upd_proc i f s).
Proof. unfold table_ok. cbn. by rewrite length_alter. Qed.

Lemma Process_Lock_free s :
  flag (Process_lock s) = false ->
  Process_Lock s = Some (set_process_lock (STATE_INCREMENT_PREEMPTION_VETO (thread s), mkSpinLock true) s).
Proof. intros Hf. unfold Process_Lock. destruct (Process_lock s) as [f]. cbn in Hf. by subst. Qed.

(** Whatever is done in between without the lock, unlocking gives it back. *)
Lemma Process_Unlock_back s s1 s2 :
  vetos_u32 (thread s) -> Process_Lock s = Some s1 -> thread s2 = thread s1 ->
  lock_back s (Process_Unlock s2).
Proof.
  intros Hv Hl Ht. unfold Process_Lock in Hl. destruct (Process_lock s) as [[]]; [done|].
  injection Hl as <-. cbn in Ht. split; [done|]. cbn. rewrite Ht. cbn.
  by apply veto_inc_dec.
Qed.

(** ** Booking *)

Lemma book_scan_spec n i s :
  match book_scan n i s with
  | Some j => (i <= j < i + n)%nat /\ status (proc s j) = PROCESS_IDLE /\
              forall k, (i <= k < j)%nat -> status (proc s k) <> PROCESS_IDLE
  | None => forall k, (i <= k < i + n)%nat -> status (proc s k) <> PROCESS_IDLE
  end.
Proof.
  revert i. induction n as [|n IH]; intros i; cbn [book_scan]; [lia|].
  case_decide as E; [split; [lia|]; split; [done|lia]|].
  specialize (IH (i + 1)%nat). destruct (book_scan n (i + 1) s) as [j|].
  - destruct IH as (H1 & H2 & H3). split; [lia|]. split; [done|]. intros k Hk.
    destruct (decide (k = i)) as [->|]; [done|]. apply H3. lia.
  - intros k Hk. destruct (decide (k = i)) as [->|]; [done|]. apply IH. lia.
Qed.

(** Booking a process: the first idle entry of the table is booked and
    gets the next process number, the number is consumed, no other entry
    changes and the lock is released; with no idle entry the call does not
    return. *)
Theorem Scheduler_Book_correct s :
  table_ok s -> lock_free s ->
  match Scheduler_Book s with
  | Some (i, s') =>
      (i < KERNEL_MAX_PROCS)%nat /\ status (proc s i) = PROCESS_IDLE /\
      (forall j, (j < i)%nat -> status (proc s j) <> PROCESS_IDLE) /\
      proc s' i = set_id (Process_next_pid s) (set_status PROCESS_BOOKED (proc s i)) /\
      (forall j, j <> i -> proc s' j = proc s j) /\
      Process_next_pid s' = Process_next_pid s ⊕ 1 /\ table_ok s' /\ lock_back s s'
  | None => forall j, (j < KERNEL_MAX_PROCS)%nat -> status (proc s j) <> PROCESS_IDLE
  end.
Proof.
  intros Ht [Hf Hv]. unfold Scheduler_Book. rewrite Process_Lock_free by done.
  cbn [mbind option_bind]. set (s1 := set_process_lock _ s).
  assert (table_ok s1) as Ht1 by done.
  pose proof (book_scan_spec KERNEL_MAX_PROCS 0 s1) as Hscan.
  destruct (book_scan KERNEL_MAX_PROCS 0 s1) as [i|].
  - destruct Hscan as (Hi & Hidle & Hfirst).
    set (s2 := upd_proc i (set_id _) (upd_proc i _ s1)).
    assert (forall j, proc s2 j =
      if decide (j = i) then set_id (Process_next_pid s) (set_status PROCESS_BOOKED (proc s j)) else proc s j) as Hp.
    { intros j. unfold s2. rewrite proc_upd, proc_upd by (try apply table_upd; done || lia).
      by case_decide. }
    split; [lia|]. split; [done|]. split; [intros j Hj; apply Hfirst; lia|].
    split; [|split; [|split; [done|split]]].
    + change (proc (Process_Unlock _) i) with (proc s2 i). by rewrite Hp, decide_True.
    + intros j Hj. change (proc (Process_Unlock _) j) with (proc s2 j). by rewrite Hp, decide_False.
    + unfold table_ok. cbn. by rewrite !length_alter.
    + apply (Process_Unlock_back s s1); [done|by apply Process_Lock_free|done].
  - intros j Hj. apply Hscan. lia.
Qed.

(** ** Waking *)

Lemma proc_RaiseAlarm s alarm i :
  table_ok s -> proc (Scheduler_RaiseAlarm alarm s) i =
    if decide (i < KERNEL_MAX_PROCS)%nat then wake alarm (proc s i) else proc s i.
Proof.
  intros Ht. unfold proc, Scheduler_RaiseAlarm. cbn [set_procs Scheduler_processes].
  rewrite fold_alter_lookup. unfold table_ok in Ht.
  destruct (Scheduler_processes s !! i) as [p|] eqn:E.
  - repeat case_decide; done || lia.
  - apply lookup_ge_None in E. repeat case_decide; done || lia.
Qed.

Definition sleeps_on (alarm : Z) (p : Process) : Prop :=
  status p = PROCESS_ASLEEP /\ wakeup_on p = alarm.

Lemma wake_cases alarm p :
  (sleeps_on alarm p /\ wake alarm p = set_wakeup_on 0 (set_status PROCESS_RUNNABLE p)) \/
  (~ sleeps_on alarm p /\ wake alarm p = p).
Proof.
  unfold wake, sleeps_on. case_decide; [|right; tauto].
  case_cmp; [left|right]; tauto.
Qed.

Lemma table_RaiseAlarm s alarm : table_ok s -> table_ok (Scheduler_RaiseAlarm alarm s).
Proof.
  unfold table_ok. cbn [Scheduler_RaiseAlarm set_procs Scheduler_processes].
  by rewrite fold_alter_length.
Qed.

(** Raising an alarm makes every process that sleeps on it runnable and
    clears what it waited for, and changes no other process: afterwards
    nobody sleeps on it. *)
Theorem Scheduler_RaiseAlarm_correct s alarm i :
  table_ok s -> (i < KERNEL_MAX_PROCS)%nat ->
  let p := proc s i in let p' := proc (Scheduler_RaiseAlarm alarm s) i in
  (sleeps_on alarm p -> p' = set_wakeup_on PROCESS_ALARM_OFF (set_status PROCESS_RUNNABLE p)) /\
  (~ sleeps_on alarm p -> p' = p) /\ ~ sleeps_on alarm p'.
Proof.
  intros Ht Hi. cbn zeta. rewrite proc_RaiseAlarm, decide_True by done.
  destruct (wake_cases alarm (proc s i)) as [[H ->]|[H ->]]; (split; [tauto|]; split; [tauto|]).
  - by intros [? _].
  - done.
Qed.

(** ** The scheduler's turns *)

(** The loop of [Schedule] up to the next switch, at most [n] entries. *)
Fixpoint run_turns (n iproc : nat) (s : Kernel S) : option (nat * Kernel S) :=
  match n with
  | O => None
  | Datatypes.S n' =>
      '(chosen, s) ← schedule_turn iproc s;
      if (chosen : bool) then Some (iproc, s) else run_turns n' (next_iproc iproc) s
  end.

(** The entry [k] turns after [i]. *)
Definition turn (i k : nat) : nat := Nat.iter k next_iproc i.

Lemma turn_lt i k : (i < KERNEL_MAX_PROCS)%nat -> (turn i k < KERNEL_MAX_PROCS)%nat.
Proof.
  intros Hi. induction k as [|k IH]; [done|].
  change (turn i (Datatypes.S k)) with (next_iproc (turn i k)). unfold next_iproc.
  destruct (Nat.eqb_spec (turn i k) (KERNEL_MAX_PROCS - 1)); unfold KERNEL_MAX_PROCS in *; lia.
Qed.

Lemma turn_mod i k : (i < KERNEL_MAX_PROCS)%nat -> turn i k = ((i + k) mod KERNEL_MAX_PROCS)%nat.
Proof.
  intros Hi. induction k as [|k IH].
  - rewrite Nat.add_0_r. change (turn i 0) with i. by rewrite Nat.mod_small.
  - change (turn i (Datatypes.S k)) with (next_iproc (turn i k)). rewrite IH. unfold next_iproc, KERNEL_MAX_PROCS in *.
    pose proof (Nat.div_mod_eq (i + k) 64). pose proof (Nat.mod_upper_bound (i + k) 64 ltac:(lia)).
    pose proof (Nat.div_mod_eq (i + Datatypes.S k) 64).
    pose proof (Nat.mod_upper_bound (i + Datatypes.S k) 64 ltac:(lia)).
    destruct (Nat.eqb_spec ((i + k) mod 64) (64 - 1)); lia.
Qed.

(** Every entry comes up within one round. *)
Lemma turn_all i j :
  (i < KERNEL_MAX_PROCS)%nat -> (j < KERNEL_MAX_PROCS)%nat ->
  exists k, (k < KERNEL_MAX_PROCS)%nat /\ turn i k = j.
Proof.
  intros Hi Hj. unfold KERNEL_MAX_PROCS in *.
  exists ((j + 64 - i) mod 64)%nat. pose proof (Nat.mod_upper_bound (j + 64 - i) 64 ltac:(lia)).
  split; [done|]. rewrite turn_mod by done. unfold KERNEL_MAX_PROCS.
  rewrite Nat.Div0.add_mod_idemp_r. replace (i + (j + 64 - i))%nat with (j + 1 * 64)%nat by lia.
  rewrite Nat.Div0.mod_add. by apply Nat.mod_small.
Qed.

Lemma schedule_turn_idle i s :
  lock_free s -> status (proc s i) <> PROCESS_RUNNABLE ->
  exists s', schedule_turn i s = Some (false, s') /\ lock_free s' /\
    Scheduler_processes s' = Scheduler_processes s /\ kernel_task s' = kernel_task s /\ pages s' = pages s.
Proof.
  intros [Hf Hv] Hn. unfold schedule_turn. rewrite Process_Lock_free by done. cbn [mbind option_bind].
  rewrite decide_False by done. eexists. split; [done|]. split; [|done].
  split; [done|]. unfold vetos_u32 in *. cbn. by rewrite veto_inc_dec.
Qed.

Lemma schedule_turn_runnable i s c :
  table_ok s -> (i < KERNEL_MAX_PROCS)%nat -> lock_free s -> status (proc s i) = PROCESS_RUNNABLE ->
  timer (kernel_task s) = idle c ->
  exists s', schedule_turn i s = Some (true, s') /\ flag (Process_lock s') = true /\
    proc s' i = set_start_time (wrap64 c) (set_status PROCESS_RUNNING (proc s i)) /\
    (forall j, j <> i -> proc s' j = proc s j) /\
    esp0 (kernel_task s') = STATE_FROM_PROC (proc s i).
Proof.
  intros Ht Hi [Hf Hv] Hr Htm. unfold schedule_turn. rewrite Process_Lock_free by done.
  cbn [mbind option_bind]. rewrite decide_True by done.
  set (s1 := upd_proc i _ _). assert (table_ok s1) as Ht1 by by apply table_upd.
  assert (forall j, proc s1 j = if decide (j = i) then set_status PROCESS_RUNNING (proc s j) else proc s j) as Hp1.
  { intros j. unfold s1. by rewrite proc_upd. }
  unfold Context_SetupProcess. cbn [kernel_task set_kernel_task timer].
  change (timer (kernel_task s1)) with (timer (kernel_task s)). rewrite Htm, Timer_Read_idle.
  cbn [mbind option_bind]. eexists. split; [done|]. split; [done|].
  split; [|split].
  - rewrite proc_upd by done. rewrite decide_True by done. f_equal.
    change (proc (set_kernel_task _ _) i) with (proc s1 i). by rewrite Hp1, decide_True.
  - intros j Hj. rewrite proc_upd by done. rewrite decide_False by done.
    change (proc (set_kernel_task _ _) j) with (proc s1 j). by rewrite Hp1, decide_False.
  - cbn. change (base (kernel_stack (proc s1 i))) with (base (kernel_stack (proc s1 i))).
    rewrite Hp1, decide_True by done. done.
Qed.

Lemma run_turns_spec n i0 k0 s c :
  table_ok s -> lock_free s -> timer (kernel_task s) = idle c ->
  (i0 < KERNEL_MAX_PROCS)%nat -> (k0 < n)%nat -> status (proc s (turn i0 k0)) = PROCESS_RUNNABLE ->
  exists k s', (k < n)%nat /\ let j := turn i0 k in
    run_turns n i0 s = Some (j, s') /\
    status (proc s j) = PROCESS_RUNNABLE /\
    (forall k', (k' < k)%nat -> status (proc s (turn i0 k')) <> PROCESS_RUNNABLE) /\
    proc s' j = set_start_time (wrap64 c) (set_status PROCESS_RUNNING (proc s j)) /\
    (forall x, x <> j -> proc s' x = proc s x) /\
    esp0 (kernel_task s') = STATE_FROM_PROC (proc s j) /\ flag (Process_lock s') = true.
Proof.
  revert i0 k0 s. induction n as [|n IH]; intros i0 k0 s Ht Hl Htm Hi0 Hk0 Hrun; [lia|].
  cbn [run_turns]. destruct (decide (status (proc s i0) = PROCESS_RUNNABLE)) as [E|E].
  - destruct (schedule_turn_runnable i0 s c Ht Hi0 Hl E Htm) as (s' & -> & Hs').
    exists 0%nat, s'. split; [lia|]. cbn. split; [done|]. split; [done|]. split; [lia|]. tauto.
  - destruct (schedule_turn_idle i0 s Hl E) as (s1 & -> & Hl1 & Hps & Hkt & Hpg). cbn [mbind option_bind].
    assert (forall j, proc s1 j = proc s j) as Hp by (intros j; unfold proc; by rewrite Hps).
    destruct k0 as [|k0]; [by cbn in Hrun|].
    assert (forall k, turn i0 (Datatypes.S k) = turn (next_iproc i0) k) as Hturn.
    { intros k. unfold turn. by rewrite Nat.iter_succ_r. }
    destruct (IH (next_iproc i0) k0 s1) as (k & s' & Hk & Hrest).
    + unfold table_ok. by rewrite Hps.
    + done.
    + by rewrite Hkt.
    + apply (turn_lt i0 1 Hi0).
    + lia.
    + by rewrite Hp, <- Hturn.
    + exists (Datatypes.S k), s'. split; [lia|]. cbn zeta in *. rewrite Hturn.
      destruct Hrest as (H1 & H2 & H3 & H4 & H5 & H6 & H7). rewrite Hp in H2, H4, H6.
      split; [done|]. split; [done|]. split.
      { intros [|k'] Hk'; [done|]. rewrite Hturn, <- Hp. apply H3. lia. }
      split; [done|]. split; [|done]. intros x Hx. rewrite <- Hp. by apply H5.
Qed.

(** C19. The scheduler's search: whenever some process is runnable, the loop
    switches to one within one round over the table, starting at any entry.
    It is the first runnable one in round-robin order, it is marked running
    with its start time set, the stack pointer for interrupts is its own, no
    other process changes, and the process lock is held across the switch. *)
Theorem Schedule_finds_runnable s i0 r c :
  table_ok s -> lock_free s -> timer (kernel_task s) = idle c ->
  (i0 < KERNEL_MAX_PROCS)%nat -> (r < KERNEL_MAX_PROCS)%nat -> status (proc s r) = PROCESS_RUNNABLE ->
  exists k s', (k < KERNEL_MAX_PROCS)%nat /\ let j := turn i0 k in
    run_turns KERNEL_MAX_PROCS i0 s = Some (j, s') /\
    status (proc s j) = PROCESS_RUNNABLE /\
    (forall k', (k' < k)%nat -> status (proc s (turn i0 k')) <> PROCESS_RUNNABLE) /\
    proc s' j = set_start_time (wrap64 c) (set_status PROCESS_RUNNING (proc s j)) /\
    (forall x, x <> j -> proc s' x = proc s x) /\
    esp0 (kernel_task s') = STATE_FROM_PROC (proc s j) /\ flag (Process_lock s') = true.
Proof.
  intros Ht Hl Htm Hi0 Hr Hrun. destruct (turn_all i0 r Hi0 Hr) as (k0 & Hk0 & <-).
  by apply (run_turns_spec KERNEL_MAX_PROCS i0 k0 s c).
Qed.

(** ** Sleeping locks *)

Definition access_free (a : Z) (s : Kernel S) : Prop := flag (access_lock (sleeplock s a)) = false.

Lemma access_acquire_free a s :
  access_free a s -> access_acquire a s =
    Some (set_sleeplock a (mkSleepLock (mkSpinLock true) (locked (sleeplock s a)))
                        (STATE_INCREMENT_PREEMPTION_VETO (thread s)) s).
Proof.
  unfold access_free, access_acquire. destruct (sleeplock s a) as [[f] l]. cbn. by intros ->.
Qed.

Lemma sleeplock_set a l t s : sleeplock (set_sleeplock a l t s) a = l.
Proof. unfold sleeplock. cbn. by rewrite lookup_insert_eq. Qed.

Lemma vetos_nested n : 0 <= n < 4294967296 -> wrap32 (wrap32 (wrap32 (n ⊕ 1 + 1) - 1) - 1) = n.
Proof. intros. zdiv. Qed.

Lemma SleepLock_Release_run a s :
  table_ok s -> flag (Process_lock s) = false -> access_free a s ->
  vetos_u32 (thread s) ->
  exists s', SleepLock_Release a s = Some s' /\ sleeplock s' a = mkSleepLock (mkSpinLock false) false /\
    Scheduler_processes s' = Scheduler_processes (Scheduler_RaiseAlarm a s) /\
    flag (Process_lock s') = false /\ preemption_vetos (thread s') = preemption_vetos (thread s) /\
    cur s' = cur s /\ kernel_task s' = kernel_task s /\ Process_next_pid s' = Process_next_pid s /\
    (forall b, b <> a -> sleeplock s' b = sleeplock s b).
Proof.
  intros Ht Hf Ha Hv. unfold SleepLock_Release. rewrite access_acquire_free by done.
  cbn [mbind option_bind]. rewrite Process_Lock_free by done. cbn [mbind option_bind].
  eexists. split; [done|]. unfold access_release.
  set (s2 := Process_Unlock _). unfold SpinLock_Release. rewrite sleeplock_set.
  split; [|split; [done|split; [done|split; [|split; [done|split; [done|split; [done|]]]]]]].
  - f_equal. unfold s2, sleeplock. cbn. by rewrite !lookup_insert_eq.
  - cbn. by apply vetos_nested.
  - intros b Hb. unfold s2, sleeplock. cbn. by rewrite !lookup_insert_ne.
Qed.

(** Releasing a sleeping lock: the lock is open, every process that slept
    on it is runnable, no other process changed, and both spin locks are free
    again. *)
Theorem SleepLock_Release_correct a s :
  table_ok s -> flag (Process_lock s) = false -> access_free a s ->
  vetos_u32 (thread s) ->
  exists s', SleepLock_Release a s = Some s' /\ locked (sleeplock s' a) = false /\ access_free a s' /\
    (forall i, (i < KERNEL_MAX_PROCS)%nat ->
       (sleeps_on a (proc s i) -> status (proc s' i) = PROCESS_RUNNABLE) /\
       (~ sleeps_on a (proc s i) -> proc s' i = proc s i)) /\ lock_back s s'.
Proof.
  intros Ht Hf Ha Hv. destruct (SleepLock_Release_run a s Ht Hf Ha Hv) as (s' & E & Hl & Hps & Hpl & Hvt & _).
  exists s'. split; [done|]. unfold access_free. rewrite Hl. split; [done|]. split; [done|]. split; [|done].
  intros i Hi. assert (proc s' i = proc (Scheduler_RaiseAlarm a s) i) as -> by (unfold proc; by rewrite Hps).
  rewrite proc_RaiseAlarm, decide_True by done.
  destruct (wake_cases a (proc s i)) as [[H ->]|[H ->]]; tauto.
Qed.


(** ** Preemption *)

(** Preemption takes a process off the processor only if preemption is
    not vetoed, the process runs, and the clock is past the end of its slice;
    then it yields as runnable, holding the process lock. In every other case
    the call returns with the processes as they were and the lock free. *)
Theorem Process_Preempt_correct s i c :
  table_ok s -> lock_free s -> cur s = Some i -> (i < KERNEL_MAX_PROCS)%nat ->
  timer (kernel_task s) = idle c ->
  let expired := preemption_vetos (thread s) = 0 /\ status (proc s i) = PROCESS_RUNNING /\
                 wrap64 (start_time (proc s i) + run_time (proc s i)) < wrap64 c in
  (expired -> exists s' k, Process_Preempt s = Yield s' k /\ flag (Process_lock s') = true /\
     proc s' i = set_status PROCESS_RUNNABLE (proc s i) /\
     forall j, j <> i -> proc s' j = proc s j) /\
  (~ expired -> exists s', Process_Preempt s = Ret () s' /\ lock_back s s' /\
     Scheduler_processes s' = Scheduler_processes s).
Proof.
  intros Ht [Hf Hv] Hcur Hi Htm. cbn zeta. unfold Process_Preempt, STATE_PREEMPTIBLE.
  rewrite Hcur, Process_Lock_free by done. cbn [lift]. set (s1 := set_process_lock _ s).
  assert (table_ok s1) as Ht1 by done. unfold Scheduler_Preempt.
  change (proc s1 i) with (proc s i). change (timer (kernel_task s1)) with (timer (kernel_task s)).
  rewrite Htm, Timer_Read_idle. cbn [mbind option_bind].
  assert (lock_back s (Process_Unlock s1)) as Hback
    by (apply (Process_Unlock_back s s1); [done|by apply Process_Lock_free|done]).
  destruct (Z.eqb_spec (preemption_vetos (thread s)) 0) as [Ev|Ev]; cbn [negb]; cycle 1.
  { split; [intros (? & _); done|]. intros _. by exists s. }
  case_decide as Es; cycle 1.
  { split; [intros (_ & ? & _); done|]. intros _. cbn [lift]. by eexists. }
  cbn [lift]. destruct (Z.ltb_spec (wrap64 (start_time (proc s i) + run_time (proc s i))) (wrap64 c)) as [El|El].
  - split; [|tauto]. intros _. do 2 eexists. split; [done|]. split; [done|]. split.
    + rewrite proc_upd by done. by rewrite decide_True.
    + intros j Hj. rewrite proc_upd by done. by rewrite decide_False.
  - split; [lia|]. intros _. by eexists.
Qed.

(** ** Waiting for children *)

(** Waiting without children returns -1; waiting when the first child on
    the list is dead returns its process number, makes its table entry
    reusable, takes it off the list and changes no other process. The lock is
    released in both cases. *)
Theorem Process_Wait_first_child s i turns :
  table_ok s -> lock_free s -> cur s = Some i -> (i < KERNEL_MAX_PROCS)%nat ->
  (num_children (proc s i) = 0 ->
     exists s', Process_Wait (Datatypes.S turns) s = Ret (wrap32 (-1)) s' /\ lock_back s s' /\
       Scheduler_processes s' = Scheduler_processes s) /\
  (forall kid, num_children (proc s i) <> 0 -> child (proc s i) = Some kid -> kid <> i ->
     (kid < KERNEL_MAX_PROCS)%nat -> status (proc s kid) = PROCESS_DEAD ->
     exists s', Process_Wait (Datatypes.S turns) s = Ret (id (proc s kid)) s' /\ lock_back s s' /\
       proc s' kid = set_status PROCESS_IDLE (proc s kid) /\
       proc s' i = set_child (sibling (proc s kid))
                     (set_num_children (num_children (proc s i) ⊖ 1) (proc s i)) /\
       forall j, j <> kid -> j <> i -> proc s' j = proc s j).
Proof.
  intros Ht [Hf Hv] Hcur Hi. unfold Process_Wait. rewrite Process_Lock_free by done. cbn [lift].
  set (s1 := set_process_lock _ s). assert (table_ok s1) as Ht1 by done.
  change (cur s1) with (cur s). rewrite Hcur. cbn [wait_loop]. change (proc s1 i) with (proc s i).
  split.
  - intros ->. rewrite Z.eqb_refl. cbn [res_bind]. eexists. split; [done|]. split; [|done].
    apply (Process_Unlock_back s s1); [done|by apply Process_Lock_free|done].
  - intros kid Hn Hkid Hne Hk Hd. rewrite (proj2 (Z.eqb_neq _ 0)) by done. rewrite Hkid.
    change (proc s1 kid) with (proc s kid). rewrite decide_True by done. cbn [res_bind].
    set (s2 := upd_proc kid _ s1). set (s3 := upd_proc i _ s2). set (s4 := upd_proc i _ s3).
    assert (table_ok s2 /\ table_ok s3) as [Ht2 Ht3] by (split; repeat apply table_upd; done).
    assert (forall j, proc s3 j = if decide (j = i)
        then set_num_children (num_children (proc s j) ⊖ 1) (proc s j)
        else if decide (j = kid) then set_status PROCESS_IDLE (proc s j) else proc s j) as Hp3.
    { intros j. unfold s3. rewrite proc_upd by done. unfold s2. rewrite proc_upd by done.
      repeat case_decide; congruence || done. }
    assert (forall j, proc s4 j = if decide (j = i)
        then set_child (sibling (proc s kid)) (set_num_children (num_children (proc s j) ⊖ 1) (proc s j))
        else if decide (j = kid) then set_status PROCESS_IDLE (proc s j) else proc s j) as Hp4.
    { intros j. unfold s4. rewrite proc_upd, !Hp3 by done.
      rewrite (decide_False (P := kid = i)), (decide_True (P := kid = kid)) by done.
      by case_decide. }
    eexists. split; [done|]. split; [|split; [|split]].
    + apply (Process_Unlock_back s s1); [done|by apply Process_Lock_free|done].
    + change (proc (Process_Unlock s4) kid) with (proc s4 kid).
      by rewrite Hp4, decide_False, decide_True.
    + change (proc (Process_Unlock s4) i) with (proc s4 i). by rewrite Hp4, decide_True.
    + intros j Hjk Hji. change (proc (Process_Unlock s4) j) with (proc s4 j).
      by rewrite Hp4, !decide_False.
Qed.

End Spec.

(** ** Concrete kernels *)

Definition demo_kernel (ps : list Process) : Kernel PhysState :=
  mkKernel (ps ++ replicate (KERNEL_MAX_PROCS - length ps) process_zero) (mkSpinLock false) None 1
           ∅ (mkThread true 0 0) (Some 0%nat) (mkKProc 0x80500000 0 (idle 7)) (phys_one 8 0x400000).

Definition demo_process (st : Process_Status) (pid : Z) : Process := set_id pid (set_status st process_zero).

Ltac demo := first [done | by vm_compute | lia | unfold KERNEL_MAX_PROCS; lia].

Lemma Scheduler_Book_correct_witness :
  let s := demo_kernel [demo_process PROCESS_RUNNING 5] in
  exists s', Scheduler_Book s = Some (1%nat, s') /\ id (proc s' 1) = 1.
Proof.
  cbn zeta. set (s := demo_kernel _).
  assert (table_ok s) as H1 by done. assert (lock_free s) as H2 by (split; [done|by vm_compute]).
  pose proof (Scheduler_Book_correct s H1 H2) as H.
  destruct (Scheduler_Book s) as [[i s']|] eqn:E.
  - destruct H as (Hi & Hidle & Hfirst & Hp & _).
    assert (i = 1%nat) as ->.
    { destruct i as [|[|i]]; [by vm_compute in Hidle|done|]. exfalso. apply (Hfirst 1%nat); [lia|done]. }
    exists s'. split; [done|]. by rewrite Hp.
  - exfalso. by apply (H 1%nat); demo.
Defined.

Lemma Scheduler_RaiseAlarm_correct_witness :
  let s := demo_kernel [set_wakeup_on 9 (demo_process PROCESS_ASLEEP 5)] in
  status (proc (Scheduler_RaiseAlarm 9 s) 0) = PROCESS_RUNNABLE.
Proof.
  cbn zeta. set (s := demo_kernel _).
  destruct (Scheduler_RaiseAlarm_correct s 9 0 ltac:(done) ltac:(unfold KERNEL_MAX_PROCS; lia)) as [H _].
  rewrite H; [done|by split].
Defined.

Lemma Schedule_finds_runnable_witness :
  let s := demo_kernel [demo_process PROCESS_RUNNABLE 5] in
  exists k s', run_turns KERNEL_MAX_PROCS 3 s = Some (turn 3 k, s') /\
    status (proc s (turn 3 k)) = PROCESS_RUNNABLE.
Proof.
  cbn zeta. set (s := demo_kernel _).
  destruct (Schedule_finds_runnable s 3 0 7) as (k & s' & _ & H1 & H2 & _).
  - done.
  - by split.
  - done.
  - unfold KERNEL_MAX_PROCS. lia.
  - unfold KERNEL_MAX_PROCS. lia.
  - done.
  - exists k, s'. split; [exact H1|exact H2].
Defined.

Lemma SleepLock_Release_correct_witness :
  let s := demo_kernel [set_wakeup_on 9 (demo_process PROCESS_ASLEEP 5)] in
  exists s', SleepLock_Release 9 s = Some s' /\ status (proc s' 0) = PROCESS_RUNNABLE.
Proof.
  cbn zeta. set (s := demo_kernel _).
  destruct (SleepLock_Release_correct 9 s) as (s' & E & _ & _ & H & _).
  - done.
  - done.
  - done.
  - done.
  - exists s'. split; [exact E|]. apply (H 0%nat); [unfold KERNEL_MAX_PROCS; lia|]. by split.
Defined.


Lemma Process_Preempt_correct_witness :
  let s := demo_kernel [set_run_time 3 (demo_process PROCESS_RUNNING 5)] in
  exists s' k, Process_Preempt s = Yield s' k /\ status (proc s' 0) = PROCESS_RUNNABLE.
Proof.
  cbn zeta. set (s := demo_kernel _).
  destruct (Process_Preempt_correct s 0 7) as [H _].
  - done.
  - by split.
  - done.
  - unfold KERNEL_MAX_PROCS. lia.
  - done.
  - destruct H as (s' & k & E & _ & Hp & _).
    + split; [done|]. split; [done|]. by vm_compute.
    + exists s', k. split; [exact E|]. by rewrite Hp.
Defined.

Lemma Process_Wait_first_child_witness :
  let s := demo_kernel [set_num_children 1 (set_child (Some 1%nat) (demo_process PROCESS_RUNNING 5));
                        demo_process PROCESS_DEAD 6] in
  exists s', Process_Wait 1 s = Ret 6 s' /\ status (proc s' 1) = PROCESS_IDLE.
Proof.
  cbn zeta. set (s := demo_kernel _).
  destruct (Process_Wait_first_child s 0 0) as [_ H].
  - done.
  - by split.
  - done.
  - unfold KERNEL_MAX_PROCS. lia.
  - destruct (H 1%nat) as (s' & E & _ & Hp & _).
    + done.
    + done.
    + done.
    + unfold KERNEL_MAX_PROCS. lia.
    + done.
    + exists s'. split; [exact E|]. by rewrite Hp.
Defined.

(** A dead child that is not the first on the list is reaped but not
    reported: the inner loop leaves by [break], which does not leave the outer
    one, so the parent goes to sleep with the child's entry already idle and
    its number only in [retval]. When it runs again and the other child is
    dead, that one is reported; a second call finds no children and returns
    -1. The number of the first child reaped is never returned. *)
Theorem Process_Wait_loses_pid :
  let s := demo_kernel [set_num_children 2 (set_child (Some 1%nat) (demo_process PROCESS_RUNNING 5));
                        set_sibling (Some 2%nat) (demo_process PROCESS_RUNNABLE 6);
                        demo_process PROCESS_DEAD 7] in
  match Process_Wait 2 s with
  | Yield s1 k =>
      status (proc s1 0) = PROCESS_ASLEEP /\ status (proc s1 2) = PROCESS_IDLE /\
      num_children (proc s1 0) = 1 /\
      match k (upd_proc 1 (set_status PROCESS_DEAD) s1) with
      | Ret pid s2 => pid = 6 /\
          match Process_Wait 2 s2 with Ret pid' _ => pid' = wrap32 (-1) | _ => False end
      | _ => False
      end
  | _ => False
  end.
Proof. by vm_compute. Qed.

(** A fork that succeeds links the new process in front of the parent's
    children, gives it the parent's end point and a zero in [eax], makes it
    runnable, and returns to the parent the parent's own number, not the
    child's. *)
Theorem Process_Fork_returns_own_id :
  ('(ok, s) ← Process_Initialize 0x80002000 0x80009000 0x8000a000 (fun i => 0x80600000 + 128 * Z.of_nat i) 0
                (demo_kernel [set_endpoint 0x5000 (demo_process PROCESS_RUNNING 41)]);
   let s := set_pages (set_mem (fun m => store32 m (intr_context (proc s 0) + 28) 99) (pages s)) s in
   '(ret, s) ← Process_Fork 0x80002000 0x80009000 0x8000a000 (fun i => 0x80600000 + 128 * Z.of_nat i) s;
   Some (ok, ret, id (proc s 1), status (proc s 1), child (proc s 0), num_children (proc s 0),
         endpoint (proc s 1), load32 (mem (pages s)) (intr_context (proc s 1) + 28)))
  = Some (true, 41, 1, PROCESS_RUNNABLE, Some 1%nat, 1, 0x5000, 0).
Proof. by vm_compute. Qed.
