(* ===== verification/ProcessTree.v ===== *)
(** * The process table stays a forest

    The members [parent], [child], [sibling], [num_children] and [id] of the
    table's entries describe a forest: every live process has a list of
    children that its [child] and their [sibling] pointers spell out. Every
    operation of [process.c], [scheduler.c] and [sleeplock.c] keeps it, and
    the operations that switch to the scheduler follow a protocol about the
    process lock. *)

From S2P Require Import Prelude CMem Sync Timer Setup PhysMem PhysInv PageAlloc Paging Process ProcessSpec.

(** ** The invariant *)

Definition live (st : Process_Status) : Prop := st <> PROCESS_IDLE /\ st <> PROCESS_BOOKED.
#[export] Instance live_dec st : Decision (live st).
Proof. unfold live. solve_decision. Defined.

(** What ties a process to the others. *)
Definition kin (p : Process) := (id p, parent p, child p, sibling p, num_children p).

(** [kids] with the list of one process replaced. *)
Definition with_kids (i : nat) (l : list nat) (kids : nat -> list nat) : nat -> list nat :=
  fun j => if decide (j = i) then l else kids j.

Lemma with_kids_eq i l kids : with_kids i l kids i = l.
Proof. unfold with_kids. by rewrite decide_True. Qed.
Lemma with_kids_ne i l kids j : j <> i -> with_kids i l kids j = kids j.
Proof. intros. unfold with_kids. by rewrite decide_False. Qed.

Section Tree.
Context {S : Type} {PA : PageAllocator S}.
Implicit Types (s : Kernel S) (kids : nat -> list nat).

(** The pointers from [p] on spell the list. *)
Fixpoint chain s (p : option nat) (l : list nat) : Prop :=
  match l with
  | [] => p = None
  | k :: l' => p = Some k /\ chain s (sibling (proc s k)) l'
  end.

(** [kids i] are the children of process [i], the youngest first. A process
    whose parent is dead has been given to another one. *)
Record tree s kids : Prop := {
  t_table : table_ok s;
  t_chain : forall i, live (status (proc s i)) ->
    chain s (child (proc s i)) (kids i) /\ num_children (proc s i) = Z.of_nat (length (kids i));
  t_none : forall i, ~ live (status (proc s i)) -> kids i = [];
  t_kid : forall i k, k ∈ kids i -> live (status (proc s k)) /\ id (proc s i) < id (proc s k) /\
    (status (proc s i) <> PROCESS_DEAD -> parent (proc s k) = Some i);
  t_nodup : forall i, NoDup (kids i);
  t_once : forall i j k, k ∈ kids i -> k ∈ kids j -> i = j;
  t_pid : forall i j, status (proc s i) <> PROCESS_IDLE -> status (proc s j) <> PROCESS_IDLE ->
    id (proc s i) = id (proc s j) -> i = j;
  t_next : forall i, status (proc s i) <> PROCESS_IDLE -> id (proc s i) < Process_next_pid s
}.

Definition tree_ok s : Prop := exists kids, tree s kids.

(** ** Lemmas on chains *)

Lemma chain_ext s s' p l :
  (forall k, k ∈ l -> sibling (proc s' k) = sibling (proc s k)) -> chain s p l -> chain s' p l.
Proof.
  revert p. induction l as [|k l IH]; intros p H; [done|]. cbn [chain]. intros [-> Hc].
  split; [done|]. rewrite H by constructor. apply IH; [|done]. intros j Hj. apply H. by constructor.
Qed.

Lemma chain_after s p l1 k l2 : chain s p (l1 ++ k :: l2) -> chain s (sibling (proc s k)) l2.
Proof. revert p. induction l1 as [|a l1 IH]; intros p; cbn [app chain]; [tauto|]. intros [_ H]. by eapply IH. Qed.

(** Taking [k] off after [a]. *)
Lemma chain_unlink s s' p l1 a k l2 :
  chain s p (l1 ++ a :: k :: l2) -> sibling (proc s' a) = sibling (proc s k) ->
  (forall j, j ∈ l1 ++ l2 -> sibling (proc s' j) = sibling (proc s j)) ->
  chain s' p (l1 ++ a :: l2).
Proof.
  intros H Ha. revert p H. induction l1 as [|b l1 IH]; intros p H Hs; cbn [app chain] in *.
  - destruct H as (-> & _ & H). split; [done|]. rewrite Ha. by eapply chain_ext.
  - destruct H as [-> H]. split; [done|]. rewrite Hs by constructor. apply IH; [done|].
    intros j Hj. apply Hs. by constructor.
Qed.

(** ** Consequences of the invariant *)

Lemma live_lt s i : table_ok s -> status (proc s i) <> PROCESS_IDLE -> (i < KERNEL_MAX_PROCS)%nat.
Proof.
  intros Ht Hl. destruct (decide (i < KERNEL_MAX_PROCS)%nat) as [|Hge]; [done|]. destruct Hl.
  unfold proc. rewrite lookup_ge_None_2; [done|]. unfold table_ok in Ht. lia.
Qed.

Lemma kid_lt s kids i k : tree s kids -> k ∈ kids i -> (k < KERNEL_MAX_PROCS)%nat.
Proof. intros T Hk. apply (live_lt s); [apply T|]. by destruct (t_kid _ _ T _ _ Hk) as [[? _] _]. Qed.

Lemma kids_length s kids i : tree s kids -> (length (kids i) <= KERNEL_MAX_PROCS)%nat.
Proof.
  intros T. rewrite <- (length_seq KERNEL_MAX_PROCS 0). apply submseteq_length, NoDup_submseteq; [apply T|].
  intros k Hk. apply elem_of_seq. pose proof (kid_lt _ _ _ _ T Hk). lia.
Qed.

Lemma kid_ne s kids i k : tree s kids -> k ∈ kids i -> k <> i.
Proof. intros T Hk ->. pose proof (t_kid _ _ T _ _ Hk). lia. Qed.

(** ** Operations that only change the status of live processes *)

(** A status changes among those of live processes, never from dead. *)
Definition moves (p p' : Process) : Prop :=
  kin p' = kin p /\
  (status p' = status p \/ live (status p) /\ live (status p') /\ status p <> PROCESS_DEAD).

(** [kin], member by member. *)
Definition same_kin (p p' : Process) : Prop :=
  id p' = id p /\ parent p' = parent p /\ child p' = child p /\ sibling p' = sibling p /\
  num_children p' = num_children p.
Lemma kin_same p p' : kin p' = kin p -> same_kin p p'.
Proof. intros E. injection E. unfold same_kin. tauto. Qed.

Lemma moves_refl p : moves p p.
Proof. split; [done|by left]. Qed.

Lemma tree_moves s s' kids :
  tree s kids -> table_ok s' -> Process_next_pid s' = Process_next_pid s ->
  (forall i, moves (proc s i) (proc s' i)) -> tree s' kids.
Proof.
  intros T Ht Hn Hm.
  assert (forall i, same_kin (proc s i) (proc s' i)) as K by (intros i; apply kin_same, Hm).
  assert (forall i, live (status (proc s' i)) <-> live (status (proc s i))) as L.
  { intros i. destruct (Hm i) as [_ [->|(? & ? & _)]]; tauto. }
  assert (forall i, status (proc s' i) <> PROCESS_DEAD -> status (proc s i) <> PROCESS_DEAD) as D.
  { intros i. destruct (Hm i) as [_ [->|(_ & _ & ?)]]; tauto. }
  assert (forall i, status (proc s' i) <> PROCESS_IDLE -> status (proc s i) <> PROCESS_IDLE) as I.
  { intros i. destruct (Hm i) as [_ [->|([? _] & _ & _)]]; tauto. }
  split.
  - done.
  - intros i Hi. apply L in Hi. destruct (t_chain _ _ T _ Hi) as [H1 H2].
    destruct (K i) as (_ & _ & -> & _ & ->). split; [|done]. eapply chain_ext; [|done]. intros k _. apply K.
  - intros i Hi. apply T. by rewrite <- L.
  - intros i k Hk. destruct (t_kid _ _ T _ _ Hk) as (H1 & H2 & H3).
    destruct (K i) as (-> & _), (K k) as (-> & -> & _). rewrite L. split; [done|]. split; [done|].
    intros Hd. by apply H3, D.
  - apply T.
  - apply T.
  - intros i j Hi Hj. destruct (K i) as (-> & _), (K j) as (-> & _). apply (t_pid _ _ T); by apply I.
  - intros i Hi. destruct (K i) as (-> & _). rewrite Hn. by apply (t_next _ _ T), I.
Qed.

(** ** Booking an entry, and giving it back *)

Lemma kid_not_idle s kids i k : tree s kids -> ~ live (status (proc s k)) -> k ∉ kids i.
Proof. intros T Hn Hk. by destruct (t_kid _ _ T _ _ Hk) as [? _]. Qed.

(** Entry [i] is not a live process before or after, and nothing else
    changes; a booked entry has a fresh number. *)
Lemma tree_offside s s' kids i :
  tree s kids -> table_ok s' -> Process_next_pid s <= Process_next_pid s' ->
  (forall j, j <> i -> proc s' j = proc s j) ->
  ~ live (status (proc s i)) -> ~ live (status (proc s' i)) ->
  (status (proc s' i) <> PROCESS_IDLE -> Process_next_pid s <= id (proc s' i) < Process_next_pid s') ->
  tree s' kids.
Proof.
  intros T Ht Hn Ho Hi Hi' Hid.
  assert (forall j k, k ∈ kids j -> proc s' k = proc s k) as HK.
  { intros j k Hk. apply Ho. intros ->. by apply (kid_not_idle _ _ j _ T Hi). }
  assert (forall j, live (status (proc s' j)) -> j <> i) as HL by (intros j Hj ->; done).
  split.
  - done.
  - intros j Hj. rewrite (Ho j) in Hj |- * by by apply HL. destruct (t_chain _ _ T j Hj) as [H1 H2].
    split; [|done]. eapply chain_ext; [|done]. intros k Hk. by rewrite (HK _ _ Hk).
  - intros j Hj. apply T. destruct (decide (j = i)) as [->|Hne]; [done|]. by rewrite <- Ho.
  - intros j k Hk. rewrite (HK _ _ Hk). destruct (decide (j = i)) as [->|Hne].
    + rewrite (t_none _ _ T _ Hi) in Hk. by apply not_elem_of_nil in Hk.
    + rewrite (Ho j) by done. by apply T.
  - apply T.
  - apply T.
  - intros j k. destruct (decide (j = i)) as [Hj|Hj], (decide (k = i)) as [Hk|Hk]; subst; [done| | |].
    + rewrite (Ho k) by done. intros H1 H2 E. specialize (Hid H1). pose proof (t_next _ _ T _ H2). lia.
    + rewrite (Ho j) by done. intros H1 H2 E. specialize (Hid H2). pose proof (t_next _ _ T _ H1). lia.
    + rewrite (Ho j), (Ho k) by done. apply T.
  - intros j Hj. destruct (decide (j = i)) as [->|Hne]; [specialize (Hid Hj); lia|].
    rewrite (Ho j) in * by done. pose proof (t_next _ _ T _ Hj). lia.
Qed.

(** ** A new child *)

Lemma elem_of_with_kids i l kids j k :
  k ∈ with_kids i l kids j <-> j = i /\ k ∈ l \/ j <> i /\ k ∈ kids j.
Proof. unfold with_kids. case_decide; intuition. Qed.

(** The members that [Process_Fork] gives the new process, and those it
    changes in the parent. *)
Definition newborn (pp : nat) (parent_proc p p' : Process) : Prop :=
  id p' = id p /\ live (status p') /\ parent p' = Some pp /\ child p' = None /\
  sibling p' = child parent_proc /\ num_children p' = 0.
Definition has_newborn (fp : nat) (p p' : Process) : Prop :=
  id p' = id p /\ status p' = status p /\ parent p' = parent p /\ child p' = Some fp /\
  sibling p' = sibling p /\ num_children p' = num_children p ⊕ 1 /\
  endpoint p' = endpoint p /\ run_time p' = run_time p.

Lemma tree_fork s s' kids pp fp :
  tree s kids -> table_ok s' -> Process_next_pid s' = Process_next_pid s ->
  status (proc s fp) = PROCESS_BOOKED -> live (status (proc s pp)) -> status (proc s pp) <> PROCESS_DEAD ->
  id (proc s pp) < id (proc s fp) -> newborn pp (proc s pp) (proc s fp) (proc s' fp) ->
  has_newborn fp (proc s pp) (proc s' pp) -> (forall j, j <> fp -> j <> pp -> proc s' j = proc s j) ->
  tree s' (with_kids pp (fp :: kids pp) kids).
Proof.
  intros T Ht Hn Hb Hl Hd Hid (F1 & F2 & F3 & F4 & F5 & F6) (P1 & P2 & P3 & P4 & P5 & P6 & _) Ho.
  assert (~ live (status (proc s fp))) as Hfl by (rewrite Hb; intros [_ ?]; done).
  assert (fp <> pp) as Hne by congruence.
  assert (forall j, fp ∉ kids j) as Hfk by (intros j; by apply (kid_not_idle s)).
  assert (forall j, id (proc s' j) = id (proc s j)) as HI.
  { intros j. destruct (decide (j = fp)) as [->|]; [done|]. destruct (decide (j = pp)) as [->|]; [done|]. by rewrite Ho. }
  assert (forall j, j <> fp -> status (proc s' j) = status (proc s j) /\ parent (proc s' j) = parent (proc s j) /\
                    sibling (proc s' j) = sibling (proc s j)) as HS.
  { intros j Hj. destruct (decide (j = pp)) as [->|]; [done|]. by rewrite Ho. }
  assert (forall j k, k ∈ kids j -> k <> fp) as HK by (intros j k Hk ->; by destruct (Hfk j)).
  split.
  - done.
  - intros j Hj. unfold with_kids. case_decide as E; [subst j|].
    + rewrite P4, P6. destruct (t_chain _ _ T pp Hl) as [H1 H2]. split.
      * cbn [chain]. split; [done|]. rewrite F5. eapply chain_ext; [|done]. intros k Hk. by apply HS, (HK pp).
      * rewrite H2. pose proof (kids_length _ _ pp T). cbn [length]. rewrite wrap32_small; unfold KERNEL_MAX_PROCS in *; lia.
    + destruct (decide (j = fp)) as [->|Hjf].
      * rewrite F4, F6, (t_none _ _ T _ Hfl). done.
      * rewrite Ho in Hj |- * by done. destruct (t_chain _ _ T j Hj) as [H1 H2]. split; [|done].
        eapply chain_ext; [|done]. intros k Hk. by apply HS, (HK j).
  - intros j Hj. unfold with_kids. case_decide as E; [subst; by rewrite P2 in Hj|].
    destruct (decide (j = fp)) as [->|Hjf]; [done|]. apply T. by rewrite <- Ho.
  - intros j k [[-> Hk]|[Hj Hk]]%elem_of_with_kids; rewrite !HI.
    + apply elem_of_cons in Hk as [->|Hk]; [by split_and!|].
      destruct (t_kid _ _ T _ _ Hk) as (H1 & H2 & H3), (HS k (HK _ _ Hk)) as (-> & -> & _). split; [done|]. split; [done|].
      intros _. by apply H3.
    + destruct (t_kid _ _ T _ _ Hk) as (H1 & H2 & H3), (HS k (HK _ _ Hk)) as (-> & -> & _). split; [done|]. split; [done|].
      destruct (decide (j = fp)) as [->|Hjf]; [|by destruct (HS j Hjf) as (-> & _)].
      rewrite (t_none _ _ T _ Hfl) in Hk. by apply not_elem_of_nil in Hk.
  - intros j. unfold with_kids. case_decide; [|apply T]. apply NoDup_cons. split; [by apply Hfk|apply T].
  - intros i j k [[-> Hk]|[Hi Hk]]%elem_of_with_kids [[-> Hk']|[Hj Hk']]%elem_of_with_kids; [done| | |].
    + apply elem_of_cons in Hk as [->|Hk]; [by destruct (Hfk j)|]. by apply (t_once _ _ T _ _ k).
    + apply elem_of_cons in Hk' as [->|Hk']; [by destruct (Hfk i)|]. by apply (t_once _ _ T _ _ k).
    + by apply (t_once _ _ T _ _ k).
  - assert (forall j, status (proc s' j) <> PROCESS_IDLE -> status (proc s j) <> PROCESS_IDLE) as HN.
    { intros j. destruct (decide (j = fp)) as [->|Hj]; [by rewrite Hb|]. by destruct (HS j Hj) as (-> & _). }
    intros i j Hi Hj. rewrite !HI. apply T; by apply HN.
  - intros j Hj. rewrite HI, Hn. apply T. destruct (decide (j = fp)) as [->|Hne']; [by rewrite Hb|].
    by destruct (HS j Hne') as (<- & _).
Qed.

(** ** A child is reaped *)

(** [k] is made idle and its parent [i] counts one child less; pointers are
    not said anything of. *)
Definition reaped (i k : nat) s s' : Prop :=
  table_ok s' /\ Process_next_pid s' = Process_next_pid s /\
  (forall j, id (proc s' j) = id (proc s j) /\ parent (proc s' j) = parent (proc s j)) /\
  (forall j, status (proc s' j) = if decide (j = k) then PROCESS_IDLE else status (proc s j)) /\
  (forall j, j <> i -> child (proc s' j) = child (proc s j)) /\
  (forall j, num_children (proc s' j) = if decide (j = i) then num_children (proc s j) ⊖ 1 else num_children (proc s j)).

Lemma tree_reap s s' kids i k l1 l2 :
  tree s kids -> kids i = l1 ++ k :: l2 -> reaped i k s s' -> chain s' (child (proc s' i)) (l1 ++ l2) ->
  (forall j x, j <> i -> x ∈ kids j -> sibling (proc s' x) = sibling (proc s x)) ->
  tree s' (with_kids i (l1 ++ l2) (with_kids k [] kids)).
Proof.
  intros T Hi (Ht & Hn & HI & HS & HC & HN) Hch Hsib.
  assert (k ∈ kids i) as Hk by (rewrite Hi, elem_of_app, elem_of_cons; tauto).
  assert (i <> k) as Hne by (by intros ->; apply (kid_ne _ _ _ _ T Hk)).
  assert (live (status (proc s i))) as Hl.
  { destruct (decide (live (status (proc s i)))) as [|Hx]; [done|].
    rewrite (t_none _ _ T _ Hx) in Hi. by destruct l1. }
  assert (NoDup (l1 ++ k :: l2)) as Hnd by (rewrite <- Hi; apply T).
  assert ((k ∉ l1 ++ l2) /\ NoDup (l1 ++ l2)) as [Hk12 Hnd12].
  { rewrite (Permutation_app_comm l1) in Hnd. cbn in Hnd. apply NoDup_cons in Hnd as [H1 H2].
    rewrite (Permutation_app_comm l1). tauto. }
  assert (forall x, x ∈ l1 ++ l2 -> x ∈ kids i /\ x <> k) as Hsub.
  { intros x Hx. split; [|by intros ->]. rewrite Hi, elem_of_app, elem_of_cons. apply elem_of_app in Hx. tauto. }
  assert (forall j x, x ∈ with_kids i (l1 ++ l2) (with_kids k [] kids) j -> x ∈ kids j /\ x <> k /\ j <> k) as Hmem.
  { intros j x [[-> Hx]|[Hj [[-> Hx]|[Hjk Hx]]%elem_of_with_kids]]%elem_of_with_kids.
    - destruct (Hsub x Hx). split_and!; done.
    - by apply not_elem_of_nil in Hx.
    - split; [done|]. split; [|done]. intros ->. destruct Hj. by apply (t_once _ _ T _ _ k). }
  assert (forall j, status (proc s' j) <> PROCESS_IDLE -> j <> k /\ status (proc s j) <> PROCESS_IDLE) as Hidle.
  { intros j. rewrite HS. case_decide; [done|tauto]. }
  split.
  - done.
  - intros j Hj. rewrite HS in Hj. case_decide as Ejk; [by destruct Hj|].
    destruct (decide (j = i)) as [->|Eji].
    + rewrite !with_kids_eq. split; [done|]. rewrite HN, decide_True by done. destruct (t_chain _ _ T i Hl) as [_ ->].
      pose proof (kids_length _ _ i T) as Hlen. rewrite Hi in Hlen |- *. rewrite !length_app. rewrite length_app in Hlen.
      cbn [length] in Hlen |- *. unfold KERNEL_MAX_PROCS in Hlen. rewrite wrap32_small; lia.
    + rewrite !with_kids_ne by done. destruct (t_chain _ _ T j Hj) as [H1 H2].
      rewrite HC, HN, decide_False by done. split; [|done]. eapply chain_ext; [|done]. intros x. by apply Hsib.
  - intros j Hj. rewrite HS in Hj. destruct (decide (j = i)) as [->|Eji].
    + rewrite decide_False in Hj by done. done.
    + rewrite with_kids_ne by done. unfold with_kids. case_decide as Ejk; [done|]. by apply T.
  - intros j x Hx. destruct (Hmem j x Hx) as (Hxk & Hx1 & Hj1). destruct (t_kid _ _ T _ _ Hxk) as (H1 & H2 & H3).
    destruct (HI j) as [-> _], (HI x) as [-> ->]. rewrite (HS x), (HS j).
    rewrite (decide_False (P := x = k)), (decide_False (P := j = k)) by done. done.
  - intros j. unfold with_kids. case_decide; [done|]. case_decide; [constructor|apply T].
  - intros j1 j2 x H1 H2. apply (t_once _ _ T _ _ x); by apply Hmem.
  - intros j1 j2 H1 H2. destruct (HI j1) as [-> _], (HI j2) as [-> _]. apply T; by apply Hidle.
  - intros j Hj. destruct (HI j) as [-> _]. rewrite Hn. by apply T, Hidle.
Qed.

(** ** A process ends *)

Lemma tree_terminate s s' kids i q :
  tree s kids -> table_ok s' -> Process_next_pid s' = Process_next_pid s -> live (status (proc s i)) ->
  kin (proc s' i) = kin (proc s i) -> status (proc s' i) = PROCESS_DEAD ->
  (forall j, j <> i -> proc s' j = if decide (j ∈ kids i) then set_parent q (proc s j) else proc s j) ->
  tree s' kids.
Proof.
  intros T Ht Hn Hl Hki Hd Ho.
  apply kin_same in Hki as (I1 & I2 & I3 & I4 & I5).
  assert (forall j, id (proc s' j) = id (proc s j) /\ child (proc s' j) = child (proc s j) /\
    sibling (proc s' j) = sibling (proc s j) /\ num_children (proc s' j) = num_children (proc s j)) as K.
  { intros j. destruct (decide (j = i)) as [->|Hne]; [done|]. rewrite Ho by done. by case_decide. }
  assert (forall j, live (status (proc s' j)) <-> live (status (proc s j))) as L.
  { intros j. destruct (decide (j = i)) as [->|Hne]; [|rewrite Ho by done; by case_decide].
    rewrite Hd. split; [done|]. intros _. by split. }
  assert (forall j, status (proc s' j) <> PROCESS_IDLE -> status (proc s j) <> PROCESS_IDLE) as N.
  { intros j. destruct (decide (j = i)) as [->|Hne]; [by intros _; apply Hl|]. rewrite Ho by done. by case_decide. }
  split.
  - done.
  - intros j Hj. destruct (t_chain _ _ T j (proj1 (L j) Hj)) as [H1 H2], (K j) as (_ & -> & _ & ->).
    split; [|done]. eapply chain_ext; [|done]. intros x _. by destruct (K x) as (_ & _ & -> & _).
  - intros j Hj. apply T. by rewrite <- L.
  - intros j k Hk. destruct (t_kid _ _ T _ _ Hk) as (H1 & H2 & H3), (K j) as (-> & _), (K k) as (-> & _).
    rewrite L. split; [done|]. split; [done|]. intros Hjd.
    assert (j <> i) as Hji by congruence.
    destruct (decide (k = i)) as [->|Hki]; [rewrite I2; apply H3; rewrite Ho in Hjd by done; by case_decide|].
    rewrite Ho by done. rewrite decide_False; [apply H3; rewrite Ho in Hjd by done; by case_decide|].
    intros Hx. destruct Hji. by apply (t_once _ _ T _ _ k).
  - apply T.
  - apply T.
  - intros j k Hj Hk. destruct (K j) as (-> & _), (K k) as (-> & _). apply T; by apply N.
  - intros j Hj. destruct (K j) as (-> & _). rewrite Hn. by apply T, N.
Qed.

(** ** Fork *)

(** Nothing changes but memory, and members of processes that tie them to
    nobody. *)
Record quiet s s' : Prop := {
  q_table : table_ok s';
  q_next : Process_next_pid s' = Process_next_pid s;
  q_cur : cur s' = cur s;
  q_lock : Process_lock s' = Process_lock s;
  q_task : kernel_task s' = kernel_task s;
  q_sleep : sleeplocks s' = sleeplocks s;
  q_thread : thread s' = thread s;
  q_proc : forall j, kin (proc s' j) = kin (proc s j) /\ status (proc s' j) = status (proc s j)
}.

Lemma quiet_refl s : table_ok s -> quiet s s.
Proof. by split. Qed.
Lemma quiet_trans s1 s2 s3 : quiet s1 s2 -> quiet s2 s3 -> quiet s1 s3.
Proof.
  intros [? ? ? ? ? ? ? P] [? ? ? ? ? ? ? Q]. split; try congruence. intros j.
  destruct (P j), (Q j). split; congruence.
Qed.
Lemma quiet_pages s s' f : quiet s s' -> quiet s (set_pages f s').
Proof. intros [? ? ? ? ? ? ? ?]. by split. Qed.

Lemma proc_upd_or s i f j :
  proc (upd_proc i f s) j = proc s j \/ j = i /\ proc (upd_proc i f s) j = f (proc s j).
Proof.
  unfold proc, upd_proc. cbn [set_procs Scheduler_processes]. destruct (decide (j = i)) as [->|Hne].
  - rewrite list_lookup_alter_eq. destruct (Scheduler_processes s !! i); [by right|by left].
  - rewrite list_lookup_alter_ne by done. by left.
Qed.

Lemma quiet_upd s s' i f :
  (forall p, kin (f p) = kin p /\ status (f p) = status p) -> quiet s s' -> quiet s (upd_proc i f s').
Proof.
  intros Hf [? ? ? ? ? ? ? Q]. split; try done; [by apply table_upd|]. intros j.
  destruct (proc_upd_or s' i f j) as [->|[_ ->]]; [apply Q|]. destruct (Hf (proc s' j)) as [-> ->]. apply Q.
Qed.

Lemma quiet_tree s s' kids : tree s kids -> quiet s s' -> tree s' kids.
Proof.
  intros T [? ? ? ? ? ? ? Q]. apply (tree_moves s); [done|done|done|]. intros j. destruct (Q j). split; [done|by left].
Qed.

(** What the operations leave alone while they run, and at their switches:
    the current process and the kernel's task, the sleeping locks other than
    those of [own]; and no other process comes to run. *)
Definition calm (own : Z -> Prop) s s' : Prop :=
  cur s' = cur s /\ kernel_task s' = kernel_task s /\
  (forall a, ~ own a -> sleeplock s' a = sleeplock s a) /\
  (forall j, status (proc s' j) = PROCESS_RUNNING -> status (proc s j) = PROCESS_RUNNING).
Definition stable (own : Z -> Prop) (R : Kernel S -> Prop) : Prop := forall s s', calm own s s' -> R s -> R s'.
Definition nobody : Z -> Prop := fun _ => False.

Lemma calm_refl own s : calm own s s.
Proof. by split_and!. Qed.
Lemma calm_trans own s1 s2 s3 : calm own s1 s2 -> calm own s2 s3 -> calm own s1 s3.
Proof.
  intros (H1 & H2 & H3 & H4) (K1 & K2 & K3 & K4). split_and!; [congruence|congruence| |by intros j ?%K4%H4].
  intros a Ha. by rewrite K3, H3.
Qed.
Lemma calm_weaken (P Q : Z -> Prop) s s' : (forall a, P a -> Q a) -> calm P s s' -> calm Q s s'.
Proof. intros H (H1 & H2 & H3 & H4). split_and!; [done|done| |done]. intros a Ha. apply H3. naive_solver. Qed.

(** A change of one process that does not set it running. *)
Lemma calm_upd own s i f :
  (status (f (proc s i)) = PROCESS_RUNNING -> status (proc s i) = PROCESS_RUNNING) -> calm own s (upd_proc i f s).
Proof.
  intros H. split_and!; [done|done|done|]. intros j.
  by destruct (proc_upd_or s i f j) as [->|[-> ->]].
Qed.
Lemma calm_quiet own s s' : quiet s s' -> calm own s s'.
Proof.
  intros Q. split_and!; [apply Q|apply Q| |].
  - intros a _. unfold sleeplock. by rewrite (q_sleep _ _ Q).
  - intros j. by destruct (q_proc _ _ Q j) as [_ ->].
Qed.

Context (Kernel_pagedirectory Interrupt_Return Process_FirstEntry_addr : Z) (process_addr : nat -> Z).

Lemma Process_Initialize_quiet i s ok s' :
  table_ok s ->
  Process_Initialize Kernel_pagedirectory Interrupt_Return Process_FirstEntry_addr process_addr i s = Some (ok, s') ->
  quiet s s'.
Proof.
  intros Ht. unfold Process_Initialize. destruct (pa_acquire _ _) as [[stack ps]|]; [|done]. cbn [mbind option_bind].
  case_match.
  { intros [= <- <-]. by apply quiet_pages, quiet_refl. }
  set (s1 := upd_proc i _ _). assert (quiet s s1) as Q1.
  { apply quiet_upd; [by intros []|]. by apply quiet_pages, quiet_refl. }
  assert (quiet s (Context_Initialize Interrupt_Return Process_FirstEntry_addr i (State_Initialize process_addr i s1))) as Q2.
  { unfold Context_Initialize, State_Initialize. cbv zeta.
    repeat first [apply quiet_pages | apply quiet_upd; [by intros []|]]. done. }
  set (s2 := Context_Initialize _ _ _ _) in *. clearbody s2. destruct (Paging_Initialize _ _ _) as [[[ok' cr3] ps']|]; [|done].
  cbn [mbind option_bind]. destruct ok'; cbn [negb]; intros [= <- <-]; unfold set_cr3; by repeat apply quiet_pages.
Qed.

(** Reading a process after a sequence of updates. *)
Lemma proc_upd_eq s i f : table_ok s -> (i < KERNEL_MAX_PROCS)%nat -> proc (upd_proc i f s) i = f (proc s i).
Proof. intros. rewrite proc_upd by done. by rewrite decide_True. Qed.
Lemma proc_upd_ne s i f j : j <> i -> proc (upd_proc i f s) j = proc s j.
Proof. intros. by destruct (proc_upd_or s i f j) as [->|[-> _]]. Qed.
Lemma proc_pages s f j : proc (set_pages f s) j = proc s j.
Proof. done. Qed.
Lemma proc_locked s tl j : proc (set_process_lock tl s) j = proc s j.
Proof. done. Qed.
Lemma proc_unlock s j : proc (Process_Unlock s) j = proc s j.
Proof. done. Qed.
Lemma table_pages s f : table_ok s -> table_ok (set_pages f s).
Proof. done. Qed.
Lemma table_locked s tl : table_ok s -> table_ok (set_process_lock tl s).
Proof. done. Qed.

End Tree.

Ltac table := repeat first [assumption | apply table_upd | apply table_pages | apply table_locked].
Ltac procs :=
  repeat first [rewrite proc_pages | rewrite proc_locked
               | rewrite proc_upd_eq by (table; done) | rewrite proc_upd_ne by congruence].

Section Fork.
Context {S : Type} {PA : PageAllocator S}.
Implicit Types (s : Kernel S) (kids : nat -> list nat).
Context (Kernel_pagedirectory Interrupt_Return Process_FirstEntry_addr : Z) (process_addr : nat -> Z).

(** Booking, the entry and the page tables: the part of [Process_Fork] up to
    the family. *)
Lemma Fork_prepared s fp pp r s' :
  table_ok s ->
  ('(ok, s) ← Process_Initialize Kernel_pagedirectory Interrupt_Return Process_FirstEntry_addr process_addr fp s;
   if (ok : bool) then
     '(ok, ps) ← Paging_Clone (cr3_of s pp) (cr3_of s fp) (pages s);
     Some (ok, set_pages ps s)
   else Some (false, s)) = Some (r, s') -> quiet s s'.
Proof.
  intros Ht. destruct (Process_Initialize _ _ _ _ fp s) as [[ok s1]|] eqn:E; [|done]. cbn [mbind option_bind].
  apply Process_Initialize_quiet in E; [|done]. destruct ok; [|by intros [= <- <-]].
  destruct (Paging_Clone _ _ _) as [[ok ps]|]; [|done]. cbn [mbind option_bind]. intros [= <- <-].
  by apply quiet_pages.
Qed.

(** The members that [Process_Fork] sets, up to the process lock. *)
Definition adopt (fp pp : nat) s : Kernel S :=
  let s := upd_proc fp (set_parent (Some pp)) s in
  let s := upd_proc fp (set_child None) s in
  let s := upd_proc fp (set_sibling (child (proc s pp))) s in
  let s := upd_proc fp (set_num_children 0) s in
  let s := upd_proc fp (set_exit_code (-1)) s in
  let s := upd_proc fp (set_run_time (run_time (proc s pp))) s in
  let s := upd_proc fp (set_endpoint (endpoint (proc s pp))) s in
  let s := set_pages (pa_set_mem
             (IContext_Fork (intr_context (proc s fp)) (intr_context (proc s pp))) (pages s)) s in
  let s := upd_proc pp (fun p => set_num_children (num_children p ⊕ 1) p) s in
  upd_proc pp (set_child (Some fp)) s.

Lemma adopt_spec s fp pp :
  table_ok s -> (fp < KERNEL_MAX_PROCS)%nat -> (pp < KERNEL_MAX_PROCS)%nat -> fp <> pp ->
  let s' := adopt fp pp s in
  proc s' fp = set_endpoint (endpoint (proc s pp)) (set_run_time (run_time (proc s pp)) (set_exit_code (-1)
    (set_num_children 0 (set_sibling (child (proc s pp)) (set_child None (set_parent (Some pp) (proc s fp))))))) /\
  has_newborn fp (proc s pp) (proc s' pp) /\
  (forall j, j <> fp -> j <> pp -> proc s' j = proc s j) /\
  table_ok s' /\ Process_next_pid s' = Process_next_pid s /\ calm nobody s s' /\
  Process_lock s' = Process_lock s /\ thread s' = thread s.
Proof.
  intros Ht Hf Hp Hne. cbv zeta. unfold adopt. split; [|split; [|split]].
  - by procs.
  - procs. by split_and!.
  - intros j H1 H2. by procs.
  - split; [table|]. split; [done|]. split; [|done]. split_and!; [done..|]. intros j.
    destruct (decide (j = fp)) as [->|H1]; [by procs|]. destruct (decide (j = pp)) as [->|H2]; [by procs|]. by procs.
Qed.

Lemma lock_back_quiet s s1 s2 : lock_back s s1 -> quiet s1 s2 -> lock_back s s2.
Proof. unfold lock_back. intros [? ?] Q. by rewrite (q_lock _ _ Q), (q_thread _ _ Q). Qed.

Lemma lock_back_free s s' : lock_free s -> lock_back s s' -> lock_free s'.
Proof. unfold lock_free, lock_back, vetos_u32. intros [? ?] [? ->]. done. Qed.

(** A change made between taking and releasing the process lock. *)
Lemma locked_section s s0 s1 s2 :
  lock_free s -> lock_back s s0 -> Process_Lock s0 = Some s1 -> thread s2 = thread s1 -> lock_back s (Process_Unlock s2).
Proof.
  intros Hl Hb E Ht. destruct (lock_back_free s s0 Hl Hb) as [_ Hv].
  destruct (Process_Unlock_back s0 s1 s2 Hv E Ht) as [H1 H2], Hb as [_ Hb]. split; [done|congruence].
Qed.

Lemma Process_Lock_same s s1 : Process_Lock s = Some s1 -> exists tl, s1 = set_process_lock tl s.
Proof.
  unfold Process_Lock. destruct (SpinLock_Acquire _ _) as [tl|]; [|done]. intros [= <-]. by exists tl.
Qed.

(** Booking, on the tree. *)
Lemma Book_tree s kids i s' :
  tree s kids -> lock_free s -> 0 <= Process_next_pid s < 4294967295 -> Scheduler_Book s = Some (i, s') ->
  tree s' kids /\ status (proc s i) = PROCESS_IDLE /\ status (proc s' i) = PROCESS_BOOKED /\
  id (proc s' i) = Process_next_pid s /\ (forall j, j <> i -> proc s' j = proc s j) /\
  Process_next_pid s' = Process_next_pid s + 1 /\ lock_back s s' /\ calm nobody s s' /\ (i < KERNEL_MAX_PROCS)%nat.
Proof.
  intros T Hl Hn E. pose proof (Scheduler_Book_correct s (t_table _ _ T) Hl) as H. rewrite E in H.
  destruct H as (Hi & Hidle & _ & Hp & Ho & Hnx & Ht & Hb). rewrite wrap32_small in Hnx by lia.
  assert (calm nobody s s') as Hc.
  { unfold Scheduler_Book in E. destruct (Process_Lock s) as [s1|] eqn:E1; [|done].
    apply Process_Lock_same in E1 as (tl & ->). cbn [mbind option_bind] in E. case_match; [|done]. injection E as <- <-.
    set (s2 := set_process_lock tl s). apply (calm_trans _ _ s2); [by split_and!|].
    apply (calm_trans _ _ (upd_proc n (set_status PROCESS_BOOKED) s2)); by apply calm_upd. }
  split; [|rewrite Hp; by split_and!].
  apply (tree_offside s s' kids i); try done.
  - lia.
  - rewrite Hidle. by intros [? _].
  - rewrite Hp. by intros [_ ?].
  - intros _. rewrite Hp, Hnx. cbn. lia.
Qed.

(** The two ends of [Process_Fork]: from the state [s3] in which the entry [fp]
    has been adopted, and from the state [s2] in which it has not got its page
    tables. *)
Definition fork_done (fp pp : nat) s3 : option (Z * Kernel S) :=
  s ← Process_Lock s3;
  let s := Process_Unlock (upd_proc fp (set_status PROCESS_RUNNABLE) s) in
  Some (id (proc s pp), s).
Definition fork_undone (fp : nat) s2 : option (Z * Kernel S) :=
  ps ← pa_release (base (kernel_stack (proc s2 fp))) STACK_ORDER (pages s2);
  s ← Process_Lock (set_pages ps s2);
  Some (wrap32 (-1), Process_Unlock (upd_proc fp (set_status PROCESS_IDLE) s)).

Lemma fork_done_spec s s2 s3 kids fp pp z s' :
  s3 = adopt fp pp s2 -> lock_free s -> lock_back s s2 -> tree s2 kids -> fp <> pp -> (fp < KERNEL_MAX_PROCS)%nat ->
  status (proc s2 fp) = PROCESS_BOOKED -> status (proc s2 pp) = PROCESS_RUNNING ->
  id (proc s2 pp) < id (proc s2 fp) -> fork_done fp pp s3 = Some (z, s') ->
  lock_back s s' /\ calm nobody s2 s' /\ Process_next_pid s' = Process_next_pid s2 /\
  status (proc s' pp) = PROCESS_RUNNING /\ z = id (proc s2 pp) /\
  tree s' (with_kids pp (fp :: kids pp) kids) /\
  status (proc s' fp) = PROCESS_RUNNABLE /\ id (proc s' fp) = id (proc s2 fp) /\
  endpoint (proc s' fp) = endpoint (proc s' pp) /\ run_time (proc s' fp) = run_time (proc s' pp).
Proof.
  intros Es3 Hl Hb2 T2 Hne Hfp Hbk2 Hr2 Hid. unfold fork_done.
  assert (pp < KERNEL_MAX_PROCS)%nat as Hpp by (apply (live_lt s2); [apply T2|congruence]).
  pose proof (adopt_spec s2 fp pp (t_table _ _ T2) Hfp Hpp Hne) as H. cbv zeta in H. rewrite <- Es3 in H.
  destruct H as (Hf & Hnb & Ho & Ht & Hnx & Hcc & Hlk & Hth). clear Es3.
  destruct (Process_Lock s3) as [s4|] eqn:EL; [|done]. cbn [mbind option_bind].
  pose proof EL as [tl ->]%Process_Lock_same. set (s5 := upd_proc fp _ _).
  assert (lock_back s s3) as Hb3 by (unfold lock_back; by rewrite Hlk, Hth).
  pose proof (locked_section s s3 _ s5 Hl Hb3 EL eq_refl) as Hb5.
  assert (proc s5 fp = set_status PROCESS_RUNNABLE (proc s3 fp)) as Hf5 by (unfold s5; by rewrite proc_upd_eq).
  assert (forall j, j <> fp -> proc s5 j = proc s3 j) as Ho5 by (intros j Hj; unfold s5; by rewrite proc_upd_ne).
  assert (table_ok s5 /\ calm nobody s2 s5 /\ Process_next_pid s5 = Process_next_pid s2) as (Ht5 & Hc5 & Hn5).
  { split; [unfold s5; table|]. split; [|done]. apply (calm_trans _ _ s3); [done|].
    apply (calm_trans _ _ (set_process_lock tl s3)); [by split_and!|by apply calm_upd]. }
  clearbody s5. intros [= <- <-].
  assert (has_newborn fp (proc s2 pp) (proc s5 pp)) as Hnb5 by by rewrite Ho5.
  split; [done|]. split; [done|]. split; [done|]. split; [rewrite proc_unlock, <- Hr2; apply Hnb5|].
  split; [apply Hnb5|]. split.
  - apply (tree_fork s2 _ kids pp fp T2); try done.
    + by rewrite Hr2.
    + by rewrite Hr2.
    + unfold newborn. rewrite proc_unlock, Hf5, Hf. by split_and!.
    + intros j H1 H2. rewrite proc_unlock, Ho5 by done. by apply Ho.
  - rewrite !proc_unlock. destruct Hnb5 as (_ & _ & _ & _ & _ & _ & -> & ->). rewrite Hf5, Hf. by split_and!.
Qed.

Lemma fork_undone_spec s s2 kids fp z s' :
  lock_free s -> lock_back s s2 -> tree s2 kids -> (fp < KERNEL_MAX_PROCS)%nat ->
  status (proc s2 fp) = PROCESS_BOOKED -> fork_undone fp s2 = Some (z, s') ->
  lock_back s s' /\ calm nobody s2 s' /\ Process_next_pid s' = Process_next_pid s2 /\
  (forall j, j <> fp -> proc s' j = proc s2 j) /\ z = wrap32 (-1) /\ tree s' kids.
Proof.
  intros Hl Hb2 T2 Hfp Hbk2. unfold fork_undone. pose proof (t_table _ _ T2) as Ht2.
  destruct (pa_release _ _ _) as [ps|]; [|done]. cbn [mbind option_bind].
  destruct (Process_Lock _) as [s4|] eqn:EL; [|done]. cbn [mbind option_bind].
  pose proof EL as [tl ->]%Process_Lock_same. set (s5 := upd_proc fp _ _).
  pose proof (locked_section s (set_pages ps s2) _ s5 Hl Hb2 EL eq_refl) as Hb5.
  assert (proc s5 fp = set_status PROCESS_IDLE (proc s2 fp)) as Hf5 by (unfold s5; by procs).
  assert (forall j, j <> fp -> proc s5 j = proc s2 j) as Ho5 by (intros j Hj; unfold s5; by procs).
  assert (table_ok s5 /\ calm nobody s2 s5 /\ Process_next_pid s5 = Process_next_pid s2) as (Ht5 & Hc5 & Hn5).
  { split; [unfold s5; table|]. split; [|done].
    apply (calm_trans _ _ (set_process_lock tl (set_pages ps s2))); [by split_and!|by apply calm_upd]. }
  clearbody s5. intros [= <- <-]. split; [done|]. split; [done|]. split; [done|]. split; [done|]. split; [done|].
  apply (tree_offside s2 _ kids fp T2); try done.
  - cbn. lia.
  - rewrite Hbk2. by intros [_ ?].
  - rewrite proc_unlock, Hf5. by intros [? _].
  - rewrite proc_unlock, Hf5. by intros [].
Qed.

(** [Process_Fork] with its parts named. *)
Lemma Fork_unfold s pp :
  cur s = Some pp ->
  Process_Fork Kernel_pagedirectory Interrupt_Return Process_FirstEntry_addr process_addr s =
  ('(fp, s) ← Scheduler_Book s;
   '(ok, s) ← (
     '(ok, s) ← Process_Initialize Kernel_pagedirectory Interrupt_Return Process_FirstEntry_addr process_addr fp s;
     if (ok : bool) then
       '(ok, ps) ← Paging_Clone (cr3_of s pp) (cr3_of s fp) (pages s);
       Some (ok, set_pages ps s)
     else Some (false, s));
   if negb (ok : bool) then fork_undone fp s else fork_done fp pp (adopt fp pp s)).
Proof. intros E. unfold Process_Fork, fork_undone, fork_done. rewrite E. reflexivity. Qed.

Lemma Process_Fork_run s kids pp z s' :
  tree s kids -> lock_free s -> cur s = Some pp -> status (proc s pp) = PROCESS_RUNNING ->
  0 <= Process_next_pid s < 4294967295 ->
  Process_Fork Kernel_pagedirectory Interrupt_Return Process_FirstEntry_addr process_addr s = Some (z, s') ->
  lock_back s s' /\ calm nobody s s' /\ status (proc s' pp) = PROCESS_RUNNING /\
  Process_next_pid s' = Process_next_pid s + 1 /\
  (z = wrap32 (-1) /\ tree s' kids \/
   z = id (proc s pp) /\ exists fp, status (proc s fp) = PROCESS_IDLE /\ fp <> pp /\
     tree s' (with_kids pp (fp :: kids pp) kids) /\
     status (proc s' fp) = PROCESS_RUNNABLE /\ id (proc s' fp) = Process_next_pid s /\
     endpoint (proc s' fp) = endpoint (proc s' pp) /\ run_time (proc s' fp) = run_time (proc s' pp)).
Proof.
  intros T Hl Hc Hr Hn. rewrite (Fork_unfold s pp Hc).
  destruct (Scheduler_Book s) as [[fp s1]|] eqn:EB; [|done]. cbn [mbind option_bind].
  destruct (Book_tree s kids fp s1 T Hl Hn EB) as (T1 & Hidle & Hbk & Hid & Ho1 & Hn1 & Hb1 & Hc1 & Hfp).
  match goal with |- mbind _ ?x = _ -> _ => destruct x as [[ok s2]|] eqn:EP end; [|done].
  apply Fork_prepared in EP; [|apply T1]. cbn [mbind option_bind].
  pose proof (quiet_tree _ _ _ T1 EP) as T2. pose proof (lock_back_quiet _ _ _ Hb1 EP) as Hb2.
  assert (fp <> pp) as Hne by congruence.
  destruct (q_proc _ _ EP fp) as [Kf Sf], (q_proc _ _ EP pp) as [Kp Sp].
  apply kin_same in Kf as (If & _), Kp as (Ip & _). rewrite Hbk in Sf. rewrite Hid in If.
  rewrite Ho1 in Sp, Ip by done. rewrite Hr in Sp.
  pose proof (q_next _ _ EP) as Hn2. pose proof (calm_quiet nobody _ _ EP) as Hc2.
  assert (id (proc s pp) < Process_next_pid s) as Hlt by (apply (t_next _ _ T); by rewrite Hr).
  destruct ok; cbn [negb]; intros E.
  - eapply (fork_done_spec s s2) in E as (H1 & H2 & H3 & H0 & H4 & H5 & H6 & H7 & H8); [|done..|lia].
    split; [done|]. split; [by eapply calm_trans, calm_trans|]. split; [done|]. split; [lia|]. right. split; [congruence|].
    exists fp. split; [done|]. split; [done|]. split; [done|]. split; [done|]. split; [congruence|done].
  - eapply fork_undone_spec in E as (H1 & H2 & H3 & H0 & H4 & H5); [|done..].
    split; [done|]. split; [by eapply calm_trans, calm_trans|]. split; [by rewrite H0|]. split; [lia|]. by left.
Qed.

(** C25. Fork. On success the tree gains the process: it is runnable, has a new
    number, is the first of its parent's children, starts without children and
    with the end point and the time slice of its parent, and nothing else of
    the tree changes; but the number returned to the parent is the parent's. On
    failure the tree is as before and -1 is returned. *)
Theorem Process_Fork_correct s kids pp z s' :
  tree s kids -> lock_free s -> cur s = Some pp -> status (proc s pp) = PROCESS_RUNNING ->
  0 <= Process_next_pid s < 4294967295 ->
  Process_Fork Kernel_pagedirectory Interrupt_Return Process_FirstEntry_addr process_addr s = Some (z, s') ->
  lock_back s s' /\ cur s' = cur s /\ Process_next_pid s' = Process_next_pid s + 1 /\
  (z = wrap32 (-1) /\ tree s' kids \/
   z = id (proc s pp) /\ exists fp, status (proc s fp) = PROCESS_IDLE /\ fp <> pp /\
     tree s' (with_kids pp (fp :: kids pp) kids) /\
     status (proc s' fp) = PROCESS_RUNNABLE /\ id (proc s' fp) = Process_next_pid s /\
     endpoint (proc s' fp) = endpoint (proc s' pp) /\ run_time (proc s' fp) = run_time (proc s' pp)).
Proof.
  intros T Hl Hc Hr Hn E. destruct (Process_Fork_run s kids pp z s' T Hl Hc Hr Hn E) as (H1 & H2 & _ & H3 & H4).
  split; [done|]. split; [apply H2|]. by split.
Qed.

End Fork.

(** ** An example: a process with one child *)

Definition one_child : nat -> list nat := fun i => match i with O => [1%nat] | _ => [] end.

Lemma proc_pair {S} {PA : PageAllocator S} (s : Kernel S) p q n :
  Scheduler_processes s = p :: q :: replicate n process_zero ->
  forall i, proc s i = match i with 0%nat => p | 1%nat => q | _ => process_zero end.
Proof.
  intros E [|[|i]]; unfold proc; rewrite E; [done|done|]. cbn [lookup list_lookup].
  destruct (replicate n process_zero !! i) as [x|] eqn:Ex; [|done]. by apply lookup_replicate in Ex as [-> _].
Qed.

Lemma tree_one_child {S} {PA : PageAllocator S} (s : Kernel S) p q n :
  Scheduler_processes s = p :: q :: replicate n process_zero -> table_ok s ->
  live (status p) -> child p = Some 1%nat -> num_children p = 1 ->
  live (status q) -> child q = None -> num_children q = 0 -> sibling q = None -> parent q = Some 0%nat ->
  id p < id q < Process_next_pid s -> tree s one_child.
Proof.
  intros E Ht Lp Cp Np Lq Cq Nq Sq Pq Hid.
  pose proof (proc_pair s p q n E) as P.
  assert (forall i k, k ∈ one_child i -> i = 0%nat /\ k = 1%nat) as K.
  { intros [|i] k; cbn [one_child]; [by intros ->%list_elem_of_singleton|by intros ?%not_elem_of_nil]. }
  split.
  - done.
  - intros [|[|i]] Hi; rewrite P in Hi |- *; cbn [one_child chain length]; [|done|by destruct Hi].
    by rewrite !P, Cp, Np.
  - intros [|i] Hi; [by rewrite P in Hi|done].
  - intros i k [-> ->]%K. rewrite !P. split; [done|]. split; [lia|done].
  - intros [|i]; cbn [one_child]; [apply NoDup_singleton|constructor].
  - by intros i j k [-> _]%K [-> _]%K.
  - intros [|[|i]] [|[|j]] Hi Hj; rewrite P in Hi, Hj; rewrite !P; try done; lia.
  - intros [|[|i]] Hi; rewrite P in *; try done; lia.
Qed.

(** Process 5 runs, process 6 with the given status is its child. *)
Definition demo_parent : Process :=
  set_endpoint 0x5000 (set_num_children 1 (set_child (Some 1%nat) (demo_process PROCESS_RUNNING 5))).
Definition demo_child (st : Process_Status) : Process := set_parent (Some 0%nat) (demo_process st 6).
Definition demo_family (st : Process_Status) : Kernel PhysState :=
  set_next_pid 42 (demo_kernel [demo_parent; demo_child st]).

Lemma demo_family_tree st : live st -> tree (demo_family st) one_child.
Proof. intros. by apply (tree_one_child _ demo_parent (demo_child st) (KERNEL_MAX_PROCS - 2)). Qed.

Lemma demo_family_ok st :
  let s := demo_family st in
  lock_free s /\ cur s = Some 0%nat /\ status (proc s 0) = PROCESS_RUNNING /\ Process_next_pid s = 42 /\
  id (proc s 0) = 5.
Proof. by split. Qed.

Lemma Process_Fork_correct_witness :
  match Process_Fork 0x80002000 0x80009000 0x8000a000 (fun i => 0x80600000 + 128 * Z.of_nat i)
          (demo_family PROCESS_RUNNABLE) with
  | Some (z, s') => z = 5 /\ exists fp, tree s' (with_kids 0 [fp; 1%nat] one_child) /\ id (proc s' fp) = 42
  | None => False
  end.
Proof.
  pose proof (demo_family_tree PROCESS_RUNNABLE ltac:(done)) as T.
  destruct (demo_family_ok PROCESS_RUNNABLE) as (Hl & Hc & Hr & Hn & Hi).
  assert (match Process_Fork 0x80002000 0x80009000 0x8000a000 (fun i => 0x80600000 + 128 * Z.of_nat i)
            (demo_family PROCESS_RUNNABLE) with Some (z, _) => z | None => 0 end = 5) as E by (vm_compute; reflexivity).
  set (s := demo_family PROCESS_RUNNABLE) in *. clearbody s.
  destruct (Process_Fork _ _ _ _ _) as [[z s']|] eqn:EF; [|discriminate]. split; [done|].
  apply (Process_Fork_correct _ _ _ _ _ one_child 0) in EF; [|done|done|done|done|lia].
  destruct EF as (_ & _ & _ & [[Hz _]|(_ & fp & _ & _ & Tf & _ & Hid & _)]); [by rewrite E in Hz|].
  rewrite Hn in Hid. by exists fp.
Defined.
