(* ===== verification/ProcessProtocol.v ===== *)
(** * Switching to the scheduler: the protocol of the process lock

    An operation that gives up the processor does so with the process lock
    held: the scheduler releases it for other processes, and takes it again
    before it switches back. [protocol] says this of a resumption: at every
    switch the table is a forest, the lock is held and the process does not
    run; and whatever state with these properties it is resumed in, it goes on
    in the same way and ends as its postcondition says. *)

From S2P Require Import Prelude CMem Sync Timer Setup PhysMem PhysInv PageAlloc Paging Process ProcessSpec ProcessTree.

Section Protocol.
Context {S : Type} {PA : PageAllocator S}.
Implicit Types (s : Kernel S) (kids : nat -> list nat).

(** ** The protocol *)

(** Process [i] is on the processor and holds the process lock; [v] is its
    count of preemption vetos. *)
Definition in_section (v : Z) (i : nat) s : Prop :=
  tree_ok s /\ cur s = Some i /\ status (proc s i) = PROCESS_RUNNING /\
  flag (Process_lock s) = true /\ preemption_vetos (thread s) = v.

(** It goes to the scheduler, which has the lock from it. *)
Definition handed (v : Z) (i : nat) s : Prop :=
  tree_ok s /\ cur s = Some i /\ (status (proc s i) = PROCESS_ASLEEP \/ status (proc s i) = PROCESS_RUNNABLE) /\
  flag (Process_lock s) = true /\ preemption_vetos (thread s) = v.

(** [R] holds besides at every switch; [Q] at the end. After [n] switches
    nothing more is said. *)
Inductive protocol {A} (v : Z) (i : nat) (R : Kernel S -> Prop) (Q : A -> Kernel S -> Prop) : nat -> Res A -> Prop :=
  | protocol_cut r : protocol v i R Q 0 r
  | protocol_ret n a s : Q a s -> protocol v i R Q n (Ret a s)
  | protocol_yield n s k :
      handed v i s -> R s -> (forall s', in_section v i s' -> R s' -> protocol v i R Q n (k s')) ->
      protocol v i R Q (Datatypes.S n) (Yield s k).

Lemma protocol_bind {A B} v i R (Q : A -> Kernel S -> Prop) (Q' : B -> Kernel S -> Prop) n r f :
  protocol v i R Q n r -> (forall m a s, (m <= n)%nat -> Q a s -> protocol v i R Q' m (f a s)) ->
  protocol v i R Q' n (res_bind r f).
Proof.
  intros H Hf. induction H as [r|n a s HQ|n s k Hh HR Hk IH]; cbn [res_bind].
  - constructor.
  - by apply Hf.
  - constructor; [done|done|]. intros s' H1 H2. apply IH; [done|done|]. intros m a s0 Hm. apply Hf. lia.
Qed.

(** ** The lock *)

Definition running (i : nat) s : Prop := cur s = Some i /\ status (proc s i) = PROCESS_RUNNING.

Lemma tree_lock s tl : tree_ok s -> tree_ok (set_process_lock tl s).
Proof. intros (kids & T). exists kids. apply (tree_moves s); try done; [apply T|]. intros. apply moves_refl. Qed.

Lemma enter_section i s :
  tree_ok s -> lock_free s -> running i s ->
  exists s1, Process_Lock s = Some s1 /\ in_section (preemption_vetos (thread s) ⊕ 1) i s1 /\
    Scheduler_processes s1 = Scheduler_processes s /\ calm nobody s s1.
Proof.
  intros T [Hf Hv] [Hc Hr]. rewrite Process_Lock_free by done. eexists. split; [done|]. split; [|done].
  split; [by apply tree_lock|]. by split_and!.
Qed.

Lemma leave_section i s s1 :
  lock_free s -> in_section (preemption_vetos (thread s) ⊕ 1) i s1 ->
  tree_ok (Process_Unlock s1) /\ lock_back s (Process_Unlock s1) /\ running i (Process_Unlock s1).
Proof.
  intros [Hf Hv] (T & Hc & Hr & Hl & Hp). split; [by apply tree_lock|]. split; [|by split].
  split; [done|]. cbn. rewrite Hp. by apply veto_inc_dec.
Qed.

Lemma leave_with R s i s1 :
  stable nobody R -> lock_free s -> in_section (preemption_vetos (thread s) ⊕ 1) i s1 -> R s1 ->
  tree_ok (Process_Unlock s1) /\ lock_back s (Process_Unlock s1) /\ running i (Process_Unlock s1) /\ R (Process_Unlock s1).
Proof.
  intros St Hl H1 HR. destruct (leave_section i s s1 Hl H1) as (H2 & H3 & H4). split_and!; try done.
  by apply (St s1).
Qed.

(** A change of status in the section. *)
Lemma tree_status s i st :
  tree_ok s -> live (status (proc s i)) -> status (proc s i) <> PROCESS_DEAD -> live st ->
  tree_ok (upd_proc i (set_status st) s).
Proof.
  intros (kids & T) H1 H2 H3. exists kids. apply (tree_moves s); try done.
  - apply table_upd, T.
  - intros j. destruct (proc_upd_or s i (set_status st) j) as [->|[-> ->]]; [apply moves_refl|].
    split; [by destruct (proc s i)|]. right. by destruct (proc s i).
Qed.

Lemma tree_wakeup s i a : tree_ok s -> tree_ok (upd_proc i (set_wakeup_on a) s).
Proof.
  intros (kids & T). exists kids. apply (tree_moves s); try done.
  - apply table_upd, T.
  - intros j. destruct (proc_upd_or s i (set_wakeup_on a) j) as [->|[-> ->]]; [apply moves_refl|].
    split; [by destruct (proc s i)|]. left. by destruct (proc s i).
Qed.

Lemma running_live i s : status (proc s i) = PROCESS_RUNNING ->
  live (status (proc s i)) /\ status (proc s i) <> PROCESS_DEAD.
Proof. by intros ->. Qed.

Lemma section_lt v i s : in_section v i s -> (i < KERNEL_MAX_PROCS)%nat.
Proof. intros ((kids & T) & _ & Hr & _). apply (live_lt s); [apply T|congruence]. Qed.

Lemma hand_over v i s st :
  in_section v i s -> st = PROCESS_ASLEEP \/ st = PROCESS_RUNNABLE -> handed v i (upd_proc i (set_status st) s).
Proof.
  intros H Hst. pose proof (section_lt _ _ _ H) as Hi. destruct H as ((kids & T) & Hc & Hr & Hl & Hp).
  destruct (running_live i s Hr) as [L1 L2].
  split; [apply tree_status; [by exists kids|done|done|by destruct Hst as [->| ->]]|].
  split; [done|]. split; [|done]. rewrite proc_upd_eq; [|apply T|done]. by destruct Hst as [->| ->]; [left|right].
Qed.

(** ** Preemption *)

Theorem Process_Preempt_protocol R s i c n :
  stable nobody R -> R s ->
  tree_ok s -> lock_free s -> running i s -> timer (kernel_task s) = idle c ->
  protocol (preemption_vetos (thread s) ⊕ 1) i R
    (fun _ s' => tree_ok s' /\ lock_back s s' /\ running i s' /\ R s') (Datatypes.S n) (Process_Preempt s).
Proof.
  intros St HR T Hl Hr Ht. unfold Process_Preempt.
  assert (lock_back s s) as Hb by (split; [apply Hl|done]).
  destruct (STATE_PREEMPTIBLE _); cbn [negb]; [|by constructor].
  destruct Hr as [Hc Hr]. rewrite Hc.
  destruct (enter_section i s T Hl (conj Hc Hr)) as (s1 & -> & Hs & _ & Hq). cbn [lift].
  assert (kernel_task s1 = kernel_task s) as Hk by apply Hq. apply (St _ _ Hq) in HR as HR1.
  unfold Scheduler_Preempt. assert (status (proc s1 i) = PROCESS_RUNNING) as -> by apply Hs.
  rewrite decide_True, Hk, Ht, Timer_Read_idle by done. cbn [mbind option_bind lift].
  destruct (_ <? _).
  - constructor; [by apply hand_over; [|right]| |].
    { apply (St s1); [by apply calm_upd|done]. }
    intros s' Hs' HR'. constructor. apply (leave_with R s i s'); done.
  - constructor. by apply (leave_with R s i s1).
Qed.

(** ** Reaping a child *)

(** The common part of the two places of [Process_Wait]. *)
Definition reap_at (i k : nat) s : Kernel S :=
  upd_proc i (fun p => set_num_children (num_children p ⊖ 1) p) (upd_proc k (set_status PROCESS_IDLE) s).

Lemma proc_reap_at i k s j :
  table_ok s -> (i < KERNEL_MAX_PROCS)%nat -> (k < KERNEL_MAX_PROCS)%nat -> k <> i ->
  proc (reap_at i k s) j =
    if decide (j = i) then set_num_children (num_children (proc s i) ⊖ 1) (proc s i)
    else if decide (j = k) then set_status PROCESS_IDLE (proc s k) else proc s j.
Proof.
  intros Ht Hi Hk Hne. unfold reap_at. rewrite proc_upd by (try apply table_upd; done).
  case_decide as E; [subst; by rewrite proc_upd_ne by done|].
  rewrite proc_upd by done. case_decide; by subst.
Qed.

Lemma reaped_at s i k f x :
  table_ok s -> (i < KERNEL_MAX_PROCS)%nat -> (k < KERNEL_MAX_PROCS)%nat -> k <> i ->
  (forall p, id (f p) = id p /\ parent (f p) = parent p /\ status (f p) = status p /\ num_children (f p) = num_children p) ->
  (x = i \/ forall p, child (f p) = child p) -> reaped i k s (upd_proc x f (reap_at i k s)).
Proof.
  intros Ht Hi Hk Hne Hf Hx. set (s1 := reap_at i k s).
  assert (table_ok s1) as Ht1 by (unfold s1, reap_at; by do 2 apply table_upd).
  assert (forall j, id (proc s1 j) = id (proc s j) /\ parent (proc s1 j) = parent (proc s j) /\
    status (proc s1 j) = (if decide (j = k) then PROCESS_IDLE else status (proc s j)) /\
    child (proc s1 j) = child (proc s j) /\
    num_children (proc s1 j) = (if decide (j = i) then num_children (proc s j) ⊖ 1 else num_children (proc s j))) as P.
  { intros j. unfold s1. rewrite proc_reap_at by done. destruct (decide (j = i)) as [->|].
    - rewrite decide_False by congruence. by split_and!.
    - destruct (decide (j = k)) as [->|]; by split_and!. }
  set (s2 := upd_proc x f s1).
  assert (forall j, proc s2 j = proc s1 j \/ j = x /\ proc s2 j = f (proc s1 j)) as U by apply proc_upd_or.
  split; [by apply table_upd|]. split; [done|]. split; [|split; [|split]].
  - intros j. destruct (P j) as (<- & <- & _). destruct (U j) as [->|[_ ->]]; [done|]. split; apply Hf.
  - intros j. destruct (P j) as (_ & _ & <- & _). destruct (U j) as [->|[_ ->]]; [done|]. apply Hf.
  - intros j Hj. destruct (P j) as (_ & _ & _ & <- & _). destruct (U j) as [->|[-> ->]]; [done|].
    destruct Hx as [->|Hx]; [done|apply Hx].
  - intros j. destruct (P j) as (_ & _ & _ & _ & <-). destruct (U j) as [->|[_ ->]]; [done|]. apply Hf.
Qed.

Lemma calm_reap own i k s : calm own s (reap_at i k s).
Proof. apply (calm_trans _ _ (upd_proc k (set_status PROCESS_IDLE) s)); by apply calm_upd. Qed.

Lemma sibling_reap_at i k s j :
  table_ok s -> (i < KERNEL_MAX_PROCS)%nat -> (k < KERNEL_MAX_PROCS)%nat -> k <> i ->
  sibling (proc (reap_at i k s) j) = sibling (proc s j) /\ child (proc (reap_at i k s) j) = child (proc s j).
Proof. intros. rewrite proc_reap_at by done. repeat case_decide; by subst. Qed.

(** The bounds that all of this asks for. *)
Lemma kid_bounds s kids i k :
  tree s kids -> k ∈ kids i -> table_ok s /\ (i < KERNEL_MAX_PROCS)%nat /\ (k < KERNEL_MAX_PROCS)%nat /\ k <> i.
Proof.
  intros T Hk. split; [apply T|]. split; [|split; [by eapply kid_lt|by eapply kid_ne]].
  apply (live_lt s); [apply T|]. intros Hi. rewrite (t_none _ _ T i) in Hk; [by apply not_elem_of_nil in Hk|].
  rewrite Hi. by intros [? _].
Qed.

(** The first child of [i] is reaped. *)
Lemma reap_first s kids i k l :
  tree s kids -> kids i = k :: l ->
  tree (upd_proc i (set_child (sibling (proc (reap_at i k s) k))) (reap_at i k s)) (with_kids i l (with_kids k [] kids)).
Proof.
  intros T E. assert (k ∈ kids i) as Hk by (rewrite E; constructor).
  destruct (kid_bounds s kids i k T Hk) as (Ht & Hi & Hkl & Hne).
  assert (live (status (proc s i))) as Hl.
  { destruct (decide (live (status (proc s i)))) as [|Hx]; [done|]. by rewrite (t_none _ _ T _ Hx) in E. }
  destruct (t_chain _ _ T i Hl) as [Hch _]. rewrite E in Hch. destruct Hch as [_ Hch].
  assert (forall q j, sibling (proc (upd_proc i (set_child q) (reap_at i k s)) j) = sibling (proc s j)) as Hs.
  { intros q j. destruct (sibling_reap_at i k s j Ht Hi Hkl Hne) as [<- _].
    by destruct (proc_upd_or (reap_at i k s) i (set_child q) j) as [->|[_ ->]]. }
  apply (tree_reap s _ kids i k [] l T E).
  - apply reaped_at; [done..|by intros []|by left].
  - rewrite proc_upd_eq; [|unfold reap_at; by do 2 apply table_upd|done].
    change (child (set_child ?q ?p)) with q. destruct (sibling_reap_at i k s k Ht Hi Hkl Hne) as [-> _].
    eapply chain_ext; [|done]. intros j _. apply Hs.
  - intros j x _ _. apply Hs.
Qed.

(** A child after [a] is reaped. *)
Lemma reap_after s kids i l1 a k l2 :
  tree s kids -> kids i = l1 ++ a :: k :: l2 ->
  tree (upd_proc a (set_sibling (sibling (proc (reap_at i k s) k))) (reap_at i k s))
       (with_kids i (l1 ++ a :: l2) (with_kids k [] kids)).
Proof.
  intros T E. assert (kids i = (l1 ++ [a]) ++ k :: l2) as E' by (rewrite E, <- app_assoc; done).
  assert (k ∈ kids i /\ a ∈ kids i) as [Hk Ha] by (rewrite E; set_solver).
  destruct (kid_bounds s kids i k T Hk) as (Ht & Hi & Hkl & Hne).
  destruct (kid_bounds s kids i a T Ha) as (_ & _ & Hal & Hna).
  assert (live (status (proc s i))) as Hl.
  { destruct (decide (live (status (proc s i)))) as [|Hx]; [done|].
    rewrite (t_none _ _ T _ Hx) in E. by destruct l1. }
  destruct (t_chain _ _ T i Hl) as [Hch _]. rewrite E in Hch.
  pose proof (t_nodup _ _ T i) as Hnd. rewrite E in Hnd.
  set (s1 := reap_at i k s). set (s2 := upd_proc a _ s1).
  assert (table_ok s1) as Ht1 by (unfold s1, reap_at; by do 2 apply table_upd).
  assert (forall j, j <> a -> sibling (proc s2 j) = sibling (proc s j)) as Hs.
  { intros j Hj. unfold s2. rewrite proc_upd_ne by done. by apply sibling_reap_at. }
  assert (sibling (proc s2 a) = sibling (proc s k)) as Hsa.
  { unfold s2. rewrite proc_upd_eq by done. change (sibling (set_sibling ?q ?p)) with q. by apply sibling_reap_at. }
  replace (l1 ++ a :: l2) with ((l1 ++ [a]) ++ l2) by (rewrite <- app_assoc; done).
  apply (tree_reap s _ kids i k _ l2 T E').
  - apply reaped_at; [done..|by intros []|right; by intros []].
  - rewrite <- app_assoc. cbn [app]. unfold s2 at 2. rewrite proc_upd_ne by done.
    unfold s1. destruct (sibling_reap_at i k s i Ht Hi Hkl Hne) as [_ ->].
    apply (chain_unlink s _ _ l1 a k l2 Hch Hsa). intros j Hj. apply Hs. intros ->.
    apply NoDup_app in Hnd as (_ & H1 & H2). apply NoDup_cons in H2 as [H2 _].
    apply elem_of_app in Hj as [Hj|Hj]; [apply (H1 _ Hj); constructor|apply H2; by constructor].
  - intros j x Hj Hx. apply Hs. intros ->. destruct Hj. by apply (t_once _ _ T _ _ a).
Qed.

(** ** Process_Wait *)

(** [z] is the number of a child of [i] whose entry is free again. *)
Definition reports (i : nat) (z : Z) s : Prop :=
  exists k, id (proc s k) = z /\ status (proc s k) = PROCESS_IDLE /\ parent (proc s k) = Some i.

Lemma section_reaped v i k s s' kids :
  in_section v i s -> tree s kids -> k ∈ kids i -> reaped i k s s' -> tree_ok s' ->
  cur s' = cur s -> Process_lock s' = Process_lock s -> thread s' = thread s ->
  in_section v i s' /\ reports i (id (proc s k)) s'.
Proof.
  intros (_ & Hc & Hr & Hl & Hp) T Hk (_ & _ & HI & HS & _) T' Ec El Et.
  destruct (kid_bounds s kids i k T Hk) as (_ & _ & _ & Hne). split.
  - split; [done|]. split; [congruence|]. split; [by rewrite HS, decide_False by congruence|]. by rewrite El, Et.
  - exists k. destruct (HI k) as [-> ->]. split; [done|]. split; [by rewrite HS, decide_True|].
    apply (t_kid _ _ T _ _ Hk). by rewrite Hr.
Qed.

(** The inner loop comes to an end, whether it reaps a child or not. *)
Lemma reap_siblings_spec fuel v i kid l1 l2 s kids :
  tree s kids -> in_section v i s -> kids i = l1 ++ kid :: l2 -> (length l2 < fuel)%nat ->
  exists r s', reap_siblings fuel i kid s = Some (r, s') /\ in_section v i s' /\ calm nobody s s'.
Proof.
  intros T Hs. revert kid l1 l2. induction fuel as [|f IH]; intros kid l1 l2 E Hf; [lia|]. cbn [reap_siblings].
  destruct (t_chain _ _ T i) as [Hch _]; [by apply running_live, Hs|]. rewrite E in Hch.
  apply chain_after in Hch. destruct l2 as [|sib l2]; cbn [chain] in Hch; [rewrite Hch; eexists _, s; split; [done|]; split; [done|apply calm_refl]|].
  destruct Hch as [-> _]. case_decide as Hd.
  - do 2 eexists. split; [done|].
    assert (sib ∈ kids i /\ kid ∈ kids i) as [Hk Ha] by (rewrite E; set_solver).
    destruct (kid_bounds s kids i sib T Hk) as (Ht & Hi & Hkl & Hne).
    split; [|apply (calm_trans _ _ (reap_at i sib s)); [apply calm_reap|by apply calm_upd]].
    eapply (section_reaped v i sib s _ kids); try done.
    + apply reaped_at; [done..|by intros []|right; by intros []].
    + eexists. by apply (reap_after s kids i l1 kid sib l2).
  - cbn [length] in Hf. apply (IH sib (l1 ++ [kid]) l2); [|lia]. by rewrite <- app_assoc.
Qed.

Lemma wait_loop_protocol R v i turns retval s :
  stable nobody R -> R s -> in_section v i s ->
  protocol v i R
    (fun z s' => in_section v i s' /\ R s' /\ (z = wrap32 (-1) /\ num_children (proc s' i) = 0 \/ reports i z s'))
    turns (wait_loop turns i retval s).
Proof.
  intros St. revert retval s. induction turns as [|t IH]; intros retval s HR Hs; [constructor|]. cbn [wait_loop].
  destruct (Z.eqb_spec (num_children (proc s i)) 0) as [Hz|Hz].
  { constructor. split; [done|]. split; [done|]. by left. }
  pose proof Hs as ((kids & T) & _ & Hr & _). destruct (t_chain _ _ T i) as [Hch Hn]; [by apply running_live|].
  destruct (kids i) as [|kid l] eqn:E; [by rewrite Hn in Hz|]. destruct Hch as [-> _].
  assert (kid ∈ kids i) as Hk by (rewrite E; constructor).
  destruct (kid_bounds s kids i kid T Hk) as (Ht & Hi & Hkl & Hne). case_decide as Hd.
  - constructor. set (s' := upd_proc i _ _).
    assert (R s') as HR'.
    { apply (St s); [|done]. apply (calm_trans _ _ (reap_at i kid s)); [apply calm_reap|by apply calm_upd]. }
    destruct (section_reaped v i kid s s' kids) as [H1 H2]; try done; [| |split; [exact H1|split; [exact HR'|by right]]].
    + apply reaped_at; [done..|by intros []|by left].
    + eexists. by apply (reap_first s kids i kid l).
  - destruct (reap_siblings_spec KERNEL_MAX_PROCS v i kid [] l s kids) as (r & s' & -> & Hs' & Hq); [done|done|done| |].
    { pose proof (kids_length s kids i T) as Hlen. rewrite E in Hlen. cbn in Hlen. lia. }
    cbn [lift]. constructor; [apply hand_over; [done|by left]| |intros s2 H2 HR2; by apply IH].
    apply (St s); [|done]. apply (calm_trans _ _ s'); [done|by apply calm_upd].
Qed.

Lemma Process_Wait_run R s i turns :
  stable nobody R -> R s -> tree_ok s -> lock_free s -> running i s ->
  protocol (preemption_vetos (thread s) ⊕ 1) i R
    (fun z s' => (tree_ok s' /\ lock_back s s' /\ running i s' /\ R s') /\
                 (z = wrap32 (-1) /\ num_children (proc s' i) = 0 \/ reports i z s'))
    turns (Process_Wait turns s).
Proof.
  intros St HR T Hl Hr. unfold Process_Wait. destruct (enter_section i s T Hl Hr) as (s1 & -> & Hs & _ & Hq). cbn [lift].
  assert (cur s1 = Some i) as -> by apply Hs.
  eapply protocol_bind; [apply (wait_loop_protocol R); [done|by apply (St s)|done]|].
  intros m z s2 _ (H2 & HR2 & Hz). constructor. split; [by apply leave_with|done].
Qed.


(** ** SleepLock_Acquire *)

(** Process [i] holds the access lock of the sleeping lock [a]; [v] is its
    count of vetos. *)
Definition in_access (v : Z) (i : nat) (a : Z) s : Prop :=
  tree_ok s /\ running i s /\ flag (Process_lock s) = false /\ flag (access_lock (sleeplock s a)) = true /\
  preemption_vetos (thread s) = v.

Lemma tree_sleeplock a l t s : tree_ok s -> tree_ok (set_sleeplock a l t s).
Proof. intros (kids & T). exists kids. apply (tree_moves s); try done; [apply T|]. intros. apply moves_refl. Qed.

Lemma calm_sleeplock a l tl s : calm (eq a) s (set_sleeplock a l tl s).
Proof.
  split_and!; [done|done| |done]. intros b Hb. unfold sleeplock. cbn. by rewrite lookup_insert_ne.
Qed.

Lemma enter_access i a s :
  tree_ok s -> lock_free s -> running i s -> access_free a s ->
  exists s1, access_acquire a s = Some s1 /\ in_access (preemption_vetos (thread s) ⊕ 1) i a s1 /\ calm (eq a) s s1.
Proof.
  intros T [Hf Hv] Hr Ha. rewrite access_acquire_free by done. eexists. split; [done|].
  split; [|apply calm_sleeplock]. split; [by apply tree_sleeplock|]. split; [done|]. split; [done|].
  split; [by rewrite sleeplock_set|done].
Qed.

Lemma leave_access v i a s :
  0 <= v < 4294967296 -> in_access (v ⊕ 1) i a s ->
  let s' := access_release a s in
  tree_ok s' /\ running i s' /\ lock_free s' /\ access_free a s' /\
  preemption_vetos (thread s') = v /\ locked (sleeplock s' a) = locked (sleeplock s a) /\ calm (eq a) s s'.
Proof.
  intros Hv (T & Hr & Hf & _ & Hp). cbv zeta. unfold access_release, SpinLock_Release, access_free, lock_free, vetos_u32.
  rewrite sleeplock_set. assert (v ⊕ 1 ⊖ 1 = v) as E by zdiv.
  split; [by apply tree_sleeplock|]. split; [done|]. cbn. rewrite Hp, E. split_and!; try done; try lia.
  apply (calm_sleeplock a).
Qed.

Lemma section_wakeup v i s b : in_section v i s -> in_section v i (upd_proc i (set_wakeup_on b) s).
Proof.
  intros H. pose proof (section_lt _ _ _ H) as Hi. destruct H as (T & Hc & Hr & Hl & Hp).
  split; [by apply tree_wakeup|]. split; [done|]. split; [|done].
  destruct T as (kids & T). rewrite proc_upd_eq; [done|apply T|done].
Qed.

(** The part of an iteration between the two uses of the access lock: the
    process goes to sleep, and comes back. *)
Lemma sleep_turn {A} R (Q : A -> Kernel S -> Prop) i a n s f :
  stable (eq a) R -> R s -> tree_ok s -> lock_free s -> running i s -> access_free a s ->
  (forall s', tree_ok s' -> lock_back s s' -> running i s' -> access_free a s' -> R s' ->
     protocol (preemption_vetos (thread s) ⊕ 1) i (fun s => access_free a s /\ R s) Q n (f s')) ->
  protocol (preemption_vetos (thread s) ⊕ 1) i (fun s => access_free a s /\ R s) Q (Datatypes.S n)
    (lift (Process_Lock s) (fun s => res_bind (Process_SleepOn a s) (fun _ s => f (Process_Unlock s)))).
Proof.
  intros St HR T Hl Hr Ha Hf. destruct (enter_section i s T Hl Hr) as (s1 & -> & Hs1 & _ & Hq). cbn [lift].
  apply (calm_weaken _ (eq a)) in Hq as Hqa; [|done]. apply (St _ _ Hqa) in HR as HR1.
  assert (access_free a s1) as Ha1 by (unfold access_free; destruct Hq as (_ & _ & -> & _); [done|by intros []]).
  unfold Process_SleepOn. assert (cur s1 = Some i) as -> by apply Hs1. cbn [res_bind]. constructor.
  - apply hand_over; [by apply section_wakeup|by left].
  - split; [done|]. apply (St s1); [|done].
    apply (calm_trans _ _ (upd_proc i (set_wakeup_on a) s1)); by apply calm_upd.
  - intros s3 Hs3 [Ha3 HR3]. apply (section_wakeup _ _ _ PROCESS_ALARM_OFF) in Hs3.
    destruct (leave_section i s _ Hl Hs3) as (T5 & Hb5 & Hr5). apply Hf; try done.
    apply (St s3); [|done]. by apply (calm_upd (eq a)).
Qed.

Lemma sleep_loop_protocol R v i a turns s :
  stable (eq a) R -> R s -> 0 <= v < 4294967296 -> in_access (v ⊕ 1) i a s ->
  protocol (v ⊕ 1) i (fun s => access_free a s /\ R s)
    (fun _ s' => in_access (v ⊕ 1) i a s' /\ R s' /\ locked (sleeplock s' a) = false)
    turns (sleep_loop turns a s).
Proof.
  intros St HR Hv. revert s HR. induction turns as [|t IH]; intros s HR Hs; cbn [sleep_loop]; [constructor|].
  destruct (locked (sleeplock s a)) eqn:El; [|by constructor].
  destruct (leave_access v i a s Hv Hs) as (T1 & Hr1 & Hl1 & Ha1 & Hp1 & _ & Hq).
  set (s1 := access_release a s) in *. clearbody s1. apply (St _ _ Hq) in HR. rewrite <- Hp1 at 1.
  apply (sleep_turn R _ i a t s1 (fun s => lift (access_acquire a s) (sleep_loop t a))); try done.
  intros s5 T5 Hb5 Hr5 Ha5 HR5. pose proof (lock_back_free _ _ Hl1 Hb5) as Hl5.
  destruct (enter_access i a s5 T5 Hl5 Hr5 Ha5) as (s6 & -> & Hs6 & Hq6). cbn [lift].
  destruct Hb5 as [_ Hb5]. rewrite Hb5, Hp1 in Hs6. rewrite Hp1. apply IH; [by apply (St s5)|done].
Qed.

Lemma SleepLock_Acquire_run R s i a turns :
  stable (eq a) R -> R s -> tree_ok s -> lock_free s -> running i s -> access_free a s ->
  protocol (preemption_vetos (thread s) ⊕ 1) i (fun s => access_free a s /\ R s)
    (fun _ s' => (tree_ok s' /\ lock_back s s' /\ running i s' /\ access_free a s' /\ R s') /\
       locked (sleeplock s' a) = true /\
       exists s1, locked (sleeplock s1 a) = false /\ flag (access_lock (sleeplock s1 a)) = true /\
                  s' = access_release a (set_locked a true s1))
    turns (SleepLock_Acquire turns a s).
Proof.
  intros St HR T Hl Hr Ha. unfold SleepLock_Acquire. assert (cur s = Some i) as -> by apply Hr.
  destruct (enter_access i a s T Hl Hr Ha) as (s1 & -> & Hs1 & Hq). cbn [lift].
  assert (0 <= preemption_vetos (thread s) < 4294967296) as Hv by apply Hl.
  eapply protocol_bind; [apply (sleep_loop_protocol R); [done|by apply (St s)|done|done]|].
  intros m u s2 _ (H2 & HR2 & Hop). constructor.
  assert (in_access (preemption_vetos (thread s) ⊕ 1) i a (set_locked a true s2)) as H3.
  { destruct H2 as (T2 & Hr2 & Hf2 & Ha2 & Hp2). split; [by apply tree_sleeplock|]. split; [done|]. split; [done|].
    split; [|done]. unfold set_locked. by rewrite sleeplock_set. }
  destruct (leave_access _ i a _ Hv H3) as (H4 & H5 & H6 & H7 & H8 & H9 & Hq3).
  split; [|split].
  - split_and!; try done; [split; [apply H6|done]|]. apply (St _ _ Hq3), (St s2); [apply calm_sleeplock|done].
  - rewrite H9. unfold set_locked. by rewrite sleeplock_set.
  - exists s2. split; [done|]. split; [apply H2|done].
Qed.

(** C27. Acquiring a sleeping lock. However often the process sleeps on it, the
    table stays a forest and the process lock is handed over as the scheduler
    expects it; at the end the process holds the lock, which it has found
    open while it held the access lock, and both spin locks are free. [R] is
    any property of the rest of the kernel that the caller relies on: the
    call keeps it if those do that run in between. *)
Theorem SleepLock_Acquire_protocol R s i a turns :
  stable (eq a) R -> R s -> tree_ok s -> lock_free s -> running i s -> access_free a s ->
  protocol (preemption_vetos (thread s) ⊕ 1) i (fun s => access_free a s /\ R s)
    (fun _ s' => (tree_ok s' /\ lock_back s s' /\ running i s' /\ access_free a s' /\ R s') /\
       locked (sleeplock s' a) = true /\
       exists s1, locked (sleeplock s1 a) = false /\ flag (access_lock (sleeplock s1 a)) = true /\
                  s' = access_release a (set_locked a true s1))
    turns (SleepLock_Acquire turns a s).
Proof. apply SleepLock_Acquire_run. Qed.

(** ** The scheduler, alarms, the end of a process *)

Lemma tree_schedule i b s s' :
  tree_ok s -> schedule_turn i s = Some (b, s') -> tree_ok s'.
Proof.
  intros T. unfold schedule_turn. destruct (Process_Lock s) as [s1|] eqn:E; [|done]. cbn [mbind option_bind].
  apply Process_Lock_same in E as (tl & ->). apply (tree_lock s tl) in T. set (s1 := set_process_lock tl s) in *.
  clearbody s1. case_decide as Hr; [|intros [= <- <-]; by apply tree_lock].
  assert (tree_ok (upd_proc i (set_status PROCESS_RUNNING) s1)) as (kids & T2).
  { apply tree_status; [done| | |done]; by rewrite Hr. }
  set (s2 := upd_proc i _ s1) in *. clearbody s2. unfold Context_SetupProcess.
  destruct (Timer_Read _) as [t|]; [|done]. cbn [mbind option_bind]. intros [= <- <-].
  exists kids. apply (tree_moves s2); try done; [apply table_upd, T2|]. intros j.
  match goal with |- moves _ (proc (upd_proc i ?f ?x) j) => destruct (proc_upd_or x i f j) as [H|[-> H]]; rewrite H end.
  - apply moves_refl.
  - split; [done|by left].
Qed.

Lemma tree_alarm a s : tree_ok s -> tree_ok (Scheduler_RaiseAlarm a s).
Proof.
  intros (kids & T). exists kids. apply (tree_moves s); try done; [by apply table_RaiseAlarm, T|]. intros j.
  rewrite proc_RaiseAlarm by apply T. case_decide; [|apply moves_refl].
  destruct (wake_cases a (proc s j)) as [[[Hs _] ->]|[_ ->]]; [|apply moves_refl].
  split; [by destruct (proc s j)|]. right. rewrite Hs. by destruct (proc s j).
Qed.

(** The loop of [Process_Terminate] over the children comes to its end. *)
Lemma orphan_spec fuel p l s :
  table_ok s -> chain s p l -> NoDup l -> (forall k, k ∈ l -> (k < KERNEL_MAX_PROCS)%nat) -> (length l <= fuel)%nat ->
  exists ps, orphan fuel p s = Some (set_procs (fun _ => ps) s) /\ length ps = KERNEL_MAX_PROCS /\
    forall j, proc (set_procs (fun _ => ps) s) j =
      if decide (j ∈ l) then set_parent (Process_primordial s) (proc s j) else proc s j.
Proof.
  revert p l s. induction fuel as [|f IH]; intros p [|k l] s Ht Hc Hnd Hb Hf; cbn [length] in Hf; [|lia| |];
    cbn [chain] in Hc.
  1-2: subst p; exists (Scheduler_processes s); split; [by destruct s|]; split; [done|]; intros j;
       rewrite decide_False by apply not_elem_of_nil; by destruct s.
  destruct Hc as [-> Hc]. cbn [orphan]. apply NoDup_cons in Hnd as [Hk Hnd].
  set (s1 := upd_proc k _ s). assert (table_ok s1) as Ht1 by by apply table_upd.
  assert (k < KERNEL_MAX_PROCS)%nat as Hkl by (apply Hb; constructor).
  assert (forall j, sibling (proc s1 j) = sibling (proc s j)) as Hs.
  { intros j. by destruct (proc_upd_or s k (set_parent (Process_primordial s)) j) as [H|[_ H]]; unfold s1; rewrite H. }
  destruct (IH (sibling (proc s1 k)) l s1) as (ps & E & Hl & Hp); [done| |done| |lia|].
  - rewrite Hs. eapply chain_ext; [|done]. intros j _. apply Hs.
  - intros j Hj. apply Hb. by constructor.
  - exists ps. split; [exact E|]. split; [done|]. intros j.
    change (proc (set_procs (fun _ => ps) s) j) with (proc (set_procs (fun _ => ps) s1) j). rewrite Hp.
    change (Process_primordial s1) with (Process_primordial s). unfold s1. rewrite proc_upd by done.
    destruct (decide (j = k)) as [->|Hne].
    + rewrite decide_False by done. rewrite decide_True; [done|constructor].
    + destruct (decide (j ∈ l)) as [Hj|Hj].
      * rewrite decide_True; [done|by constructor].
      * rewrite decide_False; [done|]. by intros [?|?]%elem_of_cons.
Qed.

Lemma Process_Terminate_run s kids i st s' :
  tree s kids -> live (status (proc s i)) -> Process_Terminate i st s = Some s' ->
  tree s' kids /\ calm nobody s s' /\ Process_lock s' = Process_lock s /\ thread s' = thread s /\
  status (proc s' i) = PROCESS_DEAD /\ exit_code (proc s' i) = st /\
  (forall j, j <> i -> proc s' j = if decide (j ∈ kids i) then set_parent (Process_primordial s) (proc s j) else proc s j) /\
  (forall j, child (proc s' j) = child (proc s j) /\ num_children (proc s' j) = num_children (proc s j)).
Proof.
  intros T Hl. unfold Process_Terminate.
  destruct (orphan_spec KERNEL_MAX_PROCS (child (proc s i)) (kids i) s) as (ps & -> & Hlen & Hp).
  { apply T. } { by apply (t_chain _ _ T). } { apply T. } { intros k Hk. by apply (kid_lt s kids i). } { by apply (kids_length s kids i). }
  cbn [mbind option_bind]. set (s1 := set_procs (fun _ => ps) s) in *.
  assert (i ∉ kids i) as Hii by (intros Hk; by apply (kid_ne _ _ _ _ T Hk)).
  assert (proc s1 i = proc s i) as Hi1 by by rewrite Hp, decide_False.
  assert (i < KERNEL_MAX_PROCS)%nat as Hi by (apply (live_lt s); [apply T|apply Hl]).
  assert (table_ok s1) as Ht1 by done.
  destruct (Paging_Terminate _ _) as [ps1|]; [|done]. cbn [mbind option_bind].
  destruct (pa_release _ _ ps1) as [ps2|]; [|done]. cbn [mbind option_bind]. set (s2 := upd_proc i (set_status _) _).
  assert (proc s2 i = set_status PROCESS_DEAD (set_exit_code st (proc s i))) as Hi2 by (unfold s2; procs; by rewrite Hi1).
  assert (forall j, j <> i -> proc s2 j = if decide (j ∈ kids i) then set_parent (Process_primordial s) (proc s j) else proc s j) as Ho.
  { intros j Hj. unfold s2. procs. apply Hp. }
  assert (table_ok s2) as Ht2 by (unfold s2; table).
  assert (calm nobody s s2) as Hc.
  { split_and!; [done..|]. intros j. destruct (decide (j = i)) as [->|Hj]; [by rewrite Hi2|].
    rewrite Ho by done. by case_decide. }
  assert (Process_next_pid s2 = Process_next_pid s /\ Process_lock s2 = Process_lock s /\ thread s2 = thread s) as (Hn & Hlk & Hth) by done.
  clearbody s2. intros [= <-].
  split; [|rewrite Hi2; split_and!; try done].
  - apply (tree_terminate s s2 kids i (Process_primordial s)); try done; by rewrite Hi2.
  - intros j. destruct (decide (j = i)) as [->|Hj]; [by rewrite Hi2|]. rewrite Ho by done. by case_decide.
Qed.

Lemma Process_Terminate_returns s kids i st ps1 ps2 :
  tree s kids -> live (status (proc s i)) ->
  Paging_Terminate (cr3_of s i) (pages s) = Some ps1 ->
  pa_release (base (kernel_stack (proc s i))) STACK_ORDER ps1 = Some ps2 ->
  exists s', Process_Terminate i st s = Some s' /\ pages s' = ps2.
Proof.
  intros T Hl E1 E2. unfold Process_Terminate.
  destruct (orphan_spec KERNEL_MAX_PROCS (child (proc s i)) (kids i) s) as (ps & -> & Hlen & Hp).
  { apply T. } { by apply (t_chain _ _ T). } { apply T. } { intros k Hk. by apply (kid_lt s kids i). } { by apply (kids_length s kids i). }
  cbn [mbind option_bind]. set (s1 := set_procs (fun _ => ps) s) in *.
  assert (proc s1 i = proc s i) as Hi1.
  { rewrite Hp, decide_False; [done|]. intros Hk. by apply (kid_ne _ _ _ _ T Hk). }
  assert (cr3_of s1 i = cr3_of s i) as -> by (unfold cr3_of; by rewrite Hi1).
  change (pages s1) with (pages s). rewrite E1. cbn [mbind option_bind]. rewrite Hi1, E2. by eexists.
Qed.

(** C28. The end of a process. It is dead with its exit code; its children, however
    many, have the primordial process as their parent, but no list of children
    changes: the dead process keeps them, and the primordial one, which waits
    for those on its own list, never finds them. *)
Theorem Process_Terminate_correct s kids i st ps1 ps2 :
  tree s kids -> live (status (proc s i)) ->
  Paging_Terminate (cr3_of s i) (pages s) = Some ps1 ->
  pa_release (base (kernel_stack (proc s i))) STACK_ORDER ps1 = Some ps2 ->
  exists s', Process_Terminate i st s = Some s' /\ tree s' kids /\ pages s' = ps2 /\
    status (proc s' i) = PROCESS_DEAD /\ exit_code (proc s' i) = st /\
    (forall k, k ∈ kids i -> parent (proc s' k) = Process_primordial s) /\
    (forall j, child (proc s' j) = child (proc s j) /\ num_children (proc s' j) = num_children (proc s j)).
Proof.
  intros T Hl E1 E2. destruct (Process_Terminate_returns s kids i st ps1 ps2 T Hl E1 E2) as (s' & E & Hps).
  destruct (Process_Terminate_run s kids i st s' T Hl E) as (H1 & _ & _ & _ & H2 & H3 & H4 & H5).
  exists s'. split_and!; try done. intros k Hk. rewrite H4 by by apply (kid_ne s kids i). by rewrite decide_True.
Qed.

(** ** The first entry of a new process *)

(** The count of vetos that a new process starts with. *)
Lemma State_Initialize_vetos `{!PageAllocatorLaws S} (process_addr : nat -> Z) i s :
  STATE_FROM_PROC (proc s i) <= 0xFFFFFFF0 ->
  load32 (pa_mem (pages (State_Initialize process_addr i s))) (STATE_FROM_PROC (proc s i)) = 0.
Proof.
  intros H. unfold State_Initialize. cbn [pages set_pages]. rewrite pa_mem_set.
  set (a := STATE_FROM_PROC (proc s i)) in *. assert (0 <= a) as Ha by apply wrap32_range.
  transitivity (load32 (store32 (store32 (pa_mem (pages s)) (a + 5) (process_addr i)) a 0) a).
  - apply load_ext. intros j Hj. rewrite load8_store8_in by lia. case_cmp; [lia|done].
  - by rewrite load32_store32_eq by lia.
Qed.

(** C38. A new process starts with a veto count of 0 and, unlike one that comes
    back from a switch, has not taken the process lock that it releases: its
    count goes below 0. From then on preemption is vetoed where it should be
    possible, and possible exactly while the process holds a spin lock: when a
    timer interrupt comes inside of the process lock, it waits for that lock
    for ever. *)
Theorem FirstEntry_underflow `{!PageAllocatorLaws S} (process_addr : nat -> Z) s0 s i :
  STATE_FROM_PROC (proc s0 i) <= 0xFFFFFFF0 ->
  preemption_vetos (thread s) =
    load32 (pa_mem (pages (State_Initialize process_addr i s0))) (STATE_FROM_PROC (proc s0 i)) ->
  cur s = Some i ->
  let s' := Process_FirstEntryToUserSpace s in
  preemption_vetos (thread s') = 4294967295 /\ flag (Process_lock s') = false /\ Process_Preempt s' = Ret () s' /\
  exists s1, Process_Lock s' = Some s1 /\ STATE_PREEMPTIBLE (thread s1) = true /\ Process_Preempt s1 = Spin.
Proof.
  intros Hb Hv Hc. rewrite State_Initialize_vetos in Hv by done. cbv zeta.
  assert (preemption_vetos (thread (Process_FirstEntryToUserSpace s)) = 4294967295) as Hv'.
  { cbn. by rewrite Hv. }
  split; [done|]. split; [done|]. split.
  - unfold Process_Preempt, STATE_PREEMPTIBLE. by rewrite Hv'.
  - rewrite Process_Lock_free by done. eexists. split; [done|].
    set (s1 := set_process_lock _ _).
    assert (STATE_PREEMPTIBLE (thread s1) = true) as Hp.
    { unfold STATE_PREEMPTIBLE, s1. cbn [thread set_process_lock fst STATE_INCREMENT_PREEMPTION_VETO preemption_vetos].
      by rewrite Hv'. }
    split; [done|]. unfold Process_Preempt. rewrite Hp. cbn [negb]. change (cur s1) with (cur s). rewrite Hc. done.
Qed.

End Protocol.

(** ** Instances *)

Lemma demo_running st : running 0 (demo_family st).
Proof. by split. Qed.


(** The lock is taken: the process goes to sleep. *)
Lemma SleepLock_Acquire_protocol_witness :
  exists s' k, SleepLock_Acquire 2 9 (set_locked 9 true (demo_family PROCESS_ASLEEP)) = Yield s' k /\
    handed 1 0 s' /\ (access_free 9 s' /\ True).
Proof.
  set (s := set_locked 9 true (demo_family PROCESS_ASLEEP)).
  assert (tree_ok s) as T by (apply tree_sleeplock; eexists; by apply demo_family_tree).
  pose proof (SleepLock_Acquire_protocol (fun _ => True) s 0 9 2 ltac:(done) I T ltac:(by split) ltac:(by split) ltac:(done)) as H.
  assert (match SleepLock_Acquire 2 9 s with Yield _ _ => true | _ => false end = true) as E by (vm_compute; reflexivity).
  destruct (SleepLock_Acquire 2 9 s) as [|s' k|]; [discriminate| |discriminate].
  inversion H; subst. by exists s', k.
Defined.

(** A process of which the stack ends at 0x80401000. *)
Definition demo_stack : Process := set_kernel_stack (mkStack 0x80400000 0 0x1000 0) (demo_process PROCESS_BOOKED 5).

Lemma FirstEntry_underflow_witness :
  let s := State_Initialize (fun _ => 0x80600000) 0 (demo_kernel [demo_stack]) in
  preemption_vetos (thread (Process_FirstEntryToUserSpace (demo_kernel [demo_stack]))) = 4294967295 /\
  preemption_vetos (thread (demo_kernel [demo_stack])) = load32 (pa_mem (pages s)) (STATE_FROM_PROC (proc s 0)).
Proof.
  cbv zeta. split; [|by vm_compute].
  by apply (FirstEntry_underflow (fun _ => 0x80600000) (demo_kernel [demo_stack]) (demo_kernel [demo_stack]) 0).
Defined.

(** An allocator without a page to give, that takes any page. *)
Definition no_pages : PageAllocator Mem := {|
  pa_mem m := m; pa_set_mem f := f;
  pa_acquire _ m := Some (PAGE_LIST_NULL, m); pa_release _ _ m := Some m |}.
#[local] Existing Instance no_pages.

(** Unmapping the pages of an empty directory changes nothing. *)
Lemma unmap_pages_absent {S} {PA : PageAllocator S} fuel cr3 va va_end b (s : S) :
  (forall i, entry_get (pa_mem s) cr3 i = 0) -> 0 <= va -> va_end < KERNEL_MMAP_VIRTUAL_START ->
  va_end < va + 4096 * Z.of_nat fuel -> exists b', unmap_pages_loop (Datatypes.S fuel) cr3 va va_end b s = Some (b', s).
Proof.
  intros H0. assert (forall va, Paging_UnmapPage cr3 va s = Some (false, s)) as HU.
  { intros x. unfold Paging_UnmapPage. by rewrite H0. }
  revert va b. induction fuel as [|f IH]; intros va b Hva He Hf;
    change (unmap_pages_loop (Datatypes.S ?n) ?c ?x ?e ?g s) with
      (if KERNEL_MMAP_VIRTUAL_START <=? x then Some (true, s) else if e <? x then Some (g, s)
       else '(ok, s) ← Paging_UnmapPage c x s;
            unmap_pages_loop n c (x ⊕ PAGESIZE) e (if negb (ok : bool) then true else g) s).
  all: destruct (Z.leb_spec KERNEL_MMAP_VIRTUAL_START va); [by eexists|].
  all: destruct (Z.ltb_spec va_end va); [by eexists|].
  - lia.
  - rewrite HU. cbn [mbind option_bind]. change PAGESIZE with 4096.
    unfold KERNEL_MMAP_VIRTUAL_START in *. rewrite wrap32_small by lia. apply IH; lia.
Qed.

Lemma Process_Terminate_correct_witness :
  let s := demo_family PROCESS_RUNNABLE in
  let s := mkKernel (S := Mem) (Scheduler_processes s) (mkSpinLock false) (Some 0%nat) 42 ∅ (mkThread true 0 0)
             (Some 0%nat) (mkKProc 0x80500000 0 (idle 7)) ∅ in
  exists s', Process_Terminate 0 3 s = Some s' /\
    status (proc s' 0) = PROCESS_DEAD /\ parent (proc s' 1) = Some 0%nat.
Proof.
  cbv zeta. set (s := mkKernel _ _ _ _ _ _ _ _ _).
  assert (tree s one_child) as T by by apply (tree_one_child s demo_parent (demo_child PROCESS_RUNNABLE) (KERNEL_MAX_PROCS - 2)).
  assert (live (status (proc s 0))) as Hl by done. assert (Process_primordial s = Some 0%nat) as Hp by done.
  assert (is_Some (Paging_Terminate (cr3_of s 0) (pages s))) as [ps E1].
  { destruct (unmap_pages_absent (Z.to_nat 524288) (cr3_of s 0) 0 0x7FFFF000 false (pages s)) as [b E];
      [done..|rewrite Z2Nat.id by lia; lia|].
    unfold Paging_Terminate, Paging_UnmapPages.
    replace (Z.to_nat (KERNEL_MMAP_VIRTUAL_START / PAGESIZE + 1)) with (Datatypes.S (Z.to_nat 524288))
      by (rewrite <- Z2Nat.inj_succ by lia; f_equal).
    change (PAGEADDRESS (0 ⊕ (PAGESIZE - 1))) with 0.
    change (PAGEADDRESS (0 ⊕ KERNEL_MMAP_VIRTUAL_START ⊖ 1)) with 0x7FFFF000.
    rewrite E. cbn [mbind option_bind].
    assert (bool_decide (is_Some (release_tables 513 (cr3_of s 0) 0 (pages s) ≫= pa_release (cr3_of s 0) 0)) = true) as B
      by (vm_compute; reflexivity).
    by apply bool_decide_eq_true in B. }
  clearbody s. destruct (Process_Terminate_correct s one_child 0 3 ps ps T Hl E1 eq_refl)
    as (s' & H1 & _ & _ & H2 & _ & H3 & _).
  exists s'. split; [exact H1|]. split; [exact H2|]. rewrite <- Hp. apply H3. constructor.
Defined.
