(* ===== verification/Machine.v ===== *)
(** * One processor: the scheduler and the processes together

    The machine has the kernel's state, the scheduler's loop, and for every
    process that has been switched away from the rest of its operation. A step
    is a turn of the scheduler, an operation of the process on the processor up
    to its end or its next switch, or a tick of the timer. The switch itself
    ([SCHEDULER_SWITCH], [SCHEDULER_RETURN]) is assembly: it exchanges the
    thread state, which lies on the stack, and with it [STATE_CURRENT].

    In every reachable state the table of processes is a forest, the process
    lock and the locks of the sleeping locks are free, and only the process on
    the processor is running; and no operation waits for a spin lock. *)

From S2P Require Import Prelude CMem Sync Timer Setup PhysMem PhysInv PageAlloc Paging Process ProcessSpec ProcessTree ProcessProtocol.

Section Machine.
Context {S : Type} {PA : PageAllocator S}.
Context (Kernel_pagedirectory Interrupt_Return Process_FirstEntry_addr : Z) (process_addr : nat -> Z).
Implicit Types (s : Kernel S).

(** ** The machine *)

(** What a process may ask for; [Kill j st] ends another process, with the
    process lock held as [Process_Terminate] requires. *)
Inductive Op := Preempt | Wait | Acquire (a : Z) | Release (a : Z) | Fork | Kill (j : nat) (st : Z).

Definition exec (turns : nat) (op : Op) s : Res () :=
  match op with
  | Preempt => Process_Preempt s
  | Wait => res_bind (Process_Wait turns s) (fun _ s => Ret () s)
  | Acquire a => SleepLock_Acquire turns a s
  | Release a => lift (SleepLock_Release a s) (Ret ())
  | Fork => lift (Process_Fork Kernel_pagedirectory Interrupt_Return Process_FirstEntry_addr process_addr s)
              (fun r => Ret () r.2)
  | Kill j st => lift (Process_Lock s) (fun s => lift (Process_Terminate j st s) (fun s => Ret () (Process_Unlock s)))
  end.

(** A live process other than the caller can be ended; process numbers are
    not used up. *)
Definition allowed (i : nat) (op : Op) s : Prop :=
  match op with
  | Fork => 0 <= Process_next_pid s < 4294967295
  | Kill j _ => j <> i /\ live (status (proc s j))
  | _ => True
  end.

(** The processor's thread and process. *)
Definition on_cpu (t : Thread) (c : option nat) s : Kernel S :=
  mkKernel (Scheduler_processes s) (Process_lock s) (Process_primordial s) (Process_next_pid s)
           (sleeplocks s) t c (kernel_task s) (pages s).
Definition tick s : Kernel S :=
  set_kernel_task (mkKProc (kproc_addr (kernel_task s)) (esp0 (kernel_task s)) (Timer_Increment (timer (kernel_task s)))) s.

Inductive Mode := Scheduling (iproc : nat) | Executing (i : nat).
Definition Suspended := gmap nat (Thread * (Kernel S -> Res (S := S) ())).
Record Machine := mkMachine {
  kern : Kernel S;
  mode : Mode;
  sched : Thread;          (* of the scheduler, while a process executes *)
  susp : Suspended
}.

(** The operation of process [i] has come to its end or to a switch. *)
Inductive outcome (i : nat) (ks : Thread) (su : Suspended) : Res (S := S) () -> Machine -> Prop :=
  | outcome_ret s : outcome i ks su (Ret () s) (mkMachine s (Executing i) ks su)
  | outcome_yield s k :
      outcome i ks su (Yield s k)
        (mkMachine (Process_Unlock (on_cpu ks None s)) (Scheduling (next_iproc i)) ks (<[i := (thread s, k)]> su)).

(** [turns] is the number of wake-ups the loops of the model allow. *)
Inductive step (turns : nat) : Machine -> Machine -> Prop :=
  | step_skip i s s' ks su :
      schedule_turn i s = Some (false, s') ->
      step turns (mkMachine s (Scheduling i) ks su) (mkMachine s' (Scheduling (next_iproc i)) ks su)
  | step_resume i s s1 ks su t k M :
      schedule_turn i s = Some (true, s1) -> su !! i = Some (t, k) ->
      outcome i (thread s1) (delete i su) (k (on_cpu t (Some i) s1)) M ->
      step turns (mkMachine s (Scheduling i) ks su) M
  | step_first i s s1 ks su t :
      schedule_turn i s = Some (true, s1) -> su !! i = None -> preemption_vetos t = 0 ->
      step turns (mkMachine s (Scheduling i) ks su)
        (mkMachine (Process_FirstEntryToUserSpace (on_cpu t (Some i) s1)) (Executing i) (thread s1) su)
  | step_op i op s ks su M :
      allowed i op s ->
      outcome i ks (match op with Kill j _ => delete j su | _ => su end) (exec turns op s) M ->
      step turns (mkMachine s (Executing i) ks su) M
  | step_tick s m ks su :
      step turns (mkMachine s m ks su) (mkMachine (tick s) m ks su).

(** ** The invariant *)

(** What holds outside of the spin locks, whoever is on the processor. *)
Definition resting s : Prop :=
  (forall a, access_free a s) /\ (exists c, timer (kernel_task s) = idle c) /\
  (forall j, status (proc s j) = PROCESS_RUNNING -> cur s = Some j).

(** A process has come to the end of its operation. *)
Definition ready (v : Z) (i : nat) s : Prop :=
  tree_ok s /\ flag (Process_lock s) = false /\ preemption_vetos (thread s) = v /\ running i s /\ resting s.

Definition resumable (n : nat) (j : nat) (tk : Thread * (Kernel S -> Res (S := S) ())) : Prop :=
  exists v, 0 <= v < 4294967296 /\ preemption_vetos tk.1 = v ⊕ 1 /\
    forall s, in_section (v ⊕ 1) j s -> resting s ->
      protocol (v ⊕ 1) j resting (fun _ => ready v j) n (tk.2 s).

(** For [n] more steps. *)
Definition machine_ok (n : nat) (M : Machine) : Prop :=
  tree_ok (kern M) /\ lock_free (kern M) /\ resting (kern M) /\
  match mode M with
  | Scheduling i => cur (kern M) = None /\ (i < KERNEL_MAX_PROCS)%nat
  | Executing i => running i (kern M) /\ exists v, 0 <= v < 4294967296 /\ preemption_vetos (sched M) = v ⊕ 1
  end /\
  (forall j tk, susp M !! j = Some tk -> resumable n j tk).

(** ** Lemmas on the protocol *)

Lemma protocol_mono {A} v i R (Q : A -> Kernel S -> Prop) m n r :
  (m <= n)%nat -> protocol v i R Q n r -> protocol v i R Q m r.
Proof.
  intros Hm H. revert m Hm. induction H as [r|n a s HQ|n s k Hh HR Hk IH]; intros [|m] Hm; try constructor; try done; [lia|].
  intros s' H1 H2. apply IH; [done|done|lia].
Qed.

Lemma protocol_weaken {A} v i (R R' : Kernel S -> Prop) (Q Q' : A -> Kernel S -> Prop) n r :
  (forall s, R s <-> R' s) -> (forall a s, Q a s -> Q' a s) -> protocol v i R Q n r -> protocol v i R' Q' n r.
Proof.
  intros HR HQ H. induction H as [r|n a s H|n s k Hh H Hk IH]; constructor; try done; [by apply HQ|by apply HR|].
  intros s' H1 H2. apply IH; [done|by apply HR].
Qed.

Lemma resting_stable : stable nobody resting.
Proof.
  intros s s' (H1 & H2 & H3 & H4) (K1 & K2 & K3). split; [|split].
  - intros a. unfold access_free. rewrite H3 by (by intros []). apply K1.
  - by rewrite H2.
  - intros j Hj. rewrite H1. by apply K3, H4.
Qed.

(** [resting] apart from the lock [a]. *)
Definition resting_but (a : Z) s : Prop :=
  (forall b, b <> a -> access_free b s) /\ (exists c, timer (kernel_task s) = idle c) /\
  (forall j, status (proc s j) = PROCESS_RUNNING -> cur s = Some j).

Lemma resting_but_stable a : stable (eq a) (resting_but a).
Proof.
  intros s s' (H1 & H2 & H3 & H4) (K1 & K2 & K3). split; [|split].
  - intros b Hb. unfold access_free. rewrite H3 by congruence. by apply K1.
  - by rewrite H2.
  - intros j Hj. rewrite H1. by apply K3, H4.
Qed.

Lemma resting_split a s : access_free a s /\ resting_but a s <-> resting s.
Proof.
  split; [intros [H1 (H2 & H3 & H4)]|intros (H1 & H3 & H4)].
  - split; [|done]. intros b. destruct (decide (b = a)) as [->|]; [done|]. by apply H2.
  - split; [done|]. split; [|done]. intros b _. done.
Qed.

Lemma in_range t : vetos_u32 t -> 0 <= preemption_vetos t < 4294967296.
Proof. done. Qed.
Lemma wrap_next v : 0 <= v < 4294967296 -> v ⊕ 1 ⊖ 1 = v.
Proof. intros. zdiv. Qed.

Lemma ready_back v i s s' :
  preemption_vetos (thread s) = v -> tree_ok s' /\ lock_back s s' /\ running i s' /\ resting s' -> ready v i s'.
Proof. intros Hv (H1 & [H2 H3] & H4 & H5). split_and!; try done. congruence. Qed.

Lemma tree_same s s' :
  Scheduler_processes s' = Scheduler_processes s -> Process_next_pid s' = Process_next_pid s -> tree_ok s -> tree_ok s'.
Proof.
  intros Hp Hn (kids & T). assert (forall j, proc s' j = proc s j) as P by (intros j; unfold proc; by rewrite Hp).
  exists kids. apply (tree_moves s); [done| |done|].
  - unfold table_ok. rewrite Hp. apply T.
  - intros j. rewrite P. apply moves_refl.
Qed.

(** ** The operations *)

Lemma Preempt_keeps n i s :
  tree_ok s -> lock_free s -> resting s -> running i s ->
  protocol (preemption_vetos (thread s) ⊕ 1) i resting (fun _ => ready (preemption_vetos (thread s)) i) n (Process_Preempt s).
Proof.
  intros T Hl HR Hr. destruct (HR) as (_ & (c & Hc) & _). apply (protocol_mono _ _ _ _ _ (Datatypes.S n)); [lia|].
  eapply protocol_weaken; [done| |by apply (Process_Preempt_protocol resting s i c n); [apply resting_stable|..]].
  intros u s'. by apply ready_back.
Qed.

Lemma Wait_keeps n i s :
  tree_ok s -> lock_free s -> resting s -> running i s ->
  protocol (preemption_vetos (thread s) ⊕ 1) i resting (fun _ => ready (preemption_vetos (thread s)) i) n (res_bind (Process_Wait n s) (fun _ s => Ret () s)).
Proof.
  intros T Hl HR Hr. eapply protocol_bind; [by apply (Process_Wait_run resting); [apply resting_stable|..]|].
  intros m z s' _ [H _]. constructor. by apply (ready_back _ i s).
Qed.

Lemma Acquire_keeps n i a s :
  tree_ok s -> lock_free s -> resting s -> running i s ->
  protocol (preemption_vetos (thread s) ⊕ 1) i resting (fun _ => ready (preemption_vetos (thread s)) i) n (SleepLock_Acquire n a s).
Proof.
  intros T Hl HR Hr. apply (resting_split a) in HR as [Ha HR].
  eapply protocol_weaken; [apply resting_split| |by apply (SleepLock_Acquire_run (resting_but a)); [apply resting_but_stable|..]].
  intros u s' ((H1 & H2 & H3 & H4 & H5) & _). apply (ready_back _ i s); [done|]. split; [done|]. split; [done|]. split; [done|].
  by apply (resting_split a).
Qed.

Lemma Release_keeps i a s :
  tree_ok s -> lock_free s -> resting s -> running i s ->
  exists s', SleepLock_Release a s = Some s' /\ ready (preemption_vetos (thread s)) i s'.
Proof.
  intros T [Hf Hv] (Hacc & Htm & Hrun) [Hc Hr]. assert (table_ok s) as Ht by (destruct T as (kids & T); apply T).
  destruct (SleepLock_Release_run a s Ht Hf (Hacc a) Hv) as (s' & E & Ha & Hps & Hpl & Hvt & Hcur & Hk & Hn & Ho).
  exists s'. split; [done|].
  assert (forall j, proc s' j = proc (Scheduler_RaiseAlarm a s) j) as P by (intros j; unfold proc; by rewrite Hps).
  assert (forall j, status (proc s' j) = PROCESS_RUNNING <-> status (proc s j) = PROCESS_RUNNING) as HS.
  { intros j. rewrite P, proc_RaiseAlarm by done. case_decide; [|done].
    destruct (wake_cases a (proc s j)) as [[[Hs _] ->]|[_ ->]]; [|done]. rewrite Hs. split; [|done]. by destruct (proc s j). }
  split; [|split; [done|split; [done|split]]].
  - by apply (tree_same (Scheduler_RaiseAlarm a s)), tree_alarm.
  - split; [congruence|by apply HS].
  - split; [|split].
    + intros b. unfold access_free. destruct (decide (b = a)) as [->|Hb]; [by rewrite Ha|rewrite Ho by done; apply Hacc].
    + by rewrite Hk.
    + intros j Hj%HS. rewrite Hcur. by apply Hrun.
Qed.

Lemma Fork_keeps i s z s' :
  tree_ok s -> lock_free s -> resting s -> running i s -> 0 <= Process_next_pid s < 4294967295 ->
  Process_Fork Kernel_pagedirectory Interrupt_Return Process_FirstEntry_addr process_addr s = Some (z, s') ->
  ready (preemption_vetos (thread s)) i s'.
Proof.
  intros (kids & T) Hl HR [Hc Hr] Hn E.
  destruct (Process_Fork_run _ _ _ _ s kids i z s' T Hl Hc Hr Hn E) as (Hb & Hq & Hrun & _ & Ht).
  apply (ready_back _ _ s); [done|]. split; [|split; [done|split; [split; [|done]|by apply (resting_stable s)]]].
  - destruct Ht as [[_ Ht]|(_ & fp & _ & _ & Ht & _)]; by eexists.
  - by destruct Hq as (-> & _).
Qed.

Lemma Kill_keeps i j st s s1 s2 :
  tree_ok s -> lock_free s -> resting s -> running i s -> j <> i -> live (status (proc s j)) ->
  Process_Lock s = Some s1 -> Process_Terminate j st s1 = Some s2 ->
  ready (preemption_vetos (thread s)) i (Process_Unlock s2).
Proof.
  intros T Hl HR Hr Hj Hlj E1 E2. destruct (enter_section i s T Hl Hr) as (s1' & E1' & Hs & Hps & Hq).
  rewrite E1 in E1'. injection E1' as <-. pose proof Hs as ((kids & T1) & Hc1 & Hr1 & Hl1 & Hv1).
  assert (proc s1 j = proc s j) as Pj by (unfold proc; by rewrite Hps). rewrite <- Pj in Hlj.
  destruct (Process_Terminate_run s1 kids j st s2 T1 Hlj E2) as (T2 & Hq2 & Hlk & Hth & _ & _ & Ho & _).
  apply (ready_back _ _ s); [done|]. apply (leave_with resting); [apply resting_stable|done| |].
  - split; [by exists kids|]. split; [by destruct Hq2 as (-> & _)|]. split; [rewrite Ho by done; by case_decide|].
    by rewrite Hlk, Hth.
  - apply (resting_stable s1); [done|]. by apply (resting_stable s).
Qed.

(** Every operation that does not wait for memory or for an entry of the table
    goes on to its next switch or its end; the others do if they come so far. *)
Lemma exec_keeps n i op s :
  tree_ok s -> lock_free s -> resting s -> running i s -> allowed i op s ->
  exec n op s = Spin /\ match op with Fork | Kill _ _ => True | _ => False end \/
  protocol (preemption_vetos (thread s) ⊕ 1) i resting (fun _ => ready (preemption_vetos (thread s)) i) n (exec n op s).
Proof.
  intros T Hl HR Hr Ha. destruct op as [| |a|a| |j st]; cbn [exec].
  - right. by apply Preempt_keeps.
  - right. by apply Wait_keeps.
  - right. by apply Acquire_keeps.
  - right. destruct (Release_keeps i a s T Hl HR Hr) as (s' & -> & H). by constructor.
  - destruct (Process_Fork _ _ _ _ s) as [[z s']|] eqn:E; [|by left]. right. constructor. by apply (Fork_keeps i s z s').
  - destruct (Process_Lock s) as [s1|] eqn:E1; [|by left]. cbn [lift].
    destruct (Process_Terminate j st s1) as [s2|] eqn:E2; [|by left]. right. constructor.
    destruct Ha as [Hj Hlj]. by apply (Kill_keeps i j st s s1).
Qed.

(** ** Steps *)

Lemma schedule_turn_spec i b s s1 :
  tree_ok s -> lock_free s -> (exists c, timer (kernel_task s) = idle c) -> (i < KERNEL_MAX_PROCS)%nat ->
  schedule_turn i s = Some (b, s1) ->
  sleeplocks s1 = sleeplocks s /\ timer (kernel_task s1) = timer (kernel_task s) /\ cur s1 = cur s /\
  if b then flag (Process_lock s1) = true /\ preemption_vetos (thread s1) = preemption_vetos (thread s) ⊕ 1 /\
            status (proc s1 i) = PROCESS_RUNNING /\ (forall j, j <> i -> proc s1 j = proc s j)
  else lock_free s1 /\ (forall j, proc s1 j = proc s j).
Proof.
  intros (kids & T) [Hf Hv] (c & Hc) Hi. pose proof (t_table _ _ T) as Ht.
  unfold schedule_turn. rewrite Process_Lock_free by done. cbn [mbind option_bind]. case_decide as Hr.
  - unfold Context_SetupProcess. set (s2 := upd_proc i _ _). set (s3 := set_pages _ s2).
    cbn [timer kernel_task set_kernel_task]. change (timer (kernel_task s2)) with (timer (kernel_task s)).
    rewrite Hc, Timer_Read_idle. cbn [mbind option_bind]. intros [= <- <-]. rewrite <- Hc.
    split; [done|]. split; [done|]. split; [done|]. split; [done|]. split; [done|].
    assert (table_ok s2) as Ht2 by by apply table_upd. split.
    + rewrite proc_upd_eq by done. cbn. change (proc (set_kernel_task _ _) i) with (proc s2 i).
      unfold s2. by rewrite proc_upd_eq.
    + intros j Hj. rewrite proc_upd_ne by done. change (proc (set_kernel_task _ _) j) with (proc s2 j).
      unfold s2. by rewrite proc_upd_ne.
  - intros [= <- <-]. split; [done|]. split; [done|]. split; [done|]. split; [|done]. split; [done|].
    unfold vetos_u32. cbn. by rewrite veto_inc_dec.
Qed.

Lemma next_iproc_lt i : (i < KERNEL_MAX_PROCS)%nat -> (next_iproc i < KERNEL_MAX_PROCS)%nat.
Proof. unfold next_iproc, KERNEL_MAX_PROCS. destruct (Nat.eqb_spec i (64 - 1)); lia. Qed.

Lemma outcome_ok n i v ks su r M :
  protocol (v ⊕ 1) i resting (fun _ => ready v i) (Datatypes.S n) r -> 0 <= v < 4294967296 ->
  (exists w, 0 <= w < 4294967296 /\ preemption_vetos ks = w ⊕ 1) ->
  (forall j tk, su !! j = Some tk -> resumable n j tk) -> outcome i ks su r M -> machine_ok n M.
Proof.
  intros P Hv Hks Hsu O. destruct O as [s|s k]; inversion P; subst.
  - match goal with H : ready _ _ _ |- _ => destruct H as (T & Hf & Hp & Hr & HR) end.
    split; [done|]. split; [split; [done|]; unfold vetos_u32; cbn; lia|]. split; [done|]. split; [by split|done].
  - match goal with H : handed _ _ _, H' : resting _, H'' : forall _, _ |- _ =>
      destruct H as (T & Hc & Hst & Hf & Hp); destruct H' as (R1 & R2 & R3); rename H'' into Hk end.
    assert (forall j, status (proc s j) <> PROCESS_RUNNING) as Hnr.
    { intros j Hj. pose proof (R3 j Hj) as E. rewrite Hc in E. injection E as <-. destruct Hst as [E|E]; congruence. }
    destruct Hks as (w & Hw & Ew). split; [|split; [|split; [|split]]].
    + by apply (tree_same s).
    + split; [done|]. unfold vetos_u32. cbn. by rewrite Ew, wrap_next.
    + split; [done|]. split; [done|]. intros j Hj. by destruct (Hnr j).
    + split; [done|]. apply next_iproc_lt. destruct T as (kids & T). apply (live_lt s); [apply T|].
      destruct Hst as [-> | ->]; done.
    + intros j tk. cbn [susp]. intros [[<- <-]|[_ Hj]]%lookup_insert_Some; [|by apply Hsu].
      exists v. split; [done|]. split; [done|exact Hk].
Qed.

Lemma resumable_mono m n j tk : (m <= n)%nat -> resumable n j tk -> resumable m j tk.
Proof.
  intros Hm (v & Hv & Ev & Hk). exists v. split; [done|]. split; [done|]. intros s H1 H2.
  eapply protocol_mono; [done|]. by apply Hk.
Qed.

Lemma machine_ok_mono m n M : (m <= n)%nat -> machine_ok n M -> machine_ok m M.
Proof.
  intros Hm (H1 & H2 & H3 & H4 & H5). split; [done|]. split; [done|]. split; [done|]. split; [done|].
  intros j tk Hj. apply (resumable_mono m n); [done|by apply H5].
Qed.

(** The scheduler has chosen process [i] and switches to it. *)
Lemma switch_to i s s1 t v :
  tree_ok s -> lock_free s -> resting s -> cur s = None -> (i < KERNEL_MAX_PROCS)%nat ->
  schedule_turn i s = Some (true, s1) -> preemption_vetos t = v ->
  in_section v i (on_cpu t (Some i) s1) /\ resting (on_cpu t (Some i) s1) /\
  exists w, 0 <= w < 4294967296 /\ preemption_vetos (thread s1) = w ⊕ 1.
Proof.
  intros T Hl (R1 & R2 & R3) Hc Hi E Ht.
  destruct (schedule_turn_spec i true s s1 T Hl R2 Hi E) as (Hsl & Htm & Hcur & Hf & Hp & Hr & Ho).
  split; [|split].
  - split; [apply (tree_same s1); [done|done|by apply (tree_schedule i true s)]|]. by split_and!.
  - split; [|split].
    + intros a. unfold access_free, sleeplock. cbn. rewrite Hsl. apply R1.
    + cbn. by rewrite Htm.
    + intros j Hj. cbn. destruct (decide (j = i)) as [->|Hne]; [done|].
      change (proc (on_cpu t (Some i) s1) j) with (proc s1 j) in Hj. rewrite Ho in Hj by done.
      apply R3 in Hj. congruence.
  - exists (preemption_vetos (thread s)). split; [apply Hl|done].
Qed.

(** Every step keeps the invariant, for one step less. *)
Lemma step_ok n turns M M' :
  (n < turns)%nat -> machine_ok (Datatypes.S n) M -> step turns M M' -> machine_ok n M'.
Proof.
  intros Hn (T & Hl & HR & Hm & Hsu) St. pose proof HR as (R1 & R2 & R3).
  destruct St as [i s s' ks su E|i s s1 ks su t k M E Ek O|i s s1 ks su t E _ Ht|i op s ks su M Ha O|s m ks su];
    cbn [kern mode sched susp] in *.
  - destruct Hm as [Hc Hi]. destruct (schedule_turn_spec i false s s' T Hl R2 Hi E) as (Hsl & Htm & Hcur & Hf & Ho).
    split; [by apply (tree_schedule i false s)|]. split; [done|]. split; [|split].
    + split; [|split]; [intros a; unfold access_free, sleeplock; cbn; rewrite Hsl; apply R1|cbn; by rewrite Htm|].
      intros j. cbn. rewrite Ho, Hcur. apply R3.
    + split; [cbn; congruence|by apply next_iproc_lt].
    + intros j tk Hj. by apply (resumable_mono n (Datatypes.S n)); [lia|apply Hsu].
  - destruct Hm as [Hc Hi]. destruct (Hsu _ _ Ek) as (v & Hv & Ev & Hk).
    destruct (switch_to i s s1 t _ T Hl HR Hc Hi E Ev) as (H1 & H2 & Hw).
    eapply outcome_ok; [by apply Hk|done|exact Hw| |exact O].
    intros j tk [_ Hj]%lookup_delete_Some. by apply (resumable_mono n (Datatypes.S n)); [lia|apply Hsu].
  - destruct Hm as [Hc Hi]. destruct (switch_to i s s1 t 0 T Hl HR Hc Hi E Ht) as ((H1 & H2 & H3 & H4 & H5) & H6 & Hw).
    split; [by apply (tree_same (on_cpu t (Some i) s1))|]. split; [split; [done|]; unfold vetos_u32; cbn; by rewrite Ht|].
    split; [done|]. split; [by split|].
    intros j tk Hj. by apply (resumable_mono n (Datatypes.S n)); [lia|apply Hsu].
  - destruct Hm as [Hr Hw]. destruct (exec_keeps turns i op s T Hl HR Hr Ha) as [[E _]|P].
    + rewrite E in O. inversion O.
    + eapply outcome_ok; [eapply protocol_mono; [|exact P]; lia|apply Hl|exact Hw| |exact O].
      intros j tk Hj. apply (resumable_mono n (Datatypes.S n)); [lia|]. apply Hsu.
      destruct op; try done. by apply lookup_delete_Some in Hj as [_ Hj].
  - destruct R2 as [c Hc]. split; [by apply (tree_same s)|]. split; [done|]. split; [|split; [done|]].
    + split; [done|]. split; [|done]. exists (c + 1). cbn. by rewrite Hc, Timer_Increment_idle.
    + intros j tk Hj. by apply (resumable_mono n (Datatypes.S n)); [lia|apply Hsu].
Qed.

(** ** Runs *)

(** The scheduler starts, with nobody switched away from. *)
Definition starting (M : Machine) : Prop :=
  tree_ok (kern M) /\ lock_free (kern M) /\ resting (kern M) /\ cur (kern M) = None /\
  mode M = Scheduling 0 /\ susp M = ∅.

Lemma run_ok turns k m M M' :
  machine_ok (m + k) M -> (m + k <= turns)%nat -> nsteps (step turns) m M M' -> machine_ok k M'.
Proof.
  intros H Hm Hs. induction Hs as [M|m M M1 M' St Hs IH]; [done|].
  apply IH; [|lia]. apply (step_ok _ turns M); [lia|exact H|done].
Qed.

Lemma starting_ok n M : starting M -> machine_ok n M.
Proof.
  intros (T & Hl & HR & Hc & Em & Es). split; [done|]. split; [done|]. split; [done|]. split.
  - rewrite Em. split; [done|unfold KERNEL_MAX_PROCS; lia].
  - intros j tk. rewrite Es. by intros ?%lookup_empty_Some.
Qed.



End Machine.

(** ** An instance *)

(** Process 5 runs for the first time and takes a sleeping lock. *)
Definition demo_start : Kernel PhysState :=
  on_cpu (mkThread true 0 0) None
    (set_next_pid 42 (demo_kernel [set_status PROCESS_RUNNABLE demo_parent; demo_child PROCESS_ASLEEP])).
Definition demo_machine : Machine := mkMachine demo_start (Scheduling 0) (mkThread true 0 0) ∅.
Definition demo_fork_addr (i : nat) : Z := 0x80600000 + 128 * Z.of_nat i.
#[local] Abbreviation demo_step := (step 0x80002000 0x80009000 0x8000a000 demo_fork_addr 3).

Lemma demo_starting : starting demo_machine.
Proof.
  assert (Scheduler_processes demo_start = set_status PROCESS_RUNNABLE demo_parent :: demo_child PROCESS_ASLEEP ::
    replicate (KERNEL_MAX_PROCS - 2) process_zero) as E by done.
  split; [|split; [by split|split; [|by split]]].
  - exists one_child. by apply (tree_one_child _ _ _ _ E).
  - split; [done|]. split; [by exists 7|]. intros j Hj. exfalso. change (kern demo_machine) with demo_start in Hj.
    rewrite (proc_pair _ _ _ _ E) in Hj. by destruct j as [|[|j]].
Qed.

Lemma demo_run :
  exists M, nsteps demo_step 2 demo_machine M /\ mode M = Executing 0 /\ locked (sleeplock (kern M) 9) = true.
Proof.
  set (s1 := match schedule_turn 0 demo_start with Some (_, s) => s | None => demo_start end).
  assert (schedule_turn 0 demo_start = Some (true, s1)) as E1 by (vm_compute; reflexivity).
  set (s2 := Process_FirstEntryToUserSpace (on_cpu (mkThread true 0 0) (Some 0%nat) s1)).
  set (s3 := match SleepLock_Acquire 3 9 s2 with Ret _ s => s | _ => s2 end).
  assert (SleepLock_Acquire 3 9 s2 = Ret () s3) as E2 by (vm_compute; reflexivity).
  exists (mkMachine s3 (Executing 0) (thread s1) ∅). split; [|split; [done|vm_compute; reflexivity]].
  apply (nsteps_l _ _ _ (mkMachine s2 (Executing 0) (thread s1) ∅)); [by apply step_first|].
  apply nsteps_once. apply (step_op _ _ _ _ _ 0 (Acquire 9)); [done|]. cbn [exec]. rewrite E2. constructor.
Qed.


