(* ===== verification/Ports.v ===== *)
(** * Input and output ports

    [ioports.h] of the kernel and of the boot loader. What a device does with
    a byte written to one of its ports, and what it answers, is the business
    of the hardware: the drivers are written against the class [PortIO], and
    their theorems hold for every instance of it. [PortTrace] is the concrete
    instance used on concrete inputs: it records the writes and reads from a
    queue of bytes. *)

From S2P Require Import Prelude.

Class PortIO (W : Type) := {
  Outb : Z -> Z -> W -> W;
  Inb : Z -> W -> Z * W;
  Inb_byte : forall port w, 0 <= fst (Inb port w) < 256
}.

(** Writes in the order they were made, latest first, and the bytes the next
    reads return. *)
Record PortTrace := mkPorts { written : list (Z * Z); pending : list Z }.

Definition trace_Outb (port value : Z) (w : PortTrace) : PortTrace :=
  mkPorts ((port, wrap8 value) :: written w) (pending w).
Definition trace_Inb (port : Z) (w : PortTrace) : Z * PortTrace :=
  match pending w with
  | [] => (0, w)
  | b :: bs => (wrap8 b, mkPorts (written w) bs)
  end.

#[export, refine] Instance PortTrace_io : PortIO PortTrace :=
  {| Outb := trace_Outb; Inb := trace_Inb |}.
Proof.
  intros port w. unfold trace_Inb. destruct (pending w); cbn; [lia|apply wrap8_range].
Defined.
