(* ===== verification/Console.v ===== *)
(** * The kernel console

    [kernel/devices/console]: a text terminal on the VGA buffer. The buffer is
    part of the byte-addressed memory of CMem, so a write outside it is a
    write to whatever follows; format strings and variadic arguments are read
    from the same memory, as the i386 calling convention passes them. The
    cursor registers go through the port interface. *)

From S2P Require Import Prelude CMem Sync Setup Ports.

(** ** console.h *)

Definition CONSOLE_VGA_TEXT_BUFFER : Z := 0xB8000.
Definition CONSOLE_VGA_NUM_LINES : Z := 25.
Definition CONSOLE_VGA_NUM_COLUMNS : Z := 80.
Definition CONSOLE_POS_START_BANNER : Z := 38.
Definition CONSOLE_POS_START : Z := 80.
Definition CONSOLE_COLOR_BLACK : Z := 0.
Definition CONSOLE_COLOR_GREEN : Z := 2.
Definition CONSOLE_COLOR_RED : Z := 4.
Definition CONSOLE_COLOR_WHITE : Z := 0xF.
Definition CONSOLE_NUMTYPE_DECIMAL : Z := 0.
Definition CONSOLE_NUMTYPE_OCTAL : Z := 1.
Definition CONSOLE_NUMTYPE_HEXLOW : Z := 2.
Definition CONSOLE_NUMTYPE_HEXCAP : Z := 3.

Definition Console_screen : Z := CONSOLE_VGA_TEXT_BUFFER + KERNEL_HIGHER_HALF_OFFSET.

(** ** Results

    [Hangs s]: control is in a [while (true);] with the state [s].
    [Unfinished]: the fuel of a loop over a string ran out. *)
Inductive outcome (A : Type) : Type :=
  | Returns (a : A)
  | Hangs (a : A)
  | Unfinished.
Arguments Returns {A} a.
Arguments Hangs {A} a.
Arguments Unfinished {A}.

(** Sequencing of steps that only change the state. *)
Definition and_then {A} (o : outcome A) (k : A -> outcome A) : outcome A :=
  match o with
  | Returns a => k a
  | Hangs a => Hangs a
  | Unfinished => Unfinished
  end.
Notation "o ;;; k" := (and_then o k) (at level 60, right associativity) : avos_scope.

Lemma and_then_assoc {A} (o : outcome A) (k l : A -> outcome A) :
  and_then (and_then o k) l = and_then o (fun a => and_then (k a) l).
Proof. by destruct o. Qed.

Section Console.
Context {W : Type} `{!PortIO W}.

(** ** State *)
Record Console := mkConsole {
  cmem : Mem;
  Console_pos : Z;                 (* uint16_t *)
  Console_inpanic : bool;
  Console_lock : SpinLock;
  thread : Thread;
  ports : W
}.

Definition set_cmem (m : Mem) (s : Console) : Console :=
  mkConsole m (Console_pos s) (Console_inpanic s) (Console_lock s) (thread s) (ports s).
Definition set_pos (p : Z) (s : Console) : Console :=
  mkConsole (cmem s) (wrap16 p) (Console_inpanic s) (Console_lock s) (thread s) (ports s).
Definition set_inpanic (b : bool) (s : Console) : Console :=
  mkConsole (cmem s) (Console_pos s) b (Console_lock s) (thread s) (ports s).
Definition set_locked (t : Thread) (l : SpinLock) (s : Console) : Console :=
  mkConsole (cmem s) (Console_pos s) (Console_inpanic s) l t (ports s).
Definition set_ports (w : W) (s : Console) : Console :=
  mkConsole (cmem s) (Console_pos s) (Console_inpanic s) (Console_lock s) (thread s) w.

(** [Console_screen[i] = v] and its reading. *)
Definition put_cell (i v : Z) (s : Console) : Console :=
  set_cmem (store16 (cmem s) (Console_screen + 2 * i) v) s.
Definition cell (s : Console) (i : Z) : Z := load16 (cmem s) (Console_screen + 2 * i).

(** ** The cursor *)

Definition out (port value : Z) (s : Console) : Console :=
  set_ports (Outb port (wrap8 value) (ports s)) s.

Definition Console_MakeCursorInvisible (s : Console) : Console :=
  out 0x3D5 0x20 (out 0x3D4 0x0A s).

Definition Console_MakeCursorVisible (s : Console) : Console :=
  let s := out 0x3D4 0x0A s in
  let '(v, w) := Inb 0x3D5 (ports s) in
  let s := out 0x3D5 (Z.lor (Z.land v 0xC0) 0xE) (set_ports w s) in
  let s := out 0x3D4 0x0B s in
  let '(v, w) := Inb 0x3D5 (ports s) in
  out 0x3D5 (Z.lor (Z.land v 0xE0) 0xF) (set_ports w s).

Definition Console_SetCursorPosition (p : Z) (s : Console) : Console :=
  let s := out 0x3D4 0x0F s in
  let s := out 0x3D5 (Z.land p 0xFF) s in
  let s := out 0x3D4 0x0E s in
  out 0x3D5 (Z.land (Z.shiftr p 8) 0xFF) s.

(** ** The screen *)

Definition Console_Attribute (fore back : Z) : Z :=
  wrap16 (Z.shiftl (Z.land fore 0x0F + Z.shiftl (Z.land back 0x0F) 4) 8).

(** [n] cells from cell [i] on, all with the value [v]. *)
Fixpoint fill_cells (n : nat) (i v : Z) (s : Console) : Console :=
  match n with
  | O => s
  | S n' => fill_cells n' (i + 1) v (put_cell i v s)
  end.

Definition Console_ClearLine (line : Z) (s : Console) : Console :=
  fill_cells (Z.to_nat CONSOLE_VGA_NUM_COLUMNS) (line * CONSOLE_VGA_NUM_COLUMNS)
    (Z.lor (Console_Attribute CONSOLE_COLOR_WHITE CONSOLE_COLOR_BLACK) 0) s.

Definition Console_ClearScreen (s : Console) : Console :=
  let s := fill_cells (Z.to_nat (CONSOLE_VGA_NUM_COLUMNS * CONSOLE_VGA_NUM_LINES - CONSOLE_VGA_NUM_COLUMNS))
             CONSOLE_VGA_NUM_COLUMNS
             (Z.lor (Console_Attribute CONSOLE_COLOR_WHITE CONSOLE_COLOR_BLACK) 0) s in
  Console_ClearLine CONSOLE_VGA_NUM_LINES s.

(** The statements of [Console_PrintChar] before the test for scrolling;
    [None] is the early return of a backspace at the start of the text. The
    argument is a [char], a signed value that is widened before the [|]. *)
Definition print_glyph (c : Z) (s : Console) : option Console :=
  let color := Console_Attribute CONSOLE_COLOR_WHITE CONSOLE_COLOR_BLACK in
  if c =? 0 then Some s
  else if c =? 10 then
    Some (set_pos ((Console_pos s / CONSOLE_VGA_NUM_COLUMNS + 1) * CONSOLE_VGA_NUM_COLUMNS) s)
  else if c =? 9 then Some (set_pos (Console_pos s + 3) s)
  else if c =? 8 then
    if Console_pos s =? CONSOLE_POS_START then None
    else
      let s := set_pos (Console_pos s - 1) s in
      Some (put_cell (Console_pos s) (Z.lor color 0) s)
  else
    let p := Console_pos s in
    Some (put_cell p (wrap16 (Z.lor color c)) (set_pos (p + 1) s)).

(** The statements after it. *)
Definition scroll (s : Console) : Console :=
  let s :=
    if CONSOLE_VGA_NUM_COLUMNS * CONSOLE_VGA_NUM_LINES <=? Console_pos s then
      let s := set_cmem
        (memmove (cmem s) (Console_screen + 2 * CONSOLE_POS_START)
           (Console_screen + 2 * (CONSOLE_POS_START + CONSOLE_VGA_NUM_COLUMNS))
           ((Console_pos s - CONSOLE_POS_START) * 2)) s in
      set_pos (Console_pos s - CONSOLE_VGA_NUM_COLUMNS) s
    else s in
  let s := Console_ClearLine CONSOLE_VGA_NUM_LINES s in
  Console_SetCursorPosition (Console_pos s) s.

Definition Console_PrintChar (c : Z) (s : Console) : outcome Console :=
  let c := signed8 c in
  if Console_inpanic s then Hangs s
  else
    match print_glyph c s with
    | None => Returns s
    | Some s => Returns (scroll s)
    end.

Fixpoint print_chars_loop (n : nat) (string i : Z) (s : Console) : outcome Console :=
  match n with
  | O => Returns s
  | S n' =>
      Console_PrintChar (load8 (cmem s) (string + i)) s ;;; fun s =>
      print_chars_loop n' string (i + 1) s
  end.
Definition Console_PrintChars (string num : Z) (s : Console) : outcome Console :=
  print_chars_loop (Z.to_nat num) string 0 s.

Fixpoint print_string_loop (fuel : nat) (string i : Z) (s : Console) : outcome Console :=
  match fuel with
  | O => Unfinished
  | S f =>
      if load8 (cmem s) (string + i) =? 0 then Returns s
      else
        Console_PrintChar (load8 (cmem s) (string + i)) s ;;; fun s =>
        print_string_loop f string (i ⊕ 1) s
  end.
Definition Console_PrintString (fuel : nat) (string : Z) (s : Console) : outcome Console :=
  print_string_loop fuel string 0 s.

(** ** Numbers *)

(** ["0123456789abcdef"] and ["0123456789ABCDEF"]. *)
Definition digits_low (d : Z) : Z := if d <? 10 then 48 + d else 97 + (d - 10).
Definition digits_cap (d : Z) : Z := if d <? 10 then 48 + d else 65 + (d - 10).

(** [for (; divisor > 0; divisor /= base)]: the divisor of a [uint32_t] value
    reaches zero in at most 11 rounds. *)
Fixpoint print_digits (fuel : nat) (num_type base val divisor : Z) (start_printing : bool)
    (s : Console) : outcome Console :=
  match fuel with
  | O => Unfinished
  | S f =>
      if 0 <? divisor then
        let start_printing := start_printing || (0 <? val / divisor) in
        (if start_printing then
           if num_type =? CONSOLE_NUMTYPE_HEXCAP then Console_PrintChar (digits_cap (val / divisor)) s
           else Console_PrintChar (digits_low (val / divisor)) s
         else Returns s) ;;; fun s =>
        print_digits f num_type base (val mod divisor) (divisor / base) start_printing s
      else Returns s
  end.

Definition Console_PrintNum (num num_type : Z) (withsign : bool) (s : Console) : outcome Console :=
  if negb (num_type =? CONSOLE_NUMTYPE_OCTAL) && negb (num_type =? CONSOLE_NUMTYPE_DECIMAL)
     && negb (num_type =? CONSOLE_NUMTYPE_HEXLOW) && negb (num_type =? CONSOLE_NUMTYPE_HEXCAP)
  then Returns s
  else
    let neg := 0x80000000 <? num in
    let val := if withsign then (if neg then 0 ⊖ num else num) else num in
    (if withsign && neg then Console_PrintChar 45 s else Returns s) ;;; fun s =>
    if (num_type =? CONSOLE_NUMTYPE_OCTAL) && (val <? 8) then Console_PrintChar (digits_low val) s
    else if val <? 10 then Console_PrintChar (digits_low val) s
    else
      (if num_type =? CONSOLE_NUMTYPE_OCTAL then Console_PrintChar 48 s
       else if (num_type =? CONSOLE_NUMTYPE_HEXLOW) || (num_type =? CONSOLE_NUMTYPE_HEXCAP) then
         Console_PrintChar 48 s ;;; Console_PrintChar 120
       else Returns s) ;;; fun s =>
      let divisor :=
        if num_type =? CONSOLE_NUMTYPE_OCTAL then 1073741824
        else if num_type =? CONSOLE_NUMTYPE_DECIMAL then 1000000000
        else 0x10000000 in
      let base :=
        if num_type =? CONSOLE_NUMTYPE_OCTAL then 8
        else if num_type =? CONSOLE_NUMTYPE_DECIMAL then 10
        else 0x10 in
      print_digits 12 num_type base val divisor false s.

(** ** Formatted output

    [va_list] is the address of the next argument on the stack. *)
Fixpoint Console_VPrint (fuel : nat) (format args : Z) (s : Console) : outcome Console :=
  match fuel with
  | O => Unfinished
  | S f =>
      let c := load8 (cmem s) format in
      if c =? 0 then Returns s
      else if negb (c =? 37) then
        Console_PrintChar c s ;;; fun s => Console_VPrint f (format + 1) args s
      else
        let c := load8 (cmem s) (format + 1) in
        let arg := load32 (cmem s) args in
        if c =? 0 then Returns s
        else if c =? 99 then
          Console_PrintChar (wrap8 arg) s ;;; Console_VPrint f (format + 2) (args + 4)
        else if c =? 100 then
          Console_PrintNum arg CONSOLE_NUMTYPE_DECIMAL true s ;;; Console_VPrint f (format + 2) (args + 4)
        else if c =? 105 then
          Console_PrintNum arg CONSOLE_NUMTYPE_DECIMAL true s ;;; Console_VPrint f (format + 2) (args + 4)
        else if c =? 117 then
          Console_PrintNum arg CONSOLE_NUMTYPE_DECIMAL false s ;;; Console_VPrint f (format + 2) (args + 4)
        else if c =? 111 then
          Console_PrintNum arg CONSOLE_NUMTYPE_OCTAL false s ;;; Console_VPrint f (format + 2) (args + 4)
        else if c =? 120 then
          Console_PrintNum arg CONSOLE_NUMTYPE_HEXLOW false s ;;; Console_VPrint f (format + 2) (args + 4)
        else if c =? 88 then
          Console_PrintNum arg CONSOLE_NUMTYPE_HEXCAP false s ;;; Console_VPrint f (format + 2) (args + 4)
        else if c =? 112 then
          Console_PrintNum arg CONSOLE_NUMTYPE_HEXLOW false s ;;; Console_VPrint f (format + 2) (args + 4)
        else if c =? 115 then
          Console_PrintString f arg s ;;; Console_VPrint f (format + 2) (args + 4)
        else if c =? 37 then
          Console_PrintChar c s ;;; Console_VPrint f (format + 2) args
        else
          Console_PrintChar 37 s ;;; fun s =>
          Console_PrintChar c s ;;; Console_VPrint f (format + 2) args
  end.

Definition Console_Print (fuel : nat) (format args : Z) (s : Console) : outcome Console :=
  match SpinLock_Acquire (thread s) (Console_lock s) with
  | None => Hangs (set_locked (STATE_INCREMENT_PREEMPTION_VETO (thread s)) (Console_lock s) s)
  | Some (t, l) =>
      Console_VPrint fuel format args (set_locked t l s) ;;; fun s =>
      let '(t, l) := SpinLock_Release (thread s) (Console_lock s) in
      Returns (set_locked t l s)
  end.

Definition Console_Panic (fuel : nat) (format args : Z) (s : Console) : outcome Console :=
  let s := Console_ClearScreen s in
  let s := set_pos CONSOLE_POS_START s in
  let s := Console_SetCursorPosition (Console_pos s) s in
  Console_VPrint fuel format args s ;;; fun s => Hangs (set_inpanic true s).

Fixpoint banner (i : Z) (str : list Z) (s : Console) : Console :=
  match str with
  | [] => s
  | c :: str' =>
      banner (i + 1) str'
        (put_cell (CONSOLE_POS_START_BANNER + i)
           (Z.lor (Console_Attribute CONSOLE_COLOR_RED CONSOLE_COLOR_GREEN) c) s)
  end.

(** The literal ["AVOS"]. *)
Definition avos : list Z := [65; 86; 79; 83].

Definition Console_Initialize (s : Console) : Console :=
  let s := fill_cells (Z.to_nat CONSOLE_VGA_NUM_COLUMNS) 0
             (Z.lor (Console_Attribute CONSOLE_COLOR_BLACK CONSOLE_COLOR_GREEN) 0) s in
  let s := banner 0 avos s in
  let s := Console_ClearScreen s in
  let s := Console_SetCursorPosition (Console_pos s) s in
  let s := Console_MakeCursorVisible s in
  set_locked (thread s) (SpinLock_Initialize (Console_lock s)) s.

End Console.
Arguments Console W : clear implicits.
