(* ===== verification/ConsoleSpec.v ===== *)
(** * The console is a terminal

    The abstract terminal of this file has a grid of 25 lines of 80 cells whose
    first line never scrolls, and a cursor. [Console_PrintChar] refines its
    [put] operation, [Console_PrintNum] prints the numeral of its argument, and
    [Console_Print] puts the rendering of the format, one character after the
    other. *)

From S2P Require Import Prelude Numeral CMem Sync Setup Ports Console.

(** ** The abstract terminal *)

Record Terminal := mkTerm { grid : Z -> Z; cursor : Z }.

Definition blank : Z := 0xF00.
(** The cell a character becomes: white on black for ASCII. *)
Definition glyph (c : Z) : Z := if c <? 128 then 0xF00 + c else 0xFF00 + c.

(** A cursor past the last line moves the text up by a line. *)
Definition settle (t : Terminal) : Terminal :=
  if 2000 <=? cursor t then
    mkTerm (fun i => if i <? 80 then grid t i
                     else if i <? 1920 then grid t (i + 80)
                     else blank) (cursor t - 80)
  else t.

Definition put (c : Z) (t : Terminal) : Terminal :=
  let g := grid t in
  let p := cursor t in
  if c =? 0 then t
  else if c =? 10 then settle (mkTerm g (80 * (p / 80 + 1)))
  else if c =? 9 then settle (mkTerm g (p + 3))
  else if c =? 8 then
    if p =? 80 then t else mkTerm (fun i => if i =? p - 1 then blank else g i) (p - 1)
  else settle (mkTerm (fun i => if i =? p then glyph c else g i) (p + 1)).

Definition put_all (cs : list Z) (t : Terminal) : Terminal := fold_left (fun t c => put c t) cs t.

Lemma put_all_app a b t : put_all (a ++ b) t = put_all b (put_all a t).
Proof. apply fold_left_app. Qed.

(** ** Numerals *)

Definition radix (num_type : Z) : Z :=
  if num_type =? CONSOLE_NUMTYPE_OCTAL then 8
  else if num_type =? CONSOLE_NUMTYPE_DECIMAL then 10 else 16.

Definition letter (num_type d : Z) : Z :=
  if num_type =? CONSOLE_NUMTYPE_HEXCAP then digits_cap d else digits_low d.

(** The mark in front of a number: [0] for octal, [0x] for hexadecimal, and
    nothing in front of a single decimal digit. *)
Definition mark (num_type v : Z) : list Z :=
  if num_type =? CONSOLE_NUMTYPE_OCTAL then (if v <? 8 then [] else [48])
  else if num_type =? CONSOLE_NUMTYPE_DECIMAL then []
  else if v <? 10 then [] else [48; 120].

Definition spell (num num_type : Z) (withsign : bool) : list Z :=
  let v := if withsign then Z.abs (signed32 num) else num in
  (if withsign && (signed32 num <? 0) then [45] else [])
  ++ mark num_type v ++ map (letter num_type) (numeral 11 (radix num_type) v).

(** The numbers [Console_PrintNum] spells: all but octal 8 and 9 and the
    least 32-bit integer. *)
Definition spelled (num num_type : Z) (withsign : bool) : Prop :=
  0 <= num < 4294967296 /\ 0 <= num_type < 4
  /\ ~ (withsign = true /\ num = 0x80000000)
  /\ ~ (num_type = CONSOLE_NUMTYPE_OCTAL
        /\ 8 <= (if withsign then Z.abs (signed32 num) else num) < 10).

Section Spec.
Context {W : Type} `{!PortIO W}.
Implicit Types s : Console W.

(** ** Cells *)

Lemma cell_put_cell i v s j :
  0 <= i < 4096 -> 0 <= j < 4096 ->
  cell (put_cell i v s) j = if i =? j then wrap16 v else cell s j.
Proof.
  intros Hi Hj. unfold cell, put_cell, set_cmem, Console_screen, CONSOLE_VGA_TEXT_BUFFER,
    KERNEL_HIGHER_HALF_OFFSET. cbn [cmem].
  case_cmp; [subst j; apply (load_store_eq 2); lia|apply load_store_ne; lia].
Qed.

(** Memory outside of the buffer: 26 lines, the last of which is not shown. *)
Definition off_screen (a : Z) : Prop :=
  0 <= a < 4294967296 /\ (a < Console_screen \/ Console_screen + 4160 <= a).
Definition same_outside (s s' : Console W) : Prop :=
  forall a, off_screen a -> load8 (cmem s') a = load8 (cmem s) a.

#[global] Instance same_outside_preorder : PreOrder same_outside.
Proof.
  split; [by intros s a _|]. intros s1 s2 s3 H1 H2 a Ha. by rewrite H2, H1.
Qed.

Lemma put_cell_outside i v s : 0 <= i < 2080 -> same_outside s (put_cell i v s).
Proof.
  intros Hi a [Ha Ho]. unfold put_cell, set_cmem. cbn [cmem].
  revert Ho. unfold Console_screen, CONSOLE_VGA_TEXT_BUFFER, KERNEL_HIGHER_HALF_OFFSET.
  intros Ho. apply load8_store_ne; lia.
Qed.

(** The fields other than memory that an operation keeps. *)
Definition same_control (s s' : Console W) : Prop :=
  (Console_inpanic s', Console_lock s', thread s') = (Console_inpanic s, Console_lock s, thread s).

#[global] Instance same_control_preorder : PreOrder same_control.
Proof. split; [done|]. unfold same_control. intros s1 s2 s3 ? ?. congruence. Qed.

Lemma same_control_inpanic s s' : same_control s s' -> Console_inpanic s' = Console_inpanic s.
Proof. unfold same_control. congruence. Qed.

Lemma fill_cells_spec n i v s :
  0 <= i -> i + Z.of_nat n <= 2080 ->
  Console_pos (fill_cells n i v s) = Console_pos s
  /\ same_control s (fill_cells n i v s) /\ same_outside s (fill_cells n i v s)
  /\ forall j, 0 <= j < 2080 ->
     cell (fill_cells n i v s) j = if (i <=? j) && (j <? i + Z.of_nat n) then wrap16 v else cell s j.
Proof.
  revert i s. induction n as [|n IH]; intros i s Hi Hn; cbn [fill_cells].
  - conjs; [done..|]. intros j Hj. by destruct (Z.leb_spec i j), (Z.ltb_spec j (i + Z.of_nat 0)); try lia.
  - destruct (IH (i + 1) (put_cell i v s)) as (Hp & Hc & Ho & Hcell); [lia..|].
    conjs; [done| |by etransitivity; [apply (put_cell_outside i v); lia|]|].
    { etransitivity; [|exact Hc]. done. }
    intros j Hj. rewrite Hcell, cell_put_cell by lia.
    destruct (Z.leb_spec (i + 1) j), (Z.leb_spec i j), (Z.eqb_spec i j),
      (Z.ltb_spec j (i + 1 + Z.of_nat n)), (Z.ltb_spec j (i + Z.of_nat (S n)));
      cbn [andb]; done || lia.
Qed.

Lemma blank_cell :
  Z.lor (Console_Attribute CONSOLE_COLOR_WHITE CONSOLE_COLOR_BLACK) 0 = blank.
Proof. done. Qed.

Lemma ClearLine_spec l s :
  0 <= l <= 25 ->
  Console_pos (Console_ClearLine l s) = Console_pos s
  /\ same_control s (Console_ClearLine l s) /\ same_outside s (Console_ClearLine l s)
  /\ forall j, 0 <= j < 2080 ->
     cell (Console_ClearLine l s) j
     = if (80 * l <=? j) && (j <? 80 * l + 80) then blank else cell s j.
Proof.
  intros Hl. unfold Console_ClearLine, CONSOLE_VGA_NUM_COLUMNS.
  destruct (fill_cells_spec (Z.to_nat 80) (l * 80)
    (Z.lor (Console_Attribute CONSOLE_COLOR_WHITE CONSOLE_COLOR_BLACK) 0) s)
    as (? & ? & ? & Hcell); [lia..|].
  conjs; [done..|]. intros j Hj. rewrite Hcell, blank_cell, (Z.mul_comm l) by lia.
  done.
Qed.

(** ** Scrolling *)

Lemma cell_memmove_up s n j :
  0 <= n -> 80 + n <= 2080 -> 0 <= j < 2080 ->
  cell (set_cmem (memmove (cmem s) (Console_screen + 2 * 80) (Console_screen + 2 * 160) (n * 2)) s) j
  = if (80 <=? j) && (j <? 80 + n) then cell s (j + 80) else cell s j.
Proof.
  intros Hn Hn2 Hj. unfold cell, set_cmem. cbn [cmem]. unfold memmove.
  unfold Console_screen, CONSOLE_VGA_TEXT_BUFFER, KERNEL_HIGHER_HALF_OFFSET.
  destruct (Z.ltb_spec (753664 + 2147483648 + 2 * 80) (753664 + 2147483648 + 2 * 160)); [|lia].
  cbn [load]. rewrite !load8_memcpy_loop by lia.
  destruct (Z.leb_spec 80 j), (Z.ltb_spec j (80 + n)); cbn [andb];
    repeat match goal with |- context [?a <=? ?b] => destruct (Z.leb_spec a b); try lia end;
    repeat match goal with |- context [?a <? ?b] => destruct (Z.ltb_spec a b); try lia end;
    cbn [andb]; apply (f_equal2 (fun a b => a + 256 * (b + 256 * 0))); apply f_equal; lia.
Qed.

Lemma memmove_up_outside s n :
  0 <= n -> 80 + n <= 2080 ->
  same_outside s (set_cmem (memmove (cmem s) (Console_screen + 2 * 80) (Console_screen + 2 * 160) (n * 2)) s).
Proof.
  intros Hn Hn2 a [Ha Ho]. unfold set_cmem. cbn [cmem]. revert Ho. unfold memmove.
  unfold Console_screen, CONSOLE_VGA_TEXT_BUFFER, KERNEL_HIGHER_HALF_OFFSET.
  intros Ho.
  destruct (Z.ltb_spec (753664 + 2147483648 + 2 * 80) (753664 + 2147483648 + 2 * 160)); [|lia].
  rewrite load8_memcpy_loop by lia.
  destruct (Z.leb_spec (753664 + 2147483648 + 2 * 80 + 0) a),
   (Z.ltb_spec a (753664 + 2147483648 + 2 * 80 + 0 + Z.of_nat (Z.to_nat (n * 2)))); cbn [andb]; done || lia.
Qed.

(** The console shows a terminal. *)
Definition shows s (t : Terminal) : Prop :=
  Console_pos s = cursor t /\ 80 <= cursor t < 2000 /\ Console_inpanic s = false
  /\ (forall i, 0 <= i < 2000 -> cell s i = grid t i)
  /\ (forall i, 2000 <= i < 2080 -> cell s i = blank).

(** The console between the writing of a character and the scrolling: the
    cursor may have run past the last line, with at most one cell written
    there. *)
Definition shows_past s (t : Terminal) : Prop :=
  Console_pos s = cursor t /\ 80 <= cursor t <= 2002 /\ Console_inpanic s = false
  /\ (forall i, 0 <= i < 2000 -> cell s i = grid t i)
  /\ (forall i, 2000 <= i < 2080 -> cell s i = blank).

Lemma SetCursorPosition_keeps p s :
  Console_pos (Console_SetCursorPosition p s) = Console_pos s
  /\ same_control s (Console_SetCursorPosition p s)
  /\ cmem (Console_SetCursorPosition p s) = cmem s.
Proof. done. Qed.

Lemma scroll_refines s t :
  shows_past s t ->
  shows (scroll s) (settle t) /\ same_control s (scroll s) /\ same_outside s (scroll s).
Proof.
  intros (Hp & Hc & Hn & Hg & Hb). unfold scroll, settle.
  change (CONSOLE_VGA_NUM_COLUMNS * CONSOLE_VGA_NUM_LINES) with 2000.
  change (CONSOLE_POS_START + CONSOLE_VGA_NUM_COLUMNS) with 160.
  unfold CONSOLE_POS_START, CONSOLE_VGA_NUM_COLUMNS, CONSOLE_VGA_NUM_LINES. rewrite Hp.
  set (s1 := if 2000 <=? cursor t then _ else s).
  assert (Console_pos s1 = (if 2000 <=? cursor t then cursor t - 80 else cursor t)
    /\ same_control s s1 /\ same_outside s s1
    /\ forall i, 0 <= i < 2000 -> cell s1 i =
         if (2000 <=? cursor t) && (80 <=? i) then cell s (i + 80) else cell s i)
    as (Hp1 & Hk1 & Ho1 & Hc1).
  { subst s1. destruct (Z.leb_spec 2000 (cursor t)); [|by rewrite ?Hp].
    conjs.
    - cbn. rewrite ?Hp. apply wrap16_small. lia.
    - done.
    - apply (memmove_up_outside s (cursor t - 80)); lia.
    - intros i Hi. etransitivity; [apply (cell_memmove_up s (cursor t - 80)); lia|].
      destruct (Z.leb_spec 80 i), (Z.ltb_spec i (80 + (cursor t - 80))); done || lia. }
  clearbody s1.
  destruct (ClearLine_spec 25 s1) as (Hp2 & Hk2 & Ho2 & Hc2); [lia|].
  set (s2 := Console_ClearLine 25 s1) in *. clearbody s2.
  destruct (SetCursorPosition_keeps (Console_pos s2) s2) as (Hp3 & Hk3 & Hm3).
  set (s3 := Console_SetCursorPosition _ s2) in *. clearbody s3.
  assert (forall i, cell s3 i = cell s2 i) as Hc3 by (intros; unfold cell; by rewrite Hm3).
  assert (same_control s s3) as Hk by (etransitivity; [|etransitivity]; eassumption).
  assert (same_outside s s3) as Ho.
  { etransitivity; [exact Ho1|]. etransitivity; [exact Ho2|]. intros a _. by rewrite Hm3. }
  conjs; [|done..]. assert (Console_inpanic s3 = Console_inpanic s) as Hn3 by (by injection Hk).
  clear Hk1 Hk2 Hk3 Ho Ho1 Ho2.
  unfold shows. rewrite Hn3, Hp3, Hp2, Hp1.
  destruct (Z.leb_spec 2000 (cursor t)) as [Hge|Hlt]; cbn [grid cursor andb] in *.
  - conjs; [done|lia|lia|done| |].
    + intros i Hi. rewrite Hc3, Hc2, Hc1 by lia.
      destruct (Z.leb_spec (80 * 25) i), (Z.leb_spec 80 i), (Z.ltb_spec i 80), (Z.ltb_spec i 1920);
        cbn [andb]; try lia; [apply Hg; lia|apply Hb; lia|apply Hg; lia].
    + intros i Hi. rewrite Hc3, Hc2 by lia.
      by destruct (Z.leb_spec (80 * 25) i), (Z.ltb_spec i (80 * 25 + 80)); try lia.
  - conjs; [done|lia|lia|done| |].
    + intros i Hi. rewrite Hc3, Hc2, Hc1 by lia.
      destruct (Z.leb_spec (80 * 25) i); cbn [andb]; try lia. by apply Hg.
    + intros i Hi. rewrite Hc3, Hc2 by lia.
      by destruct (Z.leb_spec (80 * 25) i), (Z.ltb_spec i (80 * 25 + 80)); try lia.
Qed.

(** ** Characters *)

Lemma glyph_code c :
  0 <= c < 256 ->
  wrap16 (Z.lor (Console_Attribute CONSOLE_COLOR_WHITE CONSOLE_COLOR_BLACK) (signed8 c)) = glyph c.
Proof.
  intros Hc.
  assert (forallb (fun n => let c := Z.of_nat n in
    wrap16 (Z.lor (Console_Attribute CONSOLE_COLOR_WHITE CONSOLE_COLOR_BLACK) (signed8 c)) =? glyph c)
    (seq 0 256) = true) as Hall by (vm_compute; reflexivity).
  rewrite forallb_forall in Hall. specialize (Hall (Z.to_nat c)).
  rewrite Z2Nat.id in Hall by lia. apply Z.eqb_eq, Hall, in_seq. lia.
Qed.

Lemma signed8_eqb c k : 0 <= c < 256 -> 0 <= k < 128 -> (signed8 c =? k) = (c =? k).
Proof.
  intros. unfold signed8. rewrite wrap8_small by lia.
  destruct (Z.ltb_spec c 128); repeat case_cmp; lia.
Qed.

(** What [print_glyph] leaves, for a character that does not return early. *)
Lemma print_glyph_past c s t s1 :
  shows s t -> 0 <= c < 256 -> print_glyph (signed8 c) s = Some s1 ->
  exists t1, shows_past s1 t1 /\ settle t1 = put c t /\ same_control s s1 /\ same_outside s s1.
Proof.
  intros (Hp & Hc & Hn & Hg & Hb) Hr.
  unfold print_glyph, put. rewrite !signed8_eqb by lia. rewrite Hp.
  unfold CONSOLE_VGA_NUM_COLUMNS, CONSOLE_POS_START.
  destruct (Z.eqb_spec c 0); [|destruct (Z.eqb_spec c 10); [|destruct (Z.eqb_spec c 9);
    [|destruct (Z.eqb_spec c 8); [destruct (Z.eqb_spec (cursor t) 80); [done|]|]]]];
    intros [= <-].
  - exists t. split; [by split; [|split; [lia|]]|]. split; [|done].
    unfold settle. case_cmp; [lia|done].
  - eexists. split; [|split; [reflexivity|done]].
    split; [cbn; rewrite Z.mul_comm; apply wrap16_small; zdiv|].
    split; [cbn [cursor]; zdiv|done].
  - eexists. split; [|split; [reflexivity|done]].
    split; [cbn; apply wrap16_small; lia|]. split; [cbn [cursor]; lia|done].
  - exists (mkTerm (fun i => if i =? cursor t - 1 then blank else grid t i) (cursor t - 1)).
    split; [|split; [|split; [done|]]].
    3: { etransitivity; [|apply put_cell_outside; cbn; rewrite wrap16_small; lia]. done. }
    2: { unfold settle. cbn [cursor]. case_cmp; [lia|reflexivity]. }
    split; [cbn; apply wrap16_small; lia|]. split; [cbn [cursor]; lia|]. split; [done|].
    split; intros i Hi; cbn [grid Console_pos set_pos]; rewrite wrap16_small by lia;
      rewrite cell_put_cell by lia; destruct (Z.eqb_spec (cursor t - 1) i), (Z.eqb_spec i (cursor t - 1));
      try lia; try done; [by apply Hg|by apply Hb].
  - eexists. split; [|split; [reflexivity|split; [done|]]].
    2: { etransitivity; [|apply put_cell_outside; lia]. done. }
    split; [cbn; apply wrap16_small; lia|]. split; [cbn [cursor]; lia|]. split; [done|].
    split; intros i Hi; cbn [grid]; rewrite cell_put_cell, glyph_code by lia;
      destruct (Z.eqb_spec (cursor t) i), (Z.eqb_spec i (cursor t)); try lia; try done.
    + unfold glyph. apply wrap16_small. case_cmp; lia.
    + by apply Hg.
    + by apply Hb.
Qed.

Lemma put_char s t c :
  shows s t -> 0 <= c < 256 ->
  exists s', Console_PrintChar c s = Returns s' /\ shows s' (put c t)
    /\ same_control s s' /\ same_outside s s'.
Proof.
  intros Hs Hc. unfold Console_PrintChar.
  assert (Console_inpanic s = false) as -> by apply Hs.
  destruct (print_glyph (signed8 c) s) as [s1|] eqn:E.
  - destruct (print_glyph_past c s t s1 Hs Hc E) as (t1 & Hpast & Hset & Hk1 & Ho1).
    destruct (scroll_refines s1 t1 Hpast) as (Hsh & Hk2 & Ho2).
    exists (scroll s1). rewrite <- Hset. conjs; [done..| |].
    + by transitivity s1.
    + by transitivity s1.
  - exists s. split; [done|]. split; [|done]. replace (put c t) with t; [done|].
    destruct Hs as (Hp & _). revert E. unfold print_glyph, put, CONSOLE_POS_START.
    rewrite !signed8_eqb, Hp by lia.
    destruct (Z.eqb_spec c 0); [done|]. destruct (Z.eqb_spec c 10); [done|].
    destruct (Z.eqb_spec c 9); [done|]. destruct (Z.eqb_spec c 8); [|done].
    by destruct (Z.eqb_spec (cursor t) 80).
Qed.

(** Printing a list of characters. *)
Fixpoint print_all (cs : list Z) s : outcome (Console W) :=
  match cs with
  | [] => Returns s
  | c :: cs' => Console_PrintChar c s ;;; print_all cs'
  end.

Lemma print_all_app a b s : print_all (a ++ b) s = print_all a s ;;; print_all b.
Proof.
  revert s. induction a as [|c a IH]; intros s; [done|]. cbn [print_all app].
  destruct (Console_PrintChar c s); cbn [and_then]; [apply IH|done|done].
Qed.

Definition byte (c : Z) : Prop := 0 <= c < 256.

Lemma put_chars cs s t :
  shows s t -> Forall byte cs ->
  exists s', print_all cs s = Returns s' /\ shows s' (put_all cs t)
    /\ same_control s s' /\ same_outside s s'.
Proof.
  intros Hs Hcs. revert s t Hs. induction Hcs as [|c cs Hc _ IH]; intros s t Hs; [by exists s|].
  destruct (put_char s t c Hs Hc) as (s1 & E1 & Hs1 & Hk1 & Ho1).
  destruct (IH s1 (put c t) Hs1) as (s2 & E2 & Hs2 & Hk2 & Ho2).
  exists s2. cbn [print_all]. rewrite E1. cbn [and_then]. conjs; [done|done| |].
  - by transitivity s1.
  - by transitivity s1.
Qed.

(** ** Numbers *)

Lemma print_letter num_type d s :
  (if num_type =? CONSOLE_NUMTYPE_HEXCAP then Console_PrintChar (digits_cap d) s
   else Console_PrintChar (digits_low d) s) = Console_PrintChar (letter num_type d) s.
Proof. unfold letter. by case_cmp. Qed.

Lemma print_digits_step fuel num_type base v k (started : bool) s :
  1 < base -> 0 <= k ->
  print_digits (S fuel) num_type base v (base ^ k) started s
  = let started := started || (0 <? v / base ^ k) in
    (if started then Console_PrintChar (letter num_type (v / base ^ k)) s else Returns s) ;;; fun s =>
    print_digits fuel num_type base (v mod base ^ k) (if k =? 0 then 0 else base ^ (k - 1)) started s.
Proof.
  intros Hb Hk. cbn [print_digits]. rewrite print_letter.
  assert (0 < base ^ k) as Hpos by (apply Z.pow_pos_nonneg; lia).
  destruct (Z.ltb_spec 0 (base ^ k)); [|lia]. cbv zeta.
  replace (if k =? 0 then 0 else base ^ (k - 1)) with (base ^ k / base); [done|].
  case_cmp; [subst k; rewrite Z.pow_0_r; apply Z.div_small; lia|].
  replace k with (Z.succ (k - 1)) at 1 by lia. rewrite Z.pow_succ_r, Z.mul_comm by lia.
  apply Z.div_mul. lia.
Qed.

Lemma print_digits_started k fuel num_type base v s :
  1 < base -> (k + 2 <= fuel)%nat -> 0 <= v ->
  print_digits fuel num_type base v (base ^ Z.of_nat k) true s
  = print_all (map (letter num_type) (fixed (S k) base v)) s.
Proof.
  intros Hb. revert fuel v s. induction k as [|k IH]; intros [|fuel] v s Hf Hv; try lia;
    rewrite print_digits_step by lia; cbn [orb]; cbv zeta.
  - destruct fuel as [|fuel]; [lia|]. reflexivity.
  - rewrite Nat2Z.inj_succ. case_cmp; [lia|]. replace (Z.succ (Z.of_nat k) - 1) with (Z.of_nat k) by lia.
    rewrite <- Nat2Z.inj_succ. cbn [fixed map print_all].
    destruct (Console_PrintChar _ s) as [s1| |]; cbn [and_then]; [|done..].
    rewrite IH; [reflexivity|lia|]. apply Z.mod_pos_bound, Z.pow_pos_nonneg; lia.
Qed.

Lemma print_digits_numeral k n fuel num_type base v s :
  1 < base -> (k + 2 <= fuel)%nat -> (k < n)%nat -> 0 < v < base ^ Z.of_nat (S k) ->
  print_digits fuel num_type base v (base ^ Z.of_nat k) false s
  = print_all (map (letter num_type) (numeral n base v)) s.
Proof.
  intros Hb. revert fuel v s. induction k as [|k IH]; intros fuel v s Hf Hn Hv;
    (destruct fuel as [|fuel]; [lia|]).
  - rewrite (numeral_fixed 0), <- (print_digits_started 0 (S fuel)) by (lia || by right).
    rewrite !print_digits_step by lia. change (Z.of_nat 0) with 0. rewrite Z.pow_0_r, Z.div_1_r.
    cbn [orb]. cbv zeta. by destruct (Z.ltb_spec 0 v); [|lia].
  - assert (0 < base ^ Z.of_nat (S k)) as Hk by (apply Z.pow_pos_nonneg; lia).
    destruct (decide (base ^ Z.of_nat (S k) <= v)) as [Hle|Hgt].
    + rewrite (numeral_fixed (S k)), <- (print_digits_started (S k) (S fuel)) by (lia || by left).
      rewrite !print_digits_step by lia. cbn [orb]. cbv zeta.
      destruct (Z.ltb_spec 0 (v / base ^ Z.of_nat (S k))) as [|Hz]; [done|].
      pose proof (Z.div_le_lower_bound v (base ^ Z.of_nat (S k)) 1). lia.
    + rewrite print_digits_step by lia. rewrite Z.div_small, Z.mod_small by lia.
      cbn [orb Z.ltb Z.compare and_then]. cbv zeta. cbn [and_then].
      rewrite Nat2Z.inj_succ. case_cmp; [lia|].
      replace (Z.succ (Z.of_nat k) - 1) with (Z.of_nat k) by lia. apply IH; lia.
Qed.

Lemma abs_signed32 num :
  0 <= num < 4294967296 -> num <> 0x80000000 ->
  (if 0x80000000 <? num then 0 ⊖ num else num) = Z.abs (signed32 num)
  /\ (0x80000000 <? num) = (signed32 num <? 0).
Proof.
  intros Hn Hm. unfold signed32. rewrite (wrap32_small num) by lia.
  destruct (Z.ltb_spec num 2147483648), (Z.ltb_spec 2147483648 num); try lia.
  split; [rewrite Z.abs_neq by lia; zdiv|]. symmetry. apply Z.ltb_lt. lia.
Qed.

(** The part of [Console_PrintNum] after the sign. *)
Lemma print_magnitude v num_type s :
  0 <= v < 4294967296 -> 0 <= num_type < 4 ->
  (num_type = CONSOLE_NUMTYPE_OCTAL -> ~ 8 <= v < 10) ->
  (if (num_type =? CONSOLE_NUMTYPE_OCTAL) && (v <? 8) then Console_PrintChar (digits_low v) s
   else if v <? 10 then Console_PrintChar (digits_low v) s
   else
    (if num_type =? CONSOLE_NUMTYPE_OCTAL then Console_PrintChar 48 s
     else if (num_type =? CONSOLE_NUMTYPE_HEXLOW) || (num_type =? CONSOLE_NUMTYPE_HEXCAP) then
       Console_PrintChar 48 s ;;; Console_PrintChar 120
     else Returns s) ;;; fun s =>
    print_digits 12 num_type
      (if num_type =? CONSOLE_NUMTYPE_OCTAL then 8
       else if num_type =? CONSOLE_NUMTYPE_DECIMAL then 10 else 0x10) v
      (if num_type =? CONSOLE_NUMTYPE_OCTAL then 1073741824
       else if num_type =? CONSOLE_NUMTYPE_DECIMAL then 1000000000 else 0x10000000) false s)
  = print_all (mark num_type v ++ map (letter num_type) (numeral 11 (radix num_type) v)) s.
Proof.
  intros Hv Ht Hoct. unfold mark, radix.
  unfold CONSOLE_NUMTYPE_OCTAL, CONSOLE_NUMTYPE_DECIMAL,
    CONSOLE_NUMTYPE_HEXLOW, CONSOLE_NUMTYPE_HEXCAP in *.
  assert (forall d, d < 10 -> digits_low d = letter num_type d) as Hlow.
  { intros d Hd. unfold letter, digits_low, digits_cap. destruct (Z.ltb_spec d 10); [|lia]. by case_match. }
  assert (forall c st, Console_PrintChar c st = print_all [c] st) as Hone
    by (intros c st; cbn [print_all]; by destruct (Console_PrintChar c st)).
  assert (num_type = 0 \/ num_type = 1 \/ num_type = 2 \/ num_type = 3) as Hcase by lia.
  assert (forall base k st, 1 < base -> (k <= 10)%nat -> 10 <= v < base ^ Z.of_nat (S k) ->
    print_digits 12 num_type base v (base ^ Z.of_nat k) false st
    = print_all (map (letter num_type) (numeral 11 base v)) st) as Hdig.
  { intros base k st ???. apply (print_digits_numeral k 11); lia. }
  destruct (Z.ltb_spec v 10).
  - rewrite (Hlow v) by lia.
    destruct Hcase as [-> | [-> | [-> | ->]]]; cbn [Z.eqb Pos.eqb andb app];
      try (destruct (Z.ltb_spec v 8); [|pose proof (Hoct eq_refl); lia]);
      rewrite numeral_small by lia; rewrite Hone; reflexivity.
  - rewrite print_all_app.
    destruct Hcase as [-> | [-> | [-> | ->]]]; cbn [Z.eqb Pos.eqb andb orb].
    + cbn [print_all and_then]. rewrite <- (Hdig 10 9%nat) by (cbn; lia). reflexivity.
    + destruct (Z.ltb_spec v 8); [lia|]. rewrite <- Hone.
      destruct (Console_PrintChar 48 s); cbn [and_then]; [|done..].
      rewrite <- (Hdig 8 10%nat) by (cbn; lia). reflexivity.
    + cbn [print_all]. rewrite and_then_assoc. destruct (Console_PrintChar 48 s) as [s1| |]; cbn [and_then]; [|done..].
      rewrite Hone. cbn [print_all].
      destruct (Console_PrintChar 120 s1); cbn [and_then]; [|done..].
      rewrite <- (Hdig 16 7%nat) by (cbn; lia). reflexivity.
    + cbn [print_all]. rewrite and_then_assoc. destruct (Console_PrintChar 48 s) as [s1| |]; cbn [and_then]; [|done..].
      rewrite Hone. cbn [print_all].
      destruct (Console_PrintChar 120 s1); cbn [and_then]; [|done..].
      rewrite <- (Hdig 16 7%nat) by (cbn; lia). reflexivity.
Qed.

Lemma print_num num num_type withsign s :
  spelled num num_type withsign ->
  Console_PrintNum num num_type withsign s = print_all (spell num num_type withsign) s.
Proof.
  intros (Hn & Ht & Hmin & Hoct). unfold Console_PrintNum, spell. cbv zeta.
  assert ((if withsign then if 0x80000000 <? num then 0 ⊖ num else num else num)
          = (if withsign then Z.abs (signed32 num) else num)
          /\ withsign && (0x80000000 <? num) = withsign && (signed32 num <? 0)) as [-> ->].
  { destruct withsign; [|done]. destruct (abs_signed32 num Hn) as [-> ->]; [|done].
    intros ->. by apply Hmin. }
  set (v := if withsign then Z.abs (signed32 num) else num) in *.
  assert (0 <= v < 4294967296) as Hv.
  { subst v. destruct withsign; [|done]. unfold signed32. rewrite wrap32_small by lia.
    case_cmp; lia. }
  clearbody v. rewrite print_all_app.
  replace (if withsign && (signed32 num <? 0) then Console_PrintChar 45 s else Returns s)
    with (print_all (if withsign && (signed32 num <? 0) then [45] else []) s)
    by (destruct (withsign && _); [|done]; cbn [print_all]; by destruct (Console_PrintChar 45 s)).
  destruct (negb _ && _ && _ && _) eqn:E.
  { bool_to_prop. unfold CONSOLE_NUMTYPE_OCTAL, CONSOLE_NUMTYPE_DECIMAL,
      CONSOLE_NUMTYPE_HEXLOW, CONSOLE_NUMTYPE_HEXCAP in *. lia. }
  clear E. destruct (print_all _ s) as [s1| |]; cbn [and_then]; [|done..].
  apply print_magnitude; [lia|lia|]. intros -> ?. by apply Hoct.
Qed.

Lemma numeral_digits n base v :
  1 < base -> 0 <= v -> Forall (fun d => 0 <= d < base) (numeral n base v).
Proof.
  intros Hb. revert v. induction n as [|n IH]; intros v Hv; cbn [numeral]; [constructor|].
  case_cmp; [by repeat constructor; lia|]. apply Forall_app. split; [apply IH, Z.div_pos; lia|].
  constructor; [by apply Z.mod_pos_bound; lia|constructor].
Qed.

Lemma byte_spell num num_type withsign :
  0 <= num -> Forall byte (spell num num_type withsign).
Proof.
  intros Hn. unfold spell. repeat rewrite Forall_app. conjs.
  - destruct (_ && _); repeat constructor; lia.
  - unfold mark. repeat case_match; repeat constructor; lia.
  - apply Forall_map. eapply Forall_impl; [apply numeral_digits|].
    + unfold radix. repeat case_cmp; lia.
    + destruct withsign; lia.
    + intros d Hd. assert (0 <= d < 16) by (revert Hd; unfold radix; repeat case_cmp; lia).
      unfold letter, digits_low, digits_cap, byte. destruct (Z.ltb_spec d 10); case_cmp; lia.
Qed.

(** ** Format strings *)

(** A NUL-terminated string in memory, away from the screen. *)
Definition string_at (m : Mem) (a : Z) (cs : list Z) : Prop :=
  (forall i, 0 <= i <= Z.of_nat (length cs) -> off_screen (a + i))
  /\ (forall i c, cs !! i = Some c -> load8 m (a + Z.of_nat i) = c /\ c <> 0)
  /\ load8 m (a + Z.of_nat (length cs)) = 0.

(** The conversions that print a number: its type, and whether it is signed. *)
Definition conversion (c : Z) : option (Z * bool) :=
  if (c =? 100) || (c =? 105) then Some (CONSOLE_NUMTYPE_DECIMAL, true)     (* d i *)
  else if c =? 117 then Some (CONSOLE_NUMTYPE_DECIMAL, false)               (* u *)
  else if c =? 111 then Some (CONSOLE_NUMTYPE_OCTAL, false)                 (* o *)
  else if (c =? 120) || (c =? 112) then Some (CONSOLE_NUMTYPE_HEXLOW, false) (* x p *)
  else if c =? 88 then Some (CONSOLE_NUMTYPE_HEXCAP, false)                 (* X *)
  else None.

Definition stack_word (a : Z) : Prop := forall i, 0 <= i < 4 -> off_screen (a + i).

(** What a format and its arguments print. *)
Inductive renders (m : Mem) : list Z -> Z -> list Z -> Prop :=
  | renders_end args : renders m [] args []
  | renders_percent_end args : renders m [37] args []
  | renders_plain c fmt args txt :
      c <> 37 -> renders m fmt args txt -> renders m (c :: fmt) args (c :: txt)
  | renders_char fmt args txt :
      stack_word args -> renders m fmt (args + 4) txt ->
      renders m (37 :: 99 :: fmt) args (wrap8 (load32 m args) :: txt)
  | renders_num c num_type withsign fmt args txt :
      conversion c = Some (num_type, withsign) -> stack_word args ->
      spelled (load32 m args) num_type withsign -> renders m fmt (args + 4) txt ->
      renders m (37 :: c :: fmt) args (spell (load32 m args) num_type withsign ++ txt)
  | renders_string str fmt args txt :
      stack_word args -> string_at m (load32 m args) str -> renders m fmt (args + 4) txt ->
      renders m (37 :: 115 :: fmt) args (str ++ txt)
  | renders_percent fmt args txt :
      renders m fmt args txt -> renders m (37 :: 37 :: fmt) args (37 :: txt)
  | renders_other c fmt args txt :
      conversion c = None -> c <> 99 -> c <> 115 -> c <> 37 -> renders m fmt args txt ->
      renders m (37 :: c :: fmt) args (37 :: c :: txt).

Lemma string_at_head m a c cs :
  string_at m a (c :: cs) -> load8 m a = c /\ c <> 0 /\ byte c /\ off_screen a.
Proof.
  intros (Ho & Hc & _). destruct (Hc 0%nat c eq_refl) as [E Hnz]. rewrite Z.add_0_r in E.
  conjs; [done|done|subst c; apply load8_range|]. rewrite <- (Z.add_0_r a). apply Ho. lia.
Qed.

Lemma string_at_tail m a c cs : string_at m a (c :: cs) -> string_at m (a + 1) cs.
Proof.
  intros (Ho & Hc & Hz). cbn [length] in *. split; [|split].
  - intros i Hi. rewrite <- Z.add_assoc. apply Ho. lia.
  - intros i d Hd. rewrite <- Z.add_assoc.
    replace (1 + Z.of_nat i) with (Z.of_nat (S i)) by lia. by apply Hc.
  - rewrite <- Hz. f_equal. lia.
Qed.

Lemma string_at_nil m a : string_at m a [] -> load8 m a = 0 /\ off_screen a.
Proof.
  intros (Ho & _ & Hz). rewrite Z.add_0_r in Hz. split; [done|].
  rewrite <- (Z.add_0_r a). apply Ho. cbn. lia.
Qed.

Lemma string_at_bytes m a cs : string_at m a cs -> Forall byte cs.
Proof.
  revert a. induction cs as [|c cs IH]; intros a Hs; [constructor|].
  constructor; [by destruct (string_at_head m a c cs Hs) as (_ & _ & Hb & _)|]. by eapply IH, string_at_tail.
Qed.

(** Memory read by the console while it prints. *)
Definition reads m s : Prop := forall a, off_screen a -> load8 (cmem s) a = load8 m a.

Lemma reads_outside m s s' : reads m s -> same_outside s s' -> reads m s'.
Proof. intros Hr Ho a Ha. by rewrite Ho, Hr. Qed.

Lemma reads_word m s a : reads m s -> stack_word a -> load32 (cmem s) a = load32 m a.
Proof. intros Hr Ha. apply load_ext. intros i Hi. apply Hr, Ha. lia. Qed.

Lemma print_string m str fuel string i s t :
  string_at m (string + i) str -> 0 <= i -> 0 <= string -> (length str < fuel)%nat ->
  reads m s -> shows s t ->
  print_string_loop fuel string i s = print_all str s.
Proof.
  revert fuel i s t. induction str as [|c str IH]; intros [|fuel] i s t Hstr Hi Hst Hf Hr Hs;
    cbn [length] in Hf; try lia; cbn [print_string_loop print_all].
  - destruct (string_at_nil _ _ Hstr) as [E Ho]. rewrite (Hr _ Ho), E. done.
  - destruct (string_at_head _ _ _ _ Hstr) as (E & Hnz & Hb & Ho). rewrite (Hr _ Ho), E.
    case_cmp; [done|]. destruct (put_char s t c Hs Hb) as (s1 & -> & Hs1 & _ & Ho1).
    cbn [and_then]. assert (i ⊕ 1 = i + 1) as ->.
    { destruct Hstr as (Hoff & _). destruct (Hoff 1 ltac:(cbn; lia)). apply wrap32_small. lia. }
    apply (IH fuel (i + 1) s1 (put c t)); [|lia|lia|lia|by eapply reads_outside|done].
    rewrite Z.add_assoc. by eapply string_at_tail.
Qed.

(** The text of a rendering is made of bytes. *)
Lemma renders_bytes m fmt args txt :
  renders m fmt args txt -> Forall byte fmt -> Forall byte txt.
Proof.
  induction 1; intros Hf; repeat (apply Forall_cons in Hf as [? Hf]);
    try apply Forall_cons; try apply Forall_app; try split; auto.
  - apply wrap8_range.
  - apply byte_spell, load32_range.
  - by eapply string_at_bytes.
Qed.

(** Printing a first part of the text and going on from there. *)
Lemma then_rest m (k : Console W -> outcome (Console W)) first rest s t :
  shows s t -> reads m s -> Forall byte first ->
  (forall s1 t1, shows s1 t1 -> reads m s1 -> k s1 = print_all rest s1) ->
  and_then (print_all first s) k = print_all (first ++ rest) s.
Proof.
  intros Hs Hr Hb Hk. rewrite print_all_app.
  destruct (put_chars first s t Hs Hb) as (s1 & -> & Hs1 & _ & Ho1). cbn [and_then].
  eapply Hk; [done|]. by eapply reads_outside.
Qed.

Lemma one_char c s : Console_PrintChar c s = print_all [c] s.
Proof. cbn [print_all]. by destruct (Console_PrintChar c s). Qed.

(** One conversion of [Console_VPrint] that prints a number. *)
Lemma vprint_conversion f format args s c num_type withsign :
  load8 (cmem s) format = 37 -> load8 (cmem s) (format + 1) = c ->
  conversion c = Some (num_type, withsign) ->
  Console_VPrint (S f) format args s
  = Console_PrintNum (load32 (cmem s) args) num_type withsign s ;;;
    Console_VPrint f (format + 2) (args + 4).
Proof.
  intros E1 E2 Hc. cbn [Console_VPrint]. rewrite E1, E2. clear E1 E2.
  cbn [Z.eqb Pos.eqb negb]. cbv zeta. revert Hc. unfold conversion.
  destruct (Z.eqb_spec c 100) as [->|]; [by intros [= <- <-]|].
  destruct (Z.eqb_spec c 105) as [->|]; [by intros [= <- <-]|]. cbn [orb].
  destruct (Z.eqb_spec c 117) as [->|]; [by intros [= <- <-]|].
  destruct (Z.eqb_spec c 111) as [->|]; [by intros [= <- <-]|].
  destruct (Z.eqb_spec c 120) as [->|]; [by intros [= <- <-]|].
  destruct (Z.eqb_spec c 112) as [->|]; [by intros [= <- <-]|]. cbn [orb].
  destruct (Z.eqb_spec c 88) as [->|]; [by intros [= <- <-]|]. done.
Qed.

Lemma vprint_other f format args s c :
  load8 (cmem s) format = 37 -> load8 (cmem s) (format + 1) = c ->
  conversion c = None -> c <> 99 -> c <> 115 -> c <> 37 -> c <> 0 ->
  Console_VPrint (S f) format args s
  = print_all [37; c] s ;;; Console_VPrint f (format + 2) args.
Proof.
  intros E1 E2 Hc ????. cbn [Console_VPrint]. rewrite E1, E2. clear E1 E2.
  cbn [Z.eqb Pos.eqb negb]. cbv zeta. unfold conversion in Hc.
  repeat case_match; try discriminate; bool_to_prop; try done.
  cbn [print_all]. destruct (Console_PrintChar 37 s) as [s1| |]; cbn [and_then]; [|done..].
  by destruct (Console_PrintChar c s1).
Qed.

Lemma vprint m fmt args txt fuel format s t :
  renders m fmt args txt -> string_at m format fmt ->
  (length fmt + length txt < fuel)%nat -> reads m s -> shows s t ->
  Console_VPrint fuel format args s = print_all txt s.
Proof.
  intros Hren. revert fuel format s t.
  induction Hren as [args|args|c fmt args txt Hc Hren IH|fmt args txt Hw Hren IH
    |c num_type withsign fmt args txt Hc Hw Hsp Hren IH|str fmt args txt Hw Hstr Hren IH
    |fmt args txt Hren IH|c fmt args txt Hc H99 H115 H37 Hren IH];
    intros [|fuel] format s t Hf Hfuel Hr Hs; try lia; cbn [length] in Hfuel.
  1: { destruct (string_at_nil _ _ Hf) as [E Ho]. cbn [Console_VPrint]. by rewrite (Hr _ Ho), E. }
  all: destruct (string_at_head _ _ _ _ Hf) as (E & Hnz & Hb & Ho); rewrite <- (Hr _ Ho) in E.
  1: { destruct (string_at_nil _ _ (string_at_tail _ _ _ _ Hf)) as [E2 Ho2].
       rewrite <- (Hr _ Ho2) in E2.
       cbn [Console_VPrint]. rewrite E, E2. cbn [Z.eqb Pos.eqb negb]. cbv zeta.
       done. }
  1: { cbn [Console_VPrint]. rewrite E. destruct (Z.eqb_spec c 0), (Z.eqb_spec c 37); try done.
       cbn [negb]. rewrite one_char.
       apply (then_rest m _ [c] txt s t); [done|done|by constructor|].
       intros s1 t1 Hs1 Hr1. apply (IH fuel _ _ t1); [by eapply string_at_tail|lia|done|done]. }
  all: pose proof (string_at_tail _ _ _ _ Hf) as Hf1.
  all: destruct (string_at_head _ _ _ _ Hf1) as (E2 & Hnz2 & Hb2 & Ho2);
       rewrite <- (Hr _ Ho2) in E2.
  all: assert (string_at m (format + 2) fmt) as Hf2
    by (replace (format + 2) with (format + 1 + 1) by lia; by eapply string_at_tail).
  all: pose proof (reads_word m s args Hr) as Hword.
  - (* c *)
    cbn [Console_VPrint]. rewrite E, E2, Hword by done. cbn [Z.eqb Pos.eqb negb]. cbv zeta.
    rewrite one_char. apply (then_rest m _ [_] txt s t); [done|done| |].
    { constructor; [apply wrap8_range|constructor]. }
    intros s1 t1 Hs1 Hr1. apply (IH _ _ _ t1); [done|lia|done|done].
  - (* numbers *)
    rewrite (vprint_conversion _ _ _ _ c num_type withsign), Hword, print_num by done.
    rewrite length_app in Hfuel.
    apply (then_rest m _ _ txt s t); [done|done|apply byte_spell, load32_range|].
    intros s1 t1 Hs1 Hr1. apply (IH _ _ _ t1); [done|lia|done|done].
  - (* s *)
    cbn [Console_VPrint]. rewrite E, E2, Hword by done. cbn [Z.eqb Pos.eqb negb]. cbv zeta.
    rewrite length_app in Hfuel. unfold Console_PrintString.
    rewrite (print_string m str fuel (load32 m args) 0 s t);
      [|by rewrite Z.add_0_r|lia|apply load32_range|lia|done|done].
    apply (then_rest m _ _ txt s t); [done|done|by eapply string_at_bytes|].
    intros s1 t1 Hs1 Hr1. apply (IH _ _ _ t1); [done|lia|done|done].
  - (* %% *)
    cbn [Console_VPrint]. rewrite E, E2. cbn [Z.eqb Pos.eqb negb]. cbv zeta.
    cbn [length] in Hfuel. rewrite one_char. apply (then_rest m _ [_] txt s t); [done|done|by constructor|].
    intros s1 t1 Hs1 Hr1. apply (IH _ _ _ t1); [done|lia|done|done].
  - (* anything else *)
    rewrite (vprint_other _ _ _ _ c) by done. cbn [length] in Hfuel.
    apply (then_rest m _ [37; c] txt s t); [done|done|constructor; [done|by constructor]|].
    intros s1 t1 Hs1 Hr1. apply (IH _ _ _ t1); [done|lia|done|done].
Qed.

(** ** Properties *)

(** C17. [Console_PrintChar] puts its character on the terminal the console
    shows: line feed, tabulator and backspace move the cursor, a cursor past
    the last line moves the text (never the banner) up by one line and clears
    the last one. It always returns, touches no memory outside of the buffer,
    keeps the cursor inside the text, and leaves locks and vetos alone. *)
Theorem Console_PrintChar_refines c s t
    (Hs : shows s t) (Hc : byte c) :
  exists s', Console_PrintChar c s = Returns s' /\ shows s' (put c t)
    /\ same_control s s' /\ same_outside s s'.
Proof. by apply put_char. Qed.

(** [Console_PrintNum] prints the numeral of its argument, in decimal,
    octal or hexadecimal, with its sign and its prefix, most significant digit
    first and without leading zeros. *)
Theorem Console_PrintNum_correct num num_type withsign s
    (Hn : spelled num num_type withsign) :
  Console_PrintNum num num_type withsign s = print_all (spell num num_type withsign) s.
Proof. by apply print_num. Qed.

(** In octal, 8 and 9 are printed as the characters [8] and [9], which
    are no octal digits, instead of [010] and [011]: the test [val < 10] that
    follows [val < 8] is not limited to the other bases. *)
Theorem Console_PrintNum_octal_8_9 v withsign s (Hv : 8 <= v < 10) :
  Console_PrintNum v CONSOLE_NUMTYPE_OCTAL withsign s = Console_PrintChar (48 + v) s
  /\ spell v CONSOLE_NUMTYPE_OCTAL withsign = [48; 49; 40 + v].
Proof.
  assert (v = 8 \/ v = 9) as [-> | ->] by lia; destruct withsign; done.
Qed.

(** With the sign asked for, the least integer is printed without one. *)
Theorem Console_PrintNum_INT_MIN s :
  Console_PrintNum 0x80000000 CONSOLE_NUMTYPE_DECIMAL true s
  = print_all (spell 0x80000000 CONSOLE_NUMTYPE_DECIMAL false) s
  /\ signed32 0x80000000 < 0.
Proof.
  split; [|done]. rewrite <- (print_num 0x80000000 CONSOLE_NUMTYPE_DECIMAL false s); [done|].
  unfold spelled. conjs; [lia|lia|done|done|by intros [? _]|by intros [? _]].
Qed.

Lemma Console_Print_run fmt format args txt fuel s t
    (Hren : renders (cmem s) fmt args txt) (Hfmt : string_at (cmem s) format fmt)
    (Hfuel : (length fmt + length txt < fuel)%nat)
    (Hs : shows s t) (Hl : flag (Console_lock s) = false) (Hv : vetos_ok (thread s)) :
  exists s', Console_Print fuel format args s = Returns s'
    /\ shows s' (put_all txt t) /\ Console_lock s' = Console_lock s /\ thread s' = thread s
    /\ same_outside s s'.
Proof.
  unfold Console_Print, SpinLock_Acquire, atomic_flag_test_and_set. rewrite Hl.
  set (s1 := set_locked _ _ s). assert (shows s1 t) as Hs1 by exact Hs.
  rewrite (vprint (cmem s) fmt args txt fuel format s1 t) by done.
  destruct (put_chars txt s1 t Hs1) as (s2 & -> & Hs2 & Hk & Ho).
  { eapply renders_bytes; [done|]. by eapply string_at_bytes. }
  cbn [and_then]. eexists. split; [reflexivity|]. conjs; [exact Hs2| | |exact Ho].
  - cbn. destruct (Console_lock s) as [b]. cbn in Hl. by rewrite Hl.
  - cbn. injection Hk as _ _ ->. subst s1. cbn. destruct (thread s) as [i v p].
    unfold vetos_ok in Hv. cbn in *.
    unfold STATE_DECREMENT_PREEMPTION_VETO, STATE_INCREMENT_PREEMPTION_VETO. cbn.
    replace (v ⊕ 1 ⊖ 1) with v by zdiv. done.
Qed.


End Spec.

(** ** Concrete inputs *)

(** A console with a format, its arguments and a string in memory:
    [Console_Print("n=%d %s\n", 42, "ok")]. *)
Definition demo_format : list Z := [110; 61; 37; 100; 32; 37; 115; 10].
Definition demo_mem : Mem :=
  store32 (store32 (store_bytes (store_bytes ∅ 0x1000 (demo_format ++ [0]))
    0x3000 [111; 107; 0]) 0x2000 42) 0x2004 0x3000.
Definition demo_console : Console PortTrace :=
  Console_Initialize (mkConsole demo_mem 80 false (mkSpinLock true) (mkThread true 0 0)
    (mkPorts [] [])).
Definition demo_terminal : Terminal := mkTerm (cell demo_console) 80.

Lemma MakeCursorVisible_keeps {W} `{!PortIO W} (s : Console W) p :
  let s' := Console_MakeCursorVisible (Console_SetCursorPosition p s) in
  Console_pos s' = Console_pos s /\ Console_inpanic s' = Console_inpanic s /\ cmem s' = cmem s.
Proof. unfold Console_MakeCursorVisible. do 2 (destruct (Inb _ _) as [? ?]). done. Qed.

Lemma banner_keeps {W} `{!PortIO W} i str (s : Console W) :
  Console_pos s = 80 -> Console_inpanic s = false ->
  Console_pos (banner i str s) = 80 /\ Console_inpanic (banner i str s) = false.
Proof. revert i s. induction str as [|c str IH]; intros i s ??; [done|]. by apply IH. Qed.

#[local] Strategy opaque [fill_cells].

Lemma initialize_shows {W} `{!PortIO W} (s : Console W) :
  Console_pos s = 80 -> Console_inpanic s = false ->
  shows (Console_Initialize s) (mkTerm (cell (Console_Initialize s)) 80).
Proof.
  intros Hp Hn. unfold Console_Initialize, Console_ClearScreen, CONSOLE_VGA_NUM_LINES.
  set (s1 := fill_cells _ 0 _ s).
  assert (Console_pos s1 = 80 /\ Console_inpanic s1 = false) as [Hp1 Hn1].
  { destruct (fill_cells_spec (Z.to_nat CONSOLE_VGA_NUM_COLUMNS) 0
      (Z.lor (Console_Attribute CONSOLE_COLOR_BLACK CONSOLE_COLOR_GREEN) 0) s)
      as (Hp1 & Hk1 & _); [lia|unfold CONSOLE_VGA_NUM_COLUMNS; lia|]. apply same_control_inpanic in Hk1 as Hn1.
    subst s1. by rewrite Hp1, Hn1. }
  clearbody s1.
  set (s2 := fill_cells _ _ _ (banner _ _ s1)).
  assert (Console_pos s2 = 80 /\ Console_inpanic s2 = false) as [Hp2 Hn2].
  { destruct (fill_cells_spec
      (Z.to_nat (CONSOLE_VGA_NUM_COLUMNS * 25 - CONSOLE_VGA_NUM_COLUMNS)) CONSOLE_VGA_NUM_COLUMNS
      (Z.lor (Console_Attribute CONSOLE_COLOR_WHITE CONSOLE_COLOR_BLACK) 0) (banner 0 avos s1))
      as (Hp2 & Hk2 & _); [done|unfold CONSOLE_VGA_NUM_COLUMNS; lia|]. apply same_control_inpanic in Hk2 as Hn2.
    subst s2. rewrite Hp2, Hn2. by apply banner_keeps. }
  clearbody s2.
  destruct (ClearLine_spec 25 s2) as (Hp3 & Hk3 & _ & Hc3); [lia|].
  apply same_control_inpanic in Hk3 as Hn3. set (s3 := Console_ClearLine 25 s2) in *. clearbody s3.
  set (s4 := Console_MakeCursorVisible _).
  assert (Console_pos s4 = Console_pos s3 /\ Console_inpanic s4 = Console_inpanic s3
    /\ cmem s4 = cmem s3) as (Hp4 & Hn4 & Hm4) by apply MakeCursorVisible_keeps.
  clearbody s4. unfold shows, cell. cbn [cursor grid set_locked Console_pos Console_inpanic cmem].
  rewrite Hp4, Hn4, Hm4, Hp3, Hn3. conjs; [done|lia|lia|done|by intros|].
  intros i Hi. etransitivity; [exact (Hc3 i ltac:(lia))|].
  by destruct (Z.leb_spec (80 * 25) i), (Z.ltb_spec i (80 * 25 + 80)); try lia.
Qed.

Lemma demo_shows : shows demo_console demo_terminal.
Proof. exact (initialize_shows (mkConsole demo_mem 80 false (mkSpinLock true) (mkThread true 0 0)
    (mkPorts [] [])) eq_refl eq_refl). Qed.

Definition string_test (m : Mem) (a : Z) (cs : list Z) : bool :=
  forallb (fun '(i, c) => (load8 m (a + Z.of_nat i) =? c) && negb (c =? 0)) (imap pair cs)
  && (load8 m (a + Z.of_nat (length cs)) =? 0).

Lemma low_string m a cs :
  0 <= a -> a + Z.of_nat (length cs) < 0x10000 -> string_test m a cs = true -> string_at m a cs.
Proof.
  intros Ha Hlen [Hall Hz%Z.eqb_eq]%andb_true_iff. split; [|split; [|done]].
  - intros i Hi. split; [lia|]. left.
    unfold Console_screen, CONSOLE_VGA_TEXT_BUFFER, KERNEL_HIGHER_HALF_OFFSET. lia.
  - intros i c Hi. rewrite forallb_forall in Hall. specialize (Hall (i, c)).
    assert (In (i, c) (imap pair cs)) as Hin.
    { apply list_elem_of_In, elem_of_lookup_imap. eauto. }
    apply Hall in Hin. by bool_to_prop.
Qed.

Lemma demo_word a : 0 <= a < 0x10000 -> stack_word a.
Proof.
  intros Ha i Hi. split; [lia|]. left.
  unfold Console_screen, CONSOLE_VGA_TEXT_BUFFER, KERNEL_HIGHER_HALF_OFFSET. lia.
Qed.

Lemma Console_PrintChar_refines_witness :
  exists s', Console_PrintChar 65 demo_console = Returns s'
    /\ shows s' (put 65 demo_terminal)
    /\ same_control demo_console s' /\ same_outside demo_console s'.
Proof. apply (Console_PrintChar_refines 65 demo_console demo_terminal); [exact demo_shows|done]. Defined.

Lemma Console_PrintNum_correct_witness :
  Console_PrintNum 0xBEEF CONSOLE_NUMTYPE_HEXCAP false demo_console
  = print_all [48; 120; 66; 69; 69; 70] demo_console.
Proof.
  apply (Console_PrintNum_correct 0xBEEF CONSOLE_NUMTYPE_HEXCAP false demo_console).
  unfold spelled. conjs; [lia|lia|done|done|by intros [? _]|by intros [? _]].
Defined.

Lemma Console_PrintNum_octal_8_9_witness :
  Console_PrintNum 8 CONSOLE_NUMTYPE_OCTAL false demo_console = Console_PrintChar 56 demo_console
  /\ spell 8 CONSOLE_NUMTYPE_OCTAL false = [48; 49; 48].
Proof. apply (Console_PrintNum_octal_8_9 8 false demo_console). lia. Defined.

Lemma demo_renders m :
  load32 m 0x2000 = 42 -> load32 m 0x2004 = 0x3000 -> string_at m 0x3000 [111; 107] ->
  renders m demo_format 0x2000 [110; 61; 52; 50; 32; 111; 107; 10].
Proof.
  intros E1 E2 Hs. do 2 (apply renders_plain; [done|]).
  change [52; 50; 32; 111; 107; 10] with (spell 42 0 true ++ [32; 111; 107; 10]).
  rewrite <- E1. apply renders_num; [done|by apply demo_word| |].
  { rewrite E1. unfold spelled. conjs; [lia|lia|done|done|by intros [_ ?]|by intros [? _]]. }
  apply renders_plain; [done|].
  change [111; 107; 10] with ([111; 107] ++ [10]).
  apply renders_string; [by apply demo_word| |apply renders_plain; [done|constructor]].
  change (0x2000 + 4) with 0x2004. by rewrite E2.
Qed.

