(* ===== verification/Pic.v ===== *)
(** * The 8259 interrupt controllers and the 8254 interval timer

    [kernel/arch/apic/src/pic.c] and [kernel/devices/pit/src/pit.c] over the
    port interface. Every routine is a function of the state behind the ports;
    one that returns a value returns the pair. *)

From S2P Require Import Prelude Ports Timer.

(** ** pic.h *)

Definition PIC_IOPORT_COMD1 : Z := 0x20.
Definition PIC_IOPORT_DATA1 : Z := 0x21.
Definition PIC_IOPORT_COMD2 : Z := 0xA0.
Definition PIC_IOPORT_DATA2 : Z := 0xA1.
Definition PIC_EOI : Z := 0x20.
Definition PIC_ICW1_NEED_ICW4 : Z := 0x01.
Definition PIC_ICW1_INIT : Z := 0x10.
Definition PIC_ICW4_8086 : Z := 0x01.
Definition PIC_READ_IRR : Z := 0x0A.
Definition PIC_READ_ISR : Z := 0x0B.
Definition PIC_IRQ_OFFSET : Z := 0x20.
Definition PIC_REMAP1_START : Z := 0 + PIC_IRQ_OFFSET.
Definition PIC_REMAP2_START : Z := 8 + PIC_IRQ_OFFSET.

Section Pic.
Context {W : Type} `{!PortIO W}.
Implicit Types w : W.

(** ** pic.c *)

(** Writes to ports, in order. *)
Fixpoint outs (l : list (Z * Z)) (w : W) : W :=
  match l with
  | [] => w
  | (port, value) :: l' => outs l' (Outb port (wrap8 value) w)
  end.

Definition PIC_SendEOI (irqline : Z) (w : W) : W :=
  let w := if 8 <=? irqline then Outb PIC_IOPORT_COMD2 PIC_EOI w else w in
  Outb PIC_IOPORT_COMD1 PIC_EOI w.

(** The port and the line within the controller. *)
Definition line_port (irqline : Z) : Z * Z :=
  if irqline <? 8 then (PIC_IOPORT_DATA1, irqline) else (PIC_IOPORT_DATA2, wrap8 (irqline - 8)).

Definition PIC_EnableInterrupt (irqline : Z) (w : W) : W :=
  let '(port, irqline) := line_port irqline in
  let '(v, w) := Inb port w in
  let value := wrap8 (Z.land v (Z.lnot (Z.shiftl 1 irqline))) in
  Outb port value w.

Definition PIC_DisableInterrupt (irqline : Z) (w : W) : W :=
  let '(port, irqline) := line_port irqline in
  let '(v, w) := Inb port w in
  let value := wrap8 (Z.lor v (Z.shiftl 1 irqline)) in
  Outb port value w.

Definition PIC_SetInterruptMask (mask : Z) (w : W) : W :=
  let mask1 := wrap8 (Z.land mask 0x00FF) in
  let mask2 := wrap8 (Z.shiftr (Z.land mask 0xFF00) 8) in
  outs [(PIC_IOPORT_DATA1, mask1); (PIC_IOPORT_DATA2, mask2)] w.

Definition PIC_DisableAllInterrupts (w : W) : W :=
  outs [(PIC_IOPORT_DATA1, 0xFF); (PIC_IOPORT_DATA2, 0xFF)] w.

Definition PIC_CombineInterruptMasks (mask1 mask2 : Z) : Z :=
  let mask := wrap16 mask1 in
  wrap16 (Z.lor mask (Z.shiftl (wrap16 mask2) 8)).

Definition PIC1_SetInterruptMask (mask : Z) (w : W) : W := Outb PIC_IOPORT_DATA1 mask w.
Definition PIC1_DisableAllInterrupts (w : W) : W := Outb PIC_IOPORT_DATA1 0xFF w.
Definition PIC2_SetInterruptMask (mask : Z) (w : W) : W := Outb PIC_IOPORT_DATA2 mask w.
Definition PIC2_DisableAllInterrupts (w : W) : W := Outb PIC_IOPORT_DATA2 0xFF w.

(** The initial masks are globals; the routine returns them. *)
Definition PIC_Initialize (w : W) : (Z * Z) * W :=
  let '(mask1, w) := Inb PIC_IOPORT_DATA1 w in
  let '(mask2, w) := Inb PIC_IOPORT_DATA2 w in
  let w := PIC_DisableAllInterrupts w in
  let w := outs
    [(PIC_IOPORT_COMD1, Z.lor PIC_ICW1_INIT PIC_ICW1_NEED_ICW4);
     (PIC_IOPORT_COMD2, Z.lor PIC_ICW1_INIT PIC_ICW1_NEED_ICW4);
     (PIC_IOPORT_DATA1, PIC_REMAP1_START);
     (PIC_IOPORT_DATA2, PIC_REMAP2_START);
     (PIC_IOPORT_DATA1, 4);
     (PIC_IOPORT_DATA2, 2);
     (PIC_IOPORT_DATA1, PIC_ICW4_8086);
     (PIC_IOPORT_DATA2, PIC_ICW4_8086)] w in
  let w := PIC_DisableAllInterrupts w in
  ((mask1, mask2), w).

Definition PIC_GetInterruptMaskRegister (w : W) : Z * W :=
  let '(v, w) := Inb PIC_IOPORT_DATA1 w in
  let wirr1 := wrap16 v in
  let '(v, w) := Inb PIC_IOPORT_DATA1 w in
  let wirr2 := wrap16 (Z.shiftl (wrap16 v) 8) in
  (Z.lor wirr2 wirr1, w).

Definition PIC_GetInterruptRequestRegister (w : W) : Z * W :=
  let w := outs [(PIC_IOPORT_COMD1, PIC_READ_IRR); (PIC_IOPORT_COMD2, PIC_READ_IRR)] w in
  let '(v, w) := Inb PIC_IOPORT_COMD1 w in
  let wirr1 := wrap16 v in
  let '(v, w) := Inb PIC_IOPORT_COMD1 w in
  let wirr2 := wrap16 (Z.shiftl (wrap16 v) 8) in
  (Z.lor wirr2 wirr1, w).

Definition PIC_GetInServiceRegister (w : W) : Z * W :=
  let w := outs [(PIC_IOPORT_COMD1, PIC_READ_ISR); (PIC_IOPORT_COMD2, PIC_READ_ISR)] w in
  let '(v, w) := Inb PIC_IOPORT_COMD1 w in
  let wisr1 := wrap16 v in
  let '(v, w) := Inb PIC_IOPORT_COMD1 w in
  let wisr2 := wrap16 (Z.shiftl (wrap16 v) 8) in
  (Z.lor wisr2 wisr1, w).

Definition PIC1_GetInterruptMaskRegister (w : W) : Z * W := Inb PIC_IOPORT_DATA1 w.
Definition PIC1_GetInterruptRequestRegister (w : W) : Z * W :=
  let w := Outb PIC_IOPORT_COMD1 PIC_READ_IRR w in Inb PIC_IOPORT_COMD1 w.
Definition PIC1_GetInServiceRegister (w : W) : Z * W :=
  let w := Outb PIC_IOPORT_COMD1 PIC_READ_ISR w in Inb PIC_IOPORT_COMD1 w.
Definition PIC2_GetInterruptMaskRegister (w : W) : Z * W := Inb PIC_IOPORT_DATA2 w.
Definition PIC2_GetInterruptRequestRegister (w : W) : Z * W :=
  let w := Outb PIC_IOPORT_COMD2 PIC_READ_IRR w in Inb PIC_IOPORT_COMD2 w.
Definition PIC2_GetInServiceRegister (w : W) : Z * W :=
  let w := Outb PIC_IOPORT_COMD2 PIC_READ_ISR w in Inb PIC_IOPORT_COMD2 w.

(** ** pit.c *)

Definition PIT_IOPORT_CHAN0 : Z := 0x40.
Definition PIT_IOPORT_COMD : Z := 0x43.
Definition PIT_CHANNEL_0 : Z := Z.shiftl 0x0 6.
Definition PIT_ACCESS_LOHIBYTE : Z := Z.shiftl 0x3 4.
Definition PIT_OPERMODE_SQWAVE_GENERATOR : Z := Z.shiftl 0x3 1.
Definition PIT_COUNTMODE_BIN : Z := 0x0.
Definition PIT_BASE_FREQUENCY : Z := 1193182.

Definition pit_command : Z :=
  Z.lor (Z.lor (Z.lor PIT_COUNTMODE_BIN PIT_OPERMODE_SQWAVE_GENERATOR) PIT_ACCESS_LOHIBYTE)
        PIT_CHANNEL_0.

(** [PIT_timer] is the first component. *)
Definition PIT_Set (freq : Z) (st : Timer * W) : Timer * W :=
  let '(_, w) := st in
  let pit_counter := wrap32 (PIT_BASE_FREQUENCY / freq) in
  (mkTimer 0 0,
   outs [(PIT_IOPORT_COMD, pit_command);
         (PIT_IOPORT_CHAN0, wrap8 (Z.land pit_counter 0x00FF));
         (PIT_IOPORT_CHAN0, wrap8 (Z.shiftr (Z.land pit_counter 0xFF00) 8))] w).

Definition PIT_Reset (w : W) : W :=
  outs [(PIT_IOPORT_COMD, pit_command); (PIT_IOPORT_CHAN0, 0); (PIT_IOPORT_CHAN0, 0)] w.

(** The busy wait on the tick count; [reads k] is what the [k]-th call of
    [Timer_GetTicks] returns. The result is the number of calls made. *)
Fixpoint PIT_Delay_loop (fuel : nat) (reads : nat -> Z) (k : nat) (iticks delay : Z) : option nat :=
  match fuel with
  | O => None
  | S f =>
      if wrap64 (reads k - iticks) <=? delay then PIT_Delay_loop f reads (S k) iticks delay
      else Some (S k)
  end.
Definition PIT_Delay (fuel : nat) (reads : nat -> Z) (delay : Z) : option nat :=
  PIT_Delay_loop fuel reads 1 (reads 0%nat) delay.

End Pic.

(** ** Properties *)

(** A PIT counter is loaded in two bytes; together they are the divisor. *)
Lemma counter_bytes c :
  0 <= c < 65536 ->
  wrap8 (Z.land c 0x00FF) + 256 * wrap8 (Z.shiftr (Z.land c 0xFF00) 8) = c.
Proof.
  intros Hc. change 0xFF with (Z.ones 8). rewrite Z.land_ones by lia.
  change 0xFF00 with (Z.shiftl (Z.ones 8) 8).
  rewrite Z.shiftr_land, Z.shiftr_shiftl_l, Z.sub_diag, Z.shiftl_0_r by lia.
  rewrite Z.land_ones, Z.shiftr_div_pow2 by lia. change (2 ^ 8) with 256.
  unfold wrap8. rewrite !Z.mod_mod by lia. zdiv.
Qed.

(** [PIT_Set] programs channel 0 with the divisor of the base frequency,
    low byte first, and restarts the tick count, for every frequency the
    16-bit counter can divide down to. *)
Theorem PIT_Set_correct {W} `{!PortIO W} freq tmr w (Hf : 19 <= freq <= PIT_BASE_FREQUENCY) :
  exists lo hi,
    PIT_Set freq (tmr, w)
    = (mkTimer 0 0, Outb PIT_IOPORT_CHAN0 hi (Outb PIT_IOPORT_CHAN0 lo (Outb PIT_IOPORT_COMD 0x36 w)))
    /\ 0 <= lo < 256 /\ 0 <= hi < 256 /\ lo + 256 * hi = PIT_BASE_FREQUENCY / freq.
Proof.
  unfold PIT_Set. assert (0 <= PIT_BASE_FREQUENCY / freq < 65536) as Hc.
  { unfold PIT_BASE_FREQUENCY in *. split; [apply Z.div_pos; lia|].
    apply Z.div_lt_upper_bound; lia. }
  rewrite (wrap32_small (PIT_BASE_FREQUENCY / freq)) by lia.
  eexists _, _. split; [reflexivity|]. rewrite !wrap8_idem.
  split; [apply wrap8_range|]. split; [apply wrap8_range|]. by apply counter_bytes.
Qed.

Lemma PIT_Set_correct_witness :
  exists lo hi,
    PIT_Set 10000 (mkTimer 7 3, mkPorts [] [])
    = (mkTimer 0 0, Outb PIT_IOPORT_CHAN0 hi (Outb PIT_IOPORT_CHAN0 lo
        (Outb PIT_IOPORT_COMD 0x36 (mkPorts [] []))))
    /\ 0 <= lo < 256 /\ 0 <= hi < 256 /\ lo + 256 * hi = PIT_BASE_FREQUENCY / 10000.
Proof. apply (PIT_Set_correct 10000). unfold PIT_BASE_FREQUENCY. lia. Defined.

(** [PIT_Delay] waits for [delay] ticks and no less: when it returns, the
    count it saw last has advanced by more than [delay], and it returns as
    soon as a read shows that. *)
Theorem PIT_Delay_correct reads delay n
    (Hmono : forall i, (i <= n)%nat -> reads 0%nat <= reads i < 18446744073709551616)
    (H0 : 0 <= reads 0%nat)
    (Hbefore : forall i, (1 <= i < n)%nat -> reads i - reads 0%nat <= delay)
    (Hafter : (1 <= n)%nat /\ delay < reads n - reads 0%nat) :
  PIT_Delay n reads delay = Some (S n).
Proof.
  unfold PIT_Delay. assert (forall fuel k, (1 <= k <= n)%nat -> (k + fuel = S n)%nat ->
    PIT_Delay_loop fuel reads k (reads 0%nat) delay = Some (S n)) as Hloop.
  { induction fuel as [|f IH]; intros k Hk Hn; cbn [PIT_Delay_loop]; [lia|].
    rewrite wrap64_small by (specialize (Hmono k); lia).
    destruct (decide (k = n)) as [->|Hne].
    - destruct (Z.leb_spec (reads n - reads 0%nat) delay); [lia|done].
    - specialize (Hbefore k ltac:(lia)).
      destruct (Z.leb_spec (reads k - reads 0%nat) delay); [apply IH; lia|lia]. }
  apply Hloop; lia.
Qed.

Lemma PIT_Delay_correct_witness : PIT_Delay 3 (fun i => 100 + Z.of_nat i) 2 = Some 4%nat.
Proof. apply (PIT_Delay_correct (fun i => 100 + Z.of_nat i) 2 3); lia. Defined.

(** The initialisation leaves every line of both controllers masked, with
    the interrupt vectors at 0x20 and 0x28, and returns the masks it found. *)
Theorem PIC_Initialize_correct w :
  exists rest, PIC_Initialize (W := PortTrace) w
    = ((fst (Inb PIC_IOPORT_DATA1 w), fst (Inb PIC_IOPORT_DATA2 (snd (Inb PIC_IOPORT_DATA1 w)))),
       mkPorts ([(PIC_IOPORT_DATA2, 0xFF); (PIC_IOPORT_DATA1, 0xFF)] ++ rest)
         (pending (snd (Inb PIC_IOPORT_DATA2 (snd (Inb PIC_IOPORT_DATA1 w))))))
    /\ In (PIC_IOPORT_DATA1, 0x20) rest /\ In (PIC_IOPORT_DATA2, 0x28) rest.
Proof.
  unfold PIC_Initialize. destruct (Inb PIC_IOPORT_DATA1 w) as [m1 w1]. cbn [fst snd].
  destruct (Inb PIC_IOPORT_DATA2 w1) as [m2 w2]. cbn [fst snd].
  eexists. split; [reflexivity|]. cbn. tauto.
Qed.

