(* ===== verification/Descr.v ===== *)
(** * Segment descriptors, interrupt gates and their dispatch

    [kernel/arch/processor/src/gdt.c] and [idt.c] (how a descriptor is packed
    into its eight bytes), [interrupt.c] (the handler table) and
    [core/syscall/src/syscall.c]. The processor's reading of the packed form
    is written here as the decoding functions. *)

From S2P Require Import Prelude Setup.

(** ** gdt.c *)

Record GDT_Entry := mkGDT {
  limit_low : Z; base_low : Z; base_middle : Z; access : Z; limit_flags : Z; base_high : Z
}.

Definition GDT_SetupEntry (base limit acc flags : Z) : GDT_Entry :=
  mkGDT
    (wrap16 (Z.land limit 0x0000FFFF))
    (wrap16 (Z.land base 0x0000FFFF))
    (wrap8 (Z.shiftr (Z.land base 0x00FF0000) 16))
    acc
    (wrap8 (wrap8 (Z.shiftr (Z.land limit 0x000F0000) 16) + wrap8 (Z.shiftl (Z.land flags 0x0F) 4)))
    (wrap8 (Z.shiftr (Z.land base 0xFF000000) 24)).

(** ** idt.c *)

Definition IDT_NENTRIES : Z := 0x100.

Record IDT_Entry := mkIDT {
  addr_low : Z; segment : Z; zero : Z; type_attr : Z; addr_high : Z
}.

Definition IDT_SetupEntry (address seg type : Z) : IDT_Entry :=
  mkIDT
    (wrap16 (Z.land address 0x0000FFFF))
    seg
    0x00
    type
    (wrap16 (Z.shiftr (Z.land address 0xFFFF0000) 16)).

(** ** What the processor reads back *)

Definition gdt_base (e : GDT_Entry) : Z :=
  base_low e + Z.shiftl (base_middle e) 16 + Z.shiftl (base_high e) 24.
Definition gdt_limit (e : GDT_Entry) : Z :=
  limit_low e + Z.shiftl (Z.land (limit_flags e) 0xF) 16.
Definition gdt_flags (e : GDT_Entry) : Z := Z.shiftr (limit_flags e) 4.
Definition idt_address (e : IDT_Entry) : Z := addr_low e + Z.shiftl (addr_high e) 16.

(** A field of [w] bits at bit [k], extracted with a mask and a shift. *)
Lemma field_div v k w :
  0 <= k -> 0 <= w ->
  Z.shiftr (Z.land v (Z.shiftl (Z.ones w) k)) k = (v / 2 ^ k) mod 2 ^ w.
Proof.
  intros. rewrite Z.shiftr_land, Z.shiftr_shiftl_l, Z.sub_diag, Z.shiftl_0_r by lia.
  rewrite Z.land_ones, Z.shiftr_div_pow2 by lia. done.
Qed.

Lemma GDT_fields base limit acc flags
    (Hb : 0 <= base < 2 ^ 32) (Hl : 0 <= limit < 2 ^ 20) (Hf : 0 <= flags < 16) :
  let e := GDT_SetupEntry base limit acc flags in
  gdt_base e = base /\ gdt_limit e = limit /\ access e = acc /\ gdt_flags e = flags.
Proof.
  cbv zeta. unfold gdt_base, gdt_limit, gdt_flags, GDT_SetupEntry.
  cbn [base_low base_middle base_high limit_low limit_flags access].
  change 0x0000FFFF with (Z.ones 16).
  change 0x00FF0000 with (Z.shiftl (Z.ones 8) 16).
  change 0xFF000000 with (Z.shiftl (Z.ones 8) 24).
  change 0x000F0000 with (Z.shiftl (Z.ones 4) 16).
  change 0x0F with (Z.ones 4). change 0xF with (Z.ones 4).
  rewrite !field_div, !Z.land_ones, !Z.shiftl_mul_pow2, !Z.shiftr_div_pow2 by lia.
  change (2 ^ 32) with 4294967296 in *. change (2 ^ 20) with 1048576 in *.
  change (2 ^ 16) with 65536. change (2 ^ 8) with 256. change (2 ^ 24) with 16777216.
  change (2 ^ 4) with 16. unfold wrap8, wrap16.
  repeat split; Z.to_euclidean_division_equations; lia.
Qed.

(** A descriptor decodes to the base, the 20-bit limit, the access byte and
    the four flags it was set up with; an interrupt gate decodes to its
    handler's address. *)
Theorem GDT_SetupEntry_roundtrip base limit acc flags
    (Hb : 0 <= base < 2 ^ 32) (Hl : 0 <= limit < 2 ^ 20) (Hf : 0 <= flags < 16) :
  let e := GDT_SetupEntry base limit acc flags in
  gdt_base e = base /\ gdt_limit e = limit /\ access e = acc /\ gdt_flags e = flags.
Proof. by apply GDT_fields. Qed.

Lemma GDT_SetupEntry_roundtrip_witness :
  let e := GDT_SetupEntry 0x8010ABCD 0x67 0x89 0 in
  gdt_base e = 0x8010ABCD /\ gdt_limit e = 0x67 /\ access e = 0x89 /\ gdt_flags e = 0.
Proof. apply (GDT_SetupEntry_roundtrip 0x8010ABCD 0x67 0x89 0); lia. Defined.

(** The gate's address comes back too. *)
Lemma IDT_SetupEntry_roundtrip address seg type :
  0 <= address < 2 ^ 32 -> idt_address (IDT_SetupEntry address seg type) = address.
Proof.
  intros Ha. unfold idt_address, IDT_SetupEntry. cbn [addr_low addr_high].
  change 0x0000FFFF with (Z.ones 16).
  change 0xFFFF0000 with (Z.shiftl (Z.ones 16) 16).
  rewrite !field_div, !Z.land_ones, !Z.shiftl_mul_pow2 by lia.
  change (2 ^ 32) with 4294967296 in *. change (2 ^ 16) with 65536. unfold wrap16.
  Z.to_euclidean_division_equations; lia.
Qed.

(** ** Dispatch *)

Section Dispatch.
Context {S : Type}.

(** A handler is called with the interrupt frame, of which the dispatcher
    reads the vector and [eax]; a null function pointer is [None], and a call
    through it is [None] for the whole run. *)
Record Frame := mkFrame { vector : Z; frame_eax : Z }.
Definition Handler : Type := Frame -> S -> option S.
Abbreviation Table := (gmap Z Handler).

Definition call (h : option Handler) (frame : Frame) (s : S) : option S :=
  match h with
  | Some f => f frame s
  | None => None
  end.

Definition SysCall (SysCall_vector : Table) (id : Z) (frame : Frame) (s : S) : option S :=
  if KERNEL_NUM_SYSCALLS <=? id then Some s
  else call (SysCall_vector !! id) frame s.

Definition Interrupt_Handle (Interrupt_Handlers SysCall_vector : Table) (frame : Frame) (s : S)
  : option S :=
  s ← (if vector frame =? 0x80 then SysCall SysCall_vector (frame_eax frame) frame s else Some s);
  call (Interrupt_Handlers !! vector frame) frame s.

Definition Interrupt_AddHandler (entry : Z) (handler : Handler) (Interrupt_Handlers : Table) : Table :=
  <[wrap8 entry := handler]> Interrupt_Handlers.

(** A handler that was added runs on its own interrupt and on no other. *)
Theorem Interrupt_AddHandler_dispatch entry h table calls frame s
    (He : 0 <= entry < 256) (Hv : vector frame <> 0x80) :
  Interrupt_Handle (Interrupt_AddHandler entry h table) calls frame s
  = if vector frame =? entry then h frame s else Interrupt_Handle table calls frame s.
Proof.
  unfold Interrupt_Handle, Interrupt_AddHandler. rewrite wrap8_small by lia.
  destruct (Z.eqb_spec (vector frame) 0x80); [done|]. cbn [mbind option_bind].
  case_cmp; [subst entry; by rewrite lookup_insert_eq|by rewrite lookup_insert_ne].
Qed.

(** A system call is dispatched twice: after [SysCall] has run its
    handler, the entry 0x80 of the interrupt table is called as well. The
    kernel installs handlers for 0x20, 0x21 and 0x30 only, so that every
    system call ends in a call through a null pointer. *)
Theorem Interrupt_Handle_syscall_null pit keyboard timer calls frame s
    (Hv : vector frame = 0x80) :
  Interrupt_Handle
    (Interrupt_AddHandler 0x30 timer
      (Interrupt_AddHandler 0x21 keyboard
        (Interrupt_AddHandler 0x20 pit ∅))) calls frame s = None.
Proof.
  unfold Interrupt_Handle. rewrite Hv. cbn [Z.eqb Pos.eqb].
  destruct (SysCall _ _ _ _); [|done]. reflexivity.
Qed.

End Dispatch.

Lemma Interrupt_Handle_syscall_null_witness :
  Interrupt_Handle (S := nat)
    (Interrupt_AddHandler 0x30 (fun _ s => Some s)
      (Interrupt_AddHandler 0x21 (fun _ s => Some s)
        (Interrupt_AddHandler 0x20 (fun _ s => Some s) ∅)))
    (<[4 := fun _ s => Some (S s)]> ∅) (mkFrame 0x80 4) 0%nat = None.
Proof. apply (Interrupt_Handle_syscall_null _ _ _ _ (mkFrame 0x80 4)). reflexivity. Defined.

Lemma Interrupt_AddHandler_dispatch_witness :
  Interrupt_Handle (S := nat)
    (Interrupt_AddHandler 0x20 (fun _ s => Some (S s)) ∅) ∅ (mkFrame 0x20 0) 1%nat = Some 2%nat.
Proof.
  etransitivity; [apply (Interrupt_AddHandler_dispatch 0x20 _ ∅ ∅ (mkFrame 0x20 0)); [lia|done]|].
  reflexivity.
Defined.
