(* ===== verification/Apic.v ===== *)
(** * Interrupt controllers: the ACPI tables, the local and the I/O APICs

    [kernel/arch/acpi/include/acpi.h], [madt.h], and [kernel/arch/apic]:
    [apic.c], [lapic.c], [ioapic.c]. The ACPI tables and the arrays of entry
    pointers are in memory; the registers of the controllers are reached
    through the class [MMIO], and the legacy controllers through [PortIO]. *)

From S2P Require Import Prelude CMem Setup Sync Ports Pic.

(** Memory-mapped 32-bit registers, by address. *)
Class MMIO (W : Type) := {
  mmio_write : Z -> Z -> W -> W;
  mmio_read : Z -> W -> Z * W
}.

(** Registers that ignore writes and read as 0. *)
#[export] Instance silent_mmio : MMIO PortTrace :=
  {| mmio_write := fun _ _ w => w; mmio_read := fun _ w => (0, w) |}.

(** ** acpi.h, madt.h: offsets *)

Definition SIZEOF_SDTHeader : Z := 36.
Definition sdt_signature (m : Mem) (p i : Z) : Z := load8 m (p + i).
Definition sdt_length (m : Mem) (p : Z) : Z := load32 m (p + 4).
Definition rsdp_rsdt_address (m : Mem) (p : Z) : Z := load32 m (p + 16).
Definition rsdt_entry (m : Mem) (p i : Z) : Z := load32 m (p + 36 + 4 * i).
Definition madt_local_apic_address (m : Mem) (p : Z) : Z := load32 m (p + 36).
Definition madt_flags (m : Mem) (p : Z) : Z := load32 m (p + 40).
Definition madt_entries (p : Z) : Z := p + 44.

Definition MADT_ENTRY_PROC_LAPIC : Z := 0.
Definition MADT_ENTRY_IOAPIC : Z := 1.
Definition MADT_ENTRY_ISO : Z := 2.
Definition MADT_ENTRY_LAPIC_ADDR : Z := 5.

Definition entry_type (m : Mem) (e : Z) : Z := load8 m e.
Definition entry_length (m : Mem) (e : Z) : Z := load8 m (e + 1).
Definition ioapic_id (m : Mem) (e : Z) : Z := load8 m (e + 2).
Definition ioapic_address (m : Mem) (e : Z) : Z := load32 m (e + 4).
Definition ioapic_intr_base (m : Mem) (e : Z) : Z := load32 m (e + 8).
Definition iso_irq_source (m : Mem) (e : Z) : Z := load8 m (e + 3).
Definition iso_global_sys_intr (m : Mem) (e : Z) : Z := load32 m (e + 4).
Definition iso_flags (m : Mem) (e : Z) : Z := load16 m (e + 8).
Definition override_address (m : Mem) (e : Z) : Z := load64 m (e + 4).

(** The two macros ignore their argument and test the same bit of [flags]. *)
Definition MADT_POLARITY (flags : Z) : Z := if Z.land flags 2 =? 0 then 0 else Z.shiftl 1 13.
Definition MADT_TRIGMODE (flags : Z) : Z := if Z.land flags 2 =? 0 then 0 else Z.shiftl 1 15.

(** ** lapic.h, ioapic.h *)

Definition LAPIC_REG_ID : Z := 0x0020 / 4.
Definition LAPIC_REG_VERSION : Z := 0x0030 / 4.
Definition LAPIC_REG_TPR : Z := 0x0080 / 4.
Definition LAPIC_REG_EOI : Z := 0x00B0 / 4.
Definition LAPIC_REG_SIVR : Z := 0x00F0 / 4.
Definition LAPIC_REG_ESR : Z := 0x0280 / 4.
Definition LAPIC_REG_ICRLO : Z := 0x0300 / 4.
Definition LAPIC_REG_ICRHI : Z := 0x0310 / 4.
Definition LAPIC_REG_TIMER : Z := 0x0320 / 4.
Definition LAPIC_REG_TSR : Z := 0x0330 / 4.
Definition LAPIC_REG_PCMR : Z := 0x0340 / 4.
Definition LAPIC_REG_LINT0 : Z := 0x0350 / 4.
Definition LAPIC_REG_LINT1 : Z := 0x0360 / 4.
Definition LAPIC_REG_ERROR : Z := 0x0370 / 4.
Definition LAPIC_REG_TICR : Z := 0x0380 / 4.
Definition LAPIC_REG_TCCR : Z := 0x0390 / 4.
Definition LAPIC_REG_TDCR : Z := 0x03E0 / 4.
Definition LAPIC_LVT_DELIVERY_INIT : Z := Z.shiftl 5 8.
Definition LAPIC_LVT_MASKED : Z := 0x10000.
Definition LAPIC_LVT_TIMER_MODE_PERIODIC : Z := Z.shiftl 1 17.
Definition LAPIC_TDCR_DIVIDE_BY_16 : Z := 3.
Definition LAPIC_ICR_DELIVERY_PENDING : Z := Z.shiftl 1 12.
Definition LAPIC_ICR_LEVEL_DEASSERT : Z := 0.
Definition LAPIC_ICR_TRIGGER_LEVEL : Z := Z.shiftl 1 15.
Definition LAPIC_ICR_DEST_ALLSELF : Z := Z.shiftl 2 18.
Definition LAPIC_SIVR_INTR_SPURIOUS : Z := 0xFF.
Definition LAPIC_SIVR_SOFT_ENABLE : Z := 0x100.

Definition IOAPIC_REG_ID : Z := 0.
Definition IOAPIC_REG_VERSION : Z := 1.
Definition IOAPIC_INTR_MASKED : Z := 0x10000.
Definition IOAPIC_REDIRECT_TABLE_BASE : Z := 0x10.

Definition MULTIBOOT_TAG_TYPE_ACPI_OLD : Z := 14.
Definition MULTIBOOT_TAG_TYPE_ACPI_NEW : Z := 15.

Section Apic.
Context {W : Type} `{!PortIO W} `{!MMIO W}.

(** Addresses the linker gave to the two arrays of pointers, of
    [MACHINE_MAX_CPUS] and [MACHINE_MAX_IOAPICS] words. *)
Variable LocalAPIC_InfoPtrs IOAPIC_InfoPtrs : Z.

Record Apic := mkApic {
  amem : Mem;
  dev : W;
  cpu : Thread;                    (* the interrupt flag of this processor *)
  APIC_InfoSaved : bool;
  MADT_ptr : Z;
  PIC_exists : bool;
  PIC_InitialMasks : Z * Z;
  LocalAPIC_address : Z;
  LocalAPIC_Num : Z;
  IOAPIC_Num : Z
}.

Definition set_amem m s := mkApic m (dev s) (cpu s) (APIC_InfoSaved s) (MADT_ptr s) (PIC_exists s) (PIC_InitialMasks s) (LocalAPIC_address s) (LocalAPIC_Num s) (IOAPIC_Num s).
Definition set_dev w s := mkApic (amem s) w (cpu s) (APIC_InfoSaved s) (MADT_ptr s) (PIC_exists s) (PIC_InitialMasks s) (LocalAPIC_address s) (LocalAPIC_Num s) (IOAPIC_Num s).
Definition set_cpu t s := mkApic (amem s) (dev s) t (APIC_InfoSaved s) (MADT_ptr s) (PIC_exists s) (PIC_InitialMasks s) (LocalAPIC_address s) (LocalAPIC_Num s) (IOAPIC_Num s).
Definition set_saved b s := mkApic (amem s) (dev s) (cpu s) b (MADT_ptr s) (PIC_exists s) (PIC_InitialMasks s) (LocalAPIC_address s) (LocalAPIC_Num s) (IOAPIC_Num s).
Definition set_madt p s := mkApic (amem s) (dev s) (cpu s) (APIC_InfoSaved s) p (PIC_exists s) (PIC_InitialMasks s) (LocalAPIC_address s) (LocalAPIC_Num s) (IOAPIC_Num s).
Definition set_pic b ms s := mkApic (amem s) (dev s) (cpu s) (APIC_InfoSaved s) (MADT_ptr s) b ms (LocalAPIC_address s) (LocalAPIC_Num s) (IOAPIC_Num s).
Definition set_lapic_address a s := mkApic (amem s) (dev s) (cpu s) (APIC_InfoSaved s) (MADT_ptr s) (PIC_exists s) (PIC_InitialMasks s) a (LocalAPIC_Num s) (IOAPIC_Num s).
Definition set_nums c i s := mkApic (amem s) (dev s) (cpu s) (APIC_InfoSaved s) (MADT_ptr s) (PIC_exists s) (PIC_InitialMasks s) (LocalAPIC_address s) c i.

(** ** apic.c *)

(** The tag walk for the RSDP: the last ACPI tag wins; 0 when there is none. *)
Fixpoint find_rsdp (fuel : nat) (m : Mem) (mbi_tag rsdp : Z) : option Z :=
  match fuel with
  | O => None
  | S f =>
      let type := load32 m mbi_tag in
      if type =? 0 then Some rsdp
      else
        let rsdp := if (type =? MULTIBOOT_TAG_TYPE_ACPI_OLD) || (type =? MULTIBOOT_TAG_TYPE_ACPI_NEW)
                    then mbi_tag ⊕ 8 else rsdp in
        find_rsdp f m (mbi_tag ⊕ Z.land (load32 m (mbi_tag + 4) ⊕ 7) (Z.lnot 7)) rsdp
  end.

(** The sum of [n] bytes as a [uint8_t]. *)
Fixpoint checksum (n : nat) (m : Mem) (p sum : Z) : Z :=
  match n with
  | O => sum
  | S n' => checksum n' m (p + 1) (wrap8 (sum + load8 m p))
  end.

(** The loop over the entries of the RSDT, [n] left, from index [i] on. *)
Fixpoint find_madt (n : nat) (m : Mem) (rsdt i found : Z) : Z :=
  match n with
  | O => found
  | S n' =>
      let sdt := KERNADDR (rsdt_entry m rsdt i) in
      let apic := (sdt_signature m sdt 0 =? 65) && (sdt_signature m sdt 1 =? 80)
                  && (sdt_signature m sdt 2 =? 73) && (sdt_signature m sdt 3 =? 67) in
      find_madt n' m rsdt (i + 1) (if apic then sdt else found)
  end.

(** The two walks over the entries of the MADT, up to the address [stop]. *)
Fixpoint count_entries (fuel : nat) (m : Mem) (entry stop num_cpus num_ioapics : Z)
  : option (Z * Z) :=
  match fuel with
  | O => None
  | S f =>
      if entry <? stop then
        let num_cpus := if entry_type m entry =? MADT_ENTRY_PROC_LAPIC then num_cpus ⊕ 1 else num_cpus in
        let num_ioapics := if entry_type m entry =? MADT_ENTRY_IOAPIC then num_ioapics ⊕ 1 else num_ioapics in
        count_entries f m (entry ⊕ entry_length m entry) stop num_cpus num_ioapics
      else Some (num_cpus, num_ioapics)
  end.

Fixpoint save_entries (fuel : nat) (entry stop num_cpus num_ioapics : Z) (s : Apic)
  : option (bool * Apic) :=
  match fuel with
  | O => None
  | S f =>
      if entry <? stop then
        let '(num_cpus, s) :=
          if entry_type (amem s) entry =? MADT_ENTRY_PROC_LAPIC then
            (num_cpus ⊕ 1, set_amem (store32 (amem s) (LocalAPIC_InfoPtrs + 4 * num_cpus) entry) s)
          else (num_cpus, s) in
        let '(num_ioapics, s) :=
          if entry_type (amem s) entry =? MADT_ENTRY_IOAPIC then
            (num_ioapics ⊕ 1, set_amem (store32 (amem s) (IOAPIC_InfoPtrs + 4 * num_ioapics) entry) s)
          else (num_ioapics, s) in
        if entry_type (amem s) entry =? MADT_ENTRY_LAPIC_ADDR then
          let addr := override_address (amem s) entry in
          if 0xFFFFFFFF <? addr then Some (false, s)
          else
            let s := set_lapic_address (wrap32 addr) s in
            save_entries f (entry ⊕ entry_length (amem s) entry) stop num_cpus num_ioapics s
        else save_entries f (entry ⊕ entry_length (amem s) entry) stop num_cpus num_ioapics s
      else Some (true, s)
  end.

Definition APIC_SaveInfo (fuel : nat) (BootInfo : Z) (s : Apic) : option (bool * Apic) :=
  if APIC_InfoSaved s then Some (true, s)
  else
    rsdp ← find_rsdp fuel (amem s) (BootInfo ⊕ 8) 0;
    if rsdp =? 0 then Some (false, s)
    else
      let m := amem s in
      let rsdt := KERNADDR (rsdp_rsdt_address m rsdp) in
      if negb (checksum (Z.to_nat (sdt_length m rsdt)) m rsdt 0 =? 0) then Some (false, s)
      else
        let s := set_madt (find_madt (Z.to_nat ((sdt_length m rsdt ⊖ SIZEOF_SDTHeader) / 4))
                             m rsdt 0 (MADT_ptr s)) s in
        let madt := MADT_ptr s in
        if madt =? 0 then Some (false, s)
        else if negb (checksum (Z.to_nat (sdt_length m madt)) m madt 0 =? 0) then Some (false, s)
        else
          let s := set_pic (negb (madt_flags m madt =? 0)) (PIC_InitialMasks s) s in
          let s := set_lapic_address (madt_local_apic_address m madt) s in
          let stop := madt ⊕ sdt_length m madt in
          '(num_cpus, num_ioapics) ← count_entries fuel m (madt_entries madt) stop 0 0;
          if (MACHINE_MAX_CPUS <? num_cpus) || (MACHINE_MAX_IOAPICS <? num_cpus) then Some (false, s)
          else
            let s := set_nums num_cpus num_ioapics s in
            '(ok, s) ← save_entries fuel (madt_entries madt) stop 0 0 s;
            if negb ok then Some (false, s) else Some (true, set_saved true s).

(** ** lapic.c *)

Definition LocalAPIC_ReadFrom (index : Z) (s : Apic) : Z * Apic :=
  let '(v, w) := mmio_read (LocalAPIC_address s + 4 * index) (dev s) in (v, set_dev w s).

Definition LocalAPIC_WriteTo (index value : Z) (s : Apic) : Z * Apic :=
  let s := set_dev (mmio_write (LocalAPIC_address s + 4 * index) (wrap32 value) (dev s)) s in
  LocalAPIC_ReadFrom LAPIC_REG_ID s.

(** The result of a write is dropped by every caller. *)
Definition lapic_write (index value : Z) (s : Apic) : Apic := snd (LocalAPIC_WriteTo index value s).

Definition LocalAPIC_EOI (s : Apic) : Apic := lapic_write LAPIC_REG_EOI 0 s.

Definition LocalAPIC_ID (s : Apic) : Z * Apic :=
  let '(v, s) := LocalAPIC_ReadFrom LAPIC_REG_ID s in (wrap8 (Z.shiftr v 24), s).

(** The wait for the delivery of an interprocessor interrupt. *)
Fixpoint wait_delivery (fuel : nat) (s : Apic) : option Apic :=
  match fuel with
  | O => None
  | S f =>
      let '(v, s) := LocalAPIC_ReadFrom LAPIC_REG_ICRLO s in
      if Z.land v LAPIC_ICR_DELIVERY_PENDING =? 0 then Some s else wait_delivery f s
  end.

Definition LocalAPIC_Initialize (fuel : nat) (BootInfo : Z) (s : Apic) : option (bool * Apic) :=
  '(_, s) ← APIC_SaveInfo fuel BootInfo s;
  let s := lapic_write LAPIC_REG_SIVR (Z.lor LAPIC_SIVR_SOFT_ENABLE LAPIC_SIVR_INTR_SPURIOUS) s in
  let s := lapic_write LAPIC_REG_TIMER LAPIC_LVT_MASKED s in
  let s := lapic_write LAPIC_REG_LINT0 LAPIC_LVT_MASKED s in
  let s := lapic_write LAPIC_REG_LINT1 LAPIC_LVT_MASKED s in
  let s := lapic_write LAPIC_REG_ERROR LAPIC_LVT_MASKED s in
  let '(v, s) := LocalAPIC_ReadFrom LAPIC_REG_VERSION s in
  let s := if 3 <? Z.land (Z.shiftr v 16) 0xFF then lapic_write LAPIC_REG_PCMR LAPIC_LVT_MASKED s else s in
  let '(v, s) := LocalAPIC_ReadFrom LAPIC_REG_VERSION s in
  let s := if 4 <? Z.land (Z.shiftr v 16) 0xFF then lapic_write LAPIC_REG_TSR LAPIC_LVT_MASKED s else s in
  let s := lapic_write LAPIC_REG_TICR 0 s in
  let s := lapic_write LAPIC_REG_TDCR 0 s in
  let s := lapic_write LAPIC_REG_ESR 0 s in
  let s := lapic_write LAPIC_REG_ESR 0 s in
  let s := lapic_write LAPIC_REG_EOI 0 s in
  let s := lapic_write LAPIC_REG_ICRHI 0 s in
  let s := lapic_write LAPIC_REG_ICRLO
    (Z.lor (Z.lor (Z.lor LAPIC_ICR_DEST_ALLSELF LAPIC_LVT_DELIVERY_INIT) LAPIC_ICR_TRIGGER_LEVEL)
           LAPIC_ICR_LEVEL_DEASSERT) s in
  s ← wait_delivery fuel s;
  let s := lapic_write LAPIC_REG_TPR 0 s in
  Some (true, s).

(** [LocalAPIC_GetTimerFrequency]: [n] of the ten measurements left. The
    message it prints is left to the console. [PIT_Delay] waits for another
    device: the parameter gives the state of the devices after the wait. *)
Fixpoint measure_timer (n : nat) (PIT_Delay : Z -> W -> W) (freq : Z) (s : Apic) : Z * Apic :=
  match n with
  | O => (freq, s)
  | S n' =>
      let s := lapic_write LAPIC_REG_TDCR LAPIC_TDCR_DIVIDE_BY_16 s in
      let s := lapic_write LAPIC_REG_TIMER (Z.lor LAPIC_LVT_TIMER_MODE_PERIODIC 0xF0) s in
      let s := lapic_write LAPIC_REG_TICR 0xFFFFFFFF s in
      let s := set_dev (PIT_Delay 100 (dev s)) s in
      let s := lapic_write LAPIC_REG_TIMER LAPIC_LVT_MASKED s in
      let '(count, s) := LocalAPIC_ReadFrom LAPIC_REG_TCCR s in
      measure_timer n' PIT_Delay (freq ⊕ (0xFFFFFFFF ⊖ count)) s
  end.

Definition LocalAPIC_GetTimerFrequency (PIT_Delay : Z -> W -> W) (s : Apic) : Z * Apic :=
  let iter := 10 in
  let '(freq, s) := measure_timer 10 PIT_Delay 0 s in
  let freq := freq / iter in
  let freq := freq / 10 in
  let freq := wrap32 (Z.shiftl freq 4) in
  (freq, s).

(** ** ioapic.c *)

(** [struct IOAPIC_RW]: the register select at 0, the data at 16. *)
Definition IOAPIC_WriteTo (ioapic index value : Z) (s : Apic) : Apic :=
  let s := set_dev (mmio_write ioapic (wrap32 index) (dev s)) s in
  set_dev (mmio_write (ioapic + 16) (wrap32 value) (dev s)) s.

Definition IOAPIC_ReadFrom (ioapic index : Z) (s : Apic) : Z * Apic :=
  let s := set_dev (mmio_write ioapic (wrap32 index) (dev s)) s in
  let '(v, w) := mmio_read (ioapic + 16) (dev s) in (v, set_dev w s).

(** Masking the lines from [j] on, [n] left. *)
Fixpoint mask_lines (n : nat) (ioapic j : Z) (s : Apic) : Apic :=
  match n with
  | O => s
  | S n' =>
      let s := IOAPIC_WriteTo ioapic (IOAPIC_REDIRECT_TABLE_BASE + 2 * j) IOAPIC_INTR_MASKED s in
      let '(v, s) := LocalAPIC_ReadFrom LAPIC_REG_ID s in
      let s := IOAPIC_WriteTo ioapic (IOAPIC_REDIRECT_TABLE_BASE + 2 * j + 1) (Z.shiftr v 24) s in
      mask_lines n' ioapic (j + 1) s
  end.

Fixpoint mask_ioapics (n : nat) (i : Z) (s : Apic) : bool * Apic :=
  match n with
  | O => (true, s)
  | S n' =>
      let madt_ioapic := load32 (amem s) (IOAPIC_InfoPtrs + 4 * i) in
      let madt_ioapic_id := ioapic_id (amem s) madt_ioapic in
      let ioapic := ioapic_address (amem s) madt_ioapic in
      let '(id, s) := IOAPIC_ReadFrom ioapic IOAPIC_REG_ID s in
      if negb (madt_ioapic_id =? Z.shiftr id 24) then (false, s)
      else
        let '(v, s) := IOAPIC_ReadFrom ioapic IOAPIC_REG_VERSION s in
        let max_interrupts := Z.land (Z.shiftr v 16) 0xFF in
        let s := mask_lines (Z.to_nat (max_interrupts + 1)) ioapic 0 s in
        mask_ioapics n' (i + 1) s
  end.

Definition IOAPIC_Initialize (fuel : nat) (BootInfo : Z) (s : Apic) : option (bool * Apic) :=
  '(_, s) ← APIC_SaveInfo fuel BootInfo s;
  let s := if PIC_exists s then
             let '(masks, w) := PIC_Initialize (dev s) in set_pic true masks (set_dev w s)
           else s in
  let '(ok, s) := mask_ioapics (Z.to_nat (IOAPIC_Num s)) 0 s in
  if negb ok then Some (false, s)
  else Some (true, set_cpu (EnableInterrupts (cpu s)) s).

(** The interrupt an IRQ line is wired to, and its signalling flags: the last
    override of the line in the MADT, the line itself without one. *)
Fixpoint find_override (fuel : nat) (m : Mem) (entry stop irq gsi flags : Z) : option (Z * Z) :=
  match fuel with
  | O => None
  | S f =>
      if entry <? stop then
        let '(gsi, flags) :=
          if (entry_type m entry =? 2) && (iso_irq_source m entry =? irq)
          then (iso_global_sys_intr m entry, iso_flags m entry) else (gsi, flags) in
        find_override f m (entry ⊕ entry_length m entry) stop irq gsi flags
      else Some (gsi, flags)
  end.

Fixpoint route (n : nat) (i gsi flags intr_vec local_apic_id : Z) (s : Apic) : Apic :=
  match n with
  | O => s
  | S n' =>
      let madt_ioapic := load32 (amem s) (IOAPIC_InfoPtrs + 4 * i) in
      let ioapic := ioapic_address (amem s) madt_ioapic in
      let '(v, s) := IOAPIC_ReadFrom ioapic IOAPIC_REG_VERSION s in
      let max_interrupts := Z.land (Z.shiftr v 16) 0xFF in
      let base := ioapic_intr_base (amem s) madt_ioapic in
      if (base <=? gsi) && (gsi <=? base ⊕ max_interrupts) then
        let intr_idx := gsi ⊖ base in
        let s := IOAPIC_WriteTo ioapic (IOAPIC_REDIRECT_TABLE_BASE + 2 * intr_idx)
                   (Z.lor (Z.lor (MADT_POLARITY flags) (MADT_POLARITY flags)) intr_vec) s in
        IOAPIC_WriteTo ioapic (IOAPIC_REDIRECT_TABLE_BASE + 2 * intr_idx + 1) local_apic_id s
      else route n' (i + 1) gsi flags intr_vec local_apic_id s
  end.

Definition IOAPIC_EnableInterrupt (fuel : nat) (irq intr_vec local_apic_id : Z) (s : Apic)
  : option Apic :=
  let m := amem s in
  let stop := MADT_ptr s ⊕ sdt_length m (MADT_ptr s) in
  '(gsi, flags) ← find_override fuel m (madt_entries (MADT_ptr s)) stop irq irq 0;
  Some (route (Z.to_nat (IOAPIC_Num s)) 0 gsi flags intr_vec local_apic_id s).

End Apic.
Arguments Apic W : clear implicits.
