(* ===== verification/ApicSpec.v ===== *)
(** * The APIC tables are read correctly

    [APIC_SaveInfo] finds every processor and every I/O APIC of a well-formed
    MADT, in order, and writes nothing but its two arrays. *)

From S2P Require Import Prelude CMem Setup Sync Ports Pic Apic.

(** The entries of a MADT from address [a] to [stop]: none has length 0. *)
Inductive madt_walk (m : Mem) (stop : Z) : Z -> list Z -> Prop :=
  | walk_end a : stop <= a -> madt_walk m stop a []
  | walk_entry a es :
      a < stop -> 0 < entry_length m a ->
      madt_walk m stop (a ⊕ entry_length m a) es -> madt_walk m stop a (a :: es).

Definition of_type (m : Mem) (t : Z) (es : list Z) : list Z :=
  filter (fun e => entry_type m e = t) es.

(** The address of the local APICs: the last override, or the table's own. *)
Definition lapic_base (m : Mem) (default : Z) (es : list Z) : Z :=
  fold_left (fun _ e => override_address m e) (of_type m MADT_ENTRY_LAPIC_ADDR es) default.

Lemma of_type_nil m t : of_type m t [] = [].
Proof. done. Qed.

Lemma of_type_cons m t e es :
  of_type m t (e :: es) = if entry_type m e =? t then e :: of_type m t es else of_type m t es.
Proof. unfold of_type. rewrite filter_cons. by case_cmp; case_decide. Qed.

Lemma of_type_length m t es : (length (of_type m t es) <= length es)%nat.
Proof. apply length_filter. Qed.

Lemma count_entries_walk m stop a es fuel c i :
  madt_walk m stop a es -> (length es < fuel)%nat -> 0 <= c -> 0 <= i ->
  c + Z.of_nat (length es) < 4294967296 -> i + Z.of_nat (length es) < 4294967296 ->
  count_entries fuel m a stop c i
  = Some (c + Z.of_nat (length (of_type m MADT_ENTRY_PROC_LAPIC es)),
          i + Z.of_nat (length (of_type m MADT_ENTRY_IOAPIC es))).
Proof.
  intros Hw. revert fuel c i.
  induction Hw as [a Ha|a es Ha Hlen Hw IH]; intros [|fuel] c i Hf Hc Hi Hcl Hil; cbn [length] in *;
    try lia; cbn [count_entries].
  - destruct (Z.ltb_spec a stop); [lia|]. rewrite !of_type_nil. cbn [length]. f_equal. f_equal; lia.
  - destruct (Z.ltb_spec a stop); [|lia]. cbv zeta.
    rewrite !of_type_cons. unfold MADT_ENTRY_PROC_LAPIC, MADT_ENTRY_IOAPIC in *.
    destruct (Z.eqb_spec (entry_type m a) 0), (Z.eqb_spec (entry_type m a) 1); try lia;
      rewrite ?(wrap32_small (c + 1)), ?(wrap32_small (i + 1)) by lia;
      rewrite IH by lia; cbn [length]; f_equal; f_equal; lia.
Qed.

Section Spec.
Context {W : Type} `{!PortIO W} `{!MMIO W}.
Variable LP IP : Z.                (* the two arrays *)
Hypothesis HLP : 0 <= LP /\ LP + 1020 <= 4294967296.
Hypothesis HIP : 0 <= IP /\ IP + 1020 <= 4294967296.
Hypothesis Hdisj : LP + 1020 <= IP \/ IP + 1020 <= LP.
Implicit Types s : Apic W.

(** Bytes that belong to neither array. *)
Definition outside (x : Z) : Prop :=
  0 <= x < 4294967296 /\ (x < LP \/ LP + 1020 <= x) /\ (x < IP \/ IP + 1020 <= x).
Definition entry_safe (e : Z) : Prop := forall k, 0 <= k < 12 -> outside (e + k).
Definition tables (m : Mem) s : Prop := forall x, outside x -> load8 (amem s) x = load8 m x.

Lemma entry_reads m s e :
  tables m s -> entry_safe e ->
  entry_type (amem s) e = entry_type m e /\ entry_length (amem s) e = entry_length m e
  /\ override_address (amem s) e = override_address m e.
Proof.
  intros Ht He. unfold entry_type, entry_length, override_address. conjs.
  - rewrite <- (Z.add_0_r e). apply Ht, He. lia.
  - apply Ht, He. lia.
  - apply load_ext. intros i Hi. rewrite <- Z.add_assoc. apply Ht, He. lia.
Qed.

(** Bytes of the arrays at or past positions [c] and [i]. *)
Definition free_part (c i x : Z) : Prop :=
  LP + 4 * c <= x < LP + 1020 \/ IP + 4 * i <= x < IP + 1020.

Record saved (m : Mem) (es : list Z) (c i : Z) (s s' : Apic W) : Prop := {
  saved_cpus : forall k e, of_type m MADT_ENTRY_PROC_LAPIC es !! k = Some e ->
    load32 (amem s') (LP + 4 * (c + Z.of_nat k)) = e;
  saved_ioapics : forall k e, of_type m MADT_ENTRY_IOAPIC es !! k = Some e ->
    load32 (amem s') (IP + 4 * (i + Z.of_nat k)) = e;
  saved_base : LocalAPIC_address s' = lapic_base m (LocalAPIC_address s) es;
  saved_frame : forall x, 0 <= x < 4294967296 -> ~ free_part c i x ->
    load8 (amem s') x = load8 (amem s) x;
  saved_rest : (MADT_ptr s', PIC_exists s', LocalAPIC_Num s', IOAPIC_Num s', dev s', cpu s')
             = (MADT_ptr s, PIC_exists s, LocalAPIC_Num s, IOAPIC_Num s, dev s, cpu s)
}.

Lemma saved_nil m c i s : saved m [] c i s s.
Proof. by split. Qed.

Lemma saved_skip m e es c i s s' :
  entry_type m e <> MADT_ENTRY_PROC_LAPIC -> entry_type m e <> MADT_ENTRY_IOAPIC ->
  entry_type m e <> MADT_ENTRY_LAPIC_ADDR ->
  saved m es c i s s' -> saved m (e :: es) c i s s'.
Proof.
  intros H0%Z.eqb_neq H1%Z.eqb_neq H5%Z.eqb_neq [].
  split; unfold lapic_base in *; rewrite ?of_type_cons, ?H0, ?H1, ?H5; done.
Qed.

Lemma saved_cpu m e es c i s s' :
  entry_type m e = MADT_ENTRY_PROC_LAPIC -> 0 <= e < 4294967296 -> 0 <= c < 255 -> 0 <= i ->
  saved m es (c + 1) i (set_amem (store32 (amem s) (LP + 4 * c) e) s) s' ->
  saved m (e :: es) c i s s'.
Proof.
  intros Ht He Hc Hi [Hcpu Hio Hbase Hframe Hrest].
  cbn [amem LocalAPIC_address MADT_ptr PIC_exists LocalAPIC_Num IOAPIC_Num dev cpu
       set_amem set_lapic_address] in *. split.
  - rewrite of_type_cons, Ht, Z.eqb_refl. intros [|k] x Hk.
    + injection Hk as <-. rewrite Z.add_0_r.
      rewrite (load_ext 4 (amem s') (store32 (amem s) (LP + 4 * c) e)).
      { rewrite load32_store32_eq by lia. by apply wrap32_small. }
      intros j Hj. apply Hframe; [lia|]. unfold free_part. lia.
    + rewrite <- (Hcpu k x Hk). f_equal. lia.
  - rewrite of_type_cons, Ht. exact Hio.
  - unfold lapic_base in *. rewrite of_type_cons, Ht. exact Hbase.
  - intros x Hx Hf. rewrite Hframe by (unfold free_part in *; lia).
    unfold free_part in Hf. apply load8_store_ne; lia.
  - exact Hrest.
Qed.

Lemma saved_ioapic m e es c i s s' :
  entry_type m e = MADT_ENTRY_IOAPIC -> 0 <= e < 4294967296 -> 0 <= c -> 0 <= i < 255 ->
  saved m es c (i + 1) (set_amem (store32 (amem s) (IP + 4 * i) e) s) s' ->
  saved m (e :: es) c i s s'.
Proof.
  intros Ht He Hc Hi [Hcpu Hio Hbase Hframe Hrest].
  cbn [amem LocalAPIC_address MADT_ptr PIC_exists LocalAPIC_Num IOAPIC_Num dev cpu
       set_amem set_lapic_address] in *. split.
  - rewrite of_type_cons, Ht. exact Hcpu.
  - rewrite of_type_cons, Ht, Z.eqb_refl. intros [|k] x Hk.
    + injection Hk as <-. rewrite Z.add_0_r.
      rewrite (load_ext 4 (amem s') (store32 (amem s) (IP + 4 * i) e)).
      { rewrite load32_store32_eq by lia. by apply wrap32_small. }
      intros j Hj. apply Hframe; [lia|]. unfold free_part. lia.
    + rewrite <- (Hio k x Hk). f_equal. lia.
  - unfold lapic_base in *. rewrite of_type_cons, Ht. exact Hbase.
  - intros x Hx Hf. rewrite Hframe by (unfold free_part in *; lia).
    unfold free_part in Hf. apply load8_store_ne; lia.
  - exact Hrest.
Qed.

Lemma saved_override m e es c i s s' :
  entry_type m e = MADT_ENTRY_LAPIC_ADDR ->
  saved m es c i (set_lapic_address (override_address m e) s) s' ->
  saved m (e :: es) c i s s'.
Proof.
  intros Ht [Hcpu Hio Hbase Hframe Hrest].
  cbn [amem LocalAPIC_address MADT_ptr PIC_exists LocalAPIC_Num IOAPIC_Num dev cpu
       set_amem set_lapic_address] in *.
  split; unfold lapic_base in *; rewrite ?of_type_cons, ?Ht; done.
Qed.

(** Writing an array word leaves the tables readable. *)
Lemma tables_store m s a e :
  tables m s -> (LP <= a /\ a + 4 <= LP + 1020) \/ (IP <= a /\ a + 4 <= IP + 1020) ->
  tables m (set_amem (store32 (amem s) a e) s).
Proof.
  intros Ht Ha x Hx. cbn [amem set_amem]. pose proof (Ht x Hx) as Hm. unfold outside in Hx.
  rewrite load8_store_ne by lia. exact Hm.
Qed.

Lemma save_entries_walk m stop a es fuel c i s :
  madt_walk m stop a es -> Forall entry_safe es -> tables m s ->
  Forall (fun e => override_address m e <= 0xFFFFFFFF) (of_type m MADT_ENTRY_LAPIC_ADDR es) ->
  (length es < fuel)%nat -> 0 <= c -> 0 <= i ->
  c + Z.of_nat (length (of_type m MADT_ENTRY_PROC_LAPIC es)) <= 255 ->
  i + Z.of_nat (length (of_type m MADT_ENTRY_IOAPIC es)) <= 255 ->
  exists s', save_entries LP IP fuel a stop c i s = Some (true, s') /\ saved m es c i s s'.
Proof.
  intros Hw. revert fuel c i s.
  induction Hw as [a Ha|a es Ha Hlen Hw IH]; intros [|fuel] c i s Hsafe Ht Hov Hf Hc Hi Hcn Hin;
    cbn [length] in Hf; try lia; cbn [save_entries].
  { destruct (Z.ltb_spec a stop); [lia|]. exists s. split; [done|]. apply saved_nil. }
  apply Forall_cons in Hsafe as [He Hsafe].
  assert (0 <= a < 4294967296) as Hrange.
  { destruct (He 0 ltac:(lia)). lia. }
  destruct (entry_reads m s a Ht He) as (Et & El & Eo).
  destruct (Z.ltb_spec a stop); [|lia]. rewrite Et.
  rewrite of_type_cons in Hov, Hcn, Hin.
  unfold MADT_ENTRY_PROC_LAPIC, MADT_ENTRY_IOAPIC, MADT_ENTRY_LAPIC_ADDR in *.
  assert (entry_type m a = 0 \/ entry_type m a = 1 \/ entry_type m a = 5
    \/ (entry_type m a =? 0) = false /\ (entry_type m a =? 1) = false
       /\ (entry_type m a =? 5) = false) as [T|[T|[T|(T0 & T1 & T5)]]]
    by (rewrite !Z.eqb_neq; lia); [rewrite T in *; cbn [Z.eqb Pos.eqb length] in *..|].
  - pose proof (tables_store m s (LP + 4 * c) a Ht ltac:(lia)) as Ht1.
    destruct (entry_reads m _ a Ht1 He) as (Et1 & El1 & _). rewrite T in Et1.
    set (s1 := set_amem _ s) in *. rewrite Et1. cbn [Z.eqb Pos.eqb].
    rewrite Et1. cbn [Z.eqb Pos.eqb]. rewrite El1.
    replace (c ⊕ 1) with (c + 1) by (rewrite wrap32_small; lia).
    destruct (IH fuel (c + 1) i s1) as (s' & E & Hs); [done|done|done|lia..|].
    exists s'. split; [exact E|]. apply saved_cpu; [done|done|lia|lia|exact Hs].
  - rewrite Et. cbn [Z.eqb Pos.eqb].
    pose proof (tables_store m s (IP + 4 * i) a Ht ltac:(lia)) as Ht1.
    destruct (entry_reads m _ a Ht1 He) as (Et1 & El1 & _). rewrite T in Et1.
    set (s1 := set_amem _ s) in *. rewrite Et1. cbn [Z.eqb Pos.eqb]. rewrite El1.
    replace (i ⊕ 1) with (i + 1) by (rewrite wrap32_small; lia).
    destruct (IH fuel c (i + 1) s1) as (s' & E & Hs); [done|done|done|lia..|].
    exists s'. split; [exact E|]. apply saved_ioapic; [done|done|lia|lia|exact Hs].
  - apply Forall_cons in Hov as [Ho Hov].
    rewrite Et. cbn [Z.eqb Pos.eqb]. rewrite Et. cbn [Z.eqb Pos.eqb]. rewrite Eo.
    destruct (Z.ltb_spec 0xFFFFFFFF (override_address m a)); [lia|].
    assert (0 <= override_address m a) as Hpos by apply load_range.
    rewrite (wrap32_small (override_address m a)) by lia.
    cbn [amem set_lapic_address]. rewrite El.
    destruct (IH fuel c i (set_lapic_address (override_address m a) s)) as (s' & E & Hs);
      [done|done|done|lia..|].
    exists s'. split; [exact E|]. by apply saved_override.
  - rewrite T0, T1, T5 in *. rewrite Et, T1, Et, T5, El.
    destruct (IH fuel c i s) as (s' & E & Hs); [done|done|done|lia..|].
    exists s'. split; [exact E|]. apply saved_skip; [by apply Z.eqb_neq..|exact Hs].
Qed.

(** C36. On tables whose checksums are right and whose MADT has entries of
    non-zero length, at most 255 processors and I/O APICs and 32-bit override
    addresses, [APIC_SaveInfo] succeeds: it counts the processors and I/O APICs,
    stores the addresses of their entries in order, takes the address of the
    local APICs from the table or its last override, and changes no other
    memory. *)
Theorem APIC_SaveInfo_correct fuel BootInfo s rsdp rsdt madt es
    (Hnew : APIC_InfoSaved s = false)
    (Hrsdp : find_rsdp fuel (amem s) (BootInfo ⊕ 8) 0 = Some rsdp) (Hrsdp0 : rsdp <> 0)
    (Hrsdt : rsdt = KERNADDR (rsdp_rsdt_address (amem s) rsdp))
    (Hsum : checksum (Z.to_nat (sdt_length (amem s) rsdt)) (amem s) rsdt 0 = 0)
    (Hmadt : find_madt (Z.to_nat ((sdt_length (amem s) rsdt ⊖ SIZEOF_SDTHeader) / 4))
               (amem s) rsdt 0 (MADT_ptr s) = madt) (Hmadt0 : madt <> 0)
    (Hsum2 : checksum (Z.to_nat (sdt_length (amem s) madt)) (amem s) madt 0 = 0)
    (Hwalk : madt_walk (amem s) (madt ⊕ sdt_length (amem s) madt) (madt_entries madt) es)
    (Hsafe : Forall entry_safe es) (Hfuel : (length es < fuel)%nat) (Hes : Z.of_nat (length es) < 65536)
    (Hov : Forall (fun e => override_address (amem s) e <= 0xFFFFFFFF)
             (of_type (amem s) MADT_ENTRY_LAPIC_ADDR es))
    (Hcpus : (length (of_type (amem s) MADT_ENTRY_PROC_LAPIC es) <= 255)%nat)
    (Hioapics : (length (of_type (amem s) MADT_ENTRY_IOAPIC es) <= 255)%nat) :
  exists s', APIC_SaveInfo LP IP fuel BootInfo s = Some (true, s')
    /\ APIC_InfoSaved s' = true /\ MADT_ptr s' = madt
    /\ PIC_exists s' = negb (madt_flags (amem s) madt =? 0)
    /\ LocalAPIC_Num s' = Z.of_nat (length (of_type (amem s) MADT_ENTRY_PROC_LAPIC es))
    /\ IOAPIC_Num s' = Z.of_nat (length (of_type (amem s) MADT_ENTRY_IOAPIC es))
    /\ (forall k e, of_type (amem s) MADT_ENTRY_PROC_LAPIC es !! k = Some e ->
          load32 (amem s') (LP + 4 * Z.of_nat k) = e)
    /\ (forall k e, of_type (amem s) MADT_ENTRY_IOAPIC es !! k = Some e ->
          load32 (amem s') (IP + 4 * Z.of_nat k) = e)
    /\ LocalAPIC_address s' = lapic_base (amem s) (madt_local_apic_address (amem s) madt) es
    /\ (forall x, outside x -> load8 (amem s') x = load8 (amem s) x).
Proof.
  unfold APIC_SaveInfo. rewrite Hnew, Hrsdp. cbn [mbind option_bind].
  apply Z.eqb_neq in Hrsdp0 as ->. rewrite <- Hrsdt, Hsum. cbn [Z.eqb negb]. cbv zeta.
  rewrite Hmadt. cbn [MADT_ptr set_madt]. apply Z.eqb_neq in Hmadt0 as ->.
  rewrite Hsum2. cbn [Z.eqb negb amem set_madt set_pic set_lapic_address].
  pose proof (count_entries_walk (amem s) _ _ es fuel 0 0 Hwalk) as ->; [|lia..].
  cbn [mbind option_bind]. rewrite !Z.add_0_l.
  destruct (Z.ltb_spec MACHINE_MAX_CPUS (Z.of_nat (length (of_type (amem s) MADT_ENTRY_PROC_LAPIC es))))
    as [Hbad|_]; [unfold MACHINE_MAX_CPUS in Hbad; lia|].
  destruct (Z.ltb_spec MACHINE_MAX_IOAPICS (Z.of_nat (length (of_type (amem s) MADT_ENTRY_PROC_LAPIC es))))
    as [Hbad|_]; [unfold MACHINE_MAX_IOAPICS in Hbad; lia|]. cbn [orb].
  set (s1 := set_nums _ _ _).
  destruct (save_entries_walk (amem s) _ _ es fuel 0 0 s1 Hwalk Hsafe) as (s' & E & [H1 H2 H3 H4 H5]);
    [by intros x _|done|lia..|].
  rewrite E. cbn [mbind option_bind negb]. eexists. split; [reflexivity|].
  injection H5 as H5a H5b H5c H5d _ _. cbn [amem MADT_ptr PIC_exists LocalAPIC_Num IOAPIC_Num
    LocalAPIC_address set_saved APIC_InfoSaved]. conjs; try done.
  intros x (Hx & Hxl & Hxi). apply H4; [lia|]. unfold free_part. lia.
Qed.

End Spec.

(** A walk over an entry of length 0 never ends: the code has no check. *)
Lemma count_entries_stuck fuel m e stop c i :
  e < stop -> 0 <= e < 4294967296 -> entry_length m e = 0 ->
  count_entries fuel m e stop c i = None.
Proof.
  intros He Hr Hz. revert c i. induction fuel as [|f IH]; intros c i; [done|]. cbn [count_entries].
  destruct (Z.ltb_spec e stop); [|lia]. cbv zeta. rewrite Hz, Z.add_0_r, wrap32_small by lia.
  apply IH.
Qed.

(** ** Concrete tables *)

(** Set the checksum byte of the table at [p]. *)
Definition seal (p : Z) (m : Mem) : Mem :=
  store8 m (p + 9) (- checksum (Z.to_nat (sdt_length m p)) m p 0).

Definition demo_tables : Mem :=
  let m := store32 (store32 ∅ 0x1008 14) 0x100C 28 in
  let m := store32 m 0x1020 0x2000 in
  let m := store32 (store32 m 0x80002004 40) 0x80002024 0x3000 in
  let m := seal 0x80002000 m in
  let m := store_bytes m 0x80003000 [65; 80; 73; 67] in
  let m := store32 (store32 (store32 m 0x80003004 64) 0x80003024 0xFEE00000) 0x80003028 1 in
  let m := store_bytes m 0x8000302C [0; 8; 0; 0; 1; 0; 0; 0] in
  let m := store_bytes m 0x80003034 [1; 12; 2; 0; 0; 0; 0xC0; 0xFE; 0; 0; 0; 0] in
  seal 0x80003000 m.

Definition demo_apic : Apic PortTrace :=
  mkApic demo_tables (mkPorts [] []) (mkThread false 0 0) false 0 false (0, 0) 0 0 0.

Lemma demo_walk :
  madt_walk (amem demo_apic) (0x80003000 ⊕ sdt_length (amem demo_apic) 0x80003000)
    (madt_entries 0x80003000) [0x8000302C; 0x80003034].
Proof.
  apply (walk_entry _ _ 0x8000302C); [vm_compute; reflexivity|vm_compute; reflexivity|].
  change (madt_walk (amem demo_apic) (0x80003000 ⊕ sdt_length (amem demo_apic) 0x80003000)
    0x80003034 [0x80003034]).
  apply walk_entry; [vm_compute; reflexivity|vm_compute; reflexivity|].
  apply walk_end. vm_compute. discriminate.
Qed.

Lemma APIC_SaveInfo_correct_witness :
  exists s', APIC_SaveInfo 0x80005000 0x80006000 10 0x1000 demo_apic = Some (true, s')
    /\ APIC_InfoSaved s' = true /\ MADT_ptr s' = 0x80003000
    /\ PIC_exists s' = negb (madt_flags (amem demo_apic) 0x80003000 =? 0)
    /\ LocalAPIC_Num s' = Z.of_nat (length (of_type (amem demo_apic) MADT_ENTRY_PROC_LAPIC [0x8000302C; 0x80003034]))
    /\ IOAPIC_Num s' = Z.of_nat (length (of_type (amem demo_apic) MADT_ENTRY_IOAPIC [0x8000302C; 0x80003034]))
    /\ (forall k e, of_type (amem demo_apic) MADT_ENTRY_PROC_LAPIC [0x8000302C; 0x80003034] !! k = Some e ->
          load32 (amem s') (0x80005000 + 4 * Z.of_nat k) = e)
    /\ (forall k e, of_type (amem demo_apic) MADT_ENTRY_IOAPIC [0x8000302C; 0x80003034] !! k = Some e ->
          load32 (amem s') (0x80006000 + 4 * Z.of_nat k) = e)
    /\ LocalAPIC_address s' = lapic_base (amem demo_apic)
         (madt_local_apic_address (amem demo_apic) 0x80003000) [0x8000302C; 0x80003034]
    /\ (forall x, outside 0x80005000 0x80006000 x -> load8 (amem s') x = load8 (amem demo_apic) x).
Proof.
  apply (APIC_SaveInfo_correct 0x80005000 0x80006000 ltac:(lia) ltac:(lia) ltac:(lia)
    10 0x1000 demo_apic 0x1010 0x80002000 0x80003000 [0x8000302C; 0x80003034]).
  1, 2, 4, 5, 6, 8: vm_compute; reflexivity.
  - discriminate.
  - discriminate.
  - exact demo_walk.
  - apply Forall_cons; split; [|apply Forall_cons; split; [|by apply Forall_nil_2]];
      intros k Hk; unfold outside; lia.
  - cbn. lia.
  - reflexivity.
  - replace (of_type (amem demo_apic) MADT_ENTRY_LAPIC_ADDR [0x8000302C; 0x80003034])
      with (@nil Z) by (vm_compute; reflexivity).
    constructor.
  - vm_compute. lia.
  - vm_compute. lia.
Defined.
