(* ===== verification/Keyboard.v ===== *)
(** * The keyboard driver

    [kernel/devices/keyboard]: scan codes from the controller become
    characters on the console. The tables are those of the source, position by
    position; a designated initialiser is a pair of an index and a value. *)

From S2P Require Import Prelude CMem Setup Sync Ports Console ConsoleSpec Pic Apic Descr.

(** ** keyboard.h *)

Definition KEYBOARD_STAT_PORT : Z := 0x64.
Definition KEYBOARD_DATA_PORT : Z := 0x60.
Definition KEYBOARD_DATA_IN_BUFFER : Z := 0x01.
Definition NO : Z := 0.
Definition KEY_SHIFT : Z := Z.shiftl 1 0.
Definition KEY_CTL : Z := Z.shiftl 1 1.
Definition KEY_ALT : Z := Z.shiftl 1 2.
Definition KEY_CAPSLOCK : Z := Z.shiftl 1 3.
Definition KEY_NUMLOCK : Z := Z.shiftl 1 4.
Definition KEY_SCROLLLOCK : Z := Z.shiftl 1 5.
Definition KEY_E0ESC : Z := Z.shiftl 1 6.
Definition KEY_HOME : Z := 0xE0.
Definition KEY_END : Z := 0xE1.
Definition KEY_UP : Z := 0xE2.
Definition KEY_DN : Z := 0xE3.
Definition KEY_LF : Z := 0xE4.
Definition KEY_RT : Z := 0xE5.
Definition KEY_PGUP : Z := 0xE6.
Definition KEY_PGDN : Z := 0xE7.
Definition KEY_INS : Z := 0xE8.
Definition KEY_DEL : Z := 0xE9.
(** [C(x)], as a [uint8_t]. *)
Definition C (x : Z) : Z := wrap8 (x - 64).

(** ** The tables *)

(** An array of 256 bytes: the positional initialisers, zeros, then the
    designated ones. *)
Definition table (positional : list Z) (designated : list (nat * Z)) : list Z :=
  fold_left (fun l '(i, v) => <[i := v]> l) designated
    (positional ++ replicate (256 - length positional) 0).

Definition Keyboard_shiftcode : list Z :=
  table [] [(0x1D, KEY_CTL); (0x2A, KEY_SHIFT); (0x36, KEY_SHIFT); (0x38, KEY_ALT);
            (0x9D, KEY_CTL); (0xB8, KEY_ALT)]%nat.

Definition Keyboard_togglecode : list Z :=
  table [] [(0x3A, KEY_CAPSLOCK); (0x45, KEY_NUMLOCK); (0x46, KEY_SCROLLLOCK)]%nat.

Definition cursor_keys : list (nat * Z) :=
  [(0xC8, KEY_UP); (0xD0, KEY_DN); (0xC9, KEY_PGUP); (0xD1, KEY_PGDN); (0xCB, KEY_LF);
   (0xCD, KEY_RT); (0x97, KEY_HOME); (0xCF, KEY_END); (0xD2, KEY_INS); (0xD3, KEY_DEL)]%nat.

Definition Keyboard_normalmap : list Z :=
  table
   [ NO; 0x1B; 49; 50; 51; 52; 53; 54;               (* NO ESC 1 2 3 4 5 6 *)
     55; 56; 57; 48; 45; 61; 8; 9;                   (* 7 8 9 0 - = \b \t *)
     113; 119; 101; 114; 116; 121; 117; 105;         (* q w e r t y u i *)
     111; 112; 91; 93; 10; NO; 97; 115;              (* o p [ ] \n NO a s *)
     100; 102; 103; 104; 106; 107; 108; 59;          (* d f g h j k l ; *)
     39; 96; NO; 92; 122; 120; 99; 118;              (* ' ` NO \ z x c v *)
     98; 110; 109; 44; 46; 47; NO; 42;               (* b n m , . / NO * *)
     NO; 32; NO; NO; NO; NO; NO; NO;
     NO; NO; NO; NO; NO; NO; NO; 55;                 (* 7 *)
     56; 57; 45; 52; 53; 54; 43; 49;                 (* 8 9 - 4 5 6 + 1 *)
     50; 51; 48; 46; NO; NO; NO; NO ]                (* 2 3 0 . *)
   ([(0x9C%nat, 10); (0xB5%nat, 47)] ++ cursor_keys).

Definition Keyboard_shiftmap : list Z :=
  table
   [ NO; 27; 33; 64; 35; 36; 37; 94;                 (* NO ESC ! @ # $ % ^ *)
     38; 42; 40; 41; 95; 43; 8; 9;                   (* & * ( ) _ + \b \t *)
     81; 87; 69; 82; 84; 89; 85; 73;                 (* Q W E R T Y U I *)
     79; 80; 123; 125; 10; NO; 65; 83;               (* O P { } \n NO A S *)
     68; 70; 71; 72; 74; 75; 76; 58;                 (* D F G H J K L : *)
     34; 126; NO; 124; 90; 88; 67; 86;               (* quote ~ NO | Z X C V *)
     66; 78; 77; 60; 62; 63; NO; 42;                 (* B N M < > ? NO * *)
     NO; 32; NO; NO; NO; NO; NO; NO;
     NO; NO; NO; NO; NO; NO; NO; 55;
     56; 57; 45; 52; 53; 54; 43; 49;
     50; 51; 48; 46; NO; NO; NO; NO ]
   ([(0x9C%nat, 10); (0xB5%nat, 47)] ++ cursor_keys).

Definition Keyboard_ctlmap : list Z :=
  table
   [ NO; NO; NO; NO; NO; NO; NO; NO;
     NO; NO; NO; NO; NO; NO; NO; NO;
     C 81; C 87; C 69; C 82; C 84; C 89; C 85; C 73; (* Q W E R T Y U I *)
     C 79; C 80; NO; NO; 13; NO; C 65; C 83;         (* O P NO NO \r NO A S *)
     C 68; C 70; C 71; C 72; C 74; C 75; C 76; NO;   (* D F G H J K L *)
     NO; NO; NO; C 92; C 90; C 88; C 67; C 86;       (* \ Z X C V *)
     C 66; C 78; C 77; NO; NO; C 47; NO; NO ]        (* B N M / *)
   ([(0x9C%nat, 13); (0xB5%nat, C 47)] ++ cursor_keys).

Definition charcode : list (list Z) :=
  [Keyboard_normalmap; Keyboard_shiftmap; Keyboard_ctlmap; Keyboard_ctlmap].

(** ** keyboard.c *)

(** What [Keyboard_GetChar] does with a byte from the data port: the new value
    of the static variable [shift] and the character. *)
Definition decode (shift data : Z) : Z * Z :=
  if data =? 0xE0 then (Z.lor shift KEY_E0ESC, 0)
  else if negb (Z.land data 0x80 =? 0) then
    let data := if negb (Z.land shift KEY_E0ESC =? 0) then data else Z.land data 0x7F in
    let shift := Z.land shift
      (wrap32 (Z.lnot (Z.lor (Keyboard_shiftcode !!! Z.to_nat data) KEY_E0ESC))) in
    (shift, 0)
  else
    let '(shift, data) :=
      if negb (Z.land shift KEY_E0ESC =? 0)
      then (Z.land shift (wrap32 (Z.lnot KEY_E0ESC)), Z.lor data 0x80)
      else (shift, data) in
    let shift := Z.lor shift (Keyboard_shiftcode !!! Z.to_nat data) in
    let shift := Z.lxor shift (Keyboard_togglecode !!! Z.to_nat data) in
    let c := (charcode !!! Z.to_nat (Z.land shift (Z.lor KEY_CTL KEY_SHIFT))) !!! Z.to_nat data in
    let c :=
      if negb (Z.land shift KEY_CAPSLOCK =? 0) then
        if (97 <=? c) && (c <=? 122) then wrap8 (c + (65 - 97))
        else if (65 <=? c) && (c <=? 90) then wrap8 (c + (97 - 65))
        else c
      else c in
    (shift, c).

Section Keyboard.
Context {W : Type} `{!PortIO W} `{!MMIO W}.

Definition Keyboard_GetChar (shift : Z) (w : W) : Z * (Z * W) :=
  let '(stat, w) := Inb KEYBOARD_STAT_PORT w in
  if Z.land stat KEYBOARD_DATA_IN_BUFFER =? 0 then (wrap8 (-1), (shift, w))
  else
    let '(data, w) := Inb KEYBOARD_DATA_PORT w in
    let '(shift, c) := decode shift data in
    (c, (shift, w)).

(** The driver's variable, the console and the interrupt controllers; the
    devices are the ones behind the console's ports. *)
Record KbdState := mkKbd { kshift : Z; kcon : Console W; kapic : Apic W }.

Definition Keyboard_HandleInterrupt (s : KbdState) : outcome KbdState :=
  let '(c, (shift, w)) := Keyboard_GetChar (kshift s) (ports (kcon s)) in
  let con := set_ports w (kcon s) in
  match Console_PrintChar c con with
  | Unfinished => Unfinished
  | Hangs con => Hangs (mkKbd shift con (kapic s))
  | Returns con =>
      let apic := LocalAPIC_EOI (set_dev (ports con) (kapic s)) in
      Returns (mkKbd shift (set_ports (dev apic) con) apic)
  end.

Definition Keyboard_Initialize {S} (IOAPIC_InfoPtrs : Z) (fuel : nat) (irq vector : Z)
    (handler : Handler (S := S)) (handlers : gmap Z (Handler (S := S))) (a : Apic W)
  : option (gmap Z (Handler (S := S)) * Apic W) :=
  let handlers := Interrupt_AddHandler vector handler handlers in
  let '(id, a) := LocalAPIC_ID a in
  a ← IOAPIC_EnableInterrupt IOAPIC_InfoPtrs fuel irq vector id a;
  Some (handlers, a).

End Keyboard.

(** ** Properties *)

(** The state of the modifiers: seven bits. *)
Definition modifiers (shift : Z) : Prop := 0 <= shift < 128.

(** A statement about every modifier state and every scan code is checked by
    evaluating it. *)
Lemma all_codes (P : Z -> Z -> bool) :
  forallb (fun i => forallb (fun j => P (Z.of_nat i) (Z.of_nat j)) (seq 0 256)) (seq 0 128) = true ->
  forall shift data, modifiers shift -> 0 <= data < 256 -> P shift data = true.
Proof.
  intros Hall shift data Hs Hd. rewrite forallb_forall in Hall.
  specialize (Hall (Z.to_nat shift) ltac:(apply in_seq; unfold modifiers in *; lia)).
  rewrite forallb_forall in Hall.
  specialize (Hall (Z.to_nat data) ltac:(apply in_seq; lia)).
  unfold modifiers in *. by rewrite !Z2Nat.id in Hall by lia.
Qed.

(** The scan codes of the letters, in alphabetical order. *)
Definition letter_codes : list Z :=
  [0x1E; 0x30; 0x2E; 0x20; 0x12; 0x21; 0x22; 0x23; 0x17; 0x24; 0x25; 0x26; 0x32;
   0x31; 0x18; 0x19; 0x10; 0x13; 0x1F; 0x14; 0x16; 0x2F; 0x11; 0x2D; 0x15; 0x2C].

(** A letter key without CTL gives the letter, in upper case exactly when
    one of SHIFT and CAPS LOCK is on, and leaves the modifiers alone. *)
Theorem decode_letter shift i
    (Hs : modifiers shift) (He : Z.testbit shift 6 = false) (Hc : Z.testbit shift 1 = false)
    (Hi : (i < 26)%nat) :
  decode shift (letter_codes !!! i)
  = (shift, (if xorb (Z.testbit shift 0) (Z.testbit shift 3) then 65 else 97) + Z.of_nat i).
Proof.
  assert (forallb (fun j => forallb (fun k => let s := Z.of_nat j in
    Z.testbit s 6 || Z.testbit s 1 ||
    bool_decide (decode s (letter_codes !!! k)
      = (s, (if xorb (Z.testbit s 0) (Z.testbit s 3) then 65 else 97) + Z.of_nat k)))
    (seq 0 26)) (seq 0 128) = true) as Hall by (vm_compute; reflexivity).
  rewrite forallb_forall in Hall.
  specialize (Hall (Z.to_nat shift) ltac:(apply in_seq; unfold modifiers in *; lia)).
  rewrite forallb_forall in Hall. specialize (Hall i ltac:(apply in_seq; lia)).
  unfold modifiers in *. rewrite Z2Nat.id in Hall by lia. cbv zeta in Hall.
  rewrite He, Hc in Hall. cbn [orb] in Hall. by apply bool_decide_eq_true in Hall.
Qed.

Lemma decode_letter_witness : decode 8 0x1E = (8, 65).
Proof. apply (decode_letter 8 0%nat); [by split|done|done|lia]. Defined.

Lemma decode_range shift data :
  modifiers shift -> 0 <= data < 256 ->
  modifiers (fst (decode shift data)) /\ byte (snd (decode shift data)).
Proof.
  intros Hs Hd.
  pose (P := fun shift data : Z =>
    let '(shift', c) := decode shift data in
    (0 <=? shift') && (shift' <? 128) && (0 <=? c) && (c <? 256)).
  assert (P shift data = true) as HP.
  { apply (all_codes P); [vm_compute; reflexivity|done|done]. }
  unfold P in HP. destruct (decode shift data) as [shift' c]. bool_to_prop.
  unfold modifiers, byte. cbn. lia.
Qed.

(** Whatever byte the controller delivers, the modifiers stay seven bits,
    so that [charcode] is indexed below 4 and its tables below 256, and the
    character is a byte; the release of a key gives no character and clears
    the modifier it stands for and the escape. *)
Theorem decode_safe shift data (Hs : modifiers shift) (Hd : 0 <= data < 256) :
  let '(shift', c) := decode shift data in
  modifiers shift' /\ 0 <= c < 256
  /\ Z.land shift' (Z.lor KEY_CTL KEY_SHIFT) < 4
  /\ (128 <= data -> data <> 0xE0 ->
        c = 0 /\ Z.testbit shift' 6 = false
        /\ Z.land shift' (Keyboard_shiftcode !!! Z.to_nat
             (if Z.testbit shift 6 then data else data - 128)) = 0).
Proof.
  pose (P := fun shift data : Z =>
    let '(shift', c) := decode shift data in
    (0 <=? shift') && (shift' <? 128) && (0 <=? c) && (c <? 256)
    && (Z.land shift' (Z.lor KEY_CTL KEY_SHIFT) <? 4)
    && ((data <? 128) || (data =? 0xE0) ||
        ((c =? 0) && negb (Z.testbit shift' 6)
         && (Z.land shift' (Keyboard_shiftcode !!! Z.to_nat
               (if Z.testbit shift 6 then data else data - 128)) =? 0)))).
  assert (P shift data = true) as HP.
  { apply (all_codes P); [vm_compute; reflexivity|done|done]. }
  unfold P in HP. destruct (decode shift data) as [shift' c]. bool_to_prop.
  conjs; [split; lia|lia|lia|lia|].
  intros Hr Hne. destruct (Z.ltb_spec data 128), (Z.eqb_spec data 0xE0); try lia.
  cbn [orb] in *. bool_to_prop. done.
Qed.

Lemma decode_safe_witness :
  let '(shift', c) := decode 1 0xAA in
  modifiers shift' /\ 0 <= c < 256
  /\ Z.land shift' (Z.lor KEY_CTL KEY_SHIFT) < 4
  /\ (128 <= 0xAA -> 0xAA <> 0xE0 ->
        c = 0 /\ Z.testbit shift' 6 = false
        /\ Z.land shift' (Keyboard_shiftcode !!! Z.to_nat
             (if Z.testbit 1 6 then 0xAA else 0xAA - 128)) = 0).
Proof. apply (decode_safe 1 0xAA); [by split|lia]. Defined.

Lemma shows_set_ports {W} `{!PortIO W} (s : Console W) w t : shows s t -> shows (set_ports w s) t.
Proof. intros H. exact H. Qed.

(** An interrupt with a byte waiting decodes it, puts the character on
    the terminal, acknowledges the interrupt and returns. *)
Theorem Keyboard_HandleInterrupt_correct {W} `{!PortIO W} `{!MMIO W} (s : KbdState (W := W))
    t stat w1 data w2
    (Hstat : Inb KEYBOARD_STAT_PORT (ports (kcon s)) = (stat, w1))
    (Hready : Z.land stat KEYBOARD_DATA_IN_BUFFER <> 0)
    (Hdata : Inb KEYBOARD_DATA_PORT w1 = (data, w2))
    (Hs : shows (kcon s) t) (Hm : modifiers (kshift s)) :
  exists s', Keyboard_HandleInterrupt s = Returns s'
    /\ kshift s' = fst (decode (kshift s) data) /\ modifiers (kshift s')
    /\ shows (kcon s') (put (snd (decode (kshift s) data)) t)
    /\ exists con, kapic s' = LocalAPIC_EOI (set_dev (ports con) (kapic s)).
Proof.
  unfold Keyboard_HandleInterrupt, Keyboard_GetChar. rewrite Hstat.
  apply Z.eqb_neq in Hready as ->. rewrite Hdata.
  assert (0 <= data < 256) as Hd.
  { pose proof (Inb_byte KEYBOARD_DATA_PORT w1) as Hb. by rewrite Hdata in Hb. }
  destruct (decode_range (kshift s) data Hm Hd) as [Hm' Hc].
  destruct (decode (kshift s) data) as [shift' c]. cbn [fst snd] in *.
  assert (shows (set_ports w2 (kcon s)) t) as Hs2 by exact Hs.
  destruct (put_char _ t c Hs2 Hc) as (con & -> & Hcon & _).
  eexists. split; [reflexivity|]. cbn [kshift kcon kapic]. conjs; [done|done|exact Hcon|eauto].
Qed.

Definition demo_kbd : KbdState (W := PortTrace) :=
  mkKbd 1 (set_ports (mkPorts [] [1; 0x1E]) demo_console)
    (mkApic ∅ (mkPorts [] []) (mkThread true 0 0) true 0 false (0, 0) 0xFEE00000 1 1).

Lemma Keyboard_HandleInterrupt_correct_witness :
  exists s', Keyboard_HandleInterrupt demo_kbd = Returns s'
    /\ kshift s' = 1 /\ modifiers (kshift s')
    /\ shows (kcon s') (put 65 demo_terminal)
    /\ exists con, kapic s' = LocalAPIC_EOI (set_dev (ports con) (kapic demo_kbd)).
Proof.
  apply (Keyboard_HandleInterrupt_correct demo_kbd demo_terminal 1 (mkPorts [] [0x1E]) 0x1E (mkPorts [] [])).
  - reflexivity.
  - discriminate.
  - reflexivity.
  - apply (shows_set_ports demo_console), demo_shows.
  - by split.
Defined.
