(* ===== verification/Bringup.v ===== *)
(** * Bringing up the processors

    [kernel/arch/initialize/src/initialize.c] after the memory: the state, the
    descriptor tables and the local APIC of the processor that runs it, the
    start of the other processors, the devices; and the timer of the local APIC
    ([lapic.c]). The instructions that load registers are assembly
    ([controlregs.asm], [gdt.asm], [idt.asm]): each is an assignment here. *)

From S2P Require Import Prelude CMem Setup Sync Timer PhysMem PageAlloc Process Ports Console Pic Descr Apic Keyboard.

(** ** gdt.h, idt.h, controlregs.h, initialize.h, lapic.h *)

Definition GDT_FLAGS_PMODE32 : Z := 4.
Definition GDT_FLAGS_4GB : Z := 8.
Definition GDT_FLAGS_ACCESSED : Z := 1.
Definition GDT_FLAGS_READWRITE : Z := 2.
Definition GDT_FLAGS_EXECUTABLE : Z := 8.
Definition GDT_FLAGS_CODEORDATA : Z := 0x10.
Definition GDT_FLAGS_PRIV_RING0 : Z := 0.
Definition GDT_FLAGS_PRIV_RING3 : Z := 0x60.
Definition GDT_FLAGS_PRESENT : Z := 0x80.
Definition GDT_SEGLIMIT_4GB : Z := 0xFFFFF.
Definition GDT_NENTRIES : nat := 6.
Definition GDT_ENTRY_NULL : nat := 0.
Definition GDT_ENTRY_KERN_CODE : nat := 1.
Definition GDT_ENTRY_KERN_DATA : nat := 2.
Definition GDT_ENTRY_USER_CODE : nat := 3.
Definition GDT_ENTRY_USER_DATA : nat := 4.
Definition GDT_ENTRY_TSS : nat := 5.
Definition GDT_SEG_KERN_CODE : Z := 8.
Definition GDT_SEG_KERN_DATA : Z := 16.
Definition GDT_SEG_TSS : Z := 40.
Definition GDT_RPL3 : Z := 3.

Definition IDT_FLAGS_PRESENT : Z := 0x80.
Definition IDT_FLAGS_DPL0 : Z := 0.
Definition IDT_FLAGS_DPL3 : Z := 0x60.
Definition IDT_TYPE_INTR32 : Z := 0xE.
Definition IDT_TYPE_TRAP32 : Z := 0xF.

Definition CR0_WP : Z := 0x10000.
Definition CR0_PG : Z := 0x80000000.
Definition CR4_PSE : Z := 0x10.

Definition SMP_CMOS_RAM_ADDR_PORT : Z := 0x70.
Definition SMP_CMOS_RAM_DATA_PORT : Z := 0x71.
Definition SMP_WARM_RESET_ADDR : Z := 0x0F.
Definition SMP_WARM_RESET_SIGN : Z := 0x0A.
Definition SMP_WARM_RESET_VECTOR : Z := Z.lor (Z.shiftl 0x40 4) 0x67.
Definition SMP_WARM_RESET_BOOT_OFF (x : Z) : Z := Z.land x 0xF.
Definition SMP_WARM_RESET_BOOT_SEG (x : Z) : Z := Z.shiftr x 4.

Definition LAPIC_STARTUP_VECTOR (x : Z) : Z := Z.shiftr x 12.
Definition LAPIC_ICR_DELIVERY_INIT : Z := Z.shiftl 5 8.
Definition LAPIC_ICR_DELIVERY_STARTUP : Z := Z.shiftl 6 8.
Definition LAPIC_ICR_LEVEL_ASSERT : Z := Z.shiftl 1 14.

(** Sizes of the packed structures [struct State], [struct CPU], [struct TSS]
    and of a descriptor; offsets in [struct CPU]. *)
Definition SIZEOF_STATE : Z := 13.
Definition SIZEOF_TSS : Z := 104.
Definition SIZEOF_DESCRIPTOR : Z := 8.
Definition SIZEOF_CPU : Z := 8 + SIZEOF_TSS + 6 * SIZEOF_DESCRIPTOR + 6 + 256 * SIZEOF_DESCRIPTOR + 6.
Definition cpu_task_state (c : Z) : Z := c ⊕ 8.
Definition cpu_gdt (c : Z) : Z := c ⊕ 112.
Definition cpu_idt (c : Z) : Z := c ⊕ 166.

(** [GetStackBase], from the stack pointer. *)
Definition GetStackBase (esp : Z) : Z :=
  Z.land esp (Z.lnot (KERNEL_STACK_SIZE - 1)) ⊕ KERNEL_STACK_SIZE.
Definition STATE_CURRENT (esp : Z) : Z := GetStackBase esp ⊖ SIZEOF_STATE.

(** ** The processor and its structures *)

(** [struct CPU]; of the task state, the members the kernel writes. *)
Record CPU := mkCPU {
  cpu_apic_id : Z; cpu_acpi_id : Z;
  tss_ss0 : Z; tss_iomap_base : Z;
  gdt : list GDT_Entry; gdt_desc : Z * Z;       (* limit, base *)
  idt : list IDT_Entry; idt_desc : Z * Z
}.

(** The registers of the processor, its [struct State] (the counters are the
    thread of [Sync.v]), the pointers to its tasks, and its [struct CPU]. *)
Record Processor := mkProcessor {
  cr0 : Z; cr3 : Z; cr4 : Z;
  gdtr : Z * Z; idtr : Z * Z; tr : Z; cs : Z; data_segments : Z;
  counters : Thread;
  state_process : Z; state_kernel_task : Z; task_cpu : Z;
  the_cpu : CPU
}.

Definition load_paging (c0 c3 c4 : Z) (p : Processor) : Processor :=
  mkProcessor c0 c3 c4 (gdtr p) (idtr p) (tr p) (cs p) (data_segments p) (counters p)
    (state_process p) (state_kernel_task p) (task_cpu p) (the_cpu p).
Definition set_state (t : Thread) (process task cpu : Z) (p : Processor) : Processor :=
  mkProcessor (cr0 p) (cr3 p) (cr4 p) (gdtr p) (idtr p) (tr p) (cs p) (data_segments p) t process task cpu (the_cpu p).
Definition upd_cpu (f : CPU -> CPU) (p : Processor) : Processor :=
  mkProcessor (cr0 p) (cr3 p) (cr4 p) (gdtr p) (idtr p) (tr p) (cs p) (data_segments p) (counters p)
    (state_process p) (state_kernel_task p) (task_cpu p) (f (the_cpu p)).
Definition GDT_Load (d : Z * Z) (p : Processor) : Processor :=
  mkProcessor (cr0 p) (cr3 p) (cr4 p) d (idtr p) (tr p) (cs p) (data_segments p) (counters p)
    (state_process p) (state_kernel_task p) (task_cpu p) (the_cpu p).
Definition GDT_LoadKernelSegments (p : Processor) : Processor :=
  mkProcessor (cr0 p) (cr3 p) (cr4 p) (gdtr p) (idtr p) (tr p) GDT_SEG_KERN_CODE GDT_SEG_KERN_DATA (counters p)
    (state_process p) (state_kernel_task p) (task_cpu p) (the_cpu p).
Definition TSS_LoadTaskRegister (selector : Z) (p : Processor) : Processor :=
  mkProcessor (cr0 p) (cr3 p) (cr4 p) (gdtr p) (idtr p) selector (cs p) (data_segments p) (counters p)
    (state_process p) (state_kernel_task p) (task_cpu p) (the_cpu p).
Definition IDT_Load (d : Z * Z) (p : Processor) : Processor :=
  mkProcessor (cr0 p) (cr3 p) (cr4 p) (gdtr p) d (tr p) (cs p) (data_segments p) (counters p)
    (state_process p) (state_kernel_task p) (task_cpu p) (the_cpu p).

Definition set_ids (apic acpi : Z) (c : CPU) : CPU :=
  mkCPU apic acpi (tss_ss0 c) (tss_iomap_base c) (gdt c) (gdt_desc c) (idt c) (idt_desc c).
Definition set_gdt (i : nat) (e : GDT_Entry) (c : CPU) : CPU :=
  mkCPU (cpu_apic_id c) (cpu_acpi_id c) (tss_ss0 c) (tss_iomap_base c) (<[i := e]> (gdt c)) (gdt_desc c) (idt c) (idt_desc c).
Definition set_gdt_desc (d : Z * Z) (c : CPU) : CPU :=
  mkCPU (cpu_apic_id c) (cpu_acpi_id c) (tss_ss0 c) (tss_iomap_base c) (gdt c) d (idt c) (idt_desc c).
Definition set_idt (i : nat) (e : IDT_Entry) (c : CPU) : CPU :=
  mkCPU (cpu_apic_id c) (cpu_acpi_id c) (tss_ss0 c) (tss_iomap_base c) (gdt c) (gdt_desc c) (<[i := e]> (idt c)) (idt_desc c).
Definition set_idt_desc (d : Z * Z) (c : CPU) : CPU :=
  mkCPU (cpu_apic_id c) (cpu_acpi_id c) (tss_ss0 c) (tss_iomap_base c) (gdt c) (gdt_desc c) (idt c) d.
Definition set_tss (ss0 iomap : Z) (c : CPU) : CPU :=
  mkCPU (cpu_apic_id c) (cpu_acpi_id c) ss0 (wrap16 iomap) (gdt c) (gdt_desc c) (idt c) (idt_desc c).

(** ** Initialize_ThisProcessor *)

Definition gdt_kern_code_access : Z :=
  Z.lor (Z.lor (Z.lor (Z.lor GDT_FLAGS_PRESENT GDT_FLAGS_PRIV_RING0) GDT_FLAGS_CODEORDATA) GDT_FLAGS_EXECUTABLE) GDT_FLAGS_READWRITE.
Definition gdt_user_code_access : Z :=
  Z.lor (Z.lor (Z.lor (Z.lor GDT_FLAGS_PRESENT GDT_FLAGS_PRIV_RING3) GDT_FLAGS_CODEORDATA) GDT_FLAGS_EXECUTABLE) GDT_FLAGS_READWRITE.
Definition gdt_kern_data_access : Z :=
  Z.lor (Z.lor (Z.lor GDT_FLAGS_PRESENT GDT_FLAGS_PRIV_RING0) GDT_FLAGS_CODEORDATA) GDT_FLAGS_READWRITE.
Definition gdt_user_data_access : Z :=
  Z.lor (Z.lor (Z.lor GDT_FLAGS_PRESENT GDT_FLAGS_PRIV_RING3) GDT_FLAGS_CODEORDATA) GDT_FLAGS_READWRITE.
Definition gdt_flags_4GB : Z := Z.lor GDT_FLAGS_4GB GDT_FLAGS_PMODE32.
Definition gdt_tss_access : Z := Z.lor (Z.lor GDT_FLAGS_PRESENT GDT_FLAGS_EXECUTABLE) GDT_FLAGS_ACCESSED.

Definition setup_gdt (tss_seg_base tss_seg_limit : Z) (c : CPU) : CPU :=
  let c := set_gdt GDT_ENTRY_NULL (GDT_SetupEntry 0 0 0 0) c in
  let c := set_gdt GDT_ENTRY_KERN_CODE (GDT_SetupEntry 0 GDT_SEGLIMIT_4GB gdt_kern_code_access gdt_flags_4GB) c in
  let c := set_gdt GDT_ENTRY_KERN_DATA (GDT_SetupEntry 0 GDT_SEGLIMIT_4GB gdt_kern_data_access gdt_flags_4GB) c in
  let c := set_gdt GDT_ENTRY_USER_CODE (GDT_SetupEntry 0 GDT_SEGLIMIT_4GB gdt_user_code_access gdt_flags_4GB) c in
  let c := set_gdt GDT_ENTRY_USER_DATA (GDT_SetupEntry 0 GDT_SEGLIMIT_4GB gdt_user_data_access gdt_flags_4GB) c in
  set_gdt GDT_ENTRY_TSS (GDT_SetupEntry tss_seg_base tss_seg_limit gdt_tss_access 0) c.

(** Addresses of the four entry points. *)
Record Vectors := mkVectors { Interrupt_0x20 : Z; Interrupt_0x21 : Z; Interrupt_0x30 : Z; Interrupt_0x80 : Z }.

(** [for (i = 0; i < IDT_NENTRIES; i++) IDT_SetupEntry(&(cpu->idt[i]), 0, 0, 0)] *)
Fixpoint clear_idt (n : nat) (i : nat) (c : CPU) : CPU :=
  match n with
  | O => c
  | S n' => clear_idt n' (S i) (set_idt i (IDT_SetupEntry 0 0 0) c)
  end.

Definition gate (dpl type : Z) : Z := Z.lor (Z.lor IDT_FLAGS_PRESENT dpl) type.
Definition setup_idt (v : Vectors) (c : CPU) : CPU :=
  let c := clear_idt (Z.to_nat IDT_NENTRIES) 0 c in
  let c := set_idt 0x20 (IDT_SetupEntry (Interrupt_0x20 v) GDT_SEG_KERN_CODE (gate IDT_FLAGS_DPL0 IDT_TYPE_INTR32)) c in
  let c := set_idt 0x21 (IDT_SetupEntry (Interrupt_0x21 v) GDT_SEG_KERN_CODE (gate IDT_FLAGS_DPL0 IDT_TYPE_INTR32)) c in
  let c := set_idt 0x30 (IDT_SetupEntry (Interrupt_0x30 v) GDT_SEG_KERN_CODE (gate IDT_FLAGS_DPL0 IDT_TYPE_INTR32)) c in
  set_idt 0x80 (IDT_SetupEntry (Interrupt_0x80 v) GDT_SEG_KERN_CODE (gate IDT_FLAGS_DPL3 IDT_TYPE_TRAP32)) c.

Section Bringup.
Context {W : Type} `{!PortIO W} `{!MMIO W}.
Variable LocalAPIC_InfoPtrs IOAPIC_InfoPtrs : Z.
(** The size of [struct KProc], whose timer the compiler aligns. *)
Variable SIZEOF_KPROC : Z.

Definition cpu_descriptors (c : Z) (v : Vectors) (p : Processor) : Processor :=
  let p := upd_cpu (setup_gdt (cpu_task_state c) (SIZEOF_TSS - 1)) p in
  let p := upd_cpu (set_gdt_desc (SIZEOF_DESCRIPTOR * Z.of_nat GDT_NENTRIES - 1, cpu_gdt c)) p in
  let p := GDT_Load (gdt_desc (the_cpu p)) p in
  let p := GDT_LoadKernelSegments p in
  let p := TSS_LoadTaskRegister (Z.lor GDT_SEG_TSS GDT_RPL3) p in
  let p := upd_cpu (setup_idt v) p in
  let p := upd_cpu (set_idt_desc (SIZEOF_DESCRIPTOR * IDT_NENTRIES - 1, cpu_idt c)) p in
  let p := IDT_Load (idt_desc (the_cpu p)) p in
  upd_cpu (set_tss GDT_SEG_KERN_DATA 0xFFFF) p.

(** The processor, the interrupt controllers and the number of processors that
    are online. *)
Definition Initialize_ThisProcessor (fuel : nat) (Kernel_pagedirectory BootInfo esp : Z) (v : Vectors)
    (p : Processor) (a : Apic W) (Kernel_numcpus_online : Z) : option (Processor * Apic W * Z) :=
  let p := load_paging (cr0 p) (PHYSADDR Kernel_pagedirectory) (cr4 p) p in
  let p := load_paging (cr0 p) (cr3 p) (Z.lor (cr4 p) CR4_PSE) p in
  let p := load_paging (Z.lor (Z.lor (cr0 p) CR0_PG) CR0_WP) (cr3 p) (cr4 p) p in
  let state := STATE_CURRENT esp in
  let cpu := state ⊖ SIZEOF_CPU in
  let p := set_state (mkThread (intr_flag (counters p)) 0 0) 0 (state ⊖ SIZEOF_CPU ⊖ SIZEOF_KPROC) cpu p in
  let '(id, a) := LocalAPIC_ID a in
  let p := upd_cpu (set_ids id 0) p in
  let p := cpu_descriptors cpu v p in
  '(_, a) ← LocalAPIC_Initialize LocalAPIC_InfoPtrs IOAPIC_InfoPtrs fuel BootInfo a;
  Some (p, a, Kernel_numcpus_online ⊕ 1).

(** ** Initialize_CPU *)

(** The wait for another processor; [online k] is what the [k]-th read of
    [Kernel_numcpus_online] finds, which that processor increments. *)
Fixpoint wait_online (fuel : nat) (online : nat -> Z) (k : nat) (inumcpus : Z) : option nat :=
  match fuel with
  | O => None
  | S f => if online k =? inumcpus then wait_online f online (S k) inumcpus else Some k
  end.

(** The interprocessor interrupts. [PIT_Delay] gives the state of the devices
    after a wait. *)
Definition send_init (PIT_Delay : Z -> W -> W) (local_apic_id : Z) (a : Apic W) : Apic W :=
  let wait a := set_dev (PIT_Delay 2 (dev a)) a in
  let a := lapic_write LAPIC_REG_ICRHI (Z.shiftl local_apic_id 24) a in
  let a := lapic_write LAPIC_REG_ICRLO
             (Z.lor (Z.lor LAPIC_ICR_DELIVERY_INIT LAPIC_ICR_TRIGGER_LEVEL) LAPIC_ICR_LEVEL_ASSERT) a in
  let a := wait a in
  let a := lapic_write LAPIC_REG_ICRLO
             (Z.lor (Z.lor LAPIC_ICR_DELIVERY_INIT LAPIC_ICR_TRIGGER_LEVEL) LAPIC_ICR_LEVEL_DEASSERT) a in
  wait a.
Definition send_startup (PIT_Delay : Z -> W -> W) (local_apic_id boot_address : Z) (a : Apic W) : Apic W :=
  let a := lapic_write LAPIC_REG_ICRHI (Z.shiftl local_apic_id 24) a in
  let a := lapic_write LAPIC_REG_ICRLO (Z.lor LAPIC_ICR_DELIVERY_STARTUP (LAPIC_STARTUP_VECTOR boot_address)) a in
  set_dev (PIT_Delay 2 (dev a)) a.

Definition Initialize_CPU (fuel : nat) (online : nat -> Z) (PIT_Delay : Z -> W -> W)
    (local_apic_id boot_address : Z) (a : Apic W) : option (bool * Apic W) :=
  let inumcpus := online 0%nat in
  let a := set_dev (Outb SMP_CMOS_RAM_ADDR_PORT SMP_WARM_RESET_ADDR (dev a)) a in
  let a := set_dev (Outb SMP_CMOS_RAM_DATA_PORT SMP_WARM_RESET_SIGN (dev a)) a in
  let warm_reset_vector := SMP_WARM_RESET_VECTOR + KERNEL_HIGHER_HALF_OFFSET in
  let a := set_amem (store16 (amem a) warm_reset_vector (SMP_WARM_RESET_BOOT_OFF boot_address)) a in
  let a := set_amem (store16 (amem a) (warm_reset_vector + 2) (SMP_WARM_RESET_BOOT_SEG boot_address)) a in
  let a := send_init PIT_Delay local_apic_id a in
  let a := send_startup PIT_Delay local_apic_id boot_address a in
  let a := send_startup PIT_Delay local_apic_id boot_address a in
  _ ← wait_online fuel online 1 inumcpus;
  Some (true, a).

(** ** The timer of the local APIC *)

Section Timer.
Context {T : Type}.
Variable LocalAPIC_Timer_Handler : Handler (S := T).

(** [State_lock], the timer of the kernel task, and the handler table. *)
Record TimerState := mkTS { State_lock : SpinLock; task_timer : Timer; Interrupt_Handlers : gmap Z (Handler (S := T)) }.

Definition LocalAPIC_Initialize_Timer (PIT_Delay : Z -> W -> W) (vector freq : Z) (st : TimerState) (a : Apic W)
  : option (TimerState * Apic W) :=
  let a := lapic_write LAPIC_REG_TIMER LAPIC_LVT_MASKED a in
  let '(lapic_freq, a) := LocalAPIC_GetTimerFrequency PIT_Delay a in
  if lapic_freq =? 0 then Some (st, a)
  else
    '(t, l) ← SpinLock_Acquire (cpu a) (State_lock st);
    let tmr := mkTimer 0 0 in
    let '(t, l) := SpinLock_Release t l in
    let a := set_cpu t a in
    let handlers := Interrupt_AddHandler vector LocalAPIC_Timer_Handler (Interrupt_Handlers st) in
    let a := lapic_write LAPIC_REG_TDCR LAPIC_TDCR_DIVIDE_BY_16 a in
    let a := lapic_write LAPIC_REG_TIMER (Z.lor LAPIC_LVT_TIMER_MODE_PERIODIC vector) a in
    let a := lapic_write LAPIC_REG_TICR ((lapic_freq / freq) ⊗ 1000) a in
    Some (mkTS l tmr handlers, a).

Definition LocalAPIC_Timer_HandleInterrupt (st : TimerState) (a : Apic W) : TimerState * Apic W :=
  (mkTS (State_lock st) (Timer_Increment (task_timer st)) (Interrupt_Handlers st), LocalAPIC_EOI a).
End Timer.

(** ** PIT_Initialize *)

Definition PIT_IRQLINE : Z := 0.
Definition KEYBOARD_PS2_IRQLINE : Z := 1.

Definition PIT_Initialize {T} (fuel : nat) (irq vector : Z) (handler : Handler (S := T))
    (handlers : gmap Z (Handler (S := T))) (PIT_timer : Timer) (a : Apic W)
  : option (gmap Z (Handler (S := T)) * Timer * Apic W) :=
  let handlers := Interrupt_AddHandler vector handler handlers in
  let '(id, a) := LocalAPIC_ID a in
  a ← IOAPIC_EnableInterrupt IOAPIC_InfoPtrs fuel irq vector id a;
  let '(PIT_timer, w) := PIT_Set 10000 (PIT_timer, dev a) in
  Some (handlers, PIT_timer, set_dev w a).

Definition PIT_HandleInterrupt (PIT_timer : Timer) (a : Apic W) : Timer * Apic W :=
  (Timer_Increment PIT_timer, LocalAPIC_EOI a).

(** ** Initialize_System *)

Section System.
Context {PS : Type} {PA : PageAllocator PS} {T : Type}.
Variables PIT_handler Keyboard_handler : Handler (S := T).

(** The console and the scheduler share the processor's thread, memory and the
    devices with the interrupt controllers: those of [apic] are the current
    ones. *)
Record System := mkSystem {
  apic : Apic W;
  con : Console W;
  sched : Kernel PS;
  pit : Timer;
  table : gmap Z (Handler (S := T))
}.

Definition on_apic (f : Apic W -> Apic W) (s : System) : System :=
  mkSystem (f (apic s)) (con s) (sched s) (pit s) (table s).
Definition on_console (f : Console W -> Console W) (s : System) : System :=
  let a := apic s in
  let c := f (set_ports (dev a) (set_cmem (amem a) (Console.set_locked (cpu a) (Console_lock (con s)) (con s)))) in
  mkSystem (set_cpu (Console.thread c) (set_dev (ports c) (set_amem (cmem c) a))) c (sched s) (pit s) (table s).
Definition on_sched (f : Kernel PS -> Kernel PS) (s : System) : System :=
  let k := f (set_process_lock (cpu (apic s), Process_lock (sched s)) (sched s)) in
  mkSystem (set_cpu (Process.thread k) (apic s)) (con s) k (pit s) (table s).

Definition lapic_entry_apic_id (m : Mem) (e : Z) : Z := load8 m (e + 3).

(** The loop over the processors of the MADT, [n] left from index [i]; the
    reads of [Kernel_numcpus_online] in turn [i] are [online i]. *)
Fixpoint start_processors (n : nat) (fuel : nat) (online : nat -> nat -> Z) (PIT_Delay : Z -> W -> W) (i : nat) (a : Apic W)
  : option (Apic W) :=
  match n with
  | O => Some a
  | S n' =>
      let lapic_id := load32 (amem a) (LocalAPIC_InfoPtrs + 4 * Z.of_nat i) in
      let '(self, a) := LocalAPIC_ID a in
      if self =? lapic_entry_apic_id (amem a) lapic_id then start_processors n' fuel online PIT_Delay (S i) a
      else
        '(_, a) ← Initialize_CPU fuel (online i) PIT_Delay (lapic_entry_apic_id (amem a) lapic_id)
                    KERNEL_AP_BOOT_START_ADDR a;
        start_processors n' fuel online PIT_Delay (S i) a
  end.

Definition Initialize_System (fuel : nat) (online : nat -> nat -> Z) (PIT_Delay : Z -> W -> W)
    (BootInfo Kernel_pagedirectory StartAP EndAP : Z) (s : System) : option System :=
  '(_, a) ← IOAPIC_Initialize LocalAPIC_InfoPtrs IOAPIC_InfoPtrs fuel BootInfo (apic s);
  let s := on_apic (fun _ => a) s in
  let s := on_console Console_Initialize s in
  '(handlers, tmr, a) ← PIT_Initialize fuel PIT_IRQLINE 0x20 PIT_handler (table s) (pit s) (apic s);
  '(handlers, a) ← Keyboard_Initialize IOAPIC_InfoPtrs fuel KEYBOARD_PS2_IRQLINE 0x21 Keyboard_handler handlers a;
  let s := mkSystem a (con s) (sched s) tmr handlers in
  let s := on_sched Scheduler_Initialize s in
  let a := set_amem (memmove (amem (apic s)) (KERNEL_AP_BOOT_START_ADDR + KERNEL_HIGHER_HALF_OFFSET) StartAP
                       (EndAP ⊖ StartAP)) (apic s) in
  a ← start_processors (Z.to_nat (LocalAPIC_Num a)) fuel online PIT_Delay 0 a;
  Some (on_apic (fun _ => set_amem (store32 (amem a) Kernel_pagedirectory 0) a) s).
End System.
End Bringup.
