(* ===== verification/BringupSpec.v ===== *)
(** * Bringing up the processors: what holds afterwards

    What the processor finds in its registers and descriptor tables after
    [Initialize_ThisProcessor], the events that start another processor, and
    the rate of the local APIC's timer. *)

From S2P Require Import Prelude CMem Setup Sync Timer PhysMem PageAlloc Process Ports Console Pic Descr Apic Keyboard Bringup.

(** ** The processor's view *)

#[export] Instance IDT_Entry_inhabited : Inhabited IDT_Entry := populate (mkIDT 0 0 0 0 0).
#[export] Instance GDT_Entry_inhabited : Inhabited GDT_Entry := populate (mkGDT 0 0 0 0 0 0).

(** Fields of an access byte, of a gate's type byte. *)
Definition present (acc : Z) : bool := Z.testbit acc 7.
Definition ring (acc : Z) : Z := Z.land (Z.shiftr acc 5) 3.
Definition is_code (acc : Z) : bool := Z.testbit acc 3.

(** The descriptor that a selector names. *)
Definition descriptor (c : CPU) (selector : Z) : GDT_Entry := gdt c !!! Z.to_nat (selector / 8).

Definition flat (e : GDT_Entry) : Prop := gdt_base e = 0 /\ gdt_limit e = 0xFFFFF /\ gdt_flags e = 0xC /\ present (access e) = true.

Record paging_on (Kernel_pagedirectory : Z) (p p' : Processor) : Prop := {
  on_cr3 : cr3 p' = PHYSADDR Kernel_pagedirectory;
  on_cr0 : forall i, 0 <= i -> Z.testbit (cr0 p') i = Z.testbit (cr0 p) i || (i =? 31) || (i =? 16);
  on_cr4 : forall i, 0 <= i -> Z.testbit (cr4 p') i = Z.testbit (cr4 p) i || (i =? 4)
}.

Record segments_on (cpu : Z) (p : Processor) : Prop := {
  seg_gdtr : gdtr p = (47, cpu_gdt cpu);
  seg_cs : let e := descriptor (the_cpu p) (cs p) in flat e /\ is_code (access e) = true /\ ring (access e) = 0;
  seg_data : let e := descriptor (the_cpu p) (data_segments p) in flat e /\ is_code (access e) = false /\ ring (access e) = 0;
  seg_user_code : let e := descriptor (the_cpu p) 0x18 in flat e /\ is_code (access e) = true /\ ring (access e) = 3;
  seg_user_data : let e := descriptor (the_cpu p) 0x20 in flat e /\ is_code (access e) = false /\ ring (access e) = 3;
  seg_task : let e := descriptor (the_cpu p) (tr p) in
    gdt_base e = cpu_task_state cpu /\ gdt_limit e = SIZEOF_TSS - 1 /\ access e = 0x89;
  seg_ring0 : tss_ss0 (the_cpu p) = data_segments p
}.

(** The handler of vector [i], for the four vectors that have one. *)
Definition handler_of (v : Vectors) (i : Z) : option Z :=
  if i =? 0x20 then Some (Interrupt_0x20 v) else if i =? 0x21 then Some (Interrupt_0x21 v)
  else if i =? 0x30 then Some (Interrupt_0x30 v) else if i =? 0x80 then Some (Interrupt_0x80 v) else None.

Record gates_on (cpu : Z) (v : Vectors) (p : Processor) : Prop := {
  gate_idtr : idtr p = (2047, cpu_idt cpu);
  gate_entries : forall i, 0 <= i < 256 -> let e := idt (the_cpu p) !!! Z.to_nat i in
    match handler_of v i with
    | Some h => present (type_attr e) = true /\ idt_address e = h /\ segment e = cs p /\
                ring (type_attr e) = (if i =? 0x80 then 3 else 0)
    | None => present (type_attr e) = false
    end
}.

(** ** Bits of the control registers *)

Lemma lor_bit x k i : 0 <= k -> 0 <= i -> Z.testbit (Z.lor x (2 ^ k)) i = Z.testbit x i || (i =? k).
Proof. intros. rewrite Z.lor_spec, Z.pow2_bits_eqb, (Z.eqb_sym k) by lia. done. Qed.

(** ** The interrupt descriptor table *)

Lemma clear_idt_lookup n i c j :
  (i + n <= length (idt c))%nat -> (j < length (idt c))%nat ->
  length (idt (clear_idt n i c)) = length (idt c) /\ gdt (clear_idt n i c) = gdt c /\
  idt (clear_idt n i c) !!! j = if decide (i <= j < i + n)%nat then IDT_SetupEntry 0 0 0 else idt c !!! j.
Proof.
  revert i c. induction n as [|n IH]; intros i c Hn Hj; cbn [clear_idt].
  - conjs; try done. destruct (decide (i <= j < i + 0)%nat); [lia|done].
  - destruct (IH (S i) (set_idt i (IDT_SetupEntry 0 0 0) c)) as (H1 & H2 & H3);
      cbn [set_idt idt gdt] in *; rewrite ?length_insert in *; try lia.
    conjs; [done|done|]. rewrite H3. destruct (decide (i <= j < i + S n)%nat), (decide (S i <= j < S i + n)%nat); try done; try lia.
    + assert (i = j) as -> by lia. by rewrite list_lookup_total_insert_eq by lia.
    + by rewrite list_lookup_total_insert_ne by lia.
Qed.

Lemma idt_total_insert (l : list IDT_Entry) i j e :
  (i < length l)%nat -> <[i := e]> l !!! j = if decide (i = j) then e else l !!! j.
Proof.
  intros Hi. destruct (decide (i = j)) as [->|].
  - by apply list_lookup_total_insert_eq.
  - by apply list_lookup_total_insert_ne.
Qed.

Lemma setup_idt_lookup v c i :
  length (idt c) = 256%nat -> 0 <= i < 256 ->
  idt (setup_idt v c) !!! Z.to_nat i =
    match handler_of v i with
    | Some h => IDT_SetupEntry h GDT_SEG_KERN_CODE
                  (if i =? 0x80 then gate IDT_FLAGS_DPL3 IDT_TYPE_TRAP32 else gate IDT_FLAGS_DPL0 IDT_TYPE_INTR32)
    | None => IDT_SetupEntry 0 0 0
    end.
Proof.
  intros Hl Hi. unfold setup_idt, handler_of. change (Z.to_nat IDT_NENTRIES) with 256%nat.
  destruct (clear_idt_lookup 256 0 c (Z.to_nat i)) as (H1 & _ & H2); [lia|lia|].
  cbn [set_idt idt]. rewrite !idt_total_insert, H2 by (rewrite ?length_insert; lia).
  destruct (decide (0 <= Z.to_nat i < 0 + 256)%nat); [|lia].
  destruct (Z.eqb_spec i 0x20) as [->|]; [done|]. destruct (Z.eqb_spec i 0x21) as [->|]; [done|].
  destruct (Z.eqb_spec i 0x30) as [->|]; [done|]. destruct (Z.eqb_spec i 0x80) as [->|]; [done|].
  repeat (destruct (decide _); [lia|]). done.
Qed.

Lemma set_idt_gdt i e c : gdt (set_idt i e c) = gdt c.
Proof. done. Qed.
Lemma set_idt_tss i e c : tss_ss0 (set_idt i e c) = tss_ss0 c.
Proof. done. Qed.
Lemma clear_idt_gdt n i c : gdt (clear_idt n i c) = gdt c.
Proof. revert i c. induction n as [|n IH]; intros i c; [done|]. cbn [clear_idt]. by rewrite IH, set_idt_gdt. Qed.
Lemma setup_idt_gdt v c : gdt (setup_idt v c) = gdt c.
Proof. unfold setup_idt. by rewrite !set_idt_gdt, clear_idt_gdt. Qed.

(** ** The segment descriptors *)

Definition the_gdt (tss_seg_base tss_seg_limit : Z) : list GDT_Entry :=
  [GDT_SetupEntry 0 0 0 0; GDT_SetupEntry 0 GDT_SEGLIMIT_4GB gdt_kern_code_access gdt_flags_4GB;
   GDT_SetupEntry 0 GDT_SEGLIMIT_4GB gdt_kern_data_access gdt_flags_4GB;
   GDT_SetupEntry 0 GDT_SEGLIMIT_4GB gdt_user_code_access gdt_flags_4GB;
   GDT_SetupEntry 0 GDT_SEGLIMIT_4GB gdt_user_data_access gdt_flags_4GB;
   GDT_SetupEntry tss_seg_base tss_seg_limit gdt_tss_access 0].

Lemma setup_gdt_list b l c : length (gdt c) = 6%nat -> gdt (setup_gdt b l c) = the_gdt b l.
Proof.
  intros Hl. unfold setup_gdt. cbn [set_gdt gdt].
  destruct (gdt c) as [|? [|? [|? [|? [|? [|? [|]]]]]]]; cbn [length] in Hl; try lia. reflexivity.
Qed.

Lemma setup_gdt_idt b l c : idt (setup_gdt b l c) = idt c.
Proof. done. Qed.

(** The processor's structure and the processor, all at once. *)
Definition the_new_cpu (c : Z) (v : Vectors) (p : Processor) : CPU :=
  set_tss GDT_SEG_KERN_DATA 0xFFFF (set_idt_desc (2047, cpu_idt c)
    (setup_idt v (set_gdt_desc (47, cpu_gdt c) (setup_gdt (cpu_task_state c) (SIZEOF_TSS - 1) (the_cpu p))))).

Lemma cpu_descriptors_eq c v p :
  cpu_descriptors c v p =
  mkProcessor (cr0 p) (cr3 p) (cr4 p) (47, cpu_gdt c) (2047, cpu_idt c) 43 8 16 (counters p)
    (state_process p) (state_kernel_task p) (task_cpu p) (the_new_cpu c v p).
Proof.
  unfold cpu_descriptors, the_new_cpu. generalize (setup_idt v). generalize (setup_gdt (cpu_task_state c) (SIZEOF_TSS - 1)).
  intros f g. destruct p. reflexivity.
Qed.

Lemma set_desc_fields x y d c :
  let c' := set_tss x y (set_idt_desc d c) in
  gdt c' = gdt c /\ idt c' = idt c /\ tss_ss0 c' = x /\ cpu_apic_id c' = cpu_apic_id c.
Proof. done. Qed.
Lemma set_gdt_desc_fields d c :
  let c' := set_gdt_desc d c in gdt c' = gdt c /\ idt c' = idt c /\ cpu_apic_id c' = cpu_apic_id c.
Proof. done. Qed.
Lemma setup_gdt_fields b l c : idt (setup_gdt b l c) = idt c /\ cpu_apic_id (setup_gdt b l c) = cpu_apic_id c.
Proof. done. Qed.

Lemma setup_idt_ids v c : cpu_apic_id (setup_idt v c) = cpu_apic_id c.
Proof.
  assert (forall i e c, cpu_apic_id (set_idt i e c) = cpu_apic_id c) as Hs by done.
  assert (forall n i c, cpu_apic_id (clear_idt n i c) = cpu_apic_id c) as Hc.
  { clear c. intros n. induction n as [|n IH]; intros i c; [done|]. cbn [clear_idt]. by rewrite IH, Hs. }
  unfold setup_idt. by rewrite !Hs, Hc.
Qed.

Lemma the_new_cpu_fields c v p :
  length (gdt (the_cpu p)) = 6%nat ->
  gdt (the_new_cpu c v p) = the_gdt (cpu_task_state c) (SIZEOF_TSS - 1) /\
  idt (the_new_cpu c v p) = idt (setup_idt v (set_gdt_desc (47, cpu_gdt c) (setup_gdt (cpu_task_state c) (SIZEOF_TSS - 1) (the_cpu p)))) /\
  tss_ss0 (the_new_cpu c v p) = 16 /\ cpu_apic_id (the_new_cpu c v p) = cpu_apic_id (the_cpu p).
Proof.
  intros Hl. unfold the_new_cpu. set (c1 := setup_idt v _).
  destruct (set_desc_fields GDT_SEG_KERN_DATA 0xFFFF (2047, cpu_idt c) c1) as (-> & -> & -> & ->).
  unfold c1. clear c1. rewrite setup_idt_gdt, setup_idt_ids. set (c2 := setup_gdt _ _ _).
  destruct (set_gdt_desc_fields (47, cpu_gdt c) c2) as (-> & _ & ->). split; [by apply setup_gdt_list|].
  split; [done|]. split; [done|]. apply setup_gdt_fields.
Qed.

Lemma cpu_descriptors_segments c v p :
  length (gdt (the_cpu p)) = 6%nat -> segments_on c (cpu_descriptors c v p).
Proof.
  intros Hl. destruct (the_new_cpu_fields c v p Hl) as (Hg & _ & Hs & _). rewrite cpu_descriptors_eq.
  revert Hg Hs. generalize (the_new_cpu c v p). intros c' Hg Hs.
  assert (forall s n, Z.to_nat (s / 8) = n -> descriptor c' s = the_gdt (cpu_task_state c) (SIZEOF_TSS - 1) !!! n)
    as Hd by (intros s n <-; unfold descriptor; by rewrite Hg).
  split; cbn [cs data_segments tr the_cpu gdtr]; try done.
  - rewrite (Hd _ 1%nat) by done. by vm_compute.
  - rewrite (Hd _ 2%nat) by done. by vm_compute.
  - rewrite (Hd _ 3%nat) by done. by vm_compute.
  - rewrite (Hd _ 4%nat) by done. by vm_compute.
  - rewrite (Hd _ 5%nat) by done.
    destruct (GDT_fields (cpu_task_state c) (SIZEOF_TSS - 1) gdt_tss_access 0) as (H1 & H2 & H3 & _);
      [apply wrap32_range|done|done|]. by split.
Qed.

Definition vectors_ok (v : Vectors) : Prop := forall i h, handler_of v i = Some h -> 0 <= h < 4294967296.

Lemma cpu_descriptors_gates c v p :
  length (gdt (the_cpu p)) = 6%nat -> length (idt (the_cpu p)) = 256%nat -> vectors_ok v ->
  gates_on c v (cpu_descriptors c v p).
Proof.
  intros Hl0 Hl Hv. rewrite cpu_descriptors_eq. split; [done|]. intros i Hi. cbn [the_cpu cs].
  destruct (the_new_cpu_fields c v p Hl0) as (_ & -> & _).
  rewrite setup_idt_lookup by done.
  cbn zeta. pose proof (Hv i) as Hh. destruct (handler_of v i) as [h|]; [|by vm_compute].
  split; [by destruct (i =? 0x80)|]. split; [apply IDT_SetupEntry_roundtrip; by apply Hh|].
  split; [done|]. by destruct (i =? 0x80).
Qed.

(** C29. A processor brought up. Paging is on through the kernel's directory with
    large pages and write protection, every other bit of the control registers
    kept; the kernel's and the user's segments are flat, with rings 0 and 3, and
    the task register names the processor's task state; exactly the vectors
    0x20, 0x21, 0x30 and 0x80 have a gate, to their entry points, the last one
    open to ring 3; and one more processor counts as online. *)
Theorem Initialize_ThisProcessor_correct {W} `{!PortIO W} `{!MMIO W} LocalAPIC_InfoPtrs IOAPIC_InfoPtrs SIZEOF_KPROC
    fuel Kernel_pagedirectory BootInfo esp v p (a : Apic W) n ok a' :
  length (gdt (the_cpu p)) = 6%nat -> length (idt (the_cpu p)) = 256%nat -> vectors_ok v ->
  LocalAPIC_Initialize LocalAPIC_InfoPtrs IOAPIC_InfoPtrs fuel BootInfo (snd (LocalAPIC_ID a)) = Some (ok, a') ->
  let cpu := STATE_CURRENT esp ⊖ SIZEOF_CPU in
  exists p', Initialize_ThisProcessor LocalAPIC_InfoPtrs IOAPIC_InfoPtrs SIZEOF_KPROC fuel Kernel_pagedirectory BootInfo
               esp v p a n = Some (p', a', n ⊕ 1) /\
    paging_on Kernel_pagedirectory p p' /\ segments_on cpu p' /\ gates_on cpu v p' /\
    preemption_vetos (counters p') = 0 /\ task_cpu p' = cpu /\ cpu_apic_id (the_cpu p') = fst (LocalAPIC_ID a).
Proof.
  intros Hg Hi Hv HL cpu. unfold Initialize_ThisProcessor. destruct (LocalAPIC_ID a) as [id a1] eqn:EID.
  cbn [snd] in HL. rewrite HL. cbn [mbind option_bind]. eexists. split; [reflexivity|].
  set (p0 := upd_cpu _ _). pose proof (cpu_descriptors_segments cpu v p0 Hg) as Hseg.
  pose proof (cpu_descriptors_gates cpu v p0 Hg Hi Hv) as Hgates.
  destruct (the_new_cpu_fields cpu v p0 Hg) as (_ & _ & _ & Hid).
  rewrite cpu_descriptors_eq in *. conjs; try done.
  split; cbn [cr0 cr3 cr4].
  - done.
  - intros i Hi0. change (cr0 p0) with (Z.lor (Z.lor (cr0 p) (2 ^ 31)) (2 ^ 16)). by rewrite !lor_bit by lia.
  - intros i Hi0. change (cr4 p0) with (Z.lor (cr4 p) (2 ^ 4)). by rewrite lor_bit by lia.
Qed.

(** Controllers whose registers read as 0, the tables already found. *)
Definition demo_apic {W} (w : W) : Apic W := mkApic ∅ w (mkThread false 0 0) true 0 false (0, 0) 0xFEE00000 2 0.
Definition demo_vectors : Vectors := mkVectors 0x80101000 0x80101010 0x80101020 0x80101030.
Definition demo_processor : Processor :=
  mkProcessor 0x11 0 0 (0, 0) (0, 0) 0 0 0 (mkThread false 7 0) 0 0 0
    (mkCPU 0 0 0 0 (repeat (mkGDT 0 0 0 0 0 0) 6) (0, 0) (repeat (mkIDT 0 0 0 0 0) 256) (0, 0)).

Lemma Initialize_ThisProcessor_correct_witness :
  exists p', Initialize_ThisProcessor (W := PortTrace) 0 0 24 3 0x80200000 0 0x80009F00 demo_vectors demo_processor
               (demo_apic (mkPorts [] [])) 0 = Some (p', demo_apic (mkPorts [] []), 1) /\
    segments_on (STATE_CURRENT 0x80009F00 ⊖ SIZEOF_CPU) p' /\
    gates_on (STATE_CURRENT 0x80009F00 ⊖ SIZEOF_CPU) demo_vectors p'.
Proof.
  destruct (Initialize_ThisProcessor_correct (W := PortTrace) 0 0 24 3 0x80200000 0 0x80009F00 demo_vectors demo_processor
    (demo_apic (mkPorts [] [])) 0 true (demo_apic (mkPorts [] []))) as (p' & H1 & _ & H2 & H3 & _).
  - reflexivity.
  - reflexivity.
  - intros i h. unfold handler_of. repeat case_cmp; intros [= <-]; cbn; lia.
  - by vm_compute.
  - exists p'. split; [exact H1|]. split; [exact H2|exact H3].
Defined.

(** ** The start of another processor *)

(** What happens on the buses: port writes, register writes, waits. *)
Inductive Event : Type :=
  | PortWrite (port value : Z)
  | RegWrite (address value : Z)
  | Wait (delay : Z).

(** The events so far, latest first; every register reads as 0, but one that
    reads as [value]. *)
#[export, refine] Instance events_ports : PortIO (list Event) :=
  {| Outb := fun port value w => PortWrite port (wrap8 value) :: w; Inb := fun _ w => (0, w) |}.
Proof. intros port w. cbn. lia. Defined.
Definition events_regs (address value : Z) : MMIO (list Event) :=
  {| mmio_write := fun a v w => RegWrite a v :: w; mmio_read := fun a w => (if a =? address then value else 0, w) |}.

Definition wait_event (delay : Z) (w : list Event) : list Event := Wait delay :: w.

Lemma wait_online_first online inumcpus fuel k n :
  (k <= n)%nat -> (n - k < fuel)%nat -> (forall i, (k <= i < n)%nat -> online i = inumcpus) -> online n <> inumcpus ->
  wait_online fuel online k inumcpus = Some n.
Proof.
  revert k. induction fuel as [|f IH]; intros k Hk Hf Hb Hn; [lia|]. cbn [wait_online].
  destruct (decide (k = n)) as [->|].
  - by rewrite (proj2 (Z.eqb_neq _ _) Hn).
  - rewrite Hb, Z.eqb_refl by lia. apply IH; try done; try lia. intros i Hi. apply Hb. lia.
Qed.

Section Start.
Variables (address value : Z).
#[local] Instance regs : MMIO (list Event) := events_regs address value.

(** The register of the local APIC of [a] at an index. *)
Definition reg (a : Apic (list Event)) (index : Z) : Z := LocalAPIC_address a + 4 * index.

Lemma lapic_write_event index v a :
  lapic_write index v a = set_dev (RegWrite (reg a index) (wrap32 v) :: dev a) a.
Proof. reflexivity. Qed.

Lemma send_init_events id a :
  send_init wait_event id a =
  set_dev ([Wait 2; RegWrite (reg a LAPIC_REG_ICRLO) 0x8500; Wait 2; RegWrite (reg a LAPIC_REG_ICRLO) 0xC500;
            RegWrite (reg a LAPIC_REG_ICRHI) (wrap32 (Z.shiftl id 24))] ++ dev a) a.
Proof. unfold send_init. by rewrite !lapic_write_event. Qed.

Lemma send_startup_events id boot_address a :
  send_startup wait_event id boot_address a =
  set_dev ([Wait 2; RegWrite (reg a LAPIC_REG_ICRLO) (wrap32 (Z.lor LAPIC_ICR_DELIVERY_STARTUP (LAPIC_STARTUP_VECTOR boot_address)));
            RegWrite (reg a LAPIC_REG_ICRHI) (wrap32 (Z.shiftl id 24))] ++ dev a) a.
Proof. unfold send_startup. by rewrite !lapic_write_event. Qed.

(** C35. Starting a processor. The warm reset is prepared, then the local APIC gets
    an INIT, asserted and deasserted, and two STARTUP messages to the
    processor, with a wait after each; the call comes back once the number of
    processors has changed. The word pair at 40:67 is the boot address, and the
    vector of the STARTUP its page. *)
Theorem Initialize_CPU_correct fuel online local_apic_id boot_address (a : Apic (list Event)) n :
  0 <= local_apic_id < 256 -> 0 <= boot_address < 0x100000 -> (boot_address mod 4096 = 0) ->
  (1 <= n <= fuel)%nat -> (forall i, (1 <= i < n)%nat -> online i = online 0%nat) -> online n <> online 0%nat ->
  let icrhi := RegWrite (reg a LAPIC_REG_ICRHI) (local_apic_id * 0x1000000) in
  let startup := RegWrite (reg a LAPIC_REG_ICRLO) (0x600 + boot_address / 4096) in
  exists a', Initialize_CPU fuel online wait_event local_apic_id boot_address a = Some (true, a') /\
    rev (dev a') = rev (dev a) ++
      [PortWrite 0x70 0x0F; PortWrite 0x71 0x0A;
       icrhi; RegWrite (reg a LAPIC_REG_ICRLO) 0xC500; Wait 2; RegWrite (reg a LAPIC_REG_ICRLO) 0x8500; Wait 2;
       icrhi; startup; Wait 2; icrhi; startup; Wait 2] /\
    16 * load16 (amem a') 0x80000469 + load16 (amem a') 0x80000467 = boot_address.
Proof.
  intros Hid Hb Hbm Hn Hsame Hne. cbn zeta. unfold Initialize_CPU.
  rewrite (wait_online_first online (online 0%nat) fuel 1 n) by (done || lia). cbn [mbind option_bind].
  assert (wrap32 (Z.shiftl local_apic_id 24) = local_apic_id * 0x1000000) as E1
    by (rewrite Z.shiftl_mul_pow2 by lia; rewrite wrap32_small; lia).
  assert (wrap32 (Z.lor LAPIC_ICR_DELIVERY_STARTUP (LAPIC_STARTUP_VECTOR boot_address)) = 0x600 + boot_address / 4096) as E2.
  { unfold LAPIC_STARTUP_VECTOR. rewrite Z.shiftr_div_pow2 by lia. change (2 ^ 12) with 4096.
    change LAPIC_ICR_DELIVERY_STARTUP with 0x600. rewrite (lor_aligned 9); [|lia|by exists 3|zdiv].
    rewrite wrap32_small; zdiv. }
  eexists. split; [reflexivity|]. rewrite !send_startup_events, send_init_events, E1, E2. split.
  - cbn [dev set_dev set_amem app rev Outb events_ports]. by rewrite <- !app_assoc.
  - cbn [amem set_dev set_amem]. change (SMP_WARM_RESET_VECTOR + KERNEL_HIGHER_HALF_OFFSET) with 0x80000467.
    change (0x80000467 + 2) with 0x80000469. unfold SMP_WARM_RESET_BOOT_OFF, SMP_WARM_RESET_BOOT_SEG.
    rewrite (load_store_eq 2), (load_store_ne 2 2), (load_store_eq 2) by lia.
    change 0xF with (Z.ones 4). rewrite Z.land_ones, Z.shiftr_div_pow2 by lia. change (2 ^ (8 * Z.of_nat 2)) with 65536.
    change (2 ^ 4) with 16. zdiv.
Qed.
End Start.

Lemma Initialize_CPU_correct_witness :
  exists a', Initialize_CPU (MMIO0 := events_regs 0 0) 3 (fun k => if Nat.eqb k 3 then 2 else 1) wait_event 5 0x8000 (demo_apic []) = Some (true, a') /\
    rev (dev a') =
      [PortWrite 0x70 0x0F; PortWrite 0x71 0x0A;
       RegWrite 0xFEE00310 0x5000000; RegWrite 0xFEE00300 0xC500; Wait 2; RegWrite 0xFEE00300 0x8500; Wait 2;
       RegWrite 0xFEE00310 0x5000000; RegWrite 0xFEE00300 0x608; Wait 2;
       RegWrite 0xFEE00310 0x5000000; RegWrite 0xFEE00300 0x608; Wait 2].
Proof.
  destruct (Initialize_CPU_correct 0 0 3 (fun k => if Nat.eqb k 3 then 2 else 1) 5 0x8000 (demo_apic []) 3)
    as (a' & H1 & H2 & _); [lia|lia|done|lia| |done|].
  - intros i Hi. assert (i = 1 \/ i = 2)%nat as [-> | ->] by lia; done.
  - exists a'. split; [exact H1|exact H2].
Defined.

(** ** The rate of the timer *)

Section Rate.
Variables (address c : Z).
(** In 10 ms the counter of the timer goes down by [c]. *)
#[local] Instance counting : MMIO (list Event) := events_regs (address + 4 * LAPIC_REG_TCCR) (0xFFFFFFFF - c).

Lemma counting_write index v (a : Apic (list Event)) :
  lapic_write index v a = set_dev (RegWrite (reg a index) (wrap32 v) :: dev a) a.
Proof. apply lapic_write_event. Qed.

Lemma measure_timer_count n freq (a : Apic (list Event)) :
  LocalAPIC_address a = address -> 0 <= c < 0x10000000 -> 0 <= freq -> freq + Z.of_nat n * c < 4294967296 ->
  exists w, measure_timer n wait_event freq a = (freq + Z.of_nat n * c, set_dev w a).
Proof.
  intros Ha Hc. revert freq a Ha. induction n as [|n IH]; intros freq a Ha Hf Hn; cbn [measure_timer].
  { exists (dev a). destruct a. f_equal. lia. }
  unfold LocalAPIC_ReadFrom. cbn [mmio_read counting events_regs].
  match goal with |- context [LocalAPIC_address ?x + 4 * LAPIC_REG_TCCR =? _] => change (LocalAPIC_address x) with (LocalAPIC_address a) end.
  rewrite Ha, Z.eqb_refl. replace (0xFFFFFFFF ⊖ (0xFFFFFFFF - c)) with c by (rewrite wrap32_small; lia).
  rewrite (wrap32_small (freq + c)) by lia.
  match goal with |- context [measure_timer n _ _ ?x] => destruct (IH (freq + c) x) as [w Hw]; [done|lia|lia|] end.
  rewrite Hw. exists w. f_equal. lia.
Qed.

Lemma LocalAPIC_Initialize_Timer_run {T} (handler : Handler (S := T)) vector freq st (a : Apic (list Event)) :
  LocalAPIC_address a = address -> 10 <= c < 0x10000000 -> 1 <= freq -> 0 <= vector < 256 ->
  (16 * (c / 10) / freq) * 1000 < 4294967296 -> flag (State_lock st) = false -> vetos_u32 (cpu a) ->
  exists before, LocalAPIC_Initialize_Timer handler wait_event vector freq st a =
    Some (mkTS (State_lock st) (mkTimer 0 0) (<[vector := handler]> (Interrupt_Handlers st)),
          set_dev (RegWrite (reg a LAPIC_REG_TICR) (16 * (c / 10) / freq * 1000)
                   :: RegWrite (reg a LAPIC_REG_TIMER) (0x20000 + vector)
                   :: RegWrite (reg a LAPIC_REG_TDCR) 3 :: before) a).
Proof.
  intros Ha Hc Hfreq Hv Hsmall Hlock Hveto. unfold LocalAPIC_Initialize_Timer, LocalAPIC_GetTimerFrequency.
  rewrite counting_write.
  match goal with |- context [measure_timer 10 _ _ ?x] => destruct (measure_timer_count 10 0 x) as [w Hw]; [done|lia|lia|lia|] end.
  rewrite Hw. replace ((0 + Z.of_nat 10 * c) / 10) with c by (apply Z.div_unique_exact; lia).
  assert (wrap32 (Z.shiftl (c / 10) 4) = 16 * (c / 10)) as E1 by (rewrite Z.shiftl_mul_pow2 by lia; rewrite wrap32_small; zdiv).
  rewrite E1. destruct (Z.eqb_spec (16 * (c / 10)) 0) as [E|_]; [zdiv|].
  unfold SpinLock_Acquire, atomic_flag_test_and_set. rewrite Hlock. cbn [mbind option_bind].
  unfold SpinLock_Release. rewrite !counting_write.
  assert (0 <= 16 * (c / 10) / freq) by (apply Z.div_pos; [zdiv|lia]).
  assert (wrap32 (Z.lor LAPIC_LVT_TIMER_MODE_PERIODIC vector) = 0x20000 + vector) as E2.
  { change LAPIC_LVT_TIMER_MODE_PERIODIC with 0x20000. rewrite (lor_aligned 9); [|lia|by exists 256|lia]. by rewrite wrap32_small by lia. }
  exists w. unfold Interrupt_AddHandler. rewrite E2, wrap32_idem, (wrap32_small (_ * 1000)), wrap8_small by lia.
  destruct st as [[f] tm h]. cbn in Hlock. subst f. destruct a as [m d [e v q] ? ? ? ? ? ? ?].
  pose proof (veto_inc_dec _ Hveto) as Ev. cbn in Ev. cbn [cpu set_dev set_cpu].
  unfold STATE_DECREMENT_PREEMPTION_VETO, STATE_INCREMENT_PREEMPTION_VETO. cbn [preemption_vetos intr_flag interrupt_priority].
  rewrite Ev. reflexivity.
Qed.

(** The timer of the local APIC. The timer of the kernel task starts from 0
    and the handler is in the table; then the divider, the mode and the initial
    count are written. The count is 16 times too large: it is computed from the
    frequency before the division by 16, and counted down after it. With a
    counter that goes down [100 * c] times a second, the interrupts come
    between 15 and 16 times more slowly than [freq] a second. *)
Theorem LocalAPIC_Initialize_Timer_rate {T} (handler : Handler (S := T)) vector freq st (a : Apic (list Event)) :
  LocalAPIC_address a = address -> 10 <= c < 0x10000000 -> 1 <= freq -> 0 <= vector < 256 ->
  (16 * (c / 10) / freq) * 1000 < 4294967296 -> flag (State_lock st) = false -> vetos_u32 (cpu a) ->
  let initial := 16 * (c / 10) / freq * 1000 in
  exists st' a' before, LocalAPIC_Initialize_Timer handler wait_event vector freq st a = Some (st', a') /\
    dev a' = RegWrite (reg a LAPIC_REG_TICR) initial :: RegWrite (reg a LAPIC_REG_TIMER) (0x20000 + vector)
             :: RegWrite (reg a LAPIC_REG_TDCR) 3 :: before /\
    task_timer st' = mkTimer 0 0 /\ flag (State_lock st') = false /\ Interrupt_Handlers st' !! vector = Some handler /\
    (144 + 10 * freq < c -> 15 * (100 * c) < freq * initial <= 16 * (100 * c)).
Proof.
  intros Ha Hc Hfreq Hv Hsmall Hlock Hveto initial.
  destruct (LocalAPIC_Initialize_Timer_run handler vector freq st a) as [before ->]; try done.
  do 3 eexists. split; [reflexivity|]. split; [reflexivity|]. split; [done|]. split; [exact Hlock|]. split.
  - cbn. by rewrite lookup_insert_eq.
  - intros Hbig. unfold initial. pose proof (Z.mul_div_le (16 * (c / 10)) freq ltac:(lia)).
    pose proof (Z.mul_succ_div_gt (16 * (c / 10)) freq ltac:(lia)).
    assert (c - 9 <= 10 * (c / 10) <= c) by zdiv. nia.
Qed.
End Rate.

Lemma LocalAPIC_Initialize_Timer_rate_witness :
  exists st' a' before,
    LocalAPIC_Initialize_Timer (MMIO0 := events_regs (0xFEE00000 + 4 * LAPIC_REG_TCCR) (0xFFFFFFFF - 625000))
      (fun _ s => Some (S s)) wait_event 0x30 200 (mkTS (mkSpinLock false) (mkTimer 4 7) ∅) (demo_apic []) = Some (st', a') /\
    dev a' = RegWrite 0xFEE00380 5000000 :: RegWrite 0xFEE00320 0x20030 :: RegWrite 0xFEE003E0 3 :: before /\
    15 * (100 * 625000) < 200 * 5000000 <= 16 * (100 * 625000).
Proof.
  destruct (LocalAPIC_Initialize_Timer_rate 0xFEE00000 625000 (fun _ s => Some (S s)) 0x30 200
    (mkTS (mkSpinLock false) (mkTimer 4 7) ∅) (demo_apic [])) as (st' & a' & before & H1 & H2 & _ & _ & _ & H3);
    [done|lia|lia|lia|by vm_compute|done|by vm_compute|].
  exists st', a', before. split; [exact H1|]. split; [exact H2|]. apply H3. lia.
Defined.
