(* ===== verification/Start.v ===== *)
(** * From the bring-up of a processor to its scheduler

    [GetToWork] of kernel/arch/initialize/src/initialize.c: the processor says
    so on the console, starts its timer and enters [Schedule], which never
    returns. Its model ends there, in a state of the machine of Machine.v. *)

From S2P Require Import Prelude CMem Sync Timer Setup PhysMem PhysInv PageAlloc Paging Process ProcessSpec ProcessTree ProcessProtocol Machine.
From S2P Require Import Ports Console ConsoleSpec Pic Descr Apic Keyboard Bringup BringupSpec.

(** ** GetToWork *)

Section Start.
Context {W : Type} `{!PortIO W} `{!MMIO W} {PS : Type} {PA : PageAllocator PS} {T : Type}.
Variable LocalAPIC_Timer_Handler : Handler (S := T).
#[local] Abbreviation System := (@System W PS T).

(** The console as the processor of [apic] sees it, and back. *)
Definition console_of (s : System) : Console W :=
  set_ports (dev (apic s)) (set_cmem (amem (apic s)) (Console.set_locked (cpu (apic s)) (Console_lock (con s)) (con s))).
Definition with_console (c : Console W) (s : System) : System :=
  mkSystem (set_cpu (Console.thread c) (set_dev (ports c) (set_amem (cmem c) (apic s)))) c (Bringup.sched s) (pit s) (table s).
Definition with_timer (st : TimerState (T := T)) (a : Apic W) (s : System) : System :=
  let k := Bringup.sched s in
  let kp := kernel_task k in
  mkSystem a (con s) (set_kernel_task (mkKProc (kproc_addr kp) (esp0 kp) (task_timer st)) k) (pit s) (Interrupt_Handlers st).

(** The number of the processor is pushed at [args]; [format] is the address
    of the string. The scheduler starts at entry 0 of the table. *)
Definition GetToWork (fuel : nat) (format args : Z) (PIT_Delay : Z -> W -> W) (State_lock : SpinLock) (s : System)
  : option (SpinLock * System * Machine (S := PS)) :=
  let '(id, a) := LocalAPIC_ID (apic s) in
  let s := on_apic (fun _ => set_amem (store32 (amem a) args id) a) s in
  match Console_Print fuel format args (console_of s) with
  | Returns c =>
      let s := with_console c s in
      let st := mkTS State_lock (timer (kernel_task (Bringup.sched s))) (table s) in
      '(st, a) ← LocalAPIC_Initialize_Timer LocalAPIC_Timer_Handler PIT_Delay 0x30 200 st (apic s);
      let s := with_timer st a s in
      let k := Bringup.sched s in
      let k := set_process_lock (cpu (apic s), Process_lock k) k in
      Some (Bringup.State_lock st, s, mkMachine k (Scheduling 0) (cpu (apic s)) ∅)
  | _ => None
  end.
End Start.

(** ** The table of processes at the start *)

Section Table.
Context {S : Type} {PA : PageAllocator S}.
Implicit Types (s : Kernel S).

Lemma idle_tree s :
  table_ok s -> (forall i, status (proc s i) = PROCESS_IDLE) -> tree_ok s.
Proof.
  intros Ht Hi. exists (fun _ => []). split; try done.
  - intros i [H _]. by rewrite Hi in H.
  - intros i k H. by apply elem_of_nil in H.
  - constructor.
  - intros i j k H. by apply elem_of_nil in H.
  - intros i j H. by rewrite Hi in H.
  - intros i H. by rewrite Hi in H.
Qed.

Lemma fold_alter_idle n (ps : list Process) i :
  status (default process_zero (fold_left (fun ps i => alter (set_status PROCESS_IDLE) i ps) (seq 0 n) ps !! i)) = PROCESS_IDLE \/
  (n <= i)%nat /\ fold_left (fun ps i => alter (set_status PROCESS_IDLE) i ps) (seq 0 n) ps !! i = ps !! i.
Proof.
  induction n as [|n IH]; [right; split; [lia|done]|]. rewrite seq_S, fold_left_app. cbn [fold_left plus].
  destruct (decide (i = n)) as [->|Hn].
  - left. rewrite list_lookup_alter_eq. by destruct (_ !! n).
  - rewrite list_lookup_alter_ne by done. destruct IH as [IH|[Hle IH]]; [by left|right]. split; [lia|done].
Qed.

(** [Scheduler_Initialize] leaves an empty forest, with nobody on the
    processor and the process lock free. *)
Lemma Scheduler_Initialize_idle s :
  table_ok s ->
  tree_ok (Scheduler_Initialize s) /\ flag (Process_lock (Scheduler_Initialize s)) = false /\
  forall i, status (proc (Scheduler_Initialize s) i) = PROCESS_IDLE.
Proof.
  intros Ht.
  assert (forall i, status (proc (Scheduler_Initialize s) i) = PROCESS_IDLE) as Hi.
  { intros i. unfold proc, Scheduler_Initialize. cbn [Scheduler_processes set_procs].
    destruct (fold_alter_idle KERNEL_MAX_PROCS (Scheduler_processes (set_process_lock (Process.thread s, SpinLock_Initialize (Process_lock s)) s)) i)
      as [H|[Hle ->]]; [done|]. cbn [Scheduler_processes set_process_lock].
    rewrite lookup_ge_None_2; [done|]. by rewrite Ht. }
  split; [|split; [done|done]]. apply idle_tree; [|done].
  unfold table_ok, Scheduler_Initialize. cbn [Scheduler_processes set_procs set_process_lock].
  assert (forall l ps, length (fold_left (fun ps i => alter (set_status PROCESS_IDLE) i ps) l ps) = length ps) as Hlen.
  { induction l as [|i l IH]; intros ps; [done|]. cbn [fold_left]. by rewrite IH, length_alter. }
  by rewrite Hlen.
Qed.
End Table.

(** ** What the processor has done when it starts to schedule *)

(** "CPU %u starting work\n", and what it prints for the processor [id]. *)
Definition work_format : list Z :=
  [67; 80; 85; 32; 37; 117; 32; 115; 116; 97; 114; 116; 105; 110; 103; 32; 119; 111; 114; 107; 10].
Definition work_text (id : Z) : list Z :=
  [67; 80; 85; 32] ++ spell id CONSOLE_NUMTYPE_DECIMAL false ++
  [32; 115; 116; 97; 114; 116; 105; 110; 103; 32; 119; 111; 114; 107; 10].

Lemma plain_renders m txt args : Forall (fun c => c <> 37) txt -> renders m txt args txt.
Proof. induction 1; by constructor. Qed.

Lemma work_renders m args id :
  0 <= id < 256 -> stack_word args -> load32 m args = id -> renders m work_format args (work_text id).
Proof.
  intros Hid Ha <-. unfold work_format, work_text. do 4 (apply renders_plain; [done|]).
  apply renders_num; [done|done| |apply plain_renders; repeat constructor; done].
  unfold spelled. split; [lia|]. split; [done|]. split; [by intros [? _]|by intros [? _]].
Qed.

Section Work.
Variables (address c : Z).
#[local] Instance work_regs : MMIO (list Event) := events_regs (address + 4 * LAPIC_REG_TCCR) (0xFFFFFFFF - c).
Context {PS : Type} {PA : PageAllocator PS} {T : Type} (handler : Handler (S := T)).

End Work.

(** ** An instance *)

(** Processor 0, with the format in memory at 0x1000, the argument at 0x2000,
    and one process that can run. *)
Definition demo_work_console : Console (list Event) :=
  Console_Initialize (mkConsole (store_bytes ∅ 0x1000 (work_format ++ [0])) 80 false (mkSpinLock true) (mkThread true 0 0) []).
Lemma demo_work_shows : shows demo_work_console (mkTerm (cell demo_work_console) 80).
Proof.
  exact (initialize_shows (mkConsole (store_bytes ∅ 0x1000 (work_format ++ [0])) 80 false (mkSpinLock true) (mkThread true 0 0) [])
    eq_refl eq_refl).
Qed.
Definition demo_work_system : System (W := list Event) (PS := PhysState) (T := nat) :=
  mkSystem (set_amem (cmem demo_work_console) (demo_apic [])) demo_work_console demo_start (mkTimer 0 0) ∅.

#[local] Strategy opaque [demo_work_console].

Lemma shows_outside {W} `{!PortIO W} (s s' : Console W) t :
  Console_pos s' = Console_pos s -> Console_inpanic s' = Console_inpanic s ->
  (forall a, Console_screen <= a < Console_screen + 4160 -> load8 (cmem s') a = load8 (cmem s) a) -> shows s t -> shows s' t.
Proof.
  intros Ep En Em (H1 & H2 & H3 & H4 & H5).
  assert (forall i, 0 <= i < 2080 -> cell s' i = cell s i) as Ec.
  { intros i Hi. unfold cell. cbn [load]. rewrite !Em by lia. done. }
  unfold shows. rewrite Ep, En. split; [done|]. split; [done|]. split; [done|]. split; intros i Hi; rewrite Ec by lia; auto.
Qed.

#[local] Instance demo_regs : MMIO (list Event) := work_regs 0xFEE00000 625000.
Lemma demo_apic_id m : LocalAPIC_ID (set_amem m (demo_apic [])) = (0, set_amem m (demo_apic [])).
Proof. reflexivity. Qed.
Lemma demo_work_id : LocalAPIC_ID (apic demo_work_system) = (0, set_amem (cmem demo_work_console) (demo_apic [])).
Proof. apply demo_apic_id. Qed.

Lemma demo_work_cells a :
  0x3000 <= a < 4294967296 -> load8 (store32 (cmem demo_work_console) 0x2000 0) a = load8 (cmem demo_work_console) a.
Proof. intros Ha. apply load8_store_ne; lia. Qed.

Lemma demo_work_string : string_at (store32 (cmem demo_work_console) 0x2000 0) 0x1000 work_format.
Proof. apply low_string; [lia|cbn; lia|vm_compute; reflexivity]. Qed.

Lemma demo_work_unlocked : flag (Console_lock demo_work_console) = false.
Proof. vm_compute. reflexivity. Qed.

