(* ===== verification/Bios.v ===== *)
(** * BIOS services of the boot loader

    [bootloader/multiboot]: [bios.h], [diskio.h/.c], [system.c], [video.h/.c]
    and the two routines of [memory.c] that ask the BIOS about memory. The
    interrupt itself ([BIOS_Interrupt], assembly) is a parameter: a function of
    the interrupt number, the registers, memory and a state [W] of the
    firmware and its devices. Buffers and structures on the stack are passed
    by their addresses. *)

From S2P Require Import Prelude CMem.

(** ** bios.h *)

Record BIOS_Registers := mkRegs {
  eax : Z; ebx : Z; ecx : Z; edx : Z; esi : Z; edi : Z; ebp : Z; esp : Z;
  ds : Z; es : Z; ss : Z; flags : Z
}.

(** The 16-bit and 8-bit members of the unions. *)
Definition low16 (r : Z) : Z := wrap16 r.
Definition low8 (r : Z) : Z := wrap8 r.
Definition high8 (r : Z) : Z := wrap8 (r / 256).
Definition put16 (r v : Z) : Z := r / 65536 * 65536 + wrap16 v.

Definition ax r := low16 (eax r).
Definition ah r := high8 (eax r).
Definition bx r := low16 (ebx r).
Definition bh r := high8 (ebx r).
Definition bl r := low8 (ebx r).
Definition cx r := low16 (ecx r).
Definition dx r := low16 (edx r).
Definition si r := low16 (esi r).
Definition di r := low16 (edi r).

Definition set_eax v r := mkRegs v (ebx r) (ecx r) (edx r) (esi r) (edi r) (ebp r) (esp r) (ds r) (es r) (ss r) (flags r).
Definition set_ebx v r := mkRegs (eax r) v (ecx r) (edx r) (esi r) (edi r) (ebp r) (esp r) (ds r) (es r) (ss r) (flags r).
Definition set_ecx v r := mkRegs (eax r) (ebx r) v (edx r) (esi r) (edi r) (ebp r) (esp r) (ds r) (es r) (ss r) (flags r).
Definition set_edx v r := mkRegs (eax r) (ebx r) (ecx r) v (esi r) (edi r) (ebp r) (esp r) (ds r) (es r) (ss r) (flags r).
Definition set_esi v r := mkRegs (eax r) (ebx r) (ecx r) (edx r) v (edi r) (ebp r) (esp r) (ds r) (es r) (ss r) (flags r).
Definition set_edi v r := mkRegs (eax r) (ebx r) (ecx r) (edx r) (esi r) v (ebp r) (esp r) (ds r) (es r) (ss r) (flags r).
Definition set_ds v r := mkRegs (eax r) (ebx r) (ecx r) (edx r) (esi r) (edi r) (ebp r) (esp r) (wrap16 v) (es r) (ss r) (flags r).
Definition set_es v r := mkRegs (eax r) (ebx r) (ecx r) (edx r) (esi r) (edi r) (ebp r) (esp r) (ds r) (wrap16 v) (ss r) (flags r).
Definition set_ax v r := set_eax (put16 (eax r) v) r.
Definition set_bx v r := set_ebx (put16 (ebx r) v) r.
Definition set_cx v r := set_ecx (put16 (ecx r) v) r.
Definition set_dx v r := set_edx (put16 (edx r) v) r.
Definition set_si v r := set_esi (put16 (esi r) v) r.
Definition set_di v r := set_edi (put16 (edi r) v) r.

(** [BIOS_ClearRegistry] zeroes the structure. *)
Definition BIOS_ClearRegistry : BIOS_Registers := mkRegs 0 0 0 0 0 0 0 0 0 0 0 0.

Definition carry (r : BIOS_Registers) : bool := Z.land (flags r) 1 =? 1.

Section Bios.
Context {W : Type}.

(** Memory and the state of the firmware. *)
Record Boot := mkBoot { bmem : Mem; world : W }.
Definition on_mem (f : Mem -> Mem) (s : Boot) : Boot := mkBoot (f (bmem s)) (world s).

Variable BIOS_Interrupt : Z -> BIOS_Registers -> Boot -> BIOS_Registers * Boot.

(** ** diskio.c *)

Definition DISKIO_MAX_SECTOR_SIZE : Z := 0x1000.
Definition DISKIO_DISK_ADDRESS_PACKET_SIZE : Z := 0x10.
Definition DISKIO_DISK_GEOMETRY_PACKET_SIZE : Z := 0x1A.

(** Addresses of [DiskIO_LowMemoryBuffer] and of the locals [geom], [dap]. *)
Variable DiskIO_LowMemoryBuffer geom dap : Z.

(** Offsets in [struct DiskIO_Geometry] and [struct DiskIO_DAP]. *)
Definition geom_size (m : Mem) (g : Z) : Z := load16 m g.
Definition geom_bytes_per_sector (m : Mem) (g : Z) : Z := load16 m (g + 24).

Definition DiskIO_CheckForBIOSExtensions (drive : Z) (s : Boot) : bool * Boot :=
  let r := BIOS_ClearRegistry in
  let r := set_ax 0x4100 r in
  let r := set_bx 0x55AA r in
  let r := set_dx drive r in
  let '(r, s) := BIOS_Interrupt 0x13 r s in
  if carry r || negb (bx r =? 0xAA55) || (Z.land (cx r) 1 =? 0) then (false, s) else (true, s).

Definition DiskIO_GetDiskGeometry (drive geometry : Z) (s : Boot) : bool * Boot :=
  let r := BIOS_ClearRegistry in
  let r := set_ax 0x4800 r in
  let r := set_dx drive r in
  let r := set_si (Z.land geometry 0xF) r in
  let r := set_ds (Z.shiftr geometry 4) r in
  let '(r, s) := BIOS_Interrupt 0x13 r s in
  if carry r then (false, s) else (true, s).

(** The [for] over the sectors: [n] sectors left. *)
Fixpoint read_sectors (n : nat) (drive dst bytes_read : Z) (r : BIOS_Registers) (s : Boot) : Z * Boot :=
  match n with
  | O => (bytes_read, s)
  | S n' =>
      let r := set_ax 0x4200 r in
      let r := set_dx drive r in
      let r := set_si (Z.land dap 0xF) r in
      let r := set_ds (Z.shiftr dap 4) r in
      let '(r, s) := BIOS_Interrupt 0x13 r s in
      if carry r then (bytes_read, s)
      else
        let bytes := geom_bytes_per_sector (bmem s) geom in
        let s := on_mem (fun m => memcpy m dst DiskIO_LowMemoryBuffer bytes) s in
        let s := on_mem (fun m => store64 m (dap + 8) (wrap64 (load64 m (dap + 8) + 1))) s in
        read_sectors n' drive (dst ⊕ bytes) (bytes_read ⊕ bytes) r s
  end.

Definition DiskIO_ReadFromDisk (drive mem_start_addr disk_start_sector num_sectors : Z) (s : Boot)
  : Z * Boot :=
  if num_sectors =? 0 then (0, s)
  else
    let s := on_mem (fun m => store16 m geom DISKIO_DISK_GEOMETRY_PACKET_SIZE) s in
    let '(ok, s) := DiskIO_CheckForBIOSExtensions drive s in
    if negb ok then (0, s)
    else
      let '(ok, s) := DiskIO_GetDiskGeometry drive geom s in
      if negb ok then (0, s)
      else if DISKIO_MAX_SECTOR_SIZE <? geom_size (bmem s) geom then (0, s)
      else
        let s := on_mem (fun m =>
          let m := store8 m dap DISKIO_DISK_ADDRESS_PACKET_SIZE in
          let m := store8 m (dap + 1) 0 in
          let m := store8 m (dap + 2) 1 in
          let m := store8 m (dap + 3) 0 in
          let m := store16 m (dap + 4) (Z.land DiskIO_LowMemoryBuffer 0xF) in
          let m := store16 m (dap + 6) (Z.shiftr DiskIO_LowMemoryBuffer 4) in
          let m := store64 m (dap + 8) disk_start_sector in
          m) s in
        read_sectors (Z.to_nat num_sectors) drive mem_start_addr 0 BIOS_ClearRegistry s.

(** ** memory.c: sizes and the E820 map *)

Definition Memory_StoreBasicInfo (addr : Z) (s : Boot) : Z * Boot :=
  let '(r, s) := BIOS_Interrupt 0x12 BIOS_ClearRegistry s in
  if carry r then (addr, s)
  else
    let s := on_mem (fun m => store32 m addr (ax r)) s in
    if ax r =? 0 then (addr, s)
    else
      let s := on_mem (fun m => store32 m (addr + 4) 0) s in
      let '(r, s) := BIOS_Interrupt 0x15 (set_ax 0xE801 BIOS_ClearRegistry) s in
      let basic := negb (carry r) && negb (ah r =? 0x86) && negb (ah r =? 0x80) in
      if basic && negb (cx r =? 0) then
        (addr ⊕ 8, on_mem (fun m => store32 m (addr + 4) (load32 m (addr + 4) + (cx r + dx r * 0x40))) s)
      else if basic && negb (ax r =? 0) then
        (addr ⊕ 8, on_mem (fun m => store32 m (addr + 4) (load32 m (addr + 4) + (ax r + bx r * 0x40))) s)
      else
        let '(r, s) := BIOS_Interrupt 0x15 (set_ax 0x88 BIOS_ClearRegistry) s in
        if carry r then (addr, s)
        else (addr ⊕ 8, on_mem (fun m => store32 m (addr + 4) (ax r)) s).

(** The [while (true)]; the BIOS decides when it ends. *)
Fixpoint e820_loop (fuel : nat) (current_entry : Z) (r : BIOS_Registers) (s : Boot)
  : option (BIOS_Registers * Boot) :=
  match fuel with
  | O => None
  | S f =>
      let r := set_eax 0xE820 r in
      let r := set_ecx 0x0018 r in
      let r := set_edx 0x534D4150 r in
      let s := on_mem (fun m => store32 m (current_entry + 20) 1) s in
      let '(r, s) := BIOS_Interrupt 0x15 r s in
      if carry r || negb (eax r =? 0x534D4150) || (ebx r =? 0) then Some (r, s)
      else if ((ecx r <=? 20) || (Z.land (load32 (bmem s) (current_entry + 20)) 3 =? 1)) &&
              (0 <? load64 (bmem s) (current_entry + 8)) then
        let r := set_esi (esi r ⊕ 0x18) r in
        let r := set_edi (edi r ⊕ 0x18) r in
        e820_loop f (current_entry ⊕ 24) r s
      else e820_loop f current_entry r s
  end.

Definition Memory_StoreE820Info (fuel : nat) (addr : Z) (s : Boot) : option (Z * Boot) :=
  let r := BIOS_ClearRegistry in
  let r := set_di (Z.land addr 0xF) r in
  let r := set_es (Z.shiftr addr 4) r in
  '(r, s) ← e820_loop fuel addr r s;
  Some (addr ⊕ esi r, s).

(** ** system.c *)

Definition System_StoreAPMInfo (addr : Z) (s : Boot) : Z * Boot :=
  let '(r, s) := BIOS_Interrupt 0x15 (set_ax 0x5300 BIOS_ClearRegistry) s in
  if carry r then (addr, s)
  else if negb (bh r =? 80) || negb (bl r =? 77) then (addr, s)
  else
    let version := ax r in
    let apm_flags := cx r in
    let '(r, s) := BIOS_Interrupt 0x15 (set_ax 0x5304 r) s in
    if carry r || negb (ah r =? 3) then (addr, s)
    else
      let '(r, s) := BIOS_Interrupt 0x15 (set_ax 0x5303 BIOS_ClearRegistry) s in
      if carry r then (addr, s)
      else
        let s := on_mem (fun m =>
          let m := store16 m addr version in
          let m := store16 m (addr + 2) (ax r) in
          let m := store32 m (addr + 4) (ebx r) in
          let m := store16 m (addr + 8) (cx r) in
          let m := store16 m (addr + 10) (dx r) in
          let m := store16 m (addr + 12) apm_flags in
          let m := store16 m (addr + 14) (si r) in
          let m := store16 m (addr + 16) (Z.shiftr (Z.land (esi r) 0xFFFF0000) 0x10) in
          let m := store16 m (addr + 18) (di r) in
          m) s in
        (addr ⊕ 20, s).

(** Does the string [bs] stand at [p]? *)
Fixpoint bytes_at (m : Mem) (p : Z) (bs : list Z) : bool :=
  match bs with
  | [] => true
  | b :: bs' => (signed8 (load8 m p) =? signed8 b) && bytes_at m (p + 1) bs'
  end.

(** Sum of [n] bytes at [p]. *)
Fixpoint byte_sum (n : nat) (m : Mem) (p : Z) : Z :=
  match n with
  | O => 0
  | S n' => load8 m p + byte_sum n' m (p + 1)
  end.

Fixpoint smbios_scan (n : nat) (m : Mem) (mem : Z) : Z :=
  match n with
  | O => mem
  | S n' =>
      if mem <? 0x100000 then
        if bytes_at m mem [95; 83; 77; 95] then
          let length := load8 m (mem + 5) in
          if wrap8 (byte_sum (Z.to_nat length) m mem) =? 0 then mem
          else smbios_scan n' m (mem ⊕ 0x10)
        else smbios_scan n' m (mem ⊕ 0x10)
      else mem
  end.

(** Offsets in [struct Multiboot_SMBIOS_EntryPointTable]: [length] 5, the
    version 6 and 7, [table_length] 19, [table_address] 21. *)
Definition System_StoreSMBIOSInfo (addr : Z) (s : Boot) : Z * Boot :=
  let mem := smbios_scan 4097 (bmem s) 0xF0000 in
  if mem =? 0x100000 then (addr, s)
  else
    let s := on_mem (fun m => store8 m addr (load8 m (mem + 6))) s in
    let s := on_mem (fun m => store8 m (addr + 1) (load8 m (mem + 7))) s in
    let s := on_mem (fun m => memset m (addr + 2) 0 6) s in
    let dst := addr ⊕ 8 in
    let s := on_mem (fun m => memmove m dst mem (load8 m (mem + 5))) s in
    let src := load32 (bmem s) (mem + 21) in
    let dst := dst ⊕ load8 (bmem s) (mem + 5) in
    let s := on_mem (fun m => memmove m dst src (load16 m (mem + 19))) s in
    let retval := dst ⊕ load16 (bmem s) (mem + 19) in
    if negb (retval mod 8 =? 0) then
      (retval ⊕ (8 - retval mod 8), on_mem (fun m => memset m retval 0 (8 - retval mod 8)) s)
    else (retval, s).

Definition SIZEOF_RSDPv1 : Z := 20.
Definition SIZEOF_RSDPv2 : Z := 36.
Definition RSD_PTR : list Z := [82; 83; 68; 32; 80; 84; 82; 32].

(** [for (size_t i = from; i < upto; i++) sum += ptr[i]]. *)
Definition sum_range (m : Mem) (p from upto : Z) : Z :=
  wrap32 (byte_sum (Z.to_nat (upto - from)) m (p + from)).

(** The tests of one position of the search. *)
Definition rsdp_here (m : Mem) (p : Z) (old : bool) : bool :=
  bytes_at m p RSD_PTR &&
  (Z.land (sum_range m p 0 SIZEOF_RSDPv1) 0xFF =? 0) &&
  (old ||
   ((load8 m (p + 15) =? 2) &&
    (Z.land (sum_range m p SIZEOF_RSDPv1 (SIZEOF_RSDPv2 - SIZEOF_RSDPv1)) 0xFF =? 0))).

(** [Some None] is "not found"; [None] is "still searching". *)
Fixpoint rsdp_scan (fuel : nat) (m : Mem) (ebda_1kb p : Z) (old : bool) : option (option Z) :=
  match fuel with
  | O => None
  | S f =>
      if p <? 0x100000 then
        if rsdp_here m p old then Some (Some p)
        else rsdp_scan f m ebda_1kb (if p ⊕ 0x10 =? ebda_1kb then 0xE0000 else p ⊕ 0x10) old
      else Some None
  end.

(** There are 65536 positions below 1 MB; the search that takes more steps
    goes round for ever. *)
Definition System_StoreACPIInfo (addr : Z) (old : bool) (s : Boot) : option (Z * Boot) :=
  let p := load16 (bmem s) 0x40E * 16 in
  r ← rsdp_scan (Z.to_nat 65537) (bmem s) (p ⊕ 0x400) p old;
  match r with
  | None => Some (addr, s)
  | Some p =>
      let len := if old then SIZEOF_RSDPv1 else SIZEOF_RSDPv2 in
      Some (addr ⊕ len, on_mem (fun m => memmove m addr p len) s)
  end.

(** ** video.c *)

Definition SIZEOF_VBE_INFO : Z := 512.

Definition VBE_StoreInfo (addr : Z) (s : Boot) : Z * Boot :=
  let s := on_mem (fun m => store_bytes m addr [86; 66; 69; 50]) s in
  let r := set_ax 0x4F00 BIOS_ClearRegistry in
  let r := set_di (Z.land addr 0xF) r in
  let r := set_es (Z.shiftr addr 4) r in
  let '(r, s) := BIOS_Interrupt 0x10 r s in
  if negb (ax r =? 0x4F) then (addr, s)
  else if negb (bytes_at (bmem s) addr [86; 69; 83; 65]) then (addr, s)
  else (addr ⊕ SIZEOF_VBE_INFO, s).

Definition VBE_GetModeInfo (mode addr : Z) (s : Boot) : bool * Boot :=
  if mode =? 0xFFFF then (false, s)
  else
    let r := set_ax 0x4F01 BIOS_ClearRegistry in
    let r := set_cx mode r in
    let r := set_di (Z.land addr 0xF) r in
    let r := set_es (Z.shiftr addr 4) r in
    let '(r, s) := BIOS_Interrupt 0x10 r s in
    (ax r =? 0x4F, s).

Definition VBE_SetMode (mode : Z) (s : Boot) : bool * Boot :=
  if mode =? 0xFFFF then (false, s)
  else
    let r := set_ax 0x4F02 BIOS_ClearRegistry in
    let r := set_bx mode r in
    let '(r, s) := BIOS_Interrupt 0x10 r s in
    (ax r =? 0x4F, s).

Definition VBE_GetCurrentMode (s : Boot) : Z * Boot :=
  let '(r, s) := BIOS_Interrupt 0x10 (set_ax 0x4F03 BIOS_ClearRegistry) s in
  if negb (ax r =? 0x4F) then (0xFFFF, s) else (wrap16 (ebx r), s).

Definition VBE_StorePModeInfo (addr : Z) (s : Boot) : Z * Boot :=
  let r := set_ax 0x4F0A BIOS_ClearRegistry in
  let r := set_bx 0 r in
  let '(r, s) := BIOS_Interrupt 0x10 r s in
  if negb (ax r =? 0x4F) || carry r then (addr, s)
  else
    let s := on_mem (fun m =>
      let m := store16 m addr (wrap16 (es r)) in
      let m := store16 m (addr + 2) (wrap16 (edi r)) in
      let m := store16 m (addr + 4) (wrap16 (ecx r)) in
      m) s in
    (addr ⊕ SIZEOF_VBE_INFO, s).

(** Members of [struct VBE_Mode_Info]. *)
Definition mode_attributes (m : Mem) (p : Z) : Z := load16 m p.
Definition mode_pitch (m : Mem) (p : Z) : Z := load16 m (p + 16).
Definition mode_width (m : Mem) (p : Z) : Z := load16 m (p + 18).
Definition mode_height (m : Mem) (p : Z) : Z := load16 m (p + 20).
Definition mode_bpp (m : Mem) (p : Z) : Z := load8 m (p + 25).

(** [for (i = 0; video_modes[i] != 0xFFFF; i++)]: the first mode that
    [before] does not skip, whose description the BIOS gives and [want]
    accepts. The list ends with [0xFFFF]; [None] is a list longer than
    [fuel]. *)
Variable VBE_ModeBuffer : Z.

Fixpoint mode_search (fuel : nat) (video_modes i : Z) (before : Z -> bool) (want : Mem -> Z -> bool)
  (s : Boot) : option (option Z * Boot) :=
  match fuel with
  | O => None
  | S f =>
      let mode := load16 (bmem s) (video_modes + 2 * i) in
      if mode =? 0xFFFF then Some (None, s)
      else if negb (before mode) then mode_search f video_modes (i + 1) before want s
      else
        let '(ok, s) := VBE_GetModeInfo mode VBE_ModeBuffer s in
        let mode' := load16 (bmem s) (video_modes + 2 * i) in
        if negb ok then mode_search f video_modes (i + 1) before want s
        else if want (bmem s) VBE_ModeBuffer then Some (Some mode', s)
        else mode_search f video_modes (i + 1) before want s
  end.

Definition any_mode (_ : Z) : bool := true.
Definition is_text (m : Mem) (p : Z) : bool := Z.land (mode_attributes m p) 0x10 =? 0.
Definition fits (width height : Z) (m : Mem) (p : Z) : bool :=
  ((width =? 0) || (mode_width m p =? width)) && ((height =? 0) || (mode_height m p =? height)).
Definition is_80x25 (m : Mem) (p : Z) : bool :=
  is_text m p && (mode_width m p =? 80) && (mode_height m p =? 25).

(** Several searches, each tried when the one before found nothing. *)
Fixpoint first_of (fuel : nat) (video_modes : Z)
  (ls : list ((Z -> bool) * (Mem -> Z -> bool) * (Z -> Z))) (s : Boot) : option (Z * Boot) :=
  match ls with
  | [] => Some (0xFFFF, s)
  | (before, want, out) :: ls' =>
      '(r, s) ← mode_search fuel video_modes 0 before want s;
      match r with
      | Some mode => Some (out mode, s)
      | None => first_of fuel video_modes ls' s
      end
  end.

Definition plain (mode : Z) : Z := mode.
Definition linear (mode : Z) : Z := wrap16 (Z.lor mode 0x4000).

Definition VBE_GetTextMode (fuel : nat) (video_modes width height : Z) (s : Boot) : option (Z * Boot) :=
  if (width =? 0) && (height =? 0) then
    first_of fuel video_modes
      [(fun mode => mode =? 3, is_80x25, plain);
       (any_mode, is_80x25, plain);
       (any_mode, is_text, plain)] s
  else
    first_of fuel video_modes
      [(any_mode, fun m p => is_text m p && fits width height m p, plain)] s.

Definition VBE_GetMode (fuel : nat) (video_modes width height depth : Z) (s : Boot) : option (Z * Boot) :=
  if (width =? 0) && (height =? 0) && (depth =? 0) then
    first_of fuel video_modes
      [(fun mode => mode =? 3, is_80x25, plain);
       (any_mode, is_80x25, plain);
       (any_mode, is_text, plain);
       (any_mode, fun _ _ => true, linear)] s
  else if (negb (width =? 0) || negb (height =? 0)) && (depth =? 0) then
    '(retmode, s) ← VBE_GetTextMode fuel video_modes width height s;
    if negb (retmode =? 0xFFFF) then Some (retmode, s)
    else first_of fuel video_modes [(any_mode, fits width height, linear)] s
  else
    first_of fuel video_modes
      [(any_mode, fun m p => fits width height m p && (mode_bpp m p =? depth), linear)] s.

End Bios.
Arguments Boot : clear implicits.
Arguments mkBoot {W}.
