(* ===== verification/BootMem.v ===== *)
(** * Memory maps in the boot loader

    [bootloader/multiboot/src/memory.c]: the sanitised list of free memory
    built from the E820 map, and the search for a free block. The two routines
    that call the BIOS are in [Bios.v]. *)

From S2P Require Import Prelude CMem.

Definition MEMORY_NULL_PTR : Z := 0xFFFFFFFF.
Definition MEMORY_32BIT_LIMIT : Z := 0xFFFFFFFF.
Definition MEMORY_HIGH_START : Z := 0x100000.
Definition MEMORY_E820_ACPI3_FLAG : Z := 1.
Definition MEMORY_E820_AVAILABLE : Z := 1.
Definition MEMORY_E820_RESERVED : Z := 2.
Definition MEMORY_E820_ACPI_RECLAIMABLE : Z := 3.
Definition MEMORY_E820_NVS : Z := 4.
Definition MEMORY_E820_BADRAM : Z := 5.
Definition MEMORY_FIND_ADDRESS_BELOW : bool := false.
Definition MEMORY_FIND_ADDRESS_ABOVE : bool := true.

(** [struct BootInfo_BlockRAM], entry [i] of an array at [p]. *)
Definition SIZEOF_BLOCKRAM : Z := 16.
Definition ram_address (m : Mem) (p i : Z) : Z := load64 m (p + 16 * i).
Definition ram_size (m : Mem) (p i : Z) : Z := load64 m (p + 16 * i + 8).
Definition set_ram_address (p i v : Z) (m : Mem) : Mem := store64 m (p + 16 * i) v.
Definition set_ram_size (p i v : Z) (m : Mem) : Mem := store64 m (p + 16 * i + 8) v.

(** [struct Multiboot_E820_Entry], entry [i] of an array at [p]. *)
Definition SIZEOF_E820 : Z := 24.
Definition e820_base (m : Mem) (p i : Z) : Z := load64 m (p + 24 * i).
Definition e820_size (m : Mem) (p i : Z) : Z := load64 m (p + 24 * i + 8).
Definition e820_type (m : Mem) (p i : Z) : Z := load32 m (p + 24 * i + 16).
Definition e820_acpi3 (m : Mem) (p i : Z) : Z := load32 m (p + 24 * i + 20).

Definition e820_usable (m : Mem) (p i : Z) : bool :=
  (e820_acpi3 m p i =? MEMORY_E820_ACPI3_FLAG) && (e820_type m p i =? MEMORY_E820_AVAILABLE).

(** ** Memory_StoreInfo *)

(** The lowest base of a usable entry at or above the current address. *)
Fixpoint closest_boundary (n : nat) (m : Mem) (tbl i address best : Z) : Z :=
  match n with
  | O => best
  | S n' =>
      let best :=
        if e820_usable m tbl i && (address <=? e820_base m tbl i) && (e820_base m tbl i <? best)
        then e820_base m tbl i else best in
      closest_boundary n' m tbl (i + 1) address best
  end.

(** Extend the entry at [t] over the usable entries that touch it. *)
Fixpoint extend_entry (n : nat) (tbl t i : Z) (m : Mem) : Mem :=
  match n with
  | O => m
  | S n' =>
      let m :=
        if e820_usable m tbl i then
          let e820_entry_end := wrap64 (e820_base m tbl i + e820_size m tbl i) in
          let table_entry_end := wrap64 (ram_address m t 0 + ram_size m t 0) in
          if (table_entry_end <=? e820_entry_end) && (e820_base m tbl i <=? table_entry_end)
          then set_ram_size t 0 (wrap64 (e820_entry_end - ram_address m t 0)) m else m
        else m in
      extend_entry n' tbl t (i + 1) m
  end.

Definition ADDR_LIMIT : Z := 0xFFFFFFFFFFFFFFFF.

(** The outer loop: the table grows at [t]. *)
Fixpoint store_entries (fuel : nat) (tbl n t table_size : Z) (m : Mem) : option (Z * Mem) :=
  match fuel with
  | O => None
  | S f =>
      let b := closest_boundary (Z.to_nat n) m tbl 0 (ram_address m t 0) ADDR_LIMIT in
      if b =? ADDR_LIMIT then Some (table_size, m)
      else
        let m := set_ram_address t 0 b m in
        let m := set_ram_size t 0 0 m in
        let m := extend_entry (Z.to_nat n) tbl t 0 m in
        let t := t ⊕ SIZEOF_BLOCKRAM in
        let m := set_ram_address t 0
                   (wrap64 (ram_address m (t - 16) 0 + ram_size m (t - 16) 0)) m in
        store_entries f tbl n t (table_size ⊕ 1) m
  end.

(** The page adjustment of entry [i]. *)
Definition align_entry (t i : Z) (m : Mem) : Mem :=
  let mask := Z.lnot 0xFFF in
  let min_addr := Z.land (ram_address m t i) mask in
  let max_addr := Z.land (wrap64 (ram_address m t i + ram_size m t i)) mask in
  let min_addr := if min_addr <? ram_address m t i then wrap64 (min_addr + 0x1000) else min_addr in
  let m := set_ram_address t i (if min_addr <? max_addr then min_addr else 0) m in
  set_ram_size t i (if min_addr <? max_addr then wrap64 (max_addr - min_addr) else 0) m.

Fixpoint align_entries (n : nat) (t i : Z) (m : Mem) : Mem :=
  match n with
  | O => m
  | S n' => align_entries n' t (i + 1) (align_entry t i m)
  end.

(** The removal of empty entries, at index [i]. *)
Fixpoint remove_empty (fuel : nat) (t i table_size : Z) (m : Mem) : Z * Mem :=
  match fuel with
  | O => (table_size, m)
  | S f =>
      if i <? table_size then
        if ram_size m t i =? 0 then
          let m := memmove m (t + 16 * i) (t + 16 * (i + 1)) ((table_size ⊖ i ⊖ 1) ⊗ SIZEOF_BLOCKRAM) in
          remove_empty f t (i + 1) (table_size ⊖ 1) m
        else remove_empty f t (i + 1) table_size m
      else (table_size, m)
  end.

(** Each turn of the outer loop starts at a base above the ones before; a
    table of [n] entries gives at most [n] blocks when no entry is empty. *)
Definition Memory_StoreInfo (fuel : nat) (addr : Z) (page_align : bool) (tbl n : Z) (m : Mem)
  : option (Z * Mem) :=
  let m := set_ram_address addr 0 0 m in
  let m := set_ram_size addr 0 0 m in
  '(table_size, m) ← store_entries fuel tbl n addr 0 m;
  let m := if page_align then align_entries (Z.to_nat table_size) addr 0 m else m in
  let '(table_size, m) := remove_empty (Z.to_nat table_size) addr 0 table_size m in
  Some (addr ⊕ table_size ⊗ SIZEOF_BLOCKRAM, m).

(** ** Memory_AlignAddress, Memory_FindBlockAddress *)

Definition Memory_AlignAddress (addr align : Z) (above : bool) : Z :=
  if (align <=? 1) || (addr mod align =? 0) then addr
  else align ⊗ ((if above then 1 else 0) ⊕ addr / align).

(** The [for] over the map: [n] entries left, at entry [i], the best address
    so far is [mem]; [inl] is the [return] inside the loop. *)
Fixpoint find_block (n : nat) (m : Mem) (mmap i : Z) (above : bool) (addr size align aligned_addr mem : Z)
  : Z + Z :=
  match n with
  | O => inr mem
  | S n' =>
      let continue_ mem := find_block n' m mmap (i + 1) above addr size align aligned_addr mem in
      if MEMORY_32BIT_LIMIT <=? ram_address m mmap i then continue_ mem
      else
        let base := wrap32 (ram_address m mmap i) in
        let esize :=
          if MEMORY_32BIT_LIMIT <? wrap64 (ram_address m mmap i + ram_size m mmap i)
          then wrap32 (MEMORY_32BIT_LIMIT - ram_address m mmap i) else wrap32 (ram_size m mmap i) in
        if esize <? size then continue_ mem
        else
          let shifted_base :=
            if above then base
            else if aligned_addr <=? base ⊕ esize ⊖ size then aligned_addr else base ⊕ esize ⊖ size in
          let aligned_base := Memory_AlignAddress shifted_base align above in
          if (aligned_base <? base) || (base ⊕ esize <=? aligned_base) then continue_ mem
          else
            let aligned_size := base ⊕ esize ⊖ aligned_base in
            if (base <=? aligned_addr) && (aligned_addr ⊕ size <? base ⊕ esize) then inl aligned_addr
            else
              let mem :=
                if above && (size <=? aligned_size) && (addr <=? aligned_base) && (aligned_base <? mem)
                then aligned_base else mem in
              let mem :=
                if negb above && (size <=? aligned_size) && (aligned_base <? addr) && (mem <? aligned_base)
                then aligned_base else mem in
              continue_ mem
  end.

Definition Memory_FindBlockAddress (addr : Z) (above : bool) (size align mmap mmap_size : Z) (m : Mem) : Z :=
  if size =? 0 then MEMORY_32BIT_LIMIT
  else if above && ((addr =? MEMORY_32BIT_LIMIT) || (addr ⊕ size <? addr)) then MEMORY_32BIT_LIMIT
  else if negb above && ((addr =? 0) || (addr <? size)) then MEMORY_32BIT_LIMIT
  else
    let mem := if above then MEMORY_32BIT_LIMIT else 0 in
    let aligned_addr := Memory_AlignAddress (if above then addr else addr ⊖ size) align above in
    if (mmap_size =? 0) || (mmap =? MEMORY_NULL_PTR) then mem
    else
      match find_block (Z.to_nat mmap_size) m mmap 0 above addr size align aligned_addr mem with
      | inl a => a
      | inr mem => if above || negb (mem =? 0) then mem else MEMORY_32BIT_LIMIT
      end.

(** ** Alignment *)

Definition word (x : Z) : Prop := 0 <= x < 4294967296.

Lemma AlignAddress_fits addr align above :
  word addr -> 1 <= align < 4294967296 -> (above = true -> addr + align <= 4294967296) ->
  let a := Memory_AlignAddress addr align above in
  word a /\ (align | a) /\
  (if above then addr <= a < addr + align else addr - align < a <= addr).
Proof.
  intros Ha Hal Hab. unfold word in *. cbn zeta. unfold Memory_AlignAddress.
  pose proof (Z.div_mod addr align ltac:(lia)) as Hdm. pose proof (Z.mod_pos_bound addr align ltac:(lia)).
  assert (0 <= addr / align) by (apply Z.div_pos; lia).
  destruct (Z.leb_spec align 1); cbn [orb].
  { assert (align = 1) as -> by lia. split; [done|]. split; [apply Z.divide_1_l|]. destruct above; lia. }
  destruct (Z.eqb_spec (addr mod align) 0) as [E|E].
  { split; [done|]. split; [by apply Z.mod_divide; lia|]. destruct above; lia. }
  assert (addr / align <= addr) by (apply Z.div_le_upper_bound; nia).
  destruct above.
  - specialize (Hab eq_refl).
    assert (align * (1 + addr / align) < 4294967296) by nia.
    rewrite (wrap32_small (1 + _)) by nia. rewrite wrap32_small by nia.
    split; [nia|]. split; [apply Z.divide_factor_l|nia].
  - rewrite (wrap32_small (0 + _)) by lia. rewrite wrap32_small by nia.
    split; [nia|]. split; [apply Z.divide_factor_l|nia].
Qed.

(** Aligning an address: the result is the nearest multiple at or above,
    or at or below, the address, whenever it fits in 32 bits. *)
Theorem Memory_AlignAddress_correct addr align above :
  word addr -> 1 <= align < 4294967296 -> (above = true -> addr + align <= 4294967296) ->
  let a := Memory_AlignAddress addr align above in
  word a /\ (align | a) /\
  (if above then addr <= a < addr + align else addr - align < a <= addr).
Proof. apply AlignAddress_fits. Qed.

Lemma Memory_AlignAddress_correct_witness :
  let a := Memory_AlignAddress 0x12345 0x1000 true in word a /\ (0x1000 | a) /\ 0x12345 <= a < 0x13345.
Proof.
  apply (Memory_AlignAddress_correct 0x12345 0x1000 true); [unfold word; lia|lia|lia].
Defined.

Lemma AlignAddress_cases addr align above :
  word addr -> 1 <= align < 4294967296 ->
  let a := Memory_AlignAddress addr align above in
  word a /\
  (((align | a) /\ (if above then addr <= a < addr + align else addr - align < a <= addr)) \/
   (above = true /\ a < addr)).
Proof.
  intros Ha Hal. unfold word in *. cbn zeta. unfold Memory_AlignAddress.
  pose proof (Z.div_mod addr align ltac:(lia)) as Hdm. pose proof (Z.mod_pos_bound addr align ltac:(lia)).
  assert (0 <= addr / align) by (apply Z.div_pos; lia).
  destruct (Z.leb_spec align 1); cbn [orb].
  { assert (align = 1) as -> by lia. split; [done|]. left. split; [apply Z.divide_1_l|]. destruct above; lia. }
  destruct (Z.eqb_spec (addr mod align) 0) as [E|E].
  { split; [done|]. left. split; [by apply Z.mod_divide; lia|]. destruct above; lia. }
  assert (addr / align <= addr) by (apply Z.div_le_upper_bound; nia).
  split; [apply wrap32_range|]. destruct above.
  - rewrite (wrap32_small (1 + _)) by nia.
    destruct (decide (align * (1 + addr / align) < 4294967296)) as [Hlt|Hge].
    + left. rewrite wrap32_small by nia. split; [apply Z.divide_factor_l|nia].
    + right. split; [done|].
      assert (align * (1 + addr / align) < 8589934592) by nia.
      unfold wrap32. rewrite <- (Z.mod_add _ (-1)) by lia. rewrite Z.mod_small by lia. nia.
  - left. rewrite (wrap32_small (0 + _)) by lia. rewrite wrap32_small by nia.
    split; [apply Z.divide_factor_l|nia].
Qed.

Section Find.
Variables (m : Mem) (mmap : Z) (n : Z) (addr size align : Z) (above : bool).

(** A block of [size] bytes at [r], inside an entry of the map and below the
    32-bit limit, on the side of [addr] asked for. *)
Definition fits_at (r : Z) : Prop :=
  (align | r) /\ (if above then addr <= r else r + size <= addr) /\
  r + size <= MEMORY_32BIT_LIMIT /\
  exists i, 0 <= i < n /\ ram_address m mmap i <= r /\ r + size <= ram_address m mmap i + ram_size m mmap i.

Hypothesis Hsize : 1 <= size < 4294967296.
Hypothesis Halign : 1 <= align < 4294967296.
Hypothesis Hentries : forall i, 0 <= i < n ->
  ram_address m mmap i + ram_size m mmap i < 18446744073709551616.

Lemma find_block_sound k i aligned_addr mem :
  word aligned_addr -> (align | aligned_addr) ->
  (if above then addr <= aligned_addr else aligned_addr + size <= addr) ->
  aligned_addr + size < 4294967296 -> 0 <= addr ->
  0 <= i -> i + Z.of_nat k = n ->
  (mem = (if above then MEMORY_32BIT_LIMIT else 0) \/ fits_at mem) ->
  match find_block k m mmap i above addr size align aligned_addr mem with
  | inl r => fits_at r
  | inr r => r = (if above then MEMORY_32BIT_LIMIT else 0) \/ fits_at r
  end.
Proof.
  intros Hw Hal Hside Hfit Ha. revert i mem. induction k as [|k IH]; intros i mem Hi Hk Hmem; [done|].
  cbn [find_block]. assert (forall mem, (mem = (if above then MEMORY_32BIT_LIMIT else 0) \/ fits_at mem) ->
    match find_block k m mmap (i + 1) above addr size align aligned_addr mem with
    | inl r => fits_at r
    | inr r => r = (if above then MEMORY_32BIT_LIMIT else 0) \/ fits_at r
    end) as Hnext by (intros; apply IH; done || lia).
  pose proof (load_range 8 m (mmap + 16 * i)) as [Hr1 _].
  pose proof (load_range 8 m (mmap + 16 * i + 8)) as [Hr2 _].
  pose proof (Hentries i ltac:(lia)) as He. pose proof (Hnext mem Hmem) as Hcont.
  change (load64 m (mmap + 16 * i)) with (ram_address m mmap i) in Hr1.
  change (load64 m (mmap + 16 * i + 8)) with (ram_size m mmap i) in Hr2.
  set (ea := ram_address m mmap i) in *. set (es := ram_size m mmap i) in *.
  destruct (Z.leb_spec MEMORY_32BIT_LIMIT ea) as [?|Hea]; [done|].
  unfold MEMORY_32BIT_LIMIT in Hea. rewrite (wrap32_small ea), (wrap64_small (ea + es)) by lia.
  set (esize := if MEMORY_32BIT_LIMIT <? ea + es then _ else _).
  assert (0 <= esize /\ esize <= es /\ ea + esize <= MEMORY_32BIT_LIMIT) as (He0 & He1 & He2).
  { unfold esize, MEMORY_32BIT_LIMIT. case_cmp; rewrite wrap32_small by lia; lia. }
  clearbody esize. destruct (Z.ltb_spec esize size) as [?|Hes]; [done|].
  unfold MEMORY_32BIT_LIMIT in He2.
  rewrite (wrap32_small (ea + esize)), (wrap32_small (ea + esize - size)) by lia.
  set (sb := if above then ea else _).
  assert (word sb) as Hsb by (unfold sb, word in *; destruct above; [lia|case_cmp; lia]).
  pose proof (AlignAddress_cases sb align above Hsb Halign) as [Hwb Hcases].
  set (ab := Memory_AlignAddress sb align above) in *.
  destruct (Z.ltb_spec ab ea) as [?|Hab1]; [done|]. cbn [orb].
  destruct (Z.leb_spec (ea + esize) ab) as [?|Hab2]; [done|].
  rewrite (wrap32_small (ea + esize - ab)) by (unfold word in *; lia).
  rewrite (wrap32_small (aligned_addr + size)) by (unfold word in *; lia).
  destruct (Z.leb_spec ea aligned_addr) as [H1|H1], (Z.ltb_spec (aligned_addr + size) (ea + esize)) as [H2|H2];
    cbn [andb].
  1: { split; [done|]. split; [done|]. unfold MEMORY_32BIT_LIMIT. split; [lia|].
       exists i. fold ea es. split; [lia|]. split; [lia|lia]. }
  all: apply Hnext.
  all: assert (size <= ea + esize - ab -> (if above then addr <= ab else ab < addr) -> fits_at ab) as Hgood.
  1, 3, 5: intros Hsz Hsd; destruct Hcases as [[Hd Hr]|[-> Hlt]]; [|unfold sb in Hlt; lia];
     (split; [done|]; split; [|split; [unfold MEMORY_32BIT_LIMIT; lia|exists i; fold ea es; lia]]);
     destruct above; [done|]; revert Hr; unfold sb; case_cmp; lia.
  all: destruct above; cbn [andb negb]; destruct (Z.leb_spec size (ea + esize - ab)); cbn [andb]; try done.
  all: repeat (match goal with |- context [?x <=? ?y] => destruct (Z.leb_spec x y)
               | |- context [?x <? ?y] => destruct (Z.ltb_spec x y) end; cbn [andb]); auto.
Qed.

End Find.

Lemma FindBlockAddress_fits m mmap n addr size align above :
  word addr -> 0 < n < 4294967296 -> mmap <> MEMORY_NULL_PTR -> 1 <= size < 4294967296 -> 1 <= align < 4294967296 ->
  (above = true -> addr + size + align <= 4294967296) ->
  (forall i, 0 <= i < n -> ram_address m mmap i + ram_size m mmap i < 18446744073709551616) ->
  let r := Memory_FindBlockAddress addr above size align mmap n m in
  r <> MEMORY_32BIT_LIMIT -> fits_at m mmap n addr size align above r.
Proof.
  intros Ha Hn Hm Hs Hal Hab Hent. cbn zeta. unfold Memory_FindBlockAddress.
  rewrite (proj2 (Z.eqb_neq size 0)), (proj2 (Z.eqb_neq n 0)), (proj2 (Z.eqb_neq mmap _)) by lia.
  destruct above; cbn [andb negb orb].
  - specialize (Hab eq_refl). destruct (_ || _); [done|].
    destruct (AlignAddress_fits addr align true Ha Hal ltac:(lia)) as (Hw & Hd & Hr).
    pose proof (find_block_sound m mmap n addr size align true Hs Hal Hent (Z.to_nat n) 0
      (Memory_AlignAddress addr align true) MEMORY_32BIT_LIMIT Hw Hd) as Hf. unfold word in *.
    destruct (find_block _ _ _ _ _ _ _ _ _ _) as [r|r]; intros Hne; [apply Hf; lia || by left|].
    destruct Hf as [?|?]; lia || done || by left.
  - destruct (Z.eqb_spec addr 0); cbn [orb]; [done|]. destruct (Z.ltb_spec addr size); [done|].
    unfold word in *. rewrite (wrap32_small (addr - size)) by lia.
    destruct (AlignAddress_fits (addr - size) align false) as (Hw & Hd & Hr);
      [unfold word; lia|done|done|].
    pose proof (find_block_sound m mmap n addr size align false Hs Hal Hent (Z.to_nat n) 0
      (Memory_AlignAddress (addr - size) align false) 0 Hw Hd) as Hf. unfold word in *.
    destruct (find_block _ _ _ _ _ _ _ _ _ _) as [r|r]; [intros _; apply Hf; lia || by left|].
    destruct (Z.eqb_spec r 0) as [->|]; cbn [negb]; [done|]. intros _.
    destruct Hf as [?|?]; lia || done || by left.
Qed.


(** One megabyte of free memory from [0x100000]. *)
Definition demo_mmap : Mem :=
  store_bytes ∅ 0x9000 [0; 0; 0x10; 0; 0; 0; 0; 0; 0; 0; 0x10; 0; 0; 0; 0; 0].


(** The search above an address is not complete: the test that the
    block at the (aligned) address fits is strict, so a block that ends
    exactly where the entry ends is passed over. Asked for the upper half of
    the only free megabyte from its middle, the search finds nothing. *)
Theorem Memory_FindBlockAddress_exact_fit_missed :
  Memory_FindBlockAddress 0x180000 MEMORY_FIND_ADDRESS_ABOVE 0x80000 1 0x9000 1 demo_mmap = MEMORY_32BIT_LIMIT /\
  fits_at demo_mmap 0x9000 1 0x180000 0x80000 1 true 0x180000.
Proof.
  split; [by vm_compute|]. split; [apply Z.divide_1_l|]. split; [lia|].
  split; [unfold MEMORY_32BIT_LIMIT; lia|]. exists 0. split; [lia|].
  assert (ram_address demo_mmap 0x9000 0 = 0x100000) as -> by by vm_compute.
  assert (ram_size demo_mmap 0x9000 0 = 0x100000) as -> by by vm_compute. lia.
Qed.

(** Removing the empty entries misses the second of two in a row: the
    loop moves on after each removal, past the entry that slid into its place.
    From three usable entries of less than a page the page-aligned list still
    has an entry of size 0. *)
Theorem Memory_StoreInfo_keeps_empty :
  let e820 b := [0; b; 0; 0; 0; 0; 0; 0] ++ [0; 1; 0; 0; 0; 0; 0; 0] ++ [1; 0; 0; 0] ++ [1; 0; 0; 0] in
  let m := store_bytes ∅ 0x8000 (e820 0x12 ++ e820 0x32 ++ e820 0x52) in
  match Memory_StoreInfo 10 0x9000 true 0x8000 3 m with
  | Some (end_, m') => end_ = 0x9000 + 16 /\ ram_size m' 0x9000 0 = 0
  | None => False
  end.
Proof. by vm_compute. Qed.
