(* ===== verification/Elf.v ===== *)
(** * ELF images in the boot loader

    [bootloader/multiboot/include/elf.h] and
    [bootloader/multiboot/src/elf.c]. *)

From S2P Require Import Prelude CMem.

(** ** elf.h *)

Definition ELF_NIDENT : Z := 16.
Definition ET_NONE : Z := 0.
Definition ET_REL : Z := 1.
Definition ET_EXEC : Z := 2.
Definition ET_DYN : Z := 3.
Definition ET_CORE : Z := 4.
Definition EI_MAG0 : Z := 0.
Definition EI_MAG1 : Z := 1.
Definition EI_MAG2 : Z := 2.
Definition EI_MAG3 : Z := 3.
Definition EI_CLASS : Z := 4.
Definition EI_DATA : Z := 5.
Definition EI_VERSION : Z := 6.
Definition ELFMAG0 : Z := 0x7F.
Definition ELFMAG1 : Z := 69.
Definition ELFMAG2 : Z := 76.
Definition ELFMAG3 : Z := 70.
Definition ELFCLASS32 : Z := 1.
Definition ELFDATA2LSB : Z := 1.
Definition EM_386 : Z := 3.
Definition EV_CURRENT : Z := 1.
Definition PT_NULL : Z := 0.
Definition PT_LOAD : Z := 1.
Definition PT_DYNAMIC : Z := 2.
Definition PT_INTERP : Z := 3.
Definition SHT_NOBITS : Z := 8.
Definition SHF_ALLOC : Z := 2.

(** Members of [Elf32_Ehdr] at [h]. *)
Definition SIZEOF_EHDR : Z := 52.
Definition e_ident (m : Mem) (h i : Z) : Z := load8 m (h + i).
Definition e_type (m : Mem) (h : Z) : Z := load16 m (h + 16).
Definition e_machine (m : Mem) (h : Z) : Z := load16 m (h + 18).
Definition e_version (m : Mem) (h : Z) : Z := load32 m (h + 20).
Definition e_phoff (m : Mem) (h : Z) : Z := load32 m (h + 28).
Definition e_shoff (m : Mem) (h : Z) : Z := load32 m (h + 32).
Definition e_ehsize (m : Mem) (h : Z) : Z := load16 m (h + 40).
Definition e_phentsize (m : Mem) (h : Z) : Z := load16 m (h + 42).
Definition e_phnum (m : Mem) (h : Z) : Z := load16 m (h + 44).
Definition e_shentsize (m : Mem) (h : Z) : Z := load16 m (h + 46).
Definition e_shnum (m : Mem) (h : Z) : Z := load16 m (h + 48).
Definition e_shstrndx (m : Mem) (h : Z) : Z := load16 m (h + 50).

(** Members of entry [i] of the program headers at [p]. *)
Definition SIZEOF_PHDR : Z := 32.
Definition p_type (m : Mem) (p i : Z) : Z := load32 m (p + 32 * i).
Definition p_offset (m : Mem) (p i : Z) : Z := load32 m (p + 32 * i + 4).
Definition p_filesz (m : Mem) (p i : Z) : Z := load32 m (p + 32 * i + 16).
Definition p_memsz (m : Mem) (p i : Z) : Z := load32 m (p + 32 * i + 20).

(** Members of entry [i] of the section headers at [p]. *)
Definition sh_type (m : Mem) (p i : Z) : Z := load32 m (p + 40 * i + 4).
Definition sh_flags (m : Mem) (p i : Z) : Z := load32 m (p + 40 * i + 8).
Definition sh_size (m : Mem) (p i : Z) : Z := load32 m (p + 40 * i + 20).

(** ** elf.c *)

Definition Elf32_IsValidELF (m : Mem) (image : Z) : bool :=
  if negb (e_ident m image EI_MAG0 =? ELFMAG0) || negb (e_ident m image EI_MAG1 =? ELFMAG1) ||
     negb (e_ident m image EI_MAG2 =? ELFMAG2) || negb (e_ident m image EI_MAG3 =? ELFMAG3) then false
  else if negb (e_ident m image EI_CLASS =? ELFCLASS32) then false
  else if negb (e_ident m image EI_DATA =? ELFDATA2LSB) then false
  else if negb (e_ident m image EI_VERSION =? EV_CURRENT) || negb (e_version m image =? EV_CURRENT) then false
  else if negb (e_machine m image =? EM_386) then false
  else if negb (e_ehsize m image =? SIZEOF_EHDR) then false
  else true.

Definition Elf32_IsValidExecutable (m : Mem) (image : Z) : bool :=
  if negb (Elf32_IsValidELF m image) then false
  else if negb (e_type m image =? ET_EXEC) then false
  else if negb (e_phentsize m image =? SIZEOF_PHDR) then false
  else if e_phnum m image =? 0 then false
  else true.

Definition phdrs (m : Mem) (image : Z) : Z := image ⊕ e_phoff m image.
Definition shdrs (m : Mem) (image : Z) : Z := image ⊕ e_shoff m image.

Fixpoint static_scan (n : nat) (m : Mem) (phdr i : Z) : bool :=
  match n with
  | O => true
  | S n' =>
      if (p_type m phdr i =? PT_DYNAMIC) || (p_type m phdr i =? PT_INTERP) then false
      else static_scan n' m phdr (i + 1)
  end.

Definition Elf32_IsValidiStaticExecutable (m : Mem) (image : Z) : bool :=
  if negb (Elf32_IsValidExecutable m image) then false
  else static_scan (Z.to_nat (e_phnum m image)) m (phdrs m image) 0.

Fixpoint load_size_loop (n : nat) (m : Mem) (phdr i load_size : Z) : Z :=
  match n with
  | O => load_size
  | S n' =>
      load_size_loop n' m phdr (i + 1)
        (if p_type m phdr i =? PT_LOAD then load_size ⊕ p_memsz m phdr i else load_size)
  end.

Definition Elf32_StaticExecutableLoadSize (m : Mem) (image : Z) : Z :=
  if negb (Elf32_IsValidiStaticExecutable m image) then 0
  else load_size_loop (Z.to_nat (e_phnum m image)) m (phdrs m image) 0 0.

(** The loop of [Elf32_LoadStaticExecutable]; the headers are read again from
    memory at every turn. *)
Fixpoint load_segments (n : nat) (image phdr i p_mem_addr load_size : Z) (m : Mem) : Z * Mem :=
  match n with
  | O => (load_size, m)
  | S n' =>
      if negb (p_type m phdr i =? PT_LOAD) then
        load_segments n' image phdr (i + 1) p_mem_addr load_size m
      else
        let p_img_addr := image ⊕ p_offset m phdr i in
        let p_img_size := p_filesz m phdr i in
        let p_pad_size := p_memsz m phdr i ⊖ p_filesz m phdr i in
        let m := memmove m p_mem_addr p_img_addr p_img_size in
        let p_mem_addr := p_mem_addr ⊕ p_img_size in
        let m := memset m p_mem_addr 0 p_pad_size in
        let p_mem_addr := p_mem_addr ⊕ p_pad_size in
        load_segments n' image phdr (i + 1) p_mem_addr (load_size ⊕ (p_img_size ⊕ p_pad_size)) m
  end.

Definition Elf32_LoadStaticExecutable (image start_addr : Z) (m : Mem) : Z * Mem :=
  if negb (Elf32_IsValidiStaticExecutable m image) then (0, m)
  else load_segments (Z.to_nat (e_phnum m image)) image (phdrs m image) 0 start_addr 0 m.

Definition Elf32_LoadSectionHeaderTable (image start_addr : Z) (load_extra : bool) (m : Mem) : Z * Mem :=
  let shdr := shdrs m image in
  let retval := if load_extra then 8 else 0 in
  if Elf32_IsValidELF m image then
    let m := if load_extra then
               let m := store16 m start_addr (e_shnum m image) in
               let m := store16 m (start_addr + 2) (e_shentsize m image) in
               let m := store16 m (start_addr + 4) (e_shstrndx m image) in
               store16 m (start_addr + 6) 0
             else m in
    let bytes := e_shnum m image ⊗ e_shentsize m image in
    let m := memmove m (retval ⊕ start_addr) shdr bytes in
    (retval ⊕ (e_shnum m image ⊗ e_shentsize m image), m)
  else (retval, m).

Definition is_bss (m : Mem) (shdr i : Z) : bool :=
  (sh_type m shdr i =? SHT_NOBITS) && negb (Z.land (sh_flags m shdr i) SHF_ALLOC =? 0) &&
  (0 <? sh_size m shdr i).

Fixpoint bss_sections (n : nat) (m : Mem) (shdr i bss_size : Z) : Z :=
  match n with
  | O => bss_size
  | S n' => bss_sections n' m shdr (i + 1)
              (if is_bss m shdr i then bss_size ⊕ sh_size m shdr i else bss_size)
  end.
Fixpoint bss_segments (n : nat) (m : Mem) (phdr i bss_size : Z) : Z :=
  match n with
  | O => bss_size
  | S n' => bss_segments n' m phdr (i + 1)
              (if negb (p_type m phdr i =? PT_LOAD) then bss_size
               else if negb (p_filesz m phdr i =? 0) then bss_size
               else bss_size ⊕ p_memsz m phdr i)
  end.

Definition Elf32_SizeBSSLikeSections (m : Mem) (image : Z) : Z :=
  if negb (Elf32_IsValidELF m image) then 0
  else if 0 <? e_shnum m image then
    bss_sections (Z.to_nat (e_shnum m image)) m (shdrs m image) 0 0
  else bss_segments (Z.to_nat (e_phnum m image)) m (phdrs m image) 0 0.

Fixpoint load_bss (n : nat) (shdr i mem bss_size : Z) (m : Mem) : Z * Mem :=
  match n with
  | O => (bss_size, m)
  | S n' =>
      if is_bss m shdr i then
        let sz := sh_size m shdr i in
        load_bss n' shdr (i + 1) (mem ⊕ sz) (bss_size ⊕ sz) (memset m mem 0 sz)
      else load_bss n' shdr (i + 1) mem bss_size m
  end.

Definition Elf32_LoadBSSLikeSections (image start_addr : Z) (m : Mem) : Z * Mem :=
  if negb (Elf32_IsValidELF m image) then (0, m)
  else load_bss (Z.to_nat (e_shnum m image)) (shdrs m image) 0 start_addr 0 m.

(** ** Loading *)

(** What memory [m'] must hold from [dst] on for the loadable segments among
    the program headers [i], ..., [i + n - 1] of the image in [m]. *)
Fixpoint segments_at (n : nat) (m m' : Mem) (image phdr i dst : Z) : Prop :=
  match n with
  | O => True
  | S n' =>
      if p_type m phdr i =? PT_LOAD then
        (forall j, 0 <= j < p_filesz m phdr i ->
           load8 m' (dst + j) = load8 m (image + p_offset m phdr i + j)) /\
        (forall j, p_filesz m phdr i <= j < p_memsz m phdr i -> load8 m' (dst + j) = 0) /\
        segments_at n' m m' image phdr (i + 1) (dst + p_memsz m phdr i)
      else segments_at n' m m' image phdr (i + 1) dst
  end.

(** The number of bytes they take, without wrapping. *)
Fixpoint total_size (n : nat) (m : Mem) (phdr i : Z) : Z :=
  match n with
  | O => 0
  | S n' => (if p_type m phdr i =? PT_LOAD then p_memsz m phdr i else 0) + total_size n' m phdr (i + 1)
  end.

Lemma total_size_nonneg n m phdr i : 0 <= total_size n m phdr i.
Proof.
  revert i. induction n as [|n IH]; intros i; cbn [total_size]; [lia|].
  specialize (IH (i + 1)). pose proof (load32_range m (phdr + 32 * i + 20)). unfold p_memsz in *.
  case_cmp; lia.
Qed.

Lemma load_size_loop_total n m phdr i acc :
  0 <= acc -> acc + total_size n m phdr i < 4294967296 ->
  load_size_loop n m phdr i acc = acc + total_size n m phdr i.
Proof.
  revert i acc. induction n as [|n IH]; intros i acc Ha Ht; cbn [load_size_loop total_size] in *; [lia|].
  pose proof (total_size_nonneg n m phdr (i + 1)).
  pose proof (load32_range m (phdr + 32 * i + 20)) as Hr. unfold p_memsz in *.
  case_cmp; [rewrite wrap32_small by lia|]; rewrite IH; lia.
Qed.

(** The image as the loop sees it: its headers and segments lie in
    [lo, hi), and every segment's file part fits in its memory part. *)
Definition segment_ok (m : Mem) (image phdr lo hi i : Z) : Prop :=
  lo <= phdr + 32 * i /\ phdr + 32 * i + 32 <= hi /\
  (p_type m phdr i = PT_LOAD ->
     p_filesz m phdr i <= p_memsz m phdr i /\ lo <= image + p_offset m phdr i /\
     image + p_offset m phdr i + p_filesz m phdr i <= hi).

Definition agree (lo hi : Z) (m m' : Mem) : Prop := forall a, lo <= a < hi -> load8 m' a = load8 m a.

Lemma agree_load k lo hi m m' a :
  agree lo hi m m' -> lo <= a -> a + Z.of_nat k <= hi -> load k m' a = load k m a.
Proof. intros H H1 H2. apply load_ext. intros i Hi. apply H. lia. Qed.

Lemma agree_phdr lo hi m m' phdr i :
  agree lo hi m m' -> lo <= phdr + 32 * i -> phdr + 32 * i + 32 <= hi ->
  p_type m' phdr i = p_type m phdr i /\ p_offset m' phdr i = p_offset m phdr i /\
  p_filesz m' phdr i = p_filesz m phdr i /\ p_memsz m' phdr i = p_memsz m phdr i.
Proof.
  intros H H1 H2. unfold p_type, p_offset, p_filesz, p_memsz.
  repeat split; apply (agree_load 4 lo hi); done || lia.
Qed.

Lemma segments_at_ext n m m' m'' image phdr i dst hi :
  (forall k, 0 <= k < Z.of_nat n -> p_type m phdr (i + k) = PT_LOAD ->
     p_filesz m phdr (i + k) <= p_memsz m phdr (i + k)) ->
  dst + total_size n m phdr i <= hi -> (forall a, dst <= a < hi -> load8 m'' a = load8 m' a) ->
  segments_at n m m' image phdr i dst -> segments_at n m m'' image phdr i dst.
Proof.
  revert i dst. induction n as [|n IH]; intros i dst Hle Ht Heq; cbn [segments_at total_size] in *; [done|].
  pose proof (total_size_nonneg n m phdr (i + 1)).
  assert (forall k, 0 <= k < Z.of_nat n -> p_type m phdr (i + 1 + k) = PT_LOAD ->
     p_filesz m phdr (i + 1 + k) <= p_memsz m phdr (i + 1 + k)) as Hle'.
  { intros k Hk. rewrite <- Z.add_assoc. apply Hle. lia. }
  specialize (Hle 0 ltac:(lia)). rewrite Z.add_0_r in Hle.
  pose proof (load32_range m (phdr + 32 * i + 20)) as Hr. unfold p_memsz in *.
  pose proof (load32_range m (phdr + 32 * i + 16)) as Hr'. unfold p_filesz in *.
  destruct (Z.eqb_spec (p_type m phdr i) PT_LOAD) as [E|E].
  - specialize (Hle E). intros (H1 & H2 & H3). split; [|split].
    + intros j Hj. rewrite Heq by lia. by apply H1.
    + intros j Hj. rewrite Heq by lia. by apply H2.
    + apply IH; [done|lia| |done]. intros a Ha. apply Heq. lia.
  - apply IH; [done|lia|done].
Qed.

Lemma load_segments_spec n m0 m image phdr i dst acc lo hi :
  0 <= lo -> hi < 4294967296 -> 0 <= image < 4294967296 ->
  (forall k, 0 <= k < Z.of_nat n -> segment_ok m0 image phdr lo hi (i + k)) ->
  agree lo hi m0 m -> 0 <= dst -> dst + total_size n m0 phdr i < 4294967296 ->
  (dst + total_size n m0 phdr i <= lo \/ hi <= dst) ->
  0 <= acc -> acc + total_size n m0 phdr i < 4294967296 ->
  let '(size, m') := load_segments n image phdr i dst acc m in
  size = acc + total_size n m0 phdr i /\ segments_at n m0 m' image phdr i dst /\
  (forall a, 0 <= a < 4294967296 -> ~ (dst <= a < dst + total_size n m0 phdr i) -> load8 m' a = load8 m a).
Proof.
  intros Hlo Hhi Him. revert m i dst acc.
  induction n as [|n IH]; intros m i dst acc Hok Hag Hd Hdt Hdis Hacc Hat;
    cbn [load_segments total_size segments_at] in *; [split; [lia|done]|].
  pose proof (total_size_nonneg n m0 phdr (i + 1)) as Htn.
  assert (forall k, 0 <= k < Z.of_nat n -> segment_ok m0 image phdr lo hi (i + 1 + k)) as Hok'.
  { intros k Hk. rewrite <- Z.add_assoc. apply Hok. lia. }
  pose proof (Hok 0 ltac:(lia)) as Hok0. rewrite Z.add_0_r in Hok0.
  destruct Hok0 as (Hp1 & Hp2 & Hload). 
  destruct (agree_phdr lo hi m0 m phdr i Hag Hp1 Hp2) as (-> & -> & -> & ->).
  pose proof (load32_range m0 (phdr + 32 * i + 20)) as Hr. change (load32 m0 _) with (p_memsz m0 phdr i) in Hr.
  pose proof (load32_range m0 (phdr + 32 * i + 16)) as Hr'. change (load32 m0 _) with (p_filesz m0 phdr i) in Hr'.
  pose proof (load32_range m0 (phdr + 32 * i + 4)) as Ho. change (load32 m0 _) with (p_offset m0 phdr i) in Ho.
  destruct (Z.eqb_spec (p_type m0 phdr i) PT_LOAD) as [E|E]; cbn [negb].
  - destruct (Hload E) as (Hfm & Ho1 & Ho2).
    set (fs := p_filesz m0 phdr i) in *. set (ms := p_memsz m0 phdr i) in *.
    set (src := image + p_offset m0 phdr i) in *.
    rewrite (wrap32_small src), (wrap32_small (ms - fs)), (wrap32_small (dst + fs)) by lia.
    rewrite (wrap32_small (fs + (ms - fs))), (wrap32_small (dst + fs + (ms - fs))), (wrap32_small (acc + _)) by lia.
    replace (dst + fs + (ms - fs)) with (dst + ms) by lia. replace (fs + (ms - fs)) with ms by lia.
    set (m1 := memset (memmove m dst src fs) (dst + fs) 0 (ms - fs)).
    assert (forall a, 0 <= a < 4294967296 -> load8 m1 a =
      if decide (dst <= a < dst + fs) then load8 m (src + (a - dst))
      else if decide (dst + fs <= a < dst + ms) then 0 else load8 m a) as Hm1.
    { intros a Ha. unfold m1. rewrite load8_memset by lia. rewrite load8_memmove by lia.
      repeat case_decide; repeat (match goal with |- context [?x <=? ?y] => destruct (Z.leb_spec x y)
        | |- context [?x <? ?y] => destruct (Z.ltb_spec x y) end; cbn [andb]); lia || done. }
    assert (agree lo hi m0 m1) as Hag1.
    { intros a Ha. rewrite Hm1 by lia. rewrite !decide_False by lia. by apply Hag. }
    specialize (IH m1 (i + 1) (dst + ms) (acc + ms) Hok' Hag1 ltac:(lia) ltac:(lia) ltac:(lia) ltac:(lia) ltac:(lia)).
    destruct (load_segments n image phdr (i + 1) (dst + ms) (acc + ms) m1) as [size m'].
    destruct IH as (-> & Hseg & Hout). split; [lia|]. split.
    + split; [|split; [|done]].
      * intros j Hj. rewrite Hout by lia. rewrite Hm1 by lia. rewrite decide_True by lia.
        replace (src + (dst + j - dst)) with (src + j) by lia. apply Hag. lia.
      * intros j Hj. rewrite Hout by lia. rewrite Hm1 by lia.
        rewrite decide_False, decide_True by lia. done.
    + intros a Ha Hna. rewrite Hout by lia. rewrite Hm1 by lia. by rewrite !decide_False by lia.
  - specialize (IH m (i + 1) dst acc Hok' Hag Hd ltac:(lia) ltac:(lia) Hacc ltac:(lia)).
    destruct (load_segments n image phdr (i + 1) dst acc m) as [size m']. exact IH.
Qed.


(** A small image: one loadable segment of 4 file bytes and 8 memory bytes. *)
Definition demo_elf : Mem :=
  store_bytes ∅ 0x1000 (
    [0x7F; 69; 76; 70; 1; 1; 1; 0; 0; 0; 0; 0; 0; 0; 0; 0] ++
    [2; 0; 3; 0; 1; 0; 0; 0; 0; 0; 0; 0; 52; 0; 0; 0; 0; 0; 0; 0; 0; 0; 0; 0] ++
    [52; 0; 32; 0; 1; 0; 0; 0; 0; 0; 0; 0] ++
    [1; 0; 0; 0; 84; 0; 0; 0; 0; 0; 0; 0; 0; 0; 0; 0; 4; 0; 0; 0; 8; 0; 0; 0; 0; 0; 0; 0; 0; 0; 0; 0] ++
    [11; 12; 13; 14]).

