(* ===== verification/BootConsole.v ===== *)
(** * The console of the boot loader

    [bootloader/multiboot/include/console.h] and
    [bootloader/multiboot/src/console.c]: text is written at a line and a
    column given by the caller, the cursor goes through the ports of the
    display controller, and keys are asked from the BIOS. A string that every
    caller gives as a literal is the list of its characters before the
    terminating zero. *)

From S2P Require Import Prelude CMem Ports Bios.

(** ** console.h *)

Definition CONSOLE_VGA_TEXT_BUFFER : Z := 0xB8000.
Definition CONSOLE_VGA_NUM_LINES : Z := 25.
Definition CONSOLE_VGA_NUM_COLUMNS : Z := 80.
Definition CONSOLE_KEY_ENTER : Z := 0x0D.
Definition CONSOLE_KEY_SPACE : Z := 0x20.
Definition CONSOLE_COLOR_BLACK : Z := 0.
Definition CONSOLE_COLOR_RED : Z := 4.
Definition CONSOLE_COLOR_LIGHT_BLUE : Z := 9.
Definition CONSOLE_COLOR_WHITE : Z := 0xF.

(** [Console_Screen[pos]]: the index is a [uint32_t]. *)
Definition Console_Screen : Z := CONSOLE_VGA_TEXT_BUFFER.
Definition screen_cell (pos : Z) : Z := wrap32 (Console_Screen + 2 * wrap32 pos).
Definition put_cell (pos v : Z) (m : Mem) : Mem := store16 m (screen_cell pos) v.

Definition Console_Attribute (fore back : Z) : Z :=
  wrap16 (Z.shiftl (Z.land fore 0x0F + Z.shiftl (Z.land back 0x0F) 4) 8).

(** Construct a cell; the character is a signed [char] that is widened before
    the [|], and the sum is cut to 16 bits by the assignment. *)
Definition glyph (color c : Z) : Z := wrap16 (Z.lor color (signed8 c)).

(** ** Drawing *)

(** The [for] loops over cells: [n] left, at cell [i]. *)
Fixpoint fill_cells (n : nat) (i v : Z) (m : Mem) : Mem :=
  match n with
  | O => m
  | S n' => fill_cells n' (i + 1) v (put_cell i v m)
  end.

Definition Console_ClearScreen (m : Mem) : Mem :=
  fill_cells (Z.to_nat (CONSOLE_VGA_NUM_COLUMNS * CONSOLE_VGA_NUM_LINES)) 0
    (Console_Attribute CONSOLE_COLOR_WHITE CONSOLE_COLOR_BLACK) m.

Definition Console_PrintChar (c line column fore back : Z) (m : Mem) : Mem :=
  let pos := line * CONSOLE_VGA_NUM_COLUMNS + column in
  put_cell pos (glyph (Console_Attribute fore back) c) m.

Fixpoint print_chars_loop (n : nat) (string pos i color : Z) (m : Mem) : Mem :=
  match n with
  | O => m
  | S n' => print_chars_loop n' string pos (i + 1) color
              (put_cell (pos + i) (glyph color (load8 m (string + i))) m)
  end.
Definition Console_PrintChars (string num line column fore back : Z) (m : Mem) : Mem :=
  let pos := line * CONSOLE_VGA_NUM_COLUMNS + column in
  print_chars_loop (Z.to_nat num) string pos 0 (Console_Attribute fore back) m.

Fixpoint print_string_loop (string : list Z) (pos i color : Z) (m : Mem) : Mem :=
  match string with
  | [] => m
  | c :: cs => print_string_loop cs pos (i + 1) color (put_cell (pos + i) (glyph color c) m)
  end.
Definition Console_PrintString (string : list Z) (line column fore back : Z) (m : Mem) : Mem :=
  let pos := line * CONSOLE_VGA_NUM_COLUMNS + column in
  print_string_loop string pos 0 (Console_Attribute fore back) m.

Definition digits (d : Z) : Z := if d <? 10 then 48 + d else 55 + d.

(** The [for] over the divisors, which ends because the divisor reaches 0. *)
Fixpoint print_digits (fuel : nat) (num divisor base pos color : Z) (start_printing : bool) (m : Mem) : Mem :=
  match fuel with
  | O => m
  | S f =>
      if 0 <? divisor then
        let start_printing := if negb start_printing && (0 <? num / divisor) then true else start_printing in
        let '(pos, m) :=
          if start_printing then (pos + 1, put_cell pos (glyph color (digits (num / divisor))) m)
          else (pos, m) in
        let num := num mod divisor in
        print_digits f num (divisor / base) base pos color start_printing m
      else m
  end.

Definition Console_PrintNum (num : Z) (hex : bool) (line column fore back : Z) (m : Mem) : Mem :=
  let pos := line * CONSOLE_VGA_NUM_COLUMNS + column in
  let color := Console_Attribute fore back in
  let '(pos, m) :=
    if hex then (pos + 2, put_cell (pos + 1) (glyph color 120) (put_cell pos (glyph color 48) m))
    else (pos, m) in
  let '(pos, m) :=
    if num =? 0 then (pos + 1, put_cell pos (glyph color 48) m) else (pos, m) in
  print_digits 11 num (if hex then 0x10000000 else 1000000000) (if hex then 0x10 else 10) pos color false m.

(** ** The cursor, the banner and the command line *)

Section BootConsole.
Context {W : Type} `{!PortIO W}.
Variable BIOS_Interrupt : Z -> BIOS_Registers -> Boot W -> BIOS_Registers * Boot W.

Definition out (port value : Z) (s : Boot W) : Boot W :=
  mkBoot (bmem s) (Outb port (wrap8 value) (world s)).

(** [Outb(port, (Inb(port) & mask) | bits)]. *)
Definition out_masked (port mask bits : Z) (s : Boot W) : Boot W :=
  let '(v, w) := Inb port (world s) in
  out port (Z.lor (Z.land v mask) bits) (mkBoot (bmem s) w).

Definition Console_MakeCursorInvisible (s : Boot W) : Boot W :=
  out 0x3D5 0x20 (out 0x3D4 0x0A s).

Definition Console_MakeCursorVisible (s : Boot W) : Boot W :=
  let s := out 0x3D4 0x0A s in
  let s := out_masked 0x3D5 0xC0 0xE s in
  let s := out 0x3D4 0x0B s in
  out_masked 0x3D5 0xE0 0xF s.

Definition Console_SetCursorPosition (line column : Z) (s : Boot W) : Boot W :=
  let pos := wrap16 (line * CONSOLE_VGA_NUM_COLUMNS + column) in
  let s := out 0x3D4 0x0F s in
  let s := out 0x3D5 (Z.land pos 0xFF) s in
  let s := out 0x3D4 0x0E s in
  out 0x3D5 (Z.land (Z.shiftr pos 8) 0xFF) s.

(** "AVOS Boot loader" *)
Definition boot_banner : list Z :=
  [65; 86; 79; 83; 32; 66; 111; 111; 116; 32; 108; 111; 97; 100; 101; 114].

Fixpoint banner_loop (string : list Z) (i color : Z) (m : Mem) : Mem :=
  match string with
  | [] => m
  | c :: cs => banner_loop cs (i + 1) color (put_cell (32 + i) (wrap16 (color + signed8 c)) m)
  end.

Definition Console_PrintBanner (s : Boot W) : Boot W :=
  let color := Console_Attribute CONSOLE_COLOR_WHITE CONSOLE_COLOR_LIGHT_BLUE in
  let s := on_mem Console_ClearScreen s in
  let s := on_mem (fill_cells (Z.to_nat CONSOLE_VGA_NUM_COLUMNS) 0 color) s in
  let s := on_mem (banner_loop boot_banner 0 color) s in
  Console_MakeCursorInvisible s.

Definition Console_PrintAndReturn (string : list Z) (retval : bool) (s : Boot W) : bool * Boot W :=
  (retval, on_mem (Console_PrintString string 23 0 CONSOLE_COLOR_RED CONSOLE_COLOR_BLACK) s).

Definition al (r : BIOS_Registers) : Z := low8 (eax r).

Definition Console_ReadChar (s : Boot W) : Z * Boot W :=
  let '(r, s) := BIOS_Interrupt 0x16 BIOS_ClearRegistry s in
  if carry r then (0, s) else (al r, s).

(** "[BOOT:]" *)
Definition boot_prompt : list Z := [91; 66; 79; 79; 84; 58; 93].
(** "Command line buffer full. Press enter to continue" *)
Definition buffer_full : list Z :=
  [67; 111; 109; 109; 97; 110; 100; 32; 108; 105; 110; 101; 32; 98; 117; 102; 102; 101; 114; 32;
   102; 117; 108; 108; 46; 32; 80; 114; 101; 115; 115; 32; 101; 110; 116; 101; 114; 32; 116; 111;
   32; 99; 111; 110; 116; 105; 110; 117; 101].

(** [while (Console_ReadChar() != CONSOLE_KEY_ENTER) {}] *)
Fixpoint wait_enter (fuel : nat) (s : Boot W) : option (Boot W) :=
  match fuel with
  | O => None
  | S f =>
      let '(c, s) := Console_ReadChar s in
      if signed8 c =? CONSOLE_KEY_ENTER then Some s else wait_enter f s
  end.

(** One turn of the [while (true)]: what it does with the character [c]. *)
Inductive turn : Type :=
  | Again (line column pos : Z) (s : Boot W)        (* falls through to the next turn, or [continue] *)
  | Break (pos : Z) (s : Boot W)                    (* enter: terminate the buffer *)
  | Full (pos : Z) (s : Boot W).                    (* the buffer is full *)

Definition read_turn (buffer start_line start_column end_line end_column line column pos c : Z) (s : Boot W)
  : turn :=
  let c := signed8 c in
  let printable := (CONSOLE_KEY_SPACE <=? c) && (c <? 0x7F) in
  let s := if printable then
             on_mem (Console_PrintChar c line column CONSOLE_COLOR_WHITE CONSOLE_COLOR_BLACK) s else s in
  let '(line, column) :=
    if printable then
      if column =? CONSOLE_VGA_NUM_COLUMNS - 1 then (wrap8 (line + 1), 0) else (line, wrap8 (column + 1))
    else (line, column) in
  let '(pos, s) :=
    if printable then (pos ⊕ 1, on_mem (fun m => store8 m (buffer ⊕ pos) c) s) else (pos, s) in
  if (c =? 8) && (line =? start_line) && (column =? start_column) then Again line column pos s
  else
    let '(line, column) :=
      if c =? 8 then
        if column =? 0 then (wrap8 (line - 1), CONSOLE_VGA_NUM_COLUMNS - 1) else (line, wrap8 (column - 1))
      else (line, column) in
    let '(pos, s) :=
      if c =? 8 then
        (pos ⊖ 1, on_mem (Console_PrintChar 32 line column CONSOLE_COLOR_WHITE CONSOLE_COLOR_BLACK) s)
      else (pos, s) in
    if c =? CONSOLE_KEY_ENTER then Break pos s
    else if (line =? end_line) && (column =? end_column) then Full pos s
    else Again line column pos s.

Fixpoint read_loop (fuel : nat) (buffer start_line start_column end_line end_column line column pos : Z)
  (s : Boot W) : option (Boot W) :=
  match fuel with
  | O => None
  | S f =>
      let s := Console_SetCursorPosition line column s in
      let '(c, s) := Console_ReadChar s in
      match read_turn buffer start_line start_column end_line end_column line column pos c s with
      | Again line column pos s =>
          read_loop f buffer start_line start_column end_line end_column line column pos s
      | Break pos s => Some (on_mem (fun m => store8 m (buffer ⊕ pos) 0) s)
      | Full pos s =>
          let s := on_mem (Console_PrintString buffer_full 23 0 CONSOLE_COLOR_WHITE CONSOLE_COLOR_BLACK) s in
          s ← wait_enter fuel s;
          Some (on_mem (fun m => store8 m (buffer ⊕ pos) 0) s)
      end
  end.

Definition Console_ReadCommand (fuel : nat) (buffer : Z) (s : Boot W) : option (Boot W) :=
  let line := 2 in
  let column := 0 in
  let s := Console_MakeCursorVisible s in
  let s := on_mem (Console_PrintString boot_prompt line column CONSOLE_COLOR_WHITE CONSOLE_COLOR_BLACK) s in
  let start_line := line in
  let column := wrap8 (column + 7) in
  let start_column := column in
  let pos := line * CONSOLE_VGA_NUM_COLUMNS + column + 0x3FF in
  let end_line := wrap8 (pos / CONSOLE_VGA_NUM_COLUMNS) in
  let end_column := wrap8 (pos mod CONSOLE_VGA_NUM_COLUMNS) in
  read_loop fuel buffer start_line start_column end_line end_column line column 0 s.

End BootConsole.
