(* ===== verification/BootConsoleSpec.v ===== *)
(** * The boot console: numbers and the command line

    [Console_PrintNum] writes the numeral of its argument, and
    [Console_ReadCommand] is a line editor: the buffer holds the characters
    typed less those taken back, at most 1023 of them, and the screen shows
    them. *)

From S2P Require Import Prelude Numeral CMem Ports Bios BootConsole.

(** ** Numbers *)

Definition boot_spell (num : Z) (hex : bool) : list Z :=
  (if hex then [48; 120] else []) ++ map digits (numeral 11 (if hex then 16 else 10) num).

Lemma print_digits_fixed k fuel base num pos i color m :
  1 < base -> (k < fuel)%nat -> 0 <= num < base ^ Z.of_nat (S k) ->
  print_digits fuel num (base ^ Z.of_nat k) base (pos + i) color true m
  = print_string_loop (map digits (fixed (S k) base num)) pos i color m.
Proof.
  intros Hb. revert fuel num i m. induction k as [|k IH]; intros [|fuel] num i m Hf Hn; try lia.
  - cbn [print_digits fixed map print_string_loop]. change (Z.of_nat 0) with 0.
    rewrite Z.pow_0_r. cbn [Z.ltb Z.compare negb andb]. rewrite Z.div_1_r.
    rewrite (Z.div_small 1 base) by lia. destruct fuel; reflexivity.
  - assert (0 < base ^ Z.of_nat k) as Hk by (apply Z.pow_pos_nonneg; lia).
    cbn [print_digits]. rewrite Nat2Z.inj_succ, Z.pow_succ_r by lia.
    destruct (Z.ltb_spec 0 (base * base ^ Z.of_nat k)); [|nia]. cbn [negb andb].
    rewrite (Z.mul_comm base), Z.div_mul by lia. rewrite <- Z.add_assoc.
    change (fixed (S (S k)) base num)
      with (num / base ^ Z.of_nat (S k) :: fixed (S k) base (num mod base ^ Z.of_nat (S k))).
    rewrite Nat2Z.inj_succ, Z.pow_succ_r, (Z.mul_comm base) by lia.
    cbn [map print_string_loop]. rewrite IH; [done|lia|].
    rewrite Nat2Z.inj_succ, Z.pow_succ_r by lia. rewrite (Z.mul_comm base). apply Z.mod_pos_bound. nia.
Qed.

Lemma boot_print_digits_numeral k fuel base num pos i color m :
  1 < base -> (k < fuel)%nat -> (k < 11)%nat -> 0 < num < base ^ Z.of_nat (S k) ->
  print_digits fuel num (base ^ Z.of_nat k) base (pos + i) color false m
  = print_string_loop (map digits (numeral 11 base num)) pos i color m.
Proof.
  intros Hb. revert fuel. induction k as [|k IH]; intros [|fuel] Hf H11 Hn; try lia.
  - rewrite (numeral_fixed 0), <- (print_digits_fixed 0 (S fuel)) by (lia || by right).
    cbn [print_digits]. change (Z.of_nat 0) with 0. rewrite Z.pow_0_r. cbn [Z.ltb Z.compare negb andb].
    rewrite Z.div_1_r. by destruct (Z.ltb_spec 0 num); [|lia].
  - destruct (decide (base ^ Z.of_nat (S k) <= num)) as [Hle|Hgt].
    + rewrite (numeral_fixed (S k)), <- (print_digits_fixed (S k) (S fuel)) by (lia || by left).
      cbn [print_digits]. assert (0 < base ^ Z.of_nat (S k)) by (apply Z.pow_pos_nonneg; lia).
      pose proof (Z.div_le_lower_bound num (base ^ Z.of_nat (S k)) 1 ltac:(lia) ltac:(lia)).
      destruct (Z.ltb_spec 0 (base ^ Z.of_nat (S k))); [|lia]. cbn [negb andb].
      by destruct (Z.ltb_spec 0 (num / base ^ Z.of_nat (S k))); [|lia].
    + cbn [print_digits]. assert (0 < base ^ Z.of_nat (S k)) by (apply Z.pow_pos_nonneg; lia).
      destruct (Z.ltb_spec 0 (base ^ Z.of_nat (S k))); [|lia].
      rewrite Z.div_small, Z.mod_small by lia. cbn [Z.ltb Z.compare negb andb].
      rewrite Nat2Z.inj_succ, Z.pow_succ_r, (Z.mul_comm base), Z.div_mul by lia. apply IH; lia.
Qed.

Lemma print_string_loop_app a b pos i color m :
  print_string_loop (a ++ b) pos i color m
  = print_string_loop b pos (i + Z.of_nat (length a)) color (print_string_loop a pos i color m).
Proof.
  revert i m. induction a as [|c a IH]; intros i m; cbn [app print_string_loop length].
  - by rewrite Z.add_0_r.
  - rewrite IH. f_equal. lia.
Qed.

(** The mask of a digit that is never printed. *)
Lemma print_digits_zero fuel divisor base pos color m :
  print_digits fuel 0 divisor base pos color false m = m.
Proof.
  revert divisor. induction fuel as [|f IH]; intros divisor; cbn [print_digits]; [done|].
  case_cmp; [|done]. rewrite Z.div_0_l, Z.mod_0_l by lia. cbn. apply IH.
Qed.

(** [Console_PrintNum] is the printing of the number's numeral as a string:
    in decimal, or in hexadecimal with [0x] in front, most significant digit
    first, without leading zeros. *)
Theorem boot_PrintNum_equiv num hex line column fore back m
    (Hn : 0 <= num < 4294967296) :
  Console_PrintNum num hex line column fore back m
  = Console_PrintString (boot_spell num hex) line column fore back m.
Proof.
  unfold Console_PrintNum, Console_PrintString, boot_spell. cbv zeta.
  rewrite print_string_loop_app. set (pos := line * _ + column). set (color := Console_Attribute _ _).
  assert (forall i m, (if num =? 0 then print_digits 11 num (if hex then 0x10000000 else 1000000000)
             (if hex then 0x10 else 10) (pos + i + 1) color false (put_cell (pos + i) (glyph color 48) m)
           else print_digits 11 num (if hex then 0x10000000 else 1000000000)
             (if hex then 0x10 else 10) (pos + i) color false m)
          = print_string_loop (map digits (numeral 11 (if hex then 16 else 10) num)) pos i color m) as Hd.
  { intros i m'. destruct (Z.eqb_spec num 0) as [->|Hz].
    - rewrite print_digits_zero, numeral_small by (destruct hex; lia). done.
    - destruct hex.
      + change 0x10000000 with (16 ^ Z.of_nat 7). apply boot_print_digits_numeral; lia.
      + change 1000000000 with (10 ^ Z.of_nat 9). apply boot_print_digits_numeral; lia. }
  destruct hex; cbn [length Z.of_nat print_string_loop]; rewrite <- Hd;
    destruct (num =? 0); rewrite ?Z.add_0_r, ?Z.add_0_l, <- ?Z.add_assoc; reflexivity.
Qed.
Lemma boot_PrintNum_equiv_witness :
  Console_PrintNum 0xBEEF true 3 0 15 0 ∅ = Console_PrintString [48; 120; 66; 69; 69; 70] 3 0 15 0 ∅.
Proof. apply (boot_PrintNum_equiv 0xBEEF true 3 0 15 0 ∅). lia. Defined.

(** ** The line editor *)

Definition printable (c : Z) : bool := (32 <=? c) && (c <? 127).

(** What a key other than enter does to the line typed so far. *)
Definition type_key (txt : list Z) (c : Z) : list Z :=
  if printable c then txt ++ [c] else if c =? 8 then removelast txt else txt.

Fixpoint after_enter (keys : list Z) : option (list Z) :=
  match keys with
  | [] => None
  | c :: ks => if c =? 13 then Some ks else after_enter ks
  end.

(** The line that a sequence of keys enters, and the keys left: enter ends
    the line; a line of 1023 characters is full, and waits for enter. *)
Fixpoint session (txt keys : list Z) : option (list Z * list Z) :=
  match keys with
  | [] => None
  | c :: ks =>
      if c =? 13 then Some (txt, ks)
      else
        let txt := type_key txt c in
        if Nat.eqb (length txt) 1023 then (ks ← after_enter ks; Some (txt, ks)) else session txt ks
  end.

(** The BIOS delivers the pending keys one by one ([INT 16h], [AH = 0]) and
    the display ports have nothing to do with them. *)
Record keyboard {W} `{!PortIO W} (BIOS_Interrupt : Z -> BIOS_Registers -> Boot W -> BIOS_Registers * Boot W)
  (keys : W -> list Z) : Prop := {
  key_out : forall p v w, keys (Outb p v w) = keys w;
  key_in : forall p w, keys (snd (Inb p w)) = keys w;
  key_byte : forall w, Forall (fun c => 0 <= c < 256) (keys w);
  key_next : forall s c ks, keys (world s) = c :: ks ->
    exists r w, BIOS_Interrupt 0x16 BIOS_ClearRegistry s = (r, mkBoot (bmem s) w) /\
      carry r = false /\ al r = c /\ keys w = ks
}.

(** ** Memory that shows a line *)

Definition screen_byte (a : Z) : Prop := 0xB8000 <= a < 0xB8FA0.
Definition away_from_screen (buffer : Z) : Prop :=
  0 <= buffer /\ buffer + 1024 <= 4294967296 /\ (buffer + 1024 <= 0xB8000 \/ 0xB8FA0 <= buffer).

Record line_shown (m0 m : Mem) (buffer : Z) (txt : list Z) : Prop := {
  ls_buffer : forall i c, txt !! i = Some c -> load8 m (buffer + Z.of_nat i) = c;
  ls_screen : forall i c, txt !! i = Some c -> load16 m (0xB8000 + 2 * (167 + Z.of_nat i)) = 0xF00 + c;
  ls_frame : forall a, 0 <= a < 4294967296 -> ~ screen_byte a -> ~ (buffer <= a < buffer + 1024) ->
    load8 m a = load8 m0 a
}.

Lemma screen_cell_small pos : 0 <= pos < 2000 -> screen_cell pos = 0xB8000 + 2 * pos.
Proof. intros. unfold screen_cell, Console_Screen, CONSOLE_VGA_TEXT_BUFFER. by rewrite (wrap32_small pos), wrap32_small by lia. Qed.

Lemma load8_put_cell m pos v a :
  0 <= pos < 2000 -> 0 <= a < 4294967296 -> ~ screen_byte a -> load8 (put_cell pos v m) a = load8 m a.
Proof.
  unfold screen_byte, put_cell. intros. rewrite screen_cell_small by done. apply load8_store_ne; lia.
Qed.

Lemma load16_put_cell m pos v i :
  0 <= pos < 2000 -> 0 <= i < 2000 ->
  load16 (put_cell pos v m) (0xB8000 + 2 * i) = if pos =? i then wrap16 v else load16 m (0xB8000 + 2 * i).
Proof.
  unfold put_cell. intros. rewrite screen_cell_small by done. case_cmp.
  - subst. apply load_store_eq; lia.
  - apply load_store_ne; lia.
Qed.

Lemma attribute_white : Console_Attribute CONSOLE_COLOR_WHITE CONSOLE_COLOR_BLACK = 0xF00.
Proof. reflexivity. Qed.

Lemma glyph_ascii c : 0 <= c < 128 -> glyph 0xF00 c = 0xF00 + c.
Proof.
  intros. unfold glyph, signed8. rewrite wrap8_small by lia. case_cmp; [|lia].
  change 0xF00 with (2 ^ 8 * 15). rewrite (lor_aligned 8) by (try done; try lia; apply Z.divide_factor_l).
  apply wrap16_small. lia.
Qed.

(** A character typed at the end of the line. *)
Lemma line_shown_type m0 m buffer txt c :
  line_shown m0 m buffer txt -> away_from_screen buffer -> 32 <= c < 127 -> (length txt < 1023)%nat ->
  let n := Z.of_nat (length txt) in
  line_shown m0 (store8 (put_cell (167 + n) (glyph 0xF00 c) m) (buffer + n) c) buffer (txt ++ [c]).
Proof.
  intros [Hb Hs Hf] (B0 & B1 & B2) Hc Hl n. rewrite glyph_ascii by lia.
  split.
  - intros i d Hi. assert (i < length (txt ++ [c]))%nat as Hlt by (by apply lookup_lt_Some in Hi).
    rewrite length_app in Hlt. cbn in Hlt. rewrite load8_store8_in by lia.
    destruct (Z.eqb_spec (buffer + n) (buffer + Z.of_nat i)).
    + rewrite lookup_app_r in Hi by lia. replace (i - length txt)%nat with 0%nat in Hi by lia.
      injection Hi as <-. apply wrap8_small. lia.
    + rewrite lookup_app_l in Hi by lia. rewrite load8_put_cell; [by apply Hb|lia|lia|unfold screen_byte; lia].
  - intros i d Hi. assert (i < length (txt ++ [c]))%nat as Hlt by (by apply lookup_lt_Some in Hi).
    rewrite length_app in Hlt. cbn in Hlt.
    transitivity (load16 (put_cell (167 + n) (0xF00 + c) m) (0xB8000 + 2 * (167 + Z.of_nat i))).
    { apply load_ext. intros j Hj. rewrite load8_store8_in by lia.
      destruct (Z.eqb_spec (buffer + n) (0xB8000 + 2 * (167 + Z.of_nat i) + j)); [lia|done]. }
    rewrite load16_put_cell by lia. destruct (Z.eqb_spec (167 + n) (167 + Z.of_nat i)).
    + rewrite lookup_app_r in Hi by lia. replace (i - length txt)%nat with 0%nat in Hi by lia.
      injection Hi as <-. apply wrap16_small. lia.
    + rewrite lookup_app_l in Hi by lia. by apply Hs.
  - intros a Ha Hsc Hbuf. rewrite load8_store8_in by lia.
    destruct (Z.eqb_spec (buffer + n) a); [lia|]. rewrite load8_put_cell by (done || lia). by apply Hf.
Qed.

(** The last character taken back: a space is drawn over it. *)
Lemma line_shown_erase m0 m buffer txt :
  line_shown m0 m buffer txt -> away_from_screen buffer -> (0 < length txt < 1023)%nat ->
  line_shown m0 (put_cell (167 + Z.of_nat (length txt) - 1) (glyph 0xF00 32) m) buffer (removelast txt).
Proof.
  intros [Hb Hs Hf] (B0 & B1 & B2) Hl.
  assert (exists l x, txt = l ++ [x]) as (l & x & ->).
  { destruct txt as [|y t]; [cbn in Hl; lia|]. destruct (exists_last (l := y :: t)) as (l & x & E); [done|eauto]. }
  rewrite removelast_last, length_app in *. cbn [length] in *.
  split.
  - intros i d Hi. pose proof (lookup_lt_Some _ _ _ Hi).
    rewrite load8_put_cell; [|lia|lia|unfold screen_byte; lia]. apply Hb. by apply lookup_app_l_Some.
  - intros i d Hi. pose proof (lookup_lt_Some _ _ _ Hi). rewrite load16_put_cell by lia.
    destruct (Z.eqb_spec (167 + Z.of_nat (length l + 1) - 1) (167 + Z.of_nat i)); [lia|].
    apply Hs. by apply lookup_app_l_Some.
  - intros a Ha Hsc Hbuf. rewrite load8_put_cell by (done || lia). by apply Hf.
Qed.

(** Drawing at the right cells of the screen keeps a line shown. *)
Lemma line_shown_string m0 m buffer txt str pos i color :
  line_shown m0 m buffer txt -> away_from_screen buffer -> (length txt <= 1023)%nat ->
  0 <= pos + i -> (pos + i + Z.of_nat (length str) <= 167 \/ 1190 <= pos + i) ->
  pos + i + Z.of_nat (length str) <= 2000 ->
  line_shown m0 (print_string_loop str pos i color m) buffer txt.
Proof.
  intros Hsh (B0 & B1 & B2) Hl. revert i m Hsh.
  induction str as [|c cs IH]; intros i m Hsh Hp Hpos H2; cbn [print_string_loop length] in *; [done|].
  apply IH; try lia. destruct Hsh as [Hb Hs Hf]. split.
  - intros j d Hj. pose proof (lookup_lt_Some _ _ _ Hj).
    rewrite load8_put_cell; [by apply Hb|lia|lia|unfold screen_byte; lia].
  - intros j d Hj. pose proof (lookup_lt_Some _ _ _ Hj). rewrite load16_put_cell by lia.
    case_cmp; [lia|]. by apply Hs.
  - intros a Ha Hsc Hbuf. rewrite load8_put_cell by (done || lia). by apply Hf.
Qed.

Section ReadCommand.
Context {W : Type} `{!PortIO W}.
Variable BIOS_Interrupt : Z -> BIOS_Registers -> Boot W -> BIOS_Registers * Boot W.
Variable keys : W -> list Z.
Hypothesis KB : keyboard BIOS_Interrupt keys.
Variable buffer : Z.
Hypothesis Hbuf : away_from_screen buffer.

Lemma keys_cursor line column (s : Boot W) :
  keys (world (Console_SetCursorPosition line column s)) = keys (world s) /\
  bmem (Console_SetCursorPosition line column s) = bmem s.
Proof. unfold Console_SetCursorPosition, out. cbn. by rewrite !(key_out _ _ KB). Qed.

Lemma keys_out_masked p mk b (s : Boot W) :
  keys (world (out_masked p mk b s)) = keys (world s) /\ bmem (out_masked p mk b s) = bmem s.
Proof.
  unfold out_masked, out. pose proof (key_in _ _ KB p (world s)) as Hi.
  destruct (Inb p (world s)) as [v w]. cbn in *. by rewrite (key_out _ _ KB).
Qed.

Lemma keys_visible (s : Boot W) :
  keys (world (Console_MakeCursorVisible s)) = keys (world s) /\
  bmem (Console_MakeCursorVisible s) = bmem s.
Proof.
  unfold Console_MakeCursorVisible. cbv zeta. destruct (keys_out_masked 0x3D5 0xE0 0xF
    (out 0x3D4 0x0B (out_masked 0x3D5 0xC0 0xE (out 0x3D4 0x0A s)))) as [-> ->].
  unfold out at 1 3. cbn [world bmem]. rewrite (key_out _ _ KB).
  destruct (keys_out_masked 0x3D5 0xC0 0xE (out 0x3D4 0x0A s)) as [-> ->].
  unfold out. cbn. by rewrite (key_out _ _ KB).
Qed.

Lemma ReadChar_next (s : Boot W) c ks :
  keys (world s) = c :: ks -> exists w, Console_ReadChar BIOS_Interrupt s = (c, mkBoot (bmem s) w) /\ keys w = ks.
Proof.
  intros H. destruct (key_next _ _ KB s c ks H) as (r & w & E & Hc & Ha & Hk).
  exists w. unfold Console_ReadChar. rewrite E, Hc, Ha. done.
Qed.

Lemma wait_enter_correct fuel (s : Boot W) ks :
  after_enter (keys (world s)) = Some ks -> (length (keys (world s)) <= fuel)%nat ->
  exists w, wait_enter BIOS_Interrupt fuel s = Some (mkBoot (bmem s) w) /\ keys w = ks.
Proof.
  revert s. induction fuel as [|fuel IH]; intros s Ha Hf.
  { destruct (keys (world s)); cbn in *; [done|lia]. }
  pose proof (key_byte _ _ KB (world s)) as Hb.
  destruct (keys (world s)) as [|c cs] eqn:E; [done|]. cbn [after_enter length] in *.
  destruct (ReadChar_next s c cs E) as (w & Hr & Hk). cbn [wait_enter]. rewrite Hr.
  inversion_clear Hb. unfold signed8. rewrite wrap8_small by lia. unfold CONSOLE_KEY_ENTER.
  destruct (Z.eqb_spec c 13) as [->|Hne].
  - injection Ha as <-. exists w. by split.
  - destruct (Z.ltb_spec c 128); (case_cmp; [lia|]);
      (destruct (IH (mkBoot (bmem s) w)) as (w' & E' & Hk'); cbn; rewrite ?Hk; [done|lia|]);
      exists w'; by split.
Qed.

(** The place of the cursor when [n] characters are on the line. *)
Definition at_line (n : Z) : Z := (167 + n) / 80.
Definition at_column (n : Z) : Z := (167 + n) mod 80.

Lemma at_pos n : at_line n * CONSOLE_VGA_NUM_COLUMNS + at_column n = 167 + n.
Proof. unfold at_line, at_column, CONSOLE_VGA_NUM_COLUMNS. pose proof (Z.div_mod (167 + n) 80). lia. Qed.

Lemma at_next n : 0 <= n < 1023 ->
  (if at_column n =? CONSOLE_VGA_NUM_COLUMNS - 1 then (wrap8 (at_line n + 1), 0)
   else (at_line n, wrap8 (at_column n + 1))) = (at_line (n + 1), at_column (n + 1)).
Proof. unfold at_line, at_column, CONSOLE_VGA_NUM_COLUMNS. intros. case_cmp; f_equal; zdiv. Qed.

Lemma at_back n : 0 < n < 1023 ->
  (if at_column n =? 0 then (wrap8 (at_line n - 1), CONSOLE_VGA_NUM_COLUMNS - 1)
   else (at_line n, wrap8 (at_column n - 1))) = (at_line (n - 1), at_column (n - 1)).
Proof. unfold at_line, at_column, CONSOLE_VGA_NUM_COLUMNS. intros. case_cmp; f_equal; zdiv. Qed.

Lemma at_end n k : 0 <= n <= 1023 -> 0 <= k <= 1023 ->
  (at_line n =? at_line k) && (at_column n =? at_column k) = (n =? k).
Proof.
  unfold at_line, at_column. intros.
  destruct (Z.eqb_spec ((167 + n) / 80) ((167 + k) / 80)), (Z.eqb_spec ((167 + n) mod 80) ((167 + k) mod 80)),
    (Z.eqb_spec n k); try done; zdiv.
Qed.

(** One turn does what [type_key] says. *)
Lemma read_turn_correct m0 txt c (s : Boot W) :
  line_shown m0 (bmem s) buffer txt -> (length txt < 1023)%nat -> 0 <= c < 256 ->
  let n := Z.of_nat (length txt) in
  let r := read_turn buffer 2 7 14 70 (at_line n) (at_column n) n c s in
  if c =? 13 then r = Break n s
  else
    exists s', line_shown m0 (bmem s') buffer (type_key txt c) /\ world s' = world s /\
      let n' := Z.of_nat (length (type_key txt c)) in
      r = if n' =? 1023 then Full n' s' else Again (at_line n') (at_column n') n' s'.
Proof.
  intros Hsh Hl Hc n r. pose proof Hbuf as (B0 & B1 & B2).
  assert (14 = at_line 1023 /\ 70 = at_column 1023 /\ 2 = at_line 0 /\ 7 = at_column 0) as (E1 & E2 & E3 & E4) by done.
  unfold r, read_turn. rewrite E1, E2, E3, E4. clear r. unfold type_key, printable.
  destruct (Z.ltb_spec c 128) as [Hc7|Hc7]; last first.
  { (* bytes above ASCII are negative *)
    assert (signed8 c < 0) as Hneg
      by (unfold signed8; rewrite wrap8_small by lia; destruct (Z.ltb_spec c 128); lia).
    cbv zeta. unfold CONSOLE_KEY_SPACE, CONSOLE_KEY_ENTER.
    destruct (Z.leb_spec 32 (signed8 c)), (Z.eqb_spec (signed8 c) 8), (Z.eqb_spec (signed8 c) 13),
      (Z.eqb_spec c 13), (Z.eqb_spec c 8), (Z.ltb_spec c 127), (Z.leb_spec 32 c); try lia.
    cbn [andb]. rewrite at_end by lia. exists s. split; [done|]. split; [done|].
    reflexivity. }
  assert (signed8 c = c) as -> by (unfold signed8; rewrite wrap8_small by lia; case_cmp; lia).
  cbv zeta. unfold CONSOLE_KEY_SPACE, CONSOLE_KEY_ENTER.
  destruct (Z.leb_spec 32 c); cbn [andb].
  - destruct (Z.ltb_spec c 127) as [Hp|Hp].
    + (* a printable character *)
      destruct (Z.eqb_spec c 13), (Z.eqb_spec c 8); try lia. cbn [andb].
      rewrite at_next by lia. rewrite at_end by lia. unfold Console_PrintChar, on_mem. cbn [bmem world].
      rewrite at_pos, attribute_white. rewrite (wrap32_small (n + 1)), (wrap32_small (buffer + n)) by lia.
      eexists (mkBoot _ _). split; [|split; [reflexivity|]]; cbn [bmem].
      * apply line_shown_type; done || lia.
      * rewrite length_app. cbn [length]. replace (Z.of_nat (length txt + 1)) with (n + 1) by lia. done.
    + destruct (Z.eqb_spec c 13), (Z.eqb_spec c 8); try lia. cbn [andb].
      rewrite at_end by lia. exists s. split; [done|]. split; [done|]. reflexivity.
  - destruct (Z.eqb_spec c 8) as [->|H8].
    + (* backspace *)
      cbn [Z.eqb Pos.eqb andb]. rewrite at_end by lia. destruct (Z.eqb_spec n 0) as [Hz|Hz].
      * assert (txt = []) as -> by (destruct txt; [done|cbn in *; lia]). subst n.
        exists s. by split.
      * rewrite at_back by lia. rewrite at_end by lia. unfold Console_PrintChar, on_mem. cbn [bmem world].
        rewrite at_pos, attribute_white. rewrite (wrap32_small (n - 1)) by lia.
        replace (167 + (n - 1)) with (167 + n - 1) by lia.
        eexists (mkBoot _ _). split; [|split; [reflexivity|]]; cbn [bmem].
        -- apply line_shown_erase; done || lia.
        -- assert (length (removelast txt) = (length txt - 1)%nat) as Hrl.
           { destruct txt as [|y t]; [cbn in *; lia|].
             pose proof (app_removelast_last 0 (l := y :: t) ltac:(done)) as E.
             apply (f_equal length) in E. rewrite length_app in E. cbn [length] in *. lia. }
           rewrite Hrl. replace (Z.of_nat (length txt - 1)) with (n - 1) by lia. done.
    + cbn [andb]. destruct (Z.eqb_spec c 13); [done|].
      rewrite at_end by lia. exists s. split; [done|]. split; [done|]. reflexivity.
Qed.

Lemma line_shown_end m0 m txt :
  line_shown m0 m buffer txt -> (length txt <= 1023)%nat ->
  let m' := store8 m (buffer ⊕ Z.of_nat (length txt)) 0 in
  line_shown m0 m' buffer txt /\ load8 m' (buffer + Z.of_nat (length txt)) = 0.
Proof.
  intros [Hb Hs Hf] Hl m'. destruct Hbuf as (B0 & B1 & B2). unfold m'. rewrite wrap32_small by lia. split.
  - split.
    + intros i d Hi. pose proof (lookup_lt_Some _ _ _ Hi). rewrite load8_store8_in by lia.
      case_cmp; [lia|]. by apply Hb.
    + intros i d Hi. rewrite <- (Hs i d Hi). pose proof (lookup_lt_Some _ _ _ Hi).
      apply load_ext. intros j Hj. rewrite load8_store8_in by lia. case_cmp; [lia|done].
    + intros a Ha H1 H2. rewrite load8_store8_in by lia. case_cmp; [lia|]. by apply Hf.
  - rewrite load8_store8_in by lia. by rewrite Z.eqb_refl.
Qed.

(** What the loop leaves: the line, its terminating zero, the keys not read. *)
Definition entered (m0 : Mem) (txt rest : list Z) (s : Boot W) : Prop :=
  line_shown m0 (bmem s) buffer txt /\ load8 (bmem s) (buffer + Z.of_nat (length txt)) = 0 /\
  keys (world s) = rest.

Lemma read_loop_correct m0 fuel txt (s : Boot W) txt' rest :
  line_shown m0 (bmem s) buffer txt -> (length txt < 1023)%nat ->
  session txt (keys (world s)) = Some (txt', rest) -> (length (keys (world s)) < fuel)%nat ->
  let n := Z.of_nat (length txt) in
  exists s', read_loop BIOS_Interrupt fuel buffer 2 7 14 70 (at_line n) (at_column n) n s = Some s' /\
    entered m0 txt' rest s'.
Proof.
  revert txt s. induction fuel as [|fuel IH]; intros txt s Hsh Hl Hse Hf n; [lia|].
  pose proof (key_byte _ _ KB (world s)) as Hby.
  destruct (keys (world s)) as [|c cs] eqn:Ek; [done|]. inversion_clear Hby. cbn [session length] in *.
  cbn [read_loop]. destruct (keys_cursor (at_line n) (at_column n) s) as [K1 M1].
  destruct (ReadChar_next (Console_SetCursorPosition (at_line n) (at_column n) s) c cs) as (w & -> & Kw); [congruence|].
  rewrite M1. pose proof (read_turn_correct m0 txt c (mkBoot (bmem s) w) Hsh Hl ltac:(lia)) as Ht. cbv zeta in Ht.
  fold n in Ht. destruct (c =? 13).
  - rewrite Ht. injection Hse as <- <-. eexists. split; [reflexivity|].
    destruct (line_shown_end m0 (bmem s) txt Hsh ltac:(lia)). by split.
  - destruct Ht as (s2 & Hsh2 & Hw2 & Ht). cbn [world] in Hw2.
    set (txt2 := type_key txt c) in *.
    assert (length txt2 <= 1023)%nat as Hl2.
    { unfold txt2, type_key. destruct (printable c); [rewrite length_app; cbn; lia|].
      case_cmp; [|lia]. pose proof (removelast_firstn_len txt) as ->. rewrite length_firstn. lia. }
    rewrite Ht. clear Ht. destruct (Nat.eqb_spec (length txt2) 1023) as [Hfull|Hnf].
    + destruct (after_enter cs) as [ks|] eqn:Ea; [|done]. injection Hse as <- <-.
      destruct (Z.eqb_spec (Z.of_nat (length txt2)) 1023); [|lia].
      set (m3 := Console_PrintString buffer_full 23 0 CONSOLE_COLOR_WHITE CONSOLE_COLOR_BLACK (bmem s2)).
      assert (line_shown m0 m3 buffer txt2) as Hsh3.
      { apply line_shown_string; [done..| | |]; vm_compute; try done; by right. }
      destruct (wait_enter_correct (S fuel) (on_mem (fun _ => m3) s2) ks) as (w' & Hwe & Kw');
        [cbn; congruence|cbn; rewrite Hw2, Kw; lia|].
      change (on_mem (Console_PrintString buffer_full 23 0 CONSOLE_COLOR_WHITE CONSOLE_COLOR_BLACK) s2)
        with (on_mem (fun _ => m3) s2).
      rewrite Hwe. eexists. split; [reflexivity|]. cbn [on_mem bmem].
      destruct (line_shown_end m0 m3 txt2 Hsh3 ltac:(lia)). by split.
    + destruct (Z.eqb_spec (Z.of_nat (length txt2)) 1023); [lia|].
      apply IH; [done|lia| |]; rewrite Hw2, Kw; [done|lia].
Qed.

Lemma ReadCommand_line fuel (s : Boot W) txt rest :
  session [] (keys (world s)) = Some (txt, rest) -> (length (keys (world s)) < fuel)%nat ->
  exists s', Console_ReadCommand BIOS_Interrupt fuel buffer s = Some s' /\ entered (bmem s) txt rest s'.
Proof.
  intros Hse Hf. unfold Console_ReadCommand. cbv zeta.
  destruct (keys_visible s) as [Kv Mv]. set (s1 := on_mem _ _).
  assert (line_shown (bmem s) (bmem s1) buffer []) as Hsh.
  { unfold s1, on_mem. cbn [bmem]. rewrite Mv. apply line_shown_string; [|done|cbn; lia|by vm_compute| |by vm_compute].
    - split; [intros i c Hi; by rewrite lookup_nil in Hi..|done].
    - left. by vm_compute. }
  apply (read_loop_correct (bmem s) fuel [] s1); [done|cbn; lia| |]; unfold s1; cbn [world on_mem]; by rewrite Kv.
Qed.
End ReadCommand.


(** A firmware whose only device is a queue of keys. *)
Record KeyQueue := mkKeys { queue : list Z }.
#[export, refine] Instance KeyQueue_io : PortIO KeyQueue :=
  {| Outb := fun _ _ w => w; Inb := fun _ w => (0, w) |}.
Proof. intros. cbn. lia. Defined.
Definition queue_keys (w : KeyQueue) : list Z := map wrap8 (queue w).
Definition queue_bios (n : Z) (r : BIOS_Registers) (s : Boot KeyQueue) : BIOS_Registers * Boot KeyQueue :=
  match queue (world s) with
  | [] => (set_eax 0 r, s)
  | c :: ks => (set_eax (wrap8 c) r, mkBoot (bmem s) (mkKeys ks))
  end.
Lemma queue_keyboard : keyboard queue_bios queue_keys.
Proof.
  split; [done..| |].
  - intros w. apply Forall_map, Forall_true. intros. apply wrap8_range.
  - intros [m [q]] c ks. unfold queue_keys, queue_bios. cbn. destruct q as [|x q]; [done|].
    intros [= <- <-]. eexists _, _. split; [reflexivity|]. repeat split. unfold al, low8. cbn. apply wrap8_idem.
Qed.

