(* ===== verification/Mbi.v ===== *)
(** * The Multiboot information record

    [bootloader/multiboot/include/multiboot.h] and the part of
    [bootloader/multiboot/src/multiboot.c] that builds the record: a start
    (total size, reserved), tags one after the other, and a terminating tag.
    The record is in memory at [mbi_addr]; a walk over its tags takes fuel,
    because a tag of size 0 makes the code's loop run for ever. *)

From S2P Require Import Prelude CMem Ports Bios BootMem Elf BootConsole.

(** ** multiboot.h *)

Definition MULTIBOOT_TAG_TYPE_END : Z := 0.
Definition MULTIBOOT_TAG_TYPE_CMDLINE : Z := 1.
Definition MULTIBOOT_TAG_TYPE_BOOT_LOADER_NAME : Z := 2.
Definition MULTIBOOT_TAG_TYPE_MODULE : Z := 3.
Definition MULTIBOOT_TAG_TYPE_BASIC_MEMINFO : Z := 4.
Definition MULTIBOOT_TAG_TYPE_BOOTDEV : Z := 5.
Definition MULTIBOOT_TAG_TYPE_MMAP : Z := 6.
Definition MULTIBOOT_TAG_TYPE_VBE : Z := 7.
Definition MULTIBOOT_TAG_TYPE_FRAMEBUFFER : Z := 8.
Definition MULTIBOOT_TAG_TYPE_ELF_SECTIONS : Z := 9.
Definition MULTIBOOT_TAG_TYPE_APM : Z := 10.
Definition MULTIBOOT_TAG_TYPE_EFI32 : Z := 11.
Definition MULTIBOOT_TAG_TYPE_EFI64 : Z := 12.
Definition MULTIBOOT_TAG_TYPE_SMBIOS : Z := 13.
Definition MULTIBOOT_TAG_TYPE_ACPI_OLD : Z := 14.
Definition MULTIBOOT_TAG_TYPE_ACPI_NEW : Z := 15.
Definition MULTIBOOT_TAG_TYPE_NETWORK : Z := 16.
Definition MULTIBOOT_TAG_TYPE_EFI_MMAP : Z := 17.
Definition MULTIBOOT_TAG_TYPE_EFI_BS : Z := 18.
Definition MULTIBOOT_TAG_TYPE_EFI32_IH : Z := 19.
Definition MULTIBOOT_TAG_TYPE_EFI64_IH : Z := 20.
Definition MULTIBOOT_TAG_TYPE_LOAD_BASE_ADDR : Z := 21.
Definition MULTIBOOT_TAG_TYPE_RAM_INFO : Z := 98.
Definition MULTIBOOT_TAG_TYPE_RAM_INFO_PAGE_ALIGNED : Z := 99.

(** [struct Multiboot_Info_Start] at [a]. *)
Definition mbi_total_size (m : Mem) (a : Z) : Z := load32 m a.
Definition mbi_reserved (m : Mem) (a : Z) : Z := load32 m (a + 4).
(** [struct Multiboot_Info_Tag] at [p]; every tag starts like this. *)
Definition tag_type (m : Mem) (p : Z) : Z := load32 m p.
Definition tag_size (m : Mem) (p : Z) : Z := load32 m (p + 4).
Definition set_tag_type (p v : Z) (m : Mem) : Mem := store32 m p v.
Definition set_tag_size (p v : Z) (m : Mem) : Mem := store32 m (p + 4) v.

(** [struct BootInfo_KernelInfo] at [ki]. *)
Definition ki_boot_drive_ID (m : Mem) (ki : Z) : Z := load32 m ki.
Definition ki_boot_partition (m : Mem) (ki : Z) : Z := load32 m (ki + 4).
Definition ki_blocklist_ptr (m : Mem) (ki : Z) : Z := load32 m (ki + 12).
Definition ki_start (m : Mem) (ki : Z) : Z := load32 m (ki + 16).
Definition ki_size (m : Mem) (ki : Z) : Z := load32 m (ki + 20).
Definition ki_bss_size (m : Mem) (ki : Z) : Z := load32 m (ki + 24).
Definition ki_multiboot_header (m : Mem) (ki : Z) : Z := load32 m (ki + 28).
Definition ki_entry (m : Mem) (ki : Z) : Z := load32 m (ki + 32).
Definition ki_file_addr (m : Mem) (ki : Z) : Z := load32 m (ki + 36).
Definition ki_file_size (m : Mem) (ki : Z) : Z := load32 m (ki + 40).

(** ** The record and its tags *)

Definition Multiboot_CheckForValidMBI (m : Mem) (mbi_addr : Z) : bool :=
  if negb (mbi_addr mod 8 =? 0) || negb (mbi_reserved m mbi_addr =? 0) ||
     (mbi_total_size m mbi_addr <? 16) || negb (mbi_total_size m mbi_addr mod 8 =? 0) then false
  else
    let mbi_term_tag := mbi_total_size m mbi_addr ⊕ mbi_addr ⊖ 8 in
    if negb (tag_type m mbi_term_tag =? 0) || negb (tag_size m mbi_term_tag =? 8) then false else true.

Definition Multiboot_CreateEmptyMBI (mbi_addr : Z) (m : Mem) : bool * Mem :=
  if negb (mbi_addr mod 8 =? 0) then (false, m)
  else
    let m := store32 m mbi_addr 16 in
    let m := store32 m (mbi_addr + 4) 0 in
    let mbi_term_tag := mbi_addr ⊕ 8 in
    let m := set_tag_type mbi_term_tag 0 m in
    let m := set_tag_size mbi_term_tag 8 m in
    (true, m).

(** The [while] of [Multiboot_FindMBITagAddress] from [mbi_tag] on:
    [Some (Some t)] left it by [break] at [t], [Some None] at its end. *)
Fixpoint find_tag (fuel : nat) (m : Mem) (mbi_addr wanted mbi_tag : Z) : option (option Z) :=
  match fuel with
  | O => None
  | S f =>
      if negb (tag_type m mbi_tag =? 0) && (mbi_tag <? mbi_addr ⊕ mbi_total_size m mbi_addr) then
        if tag_type m mbi_tag =? wanted then Some (Some mbi_tag)
        else find_tag f m mbi_addr wanted (tag_size m mbi_tag ⊕ mbi_tag)
      else Some None
  end.

Definition Multiboot_FindMBITagAddress (fuel : nat) (m : Mem) (mbi_addr wanted : Z) : option Z :=
  if negb (Multiboot_CheckForValidMBI m mbi_addr) then Some MEMORY_NULL_PTR
  else
    r ← find_tag fuel m mbi_addr wanted (mbi_addr ⊕ 8);
    let ret_tag := match r with Some t => t | None => mbi_addr ⊕ 8 end in
    if tag_type m ret_tag =? wanted then Some ret_tag
    else
      let ret_tag := mbi_total_size m mbi_addr ⊕ mbi_addr ⊖ 8 in
      if negb (tag_type m ret_tag =? 0) || negb (tag_size m ret_tag =? 8) then Some MEMORY_NULL_PTR
      else Some ret_tag.

Definition Multiboot_TerminateTag (mbi_addr tag_addr : Z) (m : Mem) : bool * Mem :=
  if negb (mbi_addr mod 8 =? 0) || negb (mbi_reserved m mbi_addr =? 0) ||
     negb (mbi_total_size m mbi_addr mod 8 =? 0) then (false, m)
  else
    let mbi_term := tag_size m tag_addr ⊕ tag_addr in
    if (tag_type m tag_addr =? 0) && (tag_size m tag_addr =? 8) then (true, m)
    else if tag_size m tag_addr =? 0 then
      (true, set_tag_size mbi_term 8 (set_tag_type mbi_term 0 m))
    else
      let m := set_tag_type mbi_term 0 m in
      let m := set_tag_size mbi_term 8 m in
      (true, store32 m mbi_addr (mbi_total_size m mbi_addr ⊕ tag_size m tag_addr)).

(** [Multiboot_TerminateTag] called for its effect. *)
Definition terminate (mbi_addr tag_addr : Z) (m : Mem) : Mem := snd (Multiboot_TerminateTag mbi_addr tag_addr m).

(** [mbi_x == MEMORY_NULL_PTR || mbi_x->type != 0], the guard of every
    function that appends a tag. *)
Definition no_slot (m : Mem) (p : Z) : bool := (p =? MEMORY_NULL_PTR) || negb (tag_type m p =? 0).

(** ** Tags that need memory only *)

Definition Multiboot_SaveBootLoaderInfo (fuel : nat) (mbi_addr : Z) (m : Mem) : option (bool * Mem) :=
  mbi_name ← Multiboot_FindMBITagAddress fuel m mbi_addr MULTIBOOT_TAG_TYPE_BOOT_LOADER_NAME;
  if no_slot m mbi_name then Some (false, m)
  else
    let m := set_tag_type mbi_name MULTIBOOT_TAG_TYPE_BOOT_LOADER_NAME m in
    let m := set_tag_size mbi_name 16 m in
    let m := store8 m (mbi_name + 8) 65 in
    let m := store8 m (mbi_name + 9) 86 in
    let m := store8 m (mbi_name + 10) 66 in
    let m := store8 m (mbi_name + 11) 76 in
    let m := store8 m (mbi_name + 12) 0 in
    Some (Multiboot_TerminateTag mbi_addr mbi_name m).

Definition Multiboot_SaveELFSectionHeaders (fuel : nat) (mbi_addr kernel_info : Z) (m : Mem) : option (bool * Mem) :=
  mbi_elf_shdr ← Multiboot_FindMBITagAddress fuel m mbi_addr MULTIBOOT_TAG_TYPE_ELF_SECTIONS;
  if no_slot m mbi_elf_shdr then Some (false, m)
  else
    let m := set_tag_type mbi_elf_shdr MULTIBOOT_TAG_TYPE_ELF_SECTIONS m in
    let m := store16 m (mbi_elf_shdr + 8) 0 in
    let m := store16 m (mbi_elf_shdr + 10) 0 in
    let m := store16 m (mbi_elf_shdr + 12) 0 in
    let '(size, m) := Elf32_LoadSectionHeaderTable (ki_file_addr m kernel_info) (8 ⊕ mbi_elf_shdr) true m in
    let m := set_tag_size mbi_elf_shdr (size ⊕ 8) m in
    Some (true, terminate mbi_addr mbi_elf_shdr m).

(** The search for the boot signature after each of the four partition
    entries, 16 bytes apart. *)
Fixpoint find_signature (n : nat) (m : Mem) (part : Z) : Z :=
  match n with
  | O => part
  | S n' => if load16 m part =? 0xAA55 then part else find_signature n' m (part ⊕ 16)
  end.

Definition Multiboot_SaveBootDeviceInfo (fuel : nat) (mbi_addr kernel_info : Z) (m : Mem) : option (bool * Mem) :=
  mbi_bootdev ← Multiboot_FindMBITagAddress fuel m mbi_addr MULTIBOOT_TAG_TYPE_BOOTDEV;
  if no_slot m mbi_bootdev then Some (false, m)
  else
    let part := find_signature 5 m (ki_boot_partition m kernel_info) in
    if negb (load16 m part =? 0xAA55) then Some (false, m)
    else
      let m := set_tag_type mbi_bootdev MULTIBOOT_TAG_TYPE_BOOTDEV m in
      let m := set_tag_size mbi_bootdev 24 m in
      let m := store32 m (mbi_bootdev + 8) (ki_boot_drive_ID m kernel_info) in
      let m := store32 m (mbi_bootdev + 12) (4 ⊖ (part ⊖ ki_boot_partition m kernel_info) / 16) in
      let m := store32 m (mbi_bootdev + 16) 0xFFFFFFFF in
      Some (true, terminate mbi_addr mbi_bootdev m).

Definition Multiboot_SaveLoadBaseAddress (fuel : nat) (mbi_addr kernel_info : Z) (m : Mem) : option (bool * Mem) :=
  mbi_mem_base ← Multiboot_FindMBITagAddress fuel m mbi_addr MULTIBOOT_TAG_TYPE_LOAD_BASE_ADDR;
  if no_slot m mbi_mem_base then Some (false, m)
  else
    let m := set_tag_type mbi_mem_base MULTIBOOT_TAG_TYPE_LOAD_BASE_ADDR m in
    let m := set_tag_size mbi_mem_base 16 m in
    let m := store32 m (mbi_mem_base + 8) (ki_start m kernel_info) in
    let m := store32 m (mbi_mem_base + 12) 0 in
    Some (true, terminate mbi_addr mbi_mem_base m).

(** ** Tags that ask the BIOS *)

Section MbiBios.
Context {W : Type} `{!PortIO W}.
Variable BIOS_Interrupt : Z -> BIOS_Registers -> Boot W -> BIOS_Registers * Boot W.

(** A function of memory alone, run on the whole state. *)
Definition lift_mem (f : Mem -> option (bool * Mem)) (s : Boot W) : option (bool * Boot W) :=
  '(b, m) ← f (bmem s);
  Some (b, on_mem (fun _ => m) s).

(** [for (i = 0; string[i] != 0; i++) size++]: [None] when no zero is met. *)
Fixpoint count_command (fuel : nat) (mbi_cmd i : Z) (m : Mem) : option (Z * Mem) :=
  match fuel with
  | O => None
  | S f =>
      if negb (load8 m (mbi_cmd + 8 + i) =? 0) then
        count_command f mbi_cmd (i + 1) (set_tag_size mbi_cmd (tag_size m mbi_cmd ⊕ 1) m)
      else Some (i, m)
  end.

(** [for (; size % 8 != 0; i++)]: at most seven turns. *)
Fixpoint pad_command (fuel : nat) (mbi_cmd i : Z) (m : Mem) : Mem :=
  match fuel with
  | O => m
  | S f =>
      if negb (tag_size m mbi_cmd mod 8 =? 0) then
        let m := set_tag_size mbi_cmd (tag_size m mbi_cmd ⊕ 1) m in
        pad_command f mbi_cmd (i + 1) (store8 m (mbi_cmd + 8 + i) 0)
      else m
  end.

Definition Multiboot_SaveBootCommand (fuel : nat) (mbi_addr : Z) (s : Boot W) : option (bool * Boot W) :=
  mbi_cmd ← Multiboot_FindMBITagAddress fuel (bmem s) mbi_addr MULTIBOOT_TAG_TYPE_CMDLINE;
  if no_slot (bmem s) mbi_cmd then Some (false, s)
  else
    let s := on_mem (set_tag_type mbi_cmd MULTIBOOT_TAG_TYPE_CMDLINE) s in
    let s := on_mem (set_tag_size mbi_cmd 8) s in
    s ← Console_ReadCommand BIOS_Interrupt fuel (mbi_cmd ⊕ 8) s;
    '(i, m) ← count_command fuel mbi_cmd 0 (bmem s);
    let m := set_tag_size mbi_cmd (tag_size m mbi_cmd ⊕ 1) m in
    let i := i + 1 in
    let m := pad_command 8 mbi_cmd i m in
    let '(b, m) := Multiboot_TerminateTag mbi_addr mbi_cmd m in
    Some (b, on_mem (fun _ => m) s).

(** One of the two memory lists built by [Memory_StoreInfo]. *)
Definition save_ram_info (fuel : nat) (mbi_addr type : Z) (page_align : bool) (mmap mmap_size : Z) (s : Boot W)
  : option (bool * Boot W) :=
  mem_ram_tag ← Multiboot_FindMBITagAddress fuel (bmem s) mbi_addr type;
  if no_slot (bmem s) mem_ram_tag then Some (false, s)
  else
    '(stop, m) ← Memory_StoreInfo fuel (16 ⊕ mem_ram_tag) page_align mmap mmap_size (bmem s);
    let m := set_tag_size mem_ram_tag (stop ⊖ mem_ram_tag) m in
    let m := set_tag_type mem_ram_tag type m in
    let m := store32 m (mem_ram_tag + 8) SIZEOF_BLOCKRAM in
    let m := store32 m (mem_ram_tag + 12) 0 in
    Some (true, on_mem (fun _ => terminate mbi_addr mem_ram_tag m) s).

Definition Multiboot_SaveMemoryMaps (fuel : nat) (mbi_addr : Z) (s : Boot W) : option (bool * Boot W) :=
  mem_ram_tag ← Multiboot_FindMBITagAddress fuel (bmem s) mbi_addr MULTIBOOT_TAG_TYPE_MMAP;
  if no_slot (bmem s) mem_ram_tag then Some (false, s)
  else
    '(stop, s) ← Memory_StoreE820Info BIOS_Interrupt fuel (16 ⊕ mem_ram_tag) s;
    let s := on_mem (fun m =>
      let m := set_tag_size mem_ram_tag (stop ⊖ mem_ram_tag) m in
      let m := set_tag_type mem_ram_tag MULTIBOOT_TAG_TYPE_MMAP m in
      let m := store32 m (mem_ram_tag + 8) 24 in
      let m := store32 m (mem_ram_tag + 12) 0 in
      terminate mbi_addr mem_ram_tag m) s in
    let mmap := 16 ⊕ mem_ram_tag in
    let mmap_size := (tag_size (bmem s) mem_ram_tag ⊖ 16) / load32 (bmem s) (mem_ram_tag + 8) in
    if tag_size (bmem s) mem_ram_tag =? 16 then Some (false, s)
    else
      '(ok, s) ← save_ram_info fuel mbi_addr MULTIBOOT_TAG_TYPE_RAM_INFO false mmap mmap_size s;
      if negb ok then Some (false, s)
      else save_ram_info fuel mbi_addr MULTIBOOT_TAG_TYPE_RAM_INFO_PAGE_ALIGNED true mmap mmap_size s.

Definition Multiboot_SaveBasicMemoryInfo (fuel : nat) (mbi_addr : Z) (s : Boot W) : option (bool * Boot W) :=
  mbi_mem_basic ← Multiboot_FindMBITagAddress fuel (bmem s) mbi_addr MULTIBOOT_TAG_TYPE_BASIC_MEMINFO;
  if no_slot (bmem s) mbi_mem_basic then Some (false, s)
  else
    let s := on_mem (fun m =>
      let m := set_tag_type mbi_mem_basic MULTIBOOT_TAG_TYPE_BASIC_MEMINFO m in
      let m := set_tag_size mbi_mem_basic 16 m in
      let m := store32 m (mbi_mem_basic + 8) 0 in
      store32 m (mbi_mem_basic + 12) 0) s in
    let '(_, s) := Memory_StoreBasicInfo BIOS_Interrupt (8 ⊕ mbi_mem_basic) s in
    Some (true, on_mem (terminate mbi_addr mbi_mem_basic) s).

Definition SIZEOF_INFO_APM : Z := 32.

Definition Multiboot_SaveAPMInfo (fuel : nat) (mbi_addr : Z) (s : Boot W) : option (bool * Boot W) :=
  mbi_apm ← Multiboot_FindMBITagAddress fuel (bmem s) mbi_addr MULTIBOOT_TAG_TYPE_APM;
  if no_slot (bmem s) mbi_apm then Some (false, s)
  else
    let s := on_mem (set_tag_type mbi_apm MULTIBOOT_TAG_TYPE_APM) s in
    let s := on_mem (set_tag_size mbi_apm SIZEOF_INFO_APM) s in
    let iapm := mbi_apm ⊕ 8 in
    let '(stop, s) := System_StoreAPMInfo BIOS_Interrupt iapm s in
    if stop =? iapm then
      Some (false, on_mem (fun m => terminate mbi_addr mbi_apm (set_tag_size mbi_apm 0 m)) s)
    else
      let s := on_mem (fun m => store16 m (mbi_apm + 28) 0) s in
      let s := on_mem (fun m => store16 m (mbi_apm + 30) 0) s in
      Some (true, on_mem (terminate mbi_addr mbi_apm) s).

Definition Multiboot_SaveSMBIOSInfo (fuel : nat) (mbi_addr : Z) (s : Boot W) : option (bool * Boot W) :=
  mbi_smbios ← Multiboot_FindMBITagAddress fuel (bmem s) mbi_addr MULTIBOOT_TAG_TYPE_SMBIOS;
  if no_slot (bmem s) mbi_smbios then Some (false, s)
  else
    let s := on_mem (set_tag_type mbi_smbios MULTIBOOT_TAG_TYPE_SMBIOS) s in
    let '(stop, s) := System_StoreSMBIOSInfo (8 ⊕ mbi_smbios) s in
    let s := on_mem (set_tag_size mbi_smbios (stop ⊖ mbi_smbios)) s in
    if tag_size (bmem s) mbi_smbios <=? 8 then
      Some (false, on_mem (fun m => terminate mbi_addr mbi_smbios (set_tag_size mbi_smbios 0 m)) s)
    else Some (true, on_mem (terminate mbi_addr mbi_smbios) s).

Definition SIZEOF_INFO_ACPIv1 : Z := 32.
Definition SIZEOF_INFO_ACPIv2 : Z := 48.

Definition Multiboot_SaveACPIInfo (fuel : nat) (mbi_addr : Z) (old : bool) (s : Boot W) : option (bool * Boot W) :=
  let type := if old then MULTIBOOT_TAG_TYPE_ACPI_OLD else MULTIBOOT_TAG_TYPE_ACPI_NEW in
  mbi_acpiv1 ← Multiboot_FindMBITagAddress fuel (bmem s) mbi_addr type;
  if no_slot (bmem s) mbi_acpiv1 then Some (false, s)
  else
    let s := on_mem (set_tag_type mbi_acpiv1 type) s in
    let s := on_mem (set_tag_size mbi_acpiv1 (if old then SIZEOF_INFO_ACPIv1 else SIZEOF_INFO_ACPIv2)) s in
    '(stop, s) ← System_StoreACPIInfo (8 ⊕ mbi_acpiv1) old s;
    if stop =? 8 ⊕ mbi_acpiv1 then
      Some (false, on_mem (fun m => terminate mbi_addr mbi_acpiv1 (set_tag_size mbi_acpiv1 0 m)) s)
    else Some (true, on_mem (terminate mbi_addr mbi_acpiv1) s).

End MbiBios.
