(* ===== verification/MbiSpec.v ===== *)
(** * The Multiboot information record is a list of tags

    The abstract record is a list of tags, each a type and the bytes of its
    body. [mbi_at m a ts] says that memory [m] holds the record of [ts] at
    address [a]. Finding a tag, appending one and reading the record from the
    kernel are functions of that list. *)

From S2P Require Import Prelude CMem Ports Bios BootMem Elf BootConsole Mbi.

(** ** Tags in memory *)

Record Tag := mkTag { tty : Z; body : list Z }.
Definition tsize (t : Tag) : Z := 8 + Z.of_nat (length (body t)).
Definition tag_ok (t : Tag) : Prop := tty t <> 0 /\ (8 | tsize t).

Fixpoint total (ts : list Tag) : Z :=
  match ts with
  | [] => 0
  | t :: ts => tsize t + total ts
  end.

(** One tag at [p]; the tags [ts] one after the other from [p] on; the
    terminating tag. *)
Definition tag_at (m : Mem) (p : Z) (t : Tag) : Prop :=
  tag_type m p = tty t /\ tag_size m p = tsize t /\
  load_bytes m (p + 8) (Z.of_nat (length (body t))) = body t.
Fixpoint seg (m : Mem) (p : Z) (ts : list Tag) : Prop :=
  match ts with
  | [] => True
  | t :: ts => tag_at m p t /\ seg m (p + tsize t) ts
  end.
Definition term_at (m : Mem) (p : Z) : Prop := tag_type m p = 0 /\ tag_size m p = 8.

(** The address after the last tag. *)
Definition mbi_end (a : Z) (ts : list Tag) : Z := a + 8 + total ts.

Record mbi_at (m : Mem) (a : Z) (ts : list Tag) : Prop := {
  mbi_low : 0 <= a;
  mbi_aligned : (8 | a);
  mbi_high : mbi_end a ts + 8 < 4294967296;
  mbi_tags_ok : Forall tag_ok ts;
  mbi_total : mbi_total_size m a = 16 + total ts;
  mbi_res : mbi_reserved m a = 0;
  mbi_seg : seg m (a + 8) ts;
  mbi_term : term_at m (mbi_end a ts)
}.

Lemma tsize_pos t : 8 <= tsize t.
Proof. unfold tsize. lia. Qed.
Lemma total_nonneg ts : 0 <= total ts.
Proof. induction ts as [|t ts IH]; cbn; [lia|]. pose proof (tsize_pos t). lia. Qed.
Lemma total_app a b : total (a ++ b) = total a + total b.
Proof. induction a as [|t a IH]; cbn; lia. Qed.
Lemma total_div ts : Forall tag_ok ts -> (8 | total ts).
Proof.
  induction 1 as [|t ts [_ H] _ IH]; cbn; [by apply Z.divide_0_r|]. by apply Z.divide_add_r.
Qed.
Lemma mbi_end_snoc a ts t : mbi_end a (ts ++ [t]) = mbi_end a ts + tsize t.
Proof. unfold mbi_end. rewrite total_app. cbn. lia. Qed.

(** ** Two memories that agree on a range *)

Definition agree (m m' : Mem) (lo hi : Z) : Prop := forall x, lo <= x < hi -> load8 m' x = load8 m x.

Lemma agree_window_load n m m' lo hi a :
  agree m m' lo hi -> lo <= a -> a + Z.of_nat n <= hi -> load n m' a = load n m a.
Proof. intros H ??. apply load_ext. intros i Hi. apply H. lia. Qed.

Lemma agree_bytes m m' lo hi a n :
  agree m m' lo hi -> lo <= a -> a + n <= hi -> load_bytes m' a n = load_bytes m a n.
Proof. intros H ??. apply load_bytes_ext. intros i Hi. apply H. lia. Qed.

Lemma agree_sub m m' lo hi lo' hi' : agree m m' lo hi -> lo <= lo' -> hi' <= hi -> agree m m' lo' hi'.
Proof. intros H ?? x Hx. apply H. lia. Qed.

Lemma agree_trans m1 m2 m3 lo hi : agree m1 m2 lo hi -> agree m2 m3 lo hi -> agree m1 m3 lo hi.
Proof. intros H1 H2 x Hx. rewrite H2 by done. by apply H1. Qed.

Lemma agree_store n m a v lo hi :
  0 <= a -> a + Z.of_nat n <= 4294967296 -> 0 <= lo -> hi <= 4294967296 -> hi <= a \/ a + Z.of_nat n <= lo ->
  agree m (store n m a v) lo hi.
Proof. intros ???? H x Hx. apply load8_store_ne; lia. Qed.

Lemma tag_at_agree m m' p t hi : agree m m' p hi -> p + tsize t <= hi -> tag_at m p t -> tag_at m' p t.
Proof.
  intros H Hhi (H1 & H2 & H3). pose proof (tsize_pos t). unfold tag_at, tag_type, tag_size in *.
  rewrite (agree_window_load 4 m m' p hi p), (agree_window_load 4 m m' p hi (p + 4)), (agree_bytes m m' p hi)
    by (done || unfold tsize in *; lia). done.
Qed.

Lemma seg_agree m m' p ts hi : agree m m' p hi -> p + total ts <= hi -> seg m p ts -> seg m' p ts.
Proof.
  revert p. induction ts as [|t ts IH]; intros p H Hhi Hs; [done|]. cbn [seg total] in *.
  destruct Hs as [Ht Hs]. pose proof (tsize_pos t). pose proof (total_nonneg ts). split.
  - apply (tag_at_agree m m' p t hi); done || lia.
  - apply IH; [|lia|done]. apply (agree_sub m m' p hi); done || lia.
Qed.

Lemma term_at_agree m m' p lo hi : agree m m' lo hi -> lo <= p -> p + 8 <= hi -> term_at m p -> term_at m' p.
Proof.
  intros H ?? [H1 H2]. unfold term_at, tag_type, tag_size in *.
  by rewrite (agree_window_load 4 m m' lo hi p), (agree_window_load 4 m m' lo hi (p + 4)) by (done || lia).
Qed.

Lemma seg_app m p xs ys : seg m p (xs ++ ys) <-> seg m p xs /\ seg m (p + total xs) ys.
Proof.
  revert p. induction xs as [|t xs IH]; intros p; cbn [app seg total].
  - rewrite Z.add_0_r. tauto.
  - rewrite IH, Z.add_assoc. tauto.
Qed.

(** The record is where its tags and a terminating tag are. *)
Lemma mbi_at_term m m' a ts :
  mbi_at m a ts -> agree m m' a (mbi_end a ts) -> term_at m' (mbi_end a ts) -> mbi_at m' a ts.
Proof.
  intros [H1 H2 H3 H4 H5 H6 H7 H8] Hag Ht. unfold mbi_total_size, mbi_reserved in *.
  pose proof (total_nonneg ts). unfold mbi_end in *. split; try done; unfold mbi_total_size, mbi_reserved.
  - by rewrite (agree_window_load 4 m m' a (a + 8 + total ts)) by (done || lia).
  - by rewrite (agree_window_load 4 m m' a (a + 8 + total ts)) by (done || lia).
  - apply (seg_agree m m' _ ts (a + 8 + total ts)); [|lia|done].
    apply (agree_sub m m' a (a + 8 + total ts)); done || lia.
Qed.

(** A record is unchanged by writes elsewhere. *)
Lemma mbi_at_agree m m' a ts :
  mbi_at m a ts -> agree m m' a (mbi_end a ts + 8) -> mbi_at m' a ts.
Proof.
  intros Hm Hag. pose proof (total_nonneg ts). apply (mbi_at_term m); [done|apply (agree_sub _ _ _ _ _ _ Hag); lia|].
  apply (term_at_agree m m' _ _ _ Hag); [unfold mbi_end; lia|lia|by destruct Hm].
Qed.

Lemma mbi_valid m a ts : mbi_at m a ts -> Multiboot_CheckForValidMBI m a = true.
Proof.
  intros [H1 H2 H3 H4 H5 H6 H7 [T1 T2]]. pose proof (total_nonneg ts). pose proof (total_div ts H4) as Hd.
  unfold Multiboot_CheckForValidMBI. rewrite H5, H6. unfold mbi_end in *.
  assert (a mod 8 = 0) as -> by (by apply Z.mod_divide).
  assert ((16 + total ts) mod 8 = 0) as ->
    by (apply Z.mod_divide; [done|]; apply Z.divide_add_r; [by exists 2|done]).
  destruct (Z.ltb_spec (16 + total ts) 16); [lia|]. cbn [Z.eqb negb orb].
  replace (16 + total ts ⊕ a ⊖ 8) with (a + 8 + total ts)
    by (rewrite (wrap32_small (16 + total ts + a)), wrap32_small; lia).
  by rewrite T1, T2.
Qed.

(** The empty record is well formed. *)
Lemma CreateEmptyMBI_at m a :
  0 <= a -> (8 | a) -> a + 16 < 4294967296 ->
  exists m', Multiboot_CreateEmptyMBI a m = (true, m') /\ mbi_at m' a [] /\
    forall x, 0 <= x < 4294967296 -> ~ (a <= x < a + 16) -> load8 m' x = load8 m x.
Proof.
  intros H0 H8 Hh. unfold Multiboot_CreateEmptyMBI.
  assert (a mod 8 = 0) as -> by (by apply Z.mod_divide). cbn [Z.eqb negb].
  rewrite (wrap32_small (a + 8)) by lia. eexists. split; [reflexivity|].
  unfold set_tag_type, set_tag_size. split.
  - split; unfold mbi_end, total, mbi_total_size, mbi_reserved, term_at, tag_type, tag_size; rewrite ?Z.add_0_r;
      try done; try lia; [by mem_simpl..|]. split; by mem_simpl.
  - intros x Hx Hn. by mem_simpl.
Qed.

(** ** Finding a tag *)

(** The address of the first tag of type [ty], when the tags start at [p]. *)
Fixpoint tag_pos (p : Z) (ts : list Tag) (ty : Z) : option Z :=
  match ts with
  | [] => None
  | t :: ts => if tty t =? ty then Some p else tag_pos (p + tsize t) ts ty
  end.
Definition has_tag (ts : list Tag) (ty : Z) : bool := existsb (fun t => tty t =? ty) ts.
(** Where a tag of type [ty] is, or is to be written. *)
Definition slot (a : Z) (ts : list Tag) (ty : Z) : Z := default (mbi_end a ts) (tag_pos (a + 8) ts ty).

Lemma tag_pos_none p ts ty : tag_pos p ts ty = None <-> has_tag ts ty = false.
Proof.
  revert p. induction ts as [|t ts IH]; intros p; cbn; [done|].
  destruct (tty t =? ty); cbn; [done|]. apply IH.
Qed.

Lemma tag_pos_some m p ts ty q :
  seg m p ts -> Forall tag_ok ts -> tag_pos p ts ty = Some q ->
  exists ts1 t ts2, ts = ts1 ++ t :: ts2 /\ has_tag ts1 ty = false /\ tty t = ty /\
    q = p + total ts1 /\ tag_at m q t.
Proof.
  revert p. induction ts as [|t ts IH]; intros p Hs Hok; [done|]. cbn [tag_pos seg] in *.
  destruct Hs as [Ht Hs]. inversion_clear Hok. destruct (Z.eqb_spec (tty t) ty) as [E|E].
  - intros [= <-]. exists [], t, ts. cbn. by rewrite Z.add_0_r.
  - intros Hq. destruct (IH _ Hs ltac:(done) Hq) as (ts1 & t' & ts2 & -> & Hh & Ht' & -> & Hat).
    exists (t :: ts1), t', ts2. cbn [total has_tag existsb app].
    destruct (Z.eqb_spec (tty t) ty); [done|]. rewrite Z.add_assoc. done.
Qed.

Lemma find_tag_pos fuel m a ts ty p :
  seg m p ts -> term_at m (p + total ts) -> Forall tag_ok ts -> 0 <= p ->
  p + total ts + 8 = a + mbi_total_size m a -> 0 <= a -> a + mbi_total_size m a < 4294967296 ->
  (length ts < fuel)%nat -> find_tag fuel m a ty p = Some (tag_pos p ts ty).
Proof.
  intros Hs Hterm Hok Hp Hend Ha Hhi Hf. revert p fuel Hs Hterm Hp Hend Hf.
  induction ts as [|t ts IH]; intros p [|fuel] Hs Hterm Hp Hend Hf; cbn [length] in Hf; try lia;
    cbn [find_tag tag_pos seg total] in *.
  - rewrite Z.add_0_r in Hterm. destruct Hterm as [-> _]. done.
  - destruct Hs as [(Hty & Hsz & _) Hs]. inversion_clear Hok as [|?? [Ht _] Hok'].
    rewrite Hty, Hsz. pose proof (tsize_pos t). pose proof (total_nonneg ts).
    destruct (Z.eqb_spec (tty t) 0); [done|]. pose proof (load32_range m a).
    rewrite (wrap32_small (a + mbi_total_size m a)) by lia.
    destruct (Z.ltb_spec p (a + mbi_total_size m a)); [|lia]. cbn [negb andb].
    destruct (tty t =? ty); [done|]. rewrite wrap32_small, (Z.add_comm (tsize t)) by lia.
    apply IH; try done; try lia. by rewrite <- Z.add_assoc.
Qed.

Lemma find_slot fuel m a ts ty :
  mbi_at m a ts -> ty <> 0 -> (length ts < fuel)%nat ->
  Multiboot_FindMBITagAddress fuel m a ty = Some (slot a ts ty).
Proof.
  intros Hm Hty Hf. unfold Multiboot_FindMBITagAddress. rewrite (mbi_valid m a ts Hm).
  destruct Hm as [H1 H2 H3 H4 H5 H6 H7 H8]. cbn [negb]. unfold mbi_end in *. pose proof (total_nonneg ts).
  rewrite (wrap32_small (a + 8)) by lia.
  rewrite (find_tag_pos fuel m a ts ty (a + 8)) by (done || lia). cbn [mbind option_bind].
  unfold slot, mbi_end. destruct (tag_pos (a + 8) ts ty) as [q|] eqn:Eq; cbn [default from_option].
  - destruct (tag_pos_some m (a + 8) ts ty q H7 H4 Eq) as (?&t&?&?&?&<-&?&(->&_)). by rewrite Z.eqb_refl.
  - assert (tag_type m (a + 8) <> ty) as Hne.
    { destruct ts as [|t ts]; cbn [seg total tag_pos] in *.
      - rewrite Z.add_0_r in H8. destruct H8 as [-> _]. congruence.
      - destruct H7 as [(-> & _) _]. destruct (Z.eqb_spec (tty t) ty); done. }
    destruct (Z.eqb_spec (tag_type m (a + 8)) ty); [done|]. rewrite H5.
    rewrite (wrap32_small (16 + total ts + a)), wrap32_small by lia.
    replace (16 + total ts + a - 8) with (a + 8 + total ts) by lia. destruct H8 as [-> ->]. done.
Qed.

(** The guard of the functions that append: a tag that is there already. *)
Lemma no_slot_has m a ts ty : mbi_at m a ts -> ty <> 0 -> no_slot m (slot a ts ty) = has_tag ts ty.
Proof.
  intros [H1 H2 H3 H4 H5 H6 H7 H8] Hty. unfold no_slot, slot, MEMORY_NULL_PTR.
  destruct (tag_pos (a + 8) ts ty) as [q|] eqn:Eq; cbn [default from_option id].
  - destruct (tag_pos_some m (a + 8) ts ty q H7 H4 Eq) as (ts1&t&ts2&->&_&<-&_&(->&_)).
    destruct (Z.eqb_spec (tty t) 0); [done|]. rewrite orb_true_r. symmetry. apply existsb_exists.
    exists t. split; [apply in_elt|]. by rewrite Z.eqb_refl.
  - apply tag_pos_none in Eq. rewrite Eq. destruct H8 as [-> _].
    pose proof (total_div ts H4) as [k Hk]. destruct H2 as [j Hj]. unfold mbi_end.
    destruct (Z.eqb_spec (a + 8 + total ts) 0xFFFFFFFF); [lia|done].
Qed.

Lemma slot_end a ts ty : has_tag ts ty = false -> slot a ts ty = mbi_end a ts.
Proof. intros H. unfold slot. by rewrite (proj2 (tag_pos_none (a + 8) ts ty) H). Qed.

(** ** Appending a tag *)

(** [m'] holds the record with [t] at its end; besides the tag and the new
    terminating tag only the total size is written. *)
Definition appended (m m' : Mem) (a : Z) (ts : list Tag) (t : Tag) : Prop :=
  mbi_at m' a (ts ++ [t]) /\
  forall x, 0 <= x < 4294967296 -> ~ (a <= x < a + 4) -> ~ (mbi_end a ts <= x < mbi_end a ts + tsize t + 8) ->
    load8 m' x = load8 m x.

(** A tag written over the terminating tag. *)
Definition drafted (m m' : Mem) (a : Z) (ts : list Tag) (t : Tag) : Prop :=
  tag_at m' (mbi_end a ts) t /\
  forall x, 0 <= x < 4294967296 -> ~ (mbi_end a ts <= x < mbi_end a ts + tsize t) -> load8 m' x = load8 m x.

Lemma terminate_appends m m' a ts t :
  mbi_at m a ts -> drafted m m' a ts t -> tag_ok t -> mbi_end a ts + tsize t + 8 < 4294967296 ->
  exists m'', Multiboot_TerminateTag a (mbi_end a ts) m' = (true, m'') /\ appended m m'' a ts t.
Proof.
  intros [H1 H2 H3 H4 H5 H6 H7 H8] [Ht Hframe] [Hty Hdiv] Hroom. set (p := mbi_end a ts) in *.
  pose proof (tsize_pos t). pose proof (total_nonneg ts). pose proof (total_div ts H4) as Hd.
  assert (p = a + 8 + total ts) as Ep by done. pose proof Ht as (Ht1 & Ht2 & Ht3).
  assert (agree m m' a p) as Hag by (intros x Hx; apply Hframe; lia).
  unfold Multiboot_TerminateTag, mbi_reserved, mbi_total_size in *.
  rewrite (agree_window_load 4 m m' a p (a + 4)), (agree_window_load 4 m m' a p a) by (done || lia). rewrite H5, H6.
  assert (a mod 8 = 0) as -> by (by apply Z.mod_divide).
  assert ((16 + total ts) mod 8 = 0) as ->
    by (apply Z.mod_divide; [done|]; apply Z.divide_add_r; [by exists 2|done]).
  rewrite Ht1, Ht2. cbn [Z.eqb negb orb].
  destruct (Z.eqb_spec (tty t) 0); [done|]. cbn [andb]. destruct (Z.eqb_spec (tsize t) 0); [lia|].
  rewrite (wrap32_small (tsize t + p)) by lia. unfold set_tag_type, set_tag_size.
  set (m1 := store32 (store32 m' (tsize t + p) 0) (tsize t + p + 4) 8).
  assert (agree m' m1 a (p + tsize t)) as Hag1.
  { intros x Hx. unfold m1. by mem_simpl. }
  assert (load32 m1 a = 16 + total ts) as E1.
  { rewrite (agree_window_load 4 m' m1 a (p + tsize t)), (agree_window_load 4 m m' a p) by (done || lia). done. }
  assert (tag_size m1 p = tsize t) as E2.
  { unfold tag_size. rewrite (agree_window_load 4 m' m1 a (p + tsize t)) by (done || lia). done. }
  rewrite E1, E2. rewrite (wrap32_small (16 + total ts + tsize t)) by lia.
  eexists. split; [reflexivity|]. set (m2 := store32 m1 a (16 + total ts + tsize t)).
  assert (agree m1 m2 (a + 4) (p + tsize t + 8)) as Hag2.
  { intros x Hx. unfold m2. by mem_simpl. }
  split.
  - split; rewrite ?mbi_end_snoc; try done.
    + apply Forall_app. split; [done|]. by constructor.
    + unfold mbi_total_size, m2. rewrite load32_store32_eq, wrap32_small, total_app by lia. cbn [total]. lia.
    + unfold mbi_reserved. rewrite (agree_window_load 4 m1 m2 (a + 4) (p + tsize t + 8)) by (done || lia).
      rewrite (agree_window_load 4 m' m1 a (p + tsize t)), (agree_window_load 4 m m' a p) by (done || lia). done.
    + apply seg_app. fold (mbi_end a ts). fold p. cbn [seg]. split; [|split; [|done]].
      * apply (seg_agree m1 m2 _ ts p); [apply (agree_sub m1 m2 (a + 4) (p + tsize t + 8)); done || lia|lia|].
        apply (seg_agree m' m1 _ ts p); [apply (agree_sub m' m1 a (p + tsize t)); done || lia|lia|].
        apply (seg_agree m m' _ ts p); [apply (agree_sub m m' a p); done || lia|lia|done].
      * change (a + 8 + total ts) with p.
        apply (tag_at_agree m1 m2 p t (p + tsize t)); [apply (agree_sub m1 m2 (a + 4) (p + tsize t + 8)); done || lia|lia|].
        apply (tag_at_agree m' m1 p t (p + tsize t)); [apply (agree_sub m' m1 a (p + tsize t)); done || lia|lia|done].
    + fold p. split; unfold tag_type, tag_size;
        rewrite (agree_window_load 4 m1 m2 (a + 4) (p + tsize t + 8)) by (done || lia); unfold m1;
        rewrite (Z.add_comm p); by mem_simpl.
  - fold p. intros x Hx Hn1 Hn2. unfold m2, m1. mem_simpl. apply Hframe; lia.
Qed.

(** What is written after the tag does not matter: the terminating tag goes
    over it. *)
Lemma append_over m m1 a ts t :
  mbi_at m a ts -> agree m m1 a (mbi_end a ts) -> tag_at m1 (mbi_end a ts) t -> tag_ok t ->
  mbi_end a ts + tsize t + 8 < 4294967296 ->
  exists m', Multiboot_TerminateTag a (mbi_end a ts) m1 = (true, m') /\ mbi_at m' a (ts ++ [t]) /\
    forall x, 0 <= x < 4294967296 -> ~ (a <= x < a + 4) -> ~ (mbi_end a ts <= x < mbi_end a ts + tsize t + 8) ->
      load8 m' x = load8 m1 x.
Proof.
  intros Hm Hag Ht Hok Hroom. pose proof (tsize_pos t). pose proof (total_nonneg ts). pose proof (mbi_low _ _ _ Hm).
  set (p := mbi_end a ts) in *. assert (p = a + 8 + total ts) as Ep by done.
  set (m0 := store32 (store32 m1 p 0) (p + 4) 8).
  assert (forall x, 0 <= x < 4294967296 -> ~ (p <= x < p + 8) -> load8 m0 x = load8 m1 x) as Heq.
  { intros x Hx Hn. unfold m0. by mem_simpl. }
  assert (mbi_at m0 a ts) as Hm0.
  { apply (mbi_at_term m); [done| |].
    - apply (agree_trans m m1 m0); [done|]. intros x Hx. apply Heq; lia.
    - fold p. split; unfold tag_type, tag_size, m0; by mem_simpl. }
  destruct (terminate_appends m0 m1 a ts t) as (m' & HE & Ha & Hf); try done.
  { split; [done|]. intros x Hx Hn. symmetry. apply Heq; [done|lia]. }
  exists m'. split; [done|]. split; [done|]. intros x Hx Hn1 Hn2. rewrite Hf by done. apply Heq; [done|lia].
Qed.

(** ** The functions that append a tag from memory *)

(** The bytes of an [n]-byte integer, least significant first. *)
Definition le (n : nat) (v : Z) : list Z := map (fun i => wrap8 (v / 2 ^ (8 * Z.of_nat i))) (seq 0 n).

Lemma length_load_bytes m a n : 0 <= n -> Z.of_nat (length (load_bytes m a n)) = n.
Proof. intros. unfold load_bytes. rewrite length_map, length_seq. lia. Qed.

Lemma load_bytes_app m a n k :
  0 <= n -> 0 <= k -> load_bytes m a (n + k) = load_bytes m a n ++ load_bytes m (a + n) k.
Proof.
  intros. unfold load_bytes. rewrite Z2Nat.inj_add, seq_app, map_app by lia. f_equal.
  apply list_eq. intros i.
  change (@map nat Z) with (@fmap list _ nat Z). rewrite !list_lookup_fmap.
  destruct (decide (i < Z.to_nat k)%nat).
  - rewrite !lookup_seq_lt by lia. cbn. do 2 f_equal. lia.
  - rewrite !lookup_seq_ge by lia. done.
Qed.

Lemma load_bytes_store n m a v :
  0 <= a -> a + Z.of_nat n <= 4294967296 -> load_bytes (store n m a v) a (Z.of_nat n) = le n v.
Proof.
  intros. unfold load_bytes, le. rewrite Nat2Z.id. apply map_ext_in. intros i Hi%in_seq.
  rewrite load8_store by lia. replace (a + Z.of_nat i - a) with (Z.of_nat i) by lia.
  destruct (Z.leb_spec a (a + Z.of_nat i)), (Z.ltb_spec (a + Z.of_nat i) (a + Z.of_nat n)); done || lia.
Qed.

(** The tag that the bytes written at the end of the record make. *)
Lemma drafted_intro m m' a ts ty n :
  0 <= n -> tag_type m' (mbi_end a ts) = ty -> tag_size m' (mbi_end a ts) = 8 + n ->
  (forall x, 0 <= x < 4294967296 -> ~ (mbi_end a ts <= x < mbi_end a ts + 8 + n) -> load8 m' x = load8 m x) ->
  drafted m m' a ts (mkTag ty (load_bytes m' (mbi_end a ts + 8) n)).
Proof.
  intros Hn H1 H2 H3. unfold drafted, tag_at, tsize. cbn [tty body].
  rewrite length_load_bytes by done. split; [done|]. intros x Hx Hne. apply H3; [done|lia].
Qed.

(** What every such function does: nothing when the tag is there, and
    otherwise append the tag [t]. *)
Definition appends (r : option (bool * Mem)) (m : Mem) (a : Z) (ts : list Tag) (t : Tag) : Prop :=
  if has_tag ts (tty t) then r = Some (false, m)
  else exists m', r = Some (true, m') /\ appended m m' a ts t.

(** The memory [m1] a function has when it calls [Multiboot_TerminateTag]. *)
Lemma append_tag m m1 a ts ty n :
  mbi_at m a ts -> ty <> 0 -> 0 <= n -> (8 | n) -> mbi_end a ts + n + 16 < 4294967296 ->
  tag_type m1 (mbi_end a ts) = ty -> tag_size m1 (mbi_end a ts) = 8 + n ->
  (forall x, 0 <= x < 4294967296 -> ~ (mbi_end a ts <= x < mbi_end a ts + 8 + n) -> load8 m1 x = load8 m x) ->
  exists m', Multiboot_TerminateTag a (mbi_end a ts) m1 = (true, m') /\
    appended m m' a ts (mkTag ty (load_bytes m1 (mbi_end a ts + 8) n)).
Proof.
  intros Hm Hty Hn Hd Hroom H1 H2 H3.
  apply terminate_appends; [done|by apply drafted_intro| |].
  - split; [done|]. unfold tsize. cbn [body]. rewrite length_load_bytes by done.
    apply Z.divide_add_r; [by exists 1|done].
  - unfold tsize. cbn [body]. rewrite length_load_bytes by done. lia.
Qed.

Lemma load_bytes_store_ne n m a v b k :
  0 <= a -> a + Z.of_nat n <= 4294967296 -> 0 <= b -> b + k <= 4294967296 ->
  b + k <= a \/ a + Z.of_nat n <= b -> load_bytes (store n m a v) b k = load_bytes m b k.
Proof. intros. apply load_bytes_ext. intros i Hi. apply load8_store_ne; lia. Qed.

Lemma load_bytes_store8 m a v : 0 <= a < 4294967296 -> load_bytes (store8 m a v) a 1 = [wrap8 v].
Proof. intros. unfold load_bytes. change (Z.to_nat 1) with 1%nat. cbn [seq map Z.of_nat].
  by rewrite load8_store8_in, Z.add_0_r, Z.eqb_refl by lia. Qed.

Lemma load_bytes_store8_ne m a v b k :
  0 <= a < 4294967296 -> 0 <= b -> b + k <= 4294967296 -> b + k <= a \/ a + 1 <= b ->
  load_bytes (store8 m a v) b k = load_bytes m b k.
Proof. intros. apply load_bytes_ext. intros i Hi. rewrite load8_store8_in by lia. case_cmp; [lia|done]. Qed.

Lemma load32_store8_ne m a v b :
  0 <= a < 4294967296 -> 0 <= b <= 4294967292 -> b + 4 <= a \/ a + 1 <= b -> load32 (store8 m a v) b = load32 m b.
Proof. intros. apply load_ext. intros i Hi. rewrite load8_store8_in by lia. case_cmp; [lia|done]. Qed.

Lemma load8_store8_ne m a v b : 0 <= a < 4294967296 -> 0 <= b < 4294967296 -> a <> b -> load8 (store8 m a v) b = load8 m b.
Proof. intros. rewrite load8_store8_in by lia. case_cmp; [lia|done]. Qed.

(** Reads of the tag being written. *)
Ltac tag_simpl :=
  unfold tag_type, tag_size, set_tag_type, set_tag_size;
  repeat first
    [ rewrite load32_store32_eq by lia | rewrite load32_store32_ne by lia | rewrite load32_store8_ne by lia
    | rewrite load8_store_ne by lia | rewrite load8_store8_ne by lia
    | rewrite (load_bytes_store 4) by lia | rewrite (load_bytes_store_ne 4) by lia
    | rewrite load_bytes_store8 by lia | rewrite load_bytes_store8_ne by lia ].

(** Room for a tag of [n] bytes after its type and size. *)
Definition room (a : Z) (ts : list Tag) (n : Z) : Prop := mbi_end a ts + n + 16 < 4294967296.
(** The 44 bytes of [*kernel_info] are not where that tag goes. *)
Definition ki_away (ki a : Z) (ts : list Tag) (n : Z) : Prop :=
  0 <= ki /\ ki + 44 <= 4294967296 /\ (ki + 44 <= mbi_end a ts \/ mbi_end a ts + 8 + n <= ki).

(** Find the place of a tag, or give up. *)
Ltac open_slot Hm :=
  rewrite (find_slot _ _ _ _ _ Hm) by done; cbn [mbind option_bind];
  rewrite (no_slot_has _ _ _ _ Hm) by done;
  unfold appends; cbn [tty];
  match goal with |- context [has_tag ?ts ?ty] =>
    destruct (has_tag ts ty) eqn:?Hh; [done|rewrite (slot_end _ _ _ Hh)] end.

(** The call of [Multiboot_TerminateTag] after the tag has been written. *)
Ltac append_tag_with ty n :=
  unfold terminate;
  lazymatch goal with |- context [Multiboot_TerminateTag ?a (mbi_end ?a ?ts) ?m1] =>
    lazymatch goal with Hm : mbi_at ?m a ts |- _ =>
      let E := fresh "E" in
      destruct (append_tag m m1 a ts ty n) as (m' & E & Ha);
      [done|done|lia|try done; by exists (n / 8)|lia|by tag_simpl|by tag_simpl
      |let x := fresh in let Hx := fresh in let Hn := fresh in intros x Hx Hn; by tag_simpl|rewrite E; exists m'; split; [done|]]
    end
  end.

(** The body of the tag, member by member: [n] is the sum of their sizes. *)
Ltac split_body n :=
  lazymatch goal with Ha : appended _ _ _ _ (mkTag _ (load_bytes ?m1 ?q ?k)) |- _ =>
    change (load_bytes m1 q k) with (load_bytes m1 q n) in Ha;
    rewrite !load_bytes_app in Ha by lia; rewrite <- !Z.add_assoc in Ha;
    cbn [Z.add Pos.add Pos.succ] in Ha; revert Ha; tag_simpl; done
  end.

(** The load address of the kernel is saved in a tag of its own, once. *)
Lemma SaveLoadBaseAddress_correct fuel m a ts ki :
  mbi_at m a ts -> (length ts < fuel)%nat -> room a ts 8 -> ki_away ki a ts 8 ->
  appends (Multiboot_SaveLoadBaseAddress fuel a ki m) m a ts
    (mkTag MULTIBOOT_TAG_TYPE_LOAD_BASE_ADDR (le 4 (ki_start m ki) ++ le 4 0)).
Proof.
  intros Hm Hf Hr (K1 & K2 & K3). unfold room in Hr. pose proof (mbi_low _ _ _ Hm). pose proof (total_nonneg ts).
  assert (0 <= mbi_end a ts) by (unfold mbi_end; lia). unfold Multiboot_SaveLoadBaseAddress, ki_start.
  open_slot Hm. append_tag_with MULTIBOOT_TAG_TYPE_LOAD_BASE_ADDR 8.
  split_body (4 + 4).
Qed.

(** The name of the loader, with the three bytes after it that nobody wrote. *)
Lemma SaveBootLoaderInfo_correct fuel m a ts :
  mbi_at m a ts -> (length ts < fuel)%nat -> room a ts 8 ->
  appends (Multiboot_SaveBootLoaderInfo fuel a m) m a ts
    (mkTag MULTIBOOT_TAG_TYPE_BOOT_LOADER_NAME ([65; 86; 66; 76; 0] ++ load_bytes m (mbi_end a ts + 13) 3)).
Proof.
  intros Hm Hf Hr. unfold room in Hr. pose proof (mbi_low _ _ _ Hm). pose proof (total_nonneg ts).
  assert (0 <= mbi_end a ts) by (unfold mbi_end; lia). unfold Multiboot_SaveBootLoaderInfo.
  open_slot Hm. append_tag_with MULTIBOOT_TAG_TYPE_BOOT_LOADER_NAME 8.
  split_body (1 + (1 + (1 + (1 + (1 + 3))))).
Qed.

Lemma find_signature_first n m bp j :
  (j <= n)%nat -> 0 <= bp -> bp + 16 * Z.of_nat j < 4294967296 ->
  (forall i, (i < j)%nat -> load16 m (bp + 16 * Z.of_nat i) <> 0xAA55) ->
  load16 m (bp + 16 * Z.of_nat j) = 0xAA55 -> find_signature n m bp = bp + 16 * Z.of_nat j.
Proof.
  revert bp j. induction n as [|n IH]; intros bp j Hj H0 Hw Hne Heq; cbn [find_signature].
  - replace j with 0%nat by lia. lia.
  - destruct j as [|j].
    + rewrite Z.mul_0_r, Z.add_0_r in Heq |- *. by rewrite Heq.
    + pose proof (Hne 0%nat ltac:(lia)) as H1. rewrite Z.mul_0_r, Z.add_0_r in H1.
      destruct (Z.eqb_spec (load16 m bp) 0xAA55); [done|].
      rewrite wrap32_small by lia. rewrite (IH (bp + 16) j); [lia|lia|lia|lia| |].
      * intros i Hi. specialize (Hne (S i) ltac:(lia)). by replace (bp + 16 + 16 * Z.of_nat i) with (bp + 16 * Z.of_nat (S i)) by lia.
      * by replace (bp + 16 + 16 * Z.of_nat j) with (bp + 16 * Z.of_nat (S j)) by lia.
Qed.

(** The boot device: the partition's number is read off the distance of its
    entry from the signature that ends the table, [j] entries further. *)
Theorem SaveBootDeviceInfo_correct fuel m a ts ki j :
  mbi_at m a ts -> (length ts < fuel)%nat -> room a ts 16 -> ki_away ki a ts 16 ->
  let bp := ki_boot_partition m ki in
  (j <= 4)%nat -> bp + 16 * Z.of_nat j < 4294967296 ->
  (forall i, (i < j)%nat -> load16 m (bp + 16 * Z.of_nat i) <> 0xAA55) ->
  load16 m (bp + 16 * Z.of_nat j) = 0xAA55 ->
  appends (Multiboot_SaveBootDeviceInfo fuel a ki m) m a ts
    (mkTag MULTIBOOT_TAG_TYPE_BOOTDEV
       (le 4 (ki_boot_drive_ID m ki) ++ le 4 (4 - Z.of_nat j) ++ le 4 0xFFFFFFFF ++
        load_bytes m (mbi_end a ts + 20) 4)).
Proof.
  intros Hm Hf Hr (K1 & K2 & K3) bp Hj Hw Hne Heq. unfold room in Hr.
  pose proof (mbi_low _ _ _ Hm). pose proof (total_nonneg ts). pose proof (load32_range m (ki + 4)).
  assert (0 <= mbi_end a ts) by (unfold mbi_end; lia). unfold Multiboot_SaveBootDeviceInfo.
  open_slot Hm. fold bp. rewrite (find_signature_first 5 m bp j) by (done || unfold bp, ki_boot_partition; lia).
  rewrite Heq. cbn [Z.eqb Pos.eqb negb].
  match goal with |- context [?x ⊖ ?y / 16] => replace (x ⊖ y / 16) with (4 - Z.of_nat j) end.
  2: { unfold bp, ki_boot_partition, ki_boot_drive_ID. tag_simpl.
       replace (load32 m (ki + 4) + 16 * Z.of_nat j - load32 m (ki + 4)) with (Z.of_nat j * 16) by lia.
       rewrite (wrap32_small (Z.of_nat j * 16)), Z.div_mul, wrap32_small by lia. done. }
  unfold ki_boot_drive_ID. append_tag_with MULTIBOOT_TAG_TYPE_BOOTDEV 16.
  split_body (4 + (4 + (4 + 4))).
Qed.

(** A record in a memory that shows the same bytes [d] further. *)
Lemma mbi_at_shift m m' a d ts :
  mbi_at m a ts -> (forall x, a <= x < mbi_end a ts + 8 -> load8 m' (x + d) = load8 m x) ->
  (8 | d) -> 0 <= a + d -> mbi_end a ts + d + 8 < 4294967296 -> mbi_at m' (a + d) ts.
Proof.
  intros [H1 H2 H3 H4 H5 H6 H7 H8] Hag Hd H0 Hh. pose proof (total_nonneg ts). unfold mbi_end in *.
  set (hi := a + 8 + total ts + 8) in *.
  assert (forall n x, a <= x -> x + Z.of_nat n <= hi -> load n m' (x + d) = load n m x) as Hl.
  { intros n. induction n as [|n IH]; intros x ??; cbn [load]; [done|].
    rewrite Hag by lia. replace (x + d + 1) with (x + 1 + d) by lia. rewrite IH by lia. done. }
  assert (forall p us, a <= p -> p + total us <= hi -> seg m p us -> seg m' (p + d) us) as Hs.
  { clear -Hag Hl. intros p us. revert p. induction us as [|t us IH]; intros p ??; [done|]. cbn [seg total] in *.
    pose proof (tsize_pos t). pose proof (total_nonneg us). intros [(T1 & T2 & T3) Hs]. split.
    - unfold tag_at, tag_type, tag_size, tsize in *. replace (p + d + 4) with (p + 4 + d) by lia. rewrite !Hl by lia.
      split; [done|]. split; [done|]. rewrite <- T3 at 2. apply load_bytes_ext. intros i Hi.
      rewrite <- (Hag (p + 8 + i)) by lia. f_equal. lia.
    - replace (p + d + tsize t) with (p + tsize t + d) by lia. apply IH; done || lia. }
  unfold mbi_total_size, mbi_reserved in *. split; unfold mbi_end, mbi_total_size, mbi_reserved; try done; try lia.
  - by apply Z.divide_add_r.
  - by rewrite Hl by lia.
  - replace (a + d + 4) with (a + 4 + d) by lia. by rewrite Hl by lia.
  - replace (a + d + 8) with (a + 8 + d) by lia. apply Hs; done || lia.
  - destruct H8 as [T1 T2]. unfold term_at, tag_type, tag_size in *.
    replace (a + d + 8 + total ts) with (a + 8 + total ts + d) by lia.
    replace (a + 8 + total ts + d + 4) with (a + 8 + total ts + 4 + d) by lia. by rewrite !Hl by lia.
Qed.

(** ** Finding and ending a tag *)

(** Finding a tag: the answer is the address of the first tag of the type,
    or of the terminating tag when the record has none, which is where the next
    tag is to be written. *)
Theorem Multiboot_FindMBITagAddress_correct fuel m a ts ty :
  mbi_at m a ts -> ty <> 0 -> (length ts < fuel)%nat ->
  exists q, Multiboot_FindMBITagAddress fuel m a ty = Some q /\
    (has_tag ts ty = true -> exists ts1 t ts2, ts = ts1 ++ t :: ts2 /\ has_tag ts1 ty = false /\ tty t = ty /\
                             q = mbi_end a ts1 /\ tag_at m q t) /\
    (has_tag ts ty = false -> q = mbi_end a ts).
Proof.
  intros Hm Hty Hf. exists (slot a ts ty). split; [by apply find_slot|]. split; [|apply slot_end].
  intros Hh. unfold slot. destruct (tag_pos (a + 8) ts ty) as [q|] eqn:Eq.
  - destruct Hm as [H1 H2 H3 H4 H5 H6 H7 H8].
    destruct (tag_pos_some m (a + 8) ts ty q H7 H4 Eq) as (ts1 & t & ts2 & E1 & E2 & E3 & E4 & E5). cbn [default from_option id].
    by exists ts1, t, ts2.
  - apply tag_pos_none in Eq. congruence.
Qed.

(** C14. Ending a tag: on a record with a tag written after its last one, whatever
    comes after that tag, the record gets the tag as its last one and stays
    well formed; besides the total size and the terminating tag nothing is
    written. *)
Theorem Multiboot_TerminateTag_appends m m1 a ts t :
  mbi_at m a ts -> agree m m1 a (mbi_end a ts) -> tag_at m1 (mbi_end a ts) t -> tag_ok t ->
  mbi_end a ts + tsize t + 8 < 4294967296 ->
  exists m', Multiboot_TerminateTag a (mbi_end a ts) m1 = (true, m') /\ mbi_at m' a (ts ++ [t]) /\
    forall x, 0 <= x < 4294967296 -> ~ (a <= x < a + 4) -> ~ (mbi_end a ts <= x < mbi_end a ts + tsize t + 8) ->
      load8 m' x = load8 m1 x.
Proof. apply append_over. Qed.

(** *** On a small record *)

(** An empty record at [0x8000]. *)
Definition demo_record : Mem := (Multiboot_CreateEmptyMBI 0x8000 ∅).2.
Lemma demo_record_at : mbi_at demo_record 0x8000 [].
Proof.
  destruct (CreateEmptyMBI_at ∅ 0x8000) as (m' & E & Hm & _); [lia|by exists 0x1000|lia|].
  unfold demo_record. by rewrite E.
Qed.

(** The record with the loader's name. *)
Definition demo_named : Mem := (default (false, ∅) (Multiboot_SaveBootLoaderInfo 3 0x8000 demo_record)).2.
Definition loader_name : Tag := mkTag MULTIBOOT_TAG_TYPE_BOOT_LOADER_NAME [65; 86; 66; 76; 0; 0; 0; 0].
Lemma demo_named_at : mbi_at demo_named 0x8000 [loader_name].
Proof.
  pose proof (SaveBootLoaderInfo_correct 3 demo_record 0x8000 [] demo_record_at) as H.
  unfold appends in H. cbn [has_tag existsb] in H. destruct H as (m' & E & [H _]); [cbn; lia|unfold room, mbi_end; cbn; lia|].
  unfold demo_named. by rewrite E.
Qed.

Lemma Multiboot_FindMBITagAddress_correct_witness :
  exists q, Multiboot_FindMBITagAddress 2 demo_named 0x8000 MULTIBOOT_TAG_TYPE_MMAP = Some q /\ q = 0x8018.
Proof.
  destruct (Multiboot_FindMBITagAddress_correct 2 demo_named 0x8000 [loader_name] MULTIBOOT_TAG_TYPE_MMAP demo_named_at)
    as (q & H1 & _ & H2); [done|cbn; lia|].
  exists q. split; [exact H1|]. rewrite (H2 eq_refl). reflexivity.
Defined.

Lemma Multiboot_TerminateTag_appends_witness :
  let m1 := store32 (store32 demo_record 0x8008 21) 0x800C 8 in
  exists m', Multiboot_TerminateTag 0x8000 0x8008 m1 = (true, m') /\ mbi_at m' 0x8000 [mkTag 21 []].
Proof.
  destruct (Multiboot_TerminateTag_appends demo_record (store32 (store32 demo_record 0x8008 21) 0x800C 8) 0x8000 []
    (mkTag 21 []) demo_record_at) as (m' & H1 & H2 & _).
  - intros x Hx. unfold mbi_end in Hx. cbn in Hx. by mem_simpl.
  - split; [by vm_compute|]. split; [by vm_compute|done].
  - split; [done|]. by exists 1.
  - unfold mbi_end, tsize. cbn. lia.
  - exists m'. split; [exact H1|exact H2].
Defined.

Lemma SaveBootDeviceInfo_correct_witness :
  let m := store16 (store32 (store32 demo_record 0x5000 0x80) 0x5004 0x7DCE) 0x7DFE 0xAA55 in
  exists m', Multiboot_SaveBootDeviceInfo 3 0x8000 0x5000 m = Some (true, m') /\
    appended m m' 0x8000 [] (mkTag MULTIBOOT_TAG_TYPE_BOOTDEV
      (le 4 0x80 ++ le 4 1 ++ le 4 0xFFFFFFFF ++ load_bytes m 0x801C 4)).
Proof.
  set (m := store16 _ _ _).
  assert (mbi_at m 0x8000 []) as Hm.
  { apply (mbi_at_agree demo_record); [exact demo_record_at|]. intros x Hx. unfold mbi_end in Hx. cbn in Hx.
    unfold m. by mem_simpl. }
  assert (ki_boot_partition m 0x5000 = 0x7DCE) as E1 by by vm_compute.
  assert (ki_boot_drive_ID m 0x5000 = 0x80) as E2 by by vm_compute.
  pose proof (SaveBootDeviceInfo_correct 3 m 0x8000 [] 0x5000 3 Hm) as H. cbn zeta in H. rewrite E1, E2 in H.
  apply H; [cbn; lia|unfold room, mbi_end; cbn; lia|unfold ki_away, mbi_end; cbn; lia|lia|lia| |by vm_compute].
  intros i Hi. assert (i = 0 \/ i = 1 \/ i = 2)%nat as [-> |[-> | ->]] by lia; by vm_compute.
Defined.
