(* ===== verification/Ctl.v ===== *)
(** * Functions with early returns

    The C functions of the loader return [bool] from inside nested loops and
    change memory all the way. [M S A] is a statement of such a function: from
    a state it goes on with a value, or returns from the function, or does not
    come back within the fuel of its loops. *)

From S2P Require Import Prelude.

Inductive ctl (S A : Type) : Type :=
  | Go (a : A) (s : S)              (* goes on with the next statement *)
  | Ret (b : bool) (s : S)          (* [return b] *)
  | Stuck.                          (* a loop did not end within its fuel *)
Arguments Go {S A}.
Arguments Ret {S A}.
Arguments Stuck {S A}.

Definition M (S A : Type) : Type := S -> ctl S A.

#[export] Instance M_ret S : MRet (M S) := fun A a s => Go a s.
#[export] Instance M_bind S : MBind (M S) := fun A B k e s =>
  match e s with
  | Go a s => k a s
  | Ret b s => Ret b s
  | Stuck => Stuck
  end.

Section Ctl.
Context {S : Type}.

(** [return b;] *)
Definition return_ {A} (b : bool) : M S A := fun s => Ret b s.
(** An expression that reads the state; an assignment to it. *)
Definition gets {A} (f : S -> A) : M S A := fun s => Go (f s) s.
Definition modify (f : S -> S) : M S unit := fun s => Go tt (f s).
(** A call of a function that returns a value; [None] does not come back. *)
Definition call {A} (f : S -> option (A * S)) : M S A := fun s =>
  match f s with
  | Some (a, s) => Go a s
  | None => Stuck
  end.
(** An expression that may not come to an end. *)
Definition calls {A} (f : S -> option A) : M S A := fun s =>
  match f s with
  | Some a => Go a s
  | None => Stuck
  end.

(** [if (c) return b;] *)
Definition return_if (c : bool) (b : bool) : M S unit := if c then return_ b else mret tt.

(** [while (cond) body], with the locals [a]; the body gives the locals of the
    next turn, or those a [break] leaves. *)
Fixpoint while {A} (fuel : nat) (cond : A -> S -> bool) (body : A -> M S (A + A)) (a : A) : M S A :=
  match fuel with
  | O => fun _ => Stuck
  | Datatypes.S f =>
      c ← gets (cond a);
      if c : bool then
        r ← body a;
        match r with
        | inl a => while f cond body a
        | inr a => mret a
        end
      else mret a
  end.

(** A function body that ends without a [return] returns [b]. *)
Definition run {A} (e : M S A) (b : bool) (s : S) : option (bool * S) :=
  match e s with
  | Go _ s => Some (b, s)
  | Ret b s => Some (b, s)
  | Stuck => None
  end.

Lemma while_stuck {A} fuel cond (body : A -> M S (A + A)) a s :
  (forall a s, cond a s = true -> (exists a' s', body a s = Go (inl a') s' /\ cond a' s' = true) \/ body a s = Stuck) ->
  cond a s = true -> while fuel cond body a s = Stuck.
Proof.
  intros Hb. revert a s. induction fuel as [|f IH]; intros a s Hc; [done|].
  cbn [while]. unfold gets, mbind, M_bind. rewrite Hc.
  destruct (Hb a s Hc) as [(a' & s' & -> & Hc')| ->]; [by apply IH|done].
Qed.

(** *** What a statement can return

    [only_false e]: [e] returns from the function only with [false].
    [never e]: the statement after [e] is never reached, and the function does
    not return [true] in it. *)
Definition only_false {A} (e : M S A) : Prop :=
  forall s, match e s with Ret b _ => b = false | _ => True end.
Definition never {A} (e : M S A) : Prop :=
  forall s, match e s with Ret b _ => b = false | Stuck => True | Go _ _ => False end.

Lemma only_false_ret {A} (a : A) : only_false (mret a).
Proof. by intros s. Qed.
Lemma only_false_gets {A} (f : S -> A) : only_false (gets f).
Proof. by intros s. Qed.
Lemma only_false_modify f : only_false (modify f).
Proof. by intros s. Qed.
Lemma only_false_call {A} (f : S -> option (A * S)) : only_false (call f).
Proof. intros s. unfold call. by destruct (f s) as [[a s']|]. Qed.
Lemma only_false_calls {A} (f : S -> option A) : only_false (calls f).
Proof. intros s. unfold calls. by destruct (f s). Qed.
Lemma only_false_return_if c : only_false (return_if c false).
Proof. intros s. by destruct c. Qed.
Lemma only_false_bind {A B} (e : M S A) (k : A -> M S B) :
  only_false e -> (forall a, only_false (k a)) -> only_false (e ≫= k).
Proof.
  intros He Hk s. specialize (He s). unfold mbind, M_bind. destruct (e s) as [a s'|b s'|]; [apply Hk|done|done].
Qed.
Lemma only_false_while {A} fuel cond (body : A -> M S (A + A)) a :
  (forall a, only_false (body a)) -> only_false (while fuel cond body a).
Proof.
  intros Hb. revert a. induction fuel as [|f IH]; intros a; [by intros s|]. cbn [while].
  apply only_false_bind; [apply only_false_gets|]. intros c. destruct c; [|apply only_false_ret].
  apply only_false_bind; [apply Hb|]. intros [a'|a']; [apply IH|apply only_false_ret].
Qed.

(** What comes before does not help, what comes after is not reached. *)
Lemma never_after {A B} (e : M S A) (k : A -> M S B) :
  only_false e -> (forall a, never (k a)) -> never (e ≫= k).
Proof.
  intros He Hk s. specialize (He s). unfold mbind, M_bind. destruct (e s) as [a s'|b s'|]; [apply Hk|done|done].
Qed.
Lemma never_before {A B} (e : M S A) (k : A -> M S B) : never e -> never (e ≫= k).
Proof. intros He s. specialize (He s). unfold mbind, M_bind. by destruct (e s) as [a s'|b s'|]. Qed.
Lemma never_run {A} (e : M S A) b s : never e -> run e b s = None \/ exists s', run e b s = Some (false, s').
Proof. intros He. specialize (He s). unfold run. destruct (e s) as [a s'|b' s'|]; [done|subst; eauto|by left]. Qed.
End Ctl.

Create HintDb ctl discriminated.
#[export] Hint Resolve only_false_ret only_false_gets only_false_modify only_false_call only_false_calls
  only_false_return_if only_false_bind only_false_while : ctl.
