(* ===== verification/Loader.v ===== *)
(** * The Multiboot loader

    [bootloader/multiboot/src/multiboot.c]: the search for the kernel's
    Multiboot header, loading of the kernel file, of the kernel and of its
    modules, the answers to the header's requests, and [Multiboot_Boot]. The
    block lists are those of [bootloader/initial/include/bootdefs.h]. The
    functions are written in the monad of [Ctl.v]; [fuel] bounds every loop. *)

From Stdlib Require Import Ascii String.
From S2P Require Import Prelude CMem Ports Bios BootMem Elf BootConsole Mbi Ctl.

(** ** The header *)

Definition MULTIBOOT_HEADER_TAG_INFORMATION_REQUEST : Z := 1.
Definition MULTIBOOT_HEADER_TAG_ADDRESS : Z := 2.
Definition MULTIBOOT_HEADER_TAG_ENTRY_ADDRESS : Z := 3.
Definition MULTIBOOT_HEADER_TAG_CONSOLE_FLAGS : Z := 4.
Definition MULTIBOOT_HEADER_TAG_FRAMEBUFFER : Z := 5.
Definition MULTIBOOT_HEADER_TAG_MODULE_ALIGN : Z := 6.
Definition MULTIBOOT_HEADER_TAG_EFI_BS : Z := 7.
Definition MULTIBOOT_HEADER_TAG_ENTRY_ADDRESS_EFI32 : Z := 8.
Definition MULTIBOOT_HEADER_TAG_ENTRY_ADDRESS_EFI64 : Z := 9.
Definition MULTIBOOT_HEADER_TAG_RELOCATABLE : Z := 10.
Definition MULTIBOOT_ARCHITECTURE_I386 : Z := 0.
Definition MULTIBOOT_CONSOLE_FLAGS_CONSOLE_REQUIRED : Z := 1.
Definition MULTIBOOT_CONSOLE_FLAGS_EGA_TEXT_SUPPORTED : Z := 2.

(** [struct Multiboot_Header_Magic_Fields] at [h], [SIZEOF_MAGIC] bytes. *)
Definition SIZEOF_MAGIC : Z := 16.
Definition h_magic (m : Mem) (h : Z) : Z := load32 m h.
Definition h_architecture (m : Mem) (h : Z) : Z := load32 m (h + 4).
Definition h_header_length (m : Mem) (h : Z) : Z := load32 m (h + 8).
Definition h_checksum (m : Mem) (h : Z) : Z := load32 m (h + 12).
(** [struct Multiboot_Header_Tag] at [t]. *)
Definition ht_type (m : Mem) (t : Z) : Z := load16 m t.
Definition ht_flags (m : Mem) (t : Z) : Z := load16 m (t + 2).
Definition ht_size (m : Mem) (t : Z) : Z := load32 m (t + 4).
(** [requests[i]] of an information request, and their number. *)
Definition ht_request (m : Mem) (t i : Z) : Z := load32 m (t + 8 + 4 * i).
Definition ht_nrequests (m : Mem) (t : Z) : Z := (ht_size m t ⊖ 8) / 4.

Definition MAGIC : Z := 0xE85250D6.

(** The [for]: [n] words left, at word [i]; only even words are looked at. *)
Fixpoint find_magic (n : nat) (m : Mem) (start i : Z) : option Z :=
  match n with
  | O => None
  | S n' =>
      if negb (i mod 2 =? 0) then find_magic n' m start (i + 1)
      else if load32 m (start + 4 * i) =? MAGIC then Some (start ⊕ 4 * i)
      else find_magic n' m start (i + 1)
  end.

Definition Multiboot_GetHeader (m : Mem) (start_addr size : Z) : Z :=
  match find_magic (Z.to_nat (Z.min (size / 4) 0x2000)) m start_addr 0 with
  | None => 0
  | Some h =>
      if h_header_length m h <? SIZEOF_MAGIC then 0
      else if negb (h_checksum m h ⊕ h_magic m h ⊕ h_architecture m h ⊕ h_header_length m h =? 0) then 0
      else h
  end.

(** [(uint32_t)header_tag < multiboot_header_ptr + header_magic->header_length] *)
Definition in_header (m : Mem) (header tag : Z) : bool := tag <? header ⊕ h_header_length m header.

(** The access to the list of free memory that the loading functions start
    with: its address and its number of entries; [Some None] is no list. *)
Definition ram_list (fuel : nat) (m : Mem) (mbi_addr : Z) : option (option (Z * Z)) :=
  mbi_name ← Multiboot_FindMBITagAddress fuel m mbi_addr MULTIBOOT_TAG_TYPE_RAM_INFO;
  if (mbi_name =? MEMORY_NULL_PTR) || (tag_type m mbi_name =? 0) then Some None
  else Some (Some (0x10 ⊕ mbi_name, (tag_size m mbi_name ⊖ 0x10) / SIZEOF_BLOCKRAM)).

(** ** Multiboot_LoadKernel *)

(** The locals that the loop over the header's tags changes. *)
Record LoadInfo := mkLoad {
  reloc : bool; start_min : Z; end_max : Z; load_pref : Z; start_align : Z;
  load_info : bool; load_start : Z; kernel_entry : Z
}.

Definition with_reloc (lo hi pref align : Z) (l : LoadInfo) : LoadInfo :=
  mkLoad true lo hi pref align (load_info l) (load_start l) (kernel_entry l).
Definition with_load (start : Z) (l : LoadInfo) : LoadInfo :=
  mkLoad (reloc l) (start_min l) (end_max l) (load_pref l) (start_align l) true start (kernel_entry l).
Definition with_entry (entry : Z) (l : LoadInfo) : LoadInfo :=
  mkLoad (reloc l) (start_min l) (end_max l) (load_pref l) (start_align l) (load_info l) (load_start l) entry.

(** The branch of an address tag; [header_addr], [load_addr], [load_end_addr]
    and [bss_end_addr] are its members. *)
Definition at_header_addr (m : Mem) (tag : Z) : Z := load32 m (tag + 8).
Definition at_load_addr (m : Mem) (tag : Z) : Z := load32 m (tag + 12).
Definition at_load_end_addr (m : Mem) (tag : Z) : Z := load32 m (tag + 16).
Definition at_bss_end_addr (m : Mem) (tag : Z) : Z := load32 m (tag + 20).

Definition address_tag (file_addr file_size header tag ki : Z) : M Mem Z :=
  wrong ← gets (fun m => at_header_addr m tag <? at_load_addr m tag);
  return_if wrong false;;
  whole ← gets (fun m => at_load_addr m tag =? 0xFFFFFFFF);
  load_start ← gets (fun m => if whole : bool then file_addr
                              else header ⊖ (at_header_addr m tag ⊖ at_load_addr m tag));
  modify (fun m => store32 m (ki + 16)
    (if whole : bool then at_header_addr m tag ⊖ (header ⊖ file_addr) else at_load_addr m tag));;
  wrong ← gets (fun m => negb (at_load_end_addr m tag =? 0) && (at_load_end_addr m tag <? ki_start m ki));
  return_if wrong false;;
  modify (fun m => store32 m (ki + 20)
    (if at_load_end_addr m tag =? 0 then file_size else at_load_end_addr m tag ⊖ ki_start m ki));;
  wrong ← gets (fun m => negb (at_bss_end_addr m tag =? 0) &&
                         (at_bss_end_addr m tag <? ki_start m ki ⊕ ki_size m ki));
  return_if wrong false;;
  modify (fun m => store32 m (ki + 24)
    (if at_bss_end_addr m tag =? 0 then 0 else at_bss_end_addr m tag ⊖ (ki_start m ki ⊕ ki_size m ki)));;
  modify (fun m => store32 m (ki + 20) (ki_size m ki ⊕ ki_bss_size m ki));;
  mret load_start.

(** [if (header_tag->type == type)], as a test of the state. *)
Definition has_type (tag type : Z) : M Mem bool := gets (fun m => ht_type m tag =? type).

(** The loop over the header's tags. *)
Definition load_tag (file_addr file_size header ki : Z) (tl : Z * LoadInfo) : M Mem ((Z * LoadInfo) + (Z * LoadInfo)) :=
  let '(tag, l) := tl in
  relocatable ← has_type tag MULTIBOOT_HEADER_TAG_RELOCATABLE;
  l ← (if relocatable : bool then
         gets (fun m => with_reloc (load32 m (tag + 8)) (load32 m (tag + 12)) (load32 m (tag + 20)) (load32 m (tag + 16)) l)
       else mret l);
  address ← has_type tag MULTIBOOT_HEADER_TAG_ADDRESS;
  l ← (if address : bool then
         load_start ← address_tag file_addr file_size header tag ki;
         mret (with_load load_start l)
       else mret l);
  entry ← has_type tag MULTIBOOT_HEADER_TAG_ENTRY_ADDRESS;
  if entry : bool then
    entry_addr ← gets (fun m => load32 m (tag + 8));
    mret (inr (tag, with_entry entry_addr l))
  else
    size ← gets (fun m => ht_size m tag);
    mret (inl (tag ⊕ size, l)).

Definition load_tags (fuel : nat) (file_addr file_size header ki : Z) (tag : Z) (l : LoadInfo) : M Mem (Z * LoadInfo) :=
  while fuel (fun '(tag, _) m => in_header m header tag)
    (load_tag file_addr file_size header ki) (tag, l).

(** Choose the start of a relocatable kernel. *)
Definition choose_start (mmap mmap_size ki : Z) (l : LoadInfo) : M Mem unit :=
  if negb (load_info l) && reloc l then
    kstart ← gets (fun m => ki_start m ki);
    kstart ←
      (if (load_pref l =? 0) || (load_pref l =? 1) then
         kstart ← gets (fun m => Memory_FindBlockAddress (start_min l) MEMORY_FIND_ADDRESS_ABOVE (ki_file_size m ki)
                                   (start_align l) mmap mmap_size m);
         ksize ← gets (fun m => ki_size m ki);
         return_if ((kstart =? MEMORY_32BIT_LIMIT) || (end_max l <? kstart ⊕ ksize)) false;;
         mret kstart
       else if load_pref l =? 2 then
         kstart ← gets (fun m => Memory_FindBlockAddress (end_max l) MEMORY_FIND_ADDRESS_BELOW (ki_file_size m ki)
                                   (start_align l) mmap mmap_size m);
         return_if ((kstart =? MEMORY_32BIT_LIMIT) || (kstart <? start_min l)) false;;
         mret kstart
       else mret kstart);
    modify (fun m => store32 m (ki + 16) kstart)
  else mret tt.

(** Copy the kernel to its start. *)
Definition copy_kernel (file_addr ki : Z) (l : LoadInfo) (m : Mem) : Mem :=
  if load_info l then
    let m := memmove m (ki_start m ki) (load_start l) (ki_size m ki ⊖ ki_bss_size m ki) in
    memset m (ki_start m ki ⊕ ki_size m ki ⊖ ki_bss_size m ki) 0 (ki_bss_size m ki)
  else if Elf32_IsValidiStaticExecutable m file_addr then
    snd (Elf32_LoadStaticExecutable file_addr (ki_start m ki) m)
  else memmove m (ki_start m ki) (load_start l) (ki_size m ki).

(** Clear what is left of the kernel file. *)
Definition clean_up (file_addr file_size ki : Z) (m : Mem) : Mem :=
  let end_addr := ki_start m ki ⊕ ki_size m ki in
  let cleanup_start := if file_addr <? end_addr then end_addr else file_addr in
  let m :=
    if cleanup_start <? file_addr ⊕ file_size
    then memset m cleanup_start 0 (file_addr ⊕ file_size ⊖ cleanup_start) else m in
  if file_addr <? ki_start m ki
  then memset m file_addr 0 (if file_size <? ki_start m ki ⊖ file_addr then file_size else ki_start m ki ⊖ file_addr)
  else m.

Definition load_kernel (fuel : nat) (mbi_addr ki : Z) : M Mem unit :=
  ram ← calls (fun m => ram_list fuel m mbi_addr);
  match ram with
  | None => return_ false
  | Some (mmap, mmap_size) =>
      file_addr ← gets (fun m => ki_file_addr m ki);
      file_size ← gets (fun m => ki_file_size m ki);
      start ← gets (fun m => ki_start m ki);
      let l := mkLoad false start (start ⊕ file_size) 0 0x1000 false file_addr MEMORY_NULL_PTR in
      isELF ← gets (fun m => Elf32_IsValidiStaticExecutable m file_addr);
      modify (fun m => store32 m (ki + 20)
        (if isELF : bool then Elf32_StaticExecutableLoadSize m file_addr else file_size));;
      modify (fun m => store32 m (ki + 24) (if isELF : bool then Elf32_SizeBSSLikeSections m file_addr else 0));;
      header ← gets (fun m => Multiboot_GetHeader m file_addr file_size);
      '(_, l) ← load_tags fuel file_addr file_size header ki (header ⊕ SIZEOF_MAGIC) l;
      size ← gets (fun m => ki_size m ki);
      return_if (size =? 0) false;;
      return_if (reloc l && (end_max l ⊖ start_min l <? size)) false;;
      choose_start mmap mmap_size ki l;;
      start ← gets (fun m => ki_start m ki);
      found ← gets (fun m => Memory_FindBlockAddress start MEMORY_FIND_ADDRESS_ABOVE (ki_file_size m ki) 1 mmap mmap_size m);
      return_if (negb (found =? start)) false;;
      modify (copy_kernel file_addr ki l);;
      modify (clean_up file_addr file_size ki);;
      modify (fun m => store32 m (ki + 32)
        (if kernel_entry l =? MEMORY_NULL_PTR then ki_start m ki else kernel_entry l));;
      modify (fun m => store32 m (ki + 28) (Multiboot_GetHeader m (ki_start m ki) (ki_size m ki)))
  end.

Definition Multiboot_LoadKernel (fuel : nat) (mbi_addr ki : Z) (m : Mem) : option (bool * Mem) :=
  run (load_kernel fuel mbi_addr ki) true m.

(** ** Loading from the disk *)

Definition BLOCKLIST_MAXBLOCKS128 : Z := 9.
Definition BLOCKLIST_MAXBLOCKS512 : Z := 41.
Definition BLOCKLIST_MAXBLOCKS272 : Z := 21.

(** Members shared by the three block lists, at [b]: the sector size, and of
    block [k] the first sector and the number of sectors. *)
Definition bl_jump (m : Mem) (b : Z) : Z := load32 m b.
Definition bl_sector_size (m : Mem) (b : Z) : Z := load16 m (b + 12).
Definition bl_lba (m : Mem) (b k : Z) : Z := load64 m (b + 20 + 12 * k).
Definition bl_num_sectors (m : Mem) (b k : Z) : Z := load32 m (b + 20 + 12 * k + 8).
Definition bl_bytes (m : Mem) (b k : Z) : Z := bl_num_sectors m b k ⊗ bl_sector_size m b.

(** "KERNEL" in the reserved bytes marks the kernel's list. *)
Definition KERNEL_MARKER : list Z := [75; 69; 82; 78; 69; 76].
Definition is_blocklist (m : Mem) (b : Z) : bool := bl_jump m b =? 0x9001FDE9.
Definition is_kernel (m : Mem) (b : Z) : bool := bytes_at m (b + 14) KERNEL_MARKER.

Section Loader.
Context {W : Type} `{!PortIO W}.
Variable BIOS_Interrupt : Z -> BIOS_Registers -> Boot W -> BIOS_Registers * Boot W.
Variable DiskIO_LowMemoryBuffer geom dap VBE_ModeBuffer : Z.

Definition getm {A} (f : Mem -> A) : M (Boot W) A := gets (fun s => f (bmem s)).
Definition modifym (f : Mem -> Mem) : M (Boot W) unit := modify (on_mem f).

Definition read_disk (drive mem_start_addr lba num : Z) : M (Boot W) Z :=
  call (fun s => Some (DiskIO_ReadFromDisk BIOS_Interrupt DiskIO_LowMemoryBuffer geom dap
                         (wrap8 drive) mem_start_addr lba num s)).

(** [for (i = 0; cond(i); i++) body(i)], with the local [a]. *)
Definition for_ {A} (fuel : nat) (cond : Z -> Mem -> bool) (body : Z -> A -> M (Boot W) A) (a : A)
  : M (Boot W) A :=
  '(_, a) ← while fuel (fun '(i, _) s => cond i (bmem s))
              (fun '(i, a) => a ← body i a; mret (inl (i + 1, a))) (0, a);
  mret a.

(** The walk over the sectors of the master block list: [handle] is called
    with the address of every 512 bytes that are a block list. *)
Definition for_blocklists {A} (fuel : nat) (blocklist ki mst : Z) (handle : Z -> Z -> A -> M (Boot W) A) (a : A)
  : M (Boot W) A :=
  for_ fuel (fun i m => (i <? BLOCKLIST_MAXBLOCKS128) && (0 <? bl_num_sectors m mst i)) (fun i a =>
    for_ fuel (fun j m => j <? bl_num_sectors m mst i) (fun j a =>
      drive ← getm (fun m => ki_boot_drive_ID m ki);
      lba ← getm (fun m => wrap64 (bl_lba m mst i + j));
      bytes_read ← read_disk drive blocklist lba 1;
      wrong ← getm (fun m => (bytes_read =? 0) || negb (bytes_read =? bl_sector_size m mst) || (0x1000 <? bytes_read));
      return_if wrong false;;
      for_ fuel (fun k m => k <? bl_sector_size m mst / 0x200) (fun k a =>
        let b := blocklist + 512 * k in
        list ← getm (fun m => is_blocklist m b);
        if list : bool then handle i b a else mret a) a) a) a.

(** *** Multiboot_LoadKernelFile *)

(** The kernel's own list [b]: its size, a place for it, its blocks. *)
Definition load_file (fuel : nat) (mmap mmap_size ki b : Z) : M (Boot W) unit :=
  modifym (fun m => store32 m (ki + 40) 0);;
  for_ fuel (fun k m => (k <? BLOCKLIST_MAXBLOCKS512) && (0 <? bl_num_sectors m b k)) (fun k a =>
    return_if (k =? BLOCKLIST_MAXBLOCKS512) false;;
    modifym (fun m => store32 m (ki + 40) (ki_file_size m ki ⊕ bl_bytes m b k));;
    mret a) tt;;
  modifym (fun m => store32 m (ki + 36)
    (Memory_FindBlockAddress MEMORY_HIGH_START MEMORY_FIND_ADDRESS_ABOVE (ki_file_size m ki) 1 mmap mmap_size m));;
  wrong ← getm (fun m => ki_file_addr m ki =? MEMORY_32BIT_LIMIT);
  return_if wrong false;;
  for_ fuel (fun k m => 0 <? bl_num_sectors m b k) (fun k a =>
    drive ← getm (fun m => ki_boot_drive_ID m ki);
    file_addr ← getm (fun m => ki_file_addr m ki);
    lba ← getm (fun m => bl_lba m b k);
    num ← getm (fun m => bl_num_sectors m b k);
    bytes_read ← read_disk drive file_addr lba num;
    wrong ← getm (fun m => negb (bytes_read =? bl_bytes m b k));
    return_if wrong false;;
    mret a) tt.

(** The loops over the header's tags from [tag] on, and over the requests of
    an information request. *)
Definition for_tags {A} (fuel : nat) (header : Z) (body : Z -> A -> M (Boot W) A) (a : A) : M (Boot W) A :=
  '(_, a) ← while fuel (fun '(tag, _) s => in_header (bmem s) header tag)
              (fun '(tag, a) =>
                 a ← body tag a;
                 size ← getm (fun m => ht_size m tag);
                 mret (inl (tag ⊕ size, a))) (header ⊕ SIZEOF_MAGIC, a);
  mret a.

Definition for_requests {A} (fuel : nat) (tag : Z) (body : Z -> A -> M (Boot W) A) (a : A) : M (Boot W) A :=
  nrequests ← getm (fun m => ht_nrequests m tag);
  for_ fuel (fun i _ => i <? nrequests) body a.

Definition has_tag_type (tag type : Z) : M (Boot W) bool := getm (fun m => ht_type m tag =? type).
Definition requests (tag i type : Z) : M (Boot W) bool := getm (fun m => ht_request m tag i =? type).
Definition mandatory (tag : Z) : M (Boot W) bool := getm (fun m => Z.land (ht_flags m tag) 1 =? 0).

Definition load_kernel_file (fuel : nat) (blocklist mbi_addr ki : Z) : M (Boot W) unit :=
  ram ← calls (fun s => ram_list fuel (bmem s) mbi_addr);
  match ram with
  | None => return_ false
  | Some (mmap, mmap_size) =>
      mst ← getm (fun m => ki_blocklist_ptr m ki);
      file_loaded ←
        for_blocklists fuel blocklist ki mst (fun _ b file_loaded =>
          kernel ← getm (fun m => is_kernel m b);
          if kernel : bool then load_file fuel mmap mmap_size ki b;; mret true else mret file_loaded) false;
      if file_loaded : bool then
        header ← getm (fun m => Multiboot_GetHeader m (ki_file_addr m ki) (ki_file_size m ki));
        return_if (header =? 0) false;;
        arch ← getm (fun m => h_architecture m header);
        return_if (negb (arch =? MULTIBOOT_ARCHITECTURE_I386)) false;;
        for_tags fuel header (fun tag a =>
          info ← has_tag_type tag MULTIBOOT_HEADER_TAG_INFORMATION_REQUEST;
          if info : bool then
            for_requests fuel tag (fun i a =>
              elf ← requests tag i MULTIBOOT_TAG_TYPE_ELF_SECTIONS;
              must ← mandatory tag;
              if (elf : bool) && (must : bool) then
                saved ← call (lift_mem (Multiboot_SaveELFSectionHeaders fuel mbi_addr ki));
                return_if saved false;;
                mret a
              else mret a) a
          else mret a) tt
      else return_ false
  end.

Definition Multiboot_LoadKernelFile (fuel : nat) (blocklist mbi_addr ki : Z) (s : Boot W) : option (bool * Boot W) :=
  run (load_kernel_file fuel blocklist mbi_addr ki) true s.

(** *** Multiboot_LoadModules *)

(** [for (uint32_t k = 0; i < 240; k++)]: the test is on [i], the index of the
    master list's block, which the loop does not change. *)
Fixpoint copy_name (fuel : nat) (mbi_mod b i k : Z) : M (Boot W) unit :=
  match fuel with
  | O => fun _ => Stuck
  | S f =>
      if i <? 240 then
        modifym (fun m => store8 m (wrap32 (mbi_mod + 16 + k)) (load8 m (wrap32 (b + 272 + k))));;
        copy_name f mbi_mod b i (k ⊕ 1)
      else mret tt
  end.

Definition module_size (fuel : nat) (b : Z) : M (Boot W) Z :=
  for_ fuel (fun k m => (k <? BLOCKLIST_MAXBLOCKS272) && (0 <? bl_num_sectors m b k)) (fun k mod_size =>
    getm (fun m => mod_size ⊕ bl_bytes m b k)) 0.

Definition load_module (fuel : nat) (page_align : bool) (mmap mmap_size mbi_addr ki i b mod_size mod_addr : Z)
  : M (Boot W) Z :=
  mod_addr ← getm (fun m => Memory_FindBlockAddress (ki_start m ki) MEMORY_FIND_ADDRESS_ABOVE (ki_file_size m ki)
                              (if page_align then 0x1000 else 1) mmap mmap_size m);
  return_if (mod_addr =? MEMORY_32BIT_LIMIT) false;;
  for_ fuel (fun k m => (k <? BLOCKLIST_MAXBLOCKS272) && (0 <? bl_num_sectors m b k)) (fun k a =>
    drive ← getm (fun m => ki_boot_drive_ID m ki);
    lba ← getm (fun m => bl_lba m b k);
    num ← getm (fun m => bl_num_sectors m b k);
    bytes_read ← read_disk drive mod_addr lba num;
    wrong ← getm (fun m => negb (bytes_read =? bl_bytes m b k));
    return_if wrong false;;
    mret a) tt;;
  mbi_mod ← calls (fun s => Multiboot_FindMBITagAddress fuel (bmem s) mbi_addr MULTIBOOT_TAG_TYPE_MODULE);
  wrong ← getm (fun m => no_slot m mbi_mod);
  return_if wrong false;;
  modifym (set_tag_type mbi_mod MULTIBOOT_TAG_TYPE_MODULE);;
  modifym (set_tag_size mbi_mod 256);;
  modifym (fun m => store32 m (mbi_mod + 8) mod_addr);;
  modifym (fun m => store32 m (mbi_mod + 12) (mod_addr ⊕ mod_size ⊖ 1));;
  copy_name fuel mbi_mod b i 0;;
  ok ← call (fun s => let '(ok, m) := Multiboot_TerminateTag mbi_addr mbi_mod (bmem s) in
                      Some (ok, on_mem (fun _ => m) s));
  return_if (negb ok) false;;
  mret (mod_addr ⊕ mod_size).

Definition load_modules (fuel : nat) (blocklist mbi_addr ki : Z) : M (Boot W) unit :=
  header ← getm (fun m => ki_multiboot_header m ki);
  page_align ← for_tags fuel header (fun tag page_align =>
    align ← has_tag_type tag MULTIBOOT_HEADER_TAG_MODULE_ALIGN;
    mret (if align : bool then true else page_align)) false;
  ram ← calls (fun s => ram_list fuel (bmem s) mbi_addr);
  match ram with
  | None => return_ false
  | Some (mmap, mmap_size) =>
      mst ← getm (fun m => ki_blocklist_ptr m ki);
      mod_addr ← getm (fun m => ki_start m ki ⊕ ki_size m ki);
      for_blocklists fuel blocklist ki mst (fun i b mod_addr =>
        kernel ← getm (fun m => is_kernel m b);
        if kernel : bool then mret mod_addr
        else
          mod_size ← module_size fuel b;
          if mod_size =? 0 then mret mod_addr
          else load_module fuel page_align mmap mmap_size mbi_addr ki i b mod_size mod_addr) mod_addr;;
      mret tt
  end.

Definition Multiboot_LoadModules (fuel : nat) (blocklist mbi_addr ki : Z) (s : Boot W) : option (bool * Boot W) :=
  run (load_modules fuel blocklist mbi_addr ki) true s.

(** *** Multiboot_SaveGraphicsInfo *)

(** The locals that the loop over the header's tags sets. *)
Record Gfx := mkGfx {
  graphics_mbi_mandatory : bool; EGA_text_supported : bool;
  vbe_mbi_requested : bool; vbe_mbi_mandatory : bool;
  framebuffer_mbi_requested : bool; framebuffer_mbi_mandatory : bool;
  width_requested : Z; height_requested : Z; depth_requested : Z
}.
Definition no_gfx : Gfx := mkGfx false false false false false false 0 0 0.
Definition with_vbe (must : bool) (g : Gfx) : Gfx :=
  mkGfx (graphics_mbi_mandatory g) (EGA_text_supported g) true must
    (framebuffer_mbi_requested g) (framebuffer_mbi_mandatory g)
    (width_requested g) (height_requested g) (depth_requested g).
Definition with_framebuffer (must : bool) (g : Gfx) : Gfx :=
  mkGfx (graphics_mbi_mandatory g) (EGA_text_supported g) (vbe_mbi_requested g) (vbe_mbi_mandatory g)
    true must (width_requested g) (height_requested g) (depth_requested g).
Definition with_console (required text : bool) (g : Gfx) : Gfx :=
  mkGfx (required || graphics_mbi_mandatory g) (text || EGA_text_supported g)
    (vbe_mbi_requested g) (vbe_mbi_mandatory g) (framebuffer_mbi_requested g) (framebuffer_mbi_mandatory g)
    (width_requested g) (height_requested g) (depth_requested g).
Definition with_size (w h d : Z) (g : Gfx) : Gfx :=
  mkGfx (graphics_mbi_mandatory g) (EGA_text_supported g) (vbe_mbi_requested g) (vbe_mbi_mandatory g)
    (framebuffer_mbi_requested g) (framebuffer_mbi_mandatory g) w h d.

Definition graphics_tag (fuel : nat) (tag : Z) (g : Gfx) : M (Boot W) Gfx :=
  must ← mandatory tag;
  info ← has_tag_type tag MULTIBOOT_HEADER_TAG_INFORMATION_REQUEST;
  console ← has_tag_type tag MULTIBOOT_HEADER_TAG_CONSOLE_FLAGS;
  framebuffer ← has_tag_type tag MULTIBOOT_HEADER_TAG_FRAMEBUFFER;
  if info : bool then
    for_requests fuel tag (fun i g =>
      vbe ← requests tag i MULTIBOOT_TAG_TYPE_VBE;
      let g := if vbe : bool then with_vbe must g else g in
      fb ← requests tag i MULTIBOOT_TAG_TYPE_FRAMEBUFFER;
      mret (if fb : bool then with_framebuffer must g else g)) g
  else if console : bool then
    getm (fun m =>
      let console_flags := load32 m (tag + 8) in
      with_console (negb (Z.land console_flags MULTIBOOT_CONSOLE_FLAGS_CONSOLE_REQUIRED =? 0))
        (negb (Z.land console_flags MULTIBOOT_CONSOLE_FLAGS_EGA_TEXT_SUPPORTED =? 0)) g)
  else if framebuffer : bool then
    getm (fun m => with_size (load32 m (tag + 8)) (load32 m (tag + 12)) (load32 m (tag + 16)) g)
  else mret g.

Definition something_mandatory (g : Gfx) : bool :=
  graphics_mbi_mandatory g || vbe_mbi_mandatory g || framebuffer_mbi_mandatory g.

(** No description of the display: the tag is taken back. *)
Definition drop_vbe {A} (mbi_addr mbi_vbe : Z) (g : Gfx) : M (Boot W) A :=
  modifym (set_tag_size mbi_vbe 0);;
  modifym (terminate mbi_addr mbi_vbe);;
  return_ (negb (something_mandatory g)).

(** The choice of the mode. The local [preferred_mode] has no initial value:
    [garbage] is what its storage holds. *)
Definition choose_mode (fuel : nat) (garbage video_modes : Z) (g : Gfx) : M (Boot W) Z :=
  mode ← (if EGA_text_supported g && (depth_requested g =? 0)
          then call (VBE_GetTextMode BIOS_Interrupt VBE_ModeBuffer fuel video_modes 80 25) else mret garbage);
  mode ← (if mode =? 0xFFFF
          then call (VBE_GetMode BIOS_Interrupt VBE_ModeBuffer fuel video_modes
                       (width_requested g) (height_requested g) (depth_requested g)) else mret mode);
  if mode =? 0xFFFF then call (fun s => Some (VBE_GetCurrentMode BIOS_Interrupt s)) else mret mode.

(** [struct Multiboot_Info_Framebuffer] at [f] from the mode's description
    [i] ([struct VBE_Mode_Info]). *)
Definition fill_framebuffer (f i : Z) (m : Mem) : Mem :=
  let m := set_tag_type f MULTIBOOT_TAG_TYPE_FRAMEBUFFER m in
  let m := store64 m (f + 8) (load32 m (i + 40)) in
  let m := store32 m (f + 16) (mode_pitch m i) in
  let m := store32 m (f + 20) (mode_width m i) in
  let m := store32 m (f + 24) (mode_height m i) in
  let m := store8 m (f + 28) (mode_bpp m i) in
  let m := store8 m (f + 29) (if Z.land (mode_attributes m i) 0x10 =? 0 then 2 else 1) in
  let m := if load8 m (f + 29) =? 2 then store8 m (f + 28) 0x10 else m in
  let m := store16 m (f + 30) 0 in
  let m := store8 m (f + 32) (load8 m (i + 32)) in
  let m := store8 m (f + 33) (load8 m (i + 31)) in
  let m := store8 m (f + 34) (load8 m (i + 34)) in
  let m := store8 m (f + 35) (load8 m (i + 33)) in
  let m := store8 m (f + 36) (load8 m (i + 36)) in
  let m := store8 m (f + 37) (load8 m (i + 34)) in
  set_tag_size f 40 m.

Definition save_graphics (fuel : nat) (garbage mbi_addr ki : Z) : M (Boot W) unit :=
  header ← getm (fun m => ki_multiboot_header m ki);
  return_if (header =? 0) false;;
  g ← for_tags fuel header (graphics_tag fuel) no_gfx;
  return_if (negb (graphics_mbi_mandatory g) && negb (vbe_mbi_requested g) && negb (framebuffer_mbi_requested g)) true;;
  mbi_vbe ← calls (fun s => Multiboot_FindMBITagAddress fuel (bmem s) mbi_addr MULTIBOOT_TAG_TYPE_VBE);
  wrong ← getm (fun m => no_slot m mbi_vbe);
  return_if wrong false;;
  modifym (set_tag_type mbi_vbe MULTIBOOT_TAG_TYPE_VBE);;
  modifym (set_tag_size mbi_vbe 784);;
  modifym (fun m => memset m (mbi_vbe + 16) 0 0x200);;
  modifym (fun m => memset m (mbi_vbe + 528) 0 0x100);;
  stop ← call (fun s => Some (VBE_StoreInfo BIOS_Interrupt (16 ⊕ mbi_vbe) s));
  if stop ⊖ (16 ⊕ mbi_vbe) =? 0 then drop_vbe mbi_addr mbi_vbe g
  else
    modifym (fun m => store16 m (mbi_vbe + 8) 0xFFFF);;
    modifym (fun m => store16 m (mbi_vbe + 10) 0);;
    modifym (fun m => store16 m (mbi_vbe + 12) 0);;
    modifym (fun m => store16 m (mbi_vbe + 14) 0);;
    call (fun s => Some (VBE_StorePModeInfo BIOS_Interrupt (mbi_vbe ⊕ 10) s));;
    vmodes ← getm (fun m => load32 m (mbi_vbe + 16 + 14));
    let video_modes := Z.shiftl (Z.shiftr vmodes 16) 4 ⊕ Z.land vmodes 0xFFFF in
    preferred_mode ← choose_mode fuel garbage video_modes g;
    described ← (if preferred_mode =? 0xFFFF then mret false
                 else call (fun s => Some (VBE_GetModeInfo BIOS_Interrupt preferred_mode (mbi_vbe ⊕ 528) s)));
    if negb described then drop_vbe mbi_addr mbi_vbe g
    else
      modifym (fun m => store16 m (mbi_vbe + 8) preferred_mode);;
      modifym (terminate mbi_addr mbi_vbe);;
      return_if (negb (graphics_mbi_mandatory g) && negb (framebuffer_mbi_requested g)) true;;
      mbi_fbuf ← calls (fun s => Multiboot_FindMBITagAddress fuel (bmem s) mbi_addr MULTIBOOT_TAG_TYPE_FRAMEBUFFER);
      wrong ← getm (fun m => no_slot m mbi_fbuf);
      return_if wrong false;;
      modifym (fill_framebuffer mbi_fbuf (mbi_vbe + 528));;
      modifym (terminate mbi_addr mbi_fbuf);;
      ok ← call (fun s => Some (VBE_SetMode BIOS_Interrupt preferred_mode s));
      return_if (negb ok) false.

Definition Multiboot_SaveGraphicsInfo (fuel : nat) (garbage mbi_addr ki : Z) (s : Boot W) : option (bool * Boot W) :=
  run (save_graphics fuel garbage mbi_addr ki) true s.

(** *** Multiboot_SaveInfo *)

(** A call whose result is not looked at. *)
Definition ignore (f : Boot W -> option (bool * Boot W)) : M (Boot W) unit := call f;; mret tt.

(** The answer to one request; the [if]s exclude each other. *)
Definition answer (fuel : nat) (mbi_addr ki type : Z) (quit : bool) : M (Boot W) unit :=
  if type =? MULTIBOOT_TAG_TYPE_CMDLINE then ignore (Multiboot_SaveBootCommand BIOS_Interrupt fuel mbi_addr)
  else if type =? MULTIBOOT_TAG_TYPE_BOOT_LOADER_NAME then ignore (lift_mem (Multiboot_SaveBootLoaderInfo fuel mbi_addr))
  else if type =? MULTIBOOT_TAG_TYPE_BASIC_MEMINFO then ignore (Multiboot_SaveBasicMemoryInfo BIOS_Interrupt fuel mbi_addr)
  else if type =? MULTIBOOT_TAG_TYPE_BOOTDEV then ignore (lift_mem (Multiboot_SaveBootDeviceInfo fuel mbi_addr ki))
  else if type =? MULTIBOOT_TAG_TYPE_APM then ignore (Multiboot_SaveAPMInfo BIOS_Interrupt fuel mbi_addr)
  else if type =? MULTIBOOT_TAG_TYPE_SMBIOS then ignore (Multiboot_SaveSMBIOSInfo fuel mbi_addr)
  else if type =? MULTIBOOT_TAG_TYPE_ACPI_OLD then ignore (Multiboot_SaveACPIInfo fuel mbi_addr true)
  else if type =? MULTIBOOT_TAG_TYPE_ACPI_NEW then ignore (Multiboot_SaveACPIInfo fuel mbi_addr false)
  else if type =? MULTIBOOT_TAG_TYPE_LOAD_BASE_ADDR then ignore (lift_mem (Multiboot_SaveLoadBaseAddress fuel mbi_addr ki))
  else if (type =? MULTIBOOT_TAG_TYPE_EFI32) || (type =? MULTIBOOT_TAG_TYPE_EFI64) ||
          (type =? MULTIBOOT_TAG_TYPE_EFI_MMAP) || (type =? MULTIBOOT_TAG_TYPE_EFI_BS) ||
          (type =? MULTIBOOT_TAG_TYPE_EFI32_IH) || (type =? MULTIBOOT_TAG_TYPE_EFI64_IH) ||
          (type =? MULTIBOOT_TAG_TYPE_NETWORK) then return_if quit false
  else mret tt.

Definition info_tag (fuel : nat) (mbi_addr ki tag : Z) : M (Boot W) unit :=
  quit ← mandatory tag;
  type ← getm (fun m => ht_type m tag);
  return_if ((type =? MULTIBOOT_HEADER_TAG_EFI_BS) && quit) false;;
  return_if ((type =? MULTIBOOT_HEADER_TAG_ENTRY_ADDRESS_EFI32) && quit) false;;
  return_if ((type =? MULTIBOOT_HEADER_TAG_ENTRY_ADDRESS_EFI64) && quit) false;;
  if type =? MULTIBOOT_HEADER_TAG_INFORMATION_REQUEST then
    for_requests fuel tag (fun i _ =>
      request ← getm (fun m => ht_request m tag i);
      answer fuel mbi_addr ki request quit) tt
  else mret tt.

Definition save_info (fuel : nat) (garbage mbi_addr ki : Z) : M (Boot W) unit :=
  header ← getm (fun m => ki_multiboot_header m ki);
  for_tags fuel header (fun tag _ => info_tag fuel mbi_addr ki tag) tt;;
  ok ← call (Multiboot_SaveGraphicsInfo fuel garbage mbi_addr ki);
  return_if (negb ok) false.

Definition Multiboot_SaveInfo (fuel : nat) (garbage mbi_addr ki : Z) (s : Boot W) : option (bool * Boot W) :=
  run (save_info fuel garbage mbi_addr ki) true s.

(** *** Multiboot_Boot *)

Definition chars (s : string) : list Z := map (fun a => Z.of_N (N_of_ascii a)) (list_ascii_of_string s).

(** [if (!f()) return Console_PrintAndReturn(message, false);] *)
Definition check (f : Boot W -> option (bool * Boot W)) (message : string) : M (Boot W) unit :=
  ok ← call f;
  if ok : bool then mret tt
  else
    b ← call (fun s => Some (Console_PrintAndReturn (chars message) false s));
    return_ b.

(** The two local arrays [blocklist] are at [blocklist1] and [blocklist2]. *)
Definition boot (fuel : nat) (garbage blocklist1 blocklist2 mbi_addr ki : Z) : M (Boot W) unit :=
  modify Console_PrintBanner;;
  check (lift_mem (fun m => Some (Multiboot_CreateEmptyMBI mbi_addr m))) "Unable to create multiboot information record";;
  check (Multiboot_SaveMemoryMaps BIOS_Interrupt fuel mbi_addr) "Unable to load memory maps";;
  check (Multiboot_LoadKernelFile fuel blocklist1 mbi_addr ki) "Unable to load OS kernel file";;
  check (lift_mem (Multiboot_LoadKernel fuel mbi_addr ki)) "Unable to load OS kernel";;
  check (Multiboot_LoadModules fuel blocklist2 mbi_addr ki) "Unable to load OS kernel modules";;
  check (Multiboot_SaveInfo fuel garbage mbi_addr ki) "Unable to load OS boot information".

Definition Multiboot_Boot (fuel : nat) (garbage blocklist1 blocklist2 mbi_addr ki : Z) (s : Boot W)
  : option (bool * Boot W) :=
  run (boot fuel garbage blocklist1 blocklist2 mbi_addr ki) true s.

End Loader.
