(* ===== verification/RamMap.v ===== *)
(** * From the E820 map to the list of free memory

    What [Memory_StoreE820Info] and [Memory_StoreInfo] ([Bios.v], [BootMem.v])
    leave in memory. The E820 map is a list of entries; its usable entries,
    when they are in increasing order and do not overlap, become the list of
    free blocks, adjacent ones made one. The page-aligned list has the whole
    pages of each block. *)

From S2P Require Import Prelude CMem Ports Bios BootMem.

(** ** Lists of blocks *)

(** A block is a base and a size. *)
Abbreviation block := (Z * Z)%type.
Abbreviation stop b := (b.1 + b.2).

(** Increasing, disjoint, not empty, below the last page of the 64-bit space. *)
Fixpoint ordered (lo : Z) (R : list block) : Prop :=
  match R with
  | [] => True
  | b :: R => lo <= b.1 /\ 0 < b.2 /\ stop b <= 18446744073709547520 /\ ordered (stop b) R
  end.

(** Adjacent blocks made one. *)
Fixpoint coalesce (R : list block) : list block :=
  match R with
  | [] => []
  | b :: R =>
      match coalesce R with
      | c :: C => if stop b =? c.1 then (b.1, b.2 + c.2) :: C else b :: c :: C
      | [] => [b]
      end
  end.

(** Increasing with gaps. *)
Fixpoint gapped (lo : Z) (R : list block) : Prop :=
  match R with
  | [] => True
  | b :: R => lo < b.1 /\ 0 < b.2 /\ stop b <= 18446744073709547520 /\ gapped (stop b) R
  end.

Definition in_block (x : Z) (b : block) : Prop := b.1 <= x < stop b.
Definition covered (x : Z) (R : list block) : Prop := Exists (in_block x) R.

Lemma coalesce_head b R : ordered b R -> match coalesce R with c :: _ => b <= c.1 | [] => True end.
Proof.
  destruct R as [|c R]; cbn; [done|]. intros (H & _). destruct (coalesce R) as [|d D]; cbn; [done|].
  by case_cmp.
Qed.

Lemma coalesce_cons b R : exists c C, coalesce (b :: R) = c :: C /\ c.1 = b.1.
Proof. cbn [coalesce]. destruct (coalesce R) as [|d D]; [by exists b, []|]. case_cmp; eauto. Qed.

(** The first coalesced block can begin where the list may begin; the others
    come after gaps. *)
Lemma coalesce_gapped lo R :
  ordered lo R ->
  match coalesce R with
  | c :: C => lo <= c.1 /\ 0 < c.2 /\ stop c <= 18446744073709547520 /\ gapped (stop c) C
  | [] => True
  end.
Proof.
  revert lo. induction R as [|b R IH]; intros lo; cbn [ordered coalesce]; [done|].
  intros (H1 & H2 & H3 & H4). pose proof (coalesce_head _ _ H4) as Hh. specialize (IH _ H4).
  destruct (coalesce R) as [|c C]; [by cbn|]. destruct IH as (I1 & I2 & I3 & I4).
  case_cmp; cbn [fst snd gapped] in *.
  - replace (b.1 + (b.2 + c.2)) with (c.1 + c.2) by lia. conjs; try done; lia.
  - conjs; try done; lia.
Qed.

Lemma coalesce_covered lo R x : ordered lo R -> covered x (coalesce R) <-> covered x R.
Proof.
  unfold covered. revert lo. induction R as [|b R IH]; intros lo; cbn [coalesce ordered]; [done|].
  intros (H1 & H2 & H3 & H4). rewrite (Exists_cons (in_block x) b R), <- (IH _ H4). clear IH.
  pose proof (coalesce_gapped _ _ H4) as Hg.
  destruct (coalesce R) as [|c C]; [by rewrite Exists_cons|].
  case_cmp; rewrite ?Exists_cons; [|tauto]. destruct Hg as (_ & Hc & _).
  assert (in_block x (b.1, b.2 + c.2) <-> in_block x b \/ in_block x c) as ->; [|tauto].
  unfold in_block. cbn [fst snd]. lia.
Qed.

(** ** The two passes over the usable entries *)

(** The lowest base at or above [address]; what touches the block from [base]
    of [size] bytes is made part of it. *)
Fixpoint closest (R : list block) (address best : Z) : Z :=
  match R with
  | [] => best
  | b :: R => closest R address (if (address <=? b.1) && (b.1 <? best) then b.1 else best)
  end.
Fixpoint extend (R : list block) (base size : Z) : Z :=
  match R with
  | [] => size
  | b :: R => extend R base (if (base + size <=? stop b) && (b.1 <=? base + size) then stop b - base else size)
  end.

(** The blocks that the turns before have used up. *)
Definition used (address : Z) (P : list block) : Prop := Forall (fun b => 0 < b.2 /\ stop b <= address) P.

Lemma ordered_weaken lo lo' R : lo' <= lo -> ordered lo R -> ordered lo' R.
Proof. destruct R; cbn; [done|]. intros ? (?&?&?&?). conjs; done || lia. Qed.

Lemma closest_app P Q address best : closest (P ++ Q) address best = closest Q address (closest P address best).
Proof. revert best. induction P as [|b P IH]; intros best; cbn; [done|]. apply IH. Qed.

Lemma closest_used P address best : used address P -> closest P address best = best.
Proof.
  intros Hu. induction Hu as [|b P [H1 H2] _ IH]; cbn [closest]; [done|].
  destruct (Z.leb_spec address b.1); [lia|]. exact IH.
Qed.

Lemma closest_ordered Q address best :
  ordered best Q -> closest Q address best = best.
Proof.
  revert best. induction Q as [|b Q IH]; intros best Hq; cbn [closest ordered] in *; [done|].
  destruct Hq as (H1 & H2 & H3 & H4). destruct (Z.ltb_spec b.1 best); [lia|]. rewrite andb_false_r.
  apply IH. apply (ordered_weaken (stop b)); [lia|done].
Qed.

Lemma closest_pending P Q address :
  used address P -> ordered address Q ->
  closest (P ++ Q) address ADDR_LIMIT = match Q with b :: _ => b.1 | [] => ADDR_LIMIT end.
Proof.
  intros Hp Hq. rewrite closest_app, (closest_used P) by done. unfold ADDR_LIMIT.
  destruct Q as [|b Q]; cbn [closest ordered] in *; [done|]. destruct Hq as (H1 & H2 & H3 & H4).
  destruct (Z.leb_spec address b.1), (Z.ltb_spec b.1 0xFFFFFFFFFFFFFFFF); try lia. cbn [andb].
  apply closest_ordered. apply (ordered_weaken (stop b)); [lia|done].
Qed.

Lemma extend_app P Q base size : extend (P ++ Q) base size = extend Q base (extend P base size).
Proof. revert size. induction P as [|b P IH]; intros size; cbn; [done|]. apply IH. Qed.

Lemma extend_used P base : used base P -> extend P base 0 = 0.
Proof.
  intros Hu. induction Hu as [|b P [H1 H2] _ IH]; cbn [extend]; [done|].
  replace (if (base + 0 <=? stop b) && (b.1 <=? base + 0) then stop b - base else 0) with 0; [exact IH|].
  destruct (Z.leb_spec (base + 0) (stop b)); cbn [andb]; [|done]. destruct (b.1 <=? base + 0); lia.
Qed.

Lemma extend_ordered Q base size :
  ordered (base + size) Q ->
  extend Q base size =
    match coalesce Q with c :: _ => if base + size =? c.1 then size + c.2 else size | [] => size end.
Proof.
  revert size. induction Q as [|b Q IH]; intros size Hq; cbn [extend coalesce ordered] in *; [done|].
  destruct Hq as (H1 & H2 & H3 & H4). pose proof (coalesce_head _ _ H4) as Hh.
  destruct (Z.leb_spec (base + size) (stop b)); [|lia]. cbn [andb].
  destruct (Z.leb_spec b.1 (base + size)).
  - rewrite IH by (replace (base + (stop b - base)) with (stop b) by lia; done).
    replace (base + (stop b - base)) with (stop b) by lia.
    destruct (coalesce Q) as [|c C]; [|destruct (Z.eqb_spec (stop b) c.1)]; cbn [fst snd];
      (destruct (Z.eqb_spec (base + size) b.1); lia).
  - rewrite IH by (apply (ordered_weaken (stop b)); [lia|done]).
    destruct (coalesce Q) as [|c C]; [|destruct (Z.eqb_spec (stop b) c.1)]; cbn [fst snd];
      (destruct (Z.eqb_spec (base + size) b.1); [lia|]); try done;
      (destruct (Z.eqb_spec (base + size) c.1); [lia|done]).
Qed.

Lemma extend_pending P Q address c C :
  used address P -> ordered address Q -> coalesce Q = c :: C -> extend (P ++ Q) c.1 0 = c.2.
Proof.
  intros Hp Hq Hc. pose proof (coalesce_gapped _ _ Hq) as Hg. rewrite Hc in Hg. destruct Hg as (Hg & _).
  rewrite extend_app, (extend_used P).
  2: { eapply Forall_impl; [exact Hp|]. cbn. intros b [? ?]. split; lia. }
  destruct Q as [|b Q]; [done|]. destruct (coalesce_cons b Q) as (c' & C' & Hc' & Eb).
  rewrite Hc in Hc'. injection Hc' as <- <-.
  rewrite extend_ordered.
  - rewrite Hc. destruct (Z.eqb_spec (c.1 + 0) c.1); lia.
  - apply (ordered_weaken b.1); [lia|]. cbn [ordered] in *. tauto || (conjs; try tauto; lia).
Qed.

(** What a turn of the outer loop takes off the pending blocks. *)
Lemma coalesce_split lo Q c C :
  ordered lo Q -> coalesce Q = c :: C ->
  exists Q1 Q2, Q = Q1 ++ Q2 /\ coalesce Q2 = C /\ used (stop c) Q1 /\ ordered (stop c) Q2.
Proof.
  revert lo c C. induction Q as [|b Q IH]; intros lo c C; cbn [ordered coalesce]; [done|].
  intros (H1 & H2 & H3 & H4) Hc. destruct (coalesce Q) as [|d D] eqn:Ed.
  - injection Hc as <- <-. exists [b], Q. conjs; try done. constructor; [by split|constructor].
  - destruct (Z.eqb_spec (stop b) d.1) as [E|E]; injection Hc as <- <-.
    + destruct (IH _ _ _ H4 eq_refl) as (Q1 & Q2 & -> & Hd & Hu & Ho).
      exists (b :: Q1), Q2. cbn [fst snd app]. replace (b.1 + (b.2 + d.2)) with (stop d) by lia.
      conjs; try done. pose proof (coalesce_gapped _ _ H4) as Hg. rewrite Ed in Hg.
      constructor; [split; lia|done].
    + exists [b], Q. conjs; try done. constructor; [by split|constructor].
Qed.

(** ** Tables in memory *)

(** Nothing is written outside [lo .. hi - 1]. *)
Definition outside (m m' : Mem) (lo hi : Z) : Prop :=
  forall x, 0 <= x < 4294967296 -> x < lo \/ hi <= x -> load8 m' x = load8 m x.

Lemma outside_load n m m' lo hi a :
  outside m m' lo hi -> 0 <= a -> a + Z.of_nat n <= 4294967296 -> a + Z.of_nat n <= lo \/ hi <= a ->
  load n m' a = load n m a.
Proof. intros Ho ???. apply load_ext. intros i Hi. apply Ho; lia. Qed.

Lemma outside_trans m1 m2 m3 lo1 hi1 lo2 hi2 lo hi :
  outside m1 m2 lo1 hi1 -> outside m2 m3 lo2 hi2 -> lo <= lo1 -> hi1 <= hi -> lo <= lo2 -> hi2 <= hi ->
  outside m1 m3 lo hi.
Proof. intros H1 H2 ???? x Hx Hn. rewrite H2, H1 by lia. done. Qed.

Lemma outside_store n m a v lo hi :
  0 <= a -> a + Z.of_nat n <= 4294967296 -> lo <= a -> a + Z.of_nat n <= hi -> outside m (store n m a v) lo hi.
Proof. intros ???? x Hx Hn. apply load8_store_ne; lia. Qed.

(** [n] entries of the block list at [p]; the usable entries of the E820 map
    from entry [i] on, [n] of them. *)
Fixpoint blocks (n : nat) (m : Mem) (p : Z) : list block :=
  match n with
  | O => []
  | S n => (load64 m p, load64 m (p + 8)) :: blocks n m (p + 16)
  end.
Fixpoint usable (n : nat) (m : Mem) (tbl i : Z) : list block :=
  match n with
  | O => []
  | S n =>
      if e820_usable m tbl i then (e820_base m tbl i, e820_size m tbl i) :: usable n m tbl (i + 1)
      else usable n m tbl (i + 1)
  end.

Lemma blocks_outside n m m' p lo hi :
  outside m m' lo hi -> 0 <= p -> p + 16 * Z.of_nat n <= 4294967296 -> p + 16 * Z.of_nat n <= lo \/ hi <= p ->
  blocks n m' p = blocks n m p.
Proof.
  intros Ho. revert p. induction n as [|n IH]; intros p ???; cbn [blocks]; [done|].
  rewrite IH, (outside_load 8 m m' lo hi p), (outside_load 8 m m' lo hi (p + 8)) by (done || lia). done.
Qed.

Lemma usable_outside n m m' tbl i lo hi :
  outside m m' lo hi -> 0 <= tbl -> 0 <= i -> tbl + 24 * (i + Z.of_nat n) <= 4294967296 ->
  tbl + 24 * (i + Z.of_nat n) <= lo \/ hi <= tbl -> usable n m' tbl i = usable n m tbl i.
Proof.
  intros Ho ?. revert i. induction n as [|n IH]; intros i ???; cbn [usable]; [done|].
  rewrite IH by lia. unfold e820_usable, e820_base, e820_size, e820_type, e820_acpi3.
  by rewrite !(outside_load 4 m m' lo hi), !(outside_load 8 m m' lo hi) by (done || lia).
Qed.

Lemma closest_boundary_eq n m tbl i address best :
  closest_boundary n m tbl i address best = closest (usable n m tbl i) address best.
Proof.
  revert i best. induction n as [|n IH]; intros i best; cbn [closest_boundary usable]; [done|].
  rewrite IH. by destruct (e820_usable m tbl i).
Qed.

Lemma load64_store64_eq m a v : 0 <= a <= 4294967288 -> load64 (store64 m a v) a = wrap64 v.
Proof. intros. apply load_store_eq; lia. Qed.
Lemma load64_store64_ne m a v b :
  0 <= a <= 4294967288 -> 0 <= b <= 4294967288 -> a + 8 <= b \/ b + 8 <= a -> load64 (store64 m a v) b = load64 m b.
Proof. intros. apply load_store_ne; lia. Qed.

(** The blocks of a list that lie in the 64-bit space. *)
Definition bounded (R : list block) : Prop := Forall (fun b => 0 <= b.1 /\ 0 <= b.2 /\ stop b < 18446744073709551616) R.

Lemma ordered_bounded lo R : 0 <= lo -> ordered lo R -> bounded R.
Proof.
  revert lo. induction R as [|b R IH]; intros lo Hlo; [constructor|]. intros (H1 & H2 & H3 & H4).
  constructor; [lia|]. apply (IH (stop b)); [lia|done].
Qed.

(** The table entry at [t] grows as [extend] says. *)
Lemma extend_entry_spec n tbl t i m :
  0 <= tbl -> 0 <= t -> t + 16 <= 4294967296 -> 0 <= i -> tbl + 24 * (i + Z.of_nat n) <= 4294967296 ->
  t + 16 <= tbl \/ tbl + 24 * (i + Z.of_nat n) <= t ->
  bounded (usable n m tbl i) -> load64 m t + load64 m (t + 8) < 18446744073709551616 ->
  let m' := extend_entry n tbl t i m in
  load64 m' t = load64 m t /\
  load64 m' (t + 8) = extend (usable n m tbl i) (load64 m t) (load64 m (t + 8)) /\
  load64 m t + load64 m' (t + 8) < 18446744073709551616 /\
  outside m m' t (t + 16).
Proof.
  intros Htb Ht Ht2. revert i m. induction n as [|n IH]; intros i m Hi Hn Haw Hb Hs; cbn [extend_entry usable extend].
  { cbn. split; [done|]. split; [done|]. split; [done|]. intros x _ _. done. }
  pose proof (load_range 8 m t) as [Hr1 _]. pose proof (load_range 8 m (t + 8)) as [Hr2 _].
  cbn [usable] in Hb. unfold ram_address, ram_size, set_ram_size. rewrite Z.mul_0_r, Z.add_0_r.
  destruct (e820_usable m tbl i); [|apply IH; done || lia].
  inversion Hb as [|?? (B1 & B2 & B3) Hb']; subst. cbn [fst snd extend] in *.
  rewrite !wrap64_small by lia. set (b := e820_base m tbl i) in *. set (sz := e820_size m tbl i) in *.
  destruct (Z.leb_spec (load64 m t + load64 m (t + 8)) (b + sz)) as [L1|L1]; cbn [andb]; [|apply IH; done || lia].
  destruct (Z.leb_spec b (load64 m t + load64 m (t + 8))) as [L2|L2]; [|apply IH; done || lia].
  rewrite (wrap64_small (b + sz - load64 m t)) by lia. set (m1 := store64 m (t + 8) (b + sz - load64 m t)).
  assert (outside m m1 t (t + 16)) as Ho by (apply outside_store; lia).
  assert (usable n m1 tbl (i + 1) = usable n m tbl (i + 1)) as Eu by (apply (usable_outside _ _ _ _ _ t (t + 16)); done || lia).
  assert (load64 m1 t = load64 m t) as E1 by (apply load64_store64_ne; lia).
  assert (load64 m1 (t + 8) = b + sz - load64 m t) as E2 by (unfold m1; rewrite load64_store64_eq, wrap64_small; lia).
  destruct (IH (i + 1) m1) as (I1 & I2 & I3 & I4); [lia|lia|lia|by rewrite Eu|rewrite E1, E2; lia|].
  rewrite Eu, E1, E2 in *. conjs; try done.
  apply (outside_trans m m1 _ t (t + 16) t (t + 16)); done || lia.
Qed.

Lemma length_coalesce R : (length (coalesce R) <= length R)%nat.
Proof.
  induction R as [|b R IH]; cbn [coalesce length]; [lia|].
  destruct (coalesce R) as [|c C]; cbn [length] in *; [lia|]. case_cmp; cbn [length]; lia.
Qed.

(** The outer loop: the pending blocks [Q] are written at [t], coalesced. *)
Lemma store_entries_spec fuel tbl n t size m P Q :
  0 <= tbl -> 0 <= n -> tbl + 24 * n <= 4294967296 -> 0 <= t ->
  t + 16 * Z.of_nat (length (coalesce Q)) + 16 < 4294967296 ->
  t + 16 * Z.of_nat (length (coalesce Q)) + 16 <= tbl \/ tbl + 24 * n <= t ->
  usable (Z.to_nat n) m tbl 0 = P ++ Q -> used (load64 m t) P -> ordered (load64 m t) Q -> bounded P ->
  (length (coalesce Q) < fuel)%nat -> 0 <= size -> size + Z.of_nat (length (coalesce Q)) < 4294967296 ->
  exists m', store_entries fuel tbl n t size m = Some (size + Z.of_nat (length (coalesce Q)), m') /\
    blocks (length (coalesce Q)) m' t = coalesce Q /\
    outside m m' t (t + 16 * Z.of_nat (length (coalesce Q)) + 16).
Proof.
  intros Htb Hn Htn. revert t size m P Q.
  induction fuel as [|fuel IH]; intros t size m P Q Ht Hroom Haw Hu Hp Hq HbP Hf Hs Hsz; [lia|].
  cbn [store_entries]. unfold ram_address, set_ram_address, set_ram_size, ram_size. rewrite Z.mul_0_r, !Z.add_0_r.
  rewrite closest_boundary_eq, Hu, (closest_pending P Q _ Hp Hq).
  pose proof (load_range 8 m t) as [Hr _]. destruct Q as [|b Q].
  { exists m. cbn. rewrite Z.add_0_r. conjs; try done. }
  pose proof (ordered_bounded _ _ Hr Hq) as HbQ.
  pose proof (coalesce_gapped _ _ Hq) as Hg.
  destruct (coalesce_cons b Q) as (c & C & Ec & Eb). rewrite Ec in *.
  destruct Hg as (G1 & G2 & G3 & G4). cbn [length] in *.
  destruct (coalesce_split _ _ _ _ Hq Ec) as (Q1 & Q2 & EQ & EC & Hu1 & Ho2).
  rewrite <- Eb. unfold ADDR_LIMIT. destruct (Z.eqb_spec c.1 0xFFFFFFFFFFFFFFFF); [lia|].
  set (m0 := store64 (store64 m t c.1) (t + 8) 0).
  assert (outside m m0 t (t + 16)) as Ho0 by (apply (outside_trans _ (store64 m t c.1) _ t (t + 8) (t + 8) (t + 16));
    try apply outside_store; lia).
  assert (load64 m0 t = c.1) as E0 by (unfold m0; rewrite load64_store64_ne, load64_store64_eq, wrap64_small by lia; done).
  assert (load64 m0 (t + 8) = 0) as E1 by (unfold m0; by rewrite load64_store64_eq by lia).
  assert (forall m', outside m m' t (t + 32) -> usable (Z.to_nat n) m' tbl 0 = P ++ b :: Q) as Hus.
  { intros m' Ho. rewrite <- Hu. apply (usable_outside _ _ _ _ _ t (t + 32)); done || lia. }
  assert (usable (Z.to_nat n) m0 tbl 0 = P ++ b :: Q) as Hu0
    by (apply Hus; apply (outside_trans m m0 _ t (t + 16) t (t + 16)); done || lia).
  destruct (extend_entry_spec (Z.to_nat n) tbl t 0 m0) as (I1 & I2 & I3 & I4); try lia.
  { rewrite Hu0. by apply Forall_app. }
  rewrite Hu0, E0, E1, (extend_pending P (b :: Q) (load64 m t) c C Hp Hq Ec) in I2. rewrite E0 in I1.
  set (m2 := extend_entry _ _ _ _ m0) in *. unfold SIZEOF_BLOCKRAM. rewrite !(wrap32_small (t + 16)) by lia.
  rewrite !Z.add_simpl_r, ?Z.add_0_r. rewrite I1, I2.
  rewrite !wrap32_small, !wrap64_small by lia.
  set (m3 := store64 m2 (t + 16) (stop c)).
  assert (outside m m3 t (t + 24)) as Ho3.
  { apply (outside_trans m m2 _ t (t + 16) (t + 16) (t + 24)); try lia; [|apply outside_store; lia].
    apply (outside_trans m m0 _ t (t + 16) t (t + 16)); done || lia. }
  assert (load64 m3 (t + 16) = stop c) as E3 by (unfold m3; rewrite load64_store64_eq, wrap64_small by lia; done).
  destruct (IH (t + 16) (size + 1) m3 (P ++ Q1) Q2) as (m' & HE & HB & HO); rewrite ?E3, ?EC; try lia; try done.
  - rewrite Hus, EQ by (intros x Hx Hnx; apply Ho3; lia). by rewrite app_assoc.
  - apply Forall_app. split; [|done]. eapply Forall_impl; [exact Hp|]. cbv beta. intros x [? ?]. split; lia.
  - apply Forall_app. split; [done|]. rewrite EQ in HbQ. by apply Forall_app in HbQ as [? _].
  - rewrite EC in *. exists m'. split; [rewrite HE; do 2 f_equal; lia|]. cbn [blocks length]. split.
    + rewrite HB. rewrite !(outside_load 8 m3 m' _ _ _ HO) by lia. unfold m3.
      rewrite !load64_store64_ne, I1, I2 by lia. by destruct c.
    + apply (outside_trans m m3 _ t (t + 24) (t + 16) (t + 16 + 16 * Z.of_nat (length C) + 16)); done || lia.
Qed.

(** ** Whole pages, and the entries with none *)

Definition first_page (b : block) : Z := 4096 * ((b.1 + 4095) / 4096).
Definition last_page (b : block) : Z := 4096 * (stop b / 4096).
(** The whole pages of a block, an empty block when there are none. *)
Definition align_block (b : block) : block :=
  if first_page b <? last_page b then (first_page b, last_page b - first_page b) else (0, 0).

(** The removal of the empty blocks, which never looks at the block after one
    it removes. *)
Fixpoint squeeze (R : list block) : list block :=
  match R with
  | [] => []
  | b :: R =>
      if b.2 =? 0 then match R with [] => [] | c :: R => c :: squeeze R end
      else b :: squeeze R
  end.

Definition low_blocks (R : list block) : Prop := Forall (fun b => 0 <= b.1 /\ 0 <= b.2 /\ stop b <= 18446744073709547520) R.

Lemma coalesce_low lo R : 0 <= lo -> ordered lo R -> low_blocks (coalesce R).
Proof.
  intros Hlo Ho. pose proof (coalesce_gapped _ _ Ho) as Hg. destruct (coalesce R) as [|c C]; [constructor|].
  destruct Hg as (G1 & G2 & G3 & G4). constructor; [lia|]. assert (0 <= stop c) as Hc by lia.
  clear -G4 Hc. revert Hc G4. generalize (stop c). induction C as [|d C IH]; intros z Hz Hg; [constructor|].
  destruct Hg as (G1 & G2 & G3 & G4). constructor; [lia|]. apply (IH (stop d)); [lia|done].
Qed.

Lemma load64_range m a : 0 <= load64 m a < 18446744073709551616.
Proof. apply (load_range 8). Qed.

Lemma align_entry_spec t m i b :
  0 <= t + 16 * i -> t + 16 * i + 16 <= 4294967296 ->
  (load64 m (t + 16 * i), load64 m (t + 16 * i + 8)) = b -> stop b <= 18446744073709547520 ->
  let m' := align_entry t i m in
  (load64 m' (t + 16 * i), load64 m' (t + 16 * i + 8)) = align_block b /\
  outside m m' (t + 16 * i) (t + 16 * i + 16).
Proof.
  intros Ht Ht2 <- Hs. cbn [fst snd] in *. unfold align_entry, ram_address, ram_size, set_ram_address, set_ram_size.
  set (p := t + 16 * i) in *. pose proof (load64_range m p). pose proof (load64_range m (p + 8)).
  set (b := load64 m p) in *. set (z := load64 m (p + 8)) in *.
  change (Z.lnot 0xFFF) with (Z.lnot (2 ^ 12 - 1)). rewrite (wrap64_small (b + z)), !ldiff_ones_down by lia.
  change (2 ^ 12) with 4096. set (lo := if _ <? b then _ else _).
  assert (lo = first_page (b, z)) as -> .
  { unfold lo, first_page. cbn [fst]. case_cmp; [rewrite wrap64_small|]; zdiv. }
  change (4096 * ((b + z) / 4096)) with (last_page (b, z)).
  assert (0 <= first_page (b, z) /\ 0 <= last_page (b, z) <= b + z) as [F L]
    by (unfold first_page, last_page; cbn [fst snd]; zdiv).
  unfold align_block. destruct (Z.ltb_spec (first_page (b, z)) (last_page (b, z))).
  - rewrite (wrap64_small (_ - _)) by lia. split.
    + rewrite load64_store64_ne, !load64_store64_eq, !wrap64_small by lia. done.
    + apply (outside_trans _ (store64 m p (first_page (b, z))) _ p (p + 8) (p + 8) (p + 16)); try apply outside_store; lia.
  - split.
    + rewrite load64_store64_ne, !load64_store64_eq by lia. done.
    + apply (outside_trans _ (store64 m p 0) _ p (p + 8) (p + 8) (p + 16)); try apply outside_store; lia.
Qed.

Lemma align_entries_spec n t i m :
  0 <= t -> 0 <= i -> t + 16 * (i + Z.of_nat n) <= 4294967296 -> low_blocks (blocks n m (t + 16 * i)) ->
  let m' := align_entries n t i m in
  blocks n m' (t + 16 * i) = map align_block (blocks n m (t + 16 * i)) /\
  outside m m' (t + 16 * i) (t + 16 * (i + Z.of_nat n)).
Proof.
  intros Ht. revert i m. induction n as [|n IH]; intros i m Hi Hn Hl; cbn [align_entries blocks map]; [done|].
  inversion Hl as [|?? (L1 & L2 & L3) Hl']; subst.
  destruct (align_entry_spec t m i _ ltac:(lia) ltac:(lia) eq_refl L3) as [E O].
  set (m1 := align_entry t i m) in *.
  replace (t + 16 * i + 16) with (t + 16 * (i + 1)) in * by lia.
  assert (blocks n m1 (t + 16 * (i + 1)) = blocks n m (t + 16 * (i + 1))) as Eb
    by (apply (blocks_outside _ _ _ _ _ _ O); lia).
  destruct (IH (i + 1) m1) as [I1 I2]; [lia|lia|by rewrite Eb|].
  rewrite Eb in I1. cbn zeta in I1. rewrite I1. split.
  - f_equal. rewrite <- E. by rewrite !(outside_load 8 _ _ _ _ _ I2) by lia.
  - apply (outside_trans m m1 _ (t + 16 * i) (t + 16 * (i + 1)) (t + 16 * (i + 1)) (t + 16 * (i + 1 + Z.of_nat n))); done || lia.
Qed.

Lemma length_blocks n m p : length (blocks n m p) = n.
Proof. revert p. induction n as [|n IH]; intros p; cbn; [done|]. by rewrite IH. Qed.

Lemma length_squeeze n R : (length R <= n)%nat -> (length (squeeze R) <= length R)%nat.
Proof.
  revert R. induction n as [|n IH]; intros [|b R] H; cbn [length squeeze] in *; try lia.
  case_cmp; [destruct R as [|c R]|]; cbn [length] in *; [lia|pose proof (IH R); lia|pose proof (IH R); lia].
Qed.

(** Entry [n] of the list, read after the list has been moved down. *)
Lemma blocks_moved n m m' p d :
  0 <= p -> 0 <= p - d -> p + 16 * Z.of_nat n <= 4294967296 -> p - d + 16 * Z.of_nat n <= 4294967296 ->
  (forall x, p - d <= x < p - d + 16 * Z.of_nat n -> load8 m' x = load8 m (x + d)) ->
  blocks n m' (p - d) = blocks n m p.
Proof.
  revert p. induction n as [|n IH]; intros p ???? Hm; cbn [blocks]; [done|].
  assert (forall k a, p - d <= a -> a + Z.of_nat k <= p - d + 16 * Z.of_nat (S n) -> load k m' a = load k m (a + d)) as Hl.
  { clear -Hm. induction k as [|k IH]; intros a ??; cbn [load]; [done|].
    rewrite Hm, IH by lia. by replace (a + 1 + d) with (a + d + 1) by lia. }
  rewrite !Hl by lia. replace (p - d + d) with p by lia. replace (p - d + 8 + d) with (p + 8) by lia.
  f_equal. replace (p - d + 16) with (p + 16 - d) by lia. apply IH; try lia. intros x Hx. apply Hm. lia.
Qed.

Lemma remove_empty_spec fuel t i n m :
  0 <= t -> 0 <= i -> t + 16 * (i + Z.of_nat n) < 4294967296 -> (n <= fuel)%nat ->
  let R := squeeze (blocks n m (t + 16 * i)) in
  exists m', remove_empty fuel t i (i + Z.of_nat n) m = (i + Z.of_nat (length R), m') /\
    blocks (length R) m' (t + 16 * i) = R /\ outside m m' (t + 16 * i) (t + 16 * (i + Z.of_nat n)).
Proof.
  intros Ht. revert i n m. induction fuel as [|fuel IH]; intros i n m Hi Hn Hf.
  { destruct n; [|lia]. exists m. cbn. done. }
  destruct n as [|n]; cbn [remove_empty blocks squeeze].
  { exists m. destruct (Z.ltb_spec i (i + Z.of_nat 0)); [lia|]. done. }
  destruct (Z.ltb_spec i (i + Z.of_nat (S n))); [|lia]. unfold ram_size. cbn [snd].
  destruct (Z.eqb_spec (load64 m (t + 16 * i + 8)) 0) as [E|E].
  - unfold SIZEOF_BLOCKRAM. rewrite (wrap32_small (_ - i)) by lia.
    rewrite (wrap32_small (_ - i - 1)) by lia. rewrite (wrap32_small (_ * 16)), (wrap32_small (_ - 1)) by lia.
    set (m1 := memmove _ _ _ _).
    assert (forall x, 0 <= x < 4294967296 -> load8 m1 x =
      if (t + 16 * i <=? x) && (x <? t + 16 * i + 16 * Z.of_nat n) then load8 m (x + 16) else load8 m x) as Hm1.
    { intros x Hx. unfold m1. rewrite load8_memmove by lia.
      replace ((i + Z.of_nat (S n) - i - 1) * 16) with (16 * Z.of_nat n) by lia.
      destruct (_ && _); [|done]. f_equal. lia. }
    assert (outside m m1 (t + 16 * i) (t + 16 * (i + Z.of_nat n))) as Ho.
    { intros x Hx Hnx. rewrite Hm1 by done. destruct (Z.leb_spec (t + 16 * i) x), (Z.ltb_spec x (t + 16 * i + 16 * Z.of_nat n)); done || lia. }
    assert (blocks n m1 (t + 16 * i) = blocks n m (t + 16 * i + 16)) as Eb.
    { replace (t + 16 * i) with (t + 16 * i + 16 - 16) at 1 by lia. apply blocks_moved; try lia. intros x Hx.
      rewrite Hm1 by lia. destruct (Z.leb_spec (t + 16 * i) x), (Z.ltb_spec x (t + 16 * i + 16 * Z.of_nat n)); done || lia. }
    rewrite <- Eb. destruct n as [|n]; cbn [blocks].
    + exists m1. destruct fuel; cbn [remove_empty]; [|destruct (Z.ltb_spec (i + 1) (i + Z.of_nat 1 - 1)); [lia|]];
        (split; [f_equal; cbn; lia|split; [done|]]); intros x Hx Hnx; apply Ho; lia.
    + destruct (IH (i + 1) n m1) as (m' & H1 & H2 & H3); [lia|lia|lia|].
      replace (i + Z.of_nat (S (S n)) - 1) with (i + 1 + Z.of_nat n) by lia. exists m'.
      replace (t + 16 * i + 16) with (t + 16 * (i + 1)) by lia. cbn zeta in *.
      set (R := squeeze (blocks n m1 (t + 16 * (i + 1)))) in *. cbn [length]. split; [rewrite H1; f_equal; lia|].
      cbn [blocks]. replace (t + 16 * i + 16) with (t + 16 * (i + 1)) by lia. rewrite H2. split.
      * f_equal. by rewrite !(outside_load 8 _ _ _ _ _ H3) by lia.
      * apply (outside_trans m m1 _ _ _ _ _ _ _ Ho H3); lia.
  - destruct (IH (i + 1) n m) as (m' & H1 & H2 & H3); [lia|lia|lia|].
    replace (i + Z.of_nat (S n)) with (i + 1 + Z.of_nat n) by lia. exists m'.
    replace (t + 16 * i + 16) with (t + 16 * (i + 1)) by lia. cbn zeta in *.
    set (R := squeeze (blocks n m (t + 16 * (i + 1)))) in *. cbn [length]. split; [rewrite H1; f_equal; lia|].
    cbn [blocks]. replace (t + 16 * i + 16) with (t + 16 * (i + 1)) by lia. rewrite H2. split.
    + f_equal. by rewrite !(outside_load 8 _ _ _ _ _ H3) by lia.
    + intros x Hx Hnx. apply H3; lia.
Qed.

(** ** What the list covers *)

(** The list that is left in memory. *)
Definition free_list (page_align : bool) (R : list block) : list block :=
  squeeze (if page_align then map align_block (coalesce R) else coalesce R).

Lemma all_gapped lo R : ordered lo R -> gapped (lo - 1) (coalesce R).
Proof.
  intros Ho. pose proof (coalesce_gapped _ _ Ho) as Hg. destruct (coalesce R) as [|c C]; [done|].
  cbn [gapped]. destruct Hg as (?&?&?&?). conjs; done || lia.
Qed.

Lemma gapped_above lo C x : gapped lo C -> covered x C -> lo < x.
Proof.
  revert lo. induction C as [|c C IH]; intros lo; [by intros _ H%Exists_nil|].
  intros (G1 & G2 & G3 & G4). unfold covered. rewrite Exists_cons. intros [[? _]|H]; [lia|].
  pose proof (IH _ G4 H). lia.
Qed.

Lemma gapped_pos lo C c : gapped lo C -> c ∈ C -> 0 < c.2.
Proof.
  revert lo. induction C as [|d C IH]; intros lo; [by intros _ ?%not_elem_of_nil|].
  rewrite elem_of_cons. intros (?&?&?&?) [->|Hc]; eauto.
Qed.

(** The byte after a block of the list is not covered. *)
Lemma gapped_stop lo C c : gapped lo C -> c ∈ C -> ~ covered (stop c) C.
Proof.
  revert lo. induction C as [|d C IH]; intros lo; [by intros _ ?%not_elem_of_nil|].
  intros (G1 & G2 & G3 & G4). rewrite elem_of_cons. unfold covered. rewrite Exists_cons. intros [->|Hc] [[H1 H2]|H].
  - lia.
  - pose proof (gapped_above _ _ _ G4 H). lia.
  - pose proof (gapped_pos _ _ _ G4 Hc). assert (covered c.1 C) as Hx.
    { apply Exists_exists. exists c. split; [done|]. unfold in_block. lia. }
    pose proof (gapped_above _ _ _ G4 Hx). lia.
  - by apply (IH _ G4 Hc).
Qed.

Lemma covered_squeeze n R x : (length R <= n)%nat -> covered x (squeeze R) <-> covered x R.
Proof.
  revert R. unfold covered. induction n as [|n IH]; intros [|b R] H; cbn [length squeeze] in *; try done; try lia.
  destruct (Z.eqb_spec b.2 0) as [E|E].
  - assert (~ in_block x b) by (unfold in_block; lia). rewrite Exists_cons.
    destruct R as [|c R]; [rewrite Exists_nil; tauto|]. rewrite !Exists_cons, IH by (cbn [length] in *; lia). tauto.
  - rewrite !Exists_cons, IH by lia. done.
Qed.

Lemma squeeze_gapped lo C : gapped lo C -> squeeze C = C.
Proof.
  revert lo. induction C as [|c C IH]; intros lo; [done|]. intros (G1 & G2 & G3 & G4). cbn [squeeze].
  destruct (Z.eqb_spec c.2 0); [lia|]. by rewrite (IH _ G4).
Qed.

(** The page of the byte [x]. *)
Definition same_page (x y : Z) : Prop := 4096 * (x / 4096) <= y < 4096 * (x / 4096) + 4096.

Lemma in_align_block x b : in_block x (align_block b) <-> forall y, same_page x y -> in_block y b.
Proof.
  unfold align_block, same_page, in_block, first_page, last_page. split.
  - case_cmp; cbn [fst snd]; [|lia]. intros Hx y Hy. zdiv.
  - intros H. pose proof (H (4096 * (x / 4096)) ltac:(lia)). pose proof (H (4096 * (x / 4096) + 4095) ltac:(lia)).
    case_cmp; cbn [fst snd]; zdiv.
Qed.

(** A run of bytes that the list covers is inside one of its blocks. *)
Lemma gapped_run lo C p n :
  gapped lo C -> 0 < n -> (forall y, p <= y < p + n -> covered y C) ->
  exists c, c ∈ C /\ forall y, p <= y < p + n -> in_block y c.
Proof.
  intros Hg Hn H. destruct (proj1 (Exists_exists _ _) (H p ltac:(lia))) as (c & Hc & [H1 H2]).
  exists c. split; [done|]. intros y Hy. split; [lia|]. destruct (Z.ltb_spec y (stop c)); [done|].
  exfalso. apply (gapped_stop lo C c Hg Hc). apply H. lia.
Qed.

Lemma covered_align lo R x :
  ordered lo R -> covered x (map align_block (coalesce R)) <-> forall y, same_page x y -> covered y R.
Proof.
  intros Ho. pose proof (all_gapped _ _ Ho) as Hg. unfold covered at 1. rewrite Exists_map, Exists_exists. split.
  - intros (c & Hc & Hx) y Hy. apply (coalesce_covered _ _ _ Ho).
    apply Exists_exists. exists c. split; [done|]. by apply (proj1 (in_align_block x c)).
  - intros H. destruct (gapped_run _ (coalesce R) (4096 * (x / 4096)) 4096 Hg) as (c & Hc & Hin); [lia| |].
    { intros y Hy. apply (coalesce_covered _ _ _ Ho). by apply H. }
    exists c. split; [done|]. by apply in_align_block.
Qed.

Lemma free_list_covered al lo R x :
  ordered lo R ->
  covered x (free_list al R) <-> if al then forall y, same_page x y -> covered y R else covered x R.
Proof.
  intros Ho. unfold free_list. rewrite (covered_squeeze _ _ _ (le_n _)). destruct al.
  - by apply (covered_align lo).
  - by apply (coalesce_covered lo).
Qed.

(** ** Memory_StoreInfo *)

Lemma usable_length n m tbl i : (length (usable n m tbl i) <= n)%nat.
Proof. revert i. induction n as [|n IH]; intros i; cbn; [lia|]. specialize (IH (i + 1)). destruct (e820_usable _ _ _); cbn; lia. Qed.

Lemma StoreInfo_list fuel addr al tbl n m :
  let R := usable (Z.to_nat n) m tbl 0 in
  let F := free_list al R in
  let stop_ := addr + 16 * Z.of_nat (length R) + 16 in
  ordered 0 R -> 0 <= tbl -> 0 <= n -> tbl + 24 * n <= 4294967296 -> 0 <= addr -> stop_ < 4294967296 ->
  stop_ <= tbl \/ tbl + 24 * n <= addr -> (length R < fuel)%nat ->
  exists m', Memory_StoreInfo fuel addr al tbl n m = Some (addr + 16 * Z.of_nat (length F), m') /\
    (length F <= length R)%nat /\ blocks (length F) m' addr = F /\ outside m m' addr stop_.
Proof.
  intros R F stop_ Ho Htb Hn Htn Ha Hs Haw Hf. pose proof (length_coalesce R) as Hlc.
  unfold Memory_StoreInfo, set_ram_address, set_ram_size. rewrite Z.mul_0_r, Z.add_0_r.
  set (m0 := store64 (store64 m addr 0) (addr + 8) 0).
  assert (outside m m0 addr (addr + 16)) as O0 by (apply (outside_trans _ (store64 m addr 0) _ addr (addr + 8) (addr + 8) (addr + 16));
    try apply outside_store; lia).
  assert (load64 m0 addr = 0) as E0 by (unfold m0; by rewrite load64_store64_ne, load64_store64_eq by lia).
  assert (usable (Z.to_nat n) m0 tbl 0 = [] ++ R) as Eu by (apply (usable_outside _ _ _ _ _ _ _ O0); lia).
  destruct (store_entries_spec fuel tbl n addr 0 m0 [] R) as (m1 & E1 & B1 & O1);
    rewrite ?E0; try done; try (unfold stop_ in *; lia); try by constructor.
  rewrite E1. cbn [mbind option_bind]. rewrite Z.add_0_l, Nat2Z.id. set (k := length (coalesce R)) in *.
  set (m2 := if al then _ else _).
  assert (blocks k m2 addr = (if al then map align_block (coalesce R) else coalesce R) /\
    outside m1 m2 addr (addr + 16 * Z.of_nat k)) as [B2 O2].
  { unfold m2. destruct al; [|by split].
    pose proof (align_entries_spec k addr 0 m1) as Hal. cbn zeta in Hal. rewrite Z.mul_0_r, Z.add_0_r, Z.add_0_l, B1 in Hal.
    apply Hal; try (unfold stop_ in *; lia). by apply (coalesce_low 0). }
  destruct (remove_empty_spec k addr 0 k m2) as (m3 & E3 & B3 & O3); [lia|lia|unfold stop_ in *; lia|lia|].
  cbn zeta in *. rewrite Z.mul_0_r, Z.add_0_r, Z.add_0_l, B2 in *.
  change (squeeze (if al then map align_block (coalesce R) else coalesce R)) with F in *.
  rewrite E3. cbn [mbind option_bind]. exists m3.
  assert (length F <= k)%nat as HF.
  { unfold F, free_list. etrans; [by eapply length_squeeze|]. destruct al; [by rewrite length_map|done]. }
  unfold SIZEOF_BLOCKRAM. rewrite (wrap32_small (_ * 16)), wrap32_small by (unfold stop_ in *; lia).
  split; [do 2 f_equal; lia|]. split; [lia|]. split; [done|].
  apply (outside_trans _ m0 _ _ _ addr (addr + 16 * Z.of_nat k + 16) _ _ O0); try (unfold stop_; lia).
  apply (outside_trans _ m1 _ _ _ addr (addr + 16 * Z.of_nat k) _ _ O1); try lia.
  apply (outside_trans _ m2 _ _ _ _ _ _ _ O2 O3); lia.
Qed.


(** A map of four entries: two adjacent usable ones, a hole of reserved memory
    and a usable entry of less than a page. *)
Definition e820_entry (base size type : Z) : list Z :=
  map (fun i => wrap8 (base / 2 ^ (8 * Z.of_nat i))) (seq 0 8) ++
  map (fun i => wrap8 (size / 2 ^ (8 * Z.of_nat i))) (seq 0 8) ++ [type; 0; 0; 0; 1; 0; 0; 0].
Definition demo_e820 : Mem :=
  store_bytes ∅ 0x8000
    (e820_entry 0 0x9FC00 1 ++ e820_entry 0x9FC00 0x400 1 ++ e820_entry 0xA0000 0x60000 2 ++ e820_entry 0x100000 0x800 1).

