(* ===== verification/E820.v ===== *)
(** * The E820 map as the firmware gives it

    The documented behaviour of interrupt 0x15, function 0xE820: a call with
    continuation value [k] writes entry [k] of the map at [es:di] and returns
    the next continuation value; the end of the map is told by a value of 0
    with the last entry, or by the carry flag on a call past it. Under it,
    what [Memory_StoreE820Info] leaves in memory. *)

From S2P Require Import Prelude CMem Ports Bios BootMem RamMap.

(** An entry, with its ACPI 3 word when the firmware gives 24 bytes. *)
Record Entry := mkEntry { e_base : Z; e_size : Z; e_type : Z; e_ext : option Z }.
Definition e_bytes (e : Entry) : Z := match e_ext e with Some _ => 24 | None => 20 end.

Definition entry_at (m : Mem) (p : Z) (e : Entry) : Prop :=
  load64 m p = e_base e /\ load64 m (p + 8) = e_size e /\ load32 m (p + 16) = e_type e /\
  forall x, e_ext e = Some x -> load32 m (p + 20) = x.

Definition SMAP : Z := 0x534D4150.

Section Firmware.
Context {W : Type}.
Variable BIOS_Interrupt : Z -> BIOS_Registers -> Boot W -> BIOS_Registers * Boot W.

Definition asks (k : Z) (r : BIOS_Registers) : Prop := eax r = 0xE820 /\ ecx r = 24 /\ edx r = SMAP /\ ebx r = k.
(** Where [es:di] points. *)
Definition es_di (r : BIOS_Registers) : Z := 16 * es r + di r.

Record e820_firmware (E : list Entry) (by_zero : bool) : Prop := {
  fw_entry : forall k e r s, E !! k = Some e -> asks (Z.of_nat k) r ->
    0 <= es_di r -> es_di r + 24 <= 0x100000 ->
    exists r' s', BIOS_Interrupt 0x15 r s = (r', s') /\
      carry r' = false /\ eax r' = SMAP /\ ecx r' = e_bytes e /\
      ebx r' = (if by_zero && (S k =? length E)%nat then 0 else Z.of_nat (S k)) /\
      esi r' = esi r /\ edi r' = edi r /\ es r' = es r /\
      entry_at (bmem s') (es_di r) e /\ outside (bmem s) (bmem s') (es_di r) (es_di r + e_bytes e);
  fw_end : forall r s, asks (Z.of_nat (length E)) r ->
    exists r' s', BIOS_Interrupt 0x15 r s = (r', s') /\ carry r' = true /\ esi r' = esi r /\
      outside (bmem s) (bmem s') (es_di r) (es_di r)
}.

(** The entries the code keeps: those that say they are valid, and are not
    empty. When the firmware ends the map with a continuation value of 0 the
    code leaves the loop before it counts the last one. *)
Definition keeps (e : Entry) : bool :=
  (match e_ext e with Some x => Z.land x 3 =? 1 | None => true end) && (0 <? e_size e).
Definition kept (by_zero : bool) (E : list Entry) : list Entry :=
  List.filter keeps (if by_zero then removelast E else E).

(** The entry [i] of the table at [tbl] is [e]; the table from entry [i] on
    is [L]. *)
Definition stored (m : Mem) (tbl i : Z) (e : Entry) : Prop :=
  e820_base m tbl i = e_base e /\ e820_size m tbl i = e_size e /\ e820_type m tbl i = e_type e /\
  e820_acpi3 m tbl i = default 1 (e_ext e).
Fixpoint table (m : Mem) (tbl i : Z) (L : list Entry) : Prop :=
  match L with
  | [] => True
  | e :: L => stored m tbl i e /\ table m tbl (i + 1) L
  end.

(** The blocks of available memory. *)
Definition available (e : Entry) : bool := (default 1 (e_ext e) =? 1) && (e_type e =? 1).
Definition ram (L : list Entry) : list block := map (fun e => (e_base e, e_size e)) (List.filter available L).

Lemma table_usable m tbl i L : table m tbl i L -> usable (length L) m tbl i = ram L.
Proof.
  revert i. induction L as [|e L IH]; intros i; [done|]. cbn [table length usable]. intros [(H1 & H2 & H3 & H4) Ht].
  rewrite (IH _ Ht). unfold e820_usable, ram. rewrite H3, H4, H1, H2. cbn [List.filter].
  change (available e) with ((default 1 (e_ext e) =? 1) && (e_type e =? 1)).
  unfold MEMORY_E820_ACPI3_FLAG, MEMORY_E820_AVAILABLE. by destruct (_ && _).
Qed.

Lemma kept_cons by_zero e E :
  (by_zero = true -> E <> []) -> kept by_zero (e :: E) = if keeps e then e :: kept by_zero E else kept by_zero E.
Proof. intros Hz. unfold kept. destruct by_zero; [|done]. destruct E; [by destruct (Hz eq_refl)|done]. Qed.

Lemma length_kept by_zero E : (length (kept by_zero E) <= length E)%nat.
Proof.
  unfold kept. etrans; [apply filter_length_le|]. destruct by_zero; [|done].
  rewrite removelast_firstn_len, length_take. lia.
Qed.

Section Loop.
Variables (E : list Entry) (by_zero : bool) (addr : Z).
Hypothesis Hfw : e820_firmware E by_zero.
Hypothesis Haddr : 0 <= addr.
Hypothesis Hlow : addr + 24 * Z.of_nat (length E) + 24 <= 0x100000.
Hypothesis Hlen : 24 * Z.of_nat (length E) + 24 <= 65536.

(** Before the turn for entry [k], with [j] entries kept. *)
Definition loop_at (k j : nat) (r : BIOS_Registers) : Prop :=
  ebx r = Z.of_nat k /\ esi r = 24 * Z.of_nat j /\ edi r = addr mod 16 + 24 * Z.of_nat j /\ es r = addr / 16.

Lemma loop_es_di k j r : loop_at k j r -> (j <= length E)%nat -> es_di r = addr + 24 * Z.of_nat j.
Proof. intros (H1 & H2 & H3 & H4) Hj. unfold es_di, di, low16. rewrite H3, H4. zdiv. Qed.

Lemma e820_loop_spec Epre Erest fuel j r s :
  E = Epre ++ Erest -> (by_zero = true -> Erest <> []) -> (length Erest < fuel)%nat -> (j <= length Epre)%nat ->
  loop_at (length Epre) j r ->
  let L := kept by_zero Erest in
  exists r' s', e820_loop BIOS_Interrupt fuel (addr + 24 * Z.of_nat j) r s = Some (r', s') /\
    esi r' = 24 * Z.of_nat (j + length L) /\ table (bmem s') addr (Z.of_nat j) L /\
    outside (bmem s) (bmem s') (addr + 24 * Z.of_nat j) (addr + 24 * Z.of_nat (j + length L) + 24).
Proof.
  revert Epre fuel j r s. induction Erest as [|e Erest IH]; intros Epre [|fuel] j r s HE Hz Hf Hj Hl; try (cbn in Hf; lia).
  - destruct by_zero; [by destruct (Hz eq_refl)|]. rewrite app_nil_r in HE. rewrite <- HE in *. cbn [e820_loop].
    pose proof (loop_es_di _ _ _ Hl Hj) as Hp. destruct Hl as (L1 & L2 & L3 & L4). set (r0 := set_edx _ _). set (s0 := on_mem _ s).
    destruct (fw_end _ _ Hfw r0 s0) as (r' & s' & -> & H1 & H2 & H3); [by repeat split|].
    rewrite H1. cbn [orb]. exists r', s'. split; [done|]. rewrite H2. cbn [esi r0 set_edx set_ecx set_eax kept List.filter length table].
    split; [lia|]. split; [done|]. apply (outside_trans _ (bmem s0) _ (addr + 24 * Z.of_nat j) (addr + 24 * Z.of_nat j + 24) _ _ _ _ ltac:(apply outside_store; lia) H3);
      unfold es_di, di in *; cbn [es edi r0 set_edx set_ecx set_eax]; lia.
  - assert (E !! length Epre = Some e) as Hk by (rewrite HE; apply list_lookup_middle; done).
    assert (length E = S (length Epre + length Erest)) as HlE by (rewrite HE, length_app; cbn; lia).
    cbn [e820_loop]. pose proof (loop_es_di _ _ _ Hl ltac:(lia)) as Hp. pose proof Hl as (L1 & L2 & L3 & L4).
    set (r0 := set_edx _ _). set (s0 := on_mem _ s).
    destruct (fw_entry _ _ Hfw (length Epre) e r0 s0 Hk) as (r' & s' & -> & H1 & H2 & H3 & H4 & H5 & H6 & H7 & H8 & H9);
      [by repeat split|change (0 <= es_di r); lia|change (es_di r + 24 <= 0x100000); lia|].
    change (es_di r0) with (es_di r) in *. rewrite Hp in *.
    change (esi r0) with (esi r) in *. change (edi r0) with (edi r) in *. change (es r0) with (es r) in *.
    clearbody r0. rewrite H1, H2, H4. cbn [orb Z.eqb Pos.eqb negb SMAP].
    assert (outside (bmem s) (bmem s') (addr + 24 * Z.of_nat j) (addr + 24 * Z.of_nat j + 24)) as Ho.
    { refine (outside_trans _ (bmem s0) _ (addr + 24 * Z.of_nat j + 20) (addr + 24 * Z.of_nat j + 24) _ _ _ _ _ H9 _ _ _ _);
        try lia; [apply outside_store; lia|unfold e_bytes; destruct (e_ext e); lia]. }
    destruct (by_zero && (S (length Epre) =? length E)%nat) eqn:Ez; cbn [orb Z.eqb].
    + apply andb_true_iff in Ez as [-> En%Nat.eqb_eq]. destruct Erest; [|cbn in *; lia].
      exists r', s'. cbn. rewrite H5, L2. rewrite Nat.add_0_r. conjs; try done; lia.
    + destruct (Z.eqb_spec (Z.of_nat (S (length Epre))) 0); [lia|].
      assert (by_zero = true -> Erest <> []) as Hz'.
      { intros -> ->. cbn [length] in *. rewrite HlE, Nat.add_0_r, Nat.eqb_refl in Ez. done. }
      destruct H8 as (B1 & B2 & B3 & B4).
      match goal with |- context [if ?c then e820_loop _ _ _ _ _ else _] => replace c with (keeps e) end.
      2: { unfold keeps. rewrite H3, B2. unfold e_bytes. destruct (e_ext e) as [x|]; [by rewrite (B4 x)|done]. }
      rewrite (kept_cons by_zero e Erest Hz').
      assert (loop_at (S (length Epre)) j r') as Hl' by (unfold loop_at; rewrite H4, H5, H6, H7; by repeat split).
      assert (length (Epre ++ [e]) = S (length Epre)) as El by (rewrite length_app; cbn; lia).
      rewrite cons_middle, app_assoc in HE. destruct (keeps e) eqn:Ek; cbn zeta in *.
      * destruct (IH (Epre ++ [e]) fuel (S j) (set_edi (edi r' ⊕ 24) (set_esi (esi r' ⊕ 24) r')) s') as (r2 & s2 & I1 & I2 & I3 & I4);
          [done|done|cbn in *; lia|lia| |].
        { rewrite El. destruct Hl' as (M1 & M2 & M3 & M4). unfold loop_at. cbn [ebx esi edi es set_edi set_esi]. rewrite M2, M3, !wrap32_small by zdiv.
          split; [done|]. split; [lia|]. split; [lia|done]. }
        rewrite (wrap32_small (_ + 24)) by lia. replace (addr + 24 * Z.of_nat j + 24) with (addr + 24 * Z.of_nat (S j)) by lia.
        exists r2, s2. split; [done|]. cbn [length table]. split; [rewrite I2; lia|].
        replace (Z.of_nat j + 1) with (Z.of_nat (S j)) by lia. split; [split; [|done]|].
        -- assert (stored (bmem s') addr (Z.of_nat j) e) as (S1 & S2 & S3 & S4).
           { split; [done|]. split; [done|]. split; [done|]. unfold e820_acpi3. destruct (e_ext e) as [x|] eqn:Ex; [by apply B4|].
             unfold e_bytes in H9. rewrite Ex in H9. rewrite (outside_load 4 _ _ _ _ _ H9) by lia. unfold s0, on_mem. cbn [bmem default from_option].
             by rewrite load32_store32_eq by lia. }
           unfold stored, e820_base, e820_size, e820_type, e820_acpi3 in *.
           by rewrite !(outside_load 8 _ _ _ _ _ I4), !(outside_load 4 _ _ _ _ _ I4) by lia.
        -- refine (outside_trans _ (bmem s') _ _ _ _ _ _ _ Ho I4 _ _ _ _); lia.
      * destruct (IH (Epre ++ [e]) fuel j r' s') as (r2 & s2 & I1 & I2 & I3 & I4);
          [done|done|cbn in *; lia|lia|by rewrite El|].
        exists r2, s2. split; [done|]. split; [done|]. split; [done|].
        refine (outside_trans _ (bmem s') _ _ _ _ _ _ _ Ho I4 _ _ _ _); lia.
Qed.
End Loop.

Lemma StoreE820Info_table E by_zero fuel addr s :
  e820_firmware E by_zero -> E <> [] -> 0 <= addr -> addr + 24 * Z.of_nat (length E) + 24 <= 0x100000 ->
  24 * Z.of_nat (length E) + 24 <= 65536 -> (length E < fuel)%nat ->
  let L := kept by_zero E in
  exists s', Memory_StoreE820Info BIOS_Interrupt fuel addr s = Some (addr + 24 * Z.of_nat (length L), s') /\
    (length L <= length E)%nat /\ table (bmem s') addr 0 L /\
    outside (bmem s) (bmem s') addr (addr + 24 * Z.of_nat (length L) + 24).
Proof.
  intros Hfw HE Ha Hlow Hlen Hf L. unfold Memory_StoreE820Info. set (r := set_es _ _).
  assert (loop_at addr 0 0 r) as Hl.
  { unfold loop_at, r. cbn [ebx esi edi es set_es set_di set_edi BIOS_ClearRegistry]. unfold put16.
    change 0xF with (Z.ones 4). rewrite Z.land_ones, Z.shiftr_div_pow2 by lia. change (2 ^ 4) with 16.
    conjs; try done; zdiv. }
  destruct (e820_loop_spec E by_zero addr Hfw Ha Hlow Hlen [] E fuel 0%nat r s) as (r' & s' & H1 & H2 & H3 & H4);
    try done. rewrite Z.add_0_r in H1, H4. rewrite H1. cbn [mbind option_bind]. fold L in H2, H3, H4. rewrite Nat.add_0_l in *.
  pose proof (length_kept by_zero E : (length L <= length E)%nat) as HL.
  exists s'. rewrite H2, wrap32_small by lia. done.
Qed.

(** The E820 map: the table in memory is the entries the firmware gives that
    are valid and not empty, in its order, each with 1 in the ACPI 3 word when
    the firmware gave none. When the firmware ends the map with a continuation
    value of 0 its last entry is missing. *)
Theorem Memory_StoreE820Info_correct E by_zero fuel addr s :
  e820_firmware E by_zero -> E <> [] -> 0 <= addr -> addr + 24 * Z.of_nat (length E) + 24 <= 0x100000 ->
  24 * Z.of_nat (length E) + 24 <= 65536 -> (length E < fuel)%nat ->
  let L := kept by_zero E in
  exists s', Memory_StoreE820Info BIOS_Interrupt fuel addr s = Some (addr + 24 * Z.of_nat (length L), s') /\
    table (bmem s') addr 0 L /\ outside (bmem s) (bmem s') addr (addr + 24 * Z.of_nat (length L) + 24).
Proof.
  intros H1 H2 H3 H4 H5 H6 L. destruct (StoreE820Info_table E by_zero fuel addr s H1 H2 H3 H4 H5 H6) as (s' & ?&?&?&?).
  by exists s'.
Qed.
End Firmware.

(** ** A firmware *)

(** A firmware with the map [E]; its only state is memory. *)
Definition write_entry (m : Mem) (p : Z) (e : Entry) : Mem :=
  let m := store32 (store64 (store64 m p (e_base e)) (p + 8) (e_size e)) (p + 16) (e_type e) in
  match e_ext e with Some x => store32 m (p + 20) x | None => m end.
Definition firmware (E : list Entry) (by_zero : bool) (i : Z) (r : BIOS_Registers) (s : Boot unit)
  : BIOS_Registers * Boot unit :=
  match E !! Z.to_nat (ebx r) with
  | Some e =>
      let next := if by_zero && (S (Z.to_nat (ebx r)) =? length E)%nat then 0 else ebx r + 1 in
      (mkRegs SMAP next (e_bytes e) (edx r) (esi r) (edi r) (ebp r) (esp r) (ds r) (es r) (ss r) 0,
       on_mem (fun m => write_entry m (es_di r) e) s)
  | None => (mkRegs (eax r) 0 0 (edx r) (esi r) (edi r) (ebp r) (esp r) (ds r) (es r) (ss r) 1, s)
  end.

Definition entry_ok (e : Entry) : Prop :=
  0 <= e_base e < 18446744073709551616 /\ 0 <= e_size e < 18446744073709551616 /\ 0 <= e_type e < 4294967296 /\
  forall x, e_ext e = Some x -> 0 <= x < 4294967296.

Lemma load32_store64_ne m a v b :
  0 <= a <= 4294967288 -> 0 <= b <= 4294967292 -> a + 8 <= b \/ b + 4 <= a -> load32 (store64 m a v) b = load32 m b.
Proof. intros. apply load_store_ne; lia. Qed.
Lemma load64_store32_ne m a v b :
  0 <= a <= 4294967292 -> 0 <= b <= 4294967288 -> a + 4 <= b \/ b + 8 <= a -> load64 (store32 m a v) b = load64 m b.
Proof. intros. apply load_store_ne; lia. Qed.

Lemma write_entry_at m p e :
  0 <= p -> p + 24 <= 4294967296 -> entry_ok e ->
  entry_at (write_entry m p e) p e /\ outside m (write_entry m p e) p (p + e_bytes e).
Proof.
  intros Hp Hp2 (H1 & H2 & H3 & H4). unfold write_entry, entry_at, e_bytes. destruct (e_ext e) as [x|].
  - pose proof (H4 x eq_refl). split.
    + conjs; repeat first [rewrite load64_store32_ne by lia | rewrite load64_store64_ne by lia
        | rewrite load32_store32_ne by lia | rewrite load64_store64_eq by lia | rewrite load32_store32_eq by lia];
        rewrite ?wrap64_small, ?wrap32_small by lia; try done. by intros y [= <-].
    + intros y Hy Hn. by rewrite !load8_store_ne by lia.
  - split.
    + conjs; repeat first [rewrite load64_store32_ne by lia | rewrite load64_store64_ne by lia
        | rewrite load64_store64_eq by lia | rewrite load32_store32_eq by lia];
        rewrite ?wrap64_small, ?wrap32_small by lia; done.
    + intros y Hy Hn. by rewrite !load8_store_ne by lia.
Qed.

Lemma firmware_ok E by_zero :
  Forall entry_ok E -> e820_firmware (firmware E by_zero) E by_zero.
Proof.
  intros Hok. split.
  - intros k e r s Hk (H1 & H2 & H3 & H4) Hp Hp2. unfold firmware. rewrite H4, Nat2Z.id, Hk. do 2 eexists. split; [reflexivity|].
    cbn [ebx eax ecx esi edi es on_mem bmem]. destruct (write_entry_at (bmem s) (es_di r) e) as [? ?];
      [done|lia|by eapply Forall_lookup_1|].
    conjs; try done. replace (Z.of_nat k + 1) with (Z.of_nat (S k)) by lia. done.
  - intros r s (H1 & H2 & H3 & H4). unfold firmware. rewrite H4, Nat2Z.id, lookup_ge_None_2 by done.
    do 2 eexists. split; [reflexivity|]. by repeat split.
Qed.

(** 640 KB in two entries, the adapters' memory, 16 MB above the first, the ROM. *)
Definition pc_map : list Entry :=
  [mkEntry 0 0x9FC00 1 None; mkEntry 0x9FC00 0x400 1 (Some 1); mkEntry 0xA0000 0x60000 2 None;
   mkEntry 0x100000 0x1000000 1 (Some 1); mkEntry 0xFFFC0000 0x40000 2 None].

Lemma pc_map_ok : Forall entry_ok pc_map.
Proof.
  unfold pc_map, entry_ok. repeat (apply List.Forall_cons; [cbn; conjs; try lia; intros x; by intros [= <-] || done|]).
  by apply List.Forall_nil.
Qed.

Lemma pc_map_ordered : ordered 0 (ram (kept true pc_map)).
Proof. change (ordered 0 [(0, 0x9FC00); (0x9FC00, 0x400); (0x100000, 0x1000000)]). cbn. lia. Qed.

Lemma Memory_StoreE820Info_correct_witness :
  exists s', Memory_StoreE820Info (firmware pc_map true) 6 0x8000 (mkBoot ∅ tt) = Some (0x8060, s') /\
    table (bmem s') 0x8000 0 (take 4 pc_map) /\ outside ∅ (bmem s') 0x8000 0x8078.
Proof.
  apply (Memory_StoreE820Info_correct (firmware pc_map true) pc_map true 6 0x8000 (mkBoot ∅ tt));
    [apply firmware_ok, pc_map_ok|done|lia|cbn; lia|cbn; lia|cbn; lia].
Defined.
