(* ===== verification/MemMaps.v ===== *)
(** * The memory maps in the information record

    [Multiboot_SaveMemoryMaps] appends three tags: the E820 map and the two
    lists of free memory. Their bodies are the bytes of the lists of [E820.v]
    and [RamMap.v]. *)

From S2P Require Import Prelude CMem Ports Elf Bios BootMem BootConsole Mbi MbiSpec RamMap E820.

(** ** Integers as bytes *)

Lemma le_S n v : le (S n) v = wrap8 v :: le n (v / 256).
Proof.
  unfold le. cbn [seq map]. f_equal; [by rewrite Z.div_1_r|].
  rewrite <- seq_shift, map_map. apply map_ext. intros i.
  rewrite Z.div_div, <- (Z.pow_add_r 2 8) by lia. do 3 f_equal. lia.
Qed.
Lemma length_le n v : length (le n v) = n.
Proof. unfold le. by rewrite length_map, length_seq. Qed.

Lemma load_bytes_S m a n : load_bytes m a (Z.of_nat (S n)) = load8 m a :: load_bytes m (a + 1) (Z.of_nat n).
Proof.
  unfold load_bytes. rewrite !Nat2Z.id. cbn [seq map]. f_equal; [by rewrite Z.add_0_r|].
  rewrite <- seq_shift, map_map. apply map_ext. intros i. f_equal. lia.
Qed.

(** The bytes of an integer in memory are those of its value, and back. *)
Lemma load_bytes_le n m a : load_bytes m a (Z.of_nat n) = le n (load n m a).
Proof.
  revert a. induction n as [|n IH]; intros a; [done|]. rewrite load_bytes_S, le_S, IH. cbn [load].
  pose proof (load8_range m a). f_equal; [zdiv|]. f_equal. zdiv.
Qed.
Lemma le_inj n v w : le n v = le n w -> v mod 2 ^ (8 * Z.of_nat n) = w mod 2 ^ (8 * Z.of_nat n).
Proof.
  revert v w. induction n as [|n IH]; intros v w; [by rewrite !Z.mod_1_r|]. rewrite !le_S. intros [= H1 H2].
  specialize (IH _ _ H2). replace (8 * Z.of_nat (S n)) with (8 + 8 * Z.of_nat n) by lia.
  rewrite Z.pow_add_r by lia. change (2 ^ 8) with 256. pose proof (pow2_pos (8 * Z.of_nat n)).
  rewrite !Z.rem_mul_r by lia. change (v mod 256) with (wrap8 v). change (w mod 256) with (wrap8 w). lia.
Qed.
Lemma le_load n m a v :
  load_bytes m a (Z.of_nat n) = le n v -> 0 <= v < 2 ^ (8 * Z.of_nat n) -> load n m a = v.
Proof.
  intros H Hv. rewrite load_bytes_le in H. apply le_inj in H. pose proof (load_range n m a).
  by rewrite !Z.mod_small in H by done.
Qed.

(** Bytes in two parts. *)
Lemma load_bytes_app_inv m a n k xs ys :
  Z.of_nat (length xs) = n -> Z.of_nat (length ys) = k ->
  load_bytes m a (n + k) = xs ++ ys <-> load_bytes m a n = xs /\ load_bytes m (a + n) k = ys.
Proof.
  intros <- <-. rewrite load_bytes_app by lia. split; [|by intros [-> ->]].
  intros H. apply app_inj_1 in H; [done|]. pose proof (length_load_bytes m a (Z.of_nat (length xs))). lia.
Qed.

(** ** Lists as bytes *)

Definition block_bytes (b : block) : list Z := le 8 b.1 ++ le 8 b.2.
Definition entry_bytes (e : Entry) : list Z :=
  le 8 (e_base e) ++ le 8 (e_size e) ++ le 4 (e_type e) ++ le 4 (default 1 (e_ext e)).
Definition blocks_bytes (F : list block) : list Z := flat_map block_bytes F.
Definition entries_bytes (L : list Entry) : list Z := flat_map entry_bytes L.

Lemma length_blocks_bytes F : Z.of_nat (length (blocks_bytes F)) = 16 * Z.of_nat (length F).
Proof.
  unfold blocks_bytes in *. induction F as [|b F IH]; [done|]. cbn [flat_map length].
  rewrite length_app, Nat2Z.inj_add, IH. unfold block_bytes. rewrite !length_app, !length_le. lia.
Qed.
Lemma length_entries_bytes L : Z.of_nat (length (entries_bytes L)) = 24 * Z.of_nat (length L).
Proof.
  unfold entries_bytes in *. induction L as [|e L IH]; [done|]. cbn [flat_map length].
  rewrite length_app, Nat2Z.inj_add, IH. unfold entry_bytes. rewrite !length_app, !length_le. lia.
Qed.

Lemma blocks_load_bytes F m p : blocks (length F) m p = F -> load_bytes m p (16 * Z.of_nat (length F)) = blocks_bytes F.
Proof.
  revert p. induction F as [|b F IH]; intros p; [done|]. cbn [blocks length]. intros [= Hb HF].
  replace (16 * Z.of_nat (S (length F))) with (Z.of_nat 8 + (Z.of_nat 8 + 16 * Z.of_nat (length F))) by lia.
  rewrite load_bytes_app, load_bytes_app, !load_bytes_le by lia. change (blocks_bytes (b :: F)) with ((le 8 b.1 ++ le 8 b.2) ++ blocks_bytes F).
  rewrite <- Hb, <- app_assoc. cbn [fst snd]. do 2 f_equal. rewrite <- (IH (p + 16)) by done. f_equal. lia.
Qed.

Definition block_ok (b : block) : Prop := 0 <= b.1 < 18446744073709551616 /\ 0 <= b.2 < 18446744073709551616.

Lemma load_bytes_blocks F m p :
  load_bytes m p (16 * Z.of_nat (length F)) = blocks_bytes F -> Forall block_ok F -> blocks (length F) m p = F.
Proof.
  revert p. induction F as [|b F IH]; intros p; [done|]. cbn [blocks length blocks_bytes flat_map]. intros H Hok.
  inversion Hok as [|?? [H1 H2] Hok']; subst. fold (blocks_bytes F) in H. unfold block_bytes in H at 1. rewrite <- !app_assoc in H.
  replace (16 * Z.of_nat (S (length F))) with (Z.of_nat 8 + (Z.of_nat 8 + 16 * Z.of_nat (length F))) in H by lia.
  apply load_bytes_app_inv in H as [Hb1 H]; [|by rewrite length_le|].
  2: { rewrite length_app, length_le. pose proof (length_blocks_bytes F). lia. }
  apply load_bytes_app_inv in H as [Hb2 H]; [|by rewrite length_le|apply length_blocks_bytes].
  apply le_load in Hb1; [|done]. apply le_load in Hb2; [|done].
  rewrite Hb1. change (p + 8) with (p + Z.of_nat 8). rewrite Hb2. destruct b. f_equal. apply IH; [|done].
  by replace (p + 16) with (p + Z.of_nat 8 + Z.of_nat 8) by lia.
Qed.

Lemma table_load_bytes L m tbl i :
  table m tbl i L -> load_bytes m (tbl + 24 * i) (24 * Z.of_nat (length L)) = entries_bytes L.
Proof.
  revert i. induction L as [|e L IH]; intros i; [done|]. cbn [table length].
  intros [(H1 & H2 & H3 & H4) Ht]. unfold e820_base, e820_size, e820_type, e820_acpi3 in *.
  replace (24 * Z.of_nat (S (length L))) with (Z.of_nat 8 + (Z.of_nat 8 + (Z.of_nat 4 + (Z.of_nat 4 + 24 * Z.of_nat (length L))))) by lia.
  rewrite !load_bytes_app, !load_bytes_le by lia.
  change (entries_bytes (e :: L)) with (entry_bytes e ++ entries_bytes L). unfold entry_bytes. rewrite <- !app_assoc, <- H1, <- H2, <- H3, <- H4.
  replace (tbl + 24 * i + Z.of_nat 8 + Z.of_nat 8) with (tbl + 24 * i + 16) by lia.
  replace (tbl + 24 * i + 16 + Z.of_nat 4) with (tbl + 24 * i + 20) by lia.
  do 4 f_equal. rewrite <- (IH (i + 1)) by done. f_equal. lia.
Qed.

(** ** The tags *)

(** The size of an entry, the version 0, and the entries. *)
Definition list_tag (ty size : Z) (bytes : list Z) : Tag := mkTag ty (le 4 size ++ le 4 0 ++ bytes).
Definition mmap_tag (L : list Entry) : Tag := list_tag MULTIBOOT_TAG_TYPE_MMAP 24 (entries_bytes L).
Definition ram_tag (ty : Z) (F : list block) : Tag := list_tag ty 16 (blocks_bytes F).

Lemma tsize_list ty size bytes : tsize (list_tag ty size bytes) = 16 + Z.of_nat (length bytes).
Proof. unfold tsize, list_tag. cbn [body]. rewrite !length_app, !length_le. lia. Qed.

(** The four fields before the entries, written over a memory that has them. *)
Lemma list_tag_at m p ty size bytes :
  0 <= p -> p + 16 + Z.of_nat (length bytes) < 4294967296 -> 0 < ty < 4294967296 ->
  load_bytes m (p + 16) (Z.of_nat (length bytes)) = bytes ->
  let m1 := store32 m (p + 4) (16 + Z.of_nat (length bytes)) in
  let m1 := store32 m1 p ty in
  let m1 := store32 m1 (p + 8) size in
  let m1 := store32 m1 (p + 12) 0 in
  tag_at m1 p (list_tag ty size bytes).
Proof.
  intros Hp Hh Hty Hb m1. unfold tag_at. rewrite tsize_list. unfold tag_type, tag_size, m1.
  split; [by tag_simpl; rewrite wrap32_small by lia|]. split; [by tag_simpl; rewrite wrap32_small by lia|].
  unfold list_tag. cbn [body]. rewrite !length_app, !length_le, !Nat2Z.inj_add.
  rewrite !load_bytes_app by lia. change (Z.of_nat 4) with 4. rewrite <- !Z.add_assoc. cbn [Z.add Pos.add Pos.succ].
  f_equal; [|f_equal]; by tag_simpl.
Qed.

Lemma usable_agree n m m' tbl i :
  0 <= tbl + 24 * i -> agree m m' (tbl + 24 * i) (tbl + 24 * (i + Z.of_nat n)) -> usable n m' tbl i = usable n m tbl i.
Proof.
  revert i. induction n as [|n IH]; intros i Hi Ho; cbn [usable]; [done|].
  rewrite IH; [|lia|apply (agree_sub _ _ _ _ _ _ Ho); lia].
  unfold e820_usable, e820_base, e820_size, e820_type, e820_acpi3.
  by rewrite !(agree_window_load 4 _ _ _ _ _ Ho), !(agree_window_load 8 _ _ _ _ _ Ho) by lia.
Qed.

Lemma blocks_tag_ok ty F : ty <> 0 -> tag_ok (ram_tag ty F).
Proof.
  intros Hty. split; [done|]. unfold ram_tag. rewrite tsize_list, length_blocks_bytes.
  exists (2 + 2 * Z.of_nat (length F)). lia.
Qed.
Lemma mmap_tag_ok L : tag_ok (mmap_tag L).
Proof.
  split; [done|]. unfold mmap_tag. rewrite tsize_list, length_entries_bytes.
  exists (2 + 3 * Z.of_nat (length L)). lia.
Qed.

Lemma table_agree m m' tbl i L :
  agree m m' (tbl + 24 * i) (tbl + 24 * (i + Z.of_nat (length L))) -> table m tbl i L -> table m' tbl i L.
Proof.
  revert i. induction L as [|e L IH]; intros i Ho; [done|]. cbn [table length] in *. intros [(H1 & H2 & H3 & H4) Ht].
  split; [|apply IH; [apply (agree_sub _ _ _ _ _ _ Ho); lia|done]].
  unfold stored, e820_base, e820_size, e820_type, e820_acpi3 in *.
  by rewrite !(agree_window_load 8 _ _ _ _ _ Ho), !(agree_window_load 4 _ _ _ _ _ Ho) by lia.
Qed.

(** The fields of such a tag, read back. *)
Lemma list_tag_fields m p ty size bytes :
  tag_at m p (list_tag ty size bytes) -> 0 <= size < 4294967296 ->
  load32 m (p + 8) = size /\ load_bytes m (p + 16) (Z.of_nat (length bytes)) = bytes.
Proof.
  intros (_ & _ & H) Hs. unfold list_tag in H. cbn [body] in H. rewrite !length_app, !length_le, !Nat2Z.inj_add in H.
  apply load_bytes_app_inv in H as [H1 H]; [|by rewrite length_le|by rewrite length_app, length_le, Nat2Z.inj_add].
  apply load_bytes_app_inv in H as [_ H]; [|by rewrite length_le|done].
  split; [by apply (le_load 4)|]. by replace (p + 16) with (p + 8 + Z.of_nat 4 + Z.of_nat 4) by lia.
Qed.

(** The last tag of a record. *)
Lemma last_tag_at m a ts t : mbi_at m a (ts ++ [t]) -> tag_at m (mbi_end a ts) t.
Proof. intros Hm. pose proof (mbi_seg _ _ _ Hm) as Hseg. by apply seg_app in Hseg as [_ [Ht _]]. Qed.

Section Save.
Context {W : Type}.
Variable BIOS_Interrupt : Z -> BIOS_Registers -> Boot W -> BIOS_Registers * Boot W.

(** One of the two lists. *)
Lemma save_ram_info_appends fuel a ts ty al tbl n (s : Boot W) :
  let R := usable (Z.to_nat n) (bmem s) tbl 0 in
  let p := mbi_end a ts in
  mbi_at (bmem s) a ts -> has_tag ts ty = false -> 0 < ty < 4294967296 -> (length ts < fuel)%nat ->
  ordered 0 R -> 0 <= n -> a + 4 <= tbl -> tbl + 24 * n <= p -> (length R < fuel)%nat ->
  p + 16 * Z.of_nat (length R) + 32 < 4294967296 ->
  exists s', save_ram_info fuel a ty al tbl n s = Some (true, s') /\
    mbi_at (bmem s') a (ts ++ [ram_tag ty (free_list al R)]) /\
    agree (bmem s) (bmem s') (a + 4) p /\
    outside (bmem s) (bmem s') a (p + 16 * Z.of_nat (length R) + 32).
Proof.
  intros R p Hm Hh Hty Hf Ho Hn Ht1 Ht2 HfR Hroom. pose proof (mbi_low _ _ _ Hm) as Ha.
  pose proof (total_nonneg ts). assert (p = a + 8 + total ts) as Ep by done.
  unfold save_ram_info. rewrite (find_slot _ _ _ _ _ Hm) by (done || lia). cbn [mbind option_bind].
  rewrite (no_slot_has _ _ _ _ Hm), Hh, (slot_end _ _ _ Hh) by lia. fold p.
  destruct (StoreInfo_list fuel (16 + p) al tbl n (bmem s) Ho) as (m1 & H1 & HF & H2 & H3); try (fold R; lia).
  fold R in H1, HF, H2, H3. set (F := free_list al R) in *. rewrite (wrap32_small (16 + p)), H1 by lia. cbn [mbind option_bind].
  rewrite (wrap32_small (_ - p)) by lia. unfold set_tag_size, set_tag_type, terminate, SIZEOF_BLOCKRAM.
  replace (16 + p + 16 * Z.of_nat (length F) - p) with (16 + Z.of_nat (length (blocks_bytes F))) by (rewrite length_blocks_bytes; lia).
  set (m2 := store32 _ (p + 12) 0).
  assert (tag_at m2 p (ram_tag ty F)) as Htag.
  { apply list_tag_at; rewrite ?length_blocks_bytes; try lia. rewrite (Z.add_comm p). by apply blocks_load_bytes. }
  assert (tsize (ram_tag ty F) = 16 + 16 * Z.of_nat (length F)) as Hsz by (unfold ram_tag; by rewrite tsize_list, length_blocks_bytes).
  assert (forall x, 0 <= x < 4294967296 -> x < p \/ p + 16 <= x -> load8 m2 x = load8 m1 x) as Hm2.
  { intros x Hx Hnx. unfold m2. by mem_simpl. }
  destruct (append_over (bmem s) m2 a ts (ram_tag ty F) Hm) as (m' & HE & Hm' & Hf'); try done; try lia.
  { intros x Hx. rewrite Hm2 by lia. apply H3; lia. }
  { apply blocks_tag_ok. lia. }
  fold p in HE, Hf'. rewrite HE. eexists. split; [reflexivity|]. cbn [bmem on_mem snd]. split; [done|]. split.
  - intros x Hx. rewrite Hf', Hm2 by lia. apply H3; lia.
  - intros x Hx Hnx. rewrite Hf', Hm2 by lia. apply H3; lia.
Qed.
Lemma has_tag_app xs ys ty : has_tag (xs ++ ys) ty = has_tag xs ty || has_tag ys ty.
Proof. apply existsb_app. Qed.

Lemma length_ram L : (length (ram L) <= length L)%nat.
Proof. unfold ram. rewrite length_map. apply filter_length_le. Qed.

(** The E820 map. *)
Lemma save_e820_appends E by_zero fuel a ts (s : Boot W) :
  let L := kept by_zero E in
  let p := mbi_end a ts in
  e820_firmware BIOS_Interrupt E by_zero -> mbi_at (bmem s) a ts -> E <> [] ->
  (length E < fuel)%nat -> p + 24 * Z.of_nat (length E) + 40 <= 0x100000 -> 24 * Z.of_nat (length E) + 24 <= 65536 ->
  exists s1 s', Memory_StoreE820Info BIOS_Interrupt fuel (16 ⊕ p) s = Some (p + 16 + 24 * Z.of_nat (length L), s1) /\
    on_mem (fun m =>
      let m := set_tag_size p (p + 16 + 24 * Z.of_nat (length L) ⊖ p) m in
      let m := set_tag_type p MULTIBOOT_TAG_TYPE_MMAP m in
      let m := store32 m (p + 8) 24 in
      let m := store32 m (p + 12) 0 in
      terminate a p m) s1 = s' /\ (length L <= length E)%nat /\
    mbi_at (bmem s') a (ts ++ [mmap_tag L]) /\ table (bmem s') (p + 16) 0 L /\
    tag_size (bmem s') p = 16 + 24 * Z.of_nat (length L) /\ load32 (bmem s') (p + 8) = 24.
Proof.
  intros L p Hfw Hm HE Hf Hroom Hlen. pose proof (mbi_low _ _ _ Hm) as Ha.
  pose proof (total_nonneg ts). assert (p = a + 8 + total ts) as Ep by done. rewrite (wrap32_small (16 + p)) by lia.
  destruct (StoreE820Info_table BIOS_Interrupt E by_zero fuel (16 + p) s Hfw HE) as (s1 & H1 & HL & H2 & H3); try lia.
  fold L in H1, HL, H2, H3. exists s1. eexists. split; [rewrite H1; do 2 f_equal; lia|]. split; [reflexivity|]. split; [done|].
  cbn [bmem on_mem]. unfold set_tag_size, set_tag_type, terminate. rewrite (wrap32_small (_ - p)) by lia.
  replace (p + 16 + 24 * Z.of_nat (length L) - p) with (16 + Z.of_nat (length (entries_bytes L))) by (rewrite length_entries_bytes; lia).
  set (m2 := store32 _ (p + 12) 0).
  assert (load_bytes (bmem s1) (p + 16) (24 * Z.of_nat (length L)) = entries_bytes L) as HbL.
  { rewrite <- (table_load_bytes _ _ _ _ H2). f_equal. lia. }
  assert (tag_at m2 p (mmap_tag L)) as Htag.
  { apply list_tag_at; rewrite ?length_entries_bytes; try lia; done. }
  assert (tsize (mmap_tag L) = 16 + 24 * Z.of_nat (length L)) as Hsz by (unfold mmap_tag; by rewrite tsize_list, length_entries_bytes).
  assert (forall x, 0 <= x < 4294967296 -> x < p \/ p + 16 <= x -> load8 m2 x = load8 (bmem s1) x) as Hm2.
  { intros x Hx Hnx. unfold m2. by mem_simpl. }
  destruct (append_over (bmem s) m2 a ts (mmap_tag L) Hm) as (m' & HT & Hm' & Hf'); try done; try (fold p; lia).
  { intros x Hx. rewrite Hm2 by lia. apply H3; lia. }
  { apply mmap_tag_ok. }
  fold p in HT, Hf'. rewrite HT. cbn [snd]. split; [done|].
  pose proof (last_tag_at _ _ _ _ Hm') as Ht. fold p in Ht. pose proof (list_tag_fields _ _ _ _ _ Ht ltac:(lia)) as [T1 T2].
  destruct Ht as (_ & T3 & _). rewrite Hsz in T3. split; [|by split].
  apply (table_agree (bmem s1)); [|by rewrite (Z.add_comm p)].
  intros x Hx. rewrite length_entries_bytes, <- HbL in T2.
  replace x with (p + 16 + (x - (p + 16))) by lia. apply (load_bytes_inv _ _ _ _ _ _ T2). lia.
Qed.
(** The record gets three tags: the E820 map, the list of free memory and the
    list of its whole pages. *)
Lemma SaveMemoryMaps_record E by_zero fuel a ts (s : Boot W) :
  let L := kept by_zero E in
  e820_firmware BIOS_Interrupt E by_zero -> mbi_at (bmem s) a ts ->
  has_tag ts MULTIBOOT_TAG_TYPE_MMAP = false -> has_tag ts MULTIBOOT_TAG_TYPE_RAM_INFO = false ->
  has_tag ts MULTIBOOT_TAG_TYPE_RAM_INFO_PAGE_ALIGNED = false ->
  L <> [] -> ordered 0 (ram L) -> (length ts + 2 < fuel)%nat -> (length E < fuel)%nat ->
  mbi_end a ts + 56 * Z.of_nat (length E) + 100 <= 0x100000 -> 24 * Z.of_nat (length E) + 24 <= 65536 ->
  exists s', Multiboot_SaveMemoryMaps BIOS_Interrupt fuel a s = Some (true, s') /\
    mbi_at (bmem s') a (ts ++ [mmap_tag L; ram_tag MULTIBOOT_TAG_TYPE_RAM_INFO (free_list false (ram L));
                               ram_tag MULTIBOOT_TAG_TYPE_RAM_INFO_PAGE_ALIGNED (free_list true (ram L))]).
Proof.
  intros L Hfw Hm Hh1 Hh2 Hh3 HL Ho Hf1 Hf2 Hroom Hlen. pose proof (mbi_low _ _ _ Hm) as Ha.
  assert (E <> []) as HE by (intros ->; apply HL; unfold L, kept; by destruct by_zero).
  pose proof (total_nonneg ts). set (p := mbi_end a ts) in *. assert (p = a + 8 + total ts) as Ep by done.
  destruct (save_e820_appends E by_zero fuel a ts s Hfw Hm HE Hf2) as (s1 & s2 & H1 & H2 & HlL & Hm2 & Ht & T3 & T1);
    [fold p; lia|done|]. fold L p in H1, H2, HlL, Hm2, Ht, T3, T1.
  unfold Multiboot_SaveMemoryMaps. rewrite (find_slot _ _ _ _ _ Hm) by (done || lia). cbn [mbind option_bind].
  rewrite (no_slot_has _ _ _ _ Hm), Hh1, (slot_end _ _ _ Hh1) by done. fold p. rewrite H1. cbn [mbind option_bind].
  cbn zeta in H2 |- *. rewrite H2, T3, T1. clear H1 H2 s1. pose proof (length_ram L). assert (0 < length L)%nat as HL0 by (destruct L; [done|cbn; lia]).
  destruct (Z.eqb_spec (16 + 24 * Z.of_nat (length L)) 16); [lia|].
  rewrite (wrap32_small (16 + p)), (wrap32_small (_ - 16)) by lia.
  replace ((16 + 24 * Z.of_nat (length L) - 16) / 24) with (Z.of_nat (length L)) by (apply Z.div_unique_exact; lia).
  rewrite (Z.add_comm 16 p).
  assert (forall m, agree (bmem s2) m (a + 4) (p + 16 + 24 * Z.of_nat (length L)) ->
    usable (Z.to_nat (Z.of_nat (length L))) m (p + 16) 0 = ram L) as Hu.
  { intros m Hag. rewrite Nat2Z.id. rewrite <- (table_usable _ _ _ _ Ht).
    apply usable_agree; [lia|]. apply (agree_sub _ _ _ _ _ _ Hag); lia. }
  assert (usable (Z.to_nat (Z.of_nat (length L))) (bmem s2) (p + 16) 0 = ram L) as Hu2 by (apply Hu; by intros x Hx).
  assert (mbi_end a (ts ++ [mmap_tag L]) = p + 16 + 24 * Z.of_nat (length L)) as Ep2
    by (rewrite mbi_end_snoc; unfold mmap_tag; rewrite tsize_list, length_entries_bytes; fold p; lia).
  assert (forall al, (length (free_list al (ram L)) <= length L)%nat) as HlF.
  { intros al. unfold free_list. etrans; [by eapply length_squeeze|].
    pose proof (length_coalesce (ram L)). destruct al; rewrite ?length_map; lia. }
  destruct (save_ram_info_appends fuel a (ts ++ [mmap_tag L]) MULTIBOOT_TAG_TYPE_RAM_INFO false (p + 16) (Z.of_nat (length L)) s2)
    as (s3 & H3 & Hm3 & Hag3 & _); rewrite ?Hu2, ?Ep2, ?length_app; try done; try (cbn [length]; lia).
  { by rewrite has_tag_app, Hh2. }
  rewrite Hu2, <- app_assoc, Ep2 in *. rewrite H3. cbn [mbind option_bind negb]. cbn [app] in Hm3.
  set (F := free_list false (ram L)) in *.
  assert (mbi_end a (ts ++ [mmap_tag L; ram_tag MULTIBOOT_TAG_TYPE_RAM_INFO F]) =
    p + 16 + 24 * Z.of_nat (length L) + 16 + 16 * Z.of_nat (length F)) as Ep3.
  { rewrite <- Ep2. unfold mbi_end, ram_tag. rewrite !total_app. cbn [total]. rewrite tsize_list, length_blocks_bytes. lia. }
  pose proof (HlF false : (length F <= length L)%nat).
  destruct (save_ram_info_appends fuel a _ MULTIBOOT_TAG_TYPE_RAM_INFO_PAGE_ALIGNED true (p + 16) (Z.of_nat (length L)) s3 Hm3)
    as (s4 & H4 & Hm4 & _); rewrite ?(Hu _ Hag3), ?Ep3, ?length_app; try done; try (cbn [length]; lia).
  { by rewrite has_tag_app, Hh3. }
  rewrite (Hu _ Hag3), <- app_assoc in Hm4. by exists s4.
Qed.
End Save.


