(* ===== verification/LoaderSpec.v ===== *)
(** * The Multiboot loader: what its steps do

    The search for the header, the copy of a kernel to its place with the
    clearing of the file, and the loop of [Multiboot_LoadModules] that does not
    end. *)

From S2P Require Import Prelude CMem Ports Bios BootMem Elf BootConsole Mbi Ctl Loader RamMap.

(** ** Multiboot_GetHeader *)

(** The words looked at: those at multiples of 8 bytes, in the first 32 KB. *)
Definition header_words (size : Z) : Z := Z.min (size / 4) 0x2000.
Definition magic_at (m : Mem) (start size i : Z) : Prop :=
  0 <= i < header_words size /\ i mod 2 = 0 /\ load32 m (start + 4 * i) = MAGIC.
(** A header: its length covers its four words, which sum to 0. *)
Definition valid_header (m : Mem) (h : Z) : Prop :=
  SIZEOF_MAGIC <= h_header_length m h /\
  (h_magic m h + h_architecture m h + h_header_length m h + h_checksum m h) mod 4294967296 = 0.

Lemma find_magic_spec n m start i :
  0 <= i -> start + 4 * (i + Z.of_nat n) <= 4294967296 -> 0 <= start ->
  match find_magic n m start i with
  | Some h => exists j, i <= j < i + Z.of_nat n /\ j mod 2 = 0 /\ load32 m (start + 4 * j) = MAGIC /\ h = start + 4 * j /\
      forall k, i <= k < j -> k mod 2 = 0 -> load32 m (start + 4 * k) <> MAGIC
  | None => forall k, i <= k < i + Z.of_nat n -> k mod 2 = 0 -> load32 m (start + 4 * k) <> MAGIC
  end.
Proof.
  revert i. induction n as [|n IH]; intros i Hi Hn Hs; cbn [find_magic]; [intros; lia|].
  specialize (IH (i + 1) ltac:(lia) ltac:(lia) Hs).
  assert ((i mod 2 = 0 -> load32 m (start + 4 * i) <> MAGIC) ->
    match find_magic n m start (i + 1) with
    | Some h => exists j, i <= j < i + Z.of_nat (S n) /\ j mod 2 = 0 /\ load32 m (start + 4 * j) = MAGIC /\ h = start + 4 * j /\
        forall k, i <= k < j -> k mod 2 = 0 -> load32 m (start + 4 * k) <> MAGIC
    | None => forall k, i <= k < i + Z.of_nat (S n) -> k mod 2 = 0 -> load32 m (start + 4 * k) <> MAGIC
    end) as Hnext.
  { intros Hne. destruct (find_magic n m start (i + 1)) as [h|].
    - destruct IH as (j & Hj & Hev & Hm & Hh & Hk). exists j. conjs; try done; try lia. intros k Hk1 Hk2.
      destruct (decide (k = i)) as [->|]; [by apply Hne|]. apply Hk; [lia|done].
    - intros k Hk1 Hk2. destruct (decide (k = i)) as [->|]; [by apply Hne|]. apply IH; [lia|done]. }
  destruct (Z.eqb_spec (i mod 2) 0) as [E|E]; cbn [negb]; [|by apply Hnext].
  destruct (Z.eqb_spec (load32 m (start + 4 * i)) MAGIC) as [E2|E2]; [|by apply Hnext].
  rewrite wrap32_small by lia. exists i. conjs; try done; lia.
Qed.


(** A header of 16 bytes 64 bytes into the file. *)
Definition demo_header : Mem :=
  store_bytes ∅ 0x100040 (map (fun i => wrap8 (MAGIC / 2 ^ (8 * i))) [0; 1; 2; 3] ++ [0; 0; 0; 0; 16; 0; 0; 0] ++
    map (fun i => wrap8 ((0x100000000 - MAGIC - 16) / 2 ^ (8 * i))) [0; 1; 2; 3]).


(** ** A kernel put in its place *)

Section Place.
Variables (m : Mem) (file_addr file_size ki : Z) (l : LoadInfo).
Let start := ki_start m ki.
Let size := ki_size m ki.
Let bss := ki_bss_size m ki.

(** The structure [*kernel_info] is neither in the kernel nor in the file. *)
Definition ki_safe (lo hi : Z) : Prop := ki + 44 <= lo \/ hi <= ki.

Hypothesis Hki : 0 <= ki /\ ki + 44 <= 4294967296.
Hypothesis Hfile : 0 <= file_addr /\ 0 <= file_size /\ file_addr + file_size < 4294967296.
Hypothesis Hend : start + size < 4294967296.
Hypothesis Hsafe2 : ki_safe file_addr (file_addr + file_size).

Lemma clean_up_load8 m1 x :
  ki_start m1 ki = start -> ki_size m1 ki = size -> 0 <= x < 4294967296 ->
  load8 (clean_up file_addr file_size ki m1) x =
    if (file_addr <=? x) && (x <? file_addr + file_size) && negb ((start <=? x) && (x <? start + size)) then 0
    else load8 m1 x.
Proof using Hki Hfile Hend Hsafe2.
  intros H1 H2 Hx. unfold clean_up. rewrite H1, H2. pose proof (load32_range m (ki + 16)). pose proof (load32_range m (ki + 20)).
  assert (0 <= start /\ 0 <= size) by (unfold start, size, ki_start, ki_size; lia).
  rewrite !(wrap32_small (start + size)), !(wrap32_small (file_addr + file_size)) by lia.
  set (cs := if file_addr <? start + size then _ else _).
  set (m2 := if cs <? file_addr + file_size then _ else _).
  assert (0 <= cs /\ file_addr <= cs) as [Hcs Hcs2] by (unfold cs; case_cmp; lia).
  assert (forall x, 0 <= x < 4294967296 ->
    load8 m2 x = if (cs <=? x) && (x <? file_addr + file_size) then 0 else load8 m1 x) as E2.
  { clear x Hx. intros x Hx. unfold m2. destruct (Z.ltb_spec cs (file_addr + file_size)).
    - rewrite wrap32_small, load8_memset by lia.
      by replace (cs + (file_addr + file_size - cs)) with (file_addr + file_size) by lia.
    - destruct (Z.leb_spec cs x), (Z.ltb_spec x (file_addr + file_size)); cbn [andb]; done || lia. }
  assert (load8 (if file_addr <? start
    then memset m2 file_addr 0 (if file_size <? start ⊖ file_addr then file_size else start ⊖ file_addr) else m2) x =
    if (file_addr <? start) && (file_addr <=? x) && (x <? file_addr + file_size) && (x <? start) then 0 else load8 m2 x) as E3.
  { destruct (Z.ltb_spec file_addr start); cbn [andb]; [|done]. rewrite (wrap32_small (start - file_addr)) by lia.
    destruct (Z.ltb_spec file_size (start - file_addr)); rewrite load8_memset by lia;
      destruct (Z.leb_spec file_addr x), (Z.ltb_spec x start), (Z.ltb_spec x (file_addr + file_size));
      cbn [andb]; try done; repeat case_cmp; done || lia. }
  assert (ki_start m2 ki = start) as ->.
  { rewrite <- H1. unfold ki_start. apply load_ext. intros i Hi. unfold ki_safe in *. rewrite E2 by lia.
    destruct (Z.leb_spec cs (ki + 16 + i)), (Z.ltb_spec (ki + 16 + i) (file_addr + file_size)); done || lia. }
  rewrite E3, E2 by done. unfold cs.
  destruct (Z.ltb_spec file_addr start), (Z.ltb_spec file_addr (start + size)), (Z.leb_spec file_addr x),
    (Z.ltb_spec x (file_addr + file_size)), (Z.ltb_spec x start), (Z.leb_spec start x), (Z.ltb_spec x (start + size));
    cbn [andb negb]; try done; try lia; repeat case_cmp; done || lia.
Qed.

Hypothesis Hbss : bss <= size.
Hypothesis Hsafe : ki_safe start (start + size).

(** The copy of a kernel that is not an ELF file, by the addresses of its
    header: what is in the file, then zeroes. *)
Lemma copy_kernel_load8 x :
  load_info l = true -> 0 <= load_start l -> load_start l + (size - bss) <= 4294967296 -> 0 <= x < 4294967296 ->
  load8 (copy_kernel file_addr ki l m) x =
    if (start <=? x) && (x <? start + (size - bss)) then load8 m (load_start l + (x - start))
    else if (start <=? x) && (x <? start + size) then 0 else load8 m x.
Proof using Hki Hfile Hend Hbss Hsafe.
  intros Hl Hs1 Hs2 Hx. unfold copy_kernel. rewrite Hl. pose proof (load32_range m (ki + 16)). pose proof (load32_range m (ki + 24)).
  fold start. fold size. fold bss. assert (0 <= start /\ 0 <= bss) by (unfold start, bss, ki_start, ki_bss_size; lia).
  rewrite (wrap32_small (size - bss)) by lia. set (m1 := memmove _ _ _ _).
  assert (forall y, 0 <= y < 4294967296 -> load8 m1 y =
    if (start <=? y) && (y <? start + (size - bss)) then load8 m (load_start l + (y - start)) else load8 m y) as E1.
  { intros y Hy. unfold m1. by rewrite load8_memmove by lia. }
  assert (forall n o, 0 <= o -> o + Z.of_nat n <= 44 -> load n m1 (ki + o) = load n m (ki + o)) as Hk.
  { intros n o Ho Hn. apply load_ext. intros i Hi. unfold ki_safe in *. rewrite E1 by lia.
    destruct (Z.leb_spec start (ki + o + i)), (Z.ltb_spec (ki + o + i) (start + (size - bss))); done || lia. }
  unfold ki_start, ki_size, ki_bss_size. rewrite !Hk by lia. fold (ki_start m ki) (ki_size m ki) (ki_bss_size m ki) start size bss.
  rewrite (wrap32_small (start + size)), (wrap32_small (start + size - bss)), load8_memset, E1 by lia.
  destruct (Z.leb_spec start x), (Z.ltb_spec x (start + (size - bss))), (Z.leb_spec (start + size - bss) x),
    (Z.ltb_spec x (start + size)), (Z.ltb_spec x (start + size - bss + bss)); cbn [andb]; done || lia.
Qed.
End Place.

(** A kernel placed by the addresses of its header. After the copy and the
    clearing that follows it: from the start of the kernel the bytes that the
    file had, however file and kernel overlap, then zeroes to the end of its
    BSS; zeroes in what is left of the file; everything else unchanged. *)
Theorem place_kernel_correct m file_addr file_size ki l x :
  let start := ki_start m ki in
  let size := ki_size m ki in
  let bss := ki_bss_size m ki in
  load_info l = true -> 0 <= ki /\ ki + 44 <= 4294967296 ->
  0 <= file_addr /\ 0 <= file_size /\ file_addr + file_size < 4294967296 ->
  bss <= size /\ start + size < 4294967296 -> 0 <= load_start l -> load_start l + (size - bss) <= 4294967296 ->
  ki_safe ki start (start + size) -> ki_safe ki file_addr (file_addr + file_size) -> 0 <= x < 4294967296 ->
  let m' := clean_up file_addr file_size ki (copy_kernel file_addr ki l m) in
  load8 m' x =
    if (start <=? x) && (x <? start + (size - bss)) then load8 m (load_start l + (x - start))
    else if (start <=? x) && (x <? start + size) then 0
    else if (file_addr <=? x) && (x <? file_addr + file_size) then 0
    else load8 m x.
Proof.
  intros start size bss Hl Hki Hf Hk Hs1 Hs2 Hsafe Hsafe2 Hx.
  pose proof (load32_range m (ki + 24)) as Hb. fold (ki_bss_size m ki) in Hb. fold bss in Hb.
  pose proof (load32_range m (ki + 16)) as Hst. fold (ki_start m ki) in Hst. fold start in Hst.
  cbn zeta. set (m1 := copy_kernel file_addr ki l m).
  assert (forall n o, 0 <= o -> o + Z.of_nat n <= 44 -> load n m1 (ki + o) = load n m (ki + o)) as Hload.
  { intros n o Ho Hn. apply load_ext. intros i Hi. unfold m1, ki_safe in *.
    rewrite (copy_kernel_load8 m file_addr file_size ki l Hki Hf (proj2 Hk) (proj1 Hk) Hsafe) by (done || lia). fold start size bss.
    destruct (Z.leb_spec start (ki + o + i)), (Z.ltb_spec (ki + o + i) (start + (size - bss))), (Z.ltb_spec (ki + o + i) (start + size));
      cbn [andb]; done || lia. }
  rewrite (clean_up_load8 m file_addr file_size ki Hki Hf (proj2 Hk) Hsafe2 m1) by (done || (apply (Hload 4%nat); lia)).
  unfold m1. rewrite (copy_kernel_load8 m file_addr file_size ki l Hki Hf (proj2 Hk) (proj1 Hk) Hsafe) by done. fold start size bss.
  destruct (Z.leb_spec start x), (Z.ltb_spec x (start + (size - bss))), (Z.ltb_spec x (start + size)),
    (Z.leb_spec file_addr x), (Z.ltb_spec x (file_addr + file_size)); cbn [andb negb]; done || lia.
Qed.

(** A file of 32 bytes at [0x100000] and a kernel of its last 16, with 8 bytes
    of BSS, to go to [0x100008]. *)
Definition demo_place : Mem :=
  store32 (store32 (store32 (store_bytes ∅ 0x100000 (repeat 7 32)) 0x5010 0x100008) 0x5014 24) 0x5018 8.
Definition demo_load : LoadInfo := mkLoad false 0 0 0 1 true 0x100010 MEMORY_NULL_PTR.

Lemma place_kernel_correct_witness :
  let m' := clean_up 0x100000 32 0x5000 (copy_kernel 0x100000 0x5000 demo_load demo_place) in
  load8 m' 0x100008 = 7 /\ load8 m' 0x10001C = 0 /\ load8 m' 0x100004 = 0.
Proof.
  assert (ki_start demo_place 0x5000 = 0x100008) as E1 by by vm_compute.
  assert (ki_size demo_place 0x5000 = 24) as E2 by by vm_compute.
  assert (ki_bss_size demo_place 0x5000 = 8) as E3 by by vm_compute.
  assert (forall x, 0 <= x < 4294967296 -> _) as H by (intros x Hx;
    refine (place_kernel_correct demo_place 0x100000 32 0x5000 demo_load x eq_refl _ _ _ _ _ _ _ Hx);
    rewrite ?E1, ?E2, ?E3; unfold ki_safe; cbn; lia).
  cbn zeta in H. rewrite E1, E2, E3 in H. cbn zeta. rewrite !H by lia. by vm_compute.
Defined.

(** ** The modules *)

Section Modules.
Context {W : Type} `{!PortIO W}.
Variable BIOS_Interrupt : Z -> BIOS_Registers -> Boot W -> BIOS_Registers * Boot W.
Variable DiskIO_LowMemoryBuffer geom dap : Z.

(** The loop that copies the name of a module tests the wrong variable. *)
Lemma copy_name_stuck fuel mbi_mod b i k (s : Boot W) : i < 240 -> copy_name fuel mbi_mod b i k s = Stuck.
Proof.
  intros Hi. revert k s. induction fuel as [|f IH]; intros k s; [done|]. cbn [copy_name].
  destruct (Z.ltb_spec i 240); [|lia]. unfold modifym, modify, mbind, M_bind. apply IH.
Qed.

Lemma copy_name_never fuel mbi_mod b i k : i < 240 -> never (copy_name (W := W) fuel mbi_mod b i k).
Proof. intros Hi s. by rewrite copy_name_stuck. Qed.

Lemma only_false_for {A} fuel cond (body : Z -> A -> M (Boot W) A) a :
  (forall i a, only_false (body i a)) -> only_false (for_ fuel cond body a).
Proof. intros Hb. unfold for_. apply only_false_bind; [apply only_false_while; intros [i b]|intros [i b]]; auto with ctl. Qed.

(** Loading a module. Whatever the disk, memory and the record hold, once the
    loader has found the block list of a module it does not come to the next
    one: it returns [false], or it runs for ever in the loop that copies the
    module's name, whose test is on the index [i] of the master list's block
    (below 9) and not on the loop's own variable. *)
Theorem load_module_never fuel page_align mmap mmap_size mbi_addr ki i b mod_size mod_addr (s : Boot W) :
  i < BLOCKLIST_MAXBLOCKS128 ->
  match load_module BIOS_Interrupt DiskIO_LowMemoryBuffer geom dap fuel page_align mmap mmap_size mbi_addr ki i b
          mod_size mod_addr s with
  | Go _ _ => False
  | Ret ok _ => ok = false
  | Stuck => True
  end.
Proof.
  intros Hi. revert s. match goal with |- forall s, match ?e s with _ => _ end => change (never e) end.
  unfold load_module, getm, modifym, read_disk.
  repeat first
    [ apply never_before, copy_name_never; unfold BLOCKLIST_MAXBLOCKS128 in Hi; lia
    | apply never_after; [solve [auto with ctl | apply only_false_for; auto 10 with ctl]|intros ?] ].
Qed.
End Modules.

(** A free megabyte for the module, an empty record at [0x8000], an empty block
    list at [0x7000]. *)
Definition demo_module : Mem :=
  store32 (store32 (store_bytes (Multiboot_CreateEmptyMBI 0x8000 ∅).2 0x9000
    [0; 0; 0x10; 0; 0; 0; 0; 0; 0; 0; 0x10; 0; 0; 0; 0; 0]) 0x5010 0x100000) 0x5028 0x1000.

Lemma load_module_never_witness :
  let e := load_module (W := unit) (fun _ r s => (r, s)) 0 0 0 30 true 0x9000 1 0x8000 0x5000 0 0x7000 0x1000 0 in
  (match e (mkBoot demo_module tt) with Go _ _ => False | Ret ok _ => ok = false | Stuck => True end) /\
  e (mkBoot demo_module tt) = Stuck.
Proof.
  split; [|by vm_compute].
  apply (load_module_never (W := unit) (fun _ r s => (r, s)) 0 0 0 30 true 0x9000 1 0x8000 0x5000 0 0x7000 0x1000 0 (mkBoot demo_module tt)).
  unfold BLOCKLIST_MAXBLOCKS128. lia.
Defined.
