(* ===== verification/LoadKernel.v ===== *)
(** * Multiboot_LoadKernel

    The whole function: the tags of the kernel's header, read as a list, say
    where the kernel goes; a place is found for it when it may be moved; it is
    copied or its segments are loaded, and what is left of its file is cleared.
    The loops end, and every early return leaves memory as it was but for the
    place, the size and the BSS in [*kernel_info]. *)

From S2P Require Import Prelude CMem Ports Bios BootMem Elf BootConsole Mbi Ctl Loader LoaderSpec RamMap.

(** ** What is read from memory that has not changed *)

Lemma outside_agree m m' a b lo hi :
  outside m m' a b -> 0 <= lo -> hi <= 4294967296 -> hi <= a \/ b <= lo -> agree lo hi m m'.
Proof. intros Ho Hlo Hhi Hd x Hx. apply Ho; lia. Qed.

Lemma find_magic_agree lo hi m m' n : forall start i,
  agree lo hi m m' -> lo <= start + 4 * i -> start + 4 * (i + Z.of_nat n) <= hi ->
  find_magic n m' start i = find_magic n m start i.
Proof.
  induction n as [|n IH]; intros start i Ha Hl Hh; [done|]. cbn [find_magic].
  rewrite (agree_load 4 lo hi m m' (start + 4 * i)) by (done || lia). by rewrite IH by (done || lia).
Qed.

Lemma GetHeader_agree lo hi m m' start size :
  agree lo hi m m' -> lo <= start -> 0 <= size -> start + size <= hi -> hi < 4294967296 -> 0 <= start ->
  Multiboot_GetHeader m start size <> 0 -> Multiboot_GetHeader m start size + 16 <= hi ->
  Multiboot_GetHeader m' start size = Multiboot_GetHeader m start size /\ start <= Multiboot_GetHeader m start size.
Proof.
  intros Ha Hl Hz Hh Hhi Hs. unfold Multiboot_GetHeader. set (n := Z.to_nat (Z.min (size / 4) 0x2000)).
  assert (4 * Z.of_nat n <= size) as Hn by (unfold n; zdiv).
  rewrite (find_magic_agree lo hi m m') by (done || lia).
  pose proof (find_magic_spec n m start 0 ltac:(lia) ltac:(lia) Hs) as Hf. destruct (find_magic n m start 0) as [h|]; [|done].
  destruct Hf as (j & Hj & _ & _ & -> & _). set (h := start + 4 * j) in *.
  destruct (h_header_length m h <? SIZEOF_MAGIC) eqn:E1; [done|]. destruct (negb _) eqn:E2; [done|]. intros _ Hend.
  assert (forall o, 0 <= o <= 12 -> load32 m' (h + o) = load32 m (h + o)) as E
    by (intros o Ho; apply (agree_load 4 lo hi); [done|unfold h; lia|unfold h; lia]).
  pose proof (E 0 ltac:(lia)) as E0. rewrite Z.add_0_r in E0.
  unfold h_header_length, h_checksum, h_magic, h_architecture in *. rewrite !E, E0, E1, E2 by lia. unfold h. split; [done|lia].
Qed.

Lemma find_block_agree lo hi m m' mmap above addr size align n : forall i aligned mem,
  agree lo hi m m' -> lo <= mmap + 16 * i -> mmap + 16 * (i + Z.of_nat n) <= hi ->
  find_block n m' mmap i above addr size align aligned mem = find_block n m mmap i above addr size align aligned mem.
Proof.
  induction n as [|n IH]; intros i aligned mem Ha Hl Hh; [done|].
  assert (ram_address m' mmap i = ram_address m mmap i) as E1 by (apply (agree_load 8 lo hi); done || lia).
  assert (ram_size m' mmap i = ram_size m mmap i) as E2 by (apply (agree_load 8 lo hi); done || lia).
  assert (forall aligned mem, find_block n m' mmap (i + 1) above addr size align aligned mem =
    find_block n m mmap (i + 1) above addr size align aligned mem) as E3 by (intros a b; apply IH; done || lia).
  cbn [find_block]. rewrite E1, E2, !E3. done.
Qed.

Lemma FindBlock_agree lo hi m m' addr above size align mmap n :
  agree lo hi m m' -> 0 <= n -> lo <= mmap -> mmap + 16 * n <= hi ->
  Memory_FindBlockAddress addr above size align mmap n m' = Memory_FindBlockAddress addr above size align mmap n m.
Proof.
  intros Ha Hn Hl Hh. unfold Memory_FindBlockAddress.
  by rewrite !(find_block_agree lo hi m m') by (done || lia).
Qed.

(** The file header of an ELF image, and its program headers if it is one. *)
Definition elf_in (m : Mem) (image lo hi : Z) : Prop :=
  lo <= image /\ image + 52 <= hi /\
  forall k, Elf32_IsValidExecutable m image = true -> 0 <= k < e_phnum m image -> lo <= phdrs m image + 32 * k /\ phdrs m image + 32 * k + 32 <= hi.

Lemma static_scan_agree lo hi m m' phdr n : forall i,
  agree lo hi m m' -> (forall k, i <= k < i + Z.of_nat n -> lo <= phdr + 32 * k /\ phdr + 32 * k + 32 <= hi) ->
  static_scan n m' phdr i = static_scan n m phdr i.
Proof.
  induction n as [|n IH]; intros i Ha Hk; [done|]. cbn [static_scan].
  destruct (agree_phdr lo hi m m' phdr i Ha) as (-> & _); [apply Hk; lia|apply Hk; lia|].
  rewrite IH; [done|done|]. intros k Hk'. apply Hk. lia.
Qed.

Lemma elf_agree lo hi m m' image :
  agree lo hi m m' -> elf_in m image lo hi ->
  Elf32_IsValidiStaticExecutable m' image = Elf32_IsValidiStaticExecutable m image /\
  e_phnum m' image = e_phnum m image /\ phdrs m' image = phdrs m image.
Proof.
  intros Ha (Hl & Hh & Hk).
  assert (forall k o, 0 <= o -> o + Z.of_nat k <= 52 -> load k m' (image + o) = load k m (image + o)) as E
    by (intros k o Ho1 Ho2; apply (agree_load k lo hi); done || lia).
  assert (forall o, 0 <= o < 52 -> load8 m' (image + o) = load8 m (image + o)) as E8 by (intros o Ho; apply Ha; lia).
  assert (e_phnum m' image = e_phnum m image) as En by (apply (E 2%nat); lia).
  assert (phdrs m' image = phdrs m image) as Ep by (unfold phdrs, e_phoff; by rewrite (E 4%nat) by lia).
  split; [|by split].
  assert (Elf32_IsValidExecutable m' image = Elf32_IsValidExecutable m image) as Ev.
  { unfold Elf32_IsValidExecutable, Elf32_IsValidELF, e_ident, e_version, e_machine, e_ehsize, e_type, e_phentsize.
    rewrite En, !E8, !E by (unfold EI_MAG0, EI_MAG1, EI_MAG2, EI_MAG3, EI_CLASS, EI_DATA, EI_VERSION; lia). done. }
  unfold Elf32_IsValidiStaticExecutable. rewrite Ev, En, Ep. destruct (Elf32_IsValidExecutable m image) eqn:Hv; [|done].
  cbn [negb]. apply (static_scan_agree lo hi); [done|]. intros k Hk'. apply Hk; [done|lia].
Qed.

(** ** The tags of the header *)

Inductive htag :=
  | HReloc (min_addr max_addr align preference : Z)
  | HAddress (header_addr load_addr load_end_addr bss_end_addr : Z)
  | HEntry (entry_addr : Z)
  | HOther.

Definition read_tag (m : Mem) (t : Z) : htag :=
  if ht_type m t =? MULTIBOOT_HEADER_TAG_RELOCATABLE then
    HReloc (load32 m (t + 8)) (load32 m (t + 12)) (load32 m (t + 16)) (load32 m (t + 20))
  else if ht_type m t =? MULTIBOOT_HEADER_TAG_ADDRESS then
    HAddress (at_header_addr m t) (at_load_addr m t) (at_load_end_addr m t) (at_bss_end_addr m t)
  else if ht_type m t =? MULTIBOOT_HEADER_TAG_ENTRY_ADDRESS then HEntry (load32 m (t + 8))
  else HOther.

Definition htag_bytes (h : htag) : Z :=
  match h with HReloc _ _ _ _ | HAddress _ _ _ _ => 24 | HEntry _ => 12 | HOther => 8 end.

(** From address [t] the header has the tags [l], all inside the file, which
    ends at [hi]; nothing is looked at after an entry address. *)
Inductive header_tags (m : Mem) (header hi : Z) : Z -> list htag -> Prop :=
  | header_end t : header ⊕ h_header_length m header <= t -> header_tags m header hi t []
  | header_entry t e :
      t < header ⊕ h_header_length m header -> t + 12 <= hi -> read_tag m t = HEntry e -> header_tags m header hi t [HEntry e]
  | header_next t h l :
      t < header ⊕ h_header_length m header -> t + htag_bytes h <= hi -> read_tag m t = h -> (forall e, h <> HEntry e) ->
      header < t ⊕ ht_size m t -> header_tags m header hi (t ⊕ ht_size m t) l -> header_tags m header hi t (h :: l).

(** Where the kernel goes, as the tags have it so far. *)
Record Plan := mkPlan { p_start : Z; p_size : Z; p_bss : Z; p_load : LoadInfo }.

Definition address_plan (file_addr file_size header ha la le be : Z) (p : Plan) : option Plan :=
  if ha <? la then None
  else
    let start := if la =? 0xFFFFFFFF then ha ⊖ (header ⊖ file_addr) else la in
    if negb (le =? 0) && (le <? start) then None
    else
      let size := if le =? 0 then file_size else le ⊖ start in
      if negb (be =? 0) && (be <? start ⊕ size) then None
      else
        let bss := if be =? 0 then 0 else be ⊖ (start ⊕ size) in
        Some (mkPlan start (size ⊕ bss) bss
          (with_load (if la =? 0xFFFFFFFF then file_addr else header ⊖ (ha ⊖ la)) (p_load p))).

Definition tag_plan (file_addr file_size header : Z) (h : htag) (p : Plan) : option Plan :=
  match h with
  | HReloc lo hi al pref => Some (mkPlan (p_start p) (p_size p) (p_bss p) (with_reloc lo hi pref al (p_load p)))
  | HAddress ha la le be => address_plan file_addr file_size header ha la le be p
  | HEntry e => Some (mkPlan (p_start p) (p_size p) (p_bss p) (with_entry e (p_load p)))
  | HOther => Some p
  end.

Fixpoint plan_of (file_addr file_size header : Z) (l : list htag) (p : Plan) : option Plan :=
  match l with
  | [] => Some p
  | h :: l => p ← tag_plan file_addr file_size header h p; plan_of file_addr file_size header l p
  end.

(** ** Statements *)

Section Steps.
Context {S A B : Type}.

Lemma bind_gets (f : S -> A) (k : A -> M S B) s : (gets f ≫= k) s = k (f s) s.
Proof. done. Qed.
Lemma bind_modify f (k : unit -> M S B) s : (modify f ≫= k) s = k tt (f s).
Proof. done. Qed.
Lemma bind_ret (a : A) (k : A -> M S B) s : (mret a ≫= k) s = k a s.
Proof. done. Qed.
Lemma bind_return_if c b (k : unit -> M S B) s : (return_if c b ≫= k) s = if c then Ret b s else k tt s.
Proof. by destruct c. Qed.
Lemma bind_go (e : M S A) (k : A -> M S B) s a s' : e s = Go a s' -> (e ≫= k) s = k a s'.
Proof. intros E. unfold mbind, M_bind. by rewrite E. Qed.
Lemma bind_returned (e : M S A) (k : A -> M S B) s b s' : e s = Ret b s' -> (e ≫= k) s = Ret b s'.
Proof. intros E. unfold mbind, M_bind. by rewrite E. Qed.
End Steps.

Ltac step := first [rewrite bind_gets | rewrite bind_modify | rewrite bind_ret | rewrite bind_return_if].

(** ** The state of the loop *)

Section Load.
Variables (m : Mem) (file_addr file_size header ki : Z).
Hypothesis Hki : 0 <= ki /\ ki + 44 <= 4294967296.
Hypothesis Hfile : 0 < file_addr /\ 0 <= file_size /\ file_addr + file_size < 4294967296.
Hypothesis Hsafe : ki_safe ki file_addr (file_addr + file_size).
Hypothesis Hheader : file_addr <= header /\ header + 16 <= file_addr + file_size.

(** [m1] is [m] but for the start, the size and the BSS of the kernel. *)
Record fields (m1 : Mem) (start size bss : Z) : Prop := {
  fl_out : outside m m1 (ki + 16) (ki + 28);
  fl_start : ki_start m1 ki = start;
  fl_size : ki_size m1 ki = size;
  fl_bss : ki_bss_size m1 ki = bss
}.
Definition planned (m1 : Mem) (p : Plan) : Prop := fields m1 (p_start p) (p_size p) (p_bss p).

(** A store to one of the three. *)
Lemma fields_store m1 start size bss o v :
  (o = 16 \/ o = 20 \/ o = 24) -> 0 <= v < 4294967296 -> fields m1 start size bss ->
  fields (store32 m1 (ki + o) v) (if o =? 16 then v else start) (if o =? 20 then v else size) (if o =? 24 then v else bss).
Proof.
  intros Ho Hv [Hout Hs Hz Hb]. split.
  - intros x Hx Hd. rewrite load8_store_ne by lia. by apply Hout.
  - unfold ki_start in *. destruct Ho as [-> | [-> | ->]]; [rewrite load32_store32_eq by lia; by apply wrap32_small|..];
      by rewrite load32_store32_ne by lia.
  - unfold ki_size in *. destruct Ho as [-> | [-> | ->]]; [|rewrite load32_store32_eq by lia; by apply wrap32_small|];
      by rewrite load32_store32_ne by lia.
  - unfold ki_bss_size in *. destruct Ho as [-> | [-> | ->]]; [..|rewrite load32_store32_eq by lia; by apply wrap32_small];
      by rewrite load32_store32_ne by lia.
Qed.

Lemma fields_agree m1 start size bss : fields m1 start size bss -> agree file_addr (file_addr + file_size) m m1.
Proof. intros [Ho _ _ _]. apply (outside_agree _ _ (ki + 16) (ki + 28)); [done|lia|lia|]. unfold ki_safe in Hsafe. lia. Qed.

(** The members of a tag in the file. *)
Lemma tag_load k m1 start size bss t o :
  fields m1 start size bss -> file_addr <= t -> 0 <= o -> t + o + Z.of_nat k <= file_addr + file_size ->
  load k m1 (t + o) = load k m (t + o).
Proof. intros Hf Ht Ho Hend. apply (agree_load k file_addr (file_addr + file_size)); [by eapply fields_agree|lia|lia]. Qed.

(** A statement goes on with what the plan has, or the function returns
    [false] where there is no plan. *)
Definition follows {A} (r : ctl Mem A) (v : Plan -> A) (o : option Plan) : Prop :=
  match o with
  | Some p => exists m2, r = Go (v p) m2 /\ planned m2 p
  | None => exists m2, r = Ret false m2 /\ outside m m2 (ki + 16) (ki + 28)
  end.

Lemma address_tag_plan m1 p t :
  planned m1 p -> file_addr <= t -> t + 24 <= file_addr + file_size ->
  follows (address_tag file_addr file_size header t ki m1) (fun p => load_start (p_load p))
    (address_plan file_addr file_size header (at_header_addr m t) (at_load_addr m t) (at_load_end_addr m t) (at_bss_end_addr m t) p).
Proof.
  intros Hp Ht Hend.
  assert (forall m2 a b c, fields m2 a b c ->
    at_header_addr m2 t = at_header_addr m t /\ at_load_addr m2 t = at_load_addr m t /\
    at_load_end_addr m2 t = at_load_end_addr m t /\ at_bss_end_addr m2 t = at_bss_end_addr m t) as Hat.
  { intros m2 a b c Ho. unfold at_header_addr, at_load_addr, at_load_end_addr, at_bss_end_addr.
    rewrite !(tag_load 4 m2 a b c) by (done || lia). done. }
  assert (0 <= at_load_addr m t < 4294967296) as R by apply load32_range.
  set (ha := at_header_addr m t) in *. set (la := at_load_addr m t) in *. set (le := at_load_end_addr m t) in *.
  set (be := at_bss_end_addr m t) in *. unfold address_plan, address_tag. destruct (Hat m1 _ _ _ Hp) as (A1 & A2 & _).
  step. rewrite A1, A2. step. destruct (ha <? la) eqn:C1; [exists m1; split; [done|apply Hp]|].
  step. rewrite A2. step. rewrite A1, A2. step. rewrite A1, A2. set (start := if la =? 0xFFFFFFFF then ha ⊖ _ else la).
  set (m2 := store32 m1 (ki + 16) start).
  assert (fields m2 start (p_size p) (p_bss p)) as F2.
  { apply (fields_store m1 (p_start p) (p_size p) (p_bss p) 16 start); [by left| |exact Hp]. unfold start. case_cmp; [apply wrap32_range|done]. }
  destruct (Hat m2 _ _ _ F2) as (_ & _ & A3 & A4). clearbody m2. step. rewrite A3, (fl_start _ _ _ _ F2). step.
  destruct (negb (le =? 0) && (le <? start)) eqn:C2; [exists m2; split; [done|apply F2]|].
  step. rewrite A3, (fl_start _ _ _ _ F2). set (size := if le =? 0 then file_size else le ⊖ start).
  assert (0 <= size < 4294967296) as Rz by (unfold size; case_cmp; [lia|apply wrap32_range]).
  set (m3 := store32 m2 (ki + 20) size).
  assert (fields m3 start size (p_bss p)) as F3 by (apply (fields_store m2 start (p_size p) (p_bss p) 20 size); auto).
  destruct (Hat m3 _ _ _ F3) as (_ & _ & _ & B4). clearbody m3.
  step. rewrite B4, (fl_start _ _ _ _ F3), (fl_size _ _ _ _ F3). step.
  destruct (negb (be =? 0) && (be <? start ⊕ size)) eqn:C3; [exists m3; split; [done|apply F3]|].
  step. rewrite B4, (fl_start _ _ _ _ F3), (fl_size _ _ _ _ F3). set (bss := if be =? 0 then 0 else be ⊖ (start ⊕ size)).
  assert (0 <= bss < 4294967296) as Rb by (unfold bss; case_cmp; [lia|apply wrap32_range]).
  set (m4 := store32 m3 (ki + 24) bss).
  assert (fields m4 start size bss) as F4 by (apply (fields_store m3 start size (p_bss p) 24 bss); auto). clearbody m4.
  step. rewrite (fl_size _ _ _ _ F4), (fl_bss _ _ _ _ F4). eexists. split; [done|].
  apply (fields_store m4 start size bss 20 (size ⊕ bss)); [auto|apply wrap32_range|done].
Qed.

Lemma has_type_go t type m1 : has_type t type m1 = Go (ht_type m1 t =? type) m1.
Proof. done. Qed.

(** One turn of the loop. *)
Definition after_tag (t : Z) (h : htag) (p : Plan) : (Z * LoadInfo) + (Z * LoadInfo) :=
  match h with HEntry _ => inr (t, p_load p) | _ => inl (t ⊕ ht_size m t, p_load p) end.

Lemma load_tag_plan m1 p t :
  planned m1 p -> file_addr <= t -> t + htag_bytes (read_tag m t) <= file_addr + file_size ->
  follows (load_tag file_addr file_size header ki (t, p_load p) m1) (after_tag t (read_tag m t))
    (tag_plan file_addr file_size header (read_tag m t) p).
Proof.
  intros Hp Ht Hend.
  assert (8 <= htag_bytes (read_tag m t)) as H8 by (destruct (read_tag m t); cbn; lia).
  assert (forall m2 a b c, fields m2 a b c -> ht_type m2 t = ht_type m t /\ ht_size m2 t = ht_size m t) as Hat.
  { intros m2 a b c Ho. unfold ht_type, ht_size. split; [|by rewrite (tag_load 4 m2 a b c) by (done || lia)].
    rewrite <- (Z.add_0_r t). by rewrite (tag_load 2 m2 a b c) by (done || lia). }
  destruct (Hat m1 _ _ _ Hp) as [T1 Z1]. unfold load_tag, read_tag in *.
  rewrite (bind_go _ _ _ _ _ (has_type_go _ _ _)), T1.
  destruct (ht_type m t =? MULTIBOOT_HEADER_TAG_RELOCATABLE) eqn:C1.
  { apply Z.eqb_eq in C1. cbn [htag_bytes] in Hend. step. rewrite !(tag_load 4 m1 _ _ _ t) by (exact Hp || lia).
    rewrite (bind_go _ _ _ _ _ (has_type_go _ _ _)), T1, C1.
    change (MULTIBOOT_HEADER_TAG_RELOCATABLE =? MULTIBOOT_HEADER_TAG_ADDRESS) with false; cbv match. step.
    rewrite (bind_go _ _ _ _ _ (has_type_go _ _ _)), T1, C1.
    change (MULTIBOOT_HEADER_TAG_RELOCATABLE =? MULTIBOOT_HEADER_TAG_ENTRY_ADDRESS) with false; cbv match. step. rewrite Z1. eexists. split; [done|exact Hp]. }
  step. rewrite (bind_go _ _ _ _ _ (has_type_go _ _ _)), T1.
  destruct (ht_type m t =? MULTIBOOT_HEADER_TAG_ADDRESS) eqn:C2.
  { apply Z.eqb_eq in C2. cbn [htag_bytes] in Hend. cbn [tag_plan].
    pose proof (address_tag_plan m1 p t Hp Ht Hend) as Ha. unfold address_plan in *.
    destruct (_ <? _); [|destruct (_ && _); [|destruct (_ && _)]]; destruct Ha as (m2 & E & Hm2).
    1-3: eexists; split; [|exact Hm2]; apply bind_returned; by apply bind_returned.
    erewrite bind_go by (by rewrite (bind_go _ _ _ _ _ E)).
    destruct (Hat m2 _ _ _ Hm2) as [T2 Z2].
    rewrite (bind_go _ _ _ _ _ (has_type_go _ _ _)), T2, C2.
    change (MULTIBOOT_HEADER_TAG_ADDRESS =? MULTIBOOT_HEADER_TAG_ENTRY_ADDRESS) with false; cbv match. step. rewrite Z2. eexists. split; [done|exact Hm2]. }
  step. rewrite (bind_go _ _ _ _ _ (has_type_go _ _ _)), T1.
  destruct (ht_type m t =? MULTIBOOT_HEADER_TAG_ENTRY_ADDRESS) eqn:C3.
  { cbn [htag_bytes] in Hend. step. rewrite !(tag_load 4 m1 _ _ _ t) by (exact Hp || lia). eexists. split; [done|exact Hp]. }
  step. rewrite Z1. eexists. split; [done|exact Hp].
Qed.

(** The whole loop. *)
Lemma load_tags_plan t l : header_tags m header (file_addr + file_size) t l -> forall fuel p m1,
  planned m1 p -> file_addr <= t -> (length l < fuel)%nat ->
  match plan_of file_addr file_size header l p with
  | Some p' => exists t' m2, load_tags fuel file_addr file_size header ki t (p_load p) m1 = Go (t', p_load p') m2 /\ planned m2 p'
  | None => exists m2, load_tags fuel file_addr file_size header ki t (p_load p) m1 = Ret false m2 /\ outside m m2 (ki + 16) (ki + 28)
  end.
Proof.
  induction 1 as [t Hend|t e Hin Hroom Ht|t h l Hin Hroom Ht Hne Hadv Hl IH]; intros fuel p m1 Hp Hlo Hfuel;
    (destruct fuel as [|fuel]; [cbn in Hfuel; lia|]); unfold load_tags; cbn [while plan_of]; step.
  all: assert (in_header m1 header t = (t <? header ⊕ h_header_length m header)) as ->
    by (unfold in_header, h_header_length; by rewrite (tag_load 4 m1 _ _ _ header 8 Hp) by lia).
  - rewrite (proj2 (Z.ltb_ge _ _)) by done. exists t, m1. by split.
  - rewrite (proj2 (Z.ltb_lt _ _)) by done.
    pose proof (load_tag_plan m1 p t Hp Hlo ltac:(rewrite Ht; exact Hroom)) as Hf. rewrite Ht in Hf.
    cbn [tag_plan after_tag] in Hf |- *. destruct Hf as (m2 & E & Hm2). rewrite (bind_go _ _ _ _ _ E).
    cbn [mbind option_bind plan_of]. eexists _, m2. by split.
  - rewrite (proj2 (Z.ltb_lt _ _)) by done.
    pose proof (load_tag_plan m1 p t Hp Hlo ltac:(rewrite Ht; exact Hroom)) as Hf. rewrite Ht in Hf.
    destruct (tag_plan file_addr file_size header h p) as [p1|]; cbn [mbind option_bind]; destruct Hf as (m2 & E & Hm2).
    + rewrite (bind_go _ _ _ _ _ E). assert (after_tag t h p1 = inl (t ⊕ ht_size m t, p_load p1)) as ->
        by (destruct h; done || by destruct (Hne entry_addr)).
      apply (IH fuel p1 m2 Hm2); [lia|]. cbn in Hfuel. lia.
    + exists m2. split; [by apply bind_returned|done].
Qed.

(** ** The place *)

Lemma AlignAddress_word addr align above : word addr -> word (Memory_AlignAddress addr align above).
Proof. unfold Memory_AlignAddress. intros H. case_match; [done|apply wrap32_range]. Qed.

Definition sum_word (r : Z + Z) : Prop := word (match r with inl a | inr a => a end).

Lemma find_block_word mmap above addr size align k : forall i aligned mem,
  word aligned -> word mem -> sum_word (find_block k m mmap i above addr size align aligned mem).
Proof.
  induction k as [|k IH]; intros i aligned mem Ha Hm; cbn [find_block]; [exact Hm|].
  set (base := wrap32 (ram_address m mmap i)). set (esize := if MEMORY_32BIT_LIMIT <? _ then _ else _).
  set (sb := if above then base else _).
  assert (word sb) as Hsb by (unfold sb; repeat case_match; done || apply wrap32_range).
  pose proof (AlignAddress_word sb align above Hsb) as Hab.
  repeat case_match; try (apply IH; done || (repeat case_match; done)); exact Ha.
Qed.

Lemma FindBlock_word addr above size align mmap n : word addr -> word (Memory_FindBlockAddress addr above size align mmap n m).
Proof.
  intros Ha. unfold Memory_FindBlockAddress.
  assert (word MEMORY_32BIT_LIMIT /\ word 0) as [H1 H2] by (unfold word, MEMORY_32BIT_LIMIT; lia).
  set (mem := if above then MEMORY_32BIT_LIMIT else 0). assert (word mem) as Hm by (unfold mem; by case_match).
  set (aligned := Memory_AlignAddress _ _ _).
  assert (word aligned) as Hal by (apply AlignAddress_word; case_match; [done|apply wrap32_range]).
  pose proof (find_block_word mmap above addr size align (Z.to_nat n) 0 aligned mem Hal Hm) as Hf. unfold sum_word in Hf.
  repeat case_match; done.
Qed.

Definition choose (mmap n : Z) (p : Plan) : option Z :=
  let l := p_load p in
  if negb (load_info l) && reloc l then
    if (load_pref l =? 0) || (load_pref l =? 1) then
      let k := Memory_FindBlockAddress (start_min l) MEMORY_FIND_ADDRESS_ABOVE file_size (start_align l) mmap n m in
      if (k =? MEMORY_32BIT_LIMIT) || (end_max l <? k ⊕ p_size p) then None else Some k
    else if load_pref l =? 2 then
      let k := Memory_FindBlockAddress (end_max l) MEMORY_FIND_ADDRESS_BELOW file_size (start_align l) mmap n m in
      if (k =? MEMORY_32BIT_LIMIT) || (k <? start_min l) then None else Some k
    else Some (p_start p)
  else Some (p_start p).

Definition place (mmap n : Z) (p : Plan) : option Z :=
  if (p_size p =? 0) || (reloc (p_load p) && (end_max (p_load p) ⊖ start_min (p_load p) <? p_size p)) then None
  else
    k ← choose mmap n p;
    if Memory_FindBlockAddress k MEMORY_FIND_ADDRESS_ABOVE file_size 1 mmap n m =? k then Some k else None.

(** The list of free memory is read as it was. *)
Definition list_safe (mmap n : Z) : Prop :=
  0 <= n /\ 0 <= mmap /\ mmap + 16 * n <= 4294967296 /\ (mmap + 16 * n <= ki + 16 \/ ki + 28 <= mmap).

Lemma fields_find m1 a b c mmap n addr above size align :
  fields m1 a b c -> list_safe mmap n ->
  Memory_FindBlockAddress addr above size align mmap n m1 = Memory_FindBlockAddress addr above size align mmap n m.
Proof.
  intros [Ho _ _ _] (H1 & H2 & H3 & H4). apply (FindBlock_agree mmap (mmap + 16 * n)); [|done|lia|lia].
  apply (outside_agree _ _ (ki + 16) (ki + 28)); [done|lia|lia|]. lia.
Qed.

Lemma fields_file m1 a b c :
  fields m1 a b c -> ki_file_size m ki = file_size -> ki_file_size m1 ki = file_size.
Proof.
  intros [Ho _ _ _] <-. unfold ki_file_size. apply (outside_load 4 m m1 (ki + 16) (ki + 28)); [done|lia|lia|lia].
Qed.

Lemma choose_start_plan m1 p mmap n :
  planned m1 p -> list_safe mmap n -> ki_file_size m ki = file_size -> word (p_start p) ->
  (forall k, choose mmap n p = Some k -> word k) ->
  match choose mmap n p with
  | Some k => exists m2, choose_start mmap n ki (p_load p) m1 = Go tt m2 /\ fields m2 k (p_size p) (p_bss p)
  | None => exists m2, choose_start mmap n ki (p_load p) m1 = Ret false m2 /\ outside m m2 (ki + 16) (ki + 28)
  end.
Proof.
  intros Hp Hl Hfs Hw Hk. unfold choose_start, choose in *.
  destruct (negb (load_info (p_load p)) && reloc (p_load p)) eqn:C1; [|exists m1; by split].
  assert (forall k, word k -> fields (store32 m1 (ki + 16) k) k (p_size p) (p_bss p)) as Hst
    by (intros k Hk'; apply (fields_store m1 (p_start p) (p_size p) (p_bss p) 16 k); [by left|exact Hk'|exact Hp]).
  step. pose proof (fields_file m1 _ _ _ Hp Hfs) as Hf1.
  destruct ((load_pref (p_load p) =? 0) || (load_pref (p_load p) =? 1)) eqn:C2;
    [|destruct (load_pref (p_load p) =? 2) eqn:C3].
  - unfold gets, return_if, return_, modify, mret, M_ret, mbind, M_bind. rewrite Hf1, (fields_find m1 _ _ _ mmap n _ _ _ _ Hp Hl), (fl_size _ _ _ _ Hp).
    set (k := Memory_FindBlockAddress _ _ _ _ _ _ _) in *. destruct ((k =? MEMORY_32BIT_LIMIT) || (end_max (p_load p) <? k ⊕ p_size p)) eqn:C4; [exists m1; split; [done|apply Hp]|].
    eexists. split; [done|]. by apply Hst, Hk.
  - unfold gets, return_if, return_, modify, mret, M_ret, mbind, M_bind. rewrite Hf1, (fields_find m1 _ _ _ mmap n _ _ _ _ Hp Hl).
    set (k := Memory_FindBlockAddress _ _ _ _ _ _ _) in *. destruct ((k =? MEMORY_32BIT_LIMIT) || (k <? start_min (p_load p))) eqn:C4; [exists m1; split; [done|apply Hp]|].
    eexists. split; [done|]. by apply Hst, Hk.
  - eexists. split; [done|]. rewrite (fl_start _ _ _ _ Hp). by apply Hst.
Qed.

(** ** The kernel in its place *)

(** What [m'] holds from [k] on: the bytes the address tag names and zeroes
    for the BSS; or the segments of an ELF executable; or the file. *)
Definition kernel_bytes (m' : Mem) (p : Plan) (k : Z) : Prop :=
  if load_info (p_load p) then
    (forall j, 0 <= j < p_size p - p_bss p -> load8 m' (k + j) = load8 m (load_start (p_load p) + j)) /\
    (forall j, p_size p - p_bss p <= j < p_size p -> load8 m' (k + j) = 0)
  else if Elf32_IsValidiStaticExecutable m file_addr then
    segments_at (Z.to_nat (e_phnum m file_addr)) m m' file_addr (phdrs m file_addr) 0 k
  else forall j, 0 <= j < p_size p -> load8 m' (k + j) = load8 m (load_start (p_load p) + j).

(** What the function relies on: the kernel ends below 4 GB and is not where
    [*kernel_info] is; what is copied comes from the file, and the image of an
    executable, with its headers and segments, is away from where it goes. *)
Definition placeable (p : Plan) (k : Z) : Prop :=
  0 <= k /\ 0 <= p_size p /\ k + p_size p < 4294967296 /\ ki_safe ki k (k + p_size p) /\
  (if load_info (p_load p) then
     0 <= p_bss p <= p_size p /\ file_addr <= load_start (p_load p) /\
     load_start (p_load p) + (p_size p - p_bss p) <= file_addr + file_size
   else elf_in m file_addr file_addr (file_addr + file_size) /\
   if Elf32_IsValidiStaticExecutable m file_addr then
     let n := Z.to_nat (e_phnum m file_addr) in let phdr := phdrs m file_addr in
     (forall i, 0 <= i < e_phnum m file_addr -> segment_ok m file_addr phdr file_addr (file_addr + file_size) i) /\
     total_size n m phdr 0 = p_size p /\
     (k + p_size p <= file_addr \/ file_addr + file_size <= k)
   else file_addr <= load_start (p_load p) /\ load_start (p_load p) + p_size p <= file_addr + file_size).

Lemma kernel_bytes_ext m' m'' p k :
  placeable p k -> (forall x, k <= x < k + p_size p -> load8 m'' x = load8 m' x) -> kernel_bytes m' p k -> kernel_bytes m'' p k.
Proof.
  intros (Hk & Hz & _ & _ & Hp) Hext. unfold kernel_bytes in *. destruct (load_info (p_load p)).
  - intros [H1 H2]. split; intros j Hj; rewrite Hext by lia; [by apply H1|by apply H2].
  - destruct Hp as [_ Hp]. destruct (Elf32_IsValidiStaticExecutable m file_addr).
    + destruct Hp as (Hseg & Ht & _). apply (segments_at_ext _ _ _ _ _ _ _ _ (k + p_size p)); [|lia|done].
      intros j Hj Hld. apply (Hseg (0 + j)); [lia|done].
    + intros H j Hj. rewrite Hext by lia. by apply H.
Qed.

(** The copy writes the kernel and nothing else. *)
Lemma copy_kernel_ok m3 p k :
  fields m3 k (p_size p) (p_bss p) -> placeable p k ->
  let m4 := copy_kernel file_addr ki (p_load p) m3 in
  kernel_bytes m4 p k /\ (forall x, 0 <= x < 4294967296 -> ~ (k <= x < k + p_size p) -> load8 m4 x = load8 m3 x).
Proof.
  intros Hf Hpl m4. pose proof (fields_agree m3 _ _ _ Hf) as Hag. pose proof Hpl as (Hk & Hz & Hend & Hks & Hp).
  pose proof Hf as [Hout Es Ez Eb]. unfold kernel_bytes, m4. destruct (load_info (p_load p)) eqn:Hl.
  - destruct Hp as (Hb & Hs1 & Hs2).
    assert (forall x, 0 <= x < 4294967296 -> load8 (copy_kernel file_addr ki (p_load p) m3) x =
      if (k <=? x) && (x <? k + (p_size p - p_bss p)) then load8 m3 (load_start (p_load p) + (x - k))
      else if (k <=? x) && (x <? k + p_size p) then 0 else load8 m3 x) as Hc.
    { intros x Hx. pose proof (copy_kernel_load8 m3 file_addr file_size ki (p_load p)) as H. rewrite Es, Ez, Eb in H. apply H; try done; lia. }
    split; [split|]; intros j Hj; [..|intros Hn]; rewrite Hc by lia.
    + destruct (Z.leb_spec k (k + j)), (Z.ltb_spec (k + j) (k + (p_size p - p_bss p))); cbn [andb]; try lia.
      replace (load_start (p_load p) + (k + j - k)) with (load_start (p_load p) + j) by lia. apply Hag. lia.
    + destruct (Z.leb_spec k (k + j)), (Z.ltb_spec (k + j) (k + (p_size p - p_bss p))), (Z.ltb_spec (k + j) (k + p_size p)); cbn [andb]; lia || done.
    + destruct (Z.leb_spec k j), (Z.ltb_spec j (k + (p_size p - p_bss p))), (Z.ltb_spec j (k + p_size p)); cbn [andb]; lia || done.
  - destruct Hp as [Hin Hp]. destruct (elf_agree _ _ m m3 file_addr Hag Hin) as (Ev & En & Ep).
    unfold copy_kernel. rewrite Hl, Es, Ez, Ev. destruct (Elf32_IsValidiStaticExecutable m file_addr) eqn:Hv.
    + destruct Hp as (Hseg & Ht & Hd).
      unfold Elf32_LoadStaticExecutable. rewrite Ev, En, Ep. cbn [negb].
      pose proof (load_segments_spec (Z.to_nat (e_phnum m file_addr)) m m3 file_addr (phdrs m file_addr) 0 k 0
        file_addr (file_addr + file_size)) as H. rewrite Ht in H.
      destruct (load_segments _ _ _ _ _ _ _) as [sz m5]. cbn [snd]. destruct H as (_ & H1 & H2); [lia|lia|lia| |exact Hag|lia|lia|lia|lia|lia|by split].
      intros i Hi. apply Hseg. lia.
    + destruct Hp as (Hs1 & Hs2).
      assert (forall x, 0 <= x < 4294967296 -> load8 (memmove m3 k (load_start (p_load p)) (p_size p)) x =
        if (k <=? x) && (x <? k + p_size p) then load8 m3 (load_start (p_load p) + (x - k)) else load8 m3 x) as Hc
        by (intros x Hx; apply load8_memmove; lia).
      split; intros j Hj; [|intros Hn]; rewrite Hc by lia.
      * destruct (Z.leb_spec k (k + j)), (Z.ltb_spec (k + j) (k + p_size p)); cbn [andb]; try lia.
        replace (load_start (p_load p) + (k + j - k)) with (load_start (p_load p) + j) by lia. apply Hag. lia.
      * destruct (Z.leb_spec k j), (Z.ltb_spec j (k + p_size p)); cbn [andb]; lia || done.
Qed.

Record kernel_loaded (m' : Mem) (p : Plan) (k : Z) : Prop := {
  kl_bytes : kernel_bytes m' p k;
  kl_clear : forall x, file_addr <= x < file_addr + file_size -> ~ (k <= x < k + p_size p) -> load8 m' x = 0;
  kl_rest : forall x, 0 <= x < 4294967296 -> ~ (file_addr <= x < file_addr + file_size) -> ~ (k <= x < k + p_size p) ->
    ~ (ki + 16 <= x < ki + 36) -> load8 m' x = load8 m x;
  kl_start : ki_start m' ki = k;
  kl_size : ki_size m' ki = p_size p;
  kl_entry : ki_entry m' ki = if kernel_entry (p_load p) =? MEMORY_NULL_PTR then k else kernel_entry (p_load p);
  kl_header : let h := Multiboot_GetHeader m' k (p_size p) in
    h <> 0 -> h + 16 <= k + p_size p -> ki_multiboot_header m' ki = h
}.

(** The last statements of the function. *)
Definition finish (p : Plan) (m3 : Mem) : Mem :=
  let m4 := copy_kernel file_addr ki (p_load p) m3 in
  let m5 := clean_up file_addr file_size ki m4 in
  let m6 := store32 m5 (ki + 32) (if kernel_entry (p_load p) =? MEMORY_NULL_PTR then ki_start m5 ki else kernel_entry (p_load p)) in
  store32 m6 (ki + 28) (Multiboot_GetHeader m6 (ki_start m6 ki) (ki_size m6 ki)).

Lemma finish_ok m3 p k :
  fields m3 k (p_size p) (p_bss p) -> placeable p k -> word (kernel_entry (p_load p)) -> kernel_loaded (finish p m3) p k.
Proof.
  intros Hf Hpl Hw. destruct (copy_kernel_ok m3 p k Hf Hpl) as [Hb4 Ho4]. unfold finish. cbv zeta.
  pose proof Hpl as (Hk & Hz & Hend & Hks & _). pose proof Hf as [Hout Es Ez Eb].
  set (m4 := copy_kernel file_addr ki (p_load p) m3) in *.
  assert (forall o, 0 <= o -> o + 4 <= 44 -> load32 m4 (ki + o) = load32 m3 (ki + o)) as L4.
  { intros o Ho1 Ho2. apply load_ext. intros i Hi. apply Ho4; [lia|]. unfold ki_safe in Hks. lia. }
  set (m5 := clean_up file_addr file_size ki m4).
  assert (forall x, 0 <= x < 4294967296 -> load8 m5 x =
    if (file_addr <=? x) && (x <? file_addr + file_size) && negb ((k <=? x) && (x <? k + p_size p)) then 0 else load8 m4 x) as E5.
  { intros x Hx. pose proof (clean_up_load8 m3 file_addr file_size ki) as H. rewrite Es, Ez in H. apply H; try done; try lia.
    - rewrite <- Es. apply L4; lia.
    - rewrite <- Ez. apply L4; lia. }
  assert (forall o, 0 <= o -> o + 4 <= 44 -> load32 m5 (ki + o) = load32 m3 (ki + o)) as L5.
  { intros o Ho1 Ho2. rewrite <- L4 by done. apply load_ext. intros i Hi. rewrite E5 by lia. unfold ki_safe in Hsafe.
    destruct (Z.leb_spec file_addr (ki + o + i)), (Z.ltb_spec (ki + o + i) (file_addr + file_size)); cbn [andb]; lia || done. }
  assert (ki_start m5 ki = k) as S5 by (rewrite <- Es; apply L5; lia).
  assert (ki_size m5 ki = p_size p) as Z5 by (rewrite <- Ez; apply L5; lia). rewrite S5.
  set (entry := if kernel_entry (p_load p) =? MEMORY_NULL_PTR then k else kernel_entry (p_load p)).
  assert (word entry) as We by (unfold entry, word; case_match; [lia|done]).
  set (m6 := store32 m5 (ki + 32) entry).
  assert (ki_start m6 ki = k) as S6 by (rewrite <- S5; apply load32_store32_ne; lia).
  assert (ki_size m6 ki = p_size p) as Z6 by (rewrite <- Z5; apply load32_store32_ne; lia). rewrite S6, Z6.
  set (h := Multiboot_GetHeader m6 k (p_size p)). set (m7 := store32 m6 (ki + 28) h).
  assert (forall x, 0 <= x < 4294967296 -> ~ (ki + 28 <= x < ki + 36) -> load8 m7 x = load8 m5 x) as E7
    by (intros x Hx Hn; unfold m7, m6; rewrite !load8_store_ne by lia; done).
  unfold ki_safe in Hks. split.
  - apply (kernel_bytes_ext m4); [done| |done]. intros x Hx. rewrite E7, E5 by lia.
    destruct (Z.leb_spec k x), (Z.ltb_spec x (k + p_size p)); cbn [andb negb]; try lia. by rewrite andb_false_r.
  - intros x Hx Hn. unfold ki_safe in Hsafe. rewrite E7, E5 by lia.
    destruct (Z.leb_spec file_addr x), (Z.ltb_spec x (file_addr + file_size)), (Z.leb_spec k x), (Z.ltb_spec x (k + p_size p));
      cbn [andb negb]; lia || done.
  - intros x Hx Hnf Hnk Hni. rewrite E7, E5 by lia.
    destruct (Z.leb_spec file_addr x), (Z.ltb_spec x (file_addr + file_size)); cbn [andb]; try lia; rewrite Ho4, Hout by lia; done.
  - rewrite <- S6. apply load32_store32_ne; lia.
  - rewrite <- Z6. apply load32_store32_ne; lia.
  - unfold ki_entry, m7. rewrite load32_store32_ne by lia. unfold m6. rewrite load32_store32_eq by lia. by apply wrap32_small.
  - cbv zeta. intros H0 H16.
    destruct (GetHeader_agree k (k + p_size p) m7 m6 k (p_size p)) as [Eh Hge]; try done; try lia.
    { intros x Hx. symmetry. unfold m7. apply load8_store_ne; lia. }
    unfold ki_multiboot_header, m7 at 1. rewrite load32_store32_eq by lia. rewrite <- Eh. apply wrap32_small. rewrite Eh. lia.
Qed.
End Load.

(** ** The function *)

Definition plan_words (p : Plan) : Prop :=
  word (p_start p) /\ word (p_size p) /\ word (p_bss p) /\ word (start_min (p_load p)) /\ word (end_max (p_load p)) /\
  word (kernel_entry (p_load p)).
Definition htag_words (h : htag) : Prop :=
  match h with
  | HReloc a b c d | HAddress a b c d => word a /\ word b /\ word c /\ word d
  | HEntry e => word e
  | HOther => True
  end.

Lemma read_tag_words m t : htag_words (read_tag m t).
Proof. unfold read_tag. repeat case_match; cbn; split_and?; done || apply load32_range. Qed.

Lemma header_tags_words m header hi t l : header_tags m header hi t l -> Forall htag_words l.
Proof.
  induction 1 as [| t e _ _ E|t h l _ _ E _ _ _ IH]; [done|..]; (constructor; [|done]); rewrite <- E; apply read_tag_words.
Qed.

Lemma tag_plan_words fa fs header h p p' :
  word fs -> htag_words h -> plan_words p -> tag_plan fa fs header h p = Some p' -> plan_words p'.
Proof.
  intros Hfs Hh (H1 & H2 & H3 & H4 & H5 & H6). destruct h as [a b c d|ha la le be|e|]; cbn.
  - intros [= <-]. destruct Hh as (Ha & Hb & _). unfold plan_words; cbn; split_and!; done.
  - unfold address_plan. repeat case_match; try done; intros [= <-]; destruct Hh as (Ha & Hb & _);
      unfold plan_words; cbn; split_and!; try done; try apply wrap32_range; unfold word; lia.
  - intros [= <-]. unfold plan_words; cbn; split_and!; done.
  - by intros [= <-].
Qed.

Lemma plan_of_words fa fs header l : forall p p',
  word fs -> Forall htag_words l -> plan_words p -> plan_of fa fs header l p = Some p' -> plan_words p'.
Proof.
  induction l as [|h l IH]; intros p p' Hfs Hl Hp; cbn; [by intros [= <-]|]. apply Forall_cons in Hl as [Hh Hl].
  destruct (tag_plan fa fs header h p) as [p1|] eqn:E; [|done]. cbn. apply IH; [done|done|]. by apply (tag_plan_words fa fs header h p).
Qed.

Lemma LoadSize_word m image : word (Elf32_StaticExecutableLoadSize m image).
Proof.
  unfold Elf32_StaticExecutableLoadSize. case_match; [unfold word; lia|].
  assert (forall n phdr i acc, word acc -> word (load_size_loop n m phdr i acc)) as Hs; [|apply Hs; unfold word; lia].
  induction n as [|n IH]; intros phdr i acc Ha; cbn; [done|]. apply IH. case_match; [apply wrap32_range|done].
Qed.

Lemma SizeBSS_word m image : word (Elf32_SizeBSSLikeSections m image).
Proof.
  unfold Elf32_SizeBSSLikeSections. assert (word 0) as H0 by (unfold word; lia). repeat case_match; try done.
  - revert H0. generalize 0 at 1 3. generalize 0. generalize (Z.to_nat (e_shnum m image)).
    intros n. induction n as [|n IH]; intros i acc Ha; cbn; [done|]. apply IH. case_match; [apply wrap32_range|done].
  - revert H0. generalize 0 at 1 3. generalize 0. generalize (Z.to_nat (e_phnum m image)).
    intros n. induction n as [|n IH]; intros i acc Ha; cbn; [done|]. apply IH. repeat case_match; done || apply wrap32_range.
Qed.

(** The plan before any tag: the start the disk's record names, the sizes of
    the executable or the size of the file. *)
Definition first_plan (m : Mem) (ki : Z) : Plan :=
  let file_addr := ki_file_addr m ki in
  let file_size := ki_file_size m ki in
  let isELF := Elf32_IsValidiStaticExecutable m file_addr in
  let size := if isELF then Elf32_StaticExecutableLoadSize m file_addr else file_size in
  mkPlan (ki_start m ki) size
    (if isELF then Elf32_SizeBSSLikeSections (store32 m (ki + 20) size) file_addr else 0)
    (mkLoad false (ki_start m ki) (ki_start m ki ⊕ file_size) 0 0x1000 false file_addr MEMORY_NULL_PTR).

Lemma first_plan_words m ki : plan_words (first_plan m ki).
Proof.
  pose proof (load32_range m (ki + 16)) as H1. fold (ki_start m ki) in H1.
  pose proof (load32_range m (ki + 40)) as H2. fold (ki_file_size m ki) in H2.
  unfold plan_words; cbn; split_and!; try (apply H1); try apply wrap32_range; try (unfold word, MEMORY_NULL_PTR; lia);
    case_match; apply LoadSize_word || apply SizeBSS_word || apply H2 || (unfold word; lia).
Qed.

(** The kernel's plan and its place. *)
Definition plan_and_place (m : Mem) (ki mmap n : Z) (l : list htag) : option (Plan * Z) :=
  let file_size := ki_file_size m ki in
  p ← plan_of (ki_file_addr m ki) file_size (Multiboot_GetHeader m (ki_file_addr m ki) file_size) l (first_plan m ki);
  k ← place m file_size mmap n p;
  Some (p, k).

(** A place was free: the bytes of the file fit there into one entry of the
    memory map. *)
Lemma place_free m file_size mmap n p k :
  place m file_size mmap n p = Some k -> word k -> 1 <= file_size -> k + file_size + 1 <= 4294967296 ->
  0 < n < 4294967296 -> mmap <> MEMORY_NULL_PTR ->
  (forall i, 0 <= i < n -> ram_address m mmap i + ram_size m mmap i < 18446744073709551616) ->
  fits_at m mmap n k file_size 1 true k.
Proof.
  intros Hp Hk Hs Hend Hn Hm He. unfold place in Hp. case_match; [done|]. destruct (choose _ _ _ _ _) as [k'|]; [|done].
  cbn in Hp. destruct (Z.eqb_spec (Memory_FindBlockAddress k' MEMORY_FIND_ADDRESS_ABOVE file_size 1 mmap n m) k') as [E|]; [|done].
  injection Hp as ->. pose proof Hk as [Hk0 Hk1].
  pose proof (FindBlockAddress_fits m mmap n k file_size 1 true Hk Hn Hm ltac:(lia) ltac:(lia) ltac:(intros _; lia) He) as Hf.
  change true with MEMORY_FIND_ADDRESS_ABOVE in Hf. cbv zeta in Hf. rewrite E in Hf. apply Hf. unfold MEMORY_32BIT_LIMIT. lia.
Qed.


(** ** An instance *)

(** A megabyte of free memory from [0x100000]; at [0x110000] a file of 64 bytes
    with a header that has it at [0x120000], with 16 bytes of BSS and the entry
    at [0x120040]. *)
Definition demo_words : list Z :=
  [MAGIC; 0; 56; (- (MAGIC + 56)) mod 4294967296;
   MULTIBOOT_HEADER_TAG_ADDRESS; 24; 0x120000; 0x120000; 0x120040; 0x120050;
   MULTIBOOT_HEADER_TAG_ENTRY_ADDRESS; 16; 0x120010; 0; 0x11111111; 0x22222222].
Definition demo_record : list Z :=
  [48; 0; MULTIBOOT_TAG_TYPE_RAM_INFO; 32; 16; 0; 0x100000; 0; 0x100000; 0; 0; 8].
Fixpoint store_words (m : Mem) (a : Z) (l : list Z) : Mem :=
  match l with [] => m | v :: l => store_words (store32 m a v) (a + 4) l end.
Definition demo_kernel : Mem :=
  let m := store_words (store_words ∅ 0x8000 demo_record) 0x110000 demo_words in
  store32 (store32 m 0x5024 0x110000) 0x5028 64.
Definition demo_tags : list htag := [HAddress 0x120000 0x120000 0x120040 0x120050; HEntry 0x120010].

Lemma demo_kernel_tags : header_tags demo_kernel 0x110000 0x110040 0x110010 demo_tags.
Proof.
  apply header_next; [by vm_compute|by vm_compute|by vm_compute|done|by vm_compute|].
  change (0x110010 ⊕ ht_size demo_kernel 0x110010) with 0x110028.
  apply header_entry; by vm_compute.
Qed.

