(* ===== verification/HandOff.v ===== *)
(** * The memory map from the boot loader to the kernel

    The boot loader puts the list of whole free pages in the information
    record; the kernel builds its page allocator from it. What the allocator
    has to give out are the whole pages of the memory that the firmware
    reported. *)

From Stdlib Require Import Sorted.
From S2P Require Import Prelude CMem Ports Elf Bios BootMem BootConsole Mbi MbiSpec RamMap E820 MemMaps.
From S2P Require Import Sync PhysMem PhysInv PhysMap.

(** ** The page-aligned list *)

(** Of two blocks, the second is beyond the end of the first, unless one is
    empty. *)
Definition before (b c : block) : Prop := b.2 = 0 \/ c.2 = 0 \/ stop b < c.1.
Definition pages (b : block) : Prop := (4096 | b.1) /\ (4096 | b.2) /\ 0 <= b.1 /\ 0 <= b.2 /\ stop b <= 18446744073709547520.

Lemma Forall_squeeze (P : block -> Prop) n R : (length R <= n)%nat -> Forall P R -> Forall P (squeeze R).
Proof.
  revert R. induction n as [|n IH]; intros [|b R] H Hf; cbn [length squeeze] in *; try constructor; try lia.
  inversion Hf as [|?? Hb HR]; subst. case_cmp; [|constructor; [done|by apply IH; [lia|]]].
  destruct R as [|c R]; [constructor|]. inversion HR; subst. cbn [length] in *. constructor; [done|]. apply IH; [lia|done].
Qed.

Lemma squeeze_sorted n R : (length R <= n)%nat -> StronglySorted before R -> StronglySorted before (squeeze R).
Proof.
  revert R. induction n as [|n IH]; intros [|b R] H Hs; cbn [length squeeze] in *; try constructor; try lia.
  inversion Hs as [|?? HR Hb]; subst. case_cmp.
  - destruct R as [|c R]; [constructor|]. inversion HR; subst. cbn [length] in *.
    constructor; [apply IH; [lia|done]|by eapply Forall_squeeze].
  - constructor; [apply IH; [lia|done]|by eapply Forall_squeeze].
Qed.

Lemma gapped_bases lo C : gapped lo C -> Forall (fun c => lo < c.1) C.
Proof.
  revert lo. induction C as [|c C IH]; intros lo; [constructor|]. intros (G1 & G2 & G3 & G4). constructor; [done|].
  eapply Forall_impl; [by apply (IH (stop c))|]. cbv beta. intros. lia.
Qed.

Lemma aligned_sorted lo C : gapped lo C -> StronglySorted before (map align_block C).
Proof.
  revert lo. induction C as [|c C IH]; intros lo; [constructor|]. intros (G1 & G2 & G3 & G4). cbn [map]. constructor; [by eapply IH|].
  apply Forall_map. eapply Forall_impl; [by apply gapped_bases|]. cbv beta. intros d Hd.
  unfold before, align_block, first_page, last_page. repeat case_cmp; cbn [fst snd]; try (by auto). right. right. zdiv.
Qed.

Lemma align_block_pages b : 0 <= b.1 -> 0 <= b.2 -> stop b <= 18446744073709547520 -> pages (align_block b).
Proof.
  intros. unfold pages, align_block. case_cmp; cbn [fst snd].
  - unfold first_page, last_page in *. conjs; try zdiv; [by apply Z.divide_factor_l|].
    rewrite <- Z.mul_sub_distr_l. apply Z.divide_factor_l.
  - conjs; try lia; apply Z.divide_0_r.
Qed.

Section List.
Variable R : list block.
Hypothesis Hord : ordered 0 R.

Lemma free_list_pages : Forall pages (free_list true R).
Proof.
  unfold free_list. eapply Forall_squeeze; [done|]. apply Forall_map.
  eapply Forall_impl; [by apply (coalesce_low 0)|]. cbv beta. intros b (?&?&?). by apply align_block_pages.
Qed.

Lemma free_list_sorted : StronglySorted before (free_list true R).
Proof. unfold free_list. eapply squeeze_sorted; [done|]. eapply aligned_sorted. by apply (all_gapped 0). Qed.

Lemma free_list_ok : Forall MemMaps.block_ok (free_list true R).
Proof. eapply Forall_impl; [apply free_list_pages|]. intros b (?&?&?&?&?). unfold MemMaps.block_ok. lia. Qed.
End List.

Lemma sorted_lookup (F : list block) i j b c :
  StronglySorted before F -> F !! i = Some b -> F !! j = Some c -> (i < j)%nat -> before b c.
Proof.
  intros Hs. revert i j. induction Hs as [|d F _ IH Hd]; intros i j Hi Hj Hij; [done|].
  destruct j as [|j]; [lia|]. destruct i as [|i]; cbn in *.
  - injection Hi as <-. by eapply Forall_lookup_1 in Hd.
  - apply (IH i j); done || lia.
Qed.

Lemma blocks_lookup n m p i : (i < n)%nat -> blocks n m p !! i = Some (entry m p (Z.of_nat i)).
Proof.
  revert p i. induction n as [|n IH]; intros p [|i] Hi; try lia; cbn [blocks lookup list_lookup].
  - unfold entry. by rewrite Z.mul_0_r, Z.add_0_r.
  - rewrite IH by lia. unfold entry. do 3 f_equal; lia.
Qed.

(** ** The kernel's walk over the record *)

Definition RAM_PAGES : Z := PhysMem.MULTIBOOT_TAG_TYPE_RAM_INFO_PAGE_ALIGNED.

Lemma round_tag_size t : tag_ok t -> tsize t + 7 < 4294967296 -> Z.land (tsize t ⊕ 7) (Z.lnot 7) = tsize t.
Proof.
  intros [_ [k Hk]] Hs. pose proof (tsize_pos t). rewrite wrap32_small by lia.
  change (Z.lnot 7) with (Z.lnot (2 ^ 3 - 1)). rewrite ldiff_ones_down by lia. change (2 ^ 3) with 8. zdiv.
Qed.

Lemma find_ram_info_skip fuel m p xs ys mmap n :
  seg m p xs -> Forall tag_ok xs -> has_tag xs RAM_PAGES = false -> 0 <= p ->
  p + total (xs ++ ys) + 8 < 4294967296 ->
  find_ram_info (length xs + fuel) m p mmap n = find_ram_info fuel m (p + total xs) mmap n.
Proof.
  revert p. induction xs as [|t xs IH]; intros p Hs Hok Hh Hp Hroom; [by rewrite Z.add_0_r|].
  destruct Hs as [(T1 & T2 & _) Hs]. inversion Hok as [|?? Ht Hok']; subst.
  cbn [has_tag existsb app total] in *. apply orb_false_iff in Hh as [Hty Hh].
  pose proof (tsize_pos t). pose proof (total_nonneg (xs ++ ys)). pose proof (total_nonneg xs).
  cbn [length Nat.add find_ram_info]. unfold tag_type, tag_size in *. rewrite T1, T2.
  unfold RAM_PAGES in Hty. rewrite Hty. destruct Ht as [Hne Hd]. rewrite (proj2 (Z.eqb_neq (tty t) 0)) by done.
  rewrite round_tag_size, wrap32_small by (done || lia). rewrite IH by (done || lia). f_equal. lia.
Qed.

(** The last list of free pages is the one found. *)
Lemma find_ram_info_record fuel m a xs F ys :
  mbi_at m a (xs ++ ram_tag RAM_PAGES F :: ys) -> has_tag xs RAM_PAGES = false -> has_tag ys RAM_PAGES = false ->
  (length xs + length ys + 2 <= fuel)%nat ->
  find_ram_info fuel m (a ⊕ 8) 0 0 = Some (mbi_end a xs + 16, Z.of_nat (length F)).
Proof.
  intros [H1 H2 H3 H4 H5 H6 H7 H8] Hx Hy Hf. unfold mbi_end in *. rewrite total_app in *. cbn [total] in *.
  apply seg_app in H7 as [Hsx [Ht Hsy]]. apply Forall_app in H4 as [Hox Ho]. inversion Ho as [|?? Hot Hoy]; subst.
  pose proof (total_nonneg xs). pose proof (total_nonneg ys). set (t := ram_tag RAM_PAGES F) in *. pose proof (tsize_pos t).
  assert (tsize t = 16 + 16 * Z.of_nat (length F)) as Hsz by (unfold t, ram_tag; by rewrite tsize_list, length_blocks_bytes).
  rewrite (wrap32_small (a + 8)) by lia. set (p := a + 8 + total xs) in *.
  replace fuel with (length xs + S (length ys + S (fuel - (length xs + length ys + 2))))%nat by lia.
  rewrite (find_ram_info_skip _ _ _ xs []) by (rewrite ?app_nil_r; done || lia). fold p. cbn [find_ram_info].
  pose proof (list_tag_fields _ _ _ _ _ Ht ltac:(lia)) as [E1 _]. destruct Ht as (T1 & T2 & _).
  unfold tag_type, tag_size in T1, T2. rewrite T1, T2, E1. cbn [tty t ram_tag list_tag].
  replace (RAM_PAGES =? 0) with false by done.
  replace (RAM_PAGES =? PhysMem.MULTIBOOT_TAG_TYPE_RAM_INFO_PAGE_ALIGNED) with true by done. cbn [Z.eqb].
  rewrite round_tag_size, (wrap32_small (p + tsize t)), (wrap32_small (p + 16)) by (done || lia).
  rewrite Hsz at 2. rewrite (wrap32_small (_ - 16)) by lia.
  replace ((16 + 16 * Z.of_nat (length F) - 16) / 16) with (Z.of_nat (length F)) by (apply Z.div_unique_exact; lia).
  rewrite (find_ram_info_skip _ _ _ ys []) by (rewrite ?app_nil_r; done || lia). cbn [find_ram_info].
  replace (p + tsize t + total ys) with (a + 8 + (total xs + (tsize t + total ys))) by lia. destruct H8 as [H8 _]. unfold tag_type in H8. by rewrite H8.
Qed.

(** The list itself. *)
Lemma record_blocks m a xs F ys :
  mbi_at m a (xs ++ ram_tag RAM_PAGES F :: ys) -> Forall MemMaps.block_ok F -> blocks (length F) m (mbi_end a xs + 16) = F.
Proof.
  intros Hm Hok. pose proof (mbi_seg _ _ _ Hm) as Hseg. apply seg_app in Hseg as [_ [Ht _]].
  apply list_tag_fields in Ht as [_ Hb]; [|lia]. rewrite length_blocks_bytes in Hb. by apply load_bytes_blocks.
Qed.

(** ** The allocator *)

(** The list of free pages does not cross the two ends of the memory the
    allocator manages. *)
Definition no_crossing (R : list block) (x : Z) : Prop := ~ (covered (x - 1) R /\ covered x R).

Lemma in_pages_covered lo R c x :
  ordered lo R -> c ∈ free_list true R -> in_block x c -> covered x R.
Proof.
  intros Ho Hc Hx. apply (free_list_covered true lo R x Ho); [|unfold same_page; zdiv].
  apply Exists_exists. eauto.
Qed.

Lemma no_crossing_page R c x :
  ordered 0 R -> no_crossing R x -> c ∈ free_list true R -> 0 < c.2 -> x <= c.1 \/ stop c <= x.
Proof.
  intros Ho Hx Hc Hp. destruct (Z.leb_spec x c.1); [by left|]. destruct (Z.leb_spec (stop c) x); [by right|].
  exfalso. apply Hx. split; eapply in_pages_covered; try done; unfold in_block; lia.
Qed.

Lemma good_list R m mmap :
  ordered 0 R -> no_crossing R 0x100000 -> no_crossing R 0x70000000 ->
  let F := free_list true R in
  blocks (length F) m mmap = F -> 0 <= mmap -> mmap + 16 * Z.of_nat (length F) <= K 0x100000 ->
  good_map m mmap (Z.of_nat (length F)) /\
  forall x, (exists i, 0 <= i < Z.of_nat (length F) /\ entry_byte (entry m mmap i) x) <->
    0x100000 <= x < 0x70000000 /\ forall y, same_page x y -> covered y R.
Proof.
  intros Ho H1 H2 F HF Hm Hhi.
  assert (forall i, 0 <= i < Z.of_nat (length F) -> F !! Z.to_nat i = Some (entry m mmap i)) as Hl.
  { intros i Hi. rewrite <- HF at 1. rewrite blocks_lookup by lia. by rewrite Z2Nat.id by lia. }
  assert (forall i, 0 <= i < Z.of_nat (length F) -> entry m mmap i ∈ F) as Hin.
  { intros i Hi. by eapply list_elem_of_lookup_2, Hl. }
  assert (forall i, 0 <= i < Z.of_nat (length F) -> pages (entry m mmap i)) as Hp.
  { intros i Hi. eapply Forall_lookup_1; [by apply free_list_pages|by apply Hl]. }
  assert (forall i, 0 <= i < Z.of_nat (length F) -> ~ ignored (entry m mmap i) ->
    0x100000 <= (entry m mmap i).1 /\ stop (entry m mmap i) <= 0x70000000) as Hig.
  { intros i Hi Hn. destruct (Hp i Hi) as (_ & _ & P1 & P2 & _). unfold ignored in Hn.
    pose proof (no_crossing_page R _ _ Ho H2 (Hin i Hi)). lia. }
  split; [split|].
  - unfold K in Hhi. lia.
  - intros i Hi. destruct (decide (ignored (entry m mmap i))) as [|Hn]; [by left|right].
    destruct (Hp i Hi) as (? & ? & _). conjs; try done. by apply Hig.
  - intros i j Hi Hj. pose proof (sorted_lookup F _ _ _ _ (free_list_sorted R Ho) (Hl i ltac:(lia)) (Hl j ltac:(lia)) ltac:(lia)) as [?|[?|?]].
    + left. by left.
    + right. left. by left.
    + by right; right.
  - intros i x Hi [Hn Hx]. pose proof (Hig i Hi Hn). unfold K in *. lia.
  - intros x. split.
    + intros (i & Hi & Hn & Hx). pose proof (Hig i Hi Hn). split; [lia|].
      apply (free_list_covered true 0 R x Ho). apply Exists_exists. exists (entry m mmap i). split; [by apply Hin|done].
    + intros [Hr Hx]. apply (free_list_covered true 0 R x Ho) in Hx. apply Exists_exists in Hx as (c & Hc & Hx).
      pose proof Hc as [i Hi]%list_elem_of_lookup_1. pose proof (lookup_lt_Some _ _ _ Hi) as Hlt. fold F in Hi, Hlt.
      exists (Z.of_nat i). split; [lia|]. pose proof (Hl (Z.of_nat i) ltac:(lia)) as He. rewrite Nat2Z.id, Hi in He.
      injection He as <-. split; [|done]. unfold in_block in Hx. intros Hig'. unfold ignored in Hig'.
      pose proof (no_crossing_page R _ _ Ho H1 Hc). pose proof (no_crossing_page R _ _ Ho H2 Hc). lia.
Qed.

(** The allocator that the kernel builds from a record whose list of free
    pages is that of [R]. *)
Lemma record_to_allocator fuel BootInfo s xs R ys :
  mbi_at (mem s) BootInfo (xs ++ ram_tag RAM_PAGES (free_list true R) :: ys) ->
  has_tag xs RAM_PAGES = false -> has_tag ys RAM_PAGES = false -> (length xs + length ys + 2 <= fuel)%nat ->
  mbi_end BootInfo (xs ++ ram_tag RAM_PAGES (free_list true R) :: ys) <= K 0x100000 ->
  ordered 0 R -> no_crossing R 0x100000 -> no_crossing R 0x70000000 -> free_list true R <> [] ->
  maps_sized s -> Page_lists s = replicate 11 PAGE_LIST_NULL ->
  exists s' F', Page_BuddyMaps_Initialize fuel BootInfo s = Some s' /\ phys_inv s' F' /\
    (forall x, free_byte F' x <-> 0x100000 <= x < 0x70000000 /\ forall y, same_page x y -> covered y R) /\
    flag (lock (Page_operation_lock s')) = false.
Proof.
  intros Hm Hx Hy Hf Hhi Ho H1 H2 Hne Hms Hpl. pose proof (find_ram_info_record _ _ _ _ _ _ Hm Hx Hy Hf) as Hfind.
  pose proof (record_blocks _ _ _ _ _ Hm (free_list_ok R Ho)) as Hb. set (F := free_list true R) in *.
  pose proof (mbi_low _ _ _ Hm). pose proof (total_nonneg xs). pose proof (total_nonneg ys).
  assert (0 < Z.of_nat (length F)) by (destruct F; [done|cbn; lia]).
  assert (tsize (ram_tag RAM_PAGES F) = 16 + 16 * Z.of_nat (length F)) as Hsz by (unfold ram_tag; by rewrite tsize_list, length_blocks_bytes).
  unfold mbi_end in Hhi. rewrite total_app in Hhi. cbn [total] in Hhi. rewrite Hsz in Hhi.
  destruct (good_list R (mem s) (mbi_end BootInfo xs + 16) Ho H1 H2 Hb) as [Hg Hbytes]; [unfold mbi_end; lia|unfold mbi_end; fold F; lia|].
  fold F in Hg, Hbytes.
  destruct (BuddyMaps_built fuel BootInfo s _ _ Hms Hpl Hfind) as (s' & F' & E & Hinv & Hfree & Hlk);
    [unfold mbi_end; lia|lia|done|].
  exists s', F'. conjs; try done. intros x. by rewrite Hfree.
Qed.


Lemma pc_map_no_crossing x : 0xA0001 <= x <= 0x100000 \/ 0x1100001 <= x -> no_crossing (ram (kept true pc_map)) x.
Proof.
  intros Hx [H _]. change (covered (x - 1) [(0, 0x9FC00); (0x9FC00, 0x400); (0x100000, 0x1000000)]) in H.
  unfold covered in H. rewrite !Exists_cons, Exists_nil in H. unfold in_block in H. cbn [fst snd] in H. lia.
Qed.

