(* ===== verification/Layout.v ===== *)
(** * How C lays its structures out in memory

    The headers under [src/] declare the structures that the boot loader, the
    firmware and the kernel exchange. A declaration is a value of [ctype];
    [sizeof], [alignof] and [flat] compute what the compiler does with it (the
    System V ABI of the i386, where an 8-byte integer is aligned to 4 bytes
    inside of structures; a packed structure has no padding). [read] and
    [write] move whole values between memory and the logic. *)

From Stdlib Require Import String.
From S2P Require Import Prelude CMem.

(** ** Types *)

(** A flexible array member has the length 0; the name of an anonymous member
    is empty. *)
Inductive ctype :=
  | CInt (bytes : nat)
  | CArray (elem : ctype) (len : nat)
  | CStruct (packed : bool) (ms : list (string * ctype))
  | CUnion (ms : list (string * ctype)).

Abbreviation uint8_t := (CInt 1).
Abbreviation uint16_t := (CInt 2).
Abbreviation uint32_t := (CInt 4).
Abbreviation uint64_t := (CInt 8).
Abbreviation char := (CInt 1).
(** A number below zero is kept as its two's complement. *)
Abbreviation int32_t := (CInt 4).
Abbreviation int := (CInt 4).
Abbreviation enum := (CInt 4).
Abbreviation size_t := (CInt 4).
Abbreviation pid_t := (CInt 4).
Abbreviation uintptr_t := (CInt 4).
Abbreviation pointer := (CInt 4).

Section Induction.
Context (P : ctype -> Prop) (Q : list (string * ctype) -> Prop).
Context (Hint : forall n, P (CInt n)) (Harray : forall t n, P t -> P (CArray t n))
  (Hstruct : forall p ms, Q ms -> P (CStruct p ms)) (Hunion : forall ms, Q ms -> P (CUnion ms))
  (Hnil : Q []) (Hcons : forall n t ms, P t -> Q ms -> Q ((n, t) :: ms)).

Fixpoint ctype_all (t : ctype) : P t :=
  let members := fix members (ms : list (string * ctype)) : Q ms :=
    match ms with
    | [] => Hnil
    | (n, t) :: ms => Hcons n t ms (ctype_all t) (members ms)
    end in
  match t with
  | CInt n => Hint n
  | CArray t n => Harray t n (ctype_all t)
  | CStruct p ms => Hstruct p ms (members ms)
  | CUnion ms => Hunion ms (members ms)
  end.
End Induction.

(** ** Sizes *)

Definition round_up (align x : Z) : Z := (x + align - 1) / align * align.

Fixpoint alignof (t : ctype) : Z :=
  match t with
  | CInt n => Z.max 1 (Z.min (Z.of_nat n) 4)
  | CArray t _ => alignof t
  | CStruct true _ => 1
  | CStruct false ms | CUnion ms => fold_right (fun m a => Z.max (alignof m.2) a) 1 ms
  end.

(** Where a member goes that comes after [off] bytes. *)
Definition place (packed : bool) (off : Z) (t : ctype) : Z :=
  round_up (if packed then 1 else alignof t) off.

Fixpoint sizeof (t : ctype) : Z :=
  match t with
  | CInt n => Z.of_nat n
  | CArray t n => sizeof t * Z.of_nat n
  | CStruct p ms =>
      round_up (alignof (CStruct p ms)) (fold_left (fun off m => place p off m.2 + sizeof m.2) ms 0)
  | CUnion ms => round_up (alignof (CUnion ms)) (fold_right (fun m x => Z.max (sizeof m.2) x) 0 ms)
  end.

(** The named members with their offsets; those of anonymous members count as
    members of what they are in. *)
Fixpoint flat (t : ctype) (base : Z) : list (string * (Z * ctype)) :=
  let named n o t := match n with EmptyString => flat t o | _ => [(n, (o, t))] end in
  match t with
  | CStruct p ms =>
      (fix go (off : Z) (ms : list (string * ctype)) :=
         match ms with
         | [] => []
         | (n, t) :: ms => let o := place p off t in named n (base + o) t ++ go (o + sizeof t) ms
         end) 0 ms
  | CUnion ms => flat_map (fun m => named m.1 base m.2) ms
  | _ => []
  end.

Fixpoint assoc {A} (name : string) (l : list (string * A)) : option A :=
  match l with
  | [] => None
  | (n, a) :: l => if String.eqb n name then Some a else assoc name l
  end.
Definition offsetof (t : ctype) (name : string) : option Z := fst <$> assoc name (flat t 0).

(** The value of an integer member, and of an element of an array member. *)
Definition member (t : ctype) (name : string) (m : Mem) (a : Z) : Z :=
  match assoc name (flat t 0) with
  | Some (o, CInt n) => load n m (a + o)
  | _ => 0
  end.
Definition element (t : ctype) (name : string) (i : Z) (m : Mem) (a : Z) : Z :=
  match assoc name (flat t 0) with
  | Some (o, CArray (CInt n) _) => load n m (a + o + Z.of_nat n * i)
  | _ => 0
  end.

(** Element [i] of an array of structures, and assignment to a member. *)
Definition at_index (t : ctype) (a i : Z) : Z := a + sizeof t * i.
Definition member_at (t : ctype) (name : string) (i : Z) (m : Mem) (a : Z) : Z :=
  member t name m (at_index t a i).
Definition set_member (t : ctype) (name : string) (a v : Z) (m : Mem) : Mem :=
  match assoc name (flat t 0) with
  | Some (o, CInt n) => store n m (a + o) v
  | _ => m
  end.

(** ** Values *)

Inductive cval := VInt (z : Z) | VSeq (vs : list cval).

(** A union is the bytes it consists of. *)
Fixpoint typed (t : ctype) (v : cval) : Prop :=
  match t, v with
  | CInt n, VInt z => 0 <= z < 2 ^ (8 * Z.of_nat n)
  | CArray t n, VSeq vs => length vs = n /\ Forall (typed t) vs
  | CStruct _ ms, VSeq vs =>
      (fix go (ms : list (string * ctype)) (vs : list cval) : Prop :=
         match ms, vs with
         | [], [] => True
         | (_, t) :: ms, v :: vs => typed t v /\ go ms vs
         | _, _ => False
         end) ms vs
  | CUnion ms, VSeq vs =>
      Z.of_nat (length vs) = sizeof (CUnion ms) /\
      Forall (fun v => match v with VInt z => 0 <= z < 256 | VSeq _ => False end) vs
  | _, _ => False
  end.

Fixpoint read_array (rd : Z -> cval) (size : Z) (n : nat) (a : Z) : list cval :=
  match n with
  | O => []
  | S n' => rd a :: read_array rd size n' (a + size)
  end.

Fixpoint read (t : ctype) (m : Mem) (a : Z) : cval :=
  match t with
  | CInt n => VInt (load n m a)
  | CArray t n => VSeq (read_array (read t m) (sizeof t) n a)
  | CStruct p ms =>
      VSeq ((fix go (off : Z) (ms : list (string * ctype)) : list cval :=
               match ms with
               | [] => []
               | (_, t) :: ms => let o := place p off t in read t m (a + o) :: go (o + sizeof t) ms
               end) 0 ms)
  | CUnion ms => VSeq (read_array (fun x => VInt (load 1 m x)) 1 (Z.to_nat (sizeof (CUnion ms))) a)
  end.

Fixpoint write_array (wr : cval -> Z -> Mem -> Mem) (size : Z) (vs : list cval) (a : Z) (m : Mem) : Mem :=
  match vs with
  | [] => m
  | v :: vs => write_array wr size vs (a + size) (wr v a m)
  end.

Fixpoint write (t : ctype) (v : cval) (a : Z) (m : Mem) : Mem :=
  match t, v with
  | CInt n, VInt z => store n m a z
  | CArray t _, VSeq vs => write_array (write t) (sizeof t) vs a m
  | CStruct p ms, VSeq vs =>
      (fix go (off : Z) (ms : list (string * ctype)) (vs : list cval) (m : Mem) : Mem :=
         match ms, vs with
         | (_, t) :: ms, v :: vs => let o := place p off t in go (o + sizeof t) ms vs (write t v (a + o) m)
         | _, _ => m
         end) 0 ms vs m
  | CUnion _, VSeq vs => write_array (fun v a m => match v with VInt z => store 1 m a z | VSeq _ => m end) 1 vs a m
  | _, _ => m
  end.

(** ** Members one after the other

    The parts of the functions above that walk over the members of a
    structure, with the offset [off] reached. *)

Fixpoint typed_members (ms : list (string * ctype)) (vs : list cval) : Prop :=
  match ms, vs with
  | [], [] => True
  | (_, t) :: ms, v :: vs => typed t v /\ typed_members ms vs
  | _, _ => False
  end.
Definition read_members (p : bool) (m : Mem) (a : Z) : Z -> list (string * ctype) -> list cval :=
  fix go (off : Z) (ms : list (string * ctype)) : list cval :=
    match ms with
    | [] => []
    | (_, t) :: ms => let o := place p off t in read t m (a + o) :: go (o + sizeof t) ms
    end.
Definition write_members (p : bool) (a : Z) : Z -> list (string * ctype) -> list cval -> Mem -> Mem :=
  fix go (off : Z) (ms : list (string * ctype)) (vs : list cval) (m : Mem) : Mem :=
    match ms, vs with
    | (_, t) :: ms, v :: vs => let o := place p off t in go (o + sizeof t) ms vs (write t v (a + o) m)
    | _, _ => m
    end.
Fixpoint members_end (p : bool) (off : Z) (ms : list (string * ctype)) : Z :=
  match ms with
  | [] => off
  | (_, t) :: ms => members_end p (place p off t + sizeof t) ms
  end.

Lemma typed_struct p ms vs : typed (CStruct p ms) (VSeq vs) = typed_members ms vs.
Proof. reflexivity. Qed.
Lemma read_struct p ms m a : read (CStruct p ms) m a = VSeq (read_members p m a 0 ms).
Proof. reflexivity. Qed.
Lemma write_struct p ms vs a m : write (CStruct p ms) (VSeq vs) a m = write_members p a 0 ms vs m.
Proof. reflexivity. Qed.
Lemma sizeof_struct p ms : sizeof (CStruct p ms) = round_up (alignof (CStruct p ms)) (members_end p 0 ms).
Proof.
  change (sizeof (CStruct p ms)) with
    (round_up (alignof (CStruct p ms)) (fold_left (fun off m => place p off m.2 + sizeof m.2) ms 0)).
  f_equal. generalize 0. induction ms as [|[n t] ms IH]; intros off; [done|]. apply IH.
Qed.

(** ** Sizes and alignments *)

Lemma round_up_le align x : 1 <= align -> x <= round_up align x.
Proof.
  intros. unfold round_up. pose proof (Z.mod_pos_bound (x + align - 1) align ltac:(lia)).
  pose proof (Z.div_mod (x + align - 1) align ltac:(lia)). lia.
Qed.

Lemma alignof_pos t : 1 <= alignof t.
Proof.
  apply (ctype_all (fun t => 1 <= alignof t) (fun ms => 1 <= fold_right (fun m a => Z.max (alignof m.2) a) 1 ms));
    clear t; cbn; try lia; intros.
  destruct p; lia.
Qed.

Lemma place_le p off t : off <= place p off t.
Proof. unfold place. apply round_up_le. destruct p; [lia|apply alignof_pos]. Qed.

Lemma sizeof_nonneg t : 0 <= sizeof t.
Proof.
  apply (ctype_all (fun t => 0 <= sizeof t)
    (fun ms => (forall p off, off <= members_end p off ms) /\ 0 <= fold_right (fun m x => Z.max (sizeof m.2) x) 0 ms)); clear t.
  - intros n. cbn. lia.
  - intros t n H. cbn. lia.
  - intros p ms [H _]. rewrite sizeof_struct. etransitivity; [apply (H p 0)|]. apply round_up_le, alignof_pos.
  - intros ms [_ H]. cbn [sizeof]. etransitivity; [exact H|]. apply round_up_le, alignof_pos.
  - done.
  - intros n t ms H [H1 H2]. split; [|cbn; lia]. intros p off. cbn [members_end].
    pose proof (place_le p off t). pose proof (H1 p (place p off t + sizeof t)). lia.
Qed.

Lemma members_end_le p off ms : off <= members_end p off ms.
Proof.
  revert off. induction ms as [|[n t] ms IH]; intros off; cbn [members_end]; [lia|].
  pose proof (place_le p off t). pose proof (sizeof_nonneg t). pose proof (IH (place p off t + sizeof t)). lia.
Qed.
Lemma members_end_sizeof p ms : members_end p 0 ms <= sizeof (CStruct p ms).
Proof. rewrite sizeof_struct. apply round_up_le, alignof_pos. Qed.

(** ** Reading depends on the bytes of the value alone *)

Definition same_bytes (m1 m2 : Mem) (a b : Z) : Prop := forall x, a <= x < b -> load8 m1 x = load8 m2 x.

Lemma read_array_ext rd1 rd2 size n a :
  0 <= size -> (forall k, (k < n)%nat -> rd1 (a + size * Z.of_nat k) = rd2 (a + size * Z.of_nat k)) ->
  read_array rd1 size n a = read_array rd2 size n a.
Proof.
  intros Hs. revert a. induction n as [|n IH]; intros a H; [done|]. cbn [read_array]. f_equal.
  - specialize (H 0%nat ltac:(lia)). by rewrite Z.mul_0_r, Z.add_0_r in H.
  - apply IH. intros k Hk. specialize (H (S k) ltac:(lia)).
    replace (a + size + size * Z.of_nat k) with (a + size * Z.of_nat (S k)) by lia. done.
Qed.

Lemma read_ext t m1 m2 a : same_bytes m1 m2 a (a + sizeof t) -> read t m1 a = read t m2 a.
Proof.
  revert t a. apply (ctype_all (fun t => forall a, same_bytes m1 m2 a (a + sizeof t) -> read t m1 a = read t m2 a)
    (fun ms => forall p a off, same_bytes m1 m2 (a + off) (a + members_end p off ms) ->
               read_members p m1 a off ms = read_members p m2 a off ms)).
  - intros n a H. cbn. f_equal. apply load_ext. intros i Hi. apply H. cbn. lia.
  - intros t n IH a H. cbn [read]. f_equal. pose proof (sizeof_nonneg t). apply read_array_ext; [done|].
    intros k Hk. apply IH. intros x Hx. apply H. cbn [sizeof]. nia.
  - intros p ms IH a H. rewrite !read_struct. f_equal. apply IH. intros x Hx. apply H.
    pose proof (members_end_sizeof p ms). lia.
  - intros ms _ a H. cbn [read]. f_equal. apply read_array_ext; [lia|]. intros k Hk. f_equal. apply load_ext.
    intros i Hi. apply H. lia.
  - done.
  - intros n t ms IHt IH p a off H. cbn [read_members members_end] in *.
    pose proof (place_le p off t). pose proof (sizeof_nonneg t).
    pose proof (members_end_le p (place p off t + sizeof t) ms). f_equal.
    + apply IHt. intros x Hx. apply H. lia.
    + apply IH. intros x Hx. apply H. lia.
Qed.

(** ** Writing changes the bytes of the value alone *)

Definition outside (a b x : Z) : Prop := 0 <= x < 4294967296 /\ (x < a \/ b <= x).

Lemma write_array_frame wr size vs a m x :
  0 <= size -> 0 <= a -> a + size * Z.of_nat (length vs) <= 4294967296 ->
  (forall v b m, In v vs -> 0 <= b -> b + size <= 4294967296 -> outside b (b + size) x -> load8 (wr v b m) x = load8 m x) ->
  outside a (a + size * Z.of_nat (length vs)) x -> load8 (write_array wr size vs a m) x = load8 m x.
Proof.
  intros Hs. revert a m. induction vs as [|v vs IH]; intros a m Ha Hb Hw Hx; [done|].
  cbn [write_array length] in *. rewrite IH.
  - apply Hw; [by left|done|nia|]. split; [apply Hx|]. destruct Hx as [_ Hx]. nia.
  - lia.
  - nia.
  - intros. apply Hw; [by right|done..].
  - split; [apply Hx|]. destruct Hx as [_ Hx]. nia.
Qed.

Lemma write_frame t v a m x :
  typed t v -> 0 <= a -> a + sizeof t <= 4294967296 -> outside a (a + sizeof t) x ->
  load8 (write t v a m) x = load8 m x.
Proof.
  revert t v a m. apply (ctype_all
    (fun t => forall v a m, typed t v -> 0 <= a -> a + sizeof t <= 4294967296 -> outside a (a + sizeof t) x ->
              load8 (write t v a m) x = load8 m x)
    (fun ms => forall p vs a off m, typed_members ms vs -> 0 <= a -> 0 <= off -> a + members_end p off ms <= 4294967296 ->
              outside (a + off) (a + members_end p off ms) x -> load8 (write_members p a off ms vs m) x = load8 m x)).
  - intros n [z|vs] a m Hv Ha Hb [Hx Ho]; [|done]. cbn [write sizeof] in *. apply load8_store_ne; lia.
  - intros t n IH [z|vs] a m Hv Ha Hb Hx; [done|]. destruct Hv as [Hn Hv]. subst n. cbn [write sizeof] in *.
    apply write_array_frame; try done; [apply sizeof_nonneg|]. intros v b m' Hin H1 H2 H3.
    apply IH; try done. rewrite List.Forall_forall in Hv. by apply Hv.
  - intros p ms IH [z|vs] a m Hv Ha Hb Hx; [done|]. rewrite typed_struct in Hv. rewrite write_struct.
    pose proof (members_end_sizeof p ms). apply IH; try done; [lia|]. destruct Hx as [Hx Ho]. split; [done|lia].
  - intros ms _ [z|vs] a m Hv Ha Hb Hx; [done|]. destruct Hv as [Hn Hv]. cbn [write]. rewrite <- Hn in Hb, Hx.
    rewrite <- (Z.mul_1_l (Z.of_nat (length vs))) in Hb, Hx. apply write_array_frame; [lia|done|done| |done].
    intros v b m' Hin H1 H2 [H3 H4]. rewrite List.Forall_forall in Hv. specialize (Hv v Hin). destruct v as [z|]; [|done].
    apply load8_store_ne; cbn; lia.
  - by intros p [|v vs].
  - intros n t ms IHt IH p [|v vs] a off m Hv Ha Ho Hb [Hx Hout]; [done|]. destruct Hv as [Hv Hvs].
    cbn [write_members members_end] in *. pose proof (place_le p off t). pose proof (sizeof_nonneg t).
    pose proof (members_end_le p (place p off t + sizeof t) ms).
    rewrite (IH p vs); [|done|done|lia|lia|split; [done|lia]].
    apply IHt; [done|lia|lia|split; [done|lia]].
Qed.

Lemma write_members_frame p ms vs a off m x :
  typed_members ms vs -> 0 <= a -> 0 <= off -> a + members_end p off ms <= 4294967296 ->
  outside (a + off) (a + members_end p off ms) x -> load8 (write_members p a off ms vs m) x = load8 m x.
Proof.
  revert vs off m. induction ms as [|[n t] ms IH]; intros [|v vs] off m Hv Ha Ho Hb [Hx Hout]; try done.
  destruct Hv as [Hv Hvs]. cbn [write_members members_end] in *. pose proof (place_le p off t). pose proof (sizeof_nonneg t).
  pose proof (members_end_le p (place p off t + sizeof t) ms).
  rewrite IH; [|done|done|lia|lia|split; [done|lia]]. apply write_frame; [done|lia|lia|split; [done|lia]].
Qed.

(** ** Round trip *)

Lemma array_roundtrip rd wr size vs a m :
  0 <= size -> 0 <= a -> a + size * Z.of_nat (length vs) <= 4294967296 ->
  (forall v b m, In v vs -> 0 <= b -> b + size <= 4294967296 -> rd (wr v b m) b = v) ->
  (forall b m1 m2, same_bytes m1 m2 b (b + size) -> rd m1 b = rd m2 b) ->
  (forall v b m x, In v vs -> 0 <= b -> b + size <= 4294967296 -> outside b (b + size) x -> load8 (wr v b m) x = load8 m x) ->
  read_array (rd (write_array wr size vs a m)) size (length vs) a = vs.
Proof.
  intros Hs. revert a m. induction vs as [|v vs IH]; intros a m Ha Hb Hw Hrd Hfr; [done|].
  cbn [write_array length read_array] in *. f_equal.
  - rewrite <- (Hw v a m ltac:(by left) Ha ltac:(nia)) at 2. apply Hrd. intros x Hx.
    apply write_array_frame; [done|lia|nia| |split; [nia|lia]].
    intros v' b m' Hin H1 H2 H3. apply Hfr; [by right|done..].
  - apply IH; [lia|nia|intros; apply Hw; [by right|done..]|done|intros; apply Hfr; [by right|done..]].
Qed.

Lemma write_read t v a m :
  typed t v -> 0 <= a -> a + sizeof t <= 4294967296 -> read t (write t v a m) a = v.
Proof.
  revert t v a m. apply (ctype_all
    (fun t => forall v a m, typed t v -> 0 <= a -> a + sizeof t <= 4294967296 -> read t (write t v a m) a = v)
    (fun ms => forall p vs a off m, typed_members ms vs -> 0 <= a -> 0 <= off -> a + members_end p off ms <= 4294967296 ->
              read_members p (write_members p a off ms vs m) a off ms = vs)).
  - intros n [z|vs] a m Hv Ha Hb; [|done]. cbn [read write sizeof typed] in *. f_equal.
    rewrite load_store_eq by lia. by apply Z.mod_small.
  - intros t n IH [z|vs] a m Hv Ha Hb; [done|]. destruct Hv as [Hn Hv]. subst n. cbn [read write sizeof] in *. f_equal.
    rewrite List.Forall_forall in Hv.
    apply (array_roundtrip (read t)); try done; [apply sizeof_nonneg|by intros; apply IH; [apply Hv|..]| |].
    + intros b m1 m2. apply read_ext.
    + intros v b m' x Hin H1 H2 H3. by apply write_frame; [apply Hv|..].
  - intros p ms IH [z|vs] a m Hv Ha Hb; [done|]. rewrite typed_struct in Hv. rewrite write_struct, read_struct. f_equal.
    pose proof (members_end_sizeof p ms). apply IH; [done|done|lia|lia].
  - intros ms _ [z|vs] a m Hv Ha Hb; [done|]. destruct Hv as [Hn Hv]. cbn [read write]. rewrite <- Hn in Hb |- *. f_equal.
    rewrite Nat2Z.id. rewrite List.Forall_forall in Hv.
    apply (array_roundtrip (fun m x => VInt (load 1 m x))); [lia|done|lia| | |].
    + intros v b m' Hin H1 H2. specialize (Hv v Hin). destruct v as [z|]; [|done]. f_equal.
      rewrite load_store_eq by lia. by apply Z.mod_small.
    + intros b m1 m2 H. f_equal. apply load_ext. intros i Hi. apply H. lia.
    + intros v b m' x Hin H1 H2 [H3 H4]. specialize (Hv v Hin). destruct v as [z|]; [|done]. apply load8_store_ne; cbn; lia.
  - by intros p [|v vs].
  - intros n t ms IHt IH p [|v vs] a off m Hv Ha Ho Hb; [done|]. destruct Hv as [Hv Hvs].
    cbn [write_members read_members members_end] in *. pose proof (place_le p off t). pose proof (sizeof_nonneg t).
    pose proof (members_end_le p (place p off t + sizeof t) ms). f_equal.
    + rewrite <- (IHt v (a + place p off t) m Hv ltac:(lia) ltac:(lia)) at 2. apply read_ext. intros x Hx.
      apply write_members_frame; [done|lia|lia|lia|split; [lia|lia]].
    + apply IH; [done|done|lia|lia].
Qed.

(** ** Whatever the memory holds, what is read has the type *)

Lemma read_array_typed (R : cval -> Prop) rd size n a :
  (forall x, R (rd x)) -> Forall R (read_array rd size n a) /\ length (read_array rd size n a) = n.
Proof. intros H. revert a. induction n as [|n IH]; intros a; cbn; [done|]. destruct (IH (a + size)). auto. Qed.

Lemma read_typed t m a : typed t (read t m a).
Proof.
  revert t a. apply (ctype_all (fun t => forall a, typed t (read t m a))
    (fun ms => forall p a off, typed_members ms (read_members p m a off ms))).
  - intros n a. apply load_range.
  - intros t n IH a. cbn [read typed]. destruct (read_array_typed (typed t) (read t m) (sizeof t) n a IH). auto.
  - intros p ms IH a. rewrite read_struct, typed_struct. apply IH.
  - intros ms _ a. cbn [read typed].
    destruct (read_array_typed (fun v => match v with VInt z => 0 <= z < 256 | VSeq _ => False end)
      (fun x => VInt (load 1 m x)) 1 (Z.to_nat (sizeof (CUnion ms))) a) as [H1 H2]; [intros x; apply (load_range 1)|].
    rewrite H2. pose proof (sizeof_nonneg (CUnion ms)). split; [lia|done].
  - done.
  - intros n t ms IHt IH p a off. cbn [typed_members read_members]. auto.
Qed.

(** ** Structures whose bytes all belong to a member *)

Fixpoint no_padding (t : ctype) : bool :=
  match t with
  | CInt _ => true
  | CArray t _ => no_padding t
  | CStruct _ ms =>
      (sizeof t =? fold_right (fun m x => sizeof m.2 + x) 0 ms) && forallb (fun m => no_padding m.2) ms
  | CUnion ms => forallb (fun m => no_padding m.2) ms
  end.
