(* ===== verification/KernelHeaders.v ===== *)
(** * What the headers of the kernel declare

    The structures and the tables of constants of the headers under
    [src/kernel], one definition each, with the names and the order of the
    source. [Timer] and [KProc] are left out: how an 8-byte atomic is aligned in
    a structure differs between versions of the compiler. *)

From Stdlib Require Import String.
From S2P Require Import Prelude CMem Layout.

#[local] Open Scope string_scope.

(** ** Object files: [src/kernel/core/abi/include/elf.h] *)

Definition Elf32_Half : ctype := uint16_t.
Definition Elf32_Off : ctype := uint32_t.
Definition Elf32_Addr : ctype := uint32_t.
Definition Elf32_Word : ctype := uint32_t.
Definition Elf32_Sword : ctype := int32_t.

Definition Elf32_Ehdr : ctype := CStruct false
  [("e_ident", CArray uint8_t 16); ("e_type", Elf32_Half); ("e_machine", Elf32_Half);
   ("e_version", Elf32_Word); ("e_entry", Elf32_Addr); ("e_phoff", Elf32_Off); ("e_shoff", Elf32_Off);
   ("e_flags", Elf32_Word); ("e_ehsize", Elf32_Half); ("e_phentsize", Elf32_Half); ("e_phnum", Elf32_Half);
   ("e_shentsize", Elf32_Half); ("e_shnum", Elf32_Half); ("e_shstrndx", Elf32_Half)].
Definition Elf32_Phdr : ctype := CStruct false
  [("p_type", Elf32_Word); ("p_offset", Elf32_Off); ("p_vaddr", Elf32_Addr); ("p_paddr", Elf32_Addr);
   ("p_filesz", Elf32_Word); ("p_memsz", Elf32_Word); ("p_flags", Elf32_Word); ("p_align", Elf32_Word)].
Definition Elf32_Shdr : ctype := CStruct false
  [("sh_name", Elf32_Word); ("sh_type", Elf32_Word); ("sh_flags", Elf32_Word); ("sh_addr", Elf32_Addr);
   ("sh_offset", Elf32_Off); ("sh_size", Elf32_Word); ("sh_link", Elf32_Word); ("sh_info", Elf32_Word);
   ("sh_addralign", Elf32_Word); ("sh_entsize", Elf32_Word)].
Definition Elf32_Sym : ctype := CStruct false
  [("st_name", Elf32_Word); ("st_value", Elf32_Addr); ("st_size", Elf32_Word); ("st_info", uint8_t);
   ("st_other", uint8_t); ("st_shndx", Elf32_Half)].
Definition Elf32_Rel : ctype := CStruct false [("r_offset", Elf32_Addr); ("r_info", Elf32_Word)].
Definition Elf32_Rela : ctype := CStruct false
  [("r_offset", Elf32_Addr); ("r_info", Elf32_Word); ("r_addend", Elf32_Sword)].

(** Values of [e_type]. *)
Definition ELF_TYPES : list (string * Z) :=
  [("ET_NONE", 0); ("ET_REL", 1); ("ET_EXEC", 2); ("ET_DYN", 3); ("ET_CORE", 4); ("ET_LOPROC", 65280);
   ("ET_HIPROC", 65535)].
(** Indexes into [e_ident]. *)
Definition ELF_IDENT_INDEXES : list (string * Z) :=
  [("EI_MAG0", 0); ("EI_MAG1", 1); ("EI_MAG2", 2); ("EI_MAG3", 3); ("EI_CLASS", 4); ("EI_DATA", 5);
   ("EI_VERSION", 6); ("EI_OSABI", 7); ("EI_ABIVERSION", 8); ("EI_PAD", 9); ("EI_NIDENT", 16)].
Definition ELF_MAGIC : list (string * Z) :=
  [("ELFMAG0", 127); ("ELFMAG1", 69); ("ELFMAG2", 76); ("ELFMAG3", 70)].
(** Values of [e_ident[EI_CLASS]]. *)
Definition ELF_CLASSES : list (string * Z) := [("ELFCLASSNONE", 0); ("ELFCLASS32", 1); ("ELFCLASS64", 2)].
(** Values of [e_ident[EI_DATA]]. *)
Definition ELF_DATA : list (string * Z) := [("ELFDATANONE", 0); ("ELFDATA2LSB", 1); ("ELFDATA2MSB", 2)].
(** Values of [e_machine]. *)
Definition ELF_MACHINES : list (string * Z) :=
  [("EM_NONE", 0); ("EM_M32", 1); ("EM_SPARC", 2); ("EM_386", 3); ("EM_68K", 4); ("EM_88K", 5); ("EM_860", 7);
   ("EM_MIPS", 8); ("EM_MIPS_RS4_BE", 10)].
Definition ELF_VERSIONS : list (string * Z) := [("EV_NONE", 0); ("EV_CURRENT", 1)].
(** Values of [p_type]. *)
Definition ELF_SEGMENT_TYPES : list (string * Z) :=
  [("PT_NULL", 0); ("PT_LOAD", 1); ("PT_DYNAMIC", 2); ("PT_INTERP", 3); ("PT_NOTE", 4); ("PT_SHLIB", 5);
   ("PT_PHDR", 6); ("PT_LOPROC", 1879048192); ("PT_HIPROC", 2147483647)].
Definition ELF_SEGMENT_FLAGS : list (string * Z) :=
  [("PF_X", 1); ("PF_W", 2); ("PF_R", 4); ("PF_MASKPROC", 4026531840)].
(** Special section indexes. *)
Definition ELF_SECTION_INDEXES : list (string * Z) :=
  [("SHN_UNDEF", 0); ("SHN_LORESERVE", 65280); ("SHN_LOPROC", 65280); ("SHN_HIPROC", 65311);
   ("SHN_ABS", 65521); ("SHN_COMMON", 65522); ("SHN_HIRESERVE", 65535)].
(** Values of [sh_type]. *)
Definition ELF_SECTION_TYPES : list (string * Z) :=
  [("SHT_NULL", 0); ("SHT_PROGBITS", 1); ("SHT_SYMTAB", 2); ("SHT_STRTAB", 3); ("SHT_RELA", 4);
   ("SHT_HASH", 5); ("SHT_DYNAMIC", 6); ("SHT_NOTE", 7); ("SHT_NOBITS", 8); ("SHT_REL", 9); ("SHT_SHLIB", 10);
   ("SHT_DYNSYM", 11); ("SHT_LOPROC", 1879048192); ("SHT_HIPROC", 2147483647); ("SHT_LOUSER", 2147483648);
   ("SHT_HIUSER", 4294967295)].
Definition ELF_SECTION_FLAGS : list (string * Z) :=
  [("SHF_WRITE", 1); ("SHF_ALLOC", 2); ("SHF_EXECINSTR", 4); ("SHF_MASKPROC", 4026531840)].
Definition ELF_SYMBOL_BINDINGS : list (string * Z) :=
  [("STB_LOCAL", 0); ("STB_GLOBAL", 1); ("STB_WEAK", 2); ("STB_LOPROC", 13); ("STB_HIPROC", 15)].
Definition ELF_SYMBOL_TYPES : list (string * Z) :=
  [("STT_NOTYPE", 0); ("STT_OBJECT", 1); ("STT_FUNC", 2); ("STT_SECTION", 3); ("STT_FILE", 4);
   ("STT_LOPROC", 13); ("STT_HIPROC", 15)].
Definition ELF_RELOCATIONS : list (string * Z) := [("R_386_NONE", 0); ("R_386_32", 1); ("R_386_PC32", 2)].

(** The macros for [st_info] and [r_info]; the conversion to [unsigned char]
    keeps the low byte, a word is 32 bits wide. *)
Definition ELF32_ST_BIND (i : Z) : Z := Z.shiftr i 4.
Definition ELF32_ST_TYPE (i : Z) : Z := Z.land i 0xf.
Definition ELF32_ST_INFO (b t : Z) : Z := Z.shiftl b 4 + Z.land t 0xf.
Definition ELF32_R_SYM (i : Z) : Z := Z.shiftr i 8.
Definition ELF32_R_TYPE (i : Z) : Z := i mod 256.
Definition ELF32_R_INFO (s t : Z) : Z := (Z.shiftl s 8 mod 4294967296 + t mod 256) mod 4294967296.

(** ** Boot information: [src/kernel/core/multiboot/include/multiboot.h] *)

(** Types of the tags of the boot information, after their alignment. *)
Definition MULTIBOOT_TAG_TYPES : list (string * Z) :=
  [("MULTIBOOT_TAG_TYPE_END", 0); ("MULTIBOOT_TAG_TYPE_CMDLINE", 1);
   ("MULTIBOOT_TAG_TYPE_BOOT_LOADER_NAME", 2); ("MULTIBOOT_TAG_TYPE_MODULE", 3);
   ("MULTIBOOT_TAG_TYPE_BASIC_MEMINFO", 4); ("MULTIBOOT_TAG_TYPE_BOOTDEV", 5); ("MULTIBOOT_TAG_TYPE_MMAP", 6);
   ("MULTIBOOT_TAG_TYPE_VBE", 7); ("MULTIBOOT_TAG_TYPE_FRAMEBUFFER", 8);
   ("MULTIBOOT_TAG_TYPE_ELF_SECTIONS", 9); ("MULTIBOOT_TAG_TYPE_APM", 10); ("MULTIBOOT_TAG_TYPE_EFI32", 11);
   ("MULTIBOOT_TAG_TYPE_EFI64", 12); ("MULTIBOOT_TAG_TYPE_SMBIOS", 13); ("MULTIBOOT_TAG_TYPE_ACPI_OLD", 14);
   ("MULTIBOOT_TAG_TYPE_ACPI_NEW", 15); ("MULTIBOOT_TAG_TYPE_NETWORK", 16);
   ("MULTIBOOT_TAG_TYPE_EFI_MMAP", 17); ("MULTIBOOT_TAG_TYPE_EFI_BS", 18); ("MULTIBOOT_TAG_TYPE_EFI32_IH", 19);
   ("MULTIBOOT_TAG_TYPE_EFI64_IH", 20); ("MULTIBOOT_TAG_TYPE_LOAD_BASE_ADDR", 21);
   ("MULTIBOOT_TAG_TYPE_RAM_INFO", 98); ("MULTIBOOT_TAG_TYPE_RAM_INFO_PAGE_ALIGNED", 99)].
(** Types of the tags of a kernel's header. *)
Definition MULTIBOOT_HEADER_TAGS : list (string * Z) :=
  [("MULTIBOOT_HEADER_TAG_END", 0); ("MULTIBOOT_HEADER_TAG_INFORMATION_REQUEST", 1);
   ("MULTIBOOT_HEADER_TAG_ADDRESS", 2); ("MULTIBOOT_HEADER_TAG_ENTRY_ADDRESS", 3);
   ("MULTIBOOT_HEADER_TAG_CONSOLE_FLAGS", 4); ("MULTIBOOT_HEADER_TAG_FRAMEBUFFER", 5);
   ("MULTIBOOT_HEADER_TAG_MODULE_ALIGN", 6); ("MULTIBOOT_HEADER_TAG_EFI_BS", 7);
   ("MULTIBOOT_HEADER_TAG_ENTRY_ADDRESS_EFI32", 8); ("MULTIBOOT_HEADER_TAG_ENTRY_ADDRESS_EFI64", 9);
   ("MULTIBOOT_HEADER_TAG_RELOCATABLE", 10)].
Definition MULTIBOOT_ARCHITECTURES : list (string * Z) :=
  [("MULTIBOOT_ARCHITECTURE_I386", 0); ("MULTIBOOT_ARCHITECTURE_MIPS32", 4)].
Definition MULTIBOOT_LOAD_PREFERENCES : list (string * Z) :=
  [("MULTIBOOT_LOAD_PREFERENCE_NONE", 0); ("MULTIBOOT_LOAD_PREFERENCE_LOW", 1);
   ("MULTIBOOT_LOAD_PREFERENCE_HIGH", 2)].
Definition MULTIBOOT_CONSOLE_FLAGS : list (string * Z) :=
  [("MULTIBOOT_CONSOLE_FLAGS_CONSOLE_REQUIRED", 1); ("MULTIBOOT_CONSOLE_FLAGS_EGA_TEXT_SUPPORTED", 2)].
Definition MULTIBOOT_MEMORY_TYPES : list (string * Z) :=
  [("MULTIBOOT_MEMORY_AVAILABLE", 1); ("MULTIBOOT_MEMORY_RESERVED", 2);
   ("MULTIBOOT_MEMORY_ACPI_RECLAIMABLE", 3); ("MULTIBOOT_MEMORY_NVS", 4); ("MULTIBOOT_MEMORY_BADRAM", 5)].
Definition MULTIBOOT_FRAMEBUFFER_TYPES : list (string * Z) :=
  [("MULTIBOOT_FRAMEBUFFER_TYPE_INDEXED", 0); ("MULTIBOOT_FRAMEBUFFER_TYPE_RGB", 1);
   ("MULTIBOOT_FRAMEBUFFER_TYPE_EGA_TEXT", 2)].

Definition Multiboot_E820_Entry : ctype := CStruct true
  [("base", uint64_t); ("size", uint64_t); ("type", uint32_t); ("acpi3", uint32_t)].
Definition Multiboot_RAMInfo_Entry : ctype := CStruct false [("address", uint64_t); ("size", uint64_t)].
Definition Multiboot_RSDPv1 : ctype := CStruct true
  [("signature", CArray char 8); ("checksum", uint8_t); ("oem_id", CArray char 6); ("revision", uint8_t);
   ("rsdt_address", uint32_t)].
Definition Multiboot_RSDPv2 : ctype := CStruct true
  [("signature", CArray char 8); ("checksum", uint8_t); ("oem_id", CArray char 6); ("revision", uint8_t);
   ("rsdt_address", uint32_t); ("length", uint32_t); ("xsdt_address", uint64_t);
   ("extended_checksum", uint8_t); ("reserved", CArray uint8_t 3)].
Definition Multiboot_SMBIOS_EntryPointTable : ctype := CStruct true
  [("entry_point_string", CArray char 4); ("checksum", uint8_t); ("length", uint8_t);
   ("major_version", uint8_t); ("minor_version", uint8_t); ("max_structure_size", uint16_t);
   ("entry_point_revision", uint8_t); ("formatted_area", CArray char 5);
   ("entry_point_string2", CArray char 2); ("checksum2", uint8_t); ("table_length", uint16_t);
   ("table_address", uint32_t); ("number_of_structures", uint16_t); ("revision_BCD", uint8_t)].
Definition Multiboot_APM_Interface : ctype := CStruct true
  [("version", uint16_t); ("cseg", uint16_t); ("offset", uint32_t); ("cseg_16", uint16_t); ("dseg", uint16_t);
   ("flags", uint16_t); ("cseg_len", uint16_t); ("cseg_16_len", uint16_t); ("dseg_len", uint16_t)].
Definition Multiboot_Header_Magic_Fields : ctype := CStruct true
  [("magic", uint32_t); ("architecture", uint32_t); ("header_length", uint32_t); ("checksum", uint32_t)].
Definition Multiboot_Header_Tag : ctype := CStruct true
  [("type", uint16_t); ("flags", uint16_t); ("size", uint32_t)].
Definition Multiboot_Header_Tag_Information : ctype := CStruct true
  [("type", uint16_t); ("flags", uint16_t); ("size", uint32_t); ("requests", CArray uint32_t 0)].
Definition Multiboot_Header_Tag_Address : ctype := CStruct true
  [("type", uint16_t); ("flags", uint16_t); ("size", uint32_t); ("header_addr", uint32_t);
   ("load_addr", uint32_t); ("load_end_addr", uint32_t); ("bss_end_addr", uint32_t)].
Definition Multiboot_Header_Tag_Entry_Address : ctype := CStruct true
  [("type", uint16_t); ("flags", uint16_t); ("size", uint32_t); ("entry_addr", uint32_t)].
Definition Multiboot_Header_Tag_Console : ctype := CStruct true
  [("type", uint16_t); ("flags", uint16_t); ("size", uint32_t); ("console_flags", uint32_t)].
Definition Multiboot_Header_Tag_Framebuffer : ctype := CStruct true
  [("type", uint16_t); ("flags", uint16_t); ("size", uint32_t); ("width", uint32_t); ("height", uint32_t);
   ("depth", uint32_t)].
Definition Multiboot_Header_Tag_Relocatable : ctype := CStruct true
  [("type", uint16_t); ("flags", uint16_t); ("size", uint32_t); ("min_addr", uint32_t); ("max_addr", uint32_t);
   ("align", uint32_t); ("preference", uint32_t)].
Definition Multiboot_Info_Start : ctype := CStruct true [("total_size", uint32_t); ("reserved", uint32_t)].
Definition Multiboot_Info_Tag : ctype := CStruct true [("type", uint32_t); ("size", uint32_t)].
Definition Multiboot_Info_Name : ctype := CStruct true
  [("type", uint32_t); ("size", uint32_t); ("string", CArray char 0)].
Definition Multiboot_Info_Command : ctype := CStruct true
  [("type", uint32_t); ("size", uint32_t); ("string", CArray char 0)].
Definition Multiboot_Info_Modules : ctype := CStruct true
  [("type", uint32_t); ("size", uint32_t); ("mod_start", uint32_t); ("mod_end", uint32_t);
   ("string", CArray char 0)].
Definition Multiboot_Info_Memory_Basic : ctype := CStruct true
  [("type", uint32_t); ("size", uint32_t); ("mem_lower", uint32_t); ("mem_upper", uint32_t)].
Definition Multiboot_Info_Memory_E820 : ctype := CStruct true
  [("type", uint32_t); ("size", uint32_t); ("entry_size", uint32_t); ("entry_version", uint32_t);
   ("entries", CArray Multiboot_E820_Entry 0)].
Definition Multiboot_Info_VBE : ctype := CStruct true
  [("type", uint32_t); ("size", uint32_t); ("vbe_mode", uint16_t); ("vbe_interface_seg", uint16_t);
   ("vbe_interface_off", uint16_t); ("vbe_interface_len", uint16_t); ("vbe_control_info", CArray uint8_t 512);
   ("vbe_mode_info", CArray uint8_t 256)].
Definition Multiboot_Info_Framebuffer_Common : ctype := CStruct true
  [("type", uint32_t); ("size", uint32_t); ("framebuffer_addr", uint64_t); ("framebuffer_pitch", uint32_t);
   ("framebuffer_width", uint32_t); ("framebuffer_height", uint32_t); ("framebuffer_bpp", uint8_t);
   ("framebuffer_type", uint8_t); ("reserved", uint16_t)].
Definition Multiboot_Info_Color : ctype := CStruct true
  [("red", uint8_t); ("green", uint8_t); ("blue", uint8_t)].
Definition Multiboot_Info_Framebuffer : ctype := CStruct true
  [("type", uint32_t); ("size", uint32_t); ("framebuffer_addr", uint64_t); ("framebuffer_pitch", uint32_t);
   ("framebuffer_width", uint32_t); ("framebuffer_height", uint32_t); ("framebuffer_bpp", uint8_t);
   ("framebuffer_type", uint8_t); ("reserved", uint16_t);
   ("", CUnion [("", CStruct false [("framebuffer_palette_num_colors", uint16_t);
      ("framebuffer_palette", CArray Multiboot_Info_Color 0)]);
      ("", CStruct false [("framebuffer_red_field_position", uint8_t);
      ("framebuffer_red_mask_size", uint8_t); ("framebuffer_green_field_position", uint8_t);
      ("framebuffer_green_mask_size", uint8_t); ("framebuffer_blue_field_position", uint8_t);
      ("framebuffer_blue_mask_size", uint8_t); ("framebuffer_padding", uint16_t)])])].
Definition Multiboot_Info_ELF_Sections : ctype := CStruct true
  [("type", uint32_t); ("size", uint32_t); ("num", uint16_t); ("entsize", uint16_t); ("shndx", uint16_t);
   ("reserved", uint16_t); ("sections", CArray Elf32_Shdr 0)].
Definition Multiboot_Info_APM : ctype := CStruct true
  [("type", uint32_t); ("size", uint32_t); ("apm_interface", Multiboot_APM_Interface); ("reserved1", uint16_t);
   ("reserved2", uint16_t)].
Definition Multiboot_Info_SMBIOS : ctype := CStruct true
  [("type", uint32_t); ("size", uint32_t); ("major", uint8_t); ("minor", uint8_t);
   ("reserved", CArray uint8_t 6); ("tables", CArray uint8_t 0)].
Definition Multiboot_Info_ACPIv1 : ctype := CStruct true
  [("type", uint32_t); ("size", uint32_t); ("rsdp", Multiboot_RSDPv1); ("reserved", uint32_t)].
Definition Multiboot_Info_ACPIv2 : ctype := CStruct true
  [("type", uint32_t); ("size", uint32_t); ("rsdp", Multiboot_RSDPv2); ("reserved", uint32_t)].
Definition Multiboot_Info_LoadBaseAddress : ctype := CStruct true
  [("type", uint32_t); ("size", uint32_t); ("load_base_addr", uint32_t); ("reserved", uint32_t)].
Definition Multiboot_Info_BootDevice : ctype := CStruct true
  [("type", uint32_t); ("size", uint32_t); ("biosdev", uint32_t); ("partition", uint32_t);
   ("sub_partition", uint32_t); ("reserved", uint32_t)].

(** ** ACPI tables: [src/kernel/arch/acpi/include/acpi.h] *)

Definition RSDPv1 : ctype := CStruct true
  [("signature", CArray char 8); ("checksum", uint8_t); ("oem_id", CArray char 6); ("revision", uint8_t);
   ("rsdt_address", uint32_t)].
Definition RSDPv2 : ctype := CStruct true
  [("signature", CArray char 8); ("checksum", uint8_t); ("oem_id", CArray char 6); ("revision", uint8_t);
   ("rsdt_address", uint32_t); ("length", uint32_t); ("xsdt_address", uint64_t);
   ("checksum_extended", uint8_t); ("reserved", CArray uint8_t 3)].
Definition SDTHeader : ctype := CStruct true
  [("signature", CArray char 4); ("length", uint32_t); ("revision", uint8_t); ("checksum", uint8_t);
   ("oem_id", CArray char 6); ("oem_table_id", CArray char 8); ("oem_revision", uint32_t);
   ("creator_id", uint32_t); ("creator_revision", uint32_t)].
Definition RSDT : ctype := CStruct true [("header", SDTHeader); ("entry", CArray uint32_t 0)].
Definition XSDT : ctype := CStruct true [("header", SDTHeader); ("entry", CArray uint64_t 0)].

(** ** The table of interrupt controllers: [src/kernel/arch/acpi/include/madt.h] *)

Definition MADT_ENTRY_TYPES : list (string * Z) :=
  [("MADT_ENTRY_PROC_LAPIC", 0); ("MADT_ENTRY_IOAPIC", 1); ("MADT_ENTRY_ISO", 2); ("MADT_ENTRY_NMI", 4);
   ("MADT_ENTRY_LAPIC_ADDR", 5)].

Definition MADT_Entry : ctype := CStruct true
  [("type", uint8_t); ("length", uint8_t); ("contents", CArray uint8_t 0)].
Definition MADT_Entry_LocalAPIC : ctype := CStruct true
  [("type", uint8_t); ("length", uint8_t); ("acpi_proc_id", uint8_t); ("apic_id", uint8_t);
   ("flags", uint8_t)].
Definition MADT_Entry_IOAPIC : ctype := CStruct true
  [("type", uint8_t); ("length", uint8_t); ("ioapic_id", uint8_t); ("reserved", uint8_t);
   ("ioapic_address", uint32_t); ("global_system_intr_base", uint32_t)].
Definition MADT_Entry_IntrSrcOverride : ctype := CStruct true
  [("type", uint8_t); ("length", uint8_t); ("bus_source", uint8_t); ("irq_source", uint8_t);
   ("global_sys_intr", uint32_t); ("flags", uint16_t)].
Definition MADT_Entry_NMISource : ctype := CStruct true
  [("type", uint8_t); ("length", uint8_t); ("flags", uint16_t); ("global_sys_intr", uint32_t)].
Definition MADT_Entry_NMI : ctype := CStruct true
  [("type", uint8_t); ("length", uint8_t); ("acpi_proc_id", uint8_t); ("flags", uint16_t);
   ("LINT_num", uint8_t)].
Definition MADT_Entry_LocalAPICAddrOverride : ctype := CStruct true
  [("type", uint8_t); ("length", uint8_t); ("reserved", uint16_t); ("local_apic_phys_addr", uint64_t)].
Definition MADT : ctype := CStruct true
  [("header", SDTHeader); ("local_apic_address", uint32_t); ("flags", uint32_t);
   ("entries", CArray MADT_Entry 0)].

(** ** Segment descriptors: [src/kernel/arch/processor/include/gdt.h] *)

Definition GDT_FLAGS : list (string * Z) := [("GDT_FLAGS_PMODE32", 4); ("GDT_FLAGS_4GB", 8)].
Definition GDT_ACCESS : list (string * Z) :=
  [("GDT_FLAGS_ACCESSED", 1); ("GDT_FLAGS_READWRITE", 2); ("GDT_FLAGS_DIRCONFORMING", 4);
   ("GDT_FLAGS_EXECUTABLE", 8); ("GDT_FLAGS_CODEORDATA", 16); ("GDT_FLAGS_PRIV_RING0", 0);
   ("GDT_FLAGS_PRIV_RING1", 32); ("GDT_FLAGS_PRIV_RING2", 64); ("GDT_FLAGS_PRIV_RING3", 96);
   ("GDT_FLAGS_PRESENT", 128)].
Definition GDT_ENTRIES : list (string * Z) :=
  [("GDT_ENTRY_NULL", 0); ("GDT_ENTRY_KERN_CODE", 1); ("GDT_ENTRY_KERN_DATA", 2); ("GDT_ENTRY_USER_CODE", 3);
   ("GDT_ENTRY_USER_DATA", 4); ("GDT_ENTRY_TSS", 5)].
Definition GDT_SELECTORS : list (string * Z) :=
  [("GDT_SEG_NULL", 0); ("GDT_SEG_KERN_CODE", 8); ("GDT_SEG_KERN_DATA", 16); ("GDT_SEG_USER_CODE", 24);
   ("GDT_SEG_USER_DATA", 32); ("GDT_SEG_TSS", 40)].
Definition GDT_RPL : list (string * Z) := [("GDT_RPL0", 0); ("GDT_RPL1", 1); ("GDT_RPL2", 2); ("GDT_RPL3", 3)].

Definition GDT_Entry : ctype := CStruct true
  [("limit_low", uint16_t); ("base_low", uint16_t); ("base_middle", uint8_t); ("access", uint8_t);
   ("limit_flags", uint8_t); ("base_high", uint8_t)].
Definition GDT_Descriptor : ctype := CStruct true [("limit", uint16_t); ("base", uintptr_t)].
Definition TSS : ctype := CStruct true
  [("previous_task_link", uint16_t); ("reserved0", uint16_t); ("esp0", uint32_t); ("ss0", uint16_t);
   ("reserved1", uint16_t); ("esp1", uint32_t); ("ss1", uint16_t); ("reserved2", uint16_t); ("esp2", uint32_t);
   ("ss2", uint16_t); ("reserved3", uint16_t); ("cr3", uint32_t); ("eip", uint32_t); ("eflags", uint32_t);
   ("eax", uint32_t); ("ecx", uint32_t); ("edx", uint32_t); ("ebx", uint32_t); ("esp", uint32_t);
   ("ebp", uint32_t); ("esi", uint32_t); ("edi", uint32_t); ("es", uint16_t); ("reserved4", uint16_t);
   ("cs", uint16_t); ("reserved5", uint16_t); ("ss", uint16_t); ("reserved6", uint16_t); ("ds", uint16_t);
   ("reserved7", uint16_t); ("fs", uint16_t); ("reserved8", uint16_t); ("gs", uint16_t);
   ("reserved9", uint16_t); ("ldt_seg_selector", uint16_t); ("reserved10", uint16_t); ("reserved11", uint16_t);
   ("iomap_base_address", uint16_t)].

(** ** Interrupt descriptors: [src/kernel/arch/processor/include/idt.h] *)

Definition IDT_FLAGS : list (string * Z) :=
  [("IDT_FLAGS_PRESENT", 128); ("IDT_FLAGS_DPL0", 0); ("IDT_FLAGS_DPL1", 32); ("IDT_FLAGS_DPL2", 64);
   ("IDT_FLAGS_DPL3", 96)].
Definition IDT_TYPES : list (string * Z) :=
  [("IDT_TYPE_TASK", 5); ("IDT_TYPE_INTR16", 6); ("IDT_TYPE_TRAP16", 7); ("IDT_TYPE_INTR32", 14);
   ("IDT_TYPE_TRAP32", 15)].

Definition IDT_Entry : ctype := CStruct true
  [("addr_low", uint16_t); ("segment", uint16_t); ("zero", uint8_t); ("type_attr", uint8_t);
   ("addr_high", uint16_t)].
Definition IDT_Descriptor : ctype := CStruct true [("limit", uint16_t); ("base", uintptr_t)].

(** ** Stacks: [src/kernel/core/taskmaster/include/stack.h] *)

Definition Stack : ctype := CStruct true
  [("base", pointer); ("ptr", pointer); ("size", size_t); ("flags", int32_t)].

(** ** Saved registers: [src/kernel/arch/tasking/include/context.h] *)

Definition KContext : ctype := CStruct true
  [("cr3", pointer); ("edi", uint32_t); ("esi", uint32_t); ("ebx", uint32_t); ("ebp", uint32_t);
   ("eip", uintptr_t)].
Definition IContext : ctype := CStruct true
  [("edi", uint32_t); ("esi", uint32_t); ("ebp", uint32_t); ("oesp", uint32_t); ("ebx", uint32_t);
   ("edx", uint32_t); ("ecx", uint32_t); ("eax", uint32_t); ("gs", uint16_t); ("padding1", uint16_t);
   ("fs", uint16_t); ("padding2", uint16_t); ("es", uint16_t); ("padding3", uint16_t); ("ds", uint16_t);
   ("padding4", uint16_t); ("vector", uint32_t); ("err", uint32_t); ("eip", uint32_t); ("cs", uint16_t);
   ("padding5", uint16_t); ("eflags", uint32_t); ("esp", uint32_t); ("ss", uint16_t); ("padding6", uint16_t)].
Definition UContext : ctype := CStruct true
  [("context", IContext); ("link", pointer); ("mask", uint32_t); ("stack", Stack)].

(** ** Processors: [src/kernel/arch/tasking/include/cpu.h] *)

Definition CPU : ctype := CStruct true
  [("apic_id", uint32_t); ("acpi_id", uint32_t); ("task_state", TSS); ("gdt", CArray GDT_Entry 6);
   ("gdt_desc", GDT_Descriptor); ("idt", CArray IDT_Entry 256); ("idt_desc", IDT_Descriptor)].

(** ** State of a thread of the kernel: [src/kernel/core/taskmaster/include/state.h] *)

Definition State : ctype := CStruct true
  [("preemption_vetos", size_t); ("interrupt_priority", uint8_t); ("process", pointer);
   ("kernel_task", pointer)].

(** ** Processes: [src/kernel/core/taskmaster/include/process.h] *)

Definition Process : ctype := CStruct true
  [("id", pid_t); ("user", uint32_t); ("parent", pointer); ("child", pointer); ("sibling", pointer);
   ("num_children", size_t); ("status", enum); ("exit_code", int); ("endpoint", uintptr_t);
   ("kernel_stack", Stack); ("task_context", pointer); ("intr_context", pointer); ("wakeup_on", pointer);
   ("start_time", uint64_t); ("run_time", size_t)].

(** ** Registers of an I/O APIC: [src/kernel/arch/apic/include/ioapic.h] *)

Definition IOAPIC_RW : ctype := CStruct false
  [("reg", uint32_t); ("padding", CArray uint32_t 3); ("data", uint32_t)].

(** ** Registers of a local APIC: [src/kernel/arch/apic/include/lapic.h] *)

(** Indexes into the registers, which are 32-bit words. *)
Definition LAPIC_REGISTERS : list (string * Z) :=
  [("LAPIC_REG_ID", 8); ("LAPIC_REG_VERSION", 12); ("LAPIC_REG_TPR", 32); ("LAPIC_REG_APR", 36);
   ("LAPIC_REG_PPR", 40); ("LAPIC_REG_EOI", 44); ("LAPIC_REG_RRD", 48); ("LAPIC_REG_LDR", 52);
   ("LAPIC_REG_DFR", 56); ("LAPIC_REG_SIVR", 60); ("LAPIC_REG_ESR", 160); ("LAPIC_REG_CMCI", 188);
   ("LAPIC_REG_ICRLO", 192); ("LAPIC_REG_ICRHI", 196); ("LAPIC_REG_TIMER", 200); ("LAPIC_REG_TSR", 204);
   ("LAPIC_REG_PCMR", 208); ("LAPIC_REG_LINT0", 212); ("LAPIC_REG_LINT1", 216); ("LAPIC_REG_ERROR", 220);
   ("LAPIC_REG_TICR", 224); ("LAPIC_REG_TCCR", 228); ("LAPIC_REG_TDCR", 248)].
(** An entry of the local vector table: the masks of its fields, and the values the fields take. *)
Definition LAPIC_LVT : list (string * Z) :=
  [("LAPIC_LVT_INTR_VECTOR", 255); ("LAPIC_LVT_DELIVERY_MODE", 1792); ("LAPIC_LVT_DELIVERY_FIXED", 0);
   ("LAPIC_LVT_DELIVERY_SMI", 512); ("LAPIC_LVT_DELIVERY_NMI", 1024); ("LAPIC_LVT_DELIVERY_INIT", 1280);
   ("LAPIC_LVT_DELIVERY_EXTINT", 1792); ("LAPIC_LVT_DELIVERY_STATUS", 4096); ("LAPIC_LVT_DELIVERY_IDLE", 0);
   ("LAPIC_LVT_DELIVERY_PENDING", 4096); ("LAPIC_LVT_PIN_POLARITY", 8192); ("LAPIC_LVT_REMOTE_IRR", 16384);
   ("LAPIC_LVT_TRIGGER_MODE", 32768); ("LAPIC_LVT_MASKED", 65536); ("LAPIC_LVT_TIMER_MODE", 393216);
   ("LAPIC_LVT_TIMER_MODE_1SHOT", 0); ("LAPIC_LVT_TIMER_MODE_PERIODIC", 131072);
   ("LAPIC_LVT_TIMER_MODE_TSC", 262144)].
Definition LAPIC_TDCR : list (string * Z) :=
  [("LAPIC_TDCR_DIVIDE_BY_2", 0); ("LAPIC_TDCR_DIVIDE_BY_4", 1); ("LAPIC_TDCR_DIVIDE_BY_8", 2);
   ("LAPIC_TDCR_DIVIDE_BY_16", 3); ("LAPIC_TDCR_DIVIDE_BY_32", 4); ("LAPIC_TDCR_DIVIDE_BY_64", 5);
   ("LAPIC_TDCR_DIVIDE_BY_128", 6); ("LAPIC_TDCR_DIVIDE_BY_1", 7)].
(** The interrupt command register. *)
Definition LAPIC_ICR : list (string * Z) :=
  [("LAPIC_ICR_INTR_VECTOR", 255); ("LAPIC_ICR_DELIVERY_MODE", 1792); ("LAPIC_ICR_DELIVERY_FIXED", 0);
   ("LAPIC_ICR_DELIVERY_LOWPRIO", 256); ("LAPIC_ICR_DELIVERY_SMI", 512); ("LAPIC_ICR_DELIVERY_NMI", 1024);
   ("LAPIC_ICR_DELIVERY_INIT", 1280); ("LAPIC_ICR_DELIVERY_STARTUP", 1536);
   ("LAPIC_ICR_DELIVERY_STATUS", 4096); ("LAPIC_ICR_DELIVERY_IDLE", 0); ("LAPIC_ICR_DELIVERY_PENDING", 4096);
   ("LAPIC_ICR_DEST_MODE", 2048); ("LAPIC_ICR_LEVEL", 16384); ("LAPIC_ICR_LEVEL_DEASSERT", 0);
   ("LAPIC_ICR_LEVEL_ASSERT", 16384); ("LAPIC_ICR_TRIGGER_MODE", 32768); ("LAPIC_ICR_TRIGGER_EDGE", 0);
   ("LAPIC_ICR_TRIGGER_LEVEL", 32768); ("LAPIC_ICR_DEST_SHORT", 393216); ("LAPIC_ICR_DEST_NOSHORT", 0);
   ("LAPIC_ICR_DEST_SELF", 262144); ("LAPIC_ICR_DEST_ALLSELF", 524288); ("LAPIC_ICR_DEST_ALLNOSELF", 786432)].
Definition LAPIC_SIVR : list (string * Z) :=
  [("LAPIC_SIVR_INTR_VECTOR", 255); ("LAPIC_SIVR_INTR_SPURIOUS", 255); ("LAPIC_SIVR_SOFT_ENABLE", 256)].

(** ** Ports and commands of the 8259: [src/kernel/arch/apic/include/pic.h] *)

Definition PIC_PORTS : list (string * Z) :=
  [("PIC_IOPORT_COMD1", 32); ("PIC_IOPORT_DATA1", 33); ("PIC_IOPORT_COMD2", 160); ("PIC_IOPORT_DATA2", 161)].
Definition PIC_ICW1 : list (string * Z) :=
  [("PIC_ICW1_NEED_ICW4", 1); ("PIC_ICW1_SINGLE", 2); ("PIC_ICW1_CALL4", 4); ("PIC_ICW1_LEVEL", 8);
   ("PIC_ICW1_INIT", 16)].
Definition PIC_ICW4 : list (string * Z) :=
  [("PIC_ICW4_8086", 1); ("PIC_ICW4_AUTO_EOI", 2); ("PIC_ICW4_BUF_SLAVE", 8); ("PIC_ICW4_BUF_MASTER", 12);
   ("PIC_ICW4_SFNM", 16)].

(** ** Control registers: [src/kernel/arch/processor/include/controlregs.h] *)

Definition CR0_BITS : list (string * Z) :=
  [("CR0_PE", 1); ("CR0_MP", 2); ("CR0_EM", 4); ("CR0_TS", 8); ("CR0_ET", 16); ("CR0_NE", 32);
   ("CR0_WP", 65536); ("CR0_AM", 262144); ("CR0_NW", 536870912); ("CR0_CD", 1073741824);
   ("CR0_PG", 2147483648)].
Definition CR4_BITS : list (string * Z) :=
  [("CR4_VME", 1); ("CR4_PVI", 2); ("CR4_TSD", 4); ("CR4_DE", 8); ("CR4_PSE", 16); ("CR4_PAE", 32);
   ("CR4_MCE", 64); ("CR4_PGE", 128); ("CR4_PCE", 256); ("CR4_OSFXSR", 512); ("CR4_OSXMMEXCPT", 1024);
   ("CR4_UMIP", 2048); ("CR4_LA57", 4096); ("CR4_VMXE", 8192); ("CR4_SMXE", 16384); ("CR4_FSGSBASE", 65536);
   ("CR4_PCIDE", 131072); ("CR4_OSXSAVE", 262144); ("CR4_SMEP", 1048576); ("CR4_SMAP", 2097152);
   ("CR4_PKE", 4194304)].

(** ** Flags of the processor: [src/kernel/arch/processor/include/flags.h] *)

Definition EFLAGS_BITS : list (string * Z) :=
  [("EFLAGS_CF", 1); ("EFLAGS_PF", 4); ("EFLAGS_AF", 16); ("EFLAGS_ZF", 64); ("EFLAGS_SF", 128);
   ("EFLAGS_TF", 256); ("EFLAGS_IF", 512); ("EFLAGS_DF", 1024); ("EFLAGS_OF", 2048); ("EFLAGS_IOPL", 12288);
   ("EFLAGS_NT", 16384); ("EFLAGS_RF", 65536); ("EFLAGS_VM", 131072); ("EFLAGS_AC", 262144);
   ("EFLAGS_VIF", 524288); ("EFLAGS_VIP", 1048576); ("EFLAGS_ID", 2097152)].

(** ** Commands of the interval timer: [src/kernel/devices/pit/include/pit.h] *)

Definition PIT_PORTS : list (string * Z) :=
  [("PIT_IOPORT_CHAN0", 64); ("PIT_IOPORT_CHAN1", 65); ("PIT_IOPORT_CHAN2", 66); ("PIT_IOPORT_COMD", 67)].
Definition PIT_CHANNELS : list (string * Z) :=
  [("PIT_CHANNEL_0", 0); ("PIT_CHANNEL_1", 64); ("PIT_CHANNEL_2", 128)].
Definition PIT_ACCESS : list (string * Z) :=
  [("PIT_ACCESS_LATCH", 0); ("PIT_ACCESS_LOBYTE", 16); ("PIT_ACCESS_HIBYTE", 32); ("PIT_ACCESS_LOHIBYTE", 48)].
Definition PIT_OPERMODE : list (string * Z) :=
  [("PIT_OPERMODE_INT_TERM_COUNT", 0); ("PIT_OPERMODE_HARD_RETRIG_ONESHOT", 2);
   ("PIT_OPERMODE_RATE_GENERATOR", 4); ("PIT_OPERMODE_SQWAVE_GENERATOR", 6);
   ("PIT_OPERMODE_SOFT_TRIG_STROBE", 8); ("PIT_OPERMODE_HARD_TRIG_STROBE", 10)].
Definition PIT_COUNTMODE : list (string * Z) := [("PIT_COUNTMODE_BIN", 0); ("PIT_COUNTMODE_BCD", 1)].

(** ** Colours of the console: [src/kernel/devices/console/include/console.h] *)

Definition CONSOLE_COLORS : list (string * Z) :=
  [("CONSOLE_COLOR_BLACK", 0); ("CONSOLE_COLOR_BLUE", 1); ("CONSOLE_COLOR_GREEN", 2);
   ("CONSOLE_COLOR_CYAN", 3); ("CONSOLE_COLOR_RED", 4); ("CONSOLE_COLOR_MAGENTA", 5);
   ("CONSOLE_COLOR_BROWN", 6); ("CONSOLE_COLOR_LIGHT_GREY", 7); ("CONSOLE_COLOR_DARK_GREY", 8);
   ("CONSOLE_COLOR_LIGHT_BLUE", 9); ("CONSOLE_COLOR_LIGHT_GREEN", 10); ("CONSOLE_COLOR_LIGHT_CYAN", 11);
   ("CONSOLE_COLOR_ORANGE", 12); ("CONSOLE_COLOR_PINK", 13); ("CONSOLE_COLOR_LIGHT_BROWN", 14);
   ("CONSOLE_COLOR_WHITE", 15)].
