(* ===== verification/BootHeaders.v ===== *)
(** * What the headers of the boot loader declare

    The structures and the tables of constants of the headers under
    [src/bootloader], one definition each, with the names and the order of the
    source. *)

From Stdlib Require Import String.
From S2P Require Import Prelude CMem Layout.

#[local] Open Scope string_scope.

(** ** Object files: [src/bootloader/multiboot/include/elf.h] *)

Definition Elf32_Half : ctype := uint16_t.
Definition Elf32_Off : ctype := uint32_t.
Definition Elf32_Addr : ctype := uint32_t.
Definition Elf32_Word : ctype := uint32_t.
Definition Elf32_Sword : ctype := int32_t.

Definition Elf32_Ehdr : ctype := CStruct false
  [("e_ident", CArray uint8_t 16); ("e_type", Elf32_Half); ("e_machine", Elf32_Half);
   ("e_version", Elf32_Word); ("e_entry", Elf32_Addr); ("e_phoff", Elf32_Off); ("e_shoff", Elf32_Off);
   ("e_flags", Elf32_Word); ("e_ehsize", Elf32_Half); ("e_phentsize", Elf32_Half); ("e_phnum", Elf32_Half);
   ("e_shentsize", Elf32_Half); ("e_shnum", Elf32_Half); ("e_shstrndx", Elf32_Half)].
Definition Elf32_Phdr : ctype := CStruct false
  [("p_type", Elf32_Word); ("p_offset", Elf32_Off); ("p_vaddr", Elf32_Addr); ("p_paddr", Elf32_Addr);
   ("p_filesz", Elf32_Word); ("p_memsz", Elf32_Word); ("p_flags", Elf32_Word); ("p_align", Elf32_Word)].
Definition Elf32_Shdr : ctype := CStruct false
  [("sh_name", Elf32_Word); ("sh_type", Elf32_Word); ("sh_flags", Elf32_Word); ("sh_addr", Elf32_Addr);
   ("sh_offset", Elf32_Off); ("sh_size", Elf32_Word); ("sh_link", Elf32_Word); ("sh_info", Elf32_Word);
   ("sh_addralign", Elf32_Word); ("sh_entsize", Elf32_Word)].

(** Values of [e_type]. *)
Definition ELF_TYPES : list (string * Z) :=
  [("ET_NONE", 0); ("ET_REL", 1); ("ET_EXEC", 2); ("ET_DYN", 3); ("ET_CORE", 4); ("ET_LOPROC", 65280);
   ("ET_HIPROC", 65535)].
(** Indexes into [e_ident]. *)
Definition ELF_IDENT_INDEXES : list (string * Z) :=
  [("EI_MAG0", 0); ("EI_MAG1", 1); ("EI_MAG2", 2); ("EI_MAG3", 3); ("EI_CLASS", 4); ("EI_DATA", 5);
   ("EI_VERSION", 6); ("EI_OSABI", 7); ("EI_ABIVERSION", 8); ("EI_PAD", 9); ("EI_NIDENT", 16)].
Definition ELF_MAGIC : list (string * Z) :=
  [("ELFMAG0", 127); ("ELFMAG1", 69); ("ELFMAG2", 76); ("ELFMAG3", 70)].
(** Values of [e_ident[EI_CLASS]]. *)
Definition ELF_CLASSES : list (string * Z) := [("ELFCLASSNONE", 0); ("ELFCLASS32", 1); ("ELFCLASS64", 2)].
(** Values of [e_ident[EI_DATA]]. *)
Definition ELF_DATA : list (string * Z) := [("ELFDATANONE", 0); ("ELFDATA2LSB", 1); ("ELFDATA2MSB", 2)].
(** Values of [e_machine]. *)
Definition ELF_MACHINES : list (string * Z) :=
  [("EM_NONE", 0); ("EM_M32", 1); ("EM_SPARC", 2); ("EM_386", 3); ("EM_68K", 4); ("EM_88K", 5); ("EM_860", 7);
   ("EM_MIPS", 8); ("EM_MIPS_RS4_BE", 10)].
Definition ELF_VERSIONS : list (string * Z) := [("EV_NONE", 0); ("EV_CURRENT", 1)].
(** Values of [p_type]. *)
Definition ELF_SEGMENT_TYPES : list (string * Z) :=
  [("PT_NULL", 0); ("PT_LOAD", 1); ("PT_DYNAMIC", 2); ("PT_INTERP", 3); ("PT_NOTE", 4); ("PT_SHLIB", 5);
   ("PT_PHDR", 6); ("PT_LOPROC", 1879048192); ("PT_HIPROC", 2147483647)].
Definition ELF_SEGMENT_FLAGS : list (string * Z) :=
  [("PF_X", 1); ("PF_W", 2); ("PF_R", 4); ("PF_MASKPROC", 4026531840)].
(** Special section indexes. *)
Definition ELF_SECTION_INDEXES : list (string * Z) :=
  [("SHN_UNDEF", 0); ("SHN_LORESERVE", 65280); ("SHN_LOPROC", 65280); ("SHN_HIPROC", 65311);
   ("SHN_ABS", 65521); ("SHN_COMMON", 65522); ("SHN_HIRESERVE", 65535)].
(** Values of [sh_type]. *)
Definition ELF_SECTION_TYPES : list (string * Z) :=
  [("SHT_NULL", 0); ("SHT_PROGBITS", 1); ("SHT_SYMTAB", 2); ("SHT_STRTAB", 3); ("SHT_RELA", 4);
   ("SHT_HASH", 5); ("SHT_DYNAMIC", 6); ("SHT_NOTE", 7); ("SHT_NOBITS", 8); ("SHT_REL", 9); ("SHT_SHLIB", 10);
   ("SHT_DYNSYM", 11); ("SHT_LOPROC", 1879048192); ("SHT_HIPROC", 2147483647); ("SHT_LOUSER", 2147483648);
   ("SHT_HIUSER", 4294967295)].
Definition ELF_SECTION_FLAGS : list (string * Z) :=
  [("SHF_WRITE", 1); ("SHF_ALLOC", 2); ("SHF_EXECINSTR", 4); ("SHF_MASKPROC", 4026531840)].

(** ** Boot information: [src/bootloader/multiboot/include/multiboot.h] *)

(** Types of the tags of the boot information, after their alignment. *)
Definition MULTIBOOT_TAG_TYPES : list (string * Z) :=
  [("MULTIBOOT_TAG_TYPE_END", 0); ("MULTIBOOT_TAG_TYPE_CMDLINE", 1);
   ("MULTIBOOT_TAG_TYPE_BOOT_LOADER_NAME", 2); ("MULTIBOOT_TAG_TYPE_MODULE", 3);
   ("MULTIBOOT_TAG_TYPE_BASIC_MEMINFO", 4); ("MULTIBOOT_TAG_TYPE_BOOTDEV", 5); ("MULTIBOOT_TAG_TYPE_MMAP", 6);
   ("MULTIBOOT_TAG_TYPE_VBE", 7); ("MULTIBOOT_TAG_TYPE_FRAMEBUFFER", 8);
   ("MULTIBOOT_TAG_TYPE_ELF_SECTIONS", 9); ("MULTIBOOT_TAG_TYPE_APM", 10); ("MULTIBOOT_TAG_TYPE_EFI32", 11);
   ("MULTIBOOT_TAG_TYPE_EFI64", 12); ("MULTIBOOT_TAG_TYPE_SMBIOS", 13); ("MULTIBOOT_TAG_TYPE_ACPI_OLD", 14);
   ("MULTIBOOT_TAG_TYPE_ACPI_NEW", 15); ("MULTIBOOT_TAG_TYPE_NETWORK", 16);
   ("MULTIBOOT_TAG_TYPE_EFI_MMAP", 17); ("MULTIBOOT_TAG_TYPE_EFI_BS", 18); ("MULTIBOOT_TAG_TYPE_EFI32_IH", 19);
   ("MULTIBOOT_TAG_TYPE_EFI64_IH", 20); ("MULTIBOOT_TAG_TYPE_LOAD_BASE_ADDR", 21);
   ("MULTIBOOT_TAG_TYPE_RAM_INFO", 98); ("MULTIBOOT_TAG_TYPE_RAM_INFO_PAGE_ALIGNED", 99)].
(** Types of the tags of a kernel's header. *)
Definition MULTIBOOT_HEADER_TAGS : list (string * Z) :=
  [("MULTIBOOT_HEADER_TAG_END", 0); ("MULTIBOOT_HEADER_TAG_INFORMATION_REQUEST", 1);
   ("MULTIBOOT_HEADER_TAG_ADDRESS", 2); ("MULTIBOOT_HEADER_TAG_ENTRY_ADDRESS", 3);
   ("MULTIBOOT_HEADER_TAG_CONSOLE_FLAGS", 4); ("MULTIBOOT_HEADER_TAG_FRAMEBUFFER", 5);
   ("MULTIBOOT_HEADER_TAG_MODULE_ALIGN", 6); ("MULTIBOOT_HEADER_TAG_EFI_BS", 7);
   ("MULTIBOOT_HEADER_TAG_ENTRY_ADDRESS_EFI32", 8); ("MULTIBOOT_HEADER_TAG_ENTRY_ADDRESS_EFI64", 9);
   ("MULTIBOOT_HEADER_TAG_RELOCATABLE", 10)].
Definition MULTIBOOT_ARCHITECTURES : list (string * Z) :=
  [("MULTIBOOT_ARCHITECTURE_I386", 0); ("MULTIBOOT_ARCHITECTURE_MIPS32", 4)].
Definition MULTIBOOT_LOAD_PREFERENCES : list (string * Z) :=
  [("MULTIBOOT_LOAD_PREFERENCE_NONE", 0); ("MULTIBOOT_LOAD_PREFERENCE_LOW", 1);
   ("MULTIBOOT_LOAD_PREFERENCE_HIGH", 2)].
Definition MULTIBOOT_CONSOLE_FLAGS : list (string * Z) :=
  [("MULTIBOOT_CONSOLE_FLAGS_CONSOLE_REQUIRED", 1); ("MULTIBOOT_CONSOLE_FLAGS_EGA_TEXT_SUPPORTED", 2)].
Definition MULTIBOOT_FRAMEBUFFER_TYPES : list (string * Z) :=
  [("MULTIBOOT_FRAMEBUFFER_TYPE_INDEXED", 0); ("MULTIBOOT_FRAMEBUFFER_TYPE_RGB", 1);
   ("MULTIBOOT_FRAMEBUFFER_TYPE_EGA_TEXT", 2)].

Definition Multiboot_E820_Entry : ctype := CStruct true
  [("base", uint64_t); ("size", uint64_t); ("type", uint32_t); ("acpi3", uint32_t)].
Definition Multiboot_RSDPv1 : ctype := CStruct true
  [("signature", CArray char 8); ("checksum", uint8_t); ("oem_id", CArray char 6); ("revision", uint8_t);
   ("rsdt_address", uint32_t)].
Definition Multiboot_RSDPv2 : ctype := CStruct true
  [("signature", CArray char 8); ("checksum", uint8_t); ("oem_id", CArray char 6); ("revision", uint8_t);
   ("rsdt_address", uint32_t); ("length", uint32_t); ("xsdt_address", uint64_t);
   ("extended_checksum", uint8_t); ("reserved", CArray uint8_t 3)].
Definition Multiboot_SMBIOS_EntryPointTable : ctype := CStruct true
  [("entry_point_string", CArray char 4); ("checksum", uint8_t); ("length", uint8_t);
   ("major_version", uint8_t); ("minor_version", uint8_t); ("max_structure_size", uint16_t);
   ("entry_point_revision", uint8_t); ("formatted_area", CArray char 5);
   ("entry_point_string2", CArray char 2); ("checksum2", uint8_t); ("table_length", uint16_t);
   ("table_address", uint32_t); ("number_of_structures", uint16_t); ("revision_BCD", uint8_t)].
Definition Multiboot_APM_Interface : ctype := CStruct true
  [("version", uint16_t); ("cseg", uint16_t); ("offset", uint32_t); ("cseg_16", uint16_t); ("dseg", uint16_t);
   ("flags", uint16_t); ("cseg_len", uint16_t); ("cseg_16_len", uint16_t); ("dseg_len", uint16_t)].
Definition Multiboot_Header_Magic_Fields : ctype := CStruct true
  [("magic", uint32_t); ("architecture", uint32_t); ("header_length", uint32_t); ("checksum", uint32_t)].
Definition Multiboot_Header_Tag : ctype := CStruct true
  [("type", uint16_t); ("flags", uint16_t); ("size", uint32_t)].
Definition Multiboot_Header_Tag_Information : ctype := CStruct true
  [("type", uint16_t); ("flags", uint16_t); ("size", uint32_t); ("requests", CArray uint32_t 0)].
Definition Multiboot_Header_Tag_Address : ctype := CStruct true
  [("type", uint16_t); ("flags", uint16_t); ("size", uint32_t); ("header_addr", uint32_t);
   ("load_addr", uint32_t); ("load_end_addr", uint32_t); ("bss_end_addr", uint32_t)].
Definition Multiboot_Header_Tag_Entry_Address : ctype := CStruct true
  [("type", uint16_t); ("flags", uint16_t); ("size", uint32_t); ("entry_addr", uint32_t)].
Definition Multiboot_Header_Tag_Console : ctype := CStruct true
  [("type", uint16_t); ("flags", uint16_t); ("size", uint32_t); ("console_flags", uint32_t)].
Definition Multiboot_Header_Tag_Framebuffer : ctype := CStruct true
  [("type", uint16_t); ("flags", uint16_t); ("size", uint32_t); ("width", uint32_t); ("height", uint32_t);
   ("depth", uint32_t)].
Definition Multiboot_Header_Tag_Relocatable : ctype := CStruct true
  [("type", uint16_t); ("flags", uint16_t); ("size", uint32_t); ("min_addr", uint32_t); ("max_addr", uint32_t);
   ("align", uint32_t); ("preference", uint32_t)].
Definition Multiboot_Info_Start : ctype := CStruct true [("total_size", uint32_t); ("reserved", uint32_t)].
Definition Multiboot_Info_Tag : ctype := CStruct true [("type", uint32_t); ("size", uint32_t)].
Definition Multiboot_Info_Name : ctype := CStruct true
  [("type", uint32_t); ("size", uint32_t); ("string", CArray char 0)].
Definition Multiboot_Info_Command : ctype := CStruct true
  [("type", uint32_t); ("size", uint32_t); ("string", CArray char 0)].
Definition Multiboot_Info_Modules : ctype := CStruct true
  [("type", uint32_t); ("size", uint32_t); ("mod_start", uint32_t); ("mod_end", uint32_t);
   ("string", CArray char 0)].
Definition Multiboot_Info_Memory_Basic : ctype := CStruct true
  [("type", uint32_t); ("size", uint32_t); ("mem_lower", uint32_t); ("mem_upper", uint32_t)].
Definition Multiboot_Info_Memory_E820 : ctype := CStruct true
  [("type", uint32_t); ("size", uint32_t); ("entry_size", uint32_t); ("entry_version", uint32_t);
   ("entries", CArray Multiboot_E820_Entry 0)].
Definition Multiboot_Info_VBE : ctype := CStruct true
  [("type", uint32_t); ("size", uint32_t); ("vbe_mode", uint16_t); ("vbe_interface_seg", uint16_t);
   ("vbe_interface_off", uint16_t); ("vbe_interface_len", uint16_t); ("vbe_control_info", CArray uint8_t 512);
   ("vbe_mode_info", CArray uint8_t 256)].
Definition Multiboot_Info_Framebuffer_Common : ctype := CStruct true
  [("type", uint32_t); ("size", uint32_t); ("framebuffer_addr", uint64_t); ("framebuffer_pitch", uint32_t);
   ("framebuffer_width", uint32_t); ("framebuffer_height", uint32_t); ("framebuffer_bpp", uint8_t);
   ("framebuffer_type", uint8_t); ("reserved", uint16_t)].
Definition Multiboot_Info_Color : ctype := CStruct true
  [("red", uint8_t); ("green", uint8_t); ("blue", uint8_t)].
Definition Multiboot_Info_Framebuffer : ctype := CStruct true
  [("type", uint32_t); ("size", uint32_t); ("framebuffer_addr", uint64_t); ("framebuffer_pitch", uint32_t);
   ("framebuffer_width", uint32_t); ("framebuffer_height", uint32_t); ("framebuffer_bpp", uint8_t);
   ("framebuffer_type", uint8_t); ("reserved", uint16_t);
   ("", CUnion [("", CStruct false [("framebuffer_palette_num_colors", uint16_t);
      ("framebuffer_palette", CArray Multiboot_Info_Color 0)]);
      ("", CStruct false [("framebuffer_red_field_position", uint8_t);
      ("framebuffer_red_mask_size", uint8_t); ("framebuffer_green_field_position", uint8_t);
      ("framebuffer_green_mask_size", uint8_t); ("framebuffer_blue_field_position", uint8_t);
      ("framebuffer_blue_mask_size", uint8_t); ("framebuffer_padding", uint16_t)])])].
Definition Multiboot_Info_ELF_Sections : ctype := CStruct true
  [("type", uint32_t); ("size", uint32_t); ("num", uint16_t); ("entsize", uint16_t); ("shndx", uint16_t);
   ("reserved", uint16_t); ("sections", CArray Elf32_Shdr 0)].
Definition Multiboot_Info_APM : ctype := CStruct true
  [("type", uint32_t); ("size", uint32_t); ("apm_interface", Multiboot_APM_Interface); ("reserved1", uint16_t);
   ("reserved2", uint16_t)].
Definition Multiboot_Info_SMBIOS : ctype := CStruct true
  [("type", uint32_t); ("size", uint32_t); ("major", uint8_t); ("minor", uint8_t);
   ("reserved", CArray uint8_t 6); ("tables", CArray uint8_t 0)].
Definition Multiboot_Info_ACPIv1 : ctype := CStruct true
  [("type", uint32_t); ("size", uint32_t); ("rsdp", Multiboot_RSDPv1); ("reserved", uint32_t)].
Definition Multiboot_Info_ACPIv2 : ctype := CStruct true
  [("type", uint32_t); ("size", uint32_t); ("rsdp", Multiboot_RSDPv2); ("reserved", uint32_t)].
Definition Multiboot_Info_LoadBaseAddress : ctype := CStruct true
  [("type", uint32_t); ("size", uint32_t); ("load_base_addr", uint32_t); ("reserved", uint32_t)].
Definition Multiboot_Info_BootDevice : ctype := CStruct true
  [("type", uint32_t); ("size", uint32_t); ("biosdev", uint32_t); ("partition", uint32_t);
   ("sub_partition", uint32_t); ("reserved", uint32_t)].

(** ** Disk blocks and the kernel to boot: [src/bootloader/initial/include/bootdefs.h] *)

Definition BootInfo_BlockRAM : ctype := CStruct true [("address", uint64_t); ("size", uint64_t)].
Definition BootInfo_BlockLBA : ctype := CStruct true [("lba", uint64_t); ("num_sectors", uint32_t)].
Definition BootInfo_BlockList128 : ctype := CStruct true
  [("jump", uint32_t); ("address", uint64_t); ("sector_size", uint16_t); ("reserved", CArray char 6);
   ("blocks", CArray BootInfo_BlockLBA 9)].
Definition BootInfo_BlockList272 : ctype := CStruct true
  [("jump", uint32_t); ("address", uint64_t); ("sector_size", uint16_t); ("reserved", CArray char 6);
   ("blocks", CArray BootInfo_BlockLBA 21); ("string", CArray char 240)].
Definition BootInfo_BlockList512 : ctype := CStruct true
  [("jump", uint32_t); ("address", uint64_t); ("sector_size", uint16_t); ("reserved", CArray char 6);
   ("blocks", CArray BootInfo_BlockLBA 41)].
Definition BootInfo_KernelInfo : ctype := CStruct true
  [("boot_drive_ID", uint32_t); ("boot_partition", uint32_t); ("pnpbios_ptr", uint32_t);
   ("blocklist_ptr", uint32_t); ("start", uint32_t); ("size", uint32_t); ("bss_size", uint32_t);
   ("multiboot_header", uint32_t); ("entry", uint32_t); ("file_addr", uint32_t); ("file_size", uint32_t)].

(** ** Registers of a BIOS call: [src/bootloader/multiboot/include/bios.h] *)

Definition BIOS_Registers : ctype := CStruct true
  [("", CUnion [("eax", uint32_t); ("ax", uint16_t); ("", CStruct true [("al", uint8_t); ("ah", uint8_t)])]);
   ("", CUnion [("ebx", uint32_t); ("bx", uint16_t); ("", CStruct true [("bl", uint8_t); ("bh", uint8_t)])]);
   ("", CUnion [("ecx", uint32_t); ("cx", uint16_t); ("", CStruct true [("cl", uint8_t); ("ch", uint8_t)])]);
   ("", CUnion [("edx", uint32_t); ("dx", uint16_t); ("", CStruct true [("dl", uint8_t); ("dh", uint8_t)])]);
   ("", CUnion [("esi", uint32_t); ("si", uint16_t)]); ("", CUnion [("edi", uint32_t); ("di", uint16_t)]);
   ("", CUnion [("ebp", uint32_t); ("bp", uint16_t)]); ("", CUnion [("esp", uint32_t); ("sp", uint16_t)]);
   ("ds", uint16_t); ("es", uint16_t); ("ss", uint16_t); ("flags", uint16_t)].

(** ** Disks: [src/bootloader/multiboot/include/diskio.h] *)

Definition DiskIO_Geometry : ctype := CStruct true
  [("size", uint16_t); ("flags", uint16_t); ("cylinders", uint32_t); ("heads", uint32_t);
   ("sectors_per_track", uint32_t); ("sectors", uint64_t); ("bytes_per_sector", uint16_t);
   ("dpte_ptr", uintptr_t)].
Definition DiskIO_DAP : ctype := CStruct true
  [("size", uint8_t); ("unused1", uint8_t); ("sectors", uint8_t); ("unused2", uint8_t);
   ("memory_offset", uint16_t); ("memory_segment", uint16_t); ("start_sector", uint64_t)].

(** ** Video: [src/bootloader/multiboot/include/video.h] *)

Definition VBE_Info : ctype := CStruct true
  [("signature", CArray char 4); ("version", uint16_t); ("oem", uint32_t); ("capabilities", uint32_t);
   ("video_modes", uint32_t); ("video_memory", uint16_t); ("software_rev", uint16_t); ("vendor", uint32_t);
   ("product_name", uint32_t); ("product_rev", uint32_t); ("reserved", CArray char 222);
   ("oem_data", CArray char 256)].
Definition VBE_Mode_Info : ctype := CStruct true
  [("attributes", uint16_t); ("window_a", uint8_t); ("window_b", uint8_t); ("granularity", uint16_t);
   ("window_size", uint16_t); ("segment_a", uint16_t); ("segment_b", uint16_t); ("win_func_ptr", uint32_t);
   ("pitch", uint16_t); ("width", uint16_t); ("height", uint16_t); ("w_char", uint8_t); ("y_char", uint8_t);
   ("planes", uint8_t); ("bpp", uint8_t); ("banks", uint8_t); ("memory_model", uint8_t);
   ("bank_size", uint8_t); ("image_pages", uint8_t); ("reserved0", uint8_t); ("red_mask", uint8_t);
   ("red_position", uint8_t); ("green_mask", uint8_t); ("green_position", uint8_t); ("blue_mask", uint8_t);
   ("blue_position", uint8_t); ("reserved_mask", uint8_t); ("reserved_position", uint8_t);
   ("direct_color_attributes", uint8_t); ("framebuffer", uint32_t); ("off_screen_mem_off", uint32_t);
   ("off_screen_mem_size", uint16_t); ("reserved1", CArray uint8_t 206)].
Definition VBE_PMode_Info : ctype := CStruct true
  [("segment", uint16_t); ("offset", uint16_t); ("length", uint16_t)].

(** ** Memory: [src/bootloader/multiboot/include/memory.h] *)

Definition MEMORY_E820_TYPES : list (string * Z) :=
  [("MEMORY_E820_AVAILABLE", 1); ("MEMORY_E820_RESERVED", 2); ("MEMORY_E820_ACPI_RECLAIMABLE", 3);
   ("MEMORY_E820_NVS", 4); ("MEMORY_E820_BADRAM", 5)].

(** ** Colours of the console: [src/bootloader/multiboot/include/console.h] *)

Definition CONSOLE_COLORS : list (string * Z) :=
  [("CONSOLE_COLOR_BLACK", 0); ("CONSOLE_COLOR_BLUE", 1); ("CONSOLE_COLOR_GREEN", 2);
   ("CONSOLE_COLOR_CYAN", 3); ("CONSOLE_COLOR_RED", 4); ("CONSOLE_COLOR_MAGENTA", 5);
   ("CONSOLE_COLOR_BROWN", 6); ("CONSOLE_COLOR_LIGHT_GREY", 7); ("CONSOLE_COLOR_DARK_GREY", 8);
   ("CONSOLE_COLOR_LIGHT_BLUE", 9); ("CONSOLE_COLOR_LIGHT_GREEN", 10); ("CONSOLE_COLOR_LIGHT_CYAN", 11);
   ("CONSOLE_COLOR_ORANGE", 12); ("CONSOLE_COLOR_PINK", 13); ("CONSOLE_COLOR_LIGHT_BROWN", 14);
   ("CONSOLE_COLOR_WHITE", 15)].
