(* ===== verification/HeaderSpec.v ===== *)
(** * The headers are consistent, and the models use them as declared

    Every structure of the headers is laid out without padding; the boot
    loader and the kernel declare what they exchange alike; the offsets in the
    models are those of the members of the same names; the fields of the
    registers can be told apart. *)

From Stdlib Require Import String.
From S2P Require Import Prelude CMem Layout KernelHeaders BootHeaders.
From S2P Require Import PhysMem Process Apic Bringup Bios BootMem Elf Mbi Ctl Loader.

#[local] Open Scope string_scope.
#[local] Open Scope Z_scope.

(** ** All the structures and tables *)

Definition kernel_structures : list (string * ctype) :=
  [("Elf32_Ehdr", KernelHeaders.Elf32_Ehdr); ("Elf32_Phdr", KernelHeaders.Elf32_Phdr);
   ("Elf32_Shdr", KernelHeaders.Elf32_Shdr); ("Elf32_Sym", KernelHeaders.Elf32_Sym);
   ("Elf32_Rel", KernelHeaders.Elf32_Rel); ("Elf32_Rela", KernelHeaders.Elf32_Rela);
   ("Multiboot_E820_Entry", KernelHeaders.Multiboot_E820_Entry);
   ("Multiboot_RAMInfo_Entry", KernelHeaders.Multiboot_RAMInfo_Entry);
   ("Multiboot_RSDPv1", KernelHeaders.Multiboot_RSDPv1); ("Multiboot_RSDPv2", KernelHeaders.Multiboot_RSDPv2);
   ("Multiboot_SMBIOS_EntryPointTable", KernelHeaders.Multiboot_SMBIOS_EntryPointTable);
   ("Multiboot_APM_Interface", KernelHeaders.Multiboot_APM_Interface);
   ("Multiboot_Header_Magic_Fields", KernelHeaders.Multiboot_Header_Magic_Fields);
   ("Multiboot_Header_Tag", KernelHeaders.Multiboot_Header_Tag);
   ("Multiboot_Header_Tag_Information", KernelHeaders.Multiboot_Header_Tag_Information);
   ("Multiboot_Header_Tag_Address", KernelHeaders.Multiboot_Header_Tag_Address);
   ("Multiboot_Header_Tag_Entry_Address", KernelHeaders.Multiboot_Header_Tag_Entry_Address);
   ("Multiboot_Header_Tag_Console", KernelHeaders.Multiboot_Header_Tag_Console);
   ("Multiboot_Header_Tag_Framebuffer", KernelHeaders.Multiboot_Header_Tag_Framebuffer);
   ("Multiboot_Header_Tag_Relocatable", KernelHeaders.Multiboot_Header_Tag_Relocatable);
   ("Multiboot_Info_Start", KernelHeaders.Multiboot_Info_Start);
   ("Multiboot_Info_Tag", KernelHeaders.Multiboot_Info_Tag);
   ("Multiboot_Info_Name", KernelHeaders.Multiboot_Info_Name);
   ("Multiboot_Info_Command", KernelHeaders.Multiboot_Info_Command);
   ("Multiboot_Info_Modules", KernelHeaders.Multiboot_Info_Modules);
   ("Multiboot_Info_Memory_Basic", KernelHeaders.Multiboot_Info_Memory_Basic);
   ("Multiboot_Info_Memory_E820", KernelHeaders.Multiboot_Info_Memory_E820);
   ("Multiboot_Info_VBE", KernelHeaders.Multiboot_Info_VBE);
   ("Multiboot_Info_Framebuffer_Common", KernelHeaders.Multiboot_Info_Framebuffer_Common);
   ("Multiboot_Info_Color", KernelHeaders.Multiboot_Info_Color);
   ("Multiboot_Info_Framebuffer", KernelHeaders.Multiboot_Info_Framebuffer);
   ("Multiboot_Info_ELF_Sections", KernelHeaders.Multiboot_Info_ELF_Sections);
   ("Multiboot_Info_APM", KernelHeaders.Multiboot_Info_APM);
   ("Multiboot_Info_SMBIOS", KernelHeaders.Multiboot_Info_SMBIOS);
   ("Multiboot_Info_ACPIv1", KernelHeaders.Multiboot_Info_ACPIv1);
   ("Multiboot_Info_ACPIv2", KernelHeaders.Multiboot_Info_ACPIv2);
   ("Multiboot_Info_LoadBaseAddress", KernelHeaders.Multiboot_Info_LoadBaseAddress);
   ("Multiboot_Info_BootDevice", KernelHeaders.Multiboot_Info_BootDevice); ("RSDPv1", KernelHeaders.RSDPv1);
   ("RSDPv2", KernelHeaders.RSDPv2); ("SDTHeader", KernelHeaders.SDTHeader); ("RSDT", KernelHeaders.RSDT);
   ("XSDT", KernelHeaders.XSDT); ("MADT_Entry", KernelHeaders.MADT_Entry);
   ("MADT_Entry_LocalAPIC", KernelHeaders.MADT_Entry_LocalAPIC);
   ("MADT_Entry_IOAPIC", KernelHeaders.MADT_Entry_IOAPIC);
   ("MADT_Entry_IntrSrcOverride", KernelHeaders.MADT_Entry_IntrSrcOverride);
   ("MADT_Entry_NMISource", KernelHeaders.MADT_Entry_NMISource);
   ("MADT_Entry_NMI", KernelHeaders.MADT_Entry_NMI);
   ("MADT_Entry_LocalAPICAddrOverride", KernelHeaders.MADT_Entry_LocalAPICAddrOverride);
   ("MADT", KernelHeaders.MADT); ("GDT_Entry", KernelHeaders.GDT_Entry);
   ("GDT_Descriptor", KernelHeaders.GDT_Descriptor); ("TSS", KernelHeaders.TSS);
   ("IDT_Entry", KernelHeaders.IDT_Entry); ("IDT_Descriptor", KernelHeaders.IDT_Descriptor);
   ("Stack", KernelHeaders.Stack); ("KContext", KernelHeaders.KContext); ("IContext", KernelHeaders.IContext);
   ("UContext", KernelHeaders.UContext); ("CPU", KernelHeaders.CPU); ("State", KernelHeaders.State);
   ("Process", KernelHeaders.Process); ("IOAPIC_RW", KernelHeaders.IOAPIC_RW)].
Definition boot_structures : list (string * ctype) :=
  [("Elf32_Ehdr", BootHeaders.Elf32_Ehdr); ("Elf32_Phdr", BootHeaders.Elf32_Phdr);
   ("Elf32_Shdr", BootHeaders.Elf32_Shdr); ("Multiboot_E820_Entry", BootHeaders.Multiboot_E820_Entry);
   ("Multiboot_RSDPv1", BootHeaders.Multiboot_RSDPv1); ("Multiboot_RSDPv2", BootHeaders.Multiboot_RSDPv2);
   ("Multiboot_SMBIOS_EntryPointTable", BootHeaders.Multiboot_SMBIOS_EntryPointTable);
   ("Multiboot_APM_Interface", BootHeaders.Multiboot_APM_Interface);
   ("Multiboot_Header_Magic_Fields", BootHeaders.Multiboot_Header_Magic_Fields);
   ("Multiboot_Header_Tag", BootHeaders.Multiboot_Header_Tag);
   ("Multiboot_Header_Tag_Information", BootHeaders.Multiboot_Header_Tag_Information);
   ("Multiboot_Header_Tag_Address", BootHeaders.Multiboot_Header_Tag_Address);
   ("Multiboot_Header_Tag_Entry_Address", BootHeaders.Multiboot_Header_Tag_Entry_Address);
   ("Multiboot_Header_Tag_Console", BootHeaders.Multiboot_Header_Tag_Console);
   ("Multiboot_Header_Tag_Framebuffer", BootHeaders.Multiboot_Header_Tag_Framebuffer);
   ("Multiboot_Header_Tag_Relocatable", BootHeaders.Multiboot_Header_Tag_Relocatable);
   ("Multiboot_Info_Start", BootHeaders.Multiboot_Info_Start);
   ("Multiboot_Info_Tag", BootHeaders.Multiboot_Info_Tag);
   ("Multiboot_Info_Name", BootHeaders.Multiboot_Info_Name);
   ("Multiboot_Info_Command", BootHeaders.Multiboot_Info_Command);
   ("Multiboot_Info_Modules", BootHeaders.Multiboot_Info_Modules);
   ("Multiboot_Info_Memory_Basic", BootHeaders.Multiboot_Info_Memory_Basic);
   ("Multiboot_Info_Memory_E820", BootHeaders.Multiboot_Info_Memory_E820);
   ("Multiboot_Info_VBE", BootHeaders.Multiboot_Info_VBE);
   ("Multiboot_Info_Framebuffer_Common", BootHeaders.Multiboot_Info_Framebuffer_Common);
   ("Multiboot_Info_Color", BootHeaders.Multiboot_Info_Color);
   ("Multiboot_Info_Framebuffer", BootHeaders.Multiboot_Info_Framebuffer);
   ("Multiboot_Info_ELF_Sections", BootHeaders.Multiboot_Info_ELF_Sections);
   ("Multiboot_Info_APM", BootHeaders.Multiboot_Info_APM);
   ("Multiboot_Info_SMBIOS", BootHeaders.Multiboot_Info_SMBIOS);
   ("Multiboot_Info_ACPIv1", BootHeaders.Multiboot_Info_ACPIv1);
   ("Multiboot_Info_ACPIv2", BootHeaders.Multiboot_Info_ACPIv2);
   ("Multiboot_Info_LoadBaseAddress", BootHeaders.Multiboot_Info_LoadBaseAddress);
   ("Multiboot_Info_BootDevice", BootHeaders.Multiboot_Info_BootDevice);
   ("BootInfo_BlockRAM", BootHeaders.BootInfo_BlockRAM); ("BootInfo_BlockLBA", BootHeaders.BootInfo_BlockLBA);
   ("BootInfo_BlockList128", BootHeaders.BootInfo_BlockList128);
   ("BootInfo_BlockList272", BootHeaders.BootInfo_BlockList272);
   ("BootInfo_BlockList512", BootHeaders.BootInfo_BlockList512);
   ("BootInfo_KernelInfo", BootHeaders.BootInfo_KernelInfo); ("BIOS_Registers", BootHeaders.BIOS_Registers);
   ("DiskIO_Geometry", BootHeaders.DiskIO_Geometry); ("DiskIO_DAP", BootHeaders.DiskIO_DAP);
   ("VBE_Info", BootHeaders.VBE_Info); ("VBE_Mode_Info", BootHeaders.VBE_Mode_Info);
   ("VBE_PMode_Info", BootHeaders.VBE_PMode_Info)].
Definition kernel_tables : list (string * list (string * Z)) :=
  [("ELF_TYPES", KernelHeaders.ELF_TYPES); ("ELF_IDENT_INDEXES", KernelHeaders.ELF_IDENT_INDEXES);
   ("ELF_MAGIC", KernelHeaders.ELF_MAGIC); ("ELF_CLASSES", KernelHeaders.ELF_CLASSES);
   ("ELF_DATA", KernelHeaders.ELF_DATA); ("ELF_MACHINES", KernelHeaders.ELF_MACHINES);
   ("ELF_VERSIONS", KernelHeaders.ELF_VERSIONS); ("ELF_SEGMENT_TYPES", KernelHeaders.ELF_SEGMENT_TYPES);
   ("ELF_SEGMENT_FLAGS", KernelHeaders.ELF_SEGMENT_FLAGS);
   ("ELF_SECTION_INDEXES", KernelHeaders.ELF_SECTION_INDEXES);
   ("ELF_SECTION_TYPES", KernelHeaders.ELF_SECTION_TYPES);
   ("ELF_SECTION_FLAGS", KernelHeaders.ELF_SECTION_FLAGS);
   ("ELF_SYMBOL_BINDINGS", KernelHeaders.ELF_SYMBOL_BINDINGS);
   ("ELF_SYMBOL_TYPES", KernelHeaders.ELF_SYMBOL_TYPES); ("ELF_RELOCATIONS", KernelHeaders.ELF_RELOCATIONS);
   ("MULTIBOOT_TAG_TYPES", KernelHeaders.MULTIBOOT_TAG_TYPES);
   ("MULTIBOOT_HEADER_TAGS", KernelHeaders.MULTIBOOT_HEADER_TAGS);
   ("MULTIBOOT_ARCHITECTURES", KernelHeaders.MULTIBOOT_ARCHITECTURES);
   ("MULTIBOOT_LOAD_PREFERENCES", KernelHeaders.MULTIBOOT_LOAD_PREFERENCES);
   ("MULTIBOOT_CONSOLE_FLAGS", KernelHeaders.MULTIBOOT_CONSOLE_FLAGS);
   ("MULTIBOOT_MEMORY_TYPES", KernelHeaders.MULTIBOOT_MEMORY_TYPES);
   ("MULTIBOOT_FRAMEBUFFER_TYPES", KernelHeaders.MULTIBOOT_FRAMEBUFFER_TYPES);
   ("MADT_ENTRY_TYPES", KernelHeaders.MADT_ENTRY_TYPES); ("GDT_FLAGS", KernelHeaders.GDT_FLAGS);
   ("GDT_ACCESS", KernelHeaders.GDT_ACCESS); ("GDT_ENTRIES", KernelHeaders.GDT_ENTRIES);
   ("GDT_SELECTORS", KernelHeaders.GDT_SELECTORS); ("GDT_RPL", KernelHeaders.GDT_RPL);
   ("IDT_FLAGS", KernelHeaders.IDT_FLAGS); ("IDT_TYPES", KernelHeaders.IDT_TYPES);
   ("LAPIC_REGISTERS", KernelHeaders.LAPIC_REGISTERS); ("LAPIC_LVT", KernelHeaders.LAPIC_LVT);
   ("LAPIC_TDCR", KernelHeaders.LAPIC_TDCR); ("LAPIC_ICR", KernelHeaders.LAPIC_ICR);
   ("LAPIC_SIVR", KernelHeaders.LAPIC_SIVR); ("PIC_PORTS", KernelHeaders.PIC_PORTS);
   ("PIC_ICW1", KernelHeaders.PIC_ICW1); ("PIC_ICW4", KernelHeaders.PIC_ICW4);
   ("CR0_BITS", KernelHeaders.CR0_BITS); ("CR4_BITS", KernelHeaders.CR4_BITS);
   ("EFLAGS_BITS", KernelHeaders.EFLAGS_BITS); ("PIT_PORTS", KernelHeaders.PIT_PORTS);
   ("PIT_CHANNELS", KernelHeaders.PIT_CHANNELS); ("PIT_ACCESS", KernelHeaders.PIT_ACCESS);
   ("PIT_OPERMODE", KernelHeaders.PIT_OPERMODE); ("PIT_COUNTMODE", KernelHeaders.PIT_COUNTMODE);
   ("CONSOLE_COLORS", KernelHeaders.CONSOLE_COLORS)].
Definition boot_tables : list (string * list (string * Z)) :=
  [("ELF_TYPES", BootHeaders.ELF_TYPES); ("ELF_IDENT_INDEXES", BootHeaders.ELF_IDENT_INDEXES);
   ("ELF_MAGIC", BootHeaders.ELF_MAGIC); ("ELF_CLASSES", BootHeaders.ELF_CLASSES);
   ("ELF_DATA", BootHeaders.ELF_DATA); ("ELF_MACHINES", BootHeaders.ELF_MACHINES);
   ("ELF_VERSIONS", BootHeaders.ELF_VERSIONS); ("ELF_SEGMENT_TYPES", BootHeaders.ELF_SEGMENT_TYPES);
   ("ELF_SEGMENT_FLAGS", BootHeaders.ELF_SEGMENT_FLAGS);
   ("ELF_SECTION_INDEXES", BootHeaders.ELF_SECTION_INDEXES);
   ("ELF_SECTION_TYPES", BootHeaders.ELF_SECTION_TYPES); ("ELF_SECTION_FLAGS", BootHeaders.ELF_SECTION_FLAGS);
   ("MULTIBOOT_TAG_TYPES", BootHeaders.MULTIBOOT_TAG_TYPES);
   ("MULTIBOOT_HEADER_TAGS", BootHeaders.MULTIBOOT_HEADER_TAGS);
   ("MULTIBOOT_ARCHITECTURES", BootHeaders.MULTIBOOT_ARCHITECTURES);
   ("MULTIBOOT_LOAD_PREFERENCES", BootHeaders.MULTIBOOT_LOAD_PREFERENCES);
   ("MULTIBOOT_CONSOLE_FLAGS", BootHeaders.MULTIBOOT_CONSOLE_FLAGS);
   ("MULTIBOOT_FRAMEBUFFER_TYPES", BootHeaders.MULTIBOOT_FRAMEBUFFER_TYPES);
   ("MEMORY_E820_TYPES", BootHeaders.MEMORY_E820_TYPES); ("CONSOLE_COLORS", BootHeaders.CONSOLE_COLORS)].

(** ** Structures *)


(** ** What both programs declare *)

Definition shared {A} (l l' : list (string * A)) : list (string * A) :=
  List.filter (fun x => existsb (fun y => String.eqb x.1 y.1) l') l.

(** The boot loader and the kernel declare the same things: the structures and
    the tables of constants with the same name in the headers of both are the
    same, member by member and number by number; the tags have distinct types;
    the memory map is written and read in the same layout, with the same types
    of memory; and an ACPI 1 pointer from the boot information is one for
    acpi.c. *)
Theorem headers_agree :
  shared kernel_structures boot_structures = shared boot_structures kernel_structures /\
  (length (shared kernel_structures boot_structures) = 34)%nat /\
  shared kernel_tables boot_tables = shared boot_tables kernel_tables /\
  (length (shared kernel_tables boot_tables) = 19)%nat /\
  NoDup (map snd KernelHeaders.MULTIBOOT_TAG_TYPES) /\ NoDup (map snd KernelHeaders.MULTIBOOT_HEADER_TAGS) /\
  flat KernelHeaders.Multiboot_RAMInfo_Entry 0 = flat BootHeaders.BootInfo_BlockRAM 0 /\
  sizeof KernelHeaders.Multiboot_RAMInfo_Entry = sizeof BootHeaders.BootInfo_BlockRAM /\
  map snd BootHeaders.MEMORY_E820_TYPES = map snd KernelHeaders.MULTIBOOT_MEMORY_TYPES /\
  BootHeaders.Multiboot_RSDPv1 = KernelHeaders.RSDPv1.
Proof.
  split_and!; try (vm_compute; reflexivity);
    (apply (bool_decide_unpack _); vm_compute; reflexivity).
Qed.

(** ** The offsets in the models *)

(** [Elf.v] *)
Definition elf_members : Prop := forall m a,
  (forall i, 0 <= i -> Elf.e_ident m a i = element BootHeaders.Elf32_Ehdr "e_ident" i m a) /\
  Elf.e_type m a = member BootHeaders.Elf32_Ehdr "e_type" m a /\
  Elf.e_machine m a = member BootHeaders.Elf32_Ehdr "e_machine" m a /\
  Elf.e_version m a = member BootHeaders.Elf32_Ehdr "e_version" m a /\
  Elf.e_phoff m a = member BootHeaders.Elf32_Ehdr "e_phoff" m a /\
  Elf.e_shoff m a = member BootHeaders.Elf32_Ehdr "e_shoff" m a /\
  Elf.e_ehsize m a = member BootHeaders.Elf32_Ehdr "e_ehsize" m a /\
  Elf.e_phentsize m a = member BootHeaders.Elf32_Ehdr "e_phentsize" m a /\
  Elf.e_phnum m a = member BootHeaders.Elf32_Ehdr "e_phnum" m a /\
  Elf.e_shentsize m a = member BootHeaders.Elf32_Ehdr "e_shentsize" m a /\
  Elf.e_shnum m a = member BootHeaders.Elf32_Ehdr "e_shnum" m a /\
  Elf.e_shstrndx m a = member BootHeaders.Elf32_Ehdr "e_shstrndx" m a /\
  (forall i, Elf.p_type m a i = member_at BootHeaders.Elf32_Phdr "p_type" i m a) /\
  (forall i, Elf.p_offset m a i = member_at BootHeaders.Elf32_Phdr "p_offset" i m a) /\
  (forall i, Elf.p_filesz m a i = member_at BootHeaders.Elf32_Phdr "p_filesz" i m a) /\
  (forall i, Elf.p_memsz m a i = member_at BootHeaders.Elf32_Phdr "p_memsz" i m a) /\
  (forall i, Elf.sh_type m a i = member_at BootHeaders.Elf32_Shdr "sh_type" i m a) /\
  (forall i, Elf.sh_flags m a i = member_at BootHeaders.Elf32_Shdr "sh_flags" i m a) /\
  (forall i, Elf.sh_size m a i = member_at BootHeaders.Elf32_Shdr "sh_size" i m a) /\
  Elf.SIZEOF_EHDR = sizeof BootHeaders.Elf32_Ehdr /\
  Elf.SIZEOF_PHDR = sizeof BootHeaders.Elf32_Phdr.

(** [Loader.v] *)
Definition loader_members : Prop := forall m a,
  Loader.h_magic m a = member BootHeaders.Multiboot_Header_Magic_Fields "magic" m a /\
  Loader.h_architecture m a = member BootHeaders.Multiboot_Header_Magic_Fields "architecture" m a /\
  Loader.h_header_length m a = member BootHeaders.Multiboot_Header_Magic_Fields "header_length" m a /\
  Loader.h_checksum m a = member BootHeaders.Multiboot_Header_Magic_Fields "checksum" m a /\
  Loader.ht_type m a = member BootHeaders.Multiboot_Header_Tag "type" m a /\
  Loader.ht_flags m a = member BootHeaders.Multiboot_Header_Tag "flags" m a /\
  Loader.ht_size m a = member BootHeaders.Multiboot_Header_Tag "size" m a /\
  (forall i, Loader.ht_request m a i = element BootHeaders.Multiboot_Header_Tag_Information "requests" i m a) /\
  Loader.at_header_addr m a = member BootHeaders.Multiboot_Header_Tag_Address "header_addr" m a /\
  Loader.at_load_addr m a = member BootHeaders.Multiboot_Header_Tag_Address "load_addr" m a /\
  Loader.at_load_end_addr m a = member BootHeaders.Multiboot_Header_Tag_Address "load_end_addr" m a /\
  Loader.at_bss_end_addr m a = member BootHeaders.Multiboot_Header_Tag_Address "bss_end_addr" m a /\
  Loader.bl_jump m a = member BootHeaders.BootInfo_BlockList512 "jump" m a /\
  Loader.bl_sector_size m a = member BootHeaders.BootInfo_BlockList512 "sector_size" m a /\
  (forall k b, offsetof BootHeaders.BootInfo_BlockList512 "blocks" = Some b ->
     Loader.bl_lba m a k = member_at BootHeaders.BootInfo_BlockLBA "lba" k m (a + b) /\
     Loader.bl_num_sectors m a k = member_at BootHeaders.BootInfo_BlockLBA "num_sectors" k m (a + b)) /\
  Loader.SIZEOF_MAGIC = sizeof BootHeaders.Multiboot_Header_Magic_Fields.

(** [Mbi.v] *)
Definition mbi_members : Prop := forall m a,
  Mbi.mbi_total_size m a = member BootHeaders.Multiboot_Info_Start "total_size" m a /\
  Mbi.mbi_reserved m a = member BootHeaders.Multiboot_Info_Start "reserved" m a /\
  Mbi.tag_type m a = member BootHeaders.Multiboot_Info_Tag "type" m a /\
  Mbi.tag_size m a = member BootHeaders.Multiboot_Info_Tag "size" m a /\
  Mbi.ki_boot_drive_ID m a = member BootHeaders.BootInfo_KernelInfo "boot_drive_ID" m a /\
  Mbi.ki_boot_partition m a = member BootHeaders.BootInfo_KernelInfo "boot_partition" m a /\
  Mbi.ki_blocklist_ptr m a = member BootHeaders.BootInfo_KernelInfo "blocklist_ptr" m a /\
  Mbi.ki_start m a = member BootHeaders.BootInfo_KernelInfo "start" m a /\
  Mbi.ki_size m a = member BootHeaders.BootInfo_KernelInfo "size" m a /\
  Mbi.ki_bss_size m a = member BootHeaders.BootInfo_KernelInfo "bss_size" m a /\
  Mbi.ki_multiboot_header m a = member BootHeaders.BootInfo_KernelInfo "multiboot_header" m a /\
  Mbi.ki_entry m a = member BootHeaders.BootInfo_KernelInfo "entry" m a /\
  Mbi.ki_file_addr m a = member BootHeaders.BootInfo_KernelInfo "file_addr" m a /\
  Mbi.ki_file_size m a = member BootHeaders.BootInfo_KernelInfo "file_size" m a /\
  (forall v, Mbi.set_tag_type a v m = set_member BootHeaders.Multiboot_Info_Tag "type" a v m) /\
  (forall v, Mbi.set_tag_size a v m = set_member BootHeaders.Multiboot_Info_Tag "size" a v m) /\
  Mbi.SIZEOF_INFO_APM = sizeof BootHeaders.Multiboot_Info_APM /\
  Mbi.SIZEOF_INFO_ACPIv1 = sizeof BootHeaders.Multiboot_Info_ACPIv1 /\
  Mbi.SIZEOF_INFO_ACPIv2 = sizeof BootHeaders.Multiboot_Info_ACPIv2.

(** [BootMem.v] *)
Definition bootmem_members : Prop := forall m a,
  (forall i, BootMem.ram_address m a i = member_at BootHeaders.BootInfo_BlockRAM "address" i m a) /\
  (forall i, BootMem.ram_size m a i = member_at BootHeaders.BootInfo_BlockRAM "size" i m a) /\
  (forall i, BootMem.e820_base m a i = member_at BootHeaders.Multiboot_E820_Entry "base" i m a) /\
  (forall i, BootMem.e820_size m a i = member_at BootHeaders.Multiboot_E820_Entry "size" i m a) /\
  (forall i, BootMem.e820_type m a i = member_at BootHeaders.Multiboot_E820_Entry "type" i m a) /\
  (forall i, BootMem.e820_acpi3 m a i = member_at BootHeaders.Multiboot_E820_Entry "acpi3" i m a) /\
  BootMem.SIZEOF_BLOCKRAM = sizeof BootHeaders.BootInfo_BlockRAM /\
  BootMem.SIZEOF_E820 = sizeof BootHeaders.Multiboot_E820_Entry.

(** [Bios.v] *)
Definition bios_members : Prop := forall m a,
  Bios.geom_size m a = member BootHeaders.DiskIO_Geometry "size" m a /\
  Bios.geom_bytes_per_sector m a = member BootHeaders.DiskIO_Geometry "bytes_per_sector" m a /\
  Bios.mode_attributes m a = member BootHeaders.VBE_Mode_Info "attributes" m a /\
  Bios.mode_pitch m a = member BootHeaders.VBE_Mode_Info "pitch" m a /\
  Bios.mode_width m a = member BootHeaders.VBE_Mode_Info "width" m a /\
  Bios.mode_height m a = member BootHeaders.VBE_Mode_Info "height" m a /\
  Bios.mode_bpp m a = member BootHeaders.VBE_Mode_Info "bpp" m a /\
  Bios.SIZEOF_RSDPv1 = sizeof BootHeaders.Multiboot_RSDPv1 /\
  Bios.SIZEOF_RSDPv2 = sizeof BootHeaders.Multiboot_RSDPv2 /\
  Bios.SIZEOF_VBE_INFO = sizeof BootHeaders.VBE_Info /\
  Bios.DISKIO_DISK_ADDRESS_PACKET_SIZE = sizeof BootHeaders.DiskIO_DAP.

(** [Apic.v] and [Bringup.v] *)
Definition apic_members : Prop := forall m a,
  (forall i, Apic.sdt_signature m a i = element KernelHeaders.SDTHeader "signature" i m a) /\
  Apic.sdt_length m a = member KernelHeaders.SDTHeader "length" m a /\
  Apic.rsdp_rsdt_address m a = member KernelHeaders.RSDPv1 "rsdt_address" m a /\
  Apic.rsdp_rsdt_address m a = member KernelHeaders.RSDPv2 "rsdt_address" m a /\
  Apic.madt_local_apic_address m a = member KernelHeaders.MADT "local_apic_address" m a /\
  Apic.madt_flags m a = member KernelHeaders.MADT "flags" m a /\
  offsetof KernelHeaders.MADT "entries" = Some (Apic.madt_entries 0) /\
  Apic.madt_entries a = a + sizeof KernelHeaders.MADT /\
  Apic.entry_type m a = member KernelHeaders.MADT_Entry "type" m a /\
  Apic.entry_length m a = member KernelHeaders.MADT_Entry "length" m a /\
  Apic.ioapic_id m a = member KernelHeaders.MADT_Entry_IOAPIC "ioapic_id" m a /\
  Apic.ioapic_address m a = member KernelHeaders.MADT_Entry_IOAPIC "ioapic_address" m a /\
  Apic.ioapic_intr_base m a = member KernelHeaders.MADT_Entry_IOAPIC "global_system_intr_base" m a /\
  Apic.iso_irq_source m a = member KernelHeaders.MADT_Entry_IntrSrcOverride "irq_source" m a /\
  Apic.iso_global_sys_intr m a = member KernelHeaders.MADT_Entry_IntrSrcOverride "global_sys_intr" m a /\
  Apic.iso_flags m a = member KernelHeaders.MADT_Entry_IntrSrcOverride "flags" m a /\
  Apic.override_address m a = member KernelHeaders.MADT_Entry_LocalAPICAddrOverride "local_apic_phys_addr" m a /\
  Bringup.lapic_entry_apic_id m a = member KernelHeaders.MADT_Entry_LocalAPIC "apic_id" m a /\
  Apic.SIZEOF_SDTHeader = sizeof KernelHeaders.SDTHeader.

(** [Bringup.v] and [Process.v]. *)
Definition kernel_sizes : Prop :=
  Bringup.SIZEOF_STATE = sizeof KernelHeaders.State /\ Process.SIZEOF_STATE = sizeof KernelHeaders.State /\
  Bringup.SIZEOF_TSS = sizeof KernelHeaders.TSS /\ Bringup.SIZEOF_DESCRIPTOR = sizeof KernelHeaders.GDT_Entry /\
  Bringup.SIZEOF_DESCRIPTOR = sizeof KernelHeaders.IDT_Entry /\ Bringup.SIZEOF_CPU = sizeof KernelHeaders.CPU /\
  offsetof KernelHeaders.CPU "task_state" = Some (Bringup.cpu_task_state 0) /\
  offsetof KernelHeaders.CPU "gdt" = Some (Bringup.cpu_gdt 0) /\
  offsetof KernelHeaders.CPU "idt" = Some (Bringup.cpu_idt 0) /\
  Process.SIZEOF_ICONTEXT = sizeof KernelHeaders.IContext /\ Process.SIZEOF_KCONTEXT = sizeof KernelHeaders.KContext.

(** The assignments of [Multiboot_SaveGraphicsInfo] (multiboot.c, 591-607) by
    the names of the members. *)
Definition fill_framebuffer_members (f i : Z) (m : Mem) : Mem :=
  let set n v m := set_member BootHeaders.Multiboot_Info_Framebuffer n f v m in
  let mode n m := member BootHeaders.VBE_Mode_Info n m i in
  let m := set "type" 8 m in
  let m := set "framebuffer_addr" (mode "framebuffer" m) m in
  let m := set "framebuffer_pitch" (mode "pitch" m) m in
  let m := set "framebuffer_width" (mode "width" m) m in
  let m := set "framebuffer_height" (mode "height" m) m in
  let m := set "framebuffer_bpp" (mode "bpp" m) m in
  let m := set "framebuffer_type" (if Z.land (mode "attributes" m) 0x10 =? 0 then 2 else 1) m in
  let m := if member BootHeaders.Multiboot_Info_Framebuffer "framebuffer_type" m f =? 2
           then set "framebuffer_bpp" 0x10 m else m in
  let m := set "reserved" 0 m in
  let m := set "framebuffer_red_field_position" (mode "red_position" m) m in
  let m := set "framebuffer_red_mask_size" (mode "red_mask" m) m in
  let m := set "framebuffer_green_field_position" (mode "green_position" m) m in
  let m := set "framebuffer_green_mask_size" (mode "green_mask" m) m in
  let m := set "framebuffer_blue_field_position" (mode "blue_position" m) m in
  let m := set "framebuffer_blue_mask_size" (mode "green_position" m) m in
  set "size" (sizeof BootHeaders.Multiboot_Info_Framebuffer) m.

(** [member] and its companions reduce to accesses at an offset. *)
Ltac members :=
  repeat match goal with |- _ /\ _ => split end; intros;
  unfold member_at, member, element, at_index, set_member;
  repeat match goal with |- context [assoc ?n (flat ?t 0)] =>
    let r := eval vm_compute in (assoc n (flat t 0)) in change (assoc n (flat t 0)) with r; cbv iota beta end;
  repeat match goal with |- context [sizeof ?t] =>
    let r := eval vm_compute in (sizeof t) in change (sizeof t) with r end;
  rewrite ?Z.add_0_r.

Lemma load_1 m a : load 1 m a = load8 m a.
Proof. cbn. lia. Qed.

Lemma elf_members_ok : elf_members.
Proof. intros m a. members; try reflexivity; try (by rewrite load_1). unfold e_ident. rewrite load_1. f_equal. lia. Qed.
Lemma loader_members_ok : loader_members.
Proof. intros m a. members; try reflexivity. assert (b = 20) as -> by (vm_compute in H; by simplify_eq). split; reflexivity. Qed.
Lemma mbi_members_ok : mbi_members.
Proof. intros m a. members; reflexivity. Qed.
Lemma bootmem_members_ok : bootmem_members.
Proof. intros m a. members; reflexivity. Qed.
Lemma bios_members_ok : bios_members.
Proof. intros m a. members; try reflexivity. all: by rewrite load_1. Qed.
Lemma apic_members_ok : apic_members.
Proof. intros m a. members; try reflexivity. all: rewrite load_1; try reflexivity; unfold sdt_signature; f_equal; lia. Qed.
Lemma kernel_sizes_ok : kernel_sizes.
Proof. repeat split. Qed.
(** One assignment of both sides at a time; [unfold] would substitute them. *)
Ltac assignment :=
  lazymatch goal with
  | |- (let x := ?A in @?B x) = (let y := ?A' in @?C y) =>
      change (B A = C A'); replace A' with A by (members; rewrite ?load_1; reflexivity); generalize A; intro; cbv beta
  end.

Lemma fill_framebuffer_by_members f i m : Loader.fill_framebuffer f i m = fill_framebuffer_members f i m.
Proof.
  cbv beta delta [fill_framebuffer_members Loader.fill_framebuffer].
  do 2 (lazymatch goal with |- ?G = (let s := ?S in @?B s) => change (G = B S) end; cbv beta).
  do 15 assignment. members. reflexivity.
Qed.


(** ** Registers *)

(** The fields of a register: the mask of each, and the values the headers
    name for it. A field without named values holds any bits of its mask. *)
Definition Field : Type := Z * list Z.
Definition fits (f : Field) (v : Z) : Prop :=
  match f.2 with [] => Z.land v f.1 = v | _ => In v f.2 end.
Definition inside (f : Field) : bool := forallb (fun v => Z.land v f.1 =? v) f.2.
Fixpoint apart (fs : list Field) : bool :=
  match fs with
  | [] => true
  | f :: fs => forallb (fun g => Z.land f.1 g.1 =? 0) fs && apart fs
  end.
Definition fields_ok (fs : list Field) : bool := forallb inside fs && apart fs.
Fixpoint merge (vs : list Z) : Z :=
  match vs with [] => 0 | v :: vs => Z.lor v (merge vs) end.

Lemma fits_inside f v : inside f = true -> fits f v -> Z.land v f.1 = v.
Proof.
  destruct f as [mask vs]. unfold inside, fits. cbn. destruct vs as [|u vs]; [done|].
  intros H Hv. rewrite forallb_forall in H. apply Z.eqb_eq. by apply H.
Qed.

Lemma land_other v m m' : Z.land v m = v -> Z.land m m' = 0 -> Z.land v m' = 0.
Proof. intros <- H. by rewrite <- Z.land_assoc, H, Z.land_0_r. Qed.

Lemma merge_other m fs vs :
  forallb inside fs = true -> Forall2 fits fs vs -> forallb (fun g => Z.land m g.1 =? 0) fs = true ->
  Z.land (merge vs) m = 0.
Proof.
  intros Hi Hv. induction Hv as [|f v fs vs Hf Hv IH]; intros Ha; cbn in *; [apply Z.land_0_l|].
  apply andb_true_iff in Hi as [Hi Hi'], Ha as [Ha Ha']. rewrite Z.land_lor_distr_l, IH, Z.lor_0_r by done.
  apply (land_other _ f.1); [by apply fits_inside|]. rewrite Z.land_comm. by apply Z.eqb_eq.
Qed.

(** Values that fit are told apart again with the masks. *)
Lemma fields_decode fs vs k f v :
  fields_ok fs = true -> Forall2 fits fs vs -> fs !! k = Some f -> vs !! k = Some v -> Z.land (merge vs) f.1 = v.
Proof.
  intros H Hv. apply andb_true_iff in H as [Hi Ha]. revert k. induction Hv as [|g u fs vs Hf Hv IH]; intros k Hk Hk'; [done|].
  cbn in Hi, Ha |- *. apply andb_true_iff in Hi as [Hi Hi'], Ha as [Ha Ha']. rewrite Z.land_lor_distr_l.
  destruct k as [|k]; cbn in Hk, Hk'.
  - simplify_eq. rewrite (merge_other f.1 fs vs), Z.lor_0_r by done. by apply fits_inside.
  - rewrite (IH Hi' Ha' k Hk Hk'). rewrite (land_other u g.1 f.1), Z.lor_0_l; [done|by apply fits_inside|].
    rewrite forallb_forall in Ha. apply Z.eqb_eq, (Ha f). apply list_elem_of_In. by eapply list_elem_of_lookup_2.
Qed.

(** The fields by the names of their masks and values in a table. *)
Definition field (t : list (string * Z)) (d : string * list string) : Field :=
  (default 0 (assoc d.1 t), map (fun n => default 0 (assoc n t)) d.2).
Definition flags (t : list (string * Z)) : list Field := map (fun d => (d.2, [])) t.

Definition LVT_fields : list Field := map (field KernelHeaders.LAPIC_LVT)
  [("LAPIC_LVT_INTR_VECTOR", []);
   ("LAPIC_LVT_DELIVERY_MODE", ["LAPIC_LVT_DELIVERY_FIXED"; "LAPIC_LVT_DELIVERY_SMI"; "LAPIC_LVT_DELIVERY_NMI";
                                "LAPIC_LVT_DELIVERY_INIT"; "LAPIC_LVT_DELIVERY_EXTINT"]);
   ("LAPIC_LVT_DELIVERY_STATUS", ["LAPIC_LVT_DELIVERY_IDLE"; "LAPIC_LVT_DELIVERY_PENDING"]);
   ("LAPIC_LVT_PIN_POLARITY", []); ("LAPIC_LVT_REMOTE_IRR", []); ("LAPIC_LVT_TRIGGER_MODE", []);
   ("LAPIC_LVT_MASKED", []);
   ("LAPIC_LVT_TIMER_MODE", ["LAPIC_LVT_TIMER_MODE_1SHOT"; "LAPIC_LVT_TIMER_MODE_PERIODIC"; "LAPIC_LVT_TIMER_MODE_TSC"])].
Definition ICR_fields : list Field := map (field KernelHeaders.LAPIC_ICR)
  [("LAPIC_ICR_INTR_VECTOR", []);
   ("LAPIC_ICR_DELIVERY_MODE", ["LAPIC_ICR_DELIVERY_FIXED"; "LAPIC_ICR_DELIVERY_LOWPRIO"; "LAPIC_ICR_DELIVERY_SMI";
                                "LAPIC_ICR_DELIVERY_NMI"; "LAPIC_ICR_DELIVERY_INIT"; "LAPIC_ICR_DELIVERY_STARTUP"]);
   ("LAPIC_ICR_DELIVERY_STATUS", ["LAPIC_ICR_DELIVERY_IDLE"; "LAPIC_ICR_DELIVERY_PENDING"]);
   ("LAPIC_ICR_DEST_MODE", []); ("LAPIC_ICR_LEVEL", ["LAPIC_ICR_LEVEL_DEASSERT"; "LAPIC_ICR_LEVEL_ASSERT"]);
   ("LAPIC_ICR_TRIGGER_MODE", ["LAPIC_ICR_TRIGGER_EDGE"; "LAPIC_ICR_TRIGGER_LEVEL"])].
Definition ICR_shorthand : Field := field KernelHeaders.LAPIC_ICR
  ("LAPIC_ICR_DEST_SHORT", ["LAPIC_ICR_DEST_NOSHORT"; "LAPIC_ICR_DEST_SELF"; "LAPIC_ICR_DEST_ALLSELF"; "LAPIC_ICR_DEST_ALLNOSELF"]).
Definition GDT_access_fields : list Field := map (field (KernelHeaders.GDT_ACCESS))
  [("GDT_FLAGS_ACCESSED", []); ("GDT_FLAGS_READWRITE", []); ("GDT_FLAGS_DIRCONFORMING", []); ("GDT_FLAGS_EXECUTABLE", []);
   ("GDT_FLAGS_CODEORDATA", []);
   ("GDT_FLAGS_PRIV_RING3", ["GDT_FLAGS_PRIV_RING0"; "GDT_FLAGS_PRIV_RING1"; "GDT_FLAGS_PRIV_RING2"; "GDT_FLAGS_PRIV_RING3"]);
   ("GDT_FLAGS_PRESENT", [])].

Definition registers : list (list Field) :=
  [LVT_fields; ICR_fields; GDT_access_fields; flags KernelHeaders.CR0_BITS; flags KernelHeaders.CR4_BITS;
   flags KernelHeaders.EFLAGS_BITS].


(** ** The macros for symbols and relocations *)

Lemma st_info_roundtrip b t : 0 <= b -> 0 <= t < 16 ->
  ELF32_ST_BIND (ELF32_ST_INFO b t) = b /\ ELF32_ST_TYPE (ELF32_ST_INFO b t) = t.
Proof.
  intros Hb Ht. unfold ELF32_ST_BIND, ELF32_ST_TYPE, ELF32_ST_INFO. change 0xf with (Z.ones 4).
  rewrite !Z.land_ones, Z.shiftl_mul_pow2, Z.shiftr_div_pow2 by lia. change (2 ^ 4) with 16.
  rewrite (Z.mod_small t) by lia. split; [rewrite Z.div_add_l by lia; rewrite Z.div_small by lia; lia|].
  rewrite Z.add_comm, Z.mod_add by lia. by apply Z.mod_small.
Qed.

(** A symbol's index has 24 bits. *)
Lemma r_info_roundtrip s t : 0 <= s < 16777216 -> 0 <= t < 256 ->
  ELF32_R_SYM (ELF32_R_INFO s t) = s /\ ELF32_R_TYPE (ELF32_R_INFO s t) = t.
Proof.
  intros Hs Ht. unfold ELF32_R_SYM, ELF32_R_TYPE, ELF32_R_INFO.
  rewrite Z.shiftl_mul_pow2, Z.shiftr_div_pow2 by lia. change (2 ^ 8) with 256.
  rewrite (Z.mod_small (s * 256)), (Z.mod_small t), (Z.mod_small (s * 256 + t)) by lia.
  split; [rewrite Z.div_add_l by lia; rewrite Z.div_small by lia; lia|].
  rewrite Z.add_comm, Z.mod_add by lia. by apply Z.mod_small.
Qed.

(** ** Witnesses *)


